(* ===== verification/_CoqProject ===== *)
-Q . S2P
Prelude.v
PyVal.v
Json.v
Tasks.v
Regex.v
MissionTypes.v
Agents.v
MissionStates.v
MissionFlow.v
ProjectIdentity.v
Scaling.v
Store.v
Lifecycle.v
Engines.v
Auth.v
Streams.v
Bus.v
Consumers.v
Guards.v
Access.v
GatewayIntake.v
Gateway.v
Routes.v
Producer.v
AuditWorker.v
Bundles.v
Partitions.v
Pods.v
Reports.v
Text.v
Replies.v
Fields.v
Questions.v
Contracts.v
Delegation.v
Fallbacks.v
Compliance.v
Equivalence.v
Phase.v
Delivery.v
RuntimeQc.v
Gates.v
Charter.v
Aim.v
Port.v
Intake.v
Build.v
V2.v
