(* ===== verification/Prelude.v ===== *)
(** * theFactory: the mission core of the orchestrator

    theFactory turns a prompt into a program by passing a mission through a chain of
    agents.  This development models the part of it that decides what happens to a
    mission and what may travel between the services: the mission state machine and its
    store, the driver that advances a mission and the gates it must pass, the gateway and
    the intake of missions, the Protocol Bus, the workers and what they are handed,
    specialist scaling, agent routing, and the keys and signatures.  Paths below are
    relative to [src/]; [O] stands for [services/orchestrator/orchestrator] and [S] for
    [shared_runtime].

    ** The program

    A client posts a mission to the gateway ([services/api-gateway/api_gateway/main.py]),
    which authenticates the caller, counts the request against a limit, scans and
    normalises the payload, and sends it on under an idempotency key kept in Redis; other
    producers put missions on the intake stream.  The orchestrator takes the provider
    keys out of the metadata ([S/mission_vault.py]), stores the mission as [QUEUED]
    ([O/storage_missions.py]) and starts a lifecycle task.  The engine chosen by the
    settings ([O/lifecycle_interface.py]) walks the table of
    [O/mission_flow_v2/transitions.py]: the v2 driver ([O/mission_flow_v2/lifecycle.py])
    runs a preparer before each transition and moves the mission by a compare-and-swap on
    its state, so that several tasks may drive the same mission.  A large mission is
    divided into partitions and handed out by events; pod workers
    ([services/pod-worker/pod_worker/main.py]) claim missions and partitions and report
    their results to the routes of the orchestrator; the audit worker
    ([services/audit-worker/audit_worker/main.py]) reports on verified missions.  Before
    [COMPLETE] stand the completion check, the audit verdict (sent over the bus and
    consumed), and the equivalence, security, dependency and runtime-QC gates.  After a
    restart [O/lifecycle_recovery.py] starts the missions that were in flight.  Agents
    talk over the Protocol Bus: [protocol_bus/mcp_server.py] checks, deduplicates and
    publishes to Redis streams, [O/protocol_bus_producer.py] sends, and
    [O/protocol_bus_consumer.py] reads.

    ** The files

    - Prelude (here): [result] and [exn] for code that raises, the state-and-exception
      monad [St], tactics, list lemmas.
    - PyVal: Python values ([val], insertion-ordered [dict]), truthiness, [str] and
      [int], string methods.  Json: the interface of [json] with an instance.
    - Tasks: coroutines.  A handler of an asynchronous service is a [task] cut at its
      awaits; [run] runs it alone, [pool_step] interleaves any number, and [ok] is the
      logic in which handlers are shown correct one at a time.
    - MissionTypes: [S/mission_types.py], vocabularies and normalisers.
    - Agents: [S/thefactory_common/taxonomy.py], [O/agent_registry.py], routing of
      [O/mission_flow.py], the tables of [O/port_coordinator.py].
    - MissionStates: the states and tables of [O/models.py] and
      [O/mission_flow_v2/transitions.py].
    - MissionFlow: the chain metadata of [O/mission_flow.py].
    - ProjectIdentity: [O/project_identity.py] and the pure part of
      [S/mission_vault.py].
    - Scaling: [O/agent_scaling.py].
    - Store: [O/storage_missions.py] as atomic actions on a map of rows and an event
      log; the interleavings are the relation [store_step].
    - Lifecycle: [O/mission_flow_v2/lifecycle.py] over the interface [Phases] with its
      contract [QuietPhases].
    - Engines: completion check, chain preparation and routing of [O/runtime.py], the
      legacy engine, engine choice, recovery.
    - Auth: [S/agent_auth.py], [S/agent_keys.py], [S/crypto_keystore.py].
    - Streams: what the services use of Redis, as the classes [Redis] and [Groups] with
      their laws and an instance of each.
    - Bus: [protocol_bus/mcp_server.py] and the helpers of [S/protocol.py].
    - Consumers: [O/protocol_bus_consumer.py], the intake loop of [O/runtime.py] and the
      envelope parsing of [O/protocol.py].
    - Guards: [S/pii_guard.py] and [S/prompt_guard.py] over a matcher of regular
      expressions.
    - Access: start-up checks, key roles, tokens and guards of the gateway and of the
      orchestrator ([O/auth.py], [O/settings.py]).
    - GatewayIntake: what the gateway makes of a creation request.  Gateway: the request
      itself as a coroutine over Redis and the orchestrator, and the rate limit.
    - Routes: the handlers of [O/routes/missions.py], [O/routes/internal.py] and
      [O/main.py] that write missions, as coroutines over Store.
    - Producer: [O/protocol_bus_producer.py] and the sender of the audit verdict.
    - AuditWorker: the audit worker.
    - Bundles: the text format of source trees, wherever it is read or written.
    - Partitions: how a scaled mission is handed out and what a worker makes of its part.
    - Pods: the assignment table, the pod worker's handlers and its loop.
    - Regex: a backtracking matcher for the operators of [re] that the scanners use, and
      the languages it decides.  Reports: what the reports share.
    - Text, Replies, Fields, Questions: [O/llm_delegation/text.py]; how text is cleaned,
      where in a model's answer the decision is, how its fields are normalised, and what
      is asked of the operator.  Contracts, Delegation: the [normalizers.py],
      [generators.py] and [fallbacks.py] beside it, from a model's answer to contracts,
      delegations, clusters, plans and code.  Fallbacks: what the gates report when no
      model answers.
    - Compliance:
      [O/security_compliance.py].  Equivalence: [O/equivalence_verifier.py].
    - Phase: the phases of the v2 driver as coroutines over Store, whose other calls go to
      an arbitrary outside; [wp] for what a run leaves behind.  Delivery:
      [O/mission_flow_v2/phases_delivery.py].  RuntimeQc: dependency absorption, runtime QC
      with its repairs ([O/rqca_repair.py]) and packaging of the other phase files.
      Gates: the driver of Lifecycle with these phases for its gates.
    - Charter: the mission charter and its schema check ([O/mission_flow_v2/base.py]).
      Aim: [O/aim_generator.py].  Port: [O/port_coordinator.py].  Intake:
      [O/mission_flow_v2/phases_intake.py].  Build: [O/mission_flow_v2/phases_build.py],
      fusion and deploy readiness.  V2: the driver of Lifecycle with all of these for its
      phases, nothing assumed of them, and a run of it from [QUEUED] to [COMPLETE].

    A definition has the name of the function it translates; where a function is split,
    the parts are named after what they do and the manifest gives their lines.

    ** What the theorems show

    - The state machine (MissionStates, Store, Lifecycle, Engines).  The v2 table is one
      path; racing compare-and-swaps have one winner; under every interleaving the event
      log of a mission is an unbroken chain from [INTAKE] to its state and an audit
      verdict is never lost; every run of the driver follows the table and completes a
      mission only after all gates passed at a moment when it was [VERIFIED]; passed
      stages are not redone; when everything agrees one run reaches [COMPLETE]; recovery
      picks the states in which the driver has work, and starts each mission once.
    - The services around the store (Routes, Producer, Partitions, Pods, AuditWorker).
      Interleaved routes refine sequences of store actions; a verdict sent by the
      producer passes the bus and the consumer and decides the completion gate; partitions
      divide a bundle and are handed out once; pods do not share a mission; audit events
      follow accepted reports; entries are accounted for.  Where the code falls short the
      theorem says so: writes of stale metadata lose results, a re-posted mission starts
      over, a second pod works on a claimed mission, failed entries are not retried.
    - The gates (Compliance, Equivalence, Delivery, RuntimeQc, Gates).  Each report blocks
      exactly on declaratively stated defects; repairs are bounded whatever the sandbox and
      the model answer; the answer of runtime QC has grounds; a mission is completed only
      after its code, as it then was, passed.  What is repaired afterwards is neither
      scanned nor packaged again, and a pause for spending does not last.
    - The phases (Charter, Aim, Port, Intake, Build, V2).  Whatever the models answer: the
      PM intake agrees only with an unambiguous contract and an accepted charter in the
      store, and does not hold a mission for ever; a pod assignment gives the mission the
      manager of its language; code is asked for once; outcomes are restated; a pod's
      standard is produced once; the phases are quiet, so the driver's theorems hold of
      the driver as it is.  Where the code falls short: a port is never generated, its
      source yields nothing, the deployment assessment is overwritten, and the mode of a
      posted mission is not looked at.
    - What models answer (Text, Replies, Fields, Questions, Contracts, Delegation,
      Fallbacks).  Cleaned text has no addresses or keys left; a prompt's context is
      confined to ten fields; the objects found in an answer are the balanced ones and the
      decision is the last that fits; a contract is ready only when the model said so and
      its grounding is clean; clusters and delegations name known agents only;
      consolidation keeps every source; a gate without a model never passes.  Where the
      code falls short: finalising a plan overrides the screening of its grounding, a
      blank file name takes the fallback unsanitised, and criteria an operator approved
      can be pushed out by a model's.
    - Entry (Consumers, Guards, Access, GatewayIntake, Gateway).  One mission per
      idempotency key under every interleaving and failure; the rate limit is exact; who
      is let in; what an accepted payload looks like.  Every intake entry is settled or
      left as it was; redelivery changes nothing; the loop drains its backlog; an entry
      of the wrong shape blocks it.
    - The bus (Bus, Consumers).  A message is published only after every check and then
      once, in exactly the resolved channels; one publication per correlation id; what
      backpressure does to a retry; how dead letters are paged; what a pass of a lane
      acknowledges, and that the consumer-group lane takes no new entry.
    - Data (MissionTypes, Agents, MissionFlow, ProjectIdentity, Scaling, Bundles).
      Unknown vocabulary is refused and never downgraded; routing is closed over the
      registry and agrees with the taxonomy; metadata has a normal form; provider keys
      stay out of what is persisted; work is dealt evenly and merged in order; bundles
      are printed and parsed back; sanitised paths stay inside their directory.
    - Keys (Auth).  Signatures bind agent, time and payload; the signing key survives
      the store; a production start has strong dedicated keys.

    The properties of the manifest are the numbered ones; the other theorems are kept as
    lemmas beside them.

    ** Bounds of the model

    Text is ASCII and JSON numbers are integers; spending is in whole units, and the
    rounded rates of a report are a parameter.  Clocks, UUIDs, JSON encoding and
    parsing, HMAC, key material, the JSON Schema check and time-stamp parsing are
    parameters.  Ambiguity scores are counted in hundredths and ratios in ten-thousandths,
    rounded as the code rounds them.  A database action is atomic and does not lose its
    connection, except that the intake loop may find the database down.  Redis keys do not expire within the
    span of a theorem, which is the window the code speaks of.  Metrics, logs, traces and
    the emission of state and audit events, whose failures the code swallows, are left
    out.  No recursion needs fuel: loops are over lists or attempts, and endless loops
    are modelled pass by pass with the number of passes a parameter of the theorem.

    ** Not modelled

    Language models, their providers, prompts and costs, and so what a phase is answered:
    the theorems hold for every answer.  The phases take the normalised answer of a
    generator from the outside; what the generators make of a model's text is modelled
    beside them and not composed with them.  The LangGraph engine, verification by execution, language
    extraction, the sandbox, the vector, graph and object stores, heartbeats, the project
    bus, estimates of work, the read routes, start-up and the user interfaces are glue
    around libraries and containers, or keep state that no mission depends on; the
    manifest lists each with its reason. *)

From Stdlib Require Export Ascii String ZArith Lia.
From stdpp Require Export base tactics decidable numbers list gmap strings pretty relations sorting.

#[export] Set Default Goal Selector "!".

Declare Scope factory_scope.
Delimit Scope factory_scope with factory.
Open Scope string_scope.
Open Scope list_scope.
Open Scope Z_scope.

(** ** Exceptions and results *)

(** The exception classes the modelled code raises.  [HTTPException] carries
    the status code; [OtherError] is any exception outside the classes the
    handlers of the code distinguish. *)
Inductive exn :=
| ValueError
| TypeError
| KeyError
| AttributeError
| RuntimeError
| OSError
| ProtocolValidationError
| ReplayDetectedError
| UnknownMissionTypeError
| HTTPException (status : Z)
| OtherError.

#[export] Instance exn_eq_dec : EqDecision exn.
Proof. solve_decision. Defined.

(** The outcome of a Python call: a value, or a raised exception. *)
Inductive result (A : Type) :=
| Ok (a : A)
| Raise (e : exn).
Arguments Ok {A} a.
Arguments Raise {A} e.

#[export] Instance result_eq_dec {A} `{EqDecision A} : EqDecision (result A).
Proof. solve_decision. Defined.

#[export] Instance result_ret : MRet result := fun A a => Ok a.
#[export] Instance result_bind : MBind result :=
  fun A B f m => match m with Ok a => f a | Raise e => Raise e end.
#[export] Instance result_fmap : FMap result :=
  fun A B f m => match m with Ok a => Ok (f a) | Raise e => Raise e end.

Definition is_ok {A} (r : result A) : bool :=
  match r with Ok _ => true | Raise _ => false end.

Lemma result_bind_Ok {A B} (f : A -> result B) (m : result A) (b : B) :
  (m ≫= f) = Ok b <-> exists a, m = Ok a /\ f a = Ok b.
Proof.
  destruct m as [a|e]; simpl; split.
  - eauto.
  - by intros (a' & [= ->] & ?).
  - done.
  - by intros (a' & ? & ?).
Qed.

Lemma result_bind_Raise {A B} (f : A -> result B) (m : result A) (e : exn) :
  (m ≫= f) = Raise e <-> m = Raise e \/ exists a, m = Ok a /\ f a = Raise e.
Proof. destruct m as [a|e']; simpl; naive_solver. Qed.

(** ** Actions

    Code that acts on a state of type [S] (a database, a key-value store) and may
    raise: the outcome of the call and the state after it. *)

Definition St (S A : Type) : Type := S -> result A * S.

#[export] Instance St_ret {S} : MRet (St S) := fun A a s => (Ok a, s).
#[export] Instance St_bind {S} : MBind (St S) := fun A B f m s =>
  match m s with
  | (Ok a, s') => f a s'
  | (Raise e, s') => (Raise e, s')
  end.

Definition raise {S A} (e : exn) : St S A := fun s => (Raise e, s).

Definition lift {S A} (r : result A) : St S A := fun s => (r, s).

(** [try: m except Exception: fallback] *)
Definition try_except {S A} (m : St S A) (fallback : A) : St S A := fun s =>
  match m s with
  | (Ok a, s') => (Ok a, s')
  | (Raise _, s') => (Ok fallback, s')
  end.

(** [try: m except Exception as exc: handler] *)
Definition on_error {S A} (m : St S A) (handler : exn -> St S A) : St S A := fun s =>
  match m s with
  | (Ok a, s') => (Ok a, s')
  | (Raise e, s') => handler e s'
  end.

Lemma St_bind_Ok {S A B} (m : St S A) (f : A -> St S B) s b s' :
  (m ≫= f) s = (Ok b, s') <-> exists a s1, m s = (Ok a, s1) /\ f a s1 = (Ok b, s').
Proof.
  unfold mbind, St_bind. destruct (m s) as [[a|e] s1]; split.
  - eauto.
  - by intros (a' & s1' & [= -> ->] & ?).
  - done.
  - by intros (a' & s1' & ? & ?).
Qed.

(** ** Tactics *)

(** Case analysis on the innermost [match] of the goal or of a hypothesis. *)
Ltac break_match :=
  match goal with
  | |- context [match ?x with _ => _ end] =>
      lazymatch x with
      | context [match _ with _ => _ end] => fail
      | _ => destruct x eqn:?
      end
  | H : context [match ?x with _ => _ end] |- _ =>
      lazymatch x with
      | context [match _ with _ => _ end] => fail
      | _ => destruct x eqn:?
      end
  end.

(** Case analysis until the goal is closed by congruence or arithmetic. *)
Ltac break_all :=
  repeat (break_match; simplify_eq/=; try congruence; try lia; try done).

(** Decide a closed goal by evaluation. *)
Ltac by_compute := vm_compute; reflexivity.

Create HintDb factory discriminated.
#[export] Hint Resolve result_bind_Ok : factory.

(** ** Booleans *)

Lemma bool_decide_eqb (x y : string) : String.eqb x y = bool_decide (x = y).
Proof.
  destruct (String.eqb_spec x y) as [->|Hne].
  - by rewrite bool_decide_true.
  - by rewrite bool_decide_false.
Qed.

(** ** Lists *)

(** Membership test used for Python's [x in (a, b, c)] on strings. *)
Definition str_in (x : string) (l : list string) : bool :=
  existsb (String.eqb x) l.

Lemma str_in_spec x l : str_in x l = true <-> x ∈ l.
Proof.
  unfold str_in. rewrite existsb_exists. split.
  - intros (y & Hin & ->%String.eqb_eq). by apply list_elem_of_In.
  - intros Hin. exists x. rewrite String.eqb_refl. by split; [apply list_elem_of_In|].
Qed.

Lemma str_in_false x l : str_in x l = false <-> x ∉ l.
Proof.
  rewrite <- str_in_spec. by destruct (str_in x l).
Qed.

(** [dropwhile] on lists, for [str.strip]. *)
Fixpoint dropwhile {A} (p : A -> bool) (l : list A) : list A :=
  match l with
  | [] => []
  | x :: l' => if p x then dropwhile p l' else l
  end.

Lemma dropwhile_suffix {A} (p : A -> bool) l : exists k, l = k ++ dropwhile p l.
Proof.
  induction l as [|x l [k Hk]]; [by exists []|]. simpl. destruct (p x).
  - exists (x :: k). by rewrite Hk at 1.
  - by exists [].
Qed.

Lemma dropwhile_idemp {A} (p : A -> bool) l :
  dropwhile p (dropwhile p l) = dropwhile p l.
Proof.
  induction l as [|x l IH]; [done|]. simpl.
  destruct (p x) eqn:E; [done|]. simpl. by rewrite E.
Qed.

Lemma dropwhile_head {A} (p : A -> bool) l x l' :
  dropwhile p l = x :: l' -> p x = false.
Proof.
  induction l as [|y l IH]; simpl; [done|].
  destruct (p y) eqn:E; [auto|]. congruence.
Qed.

Lemma dropwhile_Forall {A} (p : A -> bool) (P : A -> Prop) l :
  Forall P l -> Forall P (dropwhile p l).
Proof.
  induction 1 as [|x l Hx Hl IH]; simpl; [done|]. destruct (p x); auto.
Qed.

(** Keep the first index at which a predicate holds, as [next(enumerate ..)]. *)
Fixpoint find_index {A} (p : A -> bool) (l : list A) : option nat :=
  match l with
  | [] => None
  | x :: l' => if p x then Some O else S <$> find_index p l'
  end.

Lemma find_index_Some {A} (p : A -> bool) l i :
  find_index p l = Some i ->
  exists x, l !! i = Some x /\ p x = true /\
    forall j y, (j < i)%nat -> l !! j = Some y -> p y = false.
Proof.
  revert i. induction l as [|x l IH]; intros i Hi; simpl in Hi; [done|].
  destruct (p x) eqn:E.
  - injection Hi as <-. exists x. split_and!; [done..|]. intros j y Hj _. lia.
  - destruct (find_index p l) as [k|] eqn:Ek; simpl in Hi; [|done].
    injection Hi as <-. destruct (IH k eq_refl) as (y & Hy & Hpy & Hlt).
    exists y. split_and!; [done..|]. intros [|j] z Hj Hz; simpl in Hz.
    + by injection Hz as <-.
    + eapply Hlt; [|done]. lia.
Qed.

(** ** Sorting

    Python's [sorted] is stable: insertion sort by a boolean order. *)

Section sort_by.
Context {A : Type} (le : A -> A -> bool).

Fixpoint insert_by (x : A) (l : list A) : list A :=
  match l with
  | [] => [x]
  | y :: l' => if le x y then x :: l else y :: insert_by x l'
  end.

Definition sort_by (l : list A) : list A := foldr insert_by [] l.

Lemma insert_by_perm x l : insert_by x l ≡ₚ x :: l.
Proof.
  induction l as [|y l IH]; simpl; [done|]. destruct (le x y); [done|].
  rewrite IH. apply Permutation_swap.
Qed.

Lemma sort_by_perm l : sort_by l ≡ₚ l.
Proof. induction l as [|x l IH]; simpl; [done|]. by rewrite insert_by_perm, IH. Qed.

Lemma sort_by_elem x l : x ∈ sort_by l <-> x ∈ l.
Proof. by rewrite sort_by_perm. Qed.

Hypothesis le_total : forall x y, le x y = true \/ le y x = true.
Hypothesis le_trans : forall x y z, le x y = true -> le y z = true -> le x z = true.

Lemma insert_by_sorted x l :
  StronglySorted (fun a b => le a b = true) l ->
  StronglySorted (fun a b => le a b = true) (insert_by x l).
Proof.
  induction 1 as [|y l Hs IH Hy]; simpl; [by repeat constructor|].
  destruct (le x y) eqn:E.
  - constructor; [by constructor|]. constructor; [done|].
    eapply Forall_impl; [exact Hy|]. intros z. by apply le_trans.
  - constructor; [done|]. rewrite insert_by_perm. constructor; [|done].
    by destruct (le_total x y); [congruence|].
Qed.

Lemma sort_by_sorted l : StronglySorted (fun a b => le a b = true) (sort_by l).
Proof. induction l as [|x l IH]; simpl; [constructor|by apply insert_by_sorted]. Qed.
End sort_by.
