(* ===== verification/PyVal.v ===== *)
(** * PyVal

    The Python values the components exchange (JSON documents held in
    [dict]s): the value type, truthiness and [or], [str()] and [int()],
    insertion-ordered dictionaries, and the [str] methods the code calls.

    Bounds of this model of the language: text is ASCII, so the case mappings
    and the whitespace class are the ASCII ones; JSON numbers are integers. *)

From S2P Require Import Prelude.

(** ** Characters and strings *)

Definition code (a : ascii) : Z := Z.of_N (N_of_ascii a).

(** The ASCII characters [str.strip()] removes: the separators 0x1c-0x1f, tab
    to carriage return, and the space. *)
Definition is_space (a : ascii) : bool :=
  let n := code a in
  ((9 <=? n) && (n <=? 13)) || ((28 <=? n) && (n <=? 32)).

Definition is_upper (a : ascii) : bool := (65 <=? code a) && (code a <=? 90).
Definition is_lower (a : ascii) : bool := (97 <=? code a) && (code a <=? 122).
Definition is_digit (a : ascii) : bool := (48 <=? code a) && (code a <=? 57).
Definition is_alpha (a : ascii) : bool := is_upper a || is_lower a.
Definition is_alnum (a : ascii) : bool := is_alpha a || is_digit a.

Definition ascii_lower (a : ascii) : ascii :=
  if is_upper a then ascii_of_N (N_of_ascii a + 32) else a.
Definition ascii_upper (a : ascii) : ascii :=
  if is_lower a then ascii_of_N (N_of_ascii a - 32) else a.

Definition chars (s : string) : list ascii := String.list_ascii_of_string s.
Definition unchars (l : list ascii) : string := String.string_of_list_ascii l.

Definition str_lower (s : string) : string := unchars (ascii_lower <$> chars s).
Definition str_upper (s : string) : string := unchars (ascii_upper <$> chars s).

(** [str.lstrip] and [str.strip] with the class of characters to drop. *)
Definition strip_with (p : ascii -> bool) (s : string) : string :=
  unchars (rev (dropwhile p (rev (dropwhile p (chars s))))).
Definition str_strip (s : string) : string := strip_with is_space s.

(** [text.rstrip(c)] *)
Definition rstrip_char (c : ascii) (s : string) : string :=
  unchars (rev (dropwhile (Ascii.eqb c) (rev (chars s)))).

(** [s.replace(a, b)] for single characters. *)
Definition str_replace (a b : ascii) (s : string) : string :=
  unchars ((fun c => if Ascii.eqb c a then b else c) <$> chars s).

Definition startswith (p s : string) : bool := String.prefix p s.

(** [needle in s]. *)
Fixpoint str_contains (needle s : string) : bool :=
  String.prefix needle s ||
  match s with EmptyString => false | String _ s' => str_contains needle s' end.

(** [s[n:]]. *)
Fixpoint str_drop (n : nat) (s : string) : string :=
  match n, s with
  | O, _ => s
  | S n', String _ s' => str_drop n' s'
  | S _, EmptyString => EmptyString
  end.

(** [s[:n]]. *)
Fixpoint str_take (n : nat) (s : string) : string :=
  match n, s with
  | S n', String a s' => String a (str_take n' s')
  | _, _ => EmptyString
  end.

(** [s.split(sep, 1)] when the separator occurs. *)
Fixpoint split_once (sep : ascii) (s : string) : option (string * string) :=
  match s with
  | EmptyString => None
  | String a s' =>
      if Ascii.eqb a sep then Some (EmptyString, s')
      else '(x, y) ← split_once sep s'; Some (String a x, y)
  end.

(** [s.split(sep)]. *)
Fixpoint split_all (sep : ascii) (s : string) : list string :=
  match s with
  | EmptyString => [EmptyString]
  | String a s' =>
      if Ascii.eqb a sep then EmptyString :: split_all sep s'
      else match split_all sep s' with
           | x :: xs => String a x :: xs
           | [] => [String a EmptyString]
           end
  end.

(** [sep.join(l)]. *)
Fixpoint str_join (sep : string) (l : list string) : string :=
  match l with
  | [] => EmptyString
  | [x] => x
  | x :: l' => x +:+ sep +:+ str_join sep l'
  end.

Lemma chars_unchars l : chars (unchars l) = l.
Proof. apply String.list_ascii_of_string_of_list_ascii. Qed.

Lemma unchars_chars s : unchars (chars s) = s.
Proof. apply String.string_of_list_ascii_of_string. Qed.

Lemma chars_app s t : chars (s +:+ t) = chars s ++ chars t.
Proof. induction s as [|a s IH]; simpl; [done|]. by f_equal. Qed.

Lemma chars_length s : length (chars s) = String.length s.
Proof. induction s as [|a s IH]; simpl; [done|]. by f_equal. Qed.

Lemma unchars_length l : String.length (unchars l) = length l.
Proof. by rewrite <- chars_length, chars_unchars. Qed.

Lemma unchars_empty l : unchars l = EmptyString <-> l = [].
Proof. by destruct l. Qed.

(** A character-wise mapping is empty only on the empty string. *)
Lemma str_map_empty (f : ascii -> ascii) s : unchars (f <$> chars s) = "" <-> s = "".
Proof. by destruct s. Qed.

Lemma ascii_lower_idemp a : ascii_lower (ascii_lower a) = ascii_lower a.
Proof. by destruct a as [[] [] [] [] [] [] [] []]. Qed.

Lemma ascii_upper_idemp a : ascii_upper (ascii_upper a) = ascii_upper a.
Proof. by destruct a as [[] [] [] [] [] [] [] []]. Qed.

Lemma is_space_upper a : is_space (ascii_upper a) = is_space a.
Proof. by destruct a as [[] [] [] [] [] [] [] []]. Qed.

Lemma is_space_lower a : is_space (ascii_lower a) = is_space a.
Proof. by destruct a as [[] [] [] [] [] [] [] []]. Qed.

Lemma str_lower_idemp s : str_lower (str_lower s) = str_lower s.
Proof.
  unfold str_lower. rewrite chars_unchars, <- list_fmap_compose. f_equal.
  apply list_fmap_ext. intros i a _. apply ascii_lower_idemp.
Qed.

Lemma str_upper_idemp s : str_upper (str_upper s) = str_upper s.
Proof.
  unfold str_upper. rewrite chars_unchars, <- list_fmap_compose. f_equal.
  apply list_fmap_ext. intros i a _. apply ascii_upper_idemp.
Qed.

(** What is left after dropping at both ends has no droppable character at
    either end, so stripping again changes nothing. *)
Lemma dropwhile_rev_fix {A} (p : A -> bool) (l : list A) :
  dropwhile p l = l ->
  dropwhile p (rev (dropwhile p (rev l))) = rev (dropwhile p (rev l)).
Proof.
  intros Hl. destruct (dropwhile_suffix p (rev l)) as [k Hk].
  set (m := dropwhile p (rev l)) in *.
  assert (l = rev m ++ rev k) as El.
  { by rewrite <- rev_app_distr, <- Hk, rev_involutive. }
  destruct (rev m) as [|x r] eqn:Er; [done|].
  rewrite El in Hl. simpl in *. destruct (p x) eqn:Ep; [|done].
  exfalso. assert (forall l' : list A, (length (dropwhile p l') <= length l')%nat) as Hle.
  { induction l' as [|y l' IH]; simpl; [lia|]. destruct (p y); simpl; lia. }
  specialize (Hle (r ++ rev k)). apply (f_equal length) in Hl. simpl in Hl. lia.
Qed.

Lemma strip_with_idemp p s : strip_with p (strip_with p s) = strip_with p s.
Proof.
  unfold strip_with. rewrite chars_unchars. f_equal.
  set (l := dropwhile p (chars s)).
  rewrite (dropwhile_rev_fix p l (dropwhile_idemp p (chars s))).
  rewrite rev_involutive. by rewrite dropwhile_idemp.
Qed.

Lemma str_strip_idemp s : str_strip (str_strip s) = str_strip s.
Proof. apply strip_with_idemp. Qed.

Lemma dropwhile_fmap {A} (p : A -> bool) (f : A -> A) l :
  (forall a, p (f a) = p a) -> dropwhile p (f <$> l) = f <$> dropwhile p l.
Proof.
  intros Hpf. induction l as [|x l IH]; simpl; [done|].
  rewrite Hpf. by destruct (p x).
Qed.

Lemma rev_fmap {A} (f : A -> A) l : rev (f <$> l) = f <$> rev l.
Proof. symmetry. apply (List.map_rev f). Qed.

Lemma strip_with_fmap p f s :
  (forall a, p (f a) = p a) ->
  strip_with p (unchars (f <$> chars s)) = unchars (f <$> chars (strip_with p s)).
Proof.
  intros Hpf. unfold strip_with. rewrite !chars_unchars.
  by rewrite dropwhile_fmap, rev_fmap, dropwhile_fmap, rev_fmap by done.
Qed.

Lemma str_strip_upper s : str_strip (str_upper s) = str_upper (str_strip s).
Proof. apply strip_with_fmap, is_space_upper. Qed.

Lemma str_strip_lower s : str_strip (str_lower s) = str_lower (str_strip s).
Proof. apply strip_with_fmap, is_space_lower. Qed.

Create Rewrite HintDb pystr.
#[export] Hint Rewrite str_lower_idemp str_upper_idemp str_strip_idemp
  str_strip_upper str_strip_lower chars_unchars unchars_chars : pystr.

(** ** Values *)

Unset Elimination Schemes.
Inductive val :=
| VNone
| VBool (b : bool)
| VInt (z : Z)
| VStr (s : string)
| VList (l : list val)
| VDict (d : list (string * val)).
Set Elimination Schemes.

(** A dictionary in insertion order; [dict_wf] states that keys are distinct. *)
Abbreviation dict := (list (string * val)).

Section val_ind.
Variable P : val -> Prop.
Hypothesis HNone : P VNone.
Hypothesis HBool : forall b, P (VBool b).
Hypothesis HInt : forall z, P (VInt z).
Hypothesis HStr : forall s, P (VStr s).
Hypothesis HList : forall l, Forall P l -> P (VList l).
Hypothesis HDict : forall d : dict, Forall (fun kv => P kv.2) d -> P (VDict d).

(** Structural induction through the nested lists. *)
Fixpoint val_nested_ind (v : val) : P v :=
  match v with
  | VNone => HNone
  | VBool b => HBool b
  | VInt z => HInt z
  | VStr s => HStr s
  | VList l =>
      HList l ((fix go l : Forall P l :=
        match l with
        | [] => List.Forall_nil _
        | x :: l' => List.Forall_cons _ _ _ (val_nested_ind x) (go l')
        end) l)
  | VDict d =>
      HDict d ((fix go d : Forall (fun kv => P kv.2) d :=
        match d with
        | [] => List.Forall_nil _
        | (k, x) :: d' => List.Forall_cons _ (k, x) _ (val_nested_ind x) (go d')
        end) d)
  end.
End val_ind.

Fixpoint val_eq_dec_aux (v w : val) : {v = w} + {v <> w}.
Proof.
  refine (match v, w with
  | VNone, VNone => left eq_refl
  | VBool a, VBool b => match decide (a = b) with left e => left (f_equal VBool e) | right n => right _ end
  | VInt a, VInt b => match decide (a = b) with left e => left (f_equal VInt e) | right n => right _ end
  | VStr a, VStr b => match decide (a = b) with left e => left (f_equal VStr e) | right n => right _ end
  | VList a, VList b =>
      match List.list_eq_dec val_eq_dec_aux a b with
      | left e => left (f_equal VList e) | right n => right _ end
  | VDict a, VDict b =>
      match List.list_eq_dec
        (fun x y : string * val =>
           match x, y with
           | (k1, w1), (k2, w2) =>
             match decide (k1 = k2), val_eq_dec_aux w1 w2 with
             | left e1, left e2 => left (f_equal2 pair e1 e2)
             | right n, _ => right _
             | _, right n => right _
             end
           end) a b with
      | left e => left (f_equal VDict e) | right n => right _ end
  | _, _ => right _
  end); abstract congruence.
Defined.
#[export] Instance val_eq_dec : EqDecision val := val_eq_dec_aux.

(** Python truth value. *)
Definition truthy (v : val) : bool :=
  match v with
  | VNone => false
  | VBool b => b
  | VInt z => negb (z =? 0)
  | VStr s => negb (String.eqb s "")
  | VList l => match l with [] => false | _ => true end
  | VDict d => match d with [] => false | _ => true end
  end.

(** [a or b]. *)
Definition py_or (a b : val) : val := if truthy a then a else b.

(** [a or b] on strings. *)
Definition str_or (a b : string) : string := if String.eqb a "" then b else a.

Definition as_str (v : val) : option string := match v with VStr s => Some s | _ => None end.
Definition as_dict (v : val) : option dict := match v with VDict d => Some d | _ => None end.
Definition as_list (v : val) : option (list val) := match v with VList l => Some l | _ => None end.
Definition is_dict (v : val) : bool := match v with VDict _ => true | _ => false end.

(** [x if isinstance(x, dict) else {}]. *)
Definition dict_value (v : val) : dict := default [] (as_dict v).

Lemma dict_value_VDict d : dict_value (VDict d) = d.
Proof. done. Qed.

Lemma py_or_truthy a b : truthy a = true -> py_or a b = a.
Proof. unfold py_or. by intros ->. Qed.

Lemma py_or_falsy a b : truthy a = false -> py_or a b = b.
Proof. unfold py_or. by intros ->. Qed.

(** ** [str()] and [repr()] *)

Definition quote : ascii := "'"%char.
Definition dquote : ascii := ascii_of_N 34.

Definition hex_digit (n : N) : ascii :=
  if (n <? 10)%N then ascii_of_N (48 + n) else ascii_of_N (87 + n).

(** One character of a string literal delimited by [q]. *)
Definition repr_char (q a : ascii) : list ascii :=
  let n := code a in
  if Ascii.eqb a q || (n =? 92) then ["\"%char; a]
  else if n =? 9 then ["\"%char; "t"%char]
  else if n =? 10 then ["\"%char; "n"%char]
  else if n =? 13 then ["\"%char; "r"%char]
  else if (n <? 32) || (127 <=? n) then
    ["\"%char; "x"%char; hex_digit (N.div (N_of_ascii a) 16); hex_digit (N.modulo (N_of_ascii a) 16)]
  else [a].

Definition str_repr (s : string) : string :=
  let cs := chars s in
  let q := if existsb (Ascii.eqb quote) cs && negb (existsb (Ascii.eqb dquote) cs)
           then dquote else quote in
  unchars (q :: concat (repr_char q <$> cs) ++ [q]).

Fixpoint py_repr (v : val) : string :=
  match v with
  | VNone => "None"
  | VBool b => if b then "True" else "False"
  | VInt z => pretty z
  | VStr s => str_repr s
  | VList l => "[" +:+ str_join ", " (List.map py_repr l) +:+ "]"
  | VDict d =>
      "{" +:+ str_join ", " (List.map (fun '(k, x) => str_repr k +:+ ": " +:+ py_repr x) d) +:+ "}"
  end.

Definition py_str (v : val) : string :=
  match v with VStr s => s | _ => py_repr v end.

(** ** [int()] *)

(** Decimal digits with single underscores between them, as [int(str)] reads. *)
Fixpoint read_digits (acc : Z) (prev_digit : bool) (l : list ascii) : option Z :=
  match l with
  | [] => if prev_digit then Some acc else None
  | a :: l' =>
      if is_digit a then read_digits (10 * acc + (code a - 48)) true l'
      else if Ascii.eqb a "_" && prev_digit then read_digits acc false l'
      else None
  end.

Definition int_of_str (s : string) : result Z :=
  let r := match chars (str_strip s) with
           | a :: l => if Ascii.eqb a "-" then Z.opp <$> read_digits 0 false l
                       else if Ascii.eqb a "+" then read_digits 0 false l
                       else read_digits 0 false (a :: l)
           | [] => None
           end in
  match r with Some z => Ok z | None => Raise ValueError end.

(** *** Printing and reading numbers *)

Lemma pretty_N_char_digit x : is_digit (pretty_N_char x) = true.
Proof. unfold pretty_N_char. by repeat case_match. Qed.

Lemma pretty_N_char_code x : (x < 10)%N -> code (pretty_N_char x) = Z.of_N x + 48.
Proof.
  intros H. assert (x = 0 \/ x = 1 \/ x = 2 \/ x = 3 \/ x = 4 \/ x = 5 \/ x = 6 \/ x = 7 \/ x = 8 \/ x = 9)%N
    as Hx by lia. by repeat (destruct Hx as [-> |Hx]); [..|subst].
Qed.

Lemma pretty_N_go_digits x s :
  Forall (fun a => is_digit a = true) (chars s) -> Forall (fun a => is_digit a = true) (chars (pretty_N_go x s)).
Proof.
  revert s. induction (N.lt_wf_0 x) as [x _ IH]; intros s Hs.
  destruct (decide (x = 0)%N) as [->|Hx]; [by rewrite pretty_N_go_0|].
  rewrite pretty_N_go_step by lia. apply IH; [apply N.div_lt; lia|].
  cbn. constructor; [apply pretty_N_char_digit|done].
Qed.

Lemma read_digits_go x s b :
  read_digits 0 b (chars (pretty_N_go x s)) =
  read_digits (Z.of_N x) (b || negb (x =? 0)%N) (chars s).
Proof.
  revert s. induction (N.lt_wf_0 x) as [x _ IH]; intros s.
  destruct (decide (x = 0)%N) as [->|Hx]; [by rewrite pretty_N_go_0, orb_false_r|].
  rewrite pretty_N_go_step by lia. rewrite IH by (apply N.div_lt; lia).
  cbn [chars String.list_ascii_of_string read_digits]. rewrite pretty_N_char_digit.
  rewrite pretty_N_char_code by (apply N.mod_lt; lia).
  rewrite (proj2 (N.eqb_neq x 0) Hx), orb_true_r. cbn [negb].
  f_equal. pose proof (N.div_mod x 10 ltac:(lia)). lia.
Qed.

(** The decimal text of a natural number: nonempty, all digits. *)
Lemma pretty_nat_digits z :
  0 <= z -> Forall (fun a => is_digit a = true) (chars (pretty z)) /\ pretty z <> "" /\
  read_digits 0 false (chars (pretty z)) = Some z.
Proof.
  intros Hz. destruct z as [|p|p]; [|clear Hz|lia].
  - cbn. split; [repeat constructor|done].
  - change (pretty (Z.pos p)) with (pretty (N.pos p)). unfold pretty, pretty_N. rewrite decide_False by lia.
    pose proof (read_digits_go (N.pos p) "" false) as H. cbn [orb negb chars String.list_ascii_of_string] in H.
    split; [by apply pretty_N_go_digits; constructor|]. split; [|exact H].
    intros E. rewrite E in H. discriminate.
Qed.

Lemma dropwhile_head_false {A} (p : A -> bool) l :
  (forall a, List.In a l -> p a = false) -> dropwhile p l = l.
Proof. destruct l as [|a l]; intros H; simpl; [done|]. by rewrite (H a ltac:(by left)). Qed.

(** A text without white space is its own strip. *)
Lemma str_strip_none s : (forall a, List.In a (chars s) -> is_space a = false) -> str_strip s = s.
Proof.
  intros H. unfold str_strip, strip_with. rewrite (dropwhile_head_false is_space (chars s)) by done.
  rewrite dropwhile_head_false by (intros a Ha; apply H; by apply in_rev).
  by rewrite rev_involutive, unchars_chars.
Qed.

Lemma digit_not_space a : is_digit a = true -> is_space a = false.
Proof. unfold is_digit, is_space. intros H%andb_true_iff. lia. Qed.

(** Reading back the decimal text of a natural number. *)
Lemma int_of_str_pretty z : 0 <= z -> int_of_str (pretty z) = Ok z.
Proof.
  intros Hz. destruct (pretty_nat_digits z Hz) as (Hd & Hne & Hr). unfold int_of_str.
  rewrite List.Forall_forall in Hd.
  rewrite str_strip_none by (intros a Ha; apply digit_not_space, Hd, Ha).
  destruct (chars (pretty z)) as [|a l] eqn:E.
  - exfalso. apply Hne. by rewrite <- (unchars_chars (pretty z)), E.
  - specialize (Hd a ltac:(by left)).
    destruct (Ascii.eqb_spec a "-") as [->|_]; [done|]. destruct (Ascii.eqb_spec a "+") as [->|_]; [done|].
    by rewrite Hr.
Qed.

(** Splitting at the first separator. *)
Lemma split_once_app sep s t :
  ~ List.In sep (chars s) -> split_once sep (s +:+ String sep t) = Some (s, t).
Proof.
  induction s as [|a s IH]; intros H.
  - change ("" +:+ String sep t) with (String sep t). cbn [split_once]. by rewrite Ascii.eqb_refl.
  - change (String a s +:+ String sep t) with (String a (s +:+ String sep t)). cbn [split_once].
    destruct (Ascii.eqb_spec a sep) as [->|Hne]; [by destruct H; left|].
    rewrite IH; [done|]. intros Hs. apply H. by right.
Qed.

Definition py_int (v : val) : result Z :=
  match v with
  | VInt z => Ok z
  | VBool b => Ok (if b then 1 else 0)
  | VStr s => int_of_str s
  | _ => Raise TypeError
  end.

(** ** Dictionaries *)

Fixpoint dget {A} (d : list (string * A)) (k : string) : option A :=
  match d with
  | [] => None
  | (k', v) :: d' => if String.eqb k k' then Some v else dget d' k
  end.

(** [d[k] = v]: an existing key keeps its place, a new one goes last. *)
Fixpoint dset {A} (d : list (string * A)) (k : string) (v : A) : list (string * A) :=
  match d with
  | [] => [(k, v)]
  | (k', v') :: d' => if String.eqb k k' then (k', v) :: d' else (k', v') :: dset d' k v
  end.

(** [d.pop(k, None)] without the value, and [{.. for .. if k != key}]. *)
Definition ddel {A} (d : list (string * A)) (k : string) : list (string * A) :=
  List.filter (fun kv => negb (String.eqb k kv.1)) d.

Definition dmem {A} (d : list (string * A)) (k : string) : bool :=
  match dget d k with Some _ => true | None => false end.

Definition dkeys {A} (d : list (string * A)) : list string := d.*1.
Definition dvalues {A} (d : list (string * A)) : list A := d.*2.

(** [d.get(k)] and [d.get(k, x)] on value dictionaries. *)
Definition dget0 (d : dict) (k : string) : val := default VNone (dget d k).
Definition dget_or (d : dict) (k : string) (x : val) : val := default x (dget d k).

(** [d.update(e)]. *)
Definition dupdate {A} (d e : list (string * A)) : list (string * A) :=
  foldl (fun acc kv => dset acc kv.1 kv.2) d e.

Definition dict_wf {A} (d : list (string * A)) : Prop := NoDup (dkeys d).

Section dict.
Context {A : Type}.
Implicit Types (d e : list (string * A)) (k : string) (v : A).

Lemma dget_dset_eq d k v : dget (dset d k v) k = Some v.
Proof.
  induction d as [|[k' v'] d IH]; simpl.
  - by rewrite String.eqb_refl.
  - destruct (String.eqb k k') eqn:E; simpl; rewrite E; [done|apply IH].
Qed.

Lemma dget_dset_ne d k k' v : k <> k' -> dget (dset d k v) k' = dget d k'.
Proof.
  intros Hne. induction d as [|[k1 v1] d IH]; simpl.
  - rewrite (proj2 (String.eqb_neq k' k)) by congruence. done.
  - destruct (String.eqb_spec k k1) as [->|Hk]; simpl.
    + by rewrite (proj2 (String.eqb_neq k' k1)) by congruence.
    + destruct (String.eqb k' k1); [done|apply IH].
Qed.

Lemma dget_dset d k k' v :
  dget (dset d k v) k' = if decide (k = k') then Some v else dget d k'.
Proof.
  case_decide as E; [subst; apply dget_dset_eq|by apply dget_dset_ne].
Qed.

Lemma dmem_dset d k k' v :
  dmem (dset d k v) k' = bool_decide (k = k') || dmem d k'.
Proof. unfold dmem. rewrite dget_dset. by repeat case_decide; case_bool_decide. Qed.

Lemma dget_ddel_eq d k : dget (ddel d k) k = None.
Proof.
  induction d as [|[k' v] d IH]; simpl; [done|].
  destruct (String.eqb k k') eqn:E; simpl; [done|]. by rewrite E.
Qed.

Lemma dget_ddel_ne d k k' : k <> k' -> dget (ddel d k) k' = dget d k'.
Proof.
  intros Hne. induction d as [|[k1 v] d IH]; simpl; [done|].
  destruct (String.eqb_spec k k1) as [->|Hk]; simpl.
  - by rewrite (proj2 (String.eqb_neq k' k1)) by congruence.
  - by destruct (String.eqb k' k1).
Qed.

Lemma dget_None_keys d k : dget d k = None <-> k ∉ dkeys d.
Proof.
  induction d as [|[k' v] d IH]; simpl.
  - split; [intros _; by apply not_elem_of_nil|done].
  - rewrite not_elem_of_cons.
    destruct (String.eqb_spec k k') as [->|Hk].
    + split; [done|by intros []].
    + rewrite IH. tauto.
Qed.

Lemma dmem_keys d k : dmem d k = true <-> k ∈ dkeys d.
Proof.
  unfold dmem. pose proof (dget_None_keys d k) as H.
  destruct (dget d k) eqn:E.
  - split; [intros _|done]. destruct (decide (k ∈ dkeys d)); [done|].
    by apply H in n.
  - split; [done|]. intros Hin. by destruct (proj1 H eq_refl).
Qed.

Lemma dget_In d k v : dget d k = Some v -> (k, v) ∈ d.
Proof.
  induction d as [|[k' v'] d IH]; simpl; [done|].
  destruct (String.eqb_spec k k') as [->|].
  - intros [= ->]. by apply list_elem_of_here.
  - intros H. apply list_elem_of_further. auto.
Qed.

Lemma dkeys_dset d k v :
  dkeys (dset d k v) = if dmem d k then dkeys d else dkeys d ++ [k].
Proof.
  unfold dmem. induction d as [|[k' v'] d IH]; simpl; [done|].
  destruct (String.eqb_spec k k') as [->|]; simpl; [done|].
  rewrite IH. by destruct (dget d k).
Qed.

Lemma dset_wf d k v : dict_wf d -> dict_wf (dset d k v).
Proof.
  unfold dict_wf. intros Hd. rewrite dkeys_dset.
  destruct (dmem d k) eqn:E; [done|].
  apply NoDup_app. split_and!; [done| |apply NoDup_singleton].
  intros x Hx ->%list_elem_of_singleton. apply dmem_keys in Hx. congruence.
Qed.

Lemma ddel_keys d k : dkeys (ddel d k) = List.filter (fun x => negb (String.eqb k x)) (dkeys d).
Proof.
  induction d as [|[k' v] d IH]; simpl; [done|].
  destruct (String.eqb k k'); simpl; by rewrite IH.
Qed.

Lemma ddel_wf d k : dict_wf d -> dict_wf (ddel d k).
Proof.
  unfold dict_wf. rewrite ddel_keys. intros Hd.
  apply NoDup_ListNoDup, List.NoDup_filter. by apply NoDup_ListNoDup.
Qed.

Lemma ddel_absent d k : dmem d k = false -> ddel d k = d.
Proof.
  unfold dmem. induction d as [|[k' v] d IH]; simpl; [done|].
  destruct (String.eqb k k'); simpl; [done|]. intros H. by rewrite IH.
Qed.

(** Writing back the value that is there changes nothing. *)
Lemma dset_id d k v : dget d k = Some v -> dset d k v = d.
Proof.
  induction d as [|[k' v'] d IH]; simpl; [done|].
  destruct (String.eqb k k'); [by intros [= ->]|]. intros H. by rewrite IH.
Qed.

Lemma dset_length d k v :
  length (dset d k v) = if dmem d k then length d else S (length d).
Proof.
  pose proof (f_equal length (dkeys_dset d k v)) as H. unfold dkeys in H.
  rewrite length_fmap in H. rewrite H.
  destruct (dmem d k); rewrite ?length_app, ?length_fmap; simpl; lia.
Qed.
End dict.

Lemma dget0_dset_eq (d : dict) k v : dget0 (dset d k v) k = v.
Proof. unfold dget0. by rewrite dget_dset_eq. Qed.

Lemma dget0_dset_ne (d : dict) k k' v : k <> k' -> dget0 (dset d k v) k' = dget0 d k'.
Proof. intros. unfold dget0. by rewrite dget_dset_ne. Qed.

#[export] Hint Resolve dset_wf ddel_wf : factory.

(** Push [dget] through updates at literal keys. *)
Ltac dict_simpl :=
  repeat first
    [ rewrite dget0_dset_eq | rewrite dget_dset_eq
    | rewrite dget0_dset_ne by discriminate
    | rewrite dget_dset_ne by discriminate ].
