(* ===== verification/Json.v ===== *)
(** * Json

    [json.dumps] and [json.loads] as an interface.  The law is the documented one:
    reading back what was written gives the value (for JSON data with text keys and
    integer numbers; a dictionary that repeats a key is not a Python value).  The
    instance shows that the law can hold. *)

From S2P Require Import Prelude PyVal.
From stdpp Require Import countable.

Class Json := {
  json_dumps : val -> string;
  json_loads : string -> option val;   (* [None]: [JSONDecodeError] *)
}.

Class JsonLaws `{Json} : Prop :=
  json_roundtrip : forall v, json_loads (json_dumps v) = Some v.

(** ** An instance *)

Abbreviation leaf := (bool + Z + string)%type.

Fixpoint to_tree (v : val) : gen_tree leaf :=
  match v with
  | VNone => GenNode 0 []
  | VBool b => GenLeaf (inl (inl b))
  | VInt z => GenLeaf (inl (inr z))
  | VStr s => GenLeaf (inr s)
  | VList l => GenNode 1 (to_tree <$> l)
  | VDict d => GenNode 2 ((fun kv => GenNode 3 [GenLeaf (inr kv.1); to_tree kv.2]) <$> d)
  end.

Fixpoint of_tree (t : gen_tree leaf) : val :=
  match t with
  | GenLeaf (inl (inl b)) => VBool b
  | GenLeaf (inl (inr z)) => VInt z
  | GenLeaf (inr s) => VStr s
  | GenNode n l =>
      if (n =? 0)%nat then VNone
      else if (n =? 1)%nat then VList (of_tree <$> l)
      else VDict (omap (fun t => match t with
                                 | GenNode _ [GenLeaf (inr k); u] => Some (k, of_tree u)
                                 | _ => None
                                 end) l)
  end.

Lemma of_to_tree v : of_tree (to_tree v) = v.
Proof.
  induction v as [|b|z|s|l IH|d IH] using val_nested_ind; simpl; try done.
  - f_equal. induction IH as [|x l Hx _ IH]; cbn; [done|]. by rewrite Hx; f_equal.
  - f_equal. induction IH as [|[k x] d Hx _ IH]; cbn; [done|]. cbn in Hx. rewrite Hx. by f_equal.
Qed.

#[export] Instance val_countable : Countable val := inj_countable' to_tree of_tree of_to_tree.

(** A positive number as its binary digits. *)
Fixpoint digits (p : positive) : string :=
  match p with
  | xH => ""
  | xO q => String "0" (digits q)
  | xI q => String "1" (digits q)
  end.

Fixpoint undigits (s : string) : positive :=
  match s with
  | EmptyString => xH
  | String a s' => if Ascii.eqb a "0" then xO (undigits s') else xI (undigits s')
  end.

Lemma undigits_digits p : undigits (digits p) = p.
Proof. induction p; simpl; congruence. Qed.

Definition binary_json : Json := {|
  json_dumps := fun v => digits (encode v);
  json_loads := fun s => decode (undigits s);
|}.

Lemma binary_json_laws : @JsonLaws binary_json.
Proof. intros v. simpl. by rewrite undigits_digits, decode_encode. Qed.

Example json_demo :
  @json_loads binary_json (@json_dumps binary_json (VDict [("a", VList [VInt 3; VNone])])) = Some (VDict [("a", VList [VInt 3; VNone])]).
Proof. by_compute. Qed.
