(* ===== verification/Tasks.v ===== *)
(** * Tasks

    Coroutines of the asynchronous services.  A [task] is a handler cut at its
    awaits: it ends, or it issues a command to the outside (Redis, an HTTP call) and
    goes on with the reply.  The same definition is run alone against scripted replies
    and interleaved with any number of others; [ok] is the program logic in which
    handlers are shown correct one at a time, whatever the others do. *)

From S2P Require Import Prelude.

Section task.
Context {C R E : Type}.

Inductive task (A : Type) : Type :=
| Done (r : E + A)
| Do (c : C) (k : R -> task A).
Arguments Done {A} r.
Arguments Do {A} c k.

(** ** Writing handlers *)

Definition tret {A} (a : A) : task A := Done (inr a).
Definition traise {A} (e : E) : task A := Done (inl e).

Fixpoint tbind {A B} (t : task A) (f : A -> task B) : task B :=
  match t with
  | Done (inl e) => Done (inl e)
  | Done (inr a) => f a
  | Do c k => Do c (fun r => tbind (k r) f)
  end.

(** [try: t except ..: handler], where a handler that does not apply raises again. *)
Fixpoint tcatch {A} (t : task A) (handler : E -> task A) : task A :=
  match t with
  | Done (inl e) => handler e
  | Done (inr a) => Done (inr a)
  | Do c k => Do c (fun r => tcatch (k r) handler)
  end.

(** Issue a command and look at its reply. *)
Definition await {A} (c : C) (f : R -> E + A) : task A := Do c (fun r => Done (f r)).

(** ** Running a handler alone

    The environment answers each command and changes; the trace is what was asked. *)
Fixpoint run {A W} (env : C -> W -> R * W) (t : task A) (w : W) : (E + A) * W * list (C * R) :=
  match t with
  | Done r => (r, w, [])
  | Do c k =>
      let '(r, w') := env c w in
      let '(out, w'', tr) := run env (k r) w' in
      (out, w'', (c, r) :: tr)
  end.

Lemma run_bind {A B W} (env : C -> W -> R * W) (t : task A) (f : A -> task B) w :
  run env (tbind t f) w =
  match run env t w with
  | (inl e, w', tr) => (inl e, w', tr)
  | (inr a, w', tr) => let '(out, w'', tr') := run env (f a) w' in (out, w'', tr ++ tr')
  end.
Proof.
  revert w. induction t as [[e|a]|c k IH]; intros w; cbn.
  - done.
  - by destruct (run env (f a) w) as [[]].
  - destruct (env c w) as [r w1]. rewrite IH.
    destruct (run env (k r) w1) as [[[e|a] w2] tr]; [done|].
    by destruct (run env (f a) w2) as [[]].
Qed.

Lemma run_catch {A W} (env : C -> W -> R * W) (t : task A) (h : E -> task A) w :
  run env (tcatch t h) w =
  match run env t w with
  | (inr a, w', tr) => (inr a, w', tr)
  | (inl e, w', tr) => let '(out, w'', tr') := run env (h e) w' in (out, w'', tr ++ tr')
  end.
Proof.
  revert w. induction t as [[e|a]|c k IH]; intros w; cbn.
  - by destruct (run env (h e) w) as [[]].
  - done.
  - destruct (env c w) as [r w1]. rewrite IH.
    destruct (run env (k r) w1) as [[[e|a] w2] tr]; [|done].
    by destruct (run env (h e) w2) as [[]].
Qed.

(** ** The commands of a handler *)

Fixpoint issues (P : C -> Prop) {A} (t : task A) : Prop :=
  match t with Done _ => True | Do c k => P c /\ forall r, issues P (k r) end.

Lemma issues_bind (P : C -> Prop) {A B} (t : task A) (f : A -> task B) :
  issues P t -> (forall a, issues P (f a)) -> issues P (tbind t f).
Proof.
  intros Ht Hf. induction t as [[e|a]|c k IH]; cbn in *; [done|apply Hf|]. destruct Ht as [Hc Hk].
  split; [done|]. intros r. by apply IH.
Qed.

Lemma issues_catch (P : C -> Prop) {A} (t : task A) (h : E -> task A) :
  issues P t -> (forall e, issues P (h e)) -> issues P (tcatch t h).
Proof.
  intros Ht Hh. induction t as [[e|a]|c k IH]; cbn in *; [apply Hh|done|]. destruct Ht as [Hc Hk].
  split; [done|]. intros r. by apply IH.
Qed.

Lemma issues_await (P : C -> Prop) {A} c (f : R -> E + A) : P c -> issues P (await c f).
Proof. done. Qed.

Lemma issues_mono (P Q : C -> Prop) {A} (t : task A) : (forall c, P c -> Q c) -> issues P t -> issues Q t.
Proof. intros HPQ. induction t as [r|c k IH]; cbn; [done|]. intros [Hc Hk]. split; [by apply HPQ|]. intros r. by apply IH. Qed.

(** Run alone, a handler makes only steps of its commands. *)
Lemma run_issues {A W} (env : C -> W -> R * W) (P : C -> Prop) (I : W -> W -> Prop) `{!PreOrder I} (t : task A) w :
  (forall c w, P c -> I w (env c w).2) -> issues P t -> I w (run env t w).1.2.
Proof.
  intros Hstep. revert w. induction t as [r|c k IH]; intros w Ht; cbn; [done|]. destruct Ht as [Hc Hk].
  pose proof (Hstep c w Hc) as H1. destruct (env c w) as [r w1]. specialize (IH r w1 (Hk r)).
  destruct (run env (k r) w1) as [[out w2] tr]. by etrans.
Qed.

(** ** Counting commands

    [at_most f n t]: whatever is answered, [t] issues at most [n] commands that [f] picks. *)
Section counting.
Context (f : C -> bool).

Fixpoint at_most (n : nat) {A} (t : task A) : Prop :=
  match t with
  | Done _ => True
  | Do c k => if f c then match n with O => False | S m => forall r, at_most m (k r) end
              else forall r, at_most n (k r)
  end.

Lemma at_most_le n m {A} (t : task A) : (n <= m)%nat -> at_most n t -> at_most m t.
Proof.
  revert n m. induction t as [r|c k IH]; intros n m Hle; cbn; [done|]. destruct (f c).
  - destruct n as [|n], m as [|m]; [done|done|lia|]. intros H r. eapply IH; [|apply H]. lia.
  - intros H r. eapply IH; [done|apply H].
Qed.

Lemma at_most_bind n m {A B} (t : task A) (g : A -> task B) :
  at_most n t -> (forall a, at_most m (g a)) -> at_most (n + m) (tbind t g).
Proof.
  intros Ht Hg. revert n Ht. induction t as [[e|a]|c k IH]; intros n Ht; cbn in *; [done| |].
  - eapply at_most_le; [|apply Hg]. lia.
  - destruct (f c); [|intros r; by apply IH]. destruct n as [|n]; [done|]. intros r. by apply IH.
Qed.

Lemma at_most_catch n m {A} (t : task A) (h : E -> task A) :
  at_most n t -> (forall e, at_most m (h e)) -> at_most (n + m) (tcatch t h).
Proof.
  intros Ht Hh. revert n Ht. induction t as [[e|a]|c k IH]; intros n Ht; cbn in *; [|done|].
  - eapply at_most_le; [|apply Hh]. lia.
  - destruct (f c); [|intros r; by apply IH]. destruct n as [|n]; [done|]. intros r. by apply IH.
Qed.

Lemma at_most_none {A} (t : task A) : issues (fun c => f c = false) t -> at_most 0 t.
Proof. induction t as [r|c k IH]; cbn; [done|]. intros [-> Hk] r. by apply IH. Qed.

Lemma run_at_most {A W} (env : C -> W -> R * W) n (t : task A) w :
  at_most n t -> (length (List.filter (fun cr => f cr.1) (run env t w).2) <= n)%nat.
Proof.
  revert n w. induction t as [r|c k IH]; intros n w Ht; cbn in *; [lia|].
  destruct (env c w) as [r w1]. specialize (IH r). destruct (run env (k r) w1) as [[out w2] tr] eqn:Er. cbn.
  destruct (f c); cbn.
  - destruct n as [|n]; [done|]. specialize (IH n w1 (Ht r)). rewrite Er in IH. cbn in IH. lia.
  - specialize (IH n w1 (Ht r)). by rewrite Er in IH.
Qed.
End counting.

(** ** Results

    [yields Q t]: whatever is answered, a value that [t] returns is in [Q]. *)
Fixpoint yields {A} (Q : A -> Prop) (t : task A) : Prop :=
  match t with Done (inl _) => True | Done (inr a) => Q a | Do c k => forall r, yields Q (k r) end.

Lemma yields_bind {A B} (P : A -> Prop) (Q : B -> Prop) (t : task A) (g : A -> task B) :
  yields P t -> (forall a, P a -> yields Q (g a)) -> yields Q (tbind t g).
Proof. intros Ht Hg. induction t as [[e|a]|c k IH]; cbn in *; [done|by apply Hg|intros r; by apply IH]. Qed.

Lemma yields_mono {A} (P Q : A -> Prop) (t : task A) : yields P t -> (forall a, P a -> Q a) -> yields Q t.
Proof. intros Ht HPQ. induction t as [[e|a]|c k IH]; cbn in *; [done|by apply HPQ|intros r; by apply IH]. Qed.

Lemma yields_catch {A} (Q : A -> Prop) (t : task A) (h : E -> task A) :
  yields Q t -> (forall e, yields Q (h e)) -> yields Q (tcatch t h).
Proof. intros Ht Hh. induction t as [[e|a]|c k IH]; cbn in *; [apply Hh|done|intros r; by apply IH]. Qed.

Lemma yields_any {A} (Q : A -> Prop) (t : task A) : (forall a, Q a) -> yields Q t.
Proof. intros HQ. induction t as [[e|a]|c k IH]; cbn; [done|apply HQ|intros r; apply IH]. Qed.

Lemma at_most_then (p : C -> bool) n m {A B} (P : A -> Prop) (t : task A) (g : A -> task B) :
  at_most p n t -> yields P t -> (forall a, P a -> at_most p m (g a)) -> at_most p (n + m) (tbind t g).
Proof.
  intros Ht HP Hg. revert n Ht. induction t as [[e|a]|c k IH]; intros n Ht; cbn in *; [done| |].
  - eapply at_most_le; [|by apply Hg]. lia.
  - destruct (p c); [|intros r; by apply IH]. destruct n as [|n]; [done|]. intros r. by apply IH.
Qed.

Lemma run_yields {A W} (env : C -> W -> R * W) (Q : A -> Prop) (t : task A) w a w' tr :
  yields Q t -> run env t w = (inr a, w', tr) -> Q a.
Proof.
  revert w w' tr. induction t as [r|c k IH]; intros w w' tr Ht Hrun; cbn in *.
  - injection Hrun as -> -> <-. done.
  - destruct (env c w) as [r w1]. destruct (run env (k r) w1) as [[out w2] tr2] eqn:Er. injection Hrun as -> -> <-.
    by eapply IH.
Qed.

(** ** Running handlers together

    [exec c w r w'] is that command [c] in world [w] may be answered [r] and leave
    [w'].  A step picks one handler and executes its next command; the trace records
    who asked what. *)
Section pool.
Context {A W : Type} (exec : C -> W -> R -> W -> Prop).

Record pool := mkPool { threads : list (task A); world : W; trace : list (nat * C * R) }.

Inductive pool_step : pool -> pool -> Prop :=
| pool_do ts w tr i c k r w' :
    ts !! i = Some (Do c k) -> exec c w r w' ->
    pool_step (mkPool ts w tr) (mkPool (<[i := k r]> ts) w' (tr ++ [(i, c, r)])).

(** A schedule, executed: the handler named next makes its next step, if it has one. *)
Fixpoint run_pool (env : C -> W -> R * W) (schedule : list nat) (p : pool) : pool :=
  match schedule with
  | [] => p
  | i :: rest =>
      match threads p !! i with
      | Some (Do c k) =>
          let '(r, w') := env c (world p) in
          run_pool env rest (mkPool (<[i := k r]> (threads p)) w' (trace p ++ [(i, c, r)]))
      | _ => run_pool env rest p
      end
  end.

Lemma run_pool_steps env schedule p :
  (forall c w, exec c w (env c w).1 (env c w).2) -> rtc pool_step p (run_pool env schedule p).
Proof.
  intros He. revert p. induction schedule as [|i rest IH]; intros [ts w tr]; [done|]. cbn.
  destruct (ts !! i) as [[r|c k]|] eqn:Hi; try apply IH.
  specialize (He c w). destruct (env c w) as [r w']. eapply rtc_l; [by econstructor|]. apply IH.
Qed.

(** A handler may run to its end while the others wait. *)
Lemma run_solo env ts w tr i t out w' tr' :
  (forall c w, exec c w (env c w).1 (env c w).2) -> ts !! i = Some t -> run env t w = (out, w', tr') ->
  rtc pool_step (mkPool ts w tr) (mkPool (<[i := Done out]> ts) w' (tr ++ ((fun cr => (i, cr.1, cr.2)) <$> tr'))).
Proof.
  intros He. revert ts w tr out w' tr'. induction t as [r|c k IH]; intros ts w tr out w' tr' Hi Hrun; cbn in Hrun.
  - injection Hrun as -> -> <-. rewrite list_insert_id, app_nil_r by done. apply rtc_refl.
  - specialize (He c w). destruct (env c w) as [r w1]. cbn in He.
    destruct (run env (k r) w1) as [[out' w2] tr2] eqn:Er. injection Hrun as -> -> <-.
    eapply rtc_l; [by econstructor|]. specialize (IH r (<[i := k r]> ts) w1 (tr ++ [(i, c, r)]) out w' tr2).
    rewrite list_insert_insert, decide_True, <- app_assoc in IH by done. apply IH; [|done].
    apply list_lookup_insert_eq. by eapply lookup_lt_Some.
Qed.

(** ** The logic of handlers

    [inv] holds of every world; [later w w'] is how the world may evolve.  [pre] is
    what a handler owes for a command it issues, [post] what it promises when it ends.
    Everything is asked in all later worlds, so that the steps of other handlers do
    not matter. *)
Context (inv : W -> Prop) (later : W -> W -> Prop) `{!PreOrder later}.

Section ok.
Context (pre : C -> W -> Prop).

Fixpoint ok {B} (post : E + B -> W -> Prop) (t : task B) (w : W) : Prop :=
  match t with
  | Done r => forall w', later w w' -> inv w' -> post r w'
  | Do c k =>
      forall w', later w w' -> inv w' ->
        pre c w' /\
        forall r w'', exec c w' r w'' -> inv w'' /\ later w' w'' /\ ok post (k r) w''
  end.

Lemma ok_later {B} (post : E + B -> W -> Prop) t w w' :
  later w w' -> ok post t w -> ok post t w'.
Proof. destruct t as [r|c k]; simpl; intros Hl Hok w'' Hl'; apply Hok; by etrans. Qed.

(** It is enough to look at later worlds in which the invariant holds. *)
Lemma ok_from {B} (post : E + B -> W -> Prop) t w :
  (forall w', later w w' -> inv w' -> ok post t w') -> ok post t w.
Proof. destruct t as [r|c k]; simpl; intros Hok w' Hl Hi; by apply (Hok w' Hl Hi w'). Qed.

Lemma ok_ret {B} (post : E + B -> W -> Prop) b w :
  (forall w', later w w' -> inv w' -> post (inr b) w') -> ok post (tret b) w.
Proof. done. Qed.

Lemma ok_raise {B} (post : E + B -> W -> Prop) e w :
  (forall w', later w w' -> inv w' -> post (inl e) w') -> ok post (traise (A:=B) e) w.
Proof. done. Qed.

Lemma ok_bind {B D} (post : E + D -> W -> Prop) (t : task B) (f : B -> task D) w :
  ok (fun r w' => match r with inl e => post (inl e) w' | inr b => ok post (f b) w' end) t w ->
  ok post (tbind t f) w.
Proof.
  revert w. induction t as [[e|b]|c k IH]; intros w Hok.
  - exact Hok.
  - by apply ok_from.
  - intros w' Hl Hi. destruct (Hok w' Hl Hi) as [Hp Hk]. split; [done|].
    intros r w'' He. destruct (Hk r w'' He) as (? & ? & ?). split_and!; [done..|]. by apply IH.
Qed.

Lemma ok_catch {B} (post : E + B -> W -> Prop) (t : task B) (h : E -> task B) w :
  ok (fun r w' => match r with inl e => ok post (h e) w' | inr b => post (inr b) w' end) t w ->
  ok post (tcatch t h) w.
Proof.
  revert w. induction t as [[e|b]|c k IH]; intros w Hok.
  - by apply ok_from.
  - exact Hok.
  - intros w' Hl Hi. destruct (Hok w' Hl Hi) as [Hp Hk]. split; [done|].
    intros r w'' He. destruct (Hk r w'' He) as (? & ? & ?). split_and!; [done..|]. by apply IH.
Qed.

Lemma ok_conseq {B} (post post' : E + B -> W -> Prop) (t : task B) w :
  (forall r w', later w w' -> inv w' -> post r w' -> post' r w') -> ok post t w -> ok post' t w.
Proof.
  revert w. induction t as [r|c k IH]; intros w Hc Hok.
  - intros w' Hl Hi. apply Hc; [done..|]. by apply Hok.
  - intros w' Hl Hi. destruct (Hok w' Hl Hi) as [Hp Hk]. split; [done|].
    intros r w'' He. destruct (Hk r w'' He) as (? & ? & ?). split_and!; [done..|].
    apply IH; [|done]. intros. apply Hc; [|done..]. by do 2 (etrans; [done|]).
Qed.
End ok.

(** ** Soundness

    Handlers that are each [ok] stay so in every interleaving; what was owed for a
    command is then true of every command in the trace, and a handler that ended
    keeps its promise. *)
Context (pre : nat -> C -> W -> Prop) (post : nat -> E + A -> W -> Prop).
Hypothesis pre_later : forall i c w w', later w w' -> pre i c w -> pre i c w'.

Record pool_ok (p : pool) : Prop := {
  pool_inv : inv (world p);
  pool_threads : forall i t, threads p !! i = Some t -> ok (pre i) (post i) t (world p);
  pool_trace : forall i c r, (i, c, r) ∈ trace p -> pre i c (world p);
}.

Lemma pool_step_ok p p' : pool_step p p' -> pool_ok p -> pool_ok p'.
Proof.
  intros [ts w tr i c k r w' Hi He] [Hinv Hts Htr]. simpl in *.
  destruct (Hts i _ Hi w ltac:(reflexivity) Hinv) as [Hp Hk].
  destruct (Hk r w' He) as (Hinv' & Hl & Hok). split; simpl.
  - done.
  - intros j t. destruct (decide (i = j)) as [<-|Hne].
    + rewrite list_lookup_insert_eq by (by eapply lookup_lt_Some). by intros [= <-].
    + rewrite list_lookup_insert_ne by done. intros Hj. eapply ok_later; [done|]. by apply Hts.
  - intros j d q [Hin|Hin%list_elem_of_singleton]%elem_of_app; [by eapply pre_later, Htr|].
    injection Hin as -> -> ->. by eapply pre_later.
Qed.

Lemma pool_steps_ok p p' : rtc pool_step p p' -> pool_ok p -> pool_ok p'.
Proof. induction 1; eauto using pool_step_ok. Qed.
End pool.
End task.

Arguments task : clear implicits.
Arguments Done {C R E A} r.
Arguments Do {C R E A} c k.
Arguments tret {C R E A} a.
Arguments traise {C R E A} e.
Arguments pool : clear implicits.
Arguments mkPool {C R E A W} threads world trace.
Arguments threads {C R E A W} p.
Arguments world {C R E A W} p.
Arguments trace {C R E A W} p.

#[export] Instance task_ret {C R E} : MRet (task C R E) := fun A a => tret a.
#[export] Instance task_bind {C R E} : MBind (task C R E) := fun A B f t => tbind t f.

(** The rules for the [do] notation. *)
Section notation.
Context {C R E A B : Type}.

Lemma issues_mbind (P : C -> Prop) (t : task C R E A) (f : A -> task C R E B) :
  issues P t -> (forall a, issues P (f a)) -> issues P (t ≫= f).
Proof. apply issues_bind. Qed.

Lemma at_most_mbind (p : C -> bool) n m (t : task C R E A) (f : A -> task C R E B) :
  at_most p n t -> (forall a, at_most p m (f a)) -> at_most p (n + m) (t ≫= f).
Proof. apply at_most_bind. Qed.

Lemma at_most_mthen (p : C -> bool) (P : A -> Prop) n m (t : task C R E A) (f : A -> task C R E B) :
  at_most p n t -> yields P t -> (forall a, P a -> at_most p m (f a)) -> at_most p (n + m) (t ≫= f).
Proof. apply at_most_then. Qed.

Lemma yields_mbind (Q' : A -> Prop) (Q : B -> Prop) (t : task C R E A) (f : A -> task C R E B) :
  yields Q' t -> (forall a, Q' a -> yields Q (f a)) -> yields Q (t ≫= f).
Proof. apply yields_bind. Qed.
End notation.
