(* ===== verification/Regex.v ===== *)
(** * Regex

    Python's [re] as far as the modelled code uses it: a backtracking matcher over
    positions of a text, in the order of preference of [re], and the relation it
    decides.  A position is the text before it, reversed, and the text after it.
    Groups are cut out of a pattern with [groups]: the pattern before, in and after. *)

From S2P Require Import Prelude PyVal.

Abbreviation position := (list ascii * list ascii)%type.

Inductive regex :=
| Eps
| Chr (p : ascii -> bool)
| Cat (a b : regex)
| Alt (a b : regex)
| Star (a : regex)
| Look (ok : position -> bool)
| Unless (a : regex).

(** ** Matching

    [accept r k x] is the first way to match [r] at [x] with which [k] agrees. *)

Definition longer (x y : position) : bool := (length y.2 <? length x.2)%nat.

Fixpoint accept {A} (r : regex) (k : position -> option A) (x : position) {struct r} : option A :=
  match r with
  | Eps => k x
  | Chr p => match x.2 with c :: t => if p c then k (c :: x.1, t) else None | [] => None end
  | Cat a b => accept a (accept b k) x
  | Alt a b => match accept a k x with Some v => Some v | None => accept b k x end
  | Star a =>
      (fix go n y := match n with
                     | O => k y
                     | S n' => match accept a (fun z => if longer y z then go n' z else None) y with
                               | Some v => Some v
                               | None => k y
                               end
                     end) (S (length x.2)) x
  | Look ok => if ok x then k x else None
  | Unless a => match accept a (fun _ => Some tt) x with Some _ => None | None => k x end
  end.

(** The loop of a star, by itself. *)
Definition iterate {A} (a : regex) (k : position -> option A) : nat -> position -> option A :=
  fix go n y := match n with
                | O => k y
                | S n' => match accept a (fun z => if longer y z then go n' z else None) y with
                          | Some v => Some v
                          | None => k y
                          end
                end.

(** ** What is matched *)

Fixpoint denote (r : regex) (x y : position) : Prop :=
  match r with
  | Eps => y = x
  | Chr p => exists c t, x.2 = c :: t /\ p c = true /\ y = (c :: x.1, t)
  | Cat a b => exists z, denote a x z /\ denote b z y
  | Alt a b => denote a x y \/ denote b x y
  | Star a => rtc (denote a) x y
  | Look ok => ok x = true /\ y = x
  | Unless a => (forall z, ~ denote a x z) /\ y = x
  end.

Definition start_of (t : list ascii) : position := ([], t).

(** The positions of a text, from one on. *)
Fixpoint positions (l t : list ascii) : list position :=
  (l, t) :: match t with [] => [] | c :: t' => positions (c :: l) t' end.

(** [pattern.search(text)] is not [None]. *)
Definition search (r : regex) (text : list ascii) : bool :=
  existsb (fun x => match accept r (fun _ => Some tt) x with Some _ => true | None => false end) (positions [] text).

(** [pattern.match(text)] is not [None]. *)
Definition matches_at_start (r : regex) (text : list ascii) : bool :=
  match accept r (fun _ => Some tt) (start_of text) with Some _ => true | None => false end.

(** A match with its group: the text before the match, the group, the text after. *)
Definition group_match (before inside after : regex) (x : position) : option (list ascii * position) :=
  accept before (fun y => accept inside (fun z =>
    accept after (fun e => Some (take (length y.2 - length z.2) y.2, e)) z) y) x.

(** [finditer]: from left to right, each match after the end of the last; [skip]
    characters still belong to it.  The patterns match no empty text. *)
Fixpoint find_from (m : position -> option (list ascii * position)) (skip : nat) (l t : list ascii)
    : list (list ascii * position) :=
  match t with
  | [] => []
  | c :: t' =>
      match skip with
      | S k => find_from m k (c :: l) t'
      | O =>
          match m (l, t) with
          | Some (g, e) => (g, (l, t)) :: find_from m (length t - length e.2 - 1) (c :: l) t'
          | None => find_from m 0 (c :: l) t'
          end
      end
  end.

Definition find_groups (before inside after : regex) (text : list ascii) : list (list ascii * position) :=
  find_from (group_match before inside after) 0 [] text.

(** ** The notations of the patterns *)

Definition any_of (s : string) (c : ascii) : bool := bool_decide (c ∈ chars s).
Definition word_char (c : ascii) : bool := is_alnum c || Ascii.eqb c "_".
Definition ci (a c : ascii) : bool := Ascii.eqb (ascii_lower c) (ascii_lower a).

Definition lit (s : string) : regex := foldr (fun a r => Cat (Chr (Ascii.eqb a)) r) Eps (chars s).
(** Under [(?i)]. *)
Definition lit_ci (s : string) : regex := foldr (fun a r => Cat (Chr (ci a)) r) Eps (chars s).
Definition alts (l : list regex) : regex := match l with [] => Unless Eps | x :: l' => foldl Alt x l' end.
Definition opt (r : regex) : regex := Alt r Eps.
Fixpoint times (n : nat) (r : regex) : regex := match n with O => Eps | S n' => Cat r (times n' r) end.
Fixpoint up_to (n : nat) (r : regex) : regex := match n with O => Eps | S n' => opt (Cat r (up_to n' r)) end.
Definition at_least (n : nat) (r : regex) : regex := Cat (times n r) (Star r).
Definition between (n m : nat) (r : regex) : regex := Cat (times n r) (up_to (m - n) r).
Definition plus (r : regex) : regex := Cat r (Star r).
Definition spaces_re : regex := Star (Chr is_space).

Definition before_char (x : position) : bool := match x.1 with c :: _ => word_char c | [] => false end.
Definition after_char (x : position) : bool := match x.2 with c :: _ => word_char c | [] => false end.
(** [\b] *)
Definition word_boundary : regex := Look (fun x => negb (Bool.eqb (before_char x) (after_char x))).
(** [$] without and [^] and [$] with [re.MULTILINE] *)
Definition text_end : regex := Look (fun x => match x.2 with [] => true | [c] => (code c =? 10) | _ => false end).
Definition line_start : regex := Look (fun x => match x.1 with [] => true | c :: _ => code c =? 10 end).
Definition line_end : regex := Look (fun x => match x.2 with [] => true | c :: _ => code c =? 10 end).

(** ** The matcher decides the relation *)

(** A match moves forward: it consumes some text. *)
Definition forward (x y : position) : Prop := exists w, x.2 = w ++ y.2 /\ y.1 = rev w ++ x.1.

Lemma forward_refl x : forward x x.
Proof. by exists []. Qed.

Lemma forward_trans x y z : forward x y -> forward y z -> forward x z.
Proof.
  intros (w & H1 & H2) (v & H3 & H4). exists (w ++ v).
  split; [by rewrite H1, H3, <- app_assoc|by rewrite H4, H2, rev_app_distr, <- app_assoc].
Qed.

Lemma denote_forward r x y : denote r x y -> forward x y.
Proof.
  revert x y. induction r as [|p|a IHa b IHb|a IHa b IHb|a IHa|ok|a IHa]; intros x y; cbn.
  - intros ->. apply forward_refl.
  - intros (c & t & Hx & _ & ->). exists [c]. cbn. by rewrite Hx.
  - intros (z & Ha & Hb). eapply forward_trans; eauto.
  - intros [H|H]; eauto.
  - induction 1; [apply forward_refl|]. eapply forward_trans; eauto.
  - intros [_ ->]. apply forward_refl.
  - intros [_ ->]. apply forward_refl.
Qed.

Lemma forward_length x y : forward x y -> (length y.2 <= length x.2)%nat.
Proof. intros (w & -> & _). rewrite length_app. lia. Qed.

Lemma forward_still x y : forward x y -> length y.2 = length x.2 -> y = x.
Proof.
  intros (w & H1 & H2) Hl. destruct x as [l t], y as [l' t']. cbn in *. subst t. rewrite length_app in Hl.
  destruct w; cbn in Hl; [|lia]. cbn in H2. by subst.
Qed.

Lemma accept_star {A} a (k : position -> option A) x : accept (Star a) k x = iterate a k (S (length x.2)) x.
Proof. reflexivity. Qed.

Definition decides (r : regex) : Prop :=
  forall A (k : position -> option A) x, accept r k x <> None <-> exists y, denote r x y /\ k y <> None.

Lemma decides_star a : decides a -> decides (Star a).
Proof.
  intros Ha A k x. rewrite accept_star. set (n := S (length x.2)).
  assert (length x.2 < n)%nat as Hn by lia. clearbody n. revert x Hn. induction n as [|n IH]; intros x Hn; [lia|].
  cbn [iterate]. set (k' := fun z => if longer x z then iterate a k n z else None).
  assert (forall z, denote a x z -> k' z <> None <-> (length z.2 < length x.2)%nat /\ exists y, denote (Star a) z y /\ k y <> None) as Hk'.
  { intros z Hz. subst k'. unfold longer. destruct (Nat.ltb_spec (length z.2) (length x.2)) as [Hl|Hl].
    - rewrite IH by lia. cbn. tauto.
    - split; [done|]. intros [? _]. lia. }
  split.
  - intros H. destruct (accept a k' x) as [v|] eqn:E.
    + assert (accept a k' x <> None) as (z & Hz & (_ & y & Hy & Hky)%Hk')%Ha by congruence; [|done].
      exists y. split; [|done]. by eapply rtc_l.
    + exists x. split; [apply rtc_refl|done].
  - intros (y & Hy & Hky). cbn in Hy.
    assert (y = x \/ accept a k' x <> None) as [->|Hne].
    { apply (rtc_ind_l (fun u => u = x -> y = x \/ accept a k' x <> None) y) with (x := x) in Hy; [done| | |done].
      - by left.
      - intros u z Huz Hzy IHu ->. destruct (decide (length z.2 < length x.2)%nat) as [Hlt|Hge].
        + right. apply Ha. exists z. split; [done|]. apply Hk'; [done|]. split; [done|by exists y].
        + apply IHu. pose proof (denote_forward _ _ _ Huz) as Hf. apply forward_still; [done|].
          pose proof (forward_length _ _ Hf). lia. }
    + by destruct (accept a k' x).
    + by destruct (accept a k' x).
Qed.

Lemma accept_decides r : decides r.
Proof.
  induction r as [|p|a IHa b IHb|a IHa b IHb|a IHa|ok|a IHa]; [| | | |by apply decides_star| |]; intros A k x; cbn.
  - naive_solver.
  - destruct x as [l [|c t]]; cbn; [naive_solver|]. destruct (p c) eqn:E; naive_solver congruence.
  - rewrite (IHa A). split.
    + intros (y & Hy & (z & Hz & Hk)%IHb). naive_solver.
    + intros (z & (y & Hy & Hz) & Hk). exists y. split; [done|]. apply IHb. by exists z.
  - specialize (IHa A k x). specialize (IHb A k x). destruct (accept a k x); naive_solver.
  - destruct (ok x) eqn:E; naive_solver congruence.
  - specialize (IHa unit (fun _ => Some tt) x). destruct (accept a _ x); naive_solver.
Qed.

Lemma positions_spec l t x : x ∈ positions l t <-> forward (l, t) x.
Proof.
  revert l. induction t as [|c t IH]; intros l; cbn [positions].
  - rewrite list_elem_of_singleton. split; [intros ->; apply forward_refl|]. intros (w & H1 & H2). cbn in *.
    symmetry in H1. apply app_eq_nil in H1 as [-> Hx]. destruct x. cbn in *. congruence.
  - rewrite elem_of_cons, IH. split.
    + intros [->|(w & H1 & H2)]; [apply forward_refl|]. exists (c :: w). cbn in *. rewrite H1, H2. by rewrite <- app_assoc.
    + intros (w & H1 & H2). destruct w as [|d w]; cbn in *.
      * left. destruct x. cbn in *. congruence.
      * right. injection H1 as <- ->. exists w. cbn. split; [done|]. by rewrite H2, <- app_assoc.
Qed.

Lemma search_spec r text : search r text = true <-> exists x y, forward (start_of text) x /\ denote r x y.
Proof.
  unfold search. rewrite existsb_exists. split.
  - intros (x & Hin & H). apply list_elem_of_In, positions_spec in Hin.
    destruct (proj1 (accept_decides r unit (fun _ => Some tt) x)) as (y & Hy & _); [by destruct (accept r _ x)|]. eauto.
  - intros (x & y & Hx & Hy). exists x. split; [by apply list_elem_of_In, positions_spec|].
    assert (accept r (fun _ => Some tt) x <> None) by (apply accept_decides; eauto). by destruct (accept r _ x).
Qed.

(** For a pattern without assertions: the texts it matches. *)
Definition language (r : regex) (L : list ascii -> Prop) : Prop :=
  forall x y, denote r x y <-> exists w, x.2 = w ++ y.2 /\ y.1 = rev w ++ x.1 /\ L w.

Lemma search_language r L text :
  language r L -> search r text = true <-> exists a w b, text = a ++ w ++ b /\ L w.
Proof.
  intros HL. rewrite search_spec. split.
  - intros (x & y & (a & H1 & _) & (w & H2 & _ & Hw)%HL). exists a, w, y.2. cbn in H1. by rewrite H1, H2.
  - intros (a & w & b & -> & Hw). exists (rev a, w ++ b), (rev w ++ rev a, b). split.
    + exists a. cbn. by rewrite app_nil_r.
    + apply HL. by exists w.
Qed.

(** ** Languages of the notations *)

Lemma language_equiv r L L' : (forall w, L w <-> L' w) -> language r L -> language r L'.
Proof. intros He HL x y. rewrite (HL x y). by setoid_rewrite He. Qed.

Lemma language_eps : language Eps (fun w => w = []).
Proof.
  intros [l t] [l' t']. cbn. split.
  - intros [= -> ->]. by exists [].
  - intros (w & -> & -> & ->). done.
Qed.

Lemma language_chr p : language (Chr p) (fun w => exists c, w = [c] /\ p c = true).
Proof.
  intros [l t] [l' t']. cbn. split.
  - intros (c & u & -> & Hp & [= -> ->]). exists [c]. eauto.
  - intros (w & -> & -> & c & -> & Hp). exists c, t'. done.
Qed.

Lemma language_cat a b L M :
  language a L -> language b M -> language (Cat a b) (fun w => exists u v, w = u ++ v /\ L u /\ M v).
Proof.
  intros HL HM x y. cbn. split.
  - intros (z & (u & H1 & H2 & Hu)%HL & (v & H3 & H4 & Hv)%HM). exists (u ++ v).
    rewrite H1, H3, H4, H2, <- !app_assoc, rev_app_distr, <- app_assoc. eauto 10.
  - intros (w & H1 & H2 & u & v & -> & Hu & Hv). exists (rev u ++ x.1, v ++ y.2). split.
    + apply HL. exists u. cbn. by rewrite H1, <- app_assoc.
    + apply HM. exists v. cbn. by rewrite H2, rev_app_distr, <- app_assoc.
Qed.

Lemma language_alt a b L M : language a L -> language b M -> language (Alt a b) (fun w => L w \/ M w).
Proof. intros HL HM x y. cbn. rewrite (HL x y), (HM x y). naive_solver. Qed.

Definition all_chars (p : ascii -> bool) (w : list ascii) : Prop := Forall (fun c => p c = true) w.

Lemma language_star_chr p : language (Star (Chr p)) (all_chars p).
Proof.
  intros x y. cbn [denote]. split.
  - induction 1 as [x|x z y Hxz _ (w & H1 & H2 & Hw)]; [by exists []; repeat split; constructor|].
    apply language_chr in Hxz as (u & H3 & H4 & c & -> & Hc). exists (c :: w).
    rewrite H3, H1, H2, H4. cbn. rewrite <- app_assoc. split_and!; [done|done|by constructor].
  - intros (w & H1 & H2 & Hw). revert x H1 H2. induction Hw as [|c w Hc Hw IH]; intros [l t] H1 H2; cbn in *.
    + destruct y. cbn in *. subst. apply rtc_refl.
    + subst t. eapply rtc_l; [exists c, (w ++ y.2); split; [done|]; split; [done|]; reflexivity|].
      apply IH; cbn; [done|]. by rewrite H2, <- app_assoc.
Qed.

Lemma language_times_chr p n : language (times n (Chr p)) (fun w => length w = n /\ all_chars p w).
Proof.
  induction n as [|n IH]; cbn [times].
  - eapply language_equiv; [|apply language_eps]. intros w. cbn. split; [intros ->; by split; [|constructor]|].
    intros [H _]. by destruct w.
  - eapply language_equiv; [|apply (language_cat _ _ _ _ (language_chr p) IH)]. intros w. cbn. split.
    + intros (u & v & -> & (c & -> & Hc) & <- & Hv). split; [done|]. by constructor.
    + destruct w as [|c w]; [by intros [? _]|]. intros [[= H] [Hc Hw]%Forall_cons]. exists [c], w. split_and!; eauto.
Qed.

Lemma language_at_least_chr p n : language (at_least n (Chr p)) (fun w => (n <= length w)%nat /\ all_chars p w).
Proof.
  eapply language_equiv; [|apply (language_cat _ _ _ _ (language_times_chr p n) (language_star_chr p))].
  intros w. cbn. split.
  - intros (u & v & -> & [<- Hu] & Hv). rewrite length_app. split; [lia|]. by apply Forall_app.
  - intros [Hl Hw]. exists (take n w), (drop n w). rewrite take_drop, length_take. split_and!; [done|lia| |].
    + by apply Forall_take.
    + by apply Forall_drop.
Qed.

Lemma language_lit s : language (lit s) (fun w => w = chars s).
Proof.
  unfold lit. induction (chars s) as [|a l IH]; cbn [foldr]; [apply language_eps|].
  eapply language_equiv; [|apply (language_cat _ _ _ _ (language_chr _) IH)]. intros w. cbn. split.
  - by intros (u & v & -> & (c & -> & <-%Ascii.eqb_eq) & ->).
  - intros ->. exists [a], l. split_and!; [done| |done]. exists a. by rewrite Ascii.eqb_refl.
Qed.

Lemma language_lit_ci s : language (lit_ci s) (fun w => ascii_lower <$> w = ascii_lower <$> chars s).
Proof.
  unfold lit_ci. induction (chars s) as [|a l IH]; cbn [foldr fmap list_fmap].
  - eapply language_equiv; [|apply language_eps]. intros [|]; cbn; split; done.
  - eapply language_equiv; [|apply (language_cat _ _ _ _ (language_chr _) IH)]. intros w. cbn. split.
    + intros (u & v & -> & (c & -> & Hc%Ascii.eqb_eq) & Hv). cbn. by rewrite Hc, Hv.
    + destruct w as [|c w]; [done|]. intros [= Hc Hw]. exists [c], w. split_and!; [done| |done].
      exists c. unfold ci. by rewrite Hc, Ascii.eqb_refl.
Qed.

(** ** Substitution *)

(** [pattern.sub(replacement, text)] for a pattern that matches no empty text. *)
Fixpoint sub_from (r : regex) (replacement : list ascii) (skip : nat) (l t : list ascii) : list ascii :=
  match t with
  | [] => []
  | c :: t' =>
      match skip with
      | S k => sub_from r replacement k (c :: l) t'
      | O =>
          match accept r Some (l, t) with
          | Some e => replacement ++ sub_from r replacement (length t - length e.2 - 1) (c :: l) t'
          | None => c :: sub_from r replacement 0 (c :: l) t'
          end
      end
  end.

Definition sub (r : regex) (replacement : string) (text : list ascii) : list ascii := sub_from r (chars replacement) 0 [] text.

Definition infix {A} (w t : list A) : Prop := exists a b, t = a ++ w ++ b.

Lemma infix_refl {A} (t : list A) : infix t t.
Proof. exists [], []. by rewrite app_nil_r. Qed.

Lemma infix_trans {A} (u v t : list A) : infix u v -> infix v t -> infix u t.
Proof. intros (a & b & ->) (c & d & ->). exists (c ++ a), (b ++ d). by rewrite <- !app_assoc. Qed.

Lemma infix_app_l {A} (w a t : list A) : infix w t -> infix w (a ++ t).
Proof. intros (c & d & ->). exists (a ++ c), d. by rewrite app_assoc. Qed.

Lemma infix_app_r {A} (w t b : list A) : infix w t -> infix w (t ++ b).
Proof. intros (c & d & ->). exists c, (d ++ b). by rewrite <- !app_assoc. Qed.

Lemma infix_Forall {A} (P : A -> Prop) w t : infix w t -> Forall P t -> Forall P w.
Proof. intros (a & b & ->) H. rewrite !Forall_app in H. tauto. Qed.

Lemma infix_take {A} n (t : list A) : infix (take n t) t.
Proof. exists [], (drop n t). by rewrite take_drop. Qed.

(** A word without a separator lies on one side of it. *)
Lemma infix_app_cons {A} (P : A -> Prop) (w u v : list A) y :
  Forall P w -> ~ P y -> infix w (u ++ y :: v) -> infix w u \/ infix w v.
Proof.
  intros Hw Hy (a & b & E).
  apply app_eq_inv in E as [(k & -> & E)|(k & -> & E)].
  - apply app_eq_inv in E as [(j & -> & E)|(j & -> & E)].
    + destruct j as [|z j]; cbn in E.
      * left. exists a, []. by rewrite !app_nil_r.
      * injection E as -> ->. rewrite Forall_app, Forall_cons in Hw. tauto.
    + left. by exists a, j.
  - destruct k as [|z k]; cbn in E.
    + destruct w as [|c w]; [left; by exists u, []; rewrite !app_nil_r|]. injection E as -> ->. rewrite Forall_cons in Hw. tauto.
    + injection E as -> ->. right. by exists k, b.
Qed.

(** A substitution whose replacement begins and ends with characters that no word of
    interest has: what it leaves of such words was there before, where the pattern did
    not match, or stands in the replacement. *)
Section substitution.
Context (r : regex) (P : ascii -> Prop) (x y : ascii) (m rep : list ascii).
Hypotheses (Hx : ~ P x) (Hy : ~ P y) (Hhead : exists m', rep = x :: m') (Hlast : rep = m ++ [y]).

Lemma sub_prefix w b l t :
  Forall P w -> sub_from r rep 0 l t = w ++ b -> exists b', t = w ++ b'.
Proof.
  intros Hw. revert l t b. induction Hw as [|c w Hc Hw IH]; intros l t b; [by exists t|].
  destruct t as [|d t]; [done|]. cbn [sub_from]. destruct (accept r Some (l, d :: t)) as [e|].
  - destruct Hhead as (m' & ->). cbn. by intros [= -> _].
  - cbn. intros [= -> H]. destruct (IH _ _ _ H) as (b' & ->). by exists b'.
Qed.

Lemma sub_infix w skip l t :
  Forall P w -> w <> [] -> infix w (sub_from r rep skip l t) ->
  infix w m \/ exists a b, t = a ++ w ++ b /\ accept r Some (rev a ++ l, w ++ b) = None.
Proof.
  intros Hw Hne. revert skip l. induction t as [|c t IH]; intros skip l; cbn [sub_from].
  { intros (a & b & E). by destruct a, w. }
  assert (forall skip, infix w (sub_from r rep skip (c :: l) t) ->
    infix w m \/ exists a b, c :: t = a ++ w ++ b /\ accept r Some (rev a ++ l, w ++ b) = None) as Hstep.
  { intros k [H|(a & b & -> & H)]%IH; [by left|]. right. exists (c :: a), b. cbn. by rewrite <- app_assoc. }
  destruct skip as [|k]; [|apply Hstep].
  destruct (accept r Some (l, c :: t)) as [e|] eqn:Ea.
  - rewrite Hlast at 1. rewrite <- app_assoc. cbn [app]. intros [H|H]%(infix_app_cons P); [by left| |done|done]. exact (Hstep _ H).
  - intros (a & b & E). destruct a as [|d a]; cbn in E.
    + destruct w as [|d w]; [done|]. injection E as -> E. rewrite Forall_cons in Hw.
      apply sub_prefix in E as (b' & ->); [|tauto]. right. exists [], b'. done.
    + injection E as -> E. apply (Hstep 0%nat). by exists a, b.
Qed.
End substitution.

(** Whether a text has a word of a language. *)
Definition has_word (L : list ascii -> Prop) (t : list ascii) : Prop := exists w, infix w t /\ L w.

Lemma search_has_word r L t : language r L -> search r t = true <-> has_word L t.
Proof.
  intros HL. rewrite (search_language _ _ _ HL). unfold has_word, infix. naive_solver.
Qed.

Lemma has_word_infix (L : list ascii -> Prop) u t : infix u t -> has_word L u -> has_word L t.
Proof. intros Hu (w & Hw & HL). exists w. split; [by eapply infix_trans|done]. Qed.

(** The language of the pattern is gone, and no other one appears. *)
Lemma sub_removes r (L M : list ascii -> Prop) (Q : ascii -> Prop) s t x y m :
  language r L -> chars s = m ++ [y] -> (exists m', chars s = x :: m') -> ~ Q x -> ~ Q y ->
  (forall w, M w -> w <> [] /\ Forall Q w) -> ~ has_word M m ->
  (forall w, M w -> L w) \/ ~ has_word M t -> ~ has_word M (sub r s t).
Proof.
  intros HL Hlast Hhead Hx Hy HM Hm Ht (w & Hw & HMw). destruct (HM w HMw) as [Hne HQ].
  destruct (sub_infix r Q x y m (chars s) Hx Hy Hhead Hlast w 0 [] t HQ Hne Hw) as [H|(a & b & E & Hnone)].
  - apply Hm. by exists w.
  - destruct Ht as [HLM|Ht]; [|apply Ht; exists w; split; [by exists a, b|done]].
    assert (accept r Some (rev a ++ [], w ++ b) <> None) as []; [|done].
    apply accept_decides. exists (rev w ++ rev a ++ [], b). split; [|done]. apply HL. exists w. by split_and!; [| |apply HLM].
Qed.

(** A pattern of one character. *)
Lemma sub_chr p rep l t : sub_from (Chr p) rep 0 l t = t ≫= (fun c => if p c then rep else [c]).
Proof.
  revert l. induction t as [|c t IH]; intros l; [done|]. cbn [sub_from accept snd fst length mbind list_bind].
  destruct (p c); [|cbn; by rewrite IH]. replace (S (length t) - length (c :: l, t).2 - 1)%nat with O by (cbn [snd]; lia). by rewrite IH.
Qed.

Lemma sub_Forall (P : ascii -> Prop) r s t : Forall P (chars s) -> Forall P t -> Forall P (sub r s t).
Proof.
  intros Hs. unfold sub. generalize (@nil ascii) as l, 0%nat as skip. induction t as [|c t IH]; intros l skip; [done|].
  intros Ht. pose proof Ht as [Hc Ht']%Forall_cons. cbn [sub_from]. destruct skip as [|k]; [|by apply IH].
  destruct (accept r Some (l, c :: t)); [apply Forall_app; split; [done|by apply IH]|constructor; [done|by apply IH]].
Qed.

Lemma sub_chr_Forall p s t :
  Forall (fun c => p c = false) (chars s) -> Forall (fun c => p c = false) (sub (Chr p) s t).
Proof.
  intros Hs. unfold sub. rewrite sub_chr. induction t as [|c t IH]; cbn; [constructor|].
  apply Forall_app. split; [|exact IH]. destruct (p c) eqn:E; [done|]. by repeat constructor.
Qed.
