(* ===== verification/MissionTypes.v ===== *)
(** * MissionTypes

    [shared_runtime/mission_types.py]: the official vocabularies a mission is
    charted with, the alias table, and the four normalisers.  Unknown text is a
    client error; only an empty value takes the default. *)

From S2P Require Import Prelude PyVal.

Definition OFFICIAL_MISSION_TYPES : list string :=
  ["BUILD_NEW"; "IMPORT_MODERNIZE"; "PORT"; "DEBUG_REPAIR"; "SECURITY_HARDEN";
   "REDUCE_DEPENDENCIES"; "RUN_QC"; "ARCHITECTURE_DOCS"; "ANALYZE_ONLY"; "SELF_ANALYZE"].

Definition MISSION_TYPE_ALIASES : list (string * string) :=
  [("", "BUILD_NEW");
   ("BUILD", "BUILD_NEW");
   ("BUILD_NEW", "BUILD_NEW");
   ("CREATE", "BUILD_NEW");
   ("FEATURE", "BUILD_NEW");
   ("FULL_BUILD", "BUILD_NEW");
   ("IMPLEMENTATION", "BUILD_NEW");
   ("NEW", "BUILD_NEW");
   ("IMPORT_MODERNIZE", "IMPORT_MODERNIZE");
   ("MODERNIZE", "IMPORT_MODERNIZE");
   ("UPDATE", "IMPORT_MODERNIZE");
   ("ADD_FEATURE", "IMPORT_MODERNIZE");
   ("REFACTOR", "IMPORT_MODERNIZE");
   ("PORT", "PORT");
   ("DEBUG", "DEBUG_REPAIR");
   ("DEBUG_REPAIR", "DEBUG_REPAIR");
   ("REPAIR", "DEBUG_REPAIR");
   ("SECURITY", "SECURITY_HARDEN");
   ("SECURITY_HARDEN", "SECURITY_HARDEN");
   ("REDUCE_DEPENDENCIES", "REDUCE_DEPENDENCIES");
   ("DEPENDENCY_REDUCTION", "REDUCE_DEPENDENCIES");
   ("RUN_QC", "RUN_QC");
   ("QC", "RUN_QC");
   ("ARCHITECTURE", "ARCHITECTURE_DOCS");
   ("ARCHITECTURE_DOCS", "ARCHITECTURE_DOCS");
   ("ANALYZE", "ANALYZE_ONLY");
   ("ANALYZE_ONLY", "ANALYZE_ONLY");
   ("ANALYSIS", "ANALYZE_ONLY");
   ("SELF_ANALYZE", "SELF_ANALYZE")].

Definition OFFICIAL_OUTPUT_MODES : list string :=
  ["ANALYZE_ONLY"; "PLAN_ONLY"; "PATCH_PROPOSAL"; "APPLY_PATCH"; "FULL_BUILD";
   "DEPENDENCY_REDUCTION"; "RUN_QC"; "FULL_TRANSFORMATION"].

Definition OFFICIAL_DEPTH_MODES : list string :=
  ["SPRINT"; "STANDARD"; "PRODUCTION"; "REGULATED"; "AUTONOMOUS_LONG_RUN"].

Definition OFFICIAL_DATA_CLASSIFICATIONS : list string :=
  ["TIER_0_PUBLIC"; "TIER_1_INTERNAL"; "TIER_2_SENSITIVE"; "TIER_3_REGULATED"].

(** [str(value or "").strip().upper().replace("-", "_").replace(" ", "_")] *)
Definition fold_token (value : val) : string :=
  str_replace " " "_"
    (str_replace "-" "_" (str_upper (str_strip (py_str (py_or value (VStr "")))))).

Definition normalize_mission_type (value : val) (default_if_empty : string) : result string :=
  let folded := fold_token value in
  if String.eqb folded "" then Ok default_if_empty
  else match dget MISSION_TYPE_ALIASES folded with
       | None => Raise UnknownMissionTypeError
       | Some mapped => Ok mapped
       end.

(** The three normalisers without an alias table differ in the vocabulary. *)
Definition normalize_output_mode (value : val) (default_if_empty : string) : result string :=
  let folded := fold_token value in
  if String.eqb folded "" then Ok default_if_empty
  else if negb (str_in folded OFFICIAL_OUTPUT_MODES) then Raise UnknownMissionTypeError
  else Ok folded.

Definition normalize_depth_mode (value : val) (default_if_empty : string) : result string :=
  let folded := fold_token value in
  if String.eqb folded "" then Ok default_if_empty
  else if negb (str_in folded OFFICIAL_DEPTH_MODES) then Raise UnknownMissionTypeError
  else Ok folded.

Definition normalize_data_classification (value : val) (default_if_empty : string) : result string :=
  let folded := fold_token value in
  if String.eqb folded "" then Ok default_if_empty
  else if negb (str_in folded OFFICIAL_DATA_CLASSIFICATIONS) then Raise UnknownMissionTypeError
  else Ok folded.

(** ** Lemmas *)

(** Every alias leads to an official type, and official types to themselves. *)
Lemma aliases_official :
  Forall (fun kv => str_in kv.2 OFFICIAL_MISSION_TYPES = true) MISSION_TYPE_ALIASES.
Proof. by repeat constructor. Qed.

Lemma official_self t :
  t ∈ OFFICIAL_MISSION_TYPES -> normalize_mission_type (VStr t) "BUILD_NEW" = Ok t.
Proof.
  intros Ht.
  assert (Forall (fun t => normalize_mission_type (VStr t) "BUILD_NEW" = Ok t)
            OFFICIAL_MISSION_TYPES) as H by (repeat constructor; by_compute).
  exact (proj1 (Forall_forall _ _) H t Ht).
Qed.

Lemma alias_lookup_official k t :
  dget MISSION_TYPE_ALIASES k = Some t -> t ∈ OFFICIAL_MISSION_TYPES.
Proof.
  intros H%dget_In. apply str_in_spec.
  pose proof (proj1 (Forall_forall _ _) aliases_official _ H) as Ho. done.
Qed.

(** The text that reaches the default: nothing but white space. *)
Lemma fold_token_empty value :
  fold_token value = "" <-> str_strip (py_str (py_or value (VStr ""))) = "".
Proof.
  unfold fold_token, str_replace, str_upper. by rewrite !str_map_empty.
Qed.

(** Case and surrounding white space do not matter. *)
Lemma fold_token_upper s : fold_token (VStr (str_upper s)) = fold_token (VStr s).
Proof.
  unfold fold_token, py_or. simpl.
  assert (String.eqb (str_upper s) "" = String.eqb s "") as -> by by destruct s.
  destruct (String.eqb s ""); simpl; [done|].
  by rewrite str_strip_upper, str_upper_idemp.
Qed.

(** ** Properties *)

(** An unknown mission type is never turned into [BUILD_NEW] or any other
    type.  A blank value gives the default; any other value is either accepted
    as an official type named by the alias table, or raises
    [UnknownMissionTypeError]; and a normalised type is a fixed point. *)
Lemma normalize_mission_type_sound value d :
  match normalize_mission_type value d with
  | Ok t =>
      (fold_token value = "" /\ t = d) \/
      (fold_token value <> "" /\ dget MISSION_TYPE_ALIASES (fold_token value) = Some t /\
       t ∈ OFFICIAL_MISSION_TYPES /\ normalize_mission_type (VStr t) d = Ok t)
  | Raise e =>
      e = UnknownMissionTypeError /\ fold_token value <> "" /\
      fold_token value ∉ dkeys MISSION_TYPE_ALIASES
  end.
Proof.
  unfold normalize_mission_type at 1.
  destruct (String.eqb_spec (fold_token value) "") as [E|E]; [by left|].
  destruct (dget _ _) as [t|] eqn:Et.
  - right. pose proof (alias_lookup_official _ _ Et) as Ho. split_and!; [done..|].
    pose proof (official_self t Ho) as Hs. revert Hs. unfold normalize_mission_type.
    destruct (String.eqb_spec (fold_token (VStr t)) "") as [Hf|]; [|done].
    intros [= <-]. done.
  - by apply dget_None_keys in Et.
Qed.

(** A data classification is never downgraded.  Whatever the default, the
    result is the default only for a blank value; otherwise it is the folded
    text itself, a member of the official vocabulary, whatever its case, and
    any other text raises. *)
Lemma normalize_data_classification_no_downgrade s d :
  normalize_data_classification (VStr (str_upper s)) d = normalize_data_classification (VStr s) d /\
  match normalize_data_classification (VStr s) d with
  | Ok r => (fold_token (VStr s) = "" /\ r = d) \/
            (r = fold_token (VStr s) /\ r ∈ OFFICIAL_DATA_CLASSIFICATIONS)
  | Raise e => e = UnknownMissionTypeError /\
               fold_token (VStr s) ∉ OFFICIAL_DATA_CLASSIFICATIONS
  end.
Proof.
  unfold normalize_data_classification. rewrite fold_token_upper. split; [done|].
  destruct (String.eqb _ "") eqn:E; [apply String.eqb_eq in E; by left|].
  destruct (str_in _ _) eqn:Ein; simpl.
  - right. split; [done|]. by apply str_in_spec.
  - split; [done|]. by apply str_in_false.
Qed.
