(* ===== verification/Agents.v ===== *)
(** * Agents

    Who does the work: the language taxonomy
    ([shared_runtime/thefactory_common/taxonomy.py]), the agent registry
    ([orchestrator/agent_registry.py]), the routing tables and resolvers of
    [orchestrator/mission_flow.py], and the copies of those tables kept by
    [orchestrator/port_coordinator.py]. *)

From S2P Require Import Prelude PyVal.

(** ** Taxonomy *)

Inductive ParadigmPod := POD_A | POD_B | POD_C | POD_D.

Inductive SupportedLanguage :=
| PYTHON | JAVASCRIPT | TYPESCRIPT | RUBY | PHP
| C | CPP | RUST | GO | ZIG
| JAVA | CSHARP | SCALA | KOTLIN
| R | MATLAB | JULIA | MATHEMATICA | HASKELL | OCAML.

#[export] Instance pod_eq_dec : EqDecision ParadigmPod.
Proof. solve_decision. Defined.
#[export] Instance language_eq_dec : EqDecision SupportedLanguage.
Proof. solve_decision. Defined.

Definition pod_value (p : ParadigmPod) : string :=
  match p with POD_A => "pod_a" | POD_B => "pod_b" | POD_C => "pod_c" | POD_D => "pod_d" end.

Definition language_value (l : SupportedLanguage) : string :=
  match l with
  | PYTHON => "python" | JAVASCRIPT => "javascript" | TYPESCRIPT => "typescript"
  | RUBY => "ruby" | PHP => "php"
  | C => "c" | CPP => "cpp" | RUST => "rust" | GO => "go" | ZIG => "zig"
  | JAVA => "java" | CSHARP => "csharp" | SCALA => "scala" | KOTLIN => "kotlin"
  | R => "r" | MATLAB => "matlab" | JULIA => "julia" | MATHEMATICA => "mathematica"
  | HASKELL => "haskell" | OCAML => "ocaml"
  end.

Definition all_languages : list SupportedLanguage :=
  [PYTHON; JAVASCRIPT; TYPESCRIPT; RUBY; PHP; C; CPP; RUST; GO; ZIG;
   JAVA; CSHARP; SCALA; KOTLIN; R; MATLAB; JULIA; MATHEMATICA; HASKELL; OCAML].

Definition POD_MANAGER_MAP : list (string * string) :=
  [("pod_a", "AGENT-03-POD-A-DYNAMIC-MGR");
   ("pod_b", "AGENT-04-POD-B-SYSTEMS-MGR");
   ("pod_c", "AGENT-05-POD-C-ENTERPRISE-MGR");
   ("pod_d", "AGENT-06-POD-D-MATH-MGR")].

Definition LANGUAGE_TO_POD_MAP (l : SupportedLanguage) : ParadigmPod :=
  match l with
  | PYTHON | JAVASCRIPT | TYPESCRIPT | RUBY | PHP => POD_A
  | C | CPP | RUST | GO | ZIG => POD_B
  | JAVA | CSHARP | SCALA | KOTLIN => POD_C
  | R | MATLAB | JULIA | MATHEMATICA | HASKELL | OCAML => POD_D
  end.

Definition ALL_SUPPORTED_LANGUAGES : list string := language_value <$> all_languages.

(** [SupportedLanguage(text)]: the member with that value, if any. *)
Definition SupportedLanguage_of (text : string) : option SupportedLanguage :=
  List.find (fun l => String.eqb (language_value l) text) all_languages.

(** The argument is a language name; [None] and [""] are both falsy. *)
Definition get_pod_for_language (language : option string) : option string :=
  match language with
  | None => None
  | Some s =>
      if String.eqb s "" then None
      else pod_value ∘ LANGUAGE_TO_POD_MAP <$> SupportedLanguage_of (str_lower (str_strip s))
  end.

Definition get_pod_manager_for_language (language : option string) : option string :=
  match get_pod_for_language language with
  | None => None
  | Some pod => dget POD_MANAGER_MAP pod
  end.

Definition is_language_supported (language : option string) : bool :=
  match language with
  | None => false
  | Some s =>
      if String.eqb s "" then false
      else str_in (str_lower (str_strip s)) ALL_SUPPORTED_LANGUAGES
  end.

(** ** Registry *)

Record AgentDefinition := mkAgent {
  ag_index : Z;
  ag_agent_id : string;
  ag_short_code : string;
  ag_name : string;
  ag_tier : string;
  ag_pod : string;
  ag_role : string;
  ag_category : string;
  ag_specialties : list string;
  ag_runtime_class : string;
}.

(** Construction with [__post_init__]: the runtime class follows the category. *)
Definition agent (index : Z) (agent_id short_code name tier pod role category : string)
    (specialties : list string) : AgentDefinition :=
  mkAgent index agent_id short_code name tier pod role category specialties
    (if str_in category ["specialist"; "pod_manager"; "pod_audit"]
     then "shared_worker" else "synthesized_heartbeat").

Definition registry_interface_executive : list AgentDefinition := [
  agent 1 "AGENT-01-PM" "PM" "PM Agent"
    "User Interface" "User Interface"
    "Program manager and mission intake translation"
    "interface" [];
  agent 2 "AGENT-02-CEO" "CEO" "CEO Agent"
    "Executive" "Executive"
    "Cross-pod orchestration and global state ownership"
    "executive" []].

Definition registry_support_ring : list AgentDefinition := [
  agent 3 "AGENT-03-BROKER" "BROKER" "API Broker"
    "Support Ring" "Support Ring"
    "API routing, key management, and rate-limit control"
    "support" [];
  agent 4 "AGENT-04-ACCOUNTANT" "ACCOUNTANT" "Accountant"
    "Support Ring" "Support Ring"
    "Token-cost monitoring and budget enforcement"
    "support" [];
  agent 5 "AGENT-05-SECURITY" "SECURITY" "Security Agent"
    "Support Ring" "Support Ring"
    "Security scanning and threat detection"
    "support" [];
  agent 6 "AGENT-06-IS" "IS" "IS Agent"
    "Support Ring" "Support Ring"
    "Knowledge indexing and standards updates"
    "support" [];
  agent 7 "AGENT-07-VC" "VC" "Version Control Agent"
    "Support Ring" "Support Ring"
    "Commit strategy, rollback, and provenance traceability"
    "support" [];
  agent 8 "AGENT-08-COMPLIANCE" "COMPLIANCE" "Compliance Agent"
    "Support Ring" "Support Ring"
    "License compatibility and legal provenance checks"
    "support" [];
  agent 9 "AGENT-09-HW" "HW" "Hardware-Mapping Injector"
    "Support Ring" "Support Ring"
    "Reserved: target-profile hints for generation (no compilation role)"
    "support" [];
  agent 10 "AGENT-10-TESTER" "TESTER" "System Integration Tester"
    "Support Ring" "Support Ring"
    "End-to-end validation and performance benchmarking"
    "support" [];
  agent 11 "AGENT-11-DEPLOY" "DEPLOY" "Deployment Agent"
    "Support Ring" "Support Ring"
    "Artifact packaging, delivery, and environment setup"
    "support" []].

Definition registry_pod_a : list AgentDefinition := [
  agent 12 "AGENT-12-PODA-MGR" "PODA-MGR" "Pod A Sub-Manager"
    "Refinement Pod" "Pod A"
    "Coordinate dynamic-language extraction and fusion in Pod A"
    "pod_manager" [];
  agent 13 "AGENT-13-PODA-AUDIT" "PODA-AUDIT" "Pod A QC/Audit"
    "Refinement Pod" "Pod A"
    "Verify Pod A LogicNodes before pod-level release"
    "pod_audit" [];
  agent 14 "AGENT-14-PYTHON" "PYTHON" "Python Specialist"
    "Refinement Pod" "Pod A"
    "Extract computational intent from Python workloads"
    "specialist" ["python"];
  agent 15 "AGENT-15-JAVASCRIPT" "JAVASCRIPT" "JavaScript Specialist"
    "Refinement Pod" "Pod A"
    "Extract computational intent from JavaScript/TypeScript workloads"
    "specialist" ["javascript"];
  agent 16 "AGENT-16-RUBY" "RUBY" "Ruby Specialist"
    "Refinement Pod" "Pod A"
    "Extract computational intent from Ruby workloads"
    "specialist" ["ruby"];
  agent 17 "AGENT-17-PHP" "PHP" "PHP Specialist"
    "Refinement Pod" "Pod A"
    "Extract computational intent from PHP workloads"
    "specialist" ["php"]].

Definition registry_pod_b : list AgentDefinition := [
  agent 18 "AGENT-18-PODB-MGR" "PODB-MGR" "Pod B Sub-Manager"
    "Refinement Pod" "Pod B"
    "Coordinate systems-language extraction and fusion in Pod B"
    "pod_manager" [];
  agent 19 "AGENT-19-PODB-AUDIT" "PODB-AUDIT" "Pod B QC/Audit"
    "Refinement Pod" "Pod B"
    "Verify Pod B LogicNodes before pod-level release"
    "pod_audit" [];
  agent 20 "AGENT-20-C" "C" "C Specialist"
    "Refinement Pod" "Pod B"
    "Extract computational intent from C workloads"
    "specialist" ["c"];
  agent 21 "AGENT-21-CPP" "CPP" "C++ Specialist"
    "Refinement Pod" "Pod B"
    "Extract computational intent from C++ workloads"
    "specialist" ["cpp"];
  agent 22 "AGENT-22-RUST" "RUST" "Rust Specialist"
    "Refinement Pod" "Pod B"
    "Extract computational intent from Rust workloads"
    "specialist" ["rust"];
  agent 23 "AGENT-23-ZIG" "ZIG" "Zig Specialist"
    "Refinement Pod" "Pod B"
    "Extract computational intent from Zig workloads"
    "specialist" ["zig"]].

Definition registry_pod_c : list AgentDefinition := [
  agent 24 "AGENT-24-PODC-MGR" "PODC-MGR" "Pod C Sub-Manager"
    "Refinement Pod" "Pod C"
    "Coordinate enterprise-language extraction and fusion in Pod C"
    "pod_manager" [];
  agent 25 "AGENT-25-PODC-AUDIT" "PODC-AUDIT" "Pod C QC/Audit"
    "Refinement Pod" "Pod C"
    "Verify Pod C LogicNodes before pod-level release"
    "pod_audit" [];
  agent 26 "AGENT-26-JAVA" "JAVA" "Java Specialist"
    "Refinement Pod" "Pod C"
    "Extract computational intent from Java workloads"
    "specialist" ["java"];
  agent 27 "AGENT-27-CSHARP" "CSHARP" "C# Specialist"
    "Refinement Pod" "Pod C"
    "Extract computational intent from C# workloads"
    "specialist" ["csharp"];
  agent 28 "AGENT-28-SCALA" "SCALA" "Scala Specialist"
    "Refinement Pod" "Pod C"
    "Extract computational intent from Scala workloads"
    "specialist" ["scala"];
  agent 29 "AGENT-29-KOTLIN" "KOTLIN" "Kotlin Specialist"
    "Refinement Pod" "Pod C"
    "Extract computational intent from Kotlin workloads"
    "specialist" ["kotlin"]].

Definition registry_pod_d : list AgentDefinition := [
  agent 30 "AGENT-30-PODD-MGR" "PODD-MGR" "Pod D Sub-Manager"
    "Refinement Pod" "Pod D"
    "Coordinate mathematical and functional language extraction and fusion in Pod D"
    "pod_manager" [];
  agent 31 "AGENT-31-PODD-AUDIT" "PODD-AUDIT" "Pod D QC/Audit"
    "Refinement Pod" "Pod D"
    "Verify Pod D LogicNodes before pod-level release"
    "pod_audit" [];
  agent 32 "AGENT-32-MATLAB" "MATLAB" "MATLAB Specialist"
    "Refinement Pod" "Pod D"
    "Extract computational intent from MATLAB workloads"
    "specialist" ["matlab"];
  agent 33 "AGENT-33-R" "R" "R Specialist"
    "Refinement Pod" "Pod D"
    "Extract computational intent from R workloads"
    "specialist" ["r"];
  agent 34 "AGENT-34-JULIA" "JULIA" "Julia Specialist"
    "Refinement Pod" "Pod D"
    "Extract computational intent from Julia workloads"
    "specialist" ["julia"];
  agent 35 "AGENT-35-MATHEMATICA" "MATHEMATICA" "Mathematica Specialist"
    "Refinement Pod" "Pod D"
    "Extract computational intent from Mathematica workloads"
    "specialist" ["mathematica"]].

Definition registry_additions : list AgentDefinition := [
  agent 36 "AGENT-36-GO" "GO" "Go Specialist"
    "Refinement Pod" "Pod B"
    "Extract computational intent from Go workloads"
    "specialist" ["go"];
  agent 37 "AGENT-37-HASKELL" "HASKELL" "Haskell Specialist"
    "Refinement Pod" "Pod D"
    "Extract computational intent from Haskell workloads"
    "specialist" ["haskell"];
  agent 38 "AGENT-38-OCAML" "OCAML" "OCaml Specialist"
    "Refinement Pod" "Pod D"
    "Extract computational intent from OCaml workloads"
    "specialist" ["ocaml"];
  agent 39 "AGENT-39-DEPABS" "DEPABS" "Dependency Absorption Agent"
    "Support Ring" "Support Ring"
    "Dependency absorption: intent extraction, equivalence planning, and SBOM delta"
    "support" [];
  agent 40 "AGENT-40-TESTDATA" "TESTDATA" "Database and Test Data Agent"
    "Support Ring" "Support Ring"
    "Ephemeral test environment provisioning, schema setup, and synthetic data generation"
    "support" [];
  agent 41 "AGENT-41-RQCA" "RQCA" "Runtime QC Agent"
    "Support Ring" "Support Ring"
    "AI-driven browser and CLI runtime quality control in ephemeral sandbox environments"
    "support" []].

Definition AGENT_REGISTRY : list AgentDefinition :=
  registry_interface_executive ++ registry_support_ring ++ registry_pod_a ++
  registry_pod_b ++ registry_pod_c ++ registry_pod_d ++ registry_additions.

Definition LANGUAGE_ALIASES : list (string * string) :=
  [("js", "javascript"); ("javascript", "javascript"); ("typescript", "javascript");
   ("ts", "javascript"); ("py", "python"); ("python", "python"); ("rb", "ruby");
   ("ruby", "ruby"); ("php", "php"); ("go", "go"); ("golang", "go"); ("c", "c");
   ("c++", "cpp"); ("cpp", "cpp"); ("cc", "cpp"); ("rust", "rust"); ("zig", "zig");
   ("java", "java"); ("c#", "csharp"); ("csharp", "csharp"); ("scala", "scala");
   ("kotlin", "kotlin"); ("matlab", "matlab"); ("r", "r"); ("julia", "julia");
   ("mathematica", "mathematica"); ("haskell", "haskell"); ("hs", "haskell");
   ("ocaml", "ocaml"); ("ml", "ocaml")].

(** [agent_registry.normalize_language]; [replace(" ", "")] drops the spaces. *)
Definition registry_normalize_language (value : option string) : string :=
  match value with
  | None => ""
  | Some s =>
      if String.eqb s "" then ""
      else
        let normalized := unchars (List.filter (fun a => negb (Ascii.eqb a " "))
                                     (chars (str_lower (str_strip s)))) in
        default normalized (dget LANGUAGE_ALIASES normalized)
  end.

(** ** Routing *)

Definition PM_AGENT_ID := "AGENT-01-PM".
Definition CEO_AGENT_ID := "AGENT-02-CEO".
Definition DEFAULT_POD_MANAGER_AGENT_ID := "AGENT-12-PODA-MGR".
Definition DEFAULT_SPECIALIST_AGENT_ID := "AGENT-14-PYTHON".
Definition ROUTING_VERSION := "v1.1".

(** [{lang.value for lang, pod in LANGUAGE_TO_POD_MAP.items() if pod == p}] *)
Definition pod_languages (p : ParadigmPod) : list string :=
  language_value <$> List.filter (fun l => bool_decide (LANGUAGE_TO_POD_MAP l = p)) all_languages.

Definition POD_MANAGER_BY_LANGUAGE : list (string * string) :=
  foldl dupdate []
    [ (fun l => (l, "AGENT-12-PODA-MGR")) <$> pod_languages POD_A;
      (fun l => (l, "AGENT-18-PODB-MGR")) <$> pod_languages POD_B;
      (fun l => (l, "AGENT-24-PODC-MGR")) <$> pod_languages POD_C;
      (fun l => (l, "AGENT-30-PODD-MGR")) <$> pod_languages POD_D ].

Definition SPECIALIST_BY_LANGUAGE : list (string * string) :=
  [("python", "AGENT-14-PYTHON"); ("javascript", "AGENT-15-JAVASCRIPT");
   ("typescript", "AGENT-15-JAVASCRIPT"); ("ruby", "AGENT-16-RUBY");
   ("php", "AGENT-17-PHP"); ("c", "AGENT-20-C"); ("cpp", "AGENT-21-CPP");
   ("rust", "AGENT-22-RUST"); ("zig", "AGENT-23-ZIG"); ("go", "AGENT-36-GO");
   ("java", "AGENT-26-JAVA"); ("csharp", "AGENT-27-CSHARP"); ("scala", "AGENT-28-SCALA");
   ("kotlin", "AGENT-29-KOTLIN"); ("matlab", "AGENT-32-MATLAB"); ("r", "AGENT-33-R");
   ("julia", "AGENT-34-JULIA"); ("mathematica", "AGENT-35-MATHEMATICA");
   ("haskell", "AGENT-37-HASKELL"); ("ocaml", "AGENT-38-OCAML")].

Definition normalize_agent_id (value : val) : option string :=
  match value with
  | VStr s =>
      let normalized := str_upper (str_strip s) in
      if String.eqb normalized "" then None else Some normalized
  | _ => None
  end.

(** [mission_flow.normalize_language]; the argument is a [str] or [None]. *)
Definition normalize_language (value : option string) : string :=
  match value with Some s => str_lower (str_strip s) | None => "" end.

Definition resolve_pod_manager_agent_id (language : option string) : string :=
  default DEFAULT_POD_MANAGER_AGENT_ID (dget POD_MANAGER_BY_LANGUAGE (normalize_language language)).

Definition resolve_specialist_agent_id (language : option string) : string :=
  default DEFAULT_SPECIALIST_AGENT_ID (dget SPECIALIST_BY_LANGUAGE (normalize_language language)).

(** The tables [port_coordinator.py] keeps for PORT missions. *)
Definition port_POD_MANAGER_BY_LANGUAGE : list (string * string) :=
  [("python", "AGENT-12-PODA-MGR"); ("javascript", "AGENT-12-PODA-MGR");
   ("typescript", "AGENT-12-PODA-MGR"); ("ruby", "AGENT-12-PODA-MGR");
   ("php", "AGENT-12-PODA-MGR");
   ("c", "AGENT-18-PODB-MGR"); ("cpp", "AGENT-18-PODB-MGR"); ("rust", "AGENT-18-PODB-MGR");
   ("go", "AGENT-18-PODB-MGR"); ("zig", "AGENT-18-PODB-MGR");
   ("java", "AGENT-24-PODC-MGR"); ("csharp", "AGENT-24-PODC-MGR");
   ("scala", "AGENT-24-PODC-MGR"); ("kotlin", "AGENT-24-PODC-MGR");
   ("matlab", "AGENT-30-PODD-MGR"); ("r", "AGENT-30-PODD-MGR");
   ("julia", "AGENT-30-PODD-MGR"); ("mathematica", "AGENT-30-PODD-MGR");
   ("haskell", "AGENT-30-PODD-MGR"); ("ocaml", "AGENT-30-PODD-MGR")].

Definition port_SPECIALIST_BY_LANGUAGE : list (string * string) :=
  [("python", "AGENT-14-PYTHON"); ("javascript", "AGENT-15-JAVASCRIPT");
   ("typescript", "AGENT-15-JAVASCRIPT"); ("ruby", "AGENT-16-RUBY");
   ("php", "AGENT-17-PHP"); ("c", "AGENT-20-C"); ("cpp", "AGENT-21-CPP");
   ("rust", "AGENT-22-RUST"); ("zig", "AGENT-23-ZIG");
   ("java", "AGENT-26-JAVA"); ("csharp", "AGENT-27-CSHARP"); ("scala", "AGENT-28-SCALA");
   ("kotlin", "AGENT-29-KOTLIN"); ("matlab", "AGENT-32-MATLAB"); ("r", "AGENT-33-R");
   ("julia", "AGENT-34-JULIA"); ("mathematica", "AGENT-35-MATHEMATICA");
   ("go", "AGENT-36-GO"); ("haskell", "AGENT-37-HASKELL"); ("ocaml", "AGENT-38-OCAML")].

(** ** Lemmas *)

(** [registered id cat pod]: the registry has an agent with this id. *)
Definition registered_in (agent_id category pod : string) : bool :=
  existsb (fun a => String.eqb (ag_agent_id a) agent_id && String.eqb (ag_category a) category &&
                    String.eqb (ag_pod a) pod) AGENT_REGISTRY.

Definition registered_ids : list string := ag_agent_id <$> AGENT_REGISTRY.

(** A lookup with a default lands on a table entry or on the default. *)
Lemma table_lookup_forall {A} (P : string -> A -> Prop) (t : list (string * A)) k :
  Forall (fun kv => P kv.1 kv.2) t ->
  match dget t k with Some v => P k v | None => True end.
Proof.
  intros Ht. destruct (dget t k) as [v|] eqn:E; [|done].
  by apply (proj1 (Forall_forall _ _) Ht (k, v)), dget_In.
Qed.

(** Two tables that agree key by key on both key sets agree on every key. *)
Lemma tables_agree (t1 t2 : list (string * string)) :
  forallb (fun k => bool_decide (dget t1 k = dget t2 k)) (dkeys t1 ++ dkeys t2) = true ->
  forall k, dget t1 k = dget t2 k.
Proof.
  intros Hall k. rewrite List.forallb_forall in Hall.
  destruct (decide (k ∈ dkeys t1 ++ dkeys t2)) as [Hin|Hout].
  - apply list_elem_of_In, Hall in Hin. by apply bool_decide_eq_true in Hin.
  - rewrite not_elem_of_app in Hout. destruct Hout as [H1 H2].
    by rewrite (proj2 (dget_None_keys t1 k) H1), (proj2 (dget_None_keys t2 k) H2).
Qed.

(** A property of both routing results at once, over every language text. *)
Lemma routing_forall (p : string -> string -> string -> bool) :
  forallb (fun k => p k (default DEFAULT_POD_MANAGER_AGENT_ID (dget POD_MANAGER_BY_LANGUAGE k))
                        (default DEFAULT_SPECIALIST_AGENT_ID (dget SPECIALIST_BY_LANGUAGE k)))
    (dkeys POD_MANAGER_BY_LANGUAGE ++ dkeys SPECIALIST_BY_LANGUAGE) = true ->
  (forall k, p k DEFAULT_POD_MANAGER_AGENT_ID DEFAULT_SPECIALIST_AGENT_ID = true) ->
  forall language, p (normalize_language language)
    (resolve_pod_manager_agent_id language) (resolve_specialist_agent_id language) = true.
Proof.
  intros Hkeys Hdef language. unfold resolve_pod_manager_agent_id, resolve_specialist_agent_id.
  set (k := normalize_language language). rewrite List.forallb_forall in Hkeys.
  destruct (decide (k ∈ dkeys POD_MANAGER_BY_LANGUAGE ++ dkeys SPECIALIST_BY_LANGUAGE)) as [Hin|Hout].
  - by apply Hkeys, list_elem_of_In.
  - rewrite not_elem_of_app in Hout. destruct Hout as [H1 H2].
    rewrite (proj2 (dget_None_keys _ k) H1), (proj2 (dget_None_keys _ k) H2). apply Hdef.
Qed.

(** The registry names of the four pods. *)
Definition pod_title (pod : string) : string :=
  if String.eqb pod "pod_a" then "Pod A" else if String.eqb pod "pod_b" then "Pod B"
  else if String.eqb pod "pod_c" then "Pod C" else "Pod D".

Lemma SupportedLanguage_of_value l : SupportedLanguage_of (language_value l) = Some l.
Proof. by destruct l. Qed.

Lemma SupportedLanguage_of_Some s l : SupportedLanguage_of s = Some l -> s = language_value l.
Proof.
  unfold SupportedLanguage_of. intros H. apply List.find_some in H.
  destruct H as [_ H%String.eqb_eq]. done.
Qed.

(** The supported languages are exactly the texts that name a pod. *)
Lemma get_pod_for_language_Some language p :
  get_pod_for_language language = Some p ->
  exists l, normalize_language language = language_value l /\ p = pod_value (LANGUAGE_TO_POD_MAP l).
Proof.
  destruct language as [s|]; simpl; [|done].
  destruct (String.eqb s ""); [done|].
  destruct (SupportedLanguage_of _) as [l|] eqn:E; simpl; [|done].
  intros [= <-]. exists l. by apply SupportedLanguage_of_Some in E.
Qed.

Lemma str_in_languages s : str_in s ALL_SUPPORTED_LANGUAGES = true <-> is_Some (SupportedLanguage_of s).
Proof.
  rewrite str_in_spec. unfold ALL_SUPPORTED_LANGUAGES. split.
  - intros (l & -> & _)%list_elem_of_fmap. by rewrite SupportedLanguage_of_value.
  - intros [l ->%SupportedLanguage_of_Some]. apply list_elem_of_fmap.
    exists l. split; [done|]. apply list_elem_of_In. destruct l; simpl; tauto.
Qed.

(** Both routing results are registered, in one and the same pod. *)
Lemma routing_registered language :
  exists pod, registered_in (resolve_pod_manager_agent_id language) "pod_manager" pod = true /\
              registered_in (resolve_specialist_agent_id language) "specialist" pod = true.
Proof.
  pose proof (routing_forall (fun _ m s => existsb (fun pod =>
    registered_in m "pod_manager" pod && registered_in s "specialist" pod)
    ["Pod A"; "Pod B"; "Pod C"; "Pod D"])) as H.
  specialize (H ltac:(by_compute) ltac:(intros; by_compute) language).
  apply List.existsb_exists in H as (pod & _ & [H1 H2]%andb_true_iff). by exists pod.
Qed.

(** ** Properties *)

(** Routing is closed under the registry.  For every requested language,
    known or not, the resolved pod manager and the resolved specialist are
    registered agents of the right category, and both belong to the same pod;
    an unknown language is routed to the Pod A manager and the Python
    specialist. *)
Lemma routing_closed language :
  (exists pod, registered_in (resolve_pod_manager_agent_id language) "pod_manager" pod = true /\
               registered_in (resolve_specialist_agent_id language) "specialist" pod = true) /\
  (is_language_supported language = false ->
   resolve_pod_manager_agent_id language = DEFAULT_POD_MANAGER_AGENT_ID /\
   resolve_specialist_agent_id language = DEFAULT_SPECIALIST_AGENT_ID).
Proof.
  split; [apply routing_registered|]. intros Hno.
  pose proof (routing_forall (fun k m s =>
    str_in k ALL_SUPPORTED_LANGUAGES ||
    (String.eqb m DEFAULT_POD_MANAGER_AGENT_ID && String.eqb s DEFAULT_SPECIALIST_AGENT_ID))) as H.
  specialize (H ltac:(by_compute)
    ltac:(intros; cbv beta; rewrite !String.eqb_refl; apply orb_true_r) language).
  assert (str_in (normalize_language language) ALL_SUPPORTED_LANGUAGES = false) as Hk.
  { clear H. destruct language as [t|]; [|by_compute]. simpl in *.
    destruct (String.eqb_spec t "") as [E|]; [by rewrite E|done]. }
  cbv beta in H. rewrite Hk in H. simpl in H. apply andb_true_iff in H as [H1 H2].
  by apply String.eqb_eq in H1, H2.
Qed.

Lemma routing_closed_witness :
  is_language_supported (Some "cobol") = false /\
  resolve_specialist_agent_id (Some "cobol") = "AGENT-14-PYTHON".
Proof.
  split; [by_compute|].
  exact (proj2 (proj2 (routing_closed (Some "cobol")) ltac:(vm_compute; reflexivity))).
Defined.

(** The taxonomy and the routing tables agree.  A text is a supported
    language exactly when it names a pod, and then the manager and specialist
    it is routed to are registered in that very pod. *)
Lemma taxonomy_routing_agree language :
  (is_language_supported language = true <-> is_Some (get_pod_for_language language)) /\
  forall pod, get_pod_for_language language = Some pod ->
    registered_in (resolve_pod_manager_agent_id language) "pod_manager" (pod_title pod) = true /\
    registered_in (resolve_specialist_agent_id language) "specialist" (pod_title pod) = true.
Proof.
  split.
  - unfold is_language_supported, get_pod_for_language.
    destruct language as [s|]; [|split; [done|by intros [? ?]]].
    destruct (String.eqb s ""); [split; [done|by intros [? ?]]|].
    rewrite str_in_languages, fmap_is_Some. done.
  - intros pod (l & Hl & ->)%get_pod_for_language_Some.
    unfold resolve_pod_manager_agent_id, resolve_specialist_agent_id. rewrite Hl.
    destruct l; split; by_compute.
Qed.

Lemma taxonomy_routing_agree_witness :
  registered_in (resolve_specialist_agent_id (Some " Rust ")) "specialist" "Pod B" = true.
Proof.
  exact (proj2 (proj2 (taxonomy_routing_agree (Some " Rust ")) "pod_b" ltac:(vm_compute; reflexivity))).
Defined.

(** the tables [port_coordinator.py] duplicates give, on every text, the
    entry of the [mission_flow.py] tables, so a PORT mission is routed like any
    other. *)
Lemma port_tables_agree k :
  dget port_POD_MANAGER_BY_LANGUAGE k = dget POD_MANAGER_BY_LANGUAGE k /\
  dget port_SPECIALIST_BY_LANGUAGE k = dget SPECIALIST_BY_LANGUAGE k.
Proof. split; revert k; apply tables_agree; by_compute. Qed.

(** the pod managers the taxonomy names are not agents of the system.  For
    every supported language [get_pod_manager_for_language] answers an id that
    is absent from the registry, hence never the manager that routing assigns. *)
Lemma taxonomy_pod_managers_unregistered language m :
  get_pod_manager_for_language language = Some m ->
  (m ∉ registered_ids) /\ m <> resolve_pod_manager_agent_id language.
Proof.
  unfold get_pod_manager_for_language. intros H.
  destruct (get_pod_for_language language) as [pod|] eqn:Ep; [|done].
  assert (m ∉ registered_ids) as Hm.
  { apply dget_In in H. unfold POD_MANAGER_MAP in H. rewrite !elem_of_cons in H.
    apply str_in_false.
    destruct H as [[= -> ->]|[[= -> ->]|[[= -> ->]|[[= -> ->]|[]%not_elem_of_nil]]]]; by_compute. }
  split; [done|]. intros ->. apply Hm, str_in_spec.
  destruct (routing_registered language) as (q & Hq & _).
  unfold registered_in in Hq. apply List.existsb_exists in Hq as (a & Ha & Hq).
  rewrite !andb_true_iff in Hq. destruct Hq as [[Hid _] _]. apply String.eqb_eq in Hid.
  rewrite <- Hid. apply str_in_spec, list_elem_of_fmap. exists a. split; [done|].
  by apply list_elem_of_In.
Qed.

Lemma taxonomy_pod_managers_unregistered_witness :
  "AGENT-03-POD-A-DYNAMIC-MGR" ∉ registered_ids.
Proof.
  exact (proj1 (taxonomy_pod_managers_unregistered (Some "python") "AGENT-03-POD-A-DYNAMIC-MGR"
    ltac:(vm_compute; reflexivity))).
Defined.
