(* ===== verification/MissionStates.v ===== *)
(** * MissionStates

    The mission state machine: the states of [orchestrator/models.py] and the
    tables of [orchestrator/mission_flow_v2/transitions.py] (v2 and v1.1
    transitions, phase order, events, and the v2-to-v1 mapping). *)

From S2P Require Import Prelude PyVal.

Inductive MissionState :=
| intake | queued
| pm_intake | fetch | ceo_delegated | pod_assigned | specialist_assigned
| clarifying
| running | gating | fusion | verified | complete | failed.

#[export] Instance MissionState_eq_dec : EqDecision MissionState.
Proof. solve_decision. Defined.

Definition state_value (s : MissionState) : string :=
  match s with
  | intake => "INTAKE" | queued => "QUEUED" | pm_intake => "PM_INTAKE"
  | fetch => "FETCH" | ceo_delegated => "CEO_DELEGATED"
  | pod_assigned => "POD_ASSIGNED" | specialist_assigned => "SPECIALIST_ASSIGNED"
  | clarifying => "CLARIFYING" | running => "RUNNING" | gating => "GATING"
  | fusion => "FUSION" | verified => "VERIFIED" | complete => "COMPLETE"
  | failed => "FAILED"
  end.

Definition all_states : list MissionState :=
  [intake; queued; pm_intake; fetch; ceo_delegated; pod_assigned; specialist_assigned;
   clarifying; running; gating; fusion; verified; complete; failed].

(** [MissionState(text)]. *)
Definition MissionState_of (text : string) : result MissionState :=
  match List.find (fun s => String.eqb (state_value s) text) all_states with
  | Some s => Ok s
  | None => Raise ValueError
  end.

Definition V1_STATES : list MissionState :=
  [intake; queued; gating; running; fusion; verified; complete; failed].

Definition V2_STATES : list MissionState :=
  [intake; queued; pm_intake; fetch; ceo_delegated; pod_assigned; specialist_assigned;
   clarifying; running; gating; fusion; verified; complete; failed].

(** (expected state, new state, event type) *)
Definition V2_TRANSITIONS : list (MissionState * MissionState * string) :=
  [(queued, pm_intake, "MISSION_PM_INTAKE");
   (pm_intake, fetch, "MISSION_FETCH");
   (fetch, ceo_delegated, "MISSION_CEO_DELEGATED");
   (ceo_delegated, pod_assigned, "MISSION_POD_MANAGER_ASSIGNED");
   (pod_assigned, specialist_assigned, "MISSION_SPECIALIST_ASSIGNED");
   (specialist_assigned, running, "MISSION_RUNNING");
   (running, gating, "MISSION_GATING");
   (gating, fusion, "MISSION_FUSION");
   (fusion, verified, "MISSION_VERIFIED");
   (verified, complete, "MISSION_COMPLETE")].

Definition V1_TRANSITIONS : list (MissionState * MissionState * string) :=
  [(queued, running, "MISSION_RUNNING");
   (running, verified, "MISSION_VERIFIED");
   (verified, complete, "MISSION_COMPLETE")].

Definition V2_PHASE_ORDER : list MissionState :=
  [intake; queued; pm_intake; clarifying; fetch; ceo_delegated; pod_assigned;
   specialist_assigned; running; gating; fusion; verified; complete].

Definition V2_EVENT_TO_PHASE : list (string * MissionState) :=
  [("MISSION_INTAKE", intake);
   ("MISSION_QUEUED", queued);
   ("MISSION_PM_INTAKE", pm_intake);
   ("MISSION_CLARIFYING", clarifying);
   ("MISSION_FETCH", fetch);
   ("MISSION_FETCH_COMPLETE", fetch);
   ("MISSION_CEO_DELEGATED", ceo_delegated);
   ("MISSION_POD_MANAGER_ASSIGNED", pod_assigned);
   ("MISSION_SPECIALIST_ASSIGNED", specialist_assigned);
   ("MISSION_RUNNING", running);
   ("MISSION_GATING", gating);
   ("MISSION_FUSION", fusion);
   ("MISSION_VERIFIED", verified);
   ("MISSION_COMPLETE", complete)].

Definition V2_TO_V1_MAP : list (MissionState * MissionState) :=
  [(intake, intake); (queued, queued); (pm_intake, queued); (clarifying, queued);
   (fetch, queued); (ceo_delegated, queued); (pod_assigned, queued);
   (specialist_assigned, queued); (running, running); (gating, running);
   (fusion, running); (verified, verified); (complete, complete); (failed, failed)].

(** [_V2_TO_V1_MAP.get(state, state)] *)
Definition v2_map_state_to_v1 (state : MissionState) : MissionState :=
  match List.find (fun kv => bool_decide (kv.1 = state)) V2_TO_V1_MAP with
  | Some (_, v) => v
  | None => state
  end.

(** [V2_PHASE_ORDER.index(state)], or -1. *)
Definition v2_phase_index (state : MissionState) : Z :=
  match find_index (fun s => bool_decide (s = state)) V2_PHASE_ORDER with
  | Some i => Z.of_nat i
  | None => -1
  end.

(** [models.EventType]: the event types a [MissionEvent] may carry. *)
Definition EVENT_TYPES : list string :=
  ["MISSION_INTAKE"; "MISSION_QUEUED"; "MISSION_PM_INTAKE"; "MISSION_FETCH";
   "MISSION_FETCH_COMPLETE"; "MISSION_CEO_DELEGATED"; "MISSION_POD_ASSIGNED";
   "MISSION_SPECIALIST_ASSIGNED"; "MISSION_CLARIFYING"; "MISSION_RUNNING"; "MISSION_GATING";
   "MISSION_FUSION"; "MISSION_VERIFIED"; "MISSION_COMPLETE"; "MISSION_FAILED";
   "MISSION_POD_MANAGER_ASSIGNED"; "MISSION_SPECIALIST_PLANNED"; "MISSION_SCALING_DECIDED";
   "MISSION_AIM_GENERATED"; "MISSION_LOGICNODE_WRITTEN"; "MISSION_COMPLETION_BLOCKED";
   "MISSION_DELIVERED"; "MISSION_CLARIFICATION_RECEIVED"; "MISSION_CLARIFICATION_APPLIED";
   "MISSION_POD_AUDIT_COMPLETE"; "MISSION_SECURITY_ANALYSIS_COMPLETE";
   "MISSION_VC_COMMIT_STRATEGY_READY"; "MISSION_INTEGRATION_TESTS_GENERATED";
   "MISSION_COMPLIANCE_ASSESSMENT_COMPLETE"; "MISSION_DEPLOY_READINESS_ASSESSED";
   "MISSION_POD_GROUP_STANDARD_PRODUCED"; "MISSION_BUILD_ARTIFACT_WRITTEN";
   "MISSION_DEPABS_EXECUTED"; "MISSION_RUNTIME_QC_SKIPPED"; "MISSION_RUNTIME_QC_BLOCKED";
   "MISSION_RUNTIME_QC_COMPLETE"; "MISSION_EQUIVALENCE_VERIFIED";
   "MISSION_SECURITY_COMPLIANCE_PASSED"; "MISSION_SECURITY_COMPLIANCE_WARNED";
   "MISSION_TESTDATA_MANIFEST_READY"; "MISSION_EQUIVALENCE_BLOCKED";
   "MISSION_BEHAVIOURAL_EQUIVALENCE_RECORDED"; "MISSION_RUNTIME_QC_REQUALIFIED";
   "MISSION_SECURITY_COMPLIANCE_BLOCKED"; "MISSION_DEPENDENCY_ABSORPTION_BLOCKED";
   "AGENT_STATE_CHANGED"].

(** [models.VALID_TRANSITIONS] *)
Definition VALID_TRANSITIONS (s : MissionState) : list MissionState :=
  match s with
  | intake => [queued]
  | queued => [pm_intake; gating; running; failed]
  | pm_intake => [fetch; ceo_delegated; clarifying; failed]
  | clarifying => [queued; pm_intake; fetch; failed]
  | fetch => [ceo_delegated; failed]
  | ceo_delegated => [pod_assigned; failed]
  | pod_assigned => [specialist_assigned; failed]
  | specialist_assigned => [running; failed]
  | gating => [running; fusion; failed]
  | running => [gating; fusion; verified; failed]
  | fusion => [verified; failed]
  | verified => [complete; failed]
  | complete => []
  | failed => []
  end.

(** Reachability in a table of transitions. *)
Definition valid_step (s t : MissionState) : Prop := t ∈ VALID_TRANSITIONS s.

(** ** The tables as step relations *)

Definition v2_step (s t : MissionState) : Prop := exists e, (s, t, e) ∈ V2_TRANSITIONS.
Definition v1_step (s t : MissionState) : Prop := exists e, (s, t, e) ∈ V1_TRANSITIONS.

(** The successor of a state in the v2 table. *)
Definition v2_next (s : MissionState) : option (MissionState * string) :=
  match List.find (fun tr => bool_decide (tr.1.1 = s)) V2_TRANSITIONS with
  | Some (_, t, e) => Some (t, e)
  | None => None
  end.

(** Case analysis on a transition of a literal table. *)
Ltac table_cases H :=
  repeat (apply elem_of_cons in H as [H|H]; [simplify_eq|]); [..|by apply not_elem_of_nil in H].

Lemma v2_step_next s t : v2_step s t <-> exists e, v2_next s = Some (t, e).
Proof.
  split.
  - intros [e H]. exists e. unfold V2_TRANSITIONS in H. table_cases H; reflexivity.
  - intros [e H]. exists e. unfold v2_next in H.
    destruct (List.find _ _) as [[[s' t'] e']|] eqn:E; [|done]. simplify_eq.
    apply List.find_some in E as [Hin Hs]. simpl in Hs. apply bool_decide_eq_true in Hs.
    subst. by apply list_elem_of_In.
Qed.

Lemma v2_step_index s t :
  v2_step s t -> v2_phase_index s < v2_phase_index t /\ 0 < v2_phase_index s.
Proof. intros [e H]. unfold V2_TRANSITIONS in H. table_cases H; by vm_compute. Qed.

Lemma v2_rtc_index s t : rtc v2_step s t -> v2_phase_index s <= v2_phase_index t.
Proof. induction 1 as [|x y z H _ IH]; [lia|]. apply v2_step_index in H. lia. Qed.

Lemma v2_step_v1 s t :
  v2_step s t -> v2_map_state_to_v1 s = v2_map_state_to_v1 t \/
                 v1_step (v2_map_state_to_v1 s) (v2_map_state_to_v1 t).
Proof.
  intros [e H]. unfold V2_TRANSITIONS in H. table_cases H;
    first [by left; vm_compute | right; eexists; apply list_elem_of_In; simpl; tauto].
Qed.

Lemma v2_step_deterministic s t t' : v2_step s t -> v2_step s t' -> t = t'.
Proof. rewrite !v2_step_next. intros [e H] [e' H']. congruence. Qed.

Lemma MissionState_of_value s : MissionState_of (state_value s) = Ok s.
Proof. by destruct s. Qed.

#[export] Hint Resolve v2_step_index v2_step_v1 : factory.

(** ** Properties *)

(** The v2 table is a deterministic, acyclic path.  Each state has at most
    one successor; every step strictly increases the phase index; so no state is
    revisited, and a run that starts at QUEUED ends in COMPLETE after exactly
    the ten tabled transitions. *)
Lemma v2_table_path :
  (forall s t t', v2_step s t -> v2_step s t' -> t = t') /\
  (forall s t, tc v2_step s t -> v2_phase_index s < v2_phase_index t /\ s <> t) /\
  nsteps v2_step 10 queued complete /\
  (forall t, rtc v2_step queued t -> (forall u, ~ v2_step t u) -> t = complete).
Proof.
  split_and!.
  - apply v2_step_deterministic.
  - intros s t H. assert (v2_phase_index s < v2_phase_index t) as Hlt.
    { induction H as [x y H|x y z H _ IH]; apply v2_step_index in H; lia. }
    split; [done|]. intros ->. lia.
  - repeat (eapply nsteps_l; [eexists; apply list_elem_of_In; simpl; tauto|]). by constructor.
  - intros t H Hend.
    assert (t ∈ queued :: ((fun tr => tr.1.2) <$> V2_TRANSITIONS)) as Ht.
    { inversion H as [|x y z Hxy Hyz]; subst; [by apply list_elem_of_here|].
      apply rtc_inv_r in H as [->|(u & _ & e & Hu)]; [by apply list_elem_of_here|].
      apply list_elem_of_further, list_elem_of_fmap. by exists (u, t, e). }
    simpl in Ht. table_cases Ht; try done; exfalso;
      (eapply Hend, v2_step_next; eexists; reflexivity).
Qed.

Lemma v2_table_path_witness :
  v2_phase_index queued < v2_phase_index fetch /\ queued <> fetch.
Proof.
  refine (proj1 (proj2 v2_table_path) queued fetch _).
  eapply tc_l; [|apply tc_once]; eexists; apply list_elem_of_In; simpl; tauto.
Defined.

(** mission flow v2 refines v1.1.  Through [v2_map_state_to_v1] every run of
    the v2 table is a run of the v1.1 table (the microstates stutter), and a
    complete v2 run shows the whole v1.1 path from QUEUED to COMPLETE. *)
Lemma v2_refines_v1 s t :
  (rtc v2_step s t -> rtc v1_step (v2_map_state_to_v1 s) (v2_map_state_to_v1 t)) /\
  v2_map_state_to_v1 s ∈ V1_STATES /\
  v2_map_state_to_v1 (v2_map_state_to_v1 s) = v2_map_state_to_v1 s.
Proof.
  split_and!.
  - induction 1 as [x|x y z H _ IH]; [done|].
    destruct (v2_step_v1 _ _ H) as [->|H1]; [done|]. by eapply rtc_l.
  - apply list_elem_of_In. destruct s; simpl; tauto.
  - by destruct s.
Qed.

Lemma v2_refines_v1_witness : rtc v1_step queued complete.
Proof.
  refine (proj1 (v2_refines_v1 pm_intake complete) _).
  repeat (eapply rtc_l; [eexists; apply list_elem_of_In; simpl; tauto|]). by constructor.
Defined.

(** the tables are consistent with each other: the event a transition emits
    names, in [V2_EVENT_TO_PHASE], the state the transition enters; the phase
    index is the position in the order, -1 exactly for FAILED; and the value of
    a state reads back as that state. *)
Lemma v2_tables_consistent s :
  (forall t e, (s, t, e) ∈ V2_TRANSITIONS -> dget V2_EVENT_TO_PHASE e = Some t) /\
  (v2_phase_index s = -1 <-> s = failed) /\
  (0 <= v2_phase_index s -> V2_PHASE_ORDER !! Z.to_nat (v2_phase_index s) = Some s) /\
  MissionState_of (state_value s) = Ok s.
Proof.
  split_and!.
  - intros t e H. unfold V2_TRANSITIONS in H. table_cases H; reflexivity.
  - by destruct s.
  - by destruct s.
  - apply MissionState_of_value.
Qed.

Lemma v2_tables_consistent_witness : dget V2_EVENT_TO_PHASE "MISSION_GATING" = Some gating.
Proof.
  refine (proj1 (v2_tables_consistent running) gating _ _).
  apply list_elem_of_In. simpl. tauto.
Defined.

(** The transition table of the models covers both engines: every transition
    of the v2 and the v1 table is one of it, every state but the initial one can be
    reached from it and only [COMPLETE] and [FAILED] have no successor; every
    event type the tables record, and the [MISSION_<STATE>] type of every state,
    is one the event model accepts.  The one transition the code performs outside
    the table is the clarification hold, [QUEUED] to [CLARIFYING]. *)
Lemma valid_transitions_cover :
  (forall s t e, (s, t, e) ∈ V2_TRANSITIONS \/ (s, t, e) ∈ V1_TRANSITIONS ->
     valid_step s t /\ e ∈ EVENT_TYPES) /\
  (forall s, rtc valid_step intake s) /\
  (forall s, VALID_TRANSITIONS s = [] <-> s = complete \/ s = failed) /\
  (forall s, ("MISSION_" +:+ state_value s) ∈ EVENT_TYPES) /\
  ~ valid_step queued clarifying.
Proof.
  assert (forall s t, str_in (state_value t) (state_value <$> VALID_TRANSITIONS s) = true -> valid_step s t) as Hv.
  { intros s t H. apply str_in_spec, list_elem_of_fmap in H as (t' & E & Ht).
    assert (t = t') as -> by (by destruct t, t'). done. }
  split_and!.
  - intros s t e [H|H]; [unfold V2_TRANSITIONS in H|unfold V1_TRANSITIONS in H]; table_cases H;
      (split; [apply Hv; by_compute|apply str_in_spec; by_compute]).
  - assert (forall s t, str_in (state_value t) (state_value <$> VALID_TRANSITIONS s) = true ->
              rtc valid_step intake s -> rtc valid_step intake t) as Hs
      by (intros s t ? ?; eapply rtc_r; eauto).
    assert (rtc valid_step intake queued) as Hq by (eapply (Hs intake); [by_compute|apply rtc_refl]).
    assert (rtc valid_step intake pm_intake) as Hp by (eapply (Hs queued); [by_compute|done]).
    assert (rtc valid_step intake ceo_delegated) as Hc by (eapply (Hs pm_intake); [by_compute|done]).
    assert (rtc valid_step intake pod_assigned) as Ha by (eapply (Hs ceo_delegated); [by_compute|done]).
    assert (rtc valid_step intake running) as Hr by (eapply (Hs queued); [by_compute|done]).
    assert (rtc valid_step intake verified) as Hvf by (eapply (Hs running); [by_compute|done]).
    intros []; try done; first [apply rtc_refl
      | apply (Hs queued); [by_compute|done] | apply (Hs pm_intake); [by_compute|done]
      | apply (Hs pod_assigned); [by_compute|done] | apply (Hs running); [by_compute|done]
      | apply (Hs verified); [by_compute|done]].
  - intros []; simpl; (split; [try done; auto|intros [|]; congruence]).
  - intros s. apply str_in_spec. by destruct s.
  - intros H. unfold valid_step in H. simpl in H. table_cases H.
Qed.
