(* ===== verification/MissionFlow.v ===== *)
(** * MissionFlow

    [orchestrator/mission_flow.py]: the chain-of-command metadata every mission
    carries (defaults, completion exemption) and its append-only event trace. *)

From S2P Require Import Prelude PyVal Agents.

(** [metadata if isinstance(metadata, dict) else {}] precedes both loops. *)
Definition completion_policy_exempt (metadata : val) : bool :=
  match metadata with
  | VDict d =>
      existsb (fun key => match dget0 d key with VBool b => b | _ => false end)
        ["completion_policy_exempt"; "allow_empty_artifacts"]
  | _ => false
  end.

(** The agent a mission names, under the first truthy of the four keys. *)
Definition selected_agent (d : dict) : option string :=
  normalize_agent_id
    (py_or (dget0 d "selected_agent_id")
      (py_or (dget0 d "target_agent_id")
        (py_or (dget0 d "assigned_agent_id") (dget0 d "agent_id")))).

(** [[record for record in chain_trace if isinstance(record, dict)]], or []. *)
Definition clean_trace (v : val) : list val :=
  match v with VList l => List.filter is_dict l | _ => [] end.

Definition with_chain_defaults (metadata : val) (requested_target_language : option string) : dict :=
  let n := dict_value metadata in
  let n := dset n "routing_version" (VStr ROUTING_VERSION) in
  let n := dset n "routing_enforced" (VBool true) in
  let n := dset n "intake_agent_id" (VStr PM_AGENT_ID) in
  let n := dset n "executive_agent_id" (VStr CEO_AGENT_ID) in
  let n := dset n "expected_pod_manager_agent_id"
             (VStr (resolve_pod_manager_agent_id requested_target_language)) in
  let n := dset n "expected_specialist_agent_id"
             (VStr (resolve_specialist_agent_id requested_target_language)) in
  let n := match selected_agent n with
           | Some selected =>
               dset (dset n "selected_agent_id" (VStr selected)) "agent_id" (VStr selected)
           | None =>
               dset (dset n "selected_agent_id" (VStr PM_AGENT_ID)) "agent_id" (VStr PM_AGENT_ID)
           end in
  dset n "chain_trace" (VList (clean_trace (dget0 n "chain_trace"))).

(** The record appended; [ts] is [timestamp or now]. *)
Definition chain_record (event_type agent_id ts : string) (details : option dict) : dict :=
  let record := [("event_type", VStr event_type); ("agent_id", VStr agent_id); ("ts", VStr ts)] in
  match details with
  | Some ((_ :: _) as d) => dset record "details" (VDict d)
  | _ => record
  end.

Definition append_chain_event (metadata : dict) (event_type agent_id : string)
    (details : option dict) (timestamp : option string) (now : string) : dict :=
  let trace := match dget0 metadata "chain_trace" with VList l => l | _ => [] end in
  let ts := str_or (default "" timestamp) now in
  let m := dset metadata "chain_trace"
             (VList (trace ++ [VDict (chain_record event_type agent_id ts details)])) in
  let m := dset m "last_chain_event_type" (VStr event_type) in
  dset m "last_chain_event_at" (VStr ts).

(** The event types of a trace, as the callers collect them. *)
Definition chain_trace (m : dict) : list val :=
  match dget0 m "chain_trace" with VList l => l | _ => [] end.

Definition entry_event_type (v : val) : option val :=
  match v with VDict d => Some (dget0 d "event_type") | _ => None end.

(** ** Lemmas *)

Lemma normalize_agent_id_nonempty v s : normalize_agent_id v = Some s -> s <> "".
Proof.
  destruct v; simpl; try done.
  destruct (String.eqb_spec (str_upper (str_strip s0)) ""); [done|]. by intros [= <-].
Qed.

Lemma normalize_agent_id_fixed v s : normalize_agent_id v = Some s -> normalize_agent_id (VStr s) = Some s.
Proof.
  intros H. pose proof (normalize_agent_id_nonempty _ _ H) as Hne.
  destruct v; simpl in H; try done.
  destruct (String.eqb_spec (str_upper (str_strip s0)) ""); [done|].
  injection H as <-. unfold normalize_agent_id.
  rewrite str_strip_upper, str_strip_idemp, str_upper_idemp.
  by rewrite (proj2 (String.eqb_neq _ _) Hne).
Qed.

Lemma clean_trace_idemp v : clean_trace (VList (clean_trace v)) = clean_trace v.
Proof.
  destruct v; simpl; try done.
  induction l as [|x l IH]; simpl; [done|].
  destruct (is_dict x) eqn:E; simpl; [|done]. by rewrite E, IH.
Qed.

Lemma clean_trace_dicts v : Forall (fun x => is_dict x = true) (clean_trace v).
Proof.
  destruct v; simpl; try by constructor.
  apply List.Forall_forall. by intros x [_ H]%List.filter_In.
Qed.

(** What [with_chain_defaults] leaves under each key it owns. *)
Definition chain_agent (metadata : val) (lang : option string) : string :=
  default PM_AGENT_ID (selected_agent (dict_value metadata)).

Lemma selected_agent_frame d k v :
  k ∉ ["selected_agent_id"; "target_agent_id"; "assigned_agent_id"; "agent_id"] ->
  selected_agent (dset d k v) = selected_agent d.
Proof.
  intros Hk. rewrite !not_elem_of_cons in Hk. destruct_and!.
  unfold selected_agent. by rewrite !dget0_dset_ne by congruence.
Qed.

Ltac not_in_literals := apply str_in_false; by_compute.

Lemma with_chain_defaults_get metadata lang k :
  dget (with_chain_defaults metadata lang) k =
  if String.eqb k "chain_trace" then Some (VList (clean_trace (dget0 (dict_value metadata) k)))
  else if str_in k ["agent_id"; "selected_agent_id"] then Some (VStr (chain_agent metadata lang))
  else if String.eqb k "expected_specialist_agent_id" then Some (VStr (resolve_specialist_agent_id lang))
  else if String.eqb k "expected_pod_manager_agent_id" then Some (VStr (resolve_pod_manager_agent_id lang))
  else if String.eqb k "executive_agent_id" then Some (VStr CEO_AGENT_ID)
  else if String.eqb k "intake_agent_id" then Some (VStr PM_AGENT_ID)
  else if String.eqb k "routing_enforced" then Some (VBool true)
  else if String.eqb k "routing_version" then Some (VStr ROUTING_VERSION)
  else dget (dict_value metadata) k.
Proof.
  unfold with_chain_defaults, chain_agent. cbv zeta.
  rewrite !selected_agent_frame by not_in_literals.
  set (d := dict_value metadata).
  destruct (selected_agent d) as [a|]; simpl;
    (destruct (String.eqb_spec k "chain_trace") as [->|H1];
     [rewrite dget_dset_eq, !dget0_dset_ne by discriminate; done|];
     rewrite !dget_dset;
     unfold str_in; simpl;
     repeat match goal with
            | |- context [String.eqb k ?s] => destruct (String.eqb_spec k s) as [->|]; simpl
            end; repeat case_decide; congruence).
Qed.

Lemma chain_trace_with_defaults metadata lang :
  chain_trace (with_chain_defaults metadata lang) = clean_trace (dget0 (dict_value metadata) "chain_trace").
Proof. unfold chain_trace, dget0 at 1. by rewrite with_chain_defaults_get. Qed.

Lemma chain_agent_fixed metadata lang :
  selected_agent (with_chain_defaults metadata lang) = Some (chain_agent metadata lang).
Proof.
  unfold selected_agent, dget0 at 1. rewrite with_chain_defaults_get. simpl.
  rewrite py_or_truthy; unfold chain_agent.
  - destruct (selected_agent (dict_value metadata)) eqn:E; simpl; [|by_compute].
    by eapply normalize_agent_id_fixed.
  - destruct (selected_agent (dict_value metadata)) eqn:E; simpl; [|done].
    apply normalize_agent_id_nonempty in E. by rewrite (proj2 (String.eqb_neq _ _) E).
Qed.

(** Writing the defaults over metadata that has them changes nothing. *)
Lemma with_chain_defaults_idemp metadata lang :
  with_chain_defaults (VDict (with_chain_defaults metadata lang)) lang =
  with_chain_defaults metadata lang.
Proof.
  pose proof (with_chain_defaults_get metadata lang) as Hget.
  pose proof (chain_agent_fixed metadata lang) as Hsel.
  set (d := with_chain_defaults metadata lang) in *.
  unfold with_chain_defaults. change (dict_value (VDict d)) with d. cbv zeta.
  rewrite (dset_id d "routing_version") by (rewrite Hget; done).
  rewrite (dset_id d "routing_enforced") by (rewrite Hget; done).
  rewrite (dset_id d "intake_agent_id") by (rewrite Hget; done).
  rewrite (dset_id d "executive_agent_id") by (rewrite Hget; done).
  rewrite (dset_id d "expected_pod_manager_agent_id") by (rewrite Hget; done).
  rewrite (dset_id d "expected_specialist_agent_id") by (rewrite Hget; done).
  rewrite Hsel.
  rewrite (dset_id d "selected_agent_id") by (rewrite Hget; done).
  rewrite (dset_id d "agent_id") by (rewrite Hget; done).
  apply dset_id. unfold dget0. rewrite !Hget, String.eqb_refl. simpl default.
  by rewrite clean_trace_idemp.
Qed.

(** ** Properties *)

(** [with_chain_defaults] is a normal form.  It fixes the nine keys it owns
    (the routing constants, the agents resolved for the language, the selected
    agent, the trace reduced to its dictionary entries), leaves every other key
    as it was, and applying it again changes nothing, so the lifecycle may
    normalise the metadata before each of its writes. *)
Lemma with_chain_defaults_normal_form metadata lang :
  let m := with_chain_defaults metadata lang in
  with_chain_defaults (VDict m) lang = m /\
  dget m "agent_id" = dget m "selected_agent_id" /\
  dget m "expected_specialist_agent_id" = Some (VStr (resolve_specialist_agent_id lang)) /\
  Forall (fun x => is_dict x = true) (chain_trace m) /\
  (forall k, k ∉ ["routing_version"; "routing_enforced"; "intake_agent_id"; "executive_agent_id";
                  "expected_pod_manager_agent_id"; "expected_specialist_agent_id";
                  "selected_agent_id"; "agent_id"; "chain_trace"] ->
             dget m k = dget (dict_value metadata) k).
Proof.
  intros m. unfold m. split_and!.
  - apply with_chain_defaults_idemp.
  - by rewrite !with_chain_defaults_get.
  - by rewrite with_chain_defaults_get.
  - rewrite chain_trace_with_defaults. apply clean_trace_dicts.
  - intros k Hk. rewrite !not_elem_of_cons in Hk. destruct_and!.
    rewrite with_chain_defaults_get. unfold str_in. simpl.
    by rewrite !(fun s H => proj2 (String.eqb_neq k s) H) by done.
Qed.

Lemma with_chain_defaults_normal_form_witness :
  dget (with_chain_defaults (VDict [("prompt_id", VInt 7)]) (Some "rust")) "prompt_id" = Some (VInt 7).
Proof.
  exact (proj2 (proj2 (proj2 (proj2
    (with_chain_defaults_normal_form (VDict [("prompt_id", VInt 7)]) (Some "rust")))))
    "prompt_id" ltac:(apply str_in_false; vm_compute; reflexivity)).
Defined.

(** the chain trace is append-only.  Recording an event on normalised
    metadata keeps every earlier entry, in order, and adds exactly one record at
    the end, with that event type and agent; the summary keys follow it, and no
    other key changes. *)
Lemma append_chain_event_appends metadata lang event_type agent_id details timestamp now :
  let m := with_chain_defaults metadata lang in
  let m' := append_chain_event m event_type agent_id details timestamp now in
  exists record,
    chain_trace m' = chain_trace m ++ [VDict record] /\
    dget record "event_type" = Some (VStr event_type) /\
    dget record "agent_id" = Some (VStr agent_id) /\
    dget m' "last_chain_event_type" = Some (VStr event_type) /\
    dget m' "last_chain_event_at" = dget record "ts" /\
    forall k, k ∉ ["chain_trace"; "last_chain_event_type"; "last_chain_event_at"] ->
      dget m' k = dget m k.
Proof.
  intros m m'. set (ts := str_or (default "" timestamp) now).
  exists (chain_record event_type agent_id ts details).
  assert (forall k v, k ∈ ["event_type"; "agent_id"; "ts"] ->
    dget [("event_type", VStr event_type); ("agent_id", VStr agent_id); ("ts", VStr ts)] k = Some v ->
    dget (chain_record event_type agent_id ts details) k = Some v) as Hrec.
  { intros k v Hk Hv. unfold chain_record. destruct details as [[|p d]|]; [done| |done].
    rewrite dget_dset_ne; [done|]. intros <-. revert Hk. not_in_literals. }
  unfold m', append_chain_event. fold ts. cbv zeta.
  split_and!.
  - unfold chain_trace at 1. dict_simpl. done.
  - apply Hrec; [apply str_in_spec; by_compute|done].
  - apply Hrec; [apply str_in_spec; by_compute|done].
  - by dict_simpl.
  - dict_simpl. symmetry. apply Hrec; [apply str_in_spec; by_compute|done].
  - intros k Hk. rewrite !not_elem_of_cons in Hk. destruct_and!.
    by rewrite !dget_dset_ne by congruence.
Qed.

Lemma append_chain_event_appends_witness :
  chain_trace (append_chain_event (with_chain_defaults (VDict []) None)
                 "MISSION_FETCH" "AGENT-06-IS" None None "t0") <> [].
Proof.
  destruct (append_chain_event_appends (VDict []) None "MISSION_FETCH" "AGENT-06-IS" None None "t0")
    as (record & H & _).
  rewrite H. vm_compute. discriminate.
Defined.
