(* ===== verification/ProjectIdentity.v ===== *)
(** * ProjectIdentity

    [orchestrator/project_identity.py] (the project slug of a mission) and the
    pure part of [shared_runtime/mission_vault.py] (keeping provider keys out of
    everything that is persisted). *)

From S2P Require Import Prelude PyVal.

(** ** Project identity *)

(** The class of [_PROJECT_SLUG_PATTERN], whose complement is replaced. *)
Definition slug_char (a : ascii) : bool :=
  is_lower a || is_digit a || Ascii.eqb a "." || Ascii.eqb a "_" || Ascii.eqb a "-".

(** [_PROJECT_SLUG_PATTERN.sub("-", candidate)]: one dash for a maximal run. *)
Fixpoint slug_sub (in_run : bool) (l : list ascii) : list ascii :=
  match l with
  | [] => []
  | a :: l' =>
      if slug_char a then a :: slug_sub false l'
      else if in_run then slug_sub true l' else "-"%char :: slug_sub true l'
  end.

Definition dash_or_dot (a : ascii) : bool := Ascii.eqb a "-" || Ascii.eqb a ".".

Definition normalize_project_id (value : val) (fallback : string) : string :=
  let candidate := str_lower (str_strip (py_str (py_or value (VStr "")))) in
  if String.eqb candidate "" then fallback
  else
    let candidate := strip_with dash_or_dot (unchars (slug_sub false (chars candidate))) in
    if String.eqb candidate "" then fallback
    else if startswith "project-" candidate then candidate
    else "project-" +:+ candidate.

Definition UNKNOWN_PROJECT := "project-unknown".

(** A value that is a [str] with something besides white space. *)
Definition nonblank_str (v : val) : bool :=
  match v with VStr s => negb (String.eqb (str_strip s) "") | _ => false end.

Definition resolve_project_id (metadata : val) (mission_id : option string) : string :=
  let details := dict_value metadata in
  let explicit := dget0 details "project_id" in
  if nonblank_str explicit then normalize_project_id explicit UNKNOWN_PROJECT
  else
    let source := dget0 details "source" in
    if nonblank_str source then normalize_project_id source UNKNOWN_PROJECT
    else
      match mission_id with
      | Some id => if nonblank_str (VStr id) then normalize_project_id (VStr id) UNKNOWN_PROJECT
                   else UNKNOWN_PROJECT
      | None => UNKNOWN_PROJECT
      end.

(** The last part of [with_project_identity]: a missing project name is taken
    from the source. *)
Definition name_project (normalized : dict) : dict :=
  if dmem normalized "project_name" then normalized
  else
    match dget0 normalized "source" with
    | VStr source => if String.eqb (str_strip source) "" then normalized
                     else dset normalized "project_name" (VStr (str_strip source))
    | _ => normalized
    end.

Definition with_project_identity (metadata : val) (mission_id : option string) : dict :=
  let normalized := dict_value metadata in
  let project_id := resolve_project_id (VDict normalized) mission_id in
  name_project (dset normalized "project_id" (VStr project_id)).

(** ** Mission vault *)

Definition VAULT_METADATA_KEY := "vault".
Definition VAULT_TTL_SECONDS : Z := 72 * 3600.

Definition vault_key (mission_id : string) : string := "mission-vault:" +:+ mission_id.

Definition split_vault (metadata : dict) : dict * list (string * string) :=
  let raw := dget0 metadata VAULT_METADATA_KEY in
  let clean := ddel metadata VAULT_METADATA_KEY in
  let vault := match raw with
               | VDict d => (fun kv => (kv.1, py_str kv.2)) <$> List.filter (fun kv => truthy kv.2) d
               | _ => []
               end in
  (clean, vault).

Definition strip_vault (metadata : dict) : dict :=
  if dmem metadata VAULT_METADATA_KEY then ddel metadata VAULT_METADATA_KEY else metadata.

(** The scrub applied to a parsed intake payload; [None] when nothing changed. *)
Definition scrub_parsed (parsed : dict) : option dict :=
  let changed := dmem parsed VAULT_METADATA_KEY in
  let parsed := strip_vault parsed in
  match dget0 parsed "metadata" with
  | VDict md =>
      if dmem md VAULT_METADATA_KEY
      then Some (dset parsed "metadata" (VDict (strip_vault md)))
      else if changed then Some parsed else None
  | _ => if changed then Some parsed else None
  end.

Section scrub.
Context (json_loads : string -> option val) (json_dumps : val -> string).

Definition scrub_intake_payload_raw (payload_raw : string) : string :=
  if String.eqb payload_raw "" || negb (str_contains VAULT_METADATA_KEY payload_raw) then payload_raw
  else match json_loads payload_raw with
       | Some (VDict parsed) =>
           match scrub_parsed parsed with
           | Some d => json_dumps (VDict d)
           | None => payload_raw
           end
       | _ => payload_raw
       end.
End scrub.

(** ** Lemmas *)

Lemma slug_sub_valid r l : Forall (fun a => slug_char a = true) (slug_sub r l).
Proof.
  revert r. induction l as [|a l IH]; intros r; simpl; [by constructor|].
  destruct (slug_char a) eqn:E; [by constructor|].
  destruct r; [apply IH|]. by constructor.
Qed.

Lemma slug_sub_id r l : Forall (fun a => slug_char a = true) l -> slug_sub r l = l.
Proof.
  intros H. revert r. induction H as [|a l Ha _ IH]; intros r; simpl; [done|].
  by rewrite Ha, IH.
Qed.

Lemma slug_char_lower a : slug_char a = true -> ascii_lower a = a /\ is_space a = false.
Proof. by destruct a as [[] [] [] [] [] [] [] []]. Qed.

Lemma dropwhile_none {A} (p : A -> bool) l : Forall (fun a => p a = false) l -> dropwhile p l = l.
Proof. by destruct 1 as [|a l Ha _]; simpl; [|rewrite Ha]. Qed.

Lemma Forall_rev' {A} (P : A -> Prop) l : Forall P l -> Forall P (rev l).
Proof. rewrite !List.Forall_forall. intros H x Hx. apply H. by apply List.in_rev. Qed.

Lemma strip_with_Forall p (P : ascii -> Prop) s :
  Forall P (chars s) -> Forall P (chars (strip_with p s)).
Proof.
  intros H. unfold strip_with. rewrite chars_unchars.
  by apply Forall_rev', dropwhile_Forall, Forall_rev', dropwhile_Forall.
Qed.

Lemma strip_with_none p s : Forall (fun a => p a = false) (chars s) -> strip_with p s = s.
Proof.
  intros H. unfold strip_with. rewrite (dropwhile_none p (chars s)) by done.
  rewrite dropwhile_none by (by apply Forall_rev'). by rewrite rev_involutive, unchars_chars.
Qed.

(** A text that survives the slug substitution survives the whole prologue. *)
Lemma slug_prologue s :
  Forall (fun a => slug_char a = true) (chars s) ->
  str_lower (str_strip s) = s.
Proof.
  intros H. unfold str_strip. rewrite strip_with_none.
  - unfold str_lower. rewrite <- (unchars_chars s) at 2. f_equal.
    induction H as [|a l Ha _ IH]; simpl; [done|].
    f_equal; [by apply slug_char_lower|done].
  - apply (Forall_impl _ _ _ H). intros a Ha. by apply slug_char_lower.
Qed.

Lemma dropwhile_le {A} (p : A -> bool) l : (length (dropwhile p l) <= length l)%nat.
Proof. induction l as [|a l IH]; simpl; [lia|]. destruct (p a); simpl; lia. Qed.

Lemma dropwhile_full {A} (p : A -> bool) l :
  length (dropwhile p l) = length l -> dropwhile p l = l.
Proof.
  destruct l as [|a l]; simpl; [done|]. destruct (p a); [|done].
  pose proof (dropwhile_le p l). simpl. lia.
Qed.

(** A text that stripping leaves alone has nothing to drop at either end. *)
Lemma strip_with_fixed p s :
  strip_with p s = s ->
  dropwhile p (chars s) = chars s /\ dropwhile p (rev (chars s)) = rev (chars s).
Proof.
  intros H. apply (f_equal chars) in H. unfold strip_with in H. rewrite chars_unchars in H.
  pose proof (f_equal length H) as Hl. rewrite length_rev in Hl.
  pose proof (dropwhile_le p (chars s)). pose proof (dropwhile_le p (rev (dropwhile p (chars s)))).
  rewrite length_rev in *.
  assert (dropwhile p (chars s) = chars s) as E by (apply dropwhile_full; lia).
  split; [done|]. rewrite E in H. rewrite <- H at 2. by rewrite rev_involutive.
Qed.

Lemma strip_with_prefix p a pre s :
  p a = false -> s <> "" -> strip_with p s = s ->
  strip_with p (String a pre +:+ s) = String a pre +:+ s.
Proof.
  intros Ha Hs [_ H]%strip_with_fixed. unfold strip_with.
  rewrite <- (unchars_chars (String a pre +:+ s)) at 2. f_equal.
  rewrite chars_app. simpl. rewrite Ha. change (a :: chars pre ++ chars s) with ((a :: chars pre) ++ chars s).
  rewrite rev_app_distr. destruct (rev (chars s)) as [|c l] eqn:E.
  - apply (f_equal (@rev ascii)) in E. rewrite rev_involutive in E. by destruct s.
  - simpl in *. destruct (p c) eqn:Ec.
    + pose proof (dropwhile_le p l). rewrite H in *. simpl in *. lia.
    + change (c :: l ++ rev (chars pre) ++ [a]) with ((c :: l) ++ rev (a :: chars pre)).
      rewrite rev_app_distr, rev_involutive, <- E, rev_involutive. done.
Qed.

(** The canonical project ids. *)
Definition canonical_project_id (s : string) : Prop :=
  startswith "project-" s = true /\ Forall (fun a => slug_char a = true) (chars s) /\
  strip_with dash_or_dot s = s.

Lemma canonical_nonempty s : canonical_project_id s -> s <> "".
Proof. by intros [H _] ->. Qed.

Lemma normalize_canonical s fallback :
  canonical_project_id s -> normalize_project_id (VStr s) fallback = s.
Proof.
  intros Hc. pose proof (canonical_nonempty _ Hc) as Hne. destruct Hc as (Hp & Hv & Hs).
  assert (py_str (py_or (VStr s) (VStr "")) = s) as E.
  { unfold py_or. simpl. by rewrite (proj2 (String.eqb_neq s "") Hne). }
  unfold normalize_project_id. rewrite E, slug_prologue by done.
  rewrite (proj2 (String.eqb_neq s "") Hne), slug_sub_id, unchars_chars, Hs by done.
  by rewrite (proj2 (String.eqb_neq s "") Hne), Hp.
Qed.

Lemma startswith_app pre s : startswith pre (pre +:+ s) = true.
Proof.
  unfold startswith. induction pre as [|a pre IH]; simpl; [by destruct s|].
  destruct (ascii_dec a a); [done|congruence].
Qed.

Lemma normalize_project_id_canonical value fallback :
  canonical_project_id fallback -> canonical_project_id (normalize_project_id value fallback).
Proof.
  intros Hf. unfold normalize_project_id.
  destruct (String.eqb _ ""); [done|].
  set (u := unchars (slug_sub false _)).
  destruct (String.eqb_spec (strip_with dash_or_dot u) "") as [|Hne]; [done|].
  assert (Forall (fun a => slug_char a = true) (chars (strip_with dash_or_dot u))) as Hv.
  { apply strip_with_Forall. unfold u. rewrite chars_unchars. apply slug_sub_valid. }
  destruct (startswith "project-" _) eqn:Ep.
  - split_and!; [done..|]. apply strip_with_idemp.
  - split_and!.
    + apply startswith_app.
    + rewrite chars_app. apply Forall_app. split; [by repeat constructor|done].
    + apply strip_with_prefix; [done..|]. apply strip_with_idemp.
Qed.

Lemma unknown_project_canonical : canonical_project_id UNKNOWN_PROJECT.
Proof. split_and!; [done|by repeat constructor|done]. Qed.
#[export] Hint Resolve unknown_project_canonical normalize_project_id_canonical : factory.

Lemma resolve_project_id_canonical metadata mission_id :
  canonical_project_id (resolve_project_id metadata mission_id).
Proof. unfold resolve_project_id. repeat break_match; auto with factory. Qed.

Lemma nonblank_canonical s : canonical_project_id s -> nonblank_str (VStr s) = true.
Proof.
  intros Hc. pose proof (canonical_nonempty _ Hc) as Hne. destruct Hc as (_ & Hv & _).
  simpl. apply negb_true_iff, String.eqb_neq. intros E. apply Hne.
  rewrite <- (slug_prologue s Hv). unfold str_lower. by rewrite E.
Qed.

(** Once a canonical id is recorded, it is what resolution answers. *)
Lemma resolve_recorded d p mission_id :
  canonical_project_id p -> dget d "project_id" = Some (VStr p) ->
  resolve_project_id (VDict d) mission_id = p.
Proof.
  intros Hc Hp. unfold resolve_project_id, dget0. change (dict_value (VDict d)) with d.
  rewrite Hp. simpl default. rewrite nonblank_canonical by done.
  by rewrite normalize_canonical.
Qed.

Lemma name_project_frame n k : k <> "project_name" -> dget (name_project n) k = dget n k.
Proof.
  intros Hk. unfold name_project. repeat break_match; try done.
  by rewrite dget_dset_ne by congruence.
Qed.

Lemma name_project_idemp n : name_project (name_project n) = name_project n.
Proof.
  unfold name_project at 2 3.
  destruct (dmem n "project_name") eqn:En; [by unfold name_project; rewrite En|].
  destruct (dget0 n "source") eqn:Es; try (by unfold name_project; rewrite En, Es).
  destruct (String.eqb (str_strip s) "") eqn:E; [by unfold name_project; rewrite En, Es, E|].
  unfold name_project. by rewrite dmem_dset.
Qed.

Lemma with_project_identity_id metadata mission_id :
  dget (with_project_identity metadata mission_id) "project_id" =
  Some (VStr (resolve_project_id metadata mission_id)).
Proof.
  unfold with_project_identity. rewrite name_project_frame by discriminate.
  rewrite dget_dset_eq. by destruct metadata.
Qed.

Lemma strip_vault_ddel d : strip_vault d = ddel d VAULT_METADATA_KEY.
Proof.
  unfold strip_vault. destruct (dmem d VAULT_METADATA_KEY) eqn:E; [done|].
  by rewrite ddel_absent.
Qed.

Lemma strip_vault_None d : dget (strip_vault d) VAULT_METADATA_KEY = None.
Proof. rewrite strip_vault_ddel. apply dget_ddel_eq. Qed.

Lemma strip_vault_ne d k : k <> VAULT_METADATA_KEY -> dget (strip_vault d) k = dget d k.
Proof. intros. rewrite strip_vault_ddel. by apply dget_ddel_ne. Qed.

Lemma dmem_false {A} (d : list (string * A)) k : dmem d k = false -> dget d k = None.
Proof. unfold dmem. by destruct (dget d k). Qed.

Lemma scrub_parsed_clean metadata :
  let scrubbed := default metadata (scrub_parsed metadata) in
  dget scrubbed VAULT_METADATA_KEY = None /\
  forall md, dget scrubbed "metadata" = Some (VDict md) -> dget md VAULT_METADATA_KEY = None.
Proof.
  unfold scrub_parsed. cbv zeta.
  assert (dmem metadata VAULT_METADATA_KEY = false -> strip_vault metadata = metadata) as Hsame.
  { intros E. rewrite strip_vault_ddel. by apply ddel_absent. }
  unfold dget0. rewrite strip_vault_ne by discriminate.
  pose proof (strip_vault_None metadata) as Hnone.
  destruct (dget metadata "metadata") as [[| | | | |md]|] eqn:Em; simpl default.
  6: destruct (dmem md VAULT_METADATA_KEY) eqn:Ed.
  all: try (destruct (dmem metadata VAULT_METADATA_KEY) eqn:Ek; simpl default;
            [split; [done|intros ? H; rewrite strip_vault_ne in H by discriminate; congruence]
            |split; [by rewrite <- Hsame|congruence]]).
  - cbn [from_option id]. split.
    + by rewrite dget_dset_ne by discriminate.
    + intros md'. rewrite dget_dset_eq. intros [= <-]. apply strip_vault_None.
  - apply dmem_false in Ed.
    destruct (dmem metadata VAULT_METADATA_KEY) eqn:Ek; cbn [from_option id].
    + split; [done|]. intros ? H. rewrite strip_vault_ne in H by discriminate. congruence.
    + split; [by rewrite <- Hsame|congruence].
Qed.

(** ** Properties *)

(** A mission belongs to one project.  The resolved id is canonical (prefix
    [project-], slug characters only, no dash or dot at the ends), normalising it
    again changes nothing, and once [with_project_identity] has recorded it every
    later resolution answers it, whatever mission id is passed; recording twice
    is recording once. *)
Lemma project_identity_stable metadata mission_id other fallback :
  let p := resolve_project_id metadata mission_id in
  let m := with_project_identity metadata mission_id in
  canonical_project_id p /\
  normalize_project_id (VStr p) fallback = p /\
  resolve_project_id (VDict m) other = p /\
  with_project_identity (VDict m) other = m.
Proof.
  intros p m. pose proof (resolve_project_id_canonical metadata mission_id) as Hc.
  pose proof (with_project_identity_id metadata mission_id) as Hp.
  split_and!; [done|by apply normalize_canonical|by apply resolve_recorded|].
  unfold with_project_identity at 1. cbv zeta. change (dict_value (VDict m)) with m.
  rewrite (resolve_recorded m p) by done.
  rewrite (dset_id m "project_id") by done. apply name_project_idemp.
Qed.

(** Provider keys are kept out of what is persisted.  Splitting puts the
    vault aside and leaves metadata without the key and otherwise unchanged;
    stripping is that first half; and the scrub of a parsed intake payload
    leaves no vault, neither at the top level nor in its metadata. *)
Lemma vault_never_persisted metadata :
  let (clean, vault) := split_vault metadata in
  dget clean VAULT_METADATA_KEY = None /\
  strip_vault metadata = clean /\
  (forall k, k <> VAULT_METADATA_KEY -> dget clean k = dget metadata k) /\
  (forall k v, (k, v) ∈ vault -> exists d w, dget metadata VAULT_METADATA_KEY = Some (VDict d) /\
                                             (k, w) ∈ d /\ truthy w = true /\ v = py_str w) /\
  (let scrubbed := default metadata (scrub_parsed metadata) in
   dget scrubbed VAULT_METADATA_KEY = None /\
   forall md, dget scrubbed "metadata" = Some (VDict md) -> dget md VAULT_METADATA_KEY = None).
Proof.
  unfold split_vault.
  refine (conj _ (conj _ (conj _ (conj _ (scrub_parsed_clean metadata))))).
  - apply dget_ddel_eq.
  - apply strip_vault_ddel.
  - intros k Hk. by apply dget_ddel_ne.
  - intros k v Hkv. unfold dget0 in Hkv.
    destruct (dget metadata VAULT_METADATA_KEY) as [[]|] eqn:E; simpl in Hkv;
      try (by apply not_elem_of_nil in Hkv).
    apply list_elem_of_fmap in Hkv as ([k' w] & [= -> ->] & Hin).
    apply list_elem_of_In, List.filter_In in Hin as [Hin Hw].
    exists d, w. split_and!; [done| |done..]. by apply list_elem_of_In.
Qed.
