(* ===== verification/Scaling.v ===== *)
(** * Scaling

    [orchestrator/agent_scaling.py]: how many specialist instances a pod manager
    spawns, how the work items are dealt to them, how their results are merged,
    and how decision and results live in the mission metadata.

    [uuid] stands for [uuid.uuid4().hex[:8]] (indexed by the partition, since
    each call draws a new one) and [now] for the current timestamp. *)

From S2P Require Import Prelude PyVal Agents.

Definition SCALING_VERSION := "v1".
Definition ABSOLUTE_MAX_INSTANCES : Z := 8.

Definition SCALABLE_AGENT_IDS : list string :=
  ["AGENT-14-PYTHON"; "AGENT-15-JAVASCRIPT"; "AGENT-16-RUBY"; "AGENT-17-PHP";
   "AGENT-20-C"; "AGENT-21-CPP"; "AGENT-22-RUST"; "AGENT-23-ZIG"; "AGENT-36-GO";
   "AGENT-26-JAVA"; "AGENT-27-CSHARP"; "AGENT-28-SCALA"; "AGENT-29-KOTLIN";
   "AGENT-32-MATLAB"; "AGENT-33-R"; "AGENT-34-JULIA"; "AGENT-35-MATHEMATICA";
   "AGENT-37-HASKELL"; "AGENT-38-OCAML"].

(** ** Data *)

Record WorkPartition := mkPartition {
  wp_partition_id : string;
  wp_instance_index : Z;
  wp_total_instances : Z;
  wp_assigned_items : list val;
}.

Definition WorkPartition_to_dict (p : WorkPartition) : dict :=
  [("partition_id", VStr (wp_partition_id p)); ("instance_index", VInt (wp_instance_index p));
   ("total_instances", VInt (wp_total_instances p)); ("assigned_items", VList (wp_assigned_items p))].

Record ScalingDecision := mkDecision {
  sd_agent_id : string;
  sd_instance_count : Z;
  sd_partitions : list WorkPartition;
  sd_reason : string;
  sd_scaling_version : string;
  sd_decided_at : string;
}.

(** Construction with [__post_init__]: an empty timestamp becomes [now]. *)
Definition new_decision (agent_id : string) (count : Z) (partitions : list WorkPartition)
    (reason version decided_at now : string) : ScalingDecision :=
  mkDecision agent_id count partitions reason version (str_or decided_at now).

Definition ScalingDecision_to_dict (d : ScalingDecision) : dict :=
  [("agent_id", VStr (sd_agent_id d)); ("instance_count", VInt (sd_instance_count d));
   ("partitions", VList ((fun p => VDict (WorkPartition_to_dict p)) <$> sd_partitions d));
   ("reason", VStr (sd_reason d)); ("scaling_version", VStr (sd_scaling_version d));
   ("decided_at", VStr (sd_decided_at d))].

Record PartitionResult := mkPartitionResult {
  pr_partition_id : string;
  pr_instance_index : Z;
  pr_agent_id : string;
  pr_logicnodes : list val;
  pr_artifacts : list val;
  pr_report : dict;
  pr_completed_at : string;
}.

Definition new_partition_result (partition_id : string) (instance_index : Z) (agent_id : string)
    (logicnodes artifacts : list val) (report : dict) (completed_at now : string) : PartitionResult :=
  mkPartitionResult partition_id instance_index agent_id logicnodes artifacts report
    (str_or completed_at now).

Definition PartitionResult_to_dict (r : PartitionResult) : dict :=
  [("partition_id", VStr (pr_partition_id r)); ("instance_index", VInt (pr_instance_index r));
   ("agent_id", VStr (pr_agent_id r)); ("logicnodes", VList (pr_logicnodes r));
   ("artifacts", VList (pr_artifacts r)); ("report", VDict (pr_report r));
   ("completed_at", VStr (pr_completed_at r))].

Record MergedResult := mkMerged {
  mr_logicnodes : list val;
  mr_artifacts : list val;
  mr_partition_count : Z;
  mr_merge_strategy : string;
  mr_merged_at : string;
}.

Definition MergedResult_to_dict (r : MergedResult) : dict :=
  [("logicnodes", VList (mr_logicnodes r)); ("artifacts", VList (mr_artifacts r));
   ("partition_count", VInt (mr_partition_count r)); ("merge_strategy", VStr (mr_merge_strategy r));
   ("merged_at", VStr (mr_merged_at r))].

(** ** Partitioning *)

(** The loop: item number [idx] goes to bucket [idx % n]. *)
Fixpoint deal (n idx : nat) (items : list string) (buckets : list (list string)) : list (list string) :=
  match items with
  | [] => buckets
  | item :: items' => deal n (S idx) items' (alter (fun b => b ++ [item]) (idx mod n)%nat buckets)
  end.

(** [max(1, min(instance_count, len(items) if items else 1))] *)
Definition effective_count (items : list string) (instance_count : Z) : nat :=
  Z.to_nat (Z.max 1 (Z.min instance_count
    (match items with [] => 1 | _ => Z.of_nat (length items) end))).

Definition partition_workload (uuid : nat -> string) (items : list string) (instance_count : Z)
    : list WorkPartition :=
  let n := effective_count items instance_count in
  let buckets := deal n 0 items (replicate n []) in
  imap (fun i bucket =>
          mkPartition ("p" +:+ pretty (Z.of_nat i) +:+ "-" +:+ uuid i) (Z.of_nat i) (Z.of_nat n)
            (VStr <$> bucket)) buckets.

(** ** Decision *)

Definition is_scalable_agent (agent_id : string) : bool :=
  str_in (str_upper (str_strip agent_id)) SCALABLE_AGENT_IDS.

(** [math.ceil(a / b)]; exact while the counts stay below 2^53. *)
Definition ceil_div (a b : Z) : Z := (a + b - 1) / b.

Definition compute_scaling_decision (uuid : nat -> string) (now : string) (agent_id : string)
    (workload_items : list string) (max_instances items_per_instance : Z) : ScalingDecision :=
  let normalized_agent_id := str_upper (str_strip agent_id) in
  let effective_max := Z.min (Z.max 1 max_instances) ABSOLUTE_MAX_INSTANCES in
  let effective_items_per := Z.max 1 items_per_instance in
  let item_count := Z.of_nat (length workload_items) in
  if (item_count <=? effective_items_per) || negb (is_scalable_agent normalized_agent_id) then
    new_decision normalized_agent_id 1 (partition_workload uuid workload_items 1)
      ("single_instance:item_count=" +:+ pretty item_count) SCALING_VERSION "" now
  else
    let desired := Z.min effective_max (ceil_div item_count effective_items_per) in
    let desired := Z.max 1 desired in
    new_decision normalized_agent_id desired (partition_workload uuid workload_items desired)
      ("scaled:" +:+ pretty desired +:+ "_instances:item_count=" +:+ pretty item_count +:+
       ":items_per_instance=" +:+ pretty effective_items_per)
      SCALING_VERSION "" now.

(** ** Merging *)

(** [sorted(results, key=lambda r: r.instance_index)], a stable sort. *)
Fixpoint insert_result (r : PartitionResult) (l : list PartitionResult) : list PartitionResult :=
  match l with
  | [] => [r]
  | x :: l' => if pr_instance_index r <=? pr_instance_index x then r :: l else x :: insert_result r l'
  end.

Definition sort_results (l : list PartitionResult) : list PartitionResult :=
  foldr insert_result [] l.

Definition merge_partition_results (now : string) (results : list PartitionResult) : MergedResult :=
  let sorted_results := sort_results results in
  mkMerged (sorted_results ≫= pr_logicnodes) (sorted_results ≫= pr_artifacts)
    (Z.of_nat (length sorted_results)) "concatenate_by_partition_order" now.

(** ** Metadata *)

(** [tuple(x)]. *)
Definition py_tuple (v : val) : result (list val) :=
  match v with
  | VList l => Ok l
  | VStr s => Ok ((fun a => VStr (String a EmptyString)) <$> chars s)
  | VDict d => Ok (VStr <$> dkeys d)
  | _ => Raise TypeError
  end.

Definition read_partition (p : dict) : result WorkPartition :=
  i ← py_int (dget_or p "instance_index" (VInt 0));
  n ← py_int (dget_or p "total_instances" (VInt 1));
  items ← py_tuple (dget_or p "assigned_items" (VList []));
  Ok (mkPartition (py_str (dget_or p "partition_id" (VStr ""))) i n items).

(** The generator expression, in order, stopping at the first exception. *)
Fixpoint read_partitions (l : list val) : result (list WorkPartition) :=
  match l with
  | [] => Ok []
  | VDict p :: l' => w ← read_partition p; ws ← read_partitions l'; Ok (w :: ws)
  | _ :: l' => read_partitions l'
  end.

Definition scaling_decision_from_metadata (now : string) (metadata : dict)
    : result (option ScalingDecision) :=
  match dget0 metadata "scaling_decision" with
  | VDict raw =>
      match dget0 raw "partitions" with
      | VList partitions_raw =>
          partitions ← read_partitions partitions_raw;
          count ← py_int (dget_or raw "instance_count" (VInt 1));
          Ok (Some (new_decision (py_str (dget_or raw "agent_id" (VStr ""))) count partitions
            (py_str (dget_or raw "reason" (VStr "")))
            (py_str (dget_or raw "scaling_version" (VStr SCALING_VERSION)))
            (py_str (dget_or raw "decided_at" (VStr ""))) now))
      | _ => Ok None
      end
  | _ => Ok None
  end.

Definition embed_scaling_decision (metadata : dict) (decision : ScalingDecision) : dict :=
  let m := dset metadata "scaling_decision" (VDict (ScalingDecision_to_dict decision)) in
  let m := dset m "scaling_active" (VBool (1 <? sd_instance_count decision)) in
  dset m "scaling_version" (VStr (sd_scaling_version decision)).

Definition all_partitions_complete (now : string) (metadata : dict) : result bool :=
  decision ← scaling_decision_from_metadata now metadata;
  match decision with
  | None => Ok true
  | Some d =>
      if sd_instance_count d <=? 1 then Ok true
      else match dget0 metadata "partition_results" with
           | VDict partition_results =>
               Ok (forallb (fun p => dmem partition_results (wp_partition_id p)) (sd_partitions d))
           | _ => Ok false
           end
  end.

Definition record_partition_result (metadata : dict) (r : PartitionResult) : dict :=
  let partition_results := dict_value (dget0 metadata "partition_results") in
  dset metadata "partition_results"
    (VDict (dset partition_results (pr_partition_id r) (VDict (PartitionResult_to_dict r)))).

(** ** Lemmas on dealing *)

(** The items dealt to bucket [i] by the loop started at index [idx]. *)
Fixpoint dealt (n i idx : nat) (items : list string) : list string :=
  match items with
  | [] => []
  | item :: items' =>
      if decide (idx mod n = i)%nat then item :: dealt n i (S idx) items'
      else dealt n i (S idx) items'
  end.

Lemma deal_length n idx items bs : length (deal n idx items bs) = length bs.
Proof.
  revert idx bs. induction items as [|x items IH]; intros idx bs; simpl; [done|].
  by rewrite IH, length_alter.
Qed.

Lemma deal_lookup n idx items bs i :
  deal n idx items bs !! i = (fun b => b ++ dealt n i idx items) <$> bs !! i.
Proof.
  revert idx bs. induction items as [|x items IH]; intros idx bs; simpl.
  - destruct (bs !! i); simpl; [by rewrite app_nil_r|done].
  - rewrite IH. destruct (decide (idx mod n = i)%nat) as [->|Hne].
    + rewrite list_lookup_alter_eq. destruct (bs !! i); simpl; [|done].
      by rewrite <- app_assoc.
    + by rewrite list_lookup_alter_ne.
Qed.

Lemma concat_alter_app (bs : list (list string)) i x :
  (i < length bs)%nat -> concat (alter (fun b => b ++ [x]) i bs) ≡ₚ x :: concat bs.
Proof.
  revert i. induction bs as [|b bs IH]; intros [|i] Hi; simpl in Hi; try lia.
  - simpl. rewrite <- app_assoc. simpl. symmetry. apply Permutation_middle.
  - change (alter (fun b => b ++ [x]) (S i) (b :: bs))
      with (b :: alter (fun b => b ++ [x]) i bs).
    cbn [concat]. rewrite IH by lia. symmetry. apply Permutation_middle.
Qed.

Lemma deal_permutation n idx items bs :
  (0 < n)%nat -> length bs = n -> concat (deal n idx items bs) ≡ₚ concat bs ++ items.
Proof.
  intros Hn. revert idx bs. induction items as [|x items IH]; intros idx bs Hl; simpl.
  - by rewrite app_nil_r.
  - rewrite IH by by rewrite length_alter.
    rewrite concat_alter_app by (rewrite Hl; apply Nat.mod_upper_bound; lia).
    simpl. apply Permutation_middle.
Qed.

(** One more index adds one item to its own bucket and to no other. *)
Lemma deal_share_step n i k :
  (i < n)%nat ->
  ((S k + (n - 1 - i)) / n = (k + (n - 1 - i)) / n + (if decide (k mod n = i) then 1 else 0))%nat.
Proof.
  intros Hi. pose proof (Nat.div_mod_eq k n) as Hk.
  pose proof (Nat.mod_upper_bound k n ltac:(lia)) as Hr.
  set (q := (k / n)%nat) in *. set (r := (k mod n)%nat) in *.
  assert (forall c, (k + c = q * n + (r + c))%nat) as Hc by lia.
  replace (S k + (n - 1 - i))%nat with (q * n + (r + (n - i)))%nat by lia.
  rewrite Hc, !Nat.div_add_l by lia.
  assert (forall a, (a < n)%nat -> (a / n = 0)%nat) as H0 by (intros; by apply Nat.div_small).
  assert (forall a, (n <= a < n + n)%nat -> (a / n = 1)%nat) as H1.
  { intros a Ha. symmetry. apply (Nat.div_unique a n 1 (a - n)); lia. }
  case_decide.
  - rewrite (H1 (r + (n - i))%nat), (H0 (r + (n - 1 - i))%nat) by lia. lia.
  - destruct (decide (i < r)%nat).
    + rewrite (H1 (r + (n - i))%nat), (H1 (r + (n - 1 - i))%nat) by lia. lia.
    + rewrite (H0 (r + (n - i))%nat), (H0 (r + (n - 1 - i))%nat) by lia. lia.
Qed.

Lemma dealt_length n i idx items :
  (i < n)%nat ->
  (length (dealt n i idx items) + (idx + (n - 1 - i)) / n =
   (idx + length items + (n - 1 - i)) / n)%nat.
Proof.
  intros Hi. revert idx. induction items as [|x items IH]; intros idx; simpl.
  - f_equal. lia.
  - specialize (IH (S idx)). rewrite (deal_share_step n i idx Hi) in IH.
    replace (idx + S (length items))%nat with (S idx + length items)%nat by lia.
    destruct (decide (idx mod n = i)%nat); cbn [length]; lia.
Qed.

Lemma dealt_balanced n i items :
  (i < n)%nat ->
  (length items / n <= length (dealt n i 0 items) <= length items / n + 1)%nat.
Proof.
  intros Hi. pose proof (dealt_length n i 0 items Hi) as H. simpl in H.
  assert ((n - 1 - i) / n = 0)%nat as E0 by (apply Nat.div_small; lia). rewrite E0 in H.
  assert ((length items + n) / n = length items / n + 1)%nat as E1.
  { replace (length items + n)%nat with (length items + 1 * n)%nat by lia.
    rewrite Nat.div_add by lia. lia. }
  pose proof (Nat.Div0.div_le_mono (length items) (length items + (n - 1 - i)) n ltac:(lia)).
  pose proof (Nat.Div0.div_le_mono (length items + (n - 1 - i)) (length items + n) n ltac:(lia)).
  lia.
Qed.

Lemma effective_count_bounds items k :
  (1 <= effective_count items k <= Nat.max 1 (length items))%nat.
Proof. unfold effective_count. destruct items; cbn [length]; lia. Qed.

Lemma partition_workload_length uuid items k :
  length (partition_workload uuid items k) = effective_count items k.
Proof. unfold partition_workload. by rewrite length_imap, deal_length, length_replicate. Qed.

Lemma partition_workload_lookup uuid items k i :
  (i < effective_count items k)%nat ->
  partition_workload uuid items k !! i =
  Some (mkPartition ("p" +:+ pretty (Z.of_nat i) +:+ "-" +:+ uuid i) (Z.of_nat i)
          (Z.of_nat (effective_count items k)) (VStr <$> dealt (effective_count items k) i 0 items)).
Proof.
  intros Hi. unfold partition_workload.
  by rewrite list_lookup_imap, deal_lookup, lookup_replicate_2.
Qed.

Lemma imap_assigned_concat (f : nat -> list string -> WorkPartition) bs :
  (forall i b, wp_assigned_items (f i b) = VStr <$> b) ->
  (imap f bs ≫= wp_assigned_items) = VStr <$> concat bs.
Proof.
  revert f. induction bs as [|b bs IH]; intros f Hf; simpl; [done|].
  rewrite Hf, fmap_app. f_equal. apply (IH (f ∘ S)). intros i b'. apply Hf.
Qed.

(** ** Lemmas on merging *)

Definition index_le (r s : PartitionResult) : Prop := pr_instance_index r <= pr_instance_index s.

Lemma insert_result_perm r l : insert_result r l ≡ₚ r :: l.
Proof.
  induction l as [|x l IH]; simpl; [done|].
  destruct (_ <=? _); [done|]. rewrite IH. apply Permutation_swap.
Qed.

Lemma sort_results_perm l : sort_results l ≡ₚ l.
Proof. induction l as [|r l IH]; simpl; [done|]. by rewrite insert_result_perm, IH. Qed.

Lemma insert_result_sorted r l : StronglySorted index_le l -> StronglySorted index_le (insert_result r l).
Proof.
  unfold index_le. induction 1 as [|x l Hl IH Hx]; simpl; [by repeat constructor|].
  destruct (Z.leb_spec (pr_instance_index r) (pr_instance_index x)).
  - constructor; [by constructor|]. constructor; [done|].
    eapply Forall_impl; [exact Hx|]. simpl. lia.
  - constructor; [done|]. rewrite insert_result_perm. constructor; [lia|done].
Qed.

Lemma sort_results_sorted l : StronglySorted index_le (sort_results l).
Proof. induction l as [|r l IH]; simpl; [constructor|by apply insert_result_sorted]. Qed.

(** With distinct indices the sorted list does not depend on arrival order. *)
Lemma sort_results_unique l1 l2 :
  NoDup (pr_instance_index <$> l1) -> l1 ≡ₚ l2 -> sort_results l1 = sort_results l2.
Proof.
  intros Hnd Hp. eapply StronglySorted_unique_strong; [|apply sort_results_sorted..|].
  - intros x y Hx Hy Hxy Hyx. rewrite sort_results_perm in Hx, Hy. rewrite <- Hp in Hy.
    unfold index_le in *. assert (pr_instance_index x = pr_instance_index y) as E by lia.
    apply list_elem_of_lookup in Hx as [i Hi]. apply list_elem_of_lookup in Hy as [j Hj].
    assert (i = j) as ->; [|congruence].
    eapply NoDup_lookup; [exact Hnd| |]; rewrite list_lookup_fmap; [by rewrite Hi|by rewrite Hj; simpl; rewrite E].
  - by rewrite !sort_results_perm.
Qed.

(** ** Lemmas on metadata *)

Lemma read_partition_to_dict p : read_partition (WorkPartition_to_dict p) = Ok p.
Proof. by destruct p. Qed.

Lemma read_partitions_to_dict ps :
  read_partitions ((fun p => VDict (WorkPartition_to_dict p)) <$> ps) = Ok ps.
Proof.
  induction ps as [|p ps IH]; [done|]. rewrite fmap_cons. cbn [read_partitions].
  by rewrite read_partition_to_dict, IH.
Qed.

Lemma decision_roundtrip now m d :
  sd_decided_at d <> "" ->
  dget m "scaling_decision" = Some (VDict (ScalingDecision_to_dict d)) ->
  scaling_decision_from_metadata now m = Ok (Some d).
Proof.
  intros Hd Hm. unfold scaling_decision_from_metadata, dget0. rewrite Hm.
  cbn [from_option id]. unfold ScalingDecision_to_dict at 1.
  cbn [dget String.eqb Ascii.eqb Bool.eqb from_option id].
  rewrite read_partitions_to_dict.
  destruct d as [a c ps r v t]. cbn in *. unfold new_decision, str_or.
  by rewrite (proj2 (String.eqb_neq t "") Hd).
Qed.

(** The whole decision after any number of recorded results. *)
Lemma record_preserves_decision m results k :
  k <> "partition_results" ->
  dget (foldl record_partition_result m results) k = dget m k.
Proof.
  intros Hk. revert m. induction results as [|r rs IH]; intros m; [done|]. cbn [foldl].
  rewrite IH. unfold record_partition_result. by rewrite dget_dset_ne.
Qed.

Lemma record_received m results id :
  dmem (dict_value (dget0 (foldl record_partition_result m results) "partition_results")) id = true <->
  id ∈ (pr_partition_id <$> results) \/ dmem (dict_value (dget0 m "partition_results")) id = true.
Proof.
  revert m. induction results as [|r rs IH]; intros m; cbn [foldl].
  - rewrite fmap_nil, elem_of_nil. tauto.
  - rewrite IH, fmap_cons, elem_of_cons. unfold record_partition_result at 1.
    rewrite dget0_dset_eq, dict_value_VDict, dmem_dset.
    case_bool_decide as E; rewrite ?orb_true_l, ?orb_false_l; clear IH; [subst; tauto|].
    split; [tauto|]. intros [[->|?]|?]; [done|tauto..].
Qed.

Lemma record_results_is_dict m results :
  results <> [] ->
  exists d, dget0 (foldl record_partition_result m results) "partition_results" = VDict d.
Proof.
  revert m. induction results as [|r rs IH]; intros m Hne; [done|]. cbn [foldl].
  destruct rs as [|r' rs]; [|by apply IH].
  eexists. apply dget0_dset_eq.
Qed.

(** The digits of an index never contain the dash, so the prefix tells the partitions apart. *)
Lemma partition_ids_distinct uuid items k :
  k <= ABSOLUTE_MAX_INSTANCES -> NoDup (wp_partition_id <$> partition_workload uuid items k).
Proof.
  intros Hk. set (n := effective_count items k).
  assert (n <= 8)%nat as Hn by (unfold n, effective_count, ABSOLUTE_MAX_INSTANCES in *; destruct items; lia).
  apply NoDup_alt. intros i j x Hi Hj. rewrite list_lookup_fmap in Hi, Hj.
  assert (forall i', (wp_partition_id <$> partition_workload uuid items k !! i') = Some x ->
            (i' < n)%nat /\ x = "p" +:+ pretty (Z.of_nat i') +:+ "-" +:+ uuid i') as Hinv.
  { intros i' H. destruct (partition_workload uuid items k !! i') as [p|] eqn:E; [|done].
    assert (i' < n)%nat as Hlt by (apply lookup_lt_Some in E; by rewrite partition_workload_length in E).
    split; [done|]. rewrite partition_workload_lookup in E by done. by simplify_eq/=. }
  apply Hinv in Hi as [Hi Ei]. apply Hinv in Hj as [Hj Ej]. rewrite Ei in Ej. clear - Hi Hj Hn Ej.
  do 8 (destruct i as [|i]; [do 8 (destruct j as [|j]; [first [reflexivity|vm_compute in Ej; discriminate Ej]|]); lia|]). lia.
Qed.

(** What [partition_workload] delivers, for a count already within bounds. *)
Lemma partition_workload_spec uuid items k :
  1 <= k -> k <= ABSOLUTE_MAX_INSTANCES -> k <= Z.max 1 (Z.of_nat (length items)) ->
  let ps := partition_workload uuid items k in
  Z.of_nat (length ps) = k /\
  (forall i p, ps !! i = Some p ->
     wp_instance_index p = Z.of_nat i /\ wp_total_instances p = k) /\
  NoDup (wp_partition_id <$> ps) /\
  (ps ≫= wp_assigned_items) ≡ₚ (VStr <$> items) /\
  (forall p q, p ∈ ps -> q ∈ ps ->
     Z.of_nat (length (wp_assigned_items p)) <= Z.of_nat (length (wp_assigned_items q)) + 1).
Proof.
  intros H1 H8 Hk ps.
  assert (Z.of_nat (effective_count items k) = k) as En.
  { unfold effective_count. destruct items; cbn [length] in *; lia. }
  assert (forall p, p ∈ ps -> exists i, (i < effective_count items k)%nat /\
            length (wp_assigned_items p) = length (dealt (effective_count items k) i 0 items)) as Hin.
  { intros p [i Hp]%list_elem_of_lookup. pose proof (lookup_lt_Some _ _ _ Hp) as Hi.
    unfold ps in *. rewrite partition_workload_length in Hi.
    rewrite partition_workload_lookup in Hp by done. exists i. split; [done|].
    simplify_eq/=. by rewrite length_fmap. }
  split_and!.
  - unfold ps. by rewrite partition_workload_length.
  - intros i p Hp. pose proof (lookup_lt_Some _ _ _ Hp) as Hi. unfold ps in *.
    rewrite partition_workload_length in Hi. rewrite partition_workload_lookup in Hp by done.
    by simplify_eq/=.
  - by apply partition_ids_distinct.
  - unfold ps, partition_workload. rewrite imap_assigned_concat by done.
    rewrite deal_permutation; [|pose proof (effective_count_bounds items k); lia|apply length_replicate].
    enough (forall n, concat (replicate n ([] : list string)) = []) as -> by done.
    by induction n.
  - intros p q (i & Hi & ->)%Hin (j & Hj & ->)%Hin.
    pose proof (dealt_balanced _ _ items Hi). pose proof (dealt_balanced _ _ items Hj). lia.
Qed.

Lemma ceil_div_bounds a b : 1 <= b -> b < a -> 1 <= ceil_div a b <= a.
Proof.
  intros Hb Ha. unfold ceil_div. split.
  - apply Z.div_le_lower_bound; lia.
  - apply Z.div_le_upper_bound; nia.
Qed.

(** Every scalable id is the id of a registered specialist. *)
Lemma scalable_registered a :
  a ∈ SCALABLE_AGENT_IDS ->
  exists d, d ∈ AGENT_REGISTRY /\ ag_category d = "specialist" /\ ag_agent_id d = a.
Proof.
  intros Ha.
  assert (forallb (fun a => existsb (fun d => String.eqb (ag_category d) "specialist" &&
            String.eqb (ag_agent_id d) a) AGENT_REGISTRY) SCALABLE_AGENT_IDS = true) as H by by_compute.
  rewrite forallb_forall in H. specialize (H a (proj1 (list_elem_of_In _ _) Ha)).
  apply existsb_exists in H as (d & Hd & [Hc Hi]%andb_true_iff). exists d.
  apply list_elem_of_In in Hd. apply String.eqb_eq in Hc, Hi. done.
Qed.

(** ** Properties *)

(** C32: a scaling decision is within its limits and deals the work out
    exactly: between 1 and 8 instances and never more than the (clamped)
    maximum, more than one only for a registered specialist; one partition per
    instance, numbered in order, with distinct ids; every work item in exactly
    one partition, and the loads of two partitions differ by at most one. *)
Theorem scaling_decision_correct uuid now agent_id items max_instances per :
  let d := compute_scaling_decision uuid now agent_id items max_instances per in
  let ps := sd_partitions d in
  1 <= sd_instance_count d <= Z.min (Z.max 1 max_instances) 8 /\
  (1 < sd_instance_count d ->
     exists a, a ∈ AGENT_REGISTRY /\ ag_category a = "specialist" /\ ag_agent_id a = sd_agent_id d) /\
  Z.of_nat (length ps) = sd_instance_count d /\
  (forall i p, ps !! i = Some p ->
     wp_instance_index p = Z.of_nat i /\ wp_total_instances p = sd_instance_count d) /\
  NoDup (wp_partition_id <$> ps) /\
  (ps ≫= wp_assigned_items) ≡ₚ (VStr <$> items) /\
  (forall p q, p ∈ ps -> q ∈ ps ->
     Z.of_nat (length (wp_assigned_items p)) <= Z.of_nat (length (wp_assigned_items q)) + 1).
Proof.
  unfold compute_scaling_decision, ABSOLUTE_MAX_INSTANCES.
  set (n := Z.of_nat (length items)). set (a := str_upper (str_strip agent_id)).
  destruct ((n <=? Z.max 1 per) || negb (is_scalable_agent a)) eqn:E; cbn [sd_instance_count
    sd_partitions sd_agent_id new_decision].
  - split; [lia|]. split; [lia|]. apply partition_workload_spec; unfold ABSOLUTE_MAX_INSTANCES; lia.
  - apply orb_false_iff in E as [En Ha%negb_false_iff]. apply Z.leb_gt in En.
    pose proof (ceil_div_bounds n (Z.max 1 per) ltac:(lia) En).
    split; [lia|]. split.
    + intros _. apply scalable_registered. unfold is_scalable_agent in Ha.
      apply str_in_spec in Ha. revert Ha. unfold a.
      by rewrite str_strip_upper, str_upper_idemp, str_strip_idemp.
    + apply partition_workload_spec; unfold ABSOLUTE_MAX_INSTANCES; lia.
Qed.

(** Merging is independent of the order the results arrive in, when their
    indices are distinct as the dealt partitions' are, loses nothing, and
    concatenates in partition order. *)
Lemma merge_order_independent now l1 l2 :
  NoDup (pr_instance_index <$> l1) -> l1 ≡ₚ l2 ->
  merge_partition_results now l1 = merge_partition_results now l2 /\
  mr_logicnodes (merge_partition_results now l1) ≡ₚ (l1 ≫= pr_logicnodes) /\
  mr_partition_count (merge_partition_results now l1) = Z.of_nat (length l1) /\
  exists s, s ≡ₚ l1 /\ StronglySorted index_le s /\
    mr_logicnodes (merge_partition_results now l1) = s ≫= pr_logicnodes /\
    mr_artifacts (merge_partition_results now l1) = s ≫= pr_artifacts.
Proof.
  intros Hnd Hp. unfold merge_partition_results.
  cbn [mr_logicnodes mr_artifacts mr_partition_count]. split; [by rewrite (sort_results_unique l1 l2)|].
  split; [by rewrite sort_results_perm|]. split; [by rewrite sort_results_perm|].
  exists (sort_results l1). split_and!; [apply sort_results_perm|apply sort_results_sorted|done..].
Qed.

Lemma merge_order_independent_witness :
  let r i id := new_partition_result id i "AGENT-14-PYTHON" [VStr id] [] [] "" "t" in
  NoDup (pr_instance_index <$> [r 1 "b"; r 0 "a"]) /\ [r 1 "b"; r 0 "a"] ≡ₚ [r 0 "a"; r 1 "b"] /\
  mr_logicnodes (merge_partition_results "t" [r 1 "b"; r 0 "a"]) = [VStr "a"; VStr "b"] /\
  merge_partition_results "t" [r 1 "b"; r 0 "a"] = merge_partition_results "t" [r 0 "a"; r 1 "b"].
Proof.
  intros r. assert (NoDup (pr_instance_index <$> [r 1 "b"; r 0 "a"])) as H
    by (apply (bool_decide_unpack _); by vm_compute).
  assert ([r 1 "b"; r 0 "a"] ≡ₚ [r 0 "a"; r 1 "b"]) as Hp by apply Permutation_swap.
  split; [exact H|]. split; [exact Hp|]. split; [reflexivity|].
  apply (merge_order_independent "t" _ _ H Hp).
Defined.

(** The completion gate. After a decision for several instances is embedded
    in the mission's metadata and any results are recorded, the decision is read
    back unchanged and [all_partitions_complete] answers true exactly when every
    partition of the decision has a recorded result. *)
Lemma partition_gate_exact now m d results :
  sd_decided_at d <> "" -> 1 < sd_instance_count d -> dget m "partition_results" = None ->
  let m' := foldl record_partition_result (embed_scaling_decision m d) results in
  scaling_decision_from_metadata now m' = Ok (Some d) /\
  (results <> [] ->
   exists b, all_partitions_complete now m' = Ok b /\
     (b = true <-> forall p, p ∈ sd_partitions d -> wp_partition_id p ∈ (pr_partition_id <$> results))) /\
  (results = [] -> all_partitions_complete now m' = Ok false).
Proof.
  intros Hd Hc Hm m'.
  assert (scaling_decision_from_metadata now m' = Ok (Some d)) as Hrt.
  { apply decision_roundtrip; [done|]. unfold m'. rewrite record_preserves_decision by done.
    unfold embed_scaling_decision. by dict_simpl. }
  assert (dget0 (embed_scaling_decision m d) "partition_results" = VNone) as Hnone
    by (unfold embed_scaling_decision, dget0; dict_simpl; by rewrite Hm).
  split; [done|]. unfold all_partitions_complete. rewrite Hrt. cbn [mbind result_bind].
  rewrite (proj2 (Z.leb_gt _ 1) Hc). split.
  - intros Hne. destruct (record_results_is_dict (embed_scaling_decision m d) results Hne) as [pr Hpr].
    fold m' in Hpr. rewrite Hpr. eexists. split; [done|].
    assert (forall id, dmem pr id = true <-> id ∈ (pr_partition_id <$> results)) as Hrec.
    { intros id. pose proof (record_received (embed_scaling_decision m d) results id) as H.
      fold m' in H. rewrite Hpr, Hnone in H. cbn in H. intuition congruence. }
    rewrite forallb_forall. setoid_rewrite Hrec. setoid_rewrite <- list_elem_of_In. done.
  - intros ->. cbn [foldl] in m'. unfold m'. by rewrite Hnone.
Qed.

Lemma partition_gate_exact_witness :
  let d := compute_scaling_decision (fun _ => "u") "t" "AGENT-14-PYTHON" ["a"; "b"; "c"] 2 1 in
  let r i id := new_partition_result id i "AGENT-14-PYTHON" [] [] [] "" "t" in
  let m' l := foldl record_partition_result (embed_scaling_decision [] d) l in
  (sd_decided_at d <> "" /\ 1 < sd_instance_count d) /\
  all_partitions_complete "t" (m' [r 0 "p0-u"]) = Ok false /\
  all_partitions_complete "t" (m' [r 0 "p0-u"; r 1 "p1-u"]) = Ok true /\
  scaling_decision_from_metadata "t" (m' []) = Ok (Some d).
Proof.
  intros d r m'. assert (sd_decided_at d <> "") as H1 by discriminate.
  assert (1 < sd_instance_count d) as H2 by reflexivity.
  split; [by split|]. split; [reflexivity|]. split; [reflexivity|].
  apply (partition_gate_exact "t" [] d [] H1 H2 eq_refl).
Defined.
