(* ===== verification/Store.v ===== *)
(** * Store

    [orchestrator/storage_missions.py]: the missions table and the state-event
    log.  The database is a map of rows and the list of events in insertion
    order; every operation of the file is one atomic action on it (pooled
    connections are in autocommit, the others open a transaction), so
    concurrent callers interleave between actions and not inside them.

    PostgreSQL is modelled as far as the SQL texts of the file use it: primary
    key, foreign key of the events, [ON CONFLICT], [WHERE], [RETURNING] and the
    [jsonb] operators [?], [-] and [||].  Lost connections are not modelled.
    [jsonb] does not keep the order of keys and the model does; no property
    depends on that order. *)

From S2P Require Import Prelude PyVal MissionTypes MissionStates MissionFlow ProjectIdentity Scaling.

(** ** Data *)

(** A row of [missions]; [updated_at] is never read back and is left out. *)
Record Row := mkRow {
  r_mission_id : string;
  r_prompt : string;
  r_language : option string;
  r_metadata : dict;
  r_project_id : option string;
  r_state : string;
  r_created_at : string;
  r_source_stream_id : option string;
}.

(** A row of [mission_state_events]; its position in the log stands for [ts]. *)
Record Event := mkEvent {
  ev_mission_id : string;
  ev_previous_state : option string;
  ev_new_state : string;
  ev_event_type : string;
}.

Record DB := mkDB {
  db_missions : gmap string Row;
  db_events : list Event;
}.

Definition empty_db : DB := mkDB ∅ [].

(** The fields of [models.MissionRecord] that the storage layer reads or writes. *)
Record MissionRecord := mkMission {
  ms_mission_id : string;
  ms_prompt : string;
  ms_language : option string;
  ms_mission_type : option string;
  ms_depth_mode : option string;
  ms_output_mode : option string;
  ms_data_classification : option string;
  ms_metadata : dict;
  ms_project_id : option string;
  ms_lifecycle_engine : option string;
  ms_state : MissionState;
  ms_created_at : string;
}.

(** An action on the database: the outcome of the call and the database after it. *)
Abbreviation M := (St DB).

(** ** Rows and records *)

(** [MissionType(raw) if raw else None], [None] when it raises [ValueError]. *)
Definition charter_enum (values : list string) (raw : val) : option string :=
  match raw with
  | VStr s => if str_in s values then Some s else None
  | _ => None
  end.

Definition _charter_fields_from_metadata (metadata : dict)
    : option string * option string * option string * option string :=
  (charter_enum OFFICIAL_MISSION_TYPES (dget0 metadata "__mission_type__"),
   charter_enum OFFICIAL_DEPTH_MODES (dget0 metadata "__depth_mode__"),
   charter_enum OFFICIAL_OUTPUT_MODES (dget0 metadata "__output_mode__"),
   charter_enum OFFICIAL_DATA_CLASSIFICATIONS (dget0 metadata "__data_classification__")).

Definition dset_opt (d : dict) (k : string) (v : option string) : dict :=
  match v with Some s => dset d k (VStr s) | None => d end.

Definition _embed_charter_fields (metadata : dict) (r : MissionRecord) : dict :=
  let metadata := dset_opt metadata "__mission_type__" (ms_mission_type r) in
  let metadata := dset_opt metadata "__depth_mode__" (ms_depth_mode r) in
  let metadata := dset_opt metadata "__output_mode__" (ms_output_mode r) in
  let metadata := dset_opt metadata "__data_classification__" (ms_data_classification r) in
  match ms_lifecycle_engine r with
  | Some e => if String.eqb e "" then metadata else dset metadata "lifecycle_engine" (VStr e)
  | None => metadata
  end.

Definition row_to_mission (row : Row) : result MissionRecord :=
  let metadata := r_metadata row in
  let '(mission_type, depth_mode, output_mode, data_classification) :=
    _charter_fields_from_metadata metadata in
  let engine := dget0 metadata "lifecycle_engine" in
  state ← MissionState_of (r_state row);
  Ok (mkMission (r_mission_id row) (r_prompt row) (r_language row)
        mission_type depth_mode output_mode data_classification metadata
        (Some (str_or (default "" (r_project_id row))
                 (resolve_project_id (VDict metadata) (Some (r_mission_id row)))))
        (if truthy engine then Some (str_strip (py_str engine)) else None)
        state (r_created_at row)).

(** The values of the [INSERT], as the row they make. *)
Definition _mission_upsert_params (r : MissionRecord) (source_stream_id : option string) : Row :=
  let metadata := strip_vault (with_project_identity (VDict (ms_metadata r)) (Some (ms_mission_id r))) in
  let metadata := _embed_charter_fields metadata r in
  let project_id := str_or (default "" (ms_project_id r))
                      (resolve_project_id (VDict metadata) (Some (ms_mission_id r))) in
  mkRow (ms_mission_id r) (ms_prompt r) (ms_language r) metadata (Some project_id)
    (state_value (ms_state r)) (ms_created_at r) source_stream_id.

(** ** Operations *)

Definition set_row (db : DB) (row : Row) : DB :=
  mkDB (<[r_mission_id row := row]> (db_missions db)) (db_events db).

Definition log_event (db : DB) (e : Event) : DB :=
  mkDB (db_missions db) (db_events db ++ [e]).

(** [INSERT .. ON CONFLICT (mission_id) DO UPDATE]: the creation time stays. *)
Definition upsert_mission (r : MissionRecord) (source_stream_id : option string) : M unit := fun db =>
  let new := _mission_upsert_params r source_stream_id in
  match db_missions db !! r_mission_id new with
  | None => (Ok tt, set_row db new)
  | Some old =>
      (Ok tt, set_row db (mkRow (r_mission_id old) (r_prompt new) (r_language new) (r_metadata new)
                            (r_project_id new) (r_state new) (r_created_at old)
                            (r_source_stream_id new)))
  end.

(** [INSERT .. ON CONFLICT DO NOTHING RETURNING], with the event in the same transaction. *)
Definition persist_intake_mission (r : MissionRecord) (source_stream_id : string) : M bool := fun db =>
  let new := _mission_upsert_params r (Some source_stream_id) in
  match db_missions db !! r_mission_id new with
  | Some _ => (Ok false, db)
  | None =>
      (Ok true, log_event (set_row db new)
                  (mkEvent (ms_mission_id r) (Some (state_value intake)) (state_value queued)
                     "MISSION_QUEUED"))
  end.

Definition fetch_mission (mission_id : string) : M (option MissionRecord) := fun db =>
  match db_missions db !! mission_id with
  | None => (Ok None, db)
  | Some row => (Some <$> row_to_mission row, db)
  end.

(** The [CASE] of both metadata updates: a stored audit verdict survives a
    document that has none. *)
Definition keep_delta_gate (stored incoming : dict) : dict :=
  if dmem stored "delta_audit_gate" && negb (dmem incoming "delta_audit_gate")
  then dset incoming "delta_audit_gate" (dget0 stored "delta_audit_gate")
  else incoming.

Definition with_metadata (row : Row) (metadata : dict) (project_id : string) : Row :=
  mkRow (r_mission_id row) (r_prompt row) (r_language row)
    (keep_delta_gate (r_metadata row) metadata) (Some project_id) (r_state row)
    (r_created_at row) (r_source_stream_id row).

Definition update_mission_metadata (mission_id : string) (metadata : dict)
    : M (option MissionRecord) := fun db =>
  let normalized := strip_vault (with_project_identity (VDict metadata) (Some mission_id)) in
  let project_id := resolve_project_id (VDict normalized) (Some mission_id) in
  match db_missions db !! mission_id with
  | None => (Ok None, db)
  | Some row =>
      let row' := with_metadata row normalized project_id in
      (Some <$> row_to_mission row', mkDB (<[mission_id := row']> (db_missions db)) (db_events db))
  end.

(** The locked read-modify-write.  An exception of [row_to_mission] or of the
    updater rolls the transaction back; the last conversion runs after the commit. *)
Definition _locked_mission_metadata_update (mission_id : string)
    (updater : dict -> MissionRecord -> result dict) : M (option MissionRecord) := fun db =>
  match db_missions db !! mission_id with
  | None => (Ok None, db)
  | Some row =>
      match (mission ← row_to_mission row; updater (ms_metadata mission) mission) with
      | Raise e => (Raise e, db)
      | Ok updated =>
          let row' := with_metadata row (with_project_identity (VDict updated) (Some mission_id))
                        (resolve_project_id (VDict updated) (Some mission_id)) in
          (Some <$> row_to_mission row', mkDB (<[mission_id := row']> (db_missions db)) (db_events db))
      end
  end.

(** The foreign key of the log refuses events of missions that do not exist. *)
Definition insert_mission_event (mission_id : string) (previous_state : option MissionState)
    (new_state : MissionState) (event_type : string) : M unit := fun db =>
  match db_missions db !! mission_id with
  | None => (Raise OtherError, db)
  | Some _ => (Ok tt, log_event db (mkEvent mission_id (state_value <$> previous_state)
                                      (state_value new_state) event_type))
  end.

Definition with_state (row : Row) (s : string) : Row :=
  mkRow (r_mission_id row) (r_prompt row) (r_language row) (r_metadata row) (r_project_id row)
    s (r_created_at row) (r_source_stream_id row).

(** The [UPDATE] (compare-and-swap when a state is expected) and its event, in
    one transaction; the record is read from the returned row after the commit. *)
Definition transition_mission_state (mission_id : string) (expected_state : option MissionState)
    (new_state : MissionState) (event_type : string) : M (option MissionRecord) := fun db =>
  match db_missions db !! mission_id with
  | None => (Ok None, db)
  | Some row =>
      if match expected_state with
         | None => true
         | Some e => String.eqb (r_state row) (state_value e)
         end
      then
        let row' := with_state row (state_value new_state) in
        (Some <$> row_to_mission row',
         log_event (mkDB (<[mission_id := row']> (db_missions db)) (db_events db))
           (mkEvent mission_id (state_value <$> expected_state) (state_value new_state) event_type))
      else (Ok None, db)
  end.

Definition list_legacy_vaults : M (list (string * dict)) := fun db =>
  (Ok (omap (fun kv : string * Row =>
               if dmem (r_metadata kv.2) VAULT_METADATA_KEY
               then Some (kv.1, dict_value (dget0 (r_metadata kv.2) VAULT_METADATA_KEY)) else None)
         (map_to_list (db_missions db))), db).

Definition with_raw_metadata (row : Row) (metadata : dict) : Row :=
  mkRow (r_mission_id row) (r_prompt row) (r_language row) metadata (r_project_id row)
    (r_state row) (r_created_at row) (r_source_stream_id row).

(** [metadata_json - 'vault' WHERE mission_id = ANY(ids) AND metadata_json ? 'vault']. *)
Definition scrub_row (mission_ids : list string) (row : Row) : Row :=
  if str_in (r_mission_id row) mission_ids && dmem (r_metadata row) VAULT_METADATA_KEY
  then with_raw_metadata row (ddel (r_metadata row) VAULT_METADATA_KEY) else row.

Definition scrub_mission_vaults (mission_ids : list string) : M Z := fun db =>
  match mission_ids with
  | [] => (Ok 0, db)
  | _ =>
      (Ok (Z.of_nat (length (List.filter
             (fun row => str_in (r_mission_id row) mission_ids && dmem (r_metadata row) VAULT_METADATA_KEY)
             (map_to_list (db_missions db)).*2))),
       mkDB (scrub_row mission_ids <$> db_missions db) (db_events db))
  end.

Definition count_missions : M Z := fun db => (Ok (Z.of_nat (size (db_missions db))), db).

(** [GROUP BY state]: the groups in the order their states first appear. *)
Definition mission_state_counts : M (list (string * Z)) := fun db =>
  (Ok (foldl (fun acc row => dset acc (r_state row) (default 0 (dget acc (r_state row)) + 1)) []
         (map_to_list (db_missions db)).*2), db).

(** ** Partition results *)

(** [[x for x in raw if isinstance(x, dict)]], where iterating may raise. *)
Definition dicts_of (raw : val) : result (list val) :=
  List.filter is_dict <$> py_tuple raw.

(** Reading a partition result from a dictionary, with its conversions. *)
Definition read_partition_result (now : string) (raw : dict) : result PartitionResult :=
  i ← py_int (dget_or raw "instance_index" (VInt 0));
  nodes ← dicts_of (dget_or raw "logicnodes" (VList []));
  artifacts ← dicts_of (dget_or raw "artifacts" (VList []));
  Ok (new_partition_result (py_str (dget_or raw "partition_id" (VStr ""))) i
        (py_str (dget_or raw "agent_id" (VStr ""))) nodes artifacts
        (dict_value (dget0 raw "report")) (py_str (dget_or raw "completed_at" (VStr ""))) now).

Fixpoint read_partition_results (now : string) (l : list val) : result (list PartitionResult) :=
  match l with
  | [] => Ok []
  | VDict raw :: l' =>
      r ← read_partition_result now raw; rs ← read_partition_results now l'; Ok (r :: rs)
  | _ :: l' => read_partition_results now l'
  end.

(** The closure [_update] of [record_partition_result]. *)
Definition partition_update (now : string) (r : PartitionResult) (metadata : dict) : result dict :=
  let metadata := Scaling.record_partition_result metadata r in
  let metadata := dset metadata "last_partition_result_at" (VStr (pr_completed_at r)) in
  let partition_results := dget0 metadata "partition_results" in
  let metadata := match partition_results with
                  | VDict d => dset metadata "partition_result_count" (VInt (Z.of_nat (length d)))
                  | _ => metadata
                  end in
  complete ← all_partitions_complete now metadata;
  if complete : bool then
    results ← read_partition_results now (dvalues (dict_value (dget0 metadata "partition_results")));
    let merged := merge_partition_results now results in
    let metadata := dset metadata "merged_partition_result" (VDict (MergedResult_to_dict merged)) in
    let metadata := dset metadata "scaling_merge_complete" (VBool true) in
    Ok (dset metadata "scaling_completed_at" (VStr (mr_merged_at merged)))
  else Ok (dset metadata "scaling_merge_complete" (VBool false)).

Definition store_partition_result (now mission_id : string) (raw : dict)
    : M (option MissionRecord) := fun db =>
  match read_partition_result now raw with
  | Raise e => (Raise e, db)
  | Ok r => _locked_mission_metadata_update mission_id (fun metadata _ => partition_update now r metadata) db
  end.

(** ** Listing *)

(** [[row_to_mission(row) for row in rows]]. *)
Fixpoint rows_to_missions (rows : list Row) : result (list MissionRecord) :=
  match rows with
  | [] => Ok []
  | row :: rows' => m ← row_to_mission row; ms ← rows_to_missions rows'; Ok (m :: ms)
  end.

Section listing.
(** The order of two creation times; PostgreSQL compares the instants. *)
Context (ts_le : relation string) {ts_dec : forall a b, Decision (ts_le a b)}.

Definition created_le (a b : Row) : Prop := ts_le (r_created_at a) (r_created_at b).

Local Instance created_le_dec a b : Decision (created_le a b).
Proof. unfold created_le. apply _. Defined.

Definition rows_by_creation (db : DB) : list Row := merge_sort created_le (map_to_list (db_missions db)).*2.

(** [ORDER BY created_at DESC LIMIT n] *)
Definition list_missions (limit : nat) : M (list MissionRecord) := fun db =>
  (rows_to_missions (take limit (rev (rows_by_creation db))), db).

(** [WHERE state = ANY(..) ORDER BY created_at ASC LIMIT max(1, n)] *)
Definition list_missions_in_states (states : list MissionState) (limit : Z) : M (list MissionRecord) := fun db =>
  match states with
  | [] => (Ok [], db)
  | _ => (rows_to_missions (take (Z.to_nat (Z.max 1 limit))
            (List.filter (fun row => str_in (r_state row) (state_value <$> states)) (rows_by_creation db))), db)
  end.
End listing.

(** [models.MissionEvent], whose [event_type] is validated. *)
Record MissionEvent := mkMissionEvent {
  me_mission_id : string;
  me_previous_state : option MissionState;
  me_new_state : MissionState;
  me_event_type : string;
}.

Definition read_event (e : Event) : result MissionEvent :=
  previous ← match ev_previous_state e with
             | None => Ok None
             | Some s => if String.eqb s "" then Ok None else Some <$> MissionState_of s
             end;
  new ← MissionState_of (ev_new_state e);
  if str_in (ev_event_type e) EVENT_TYPES
  then Ok (mkMissionEvent (ev_mission_id e) previous new (ev_event_type e))
  else Raise ValueError.

Fixpoint read_events (l : list Event) : result (list MissionEvent) :=
  match l with
  | [] => Ok []
  | e :: l' => x ← read_event e; xs ← read_events l'; Ok (x :: xs)
  end.

(** [ORDER BY ts DESC LIMIT n] *)
Definition list_mission_events (mission_id : string) (limit : nat) : M (list MissionEvent) := fun db =>
  (read_events (take limit (rev (List.filter (fun e => String.eqb (ev_mission_id e) mission_id)
                                   (db_events db)))), db).

Definition list_recent_mission_events (limit : nat) : M (list MissionEvent) := fun db =>
  (read_events (take limit (rev (db_events db))), db).

(** ** Steps

    What the running service does to the database, one atomic action at a time:
    intake from the stream, compare-and-swap transitions, checkpoint events,
    metadata updates (plain and locked) and the vault scrub.  [upsert_mission], which
    [POST /missions] uses, and unconditional transitions are left out: they replace state
    without regard to the log ([Routes.reposted_mission_restarts] shows what that does). *)

Inductive store_step : DB -> DB -> Prop :=
| step_intake r src db : ms_state r = queued -> store_step db (persist_intake_mission r src db).2
| step_transition id e t ev db : store_step db (transition_mission_state id (Some e) t ev db).2
| step_checkpoint id s ev db : store_step db (insert_mission_event id (Some s) s ev db).2
| step_update id metadata db : store_step db (update_mission_metadata id metadata db).2
| step_locked id f db : store_step db (_locked_mission_metadata_update id f db).2
| step_scrub ids db : store_step db (scrub_mission_vaults ids db).2.

(** The state changes the log records for a mission, self-loops left out. *)
Definition move_of (id : string) (e : Event) : option (option string * string) :=
  if String.eqb (ev_mission_id e) id && negb (bool_decide (ev_previous_state e = Some (ev_new_state e)))
  then Some (ev_previous_state e, ev_new_state e) else None.

Definition moves (id : string) (db : DB) : list (option string * string) := omap (move_of id) (db_events db).

(** [l] leads from state [s] to state [t], each move starting where the last ended. *)
Fixpoint leads (s : string) (l : list (option string * string)) (t : string) : Prop :=
  match l with
  | [] => s = t
  | (p, n) :: l' => p = Some s /\ leads n l' t
  end.

(** The invariant: keys are the ids, states are states, and the log of a mission
    leads from [INTAKE] to its current state; missions not stored have no events. *)
Definition db_wf (db : DB) : Prop :=
  (forall id row, db_missions db !! id = Some row ->
     r_mission_id row = id /\ (exists s, r_state row = state_value s) /\
     leads (state_value intake) (moves id db) (r_state row)) /\
  (forall e, e ∈ db_events db -> is_Some (db_missions db !! ev_mission_id e)).

(** ** Lemmas *)

Lemma leads_app s l1 t l2 u : leads s l1 t -> leads t l2 u -> leads s (l1 ++ l2) u.
Proof.
  revert s. induction l1 as [|[p n] l1 IH]; intros s; simpl; [by intros ->|].
  intros [-> H] H2. split; [done|]. by eapply IH.
Qed.

Lemma moves_log db id e : moves id (log_event db e) = moves id db ++ option_list (move_of id e).
Proof.
  unfold moves, log_event. cbn [db_events]. by rewrite omap_app.
Qed.

Lemma state_value_inj s t : state_value s = state_value t -> s = t.
Proof. intros H. apply (f_equal MissionState_of) in H. rewrite !MissionState_of_value in H. congruence. Qed.

(** Reading a row whose state is a state never raises. *)
Lemma row_to_mission_ok row s :
  r_state row = state_value s ->
  exists m, row_to_mission row = Ok m /\ ms_state m = s /\ ms_mission_id m = r_mission_id row /\
            ms_metadata m = r_metadata row.
Proof.
  intros H. unfold row_to_mission. cbn zeta. unfold _charter_fields_from_metadata.
  rewrite H, MissionState_of_value. eexists. split; [reflexivity|]. done.
Qed.

(** What a compare-and-swap does, by the stored state. *)
Lemma transition_match id e t ev db row :
  db_missions db !! id = Some row -> r_state row = state_value e ->
  exists m, transition_mission_state id (Some e) t ev db =
    (Ok (Some m), log_event (mkDB (<[id := with_state row (state_value t)]> (db_missions db)) (db_events db))
                    (mkEvent id (Some (state_value e)) (state_value t) ev)) /\
    ms_state m = t /\ ms_mission_id m = r_mission_id row.
Proof.
  intros Hr Hs. unfold transition_mission_state. rewrite Hr, Hs, String.eqb_refl.
  destruct (row_to_mission_ok (with_state row (state_value t)) t) as (m & Hm & ? & ? & _); [done|].
  exists m. rewrite Hm. done.
Qed.

Lemma transition_mismatch id e t ev db :
  (forall row, db_missions db !! id = Some row -> r_state row <> state_value e) ->
  transition_mission_state id (Some e) t ev db = (Ok None, db).
Proof.
  intros H. unfold transition_mission_state. destruct (db_missions db !! id) as [row|]; [|done].
  by rewrite (proj2 (String.eqb_neq _ _) (H row eq_refl)).
Qed.

(** A compare-and-swap either misses or moves the row that is in the state. *)
Lemma transition_cases id e t ev db :
  (transition_mission_state id (Some e) t ev db = (Ok None, db)) \/
  exists row, db_missions db !! id = Some row /\ r_state row = state_value e.
Proof.
  destruct (db_missions db !! id) as [row|] eqn:Hr.
  - destruct (decide (r_state row = state_value e)) as [E|E]; [eauto|].
    left. apply transition_mismatch. intros row' Hr'. by simplify_eq.
  - left. apply transition_mismatch. intros row' Hr'. congruence.
Qed.

(** The rows after an update of one row's metadata keep ids, states and log. *)
Lemma db_wf_same_states db rows :
  (forall id row', rows !! id = Some row' ->
     exists row, db_missions db !! id = Some row /\ r_mission_id row' = r_mission_id row /\
                 r_state row' = r_state row) ->
  (forall id, is_Some (db_missions db !! id) -> is_Some (rows !! id)) ->
  db_wf db -> db_wf (mkDB rows (db_events db)).
Proof.
  intros Hrows Hdom [Hwf Hev]. split; cbn [db_missions db_events].
  - intros id row' (row & Hr & Hi & Hs)%Hrows. apply Hwf in Hr as (? & ? & ?).
    rewrite Hi, Hs. done.
  - intros e He. by apply Hdom, Hev.
Qed.

Lemma db_wf_set_metadata db id row row' :
  db_missions db !! id = Some row -> r_mission_id row' = r_mission_id row -> r_state row' = r_state row ->
  db_wf db -> db_wf (mkDB (<[id := row']> (db_missions db)) (db_events db)).
Proof.
  intros Hr Hi Hs. apply db_wf_same_states.
  - intros id' row''. rewrite lookup_insert. case_decide as E; [|eauto].
    intros [= <-]. subst. eauto.
  - intros id' [x Hx]. rewrite lookup_insert. case_decide; eauto.
Qed.

Lemma db_wf_intake db r src : ms_state r = queued -> db_wf db -> db_wf (persist_intake_mission r src db).2.
Proof.
  intros Hq [Hwf Hev]. unfold persist_intake_mission.
  set (new := _mission_upsert_params r (Some src)).
  assert (r_mission_id new = ms_mission_id r) as Hid by done.
  assert (r_state new = state_value queued) as Hst by (simpl; by rewrite Hq).
  destruct (db_missions db !! r_mission_id new) as [old|] eqn:E; [by split|].
  cbn [snd]. unfold set_row, log_event. cbn [db_missions db_events]. split; cbn [db_missions db_events].
  - intros id row. rewrite lookup_insert. case_decide as Hk.
    + intros [= <-]. split; [done|]. split; [by exists queued|].
      change (leads (state_value intake) (moves id (log_event db
        (mkEvent (ms_mission_id r) (Some (state_value intake)) (state_value queued) "MISSION_QUEUED"))) (r_state new)).
      rewrite moves_log. unfold move_of at 1. cbn [ev_mission_id ev_previous_state ev_new_state].
      rewrite <- Hid, Hk, String.eqb_refl. cbn [andb negb].
      assert (moves id db = []) as ->.
      { unfold moves. apply elem_of_nil_inv. intros p Hp. apply list_elem_of_omap in Hp as (e & He & Hm).
        apply Hev in He as [x Hx]. unfold move_of in Hm.
        destruct (String.eqb_spec (ev_mission_id e) id) as [E'|]; [|done]. subst id. congruence. }
      rewrite Hst. done.
    + intros Hr. destruct (Hwf id row Hr) as (? & ? & ?). split; [done|]. split; [done|].
      change (leads (state_value intake) (moves id (log_event db
        (mkEvent (ms_mission_id r) (Some (state_value intake)) (state_value queued) "MISSION_QUEUED"))) (r_state row)).
      rewrite moves_log. unfold move_of at 1. cbn [ev_mission_id].
      rewrite (proj2 (String.eqb_neq _ _)) by (by rewrite <- Hid). by rewrite app_nil_r.
  - intros e He. apply elem_of_app in He as [He|He].
    + apply Hev in He as [x Hx]. rewrite lookup_insert. case_decide; eauto.
    + apply list_elem_of_singleton in He as ->. cbn [ev_mission_id]. rewrite <- Hid, lookup_insert_eq. eauto.
Qed.

Lemma db_wf_transition db id e t ev : db_wf db -> db_wf (transition_mission_state id (Some e) t ev db).2.
Proof.
  intros [Hwf Hev]. destruct (transition_cases id e t ev db) as [->|(row & Hr & Hs)]; [by split|].
  destruct (transition_match id e t ev db row Hr Hs) as (m & -> & _). cbn [snd].
  set (new := mkEvent id (Some (state_value e)) (state_value t) ev).
  split; cbn [db_missions db_events log_event].
  - intros id' row'. rewrite lookup_insert. case_decide as Hk.
    + intros [= <-]. subst id'. destruct (Hwf id row Hr) as (Hi & _ & Hl).
      split; [done|]. split; [by exists t|].
      change (moves id _) with (moves id (log_event db new)). rewrite moves_log.
      eapply leads_app; [exact Hl|]. rewrite Hs. unfold move_of, new.
      cbn [ev_mission_id ev_previous_state ev_new_state]. rewrite String.eqb_refl. cbn [andb].
      case_bool_decide as Ht; cbn [negb]; simpl; [congruence|done].
    + intros Hr'. destruct (Hwf id' row' Hr') as (? & ? & Hl). split; [done|]. split; [done|].
      change (moves id' _) with (moves id' (log_event db new)). rewrite moves_log.
      unfold move_of at 1, new. cbn [ev_mission_id].
      rewrite (proj2 (String.eqb_neq _ _)) by done. by rewrite app_nil_r.
  - intros e' He. rewrite lookup_insert. case_decide; [eauto|].
    apply elem_of_app in He as [He|He]; [by apply Hev|].
    by apply list_elem_of_singleton in He as ->.
Qed.

Lemma db_wf_checkpoint db id s ev : db_wf db -> db_wf (insert_mission_event id (Some s) s ev db).2.
Proof.
  intros [Hwf Hev]. unfold insert_mission_event.
  destruct (db_missions db !! id) as [row|] eqn:Hr; [|by split].
  cbn [snd]. split; cbn [db_missions log_event].
  - intros id' row' Hr'. destruct (Hwf id' row' Hr') as (? & ? & Hl). split; [done|]. split; [done|].
    change (mkDB (db_missions db) (db_events db ++ [?e])) with (log_event db e).
    rewrite moves_log. unfold move_of at 1. cbn [ev_previous_state ev_new_state fmap option_fmap option_map].
    rewrite bool_decide_eq_true_2 by done. cbn [negb]. rewrite andb_false_r. by rewrite app_nil_r.
  - intros e He. cbn [db_events] in He. apply elem_of_app in He as [He|He]; [by apply Hev|].
    apply list_elem_of_singleton in He as ->. cbn. by rewrite Hr.
Qed.

Lemma db_wf_scrub db ids : db_wf db -> db_wf (scrub_mission_vaults ids db).2.
Proof.
  intros H. unfold scrub_mission_vaults. destruct ids as [|i ids]; [done|]. cbn [snd].
  apply db_wf_same_states; [..|done].
  - intros id row' Hr. rewrite lookup_fmap in Hr. destruct (db_missions db !! id) as [row|]; [|done].
    simplify_eq/=. exists row. unfold scrub_row. by case_match.
  - intros id [x Hx]. rewrite lookup_fmap, Hx. eauto.
Qed.

Lemma store_step_wf db db' : store_step db db' -> db_wf db -> db_wf db'.
Proof.
  intros Hst Hwf. destruct Hst as [r src db Hq|id e t ev db|id s ev db|id metadata db|id f db|ids db].
  - by apply db_wf_intake.
  - by apply db_wf_transition.
  - by apply db_wf_checkpoint.
  - unfold update_mission_metadata. destruct (db_missions db !! id) as [row|] eqn:Hr; [|done].
    by apply (db_wf_set_metadata db id row).
  - unfold _locked_mission_metadata_update. destruct (db_missions db !! id) as [row|] eqn:Hr; [|done].
    destruct (row_to_mission row ≫= _) as [updated|]; [|done].
    by apply (db_wf_set_metadata db id row).
  - by apply db_wf_scrub.
Qed.

Lemma empty_db_wf : db_wf empty_db.
Proof. split; [done|]. intros e He. by apply not_elem_of_nil in He. Qed.

(** ** The audit verdict and the vault in stored rows *)

Lemma keep_delta_gate_kept stored incoming :
  dmem stored "delta_audit_gate" = true ->
  dmem (keep_delta_gate stored incoming) "delta_audit_gate" = true /\
  (dmem incoming "delta_audit_gate" = false ->
   dget (keep_delta_gate stored incoming) "delta_audit_gate" = dget stored "delta_audit_gate").
Proof.
  intros Hs. unfold keep_delta_gate. rewrite Hs. cbn [andb].
  destruct (dmem incoming "delta_audit_gate") eqn:Hi; cbn [negb]; [done|].
  split; [by rewrite dmem_dset|]. intros _. rewrite dget_dset_eq. unfold dget0.
  unfold dmem in Hs. by destruct (dget stored _).
Qed.

Lemma keep_delta_gate_vault stored incoming :
  dget incoming VAULT_METADATA_KEY = None -> dget (keep_delta_gate stored incoming) VAULT_METADATA_KEY = None.
Proof. intros H. unfold keep_delta_gate. case_match; [by rewrite dget_dset_ne|done]. Qed.

(** What a step leaves of a row that was there. *)
Definition row_after (row row' : Row) : Prop :=
  r_mission_id row' = r_mission_id row /\ r_prompt row' = r_prompt row /\ r_created_at row' = r_created_at row /\
  (dmem (r_metadata row) "delta_audit_gate" = true -> dmem (r_metadata row') "delta_audit_gate" = true).

Lemma row_after_refl row : row_after row row.
Proof. by repeat split. Qed.

Lemma row_after_trans r1 r2 r3 : row_after r1 r2 -> row_after r2 r3 -> row_after r1 r3.
Proof. unfold row_after. intuition congruence. Qed.

Lemma with_metadata_after row m p : row_after row (with_metadata row m p).
Proof. repeat split. intros H. by apply keep_delta_gate_kept. Qed.

Lemma insert_row_after db id id' row row' new :
  db_missions db !! id = Some row -> row_after row new -> db_missions db !! id' = Some row' ->
  exists r, <[id := new]> (db_missions db) !! id' = Some r /\ row_after row' r.
Proof.
  intros Hr Ha Hr'. rewrite lookup_insert. case_decide.
  - subst. simplify_eq. eauto.
  - eauto using row_after_refl.
Qed.

Lemma store_step_rows db db' id row :
  store_step db db' -> db_missions db !! id = Some row ->
  exists row', db_missions db' !! id = Some row' /\ row_after row row'.
Proof.
  intros Hst Hr. destruct Hst as [r src db Hq|id' e t ev db|id' s ev db|id' metadata db|id' f db|ids db].
  - unfold persist_intake_mission. destruct (db_missions db !! r_mission_id _) eqn:E; [eauto using row_after_refl|].
    cbn. rewrite lookup_insert_ne; [eauto using row_after_refl|]. intros Hk. cbn in E. congruence.
  - destruct (transition_cases id' e t ev db) as [->|(row' & Hr' & Hs)]; [eauto using row_after_refl|].
    destruct (transition_match id' e t ev db row' Hr' Hs) as (m & -> & _). cbn.
    eapply insert_row_after; [done| |done]. by repeat split.
  - unfold insert_mission_event. case_match; cbn; eauto using row_after_refl.
  - unfold update_mission_metadata. destruct (db_missions db !! id') eqn:Hr'; [|eauto using row_after_refl].
    cbn. eapply insert_row_after; [done| |done]. apply with_metadata_after.
  - unfold _locked_mission_metadata_update. destruct (db_missions db !! id') eqn:Hr'; [|eauto using row_after_refl].
    destruct (row_to_mission r ≫= _); [|eauto using row_after_refl].
    cbn. eapply insert_row_after; [done| |done]. apply with_metadata_after.
  - unfold scrub_mission_vaults. destruct ids as [|i ids]; [eauto using row_after_refl|]. cbn.
    rewrite lookup_fmap, Hr. eexists. split; [done|]. unfold scrub_row.
    case_match; [|apply row_after_refl]. repeat split. unfold dmem. cbn. by rewrite dget_ddel_ne.
Qed.

(** No stored row holds provider keys. *)
Definition no_vault (db : DB) : Prop :=
  forall id row, db_missions db !! id = Some row -> dget (r_metadata row) VAULT_METADATA_KEY = None.

Lemma no_vault_insert db id row events :
  no_vault db -> dget (r_metadata row) VAULT_METADATA_KEY = None ->
  no_vault (mkDB (<[id := row]> (db_missions db)) events).
Proof.
  intros Hn Hr id' row'. cbn. rewrite lookup_insert. case_decide; [by intros [= <-]|]. apply Hn.
Qed.

Lemma strip_vault_none d : dget (strip_vault d) VAULT_METADATA_KEY = None.
Proof.
  unfold strip_vault. destruct (dmem d VAULT_METADATA_KEY) eqn:E; [apply dget_ddel_eq|].
  unfold dmem in E. by destruct (dget d _).
Qed.

Lemma dset_opt_vault d k v :
  k <> VAULT_METADATA_KEY -> dget (dset_opt d k v) VAULT_METADATA_KEY = dget d VAULT_METADATA_KEY.
Proof. intros. destruct v; [|done]. by apply dget_dset_ne. Qed.

Lemma upsert_params_vault r src : dget (r_metadata (_mission_upsert_params r src)) VAULT_METADATA_KEY = None.
Proof.
  unfold _mission_upsert_params. cbn [r_metadata]. unfold _embed_charter_fields.
  set (m := strip_vault _). pose proof (strip_vault_none (with_project_identity (VDict (ms_metadata r)) (Some (ms_mission_id r)))) as H.
  fold m in H. destruct (ms_lifecycle_engine r) as [e|]; [case_match|];
    rewrite ?dget_dset_ne by done; by rewrite !dset_opt_vault.
Qed.

Lemma with_project_identity_vault m id :
  dget m VAULT_METADATA_KEY = None -> dget (with_project_identity (VDict m) id) VAULT_METADATA_KEY = None.
Proof.
  intros H. unfold with_project_identity, name_project. cbn zeta. rewrite dict_value_VDict.
  repeat case_match; rewrite ?dget_dset_ne by done; done.
Qed.

Lemma partition_update_vault now r m m' :
  dget m VAULT_METADATA_KEY = None -> partition_update now r m = Ok m' -> dget m' VAULT_METADATA_KEY = None.
Proof.
  intros H Hu. unfold partition_update in Hu. cbv zeta in Hu.
  unfold Scaling.record_partition_result in Hu. rewrite dget0_dset_ne, dget0_dset_eq in Hu by done.
  apply result_bind_Ok in Hu as (b & _ & Hu). destruct b.
  - apply result_bind_Ok in Hu as (rs & _ & [= <-]). by rewrite !dget_dset_ne.
  - injection Hu as <-. by rewrite !dget_dset_ne.
Qed.

(** A metadata update on a stored row: the state stays, and every key but the
    project identity, the vault and the audit verdict is as given. *)
Lemma update_metadata_row id metadata db row s :
  db_missions db !! id = Some row -> r_state row = state_value s ->
  exists m row', update_mission_metadata id metadata db =
      (Ok (Some m), mkDB (<[id := row']> (db_missions db)) (db_events db)) /\
    ms_state m = s /\ ms_metadata m = r_metadata row' /\ r_state row' = r_state row /\
    forall k, str_in k ["project_id"; "project_name"; "vault"; "delta_audit_gate"] = false ->
      dget (r_metadata row') k = dget metadata k.
Proof.
  intros Hr Hs. unfold update_mission_metadata. rewrite Hr. cbv zeta.
  set (row' := with_metadata row _ _).
  destruct (row_to_mission_ok row' s Hs) as (m & Hm & Hst & _ & Hmd).
  exists m, row'. rewrite Hm. split_and!; [done..|]. intros k Hk%str_in_false.
  rewrite !not_elem_of_cons in Hk. destruct Hk as (Hk1 & Hk2 & Hk3 & Hk4 & _).
  unfold row', with_metadata, keep_delta_gate. cbn [r_metadata].
  case_match; rewrite ?dget_dset_ne by done; rewrite strip_vault_ne by done;
    unfold with_project_identity; rewrite name_project_frame by done;
    rewrite dget_dset_ne by done; by rewrite dict_value_VDict.
Qed.

(** ** Racing transitions *)

(** Several actors compare-and-swap the same expected state, in this order. *)
Fixpoint race (id : string) (e : MissionState) (attempts : list (MissionState * string)) (db : DB)
    : list (result (option MissionRecord)) * DB :=
  match attempts with
  | [] => ([], db)
  | (t, ev) :: rest =>
      let (r, db') := transition_mission_state id (Some e) t ev db in
      let (rs, db'') := race id e rest db' in (r :: rs, db'')
  end.

Lemma race_lost id e attempts db :
  (forall row, db_missions db !! id = Some row -> r_state row <> state_value e) ->
  race id e attempts db = ((fun _ => Ok None) <$> attempts, db).
Proof.
  intros H. induction attempts as [|[t ev] rest IH]; [done|]. cbn [race].
  rewrite transition_mismatch by done. by rewrite IH.
Qed.

(** ** Partition results *)

(** Results as the service writes them: stamped, and with objects as payload. *)
Definition result_wf (r : PartitionResult) : Prop :=
  pr_completed_at r <> "" /\ Forall (fun v => is_dict v = true) (pr_logicnodes r) /\
  Forall (fun v => is_dict v = true) (pr_artifacts r).

Lemma filter_all {A} (p : A -> bool) l : Forall (fun x => p x = true) l -> List.filter p l = l.
Proof. induction 1 as [|x l Hx _ IH]; simpl; [done|]. by rewrite Hx, IH. Qed.

Lemma read_partition_result_to_dict now r :
  result_wf r -> read_partition_result now (PartitionResult_to_dict r) = Ok r.
Proof.
  intros (Hc & Hn & Ha). destruct r as [pid i a nodes arts rep c]. cbn [pr_completed_at pr_logicnodes pr_artifacts] in *.
  unfold read_partition_result, dicts_of, PartitionResult_to_dict, dget_or, dget0, dget.
  cbn [String.eqb Ascii.eqb Bool.eqb default from_option id py_int py_tuple pr_partition_id pr_instance_index
    pr_agent_id pr_logicnodes pr_artifacts pr_report pr_completed_at mbind result_bind fmap result_fmap py_str].
  rewrite !filter_all by done. unfold new_partition_result, str_or.
  by rewrite (proj2 (String.eqb_neq c "") Hc).
Qed.

Lemma read_partition_results_to_dict now rs :
  Forall result_wf rs ->
  read_partition_results now ((fun r => VDict (PartitionResult_to_dict r)) <$> rs) = Ok rs.
Proof.
  induction 1 as [|r rs Hr _ IH]; [done|]. rewrite fmap_cons. cbn [read_partition_results].
  by rewrite read_partition_result_to_dict, IH.
Qed.

(** The recorded results, as the dictionary that holds them. *)
Definition results_dict (rs : list PartitionResult) : dict :=
  (fun r => (pr_partition_id r, VDict (PartitionResult_to_dict r))) <$> rs.

Lemma results_dict_app rs r :
  pr_partition_id r ∉ (pr_partition_id <$> rs) ->
  dset (results_dict rs) (pr_partition_id r) (VDict (PartitionResult_to_dict r)) = results_dict (rs ++ [r]).
Proof.
  unfold results_dict. induction rs as [|x rs IH]; [done|]. rewrite fmap_cons, not_elem_of_cons.
  intros [Hne Hr]. cbn. rewrite (proj2 (String.eqb_neq _ _) Hne). f_equal. by apply IH.
Qed.

Lemma dmem_results_dict rs id : dmem (results_dict rs) id = true <-> id ∈ (pr_partition_id <$> rs).
Proof. rewrite dmem_keys. unfold dkeys, results_dict. by rewrite <- list_fmap_compose. Qed.

(** The state of the metadata after some results: decision, results and, once
    they cover the decision, their merge. *)
Definition partition_state (now : string) (d : ScalingDecision) (rs : list PartitionResult) (m : dict) : Prop :=
  dget m "scaling_decision" = Some (VDict (ScalingDecision_to_dict d)) /\
  dget m "partition_results" = Some (VDict (results_dict rs)) /\
  let covered := forallb (fun p => dmem (results_dict rs) (wp_partition_id p)) (sd_partitions d) in
  dget m "scaling_merge_complete" = Some (VBool covered) /\
  (covered = true ->
   dget m "merged_partition_result" = Some (VDict (MergedResult_to_dict (merge_partition_results now rs)))).

Lemma partition_update_spec now d rs m r :
  sd_decided_at d <> "" -> 1 < sd_instance_count d -> Forall result_wf (rs ++ [r]) ->
  pr_partition_id r ∉ (pr_partition_id <$> rs) ->
  dget m "scaling_decision" = Some (VDict (ScalingDecision_to_dict d)) ->
  dict_value (dget0 m "partition_results") = results_dict rs ->
  exists m', partition_update now r m = Ok m' /\ partition_state now d (rs ++ [r]) m'.
Proof.
  intros Hd Hc Hwf Hnew Hdec Hres. unfold partition_update. cbv zeta.
  unfold Scaling.record_partition_result. rewrite Hres, results_dict_app by done.
  rewrite dget0_dset_ne, dget0_dset_eq by done.
  set (m1 := dset (dset (dset m "partition_results" (VDict (results_dict (rs ++ [r]))))
    "last_partition_result_at" _) "partition_result_count" _).
  assert (dget m1 "partition_results" = Some (VDict (results_dict (rs ++ [r])))) as Hr1
    by (unfold m1; by dict_simpl).
  assert (dget m1 "scaling_decision" = Some (VDict (ScalingDecision_to_dict d))) as Hd1
    by (unfold m1; by dict_simpl).
  assert (dget0 m1 "partition_results" = VDict (results_dict (rs ++ [r]))) as Hr0
    by (unfold dget0; by rewrite Hr1).
  assert (all_partitions_complete now m1 =
    Ok (forallb (fun p => dmem (results_dict (rs ++ [r])) (wp_partition_id p)) (sd_partitions d))) as ->.
  { unfold all_partitions_complete. rewrite (decision_roundtrip now m1 d Hd Hd1). cbn [mbind result_bind].
    by rewrite (proj2 (Z.leb_gt _ 1) Hc), Hr0. }
  cbn [mbind result_bind]. unfold partition_state. cbv zeta.
  destruct (forallb _ _) eqn:E.
  - rewrite Hr0, dict_value_VDict. unfold dvalues, results_dict. rewrite <- list_fmap_compose.
    change (read_partition_results now _) with
      (read_partition_results now ((fun r => VDict (PartitionResult_to_dict r)) <$> (rs ++ [r]))).
    rewrite read_partition_results_to_dict by done. cbn [mbind result_bind].
    eexists. split; [reflexivity|]. fold (results_dict (rs ++ [r])). dict_simpl. done.
  - eexists. split; [reflexivity|]. dict_simpl. done.
Qed.

(** A small database for the examples: one mission taken in from the stream. *)
Definition demo_record : MissionRecord :=
  mkMission "m1" "build it" (Some "python") (Some "BUILD_NEW") None None None
    [("source", VStr "demo")] None None queued "2026-01-01T00:00:00+00:00".

Definition demo_db : DB := (persist_intake_mission demo_record "1-0" empty_db).2.
Definition demo_row : Row := _mission_upsert_params demo_record (Some "1-0").

(** ** Properties *)

(** C17: mutual exclusion. When several actors try to move a mission out of
    the same state, in any order and to whatever other states, exactly the first
    succeeds: it returns the record in its new state, everybody else gets [None]
    and changes nothing, and the log grows by the one event of the winner. *)
Theorem transition_race_one_winner id e t ev rest db row :
  db_missions db !! id = Some row -> r_state row = state_value e ->
  Forall (fun a => a.1 <> e) ((t, ev) :: rest) ->
  exists m db', race id e ((t, ev) :: rest) db = (Ok (Some m) :: ((fun _ => Ok None) <$> rest), db') /\
    ms_state m = t /\ ms_mission_id m = r_mission_id row /\
    db_missions db' = <[id := with_state row (state_value t)]> (db_missions db) /\
    db_events db' = db_events db ++ [mkEvent id (Some (state_value e)) (state_value t) ev].
Proof.
  intros Hr Hs [Ht _]%Forall_cons. cbn [race].
  destruct (transition_match id e t ev db row Hr Hs) as (m & -> & Hm & Hid).
  rewrite race_lost.
  - exists m. eexists. split; [reflexivity|]. done.
  - cbn. intros row'. rewrite lookup_insert_eq. intros [= <-]. cbn. intros E.
    by apply Ht, state_value_inj.
Qed.

Lemma transition_race_one_winner_witness :
  db_missions demo_db !! "m1" = Some demo_row /\ r_state demo_row = state_value queued /\
  exists m db', race "m1" queued [(pm_intake, "MISSION_PM_INTAKE"); (clarifying, "MISSION_CLARIFYING")] demo_db =
    ([Ok (Some m); Ok None], db') /\ ms_state m = pm_intake.
Proof.
  split; [reflexivity|]. split; [reflexivity|].
  assert (Forall (fun a : MissionState * string => a.1 <> queued)
    [(pm_intake, "MISSION_PM_INTAKE"); (clarifying, "MISSION_CLARIFYING")]) as H by (repeat constructor; discriminate).
  destruct (transition_race_one_winner "m1" queued pm_intake "MISSION_PM_INTAKE"
    [(clarifying, "MISSION_CLARIFYING")] demo_db demo_row eq_refl eq_refl H) as (m & db' & Hrun & Hm & _).
  exists m, db'. split; [exact Hrun|exact Hm].
Defined.



(** C12: a mission is never lost and its audit verdict is never erased. After any
    number of actions a stored mission is still stored under the same prompt and
    creation time, and if a Delta audit verdict was recorded in its metadata there
    is one still; a metadata update without a verdict keeps the very verdict
    that was stored. *)
Theorem audit_verdict_survives db db' id row :
  rtc store_step db db' -> db_missions db !! id = Some row ->
  exists row', db_missions db' !! id = Some row' /\ r_prompt row' = r_prompt row /\
    r_created_at row' = r_created_at row /\
    (dmem (r_metadata row) "delta_audit_gate" = true ->
     dmem (r_metadata row') "delta_audit_gate" = true /\
     forall metadata, dmem metadata "delta_audit_gate" = false ->
       exists row'', db_missions (update_mission_metadata id metadata db').2 !! id = Some row'' /\
         dget (r_metadata row'') "delta_audit_gate" = dget (r_metadata row') "delta_audit_gate").
Proof.
  intros H Hr. assert (exists row', db_missions db' !! id = Some row' /\ row_after row row') as (row' & Hr' & Ha).
  { revert row Hr. induction H as [db|db db1 db2 Hst _ IH]; intros row Hr; [eauto using row_after_refl|].
    destruct (store_step_rows _ _ _ _ Hst Hr) as (row1 & Hr1 & Ha1).
    destruct (IH row1 Hr1) as (row2 & ? & Ha2). eauto using row_after_trans. }
  exists row'. destruct Ha as (_ & Hp & Hc & Hg). split_and!; [done..|]. intros Hd. split; [by apply Hg|].
  intros metadata Hm. unfold update_mission_metadata. rewrite Hr'. cbn.
  rewrite lookup_insert_eq. eexists. split; [reflexivity|]. cbn. apply keep_delta_gate_kept; [by apply Hg|].
  unfold strip_vault, with_project_identity, name_project. cbv zeta. rewrite dict_value_VDict.
  unfold dmem in *. repeat case_match; simplify_eq; try done; exfalso;
    revert select (dget _ "delta_audit_gate" = Some _); rewrite ?dget_ddel_ne, ?dget_dset_ne by done; congruence.
Qed.

Lemma audit_verdict_survives_witness :
  let db := (update_mission_metadata "m1" [("delta_audit_gate", VDict [("passed", VBool true)])] demo_db).2 in
  let row := default demo_row (db_missions db !! "m1") in
  rtc store_step db db /\ db_missions db !! "m1" = Some row /\
  dmem (r_metadata row) "delta_audit_gate" = true /\
  exists row', db_missions db !! "m1" = Some row' /\ dmem (r_metadata row') "delta_audit_gate" = true.
Proof.
  intros db row. assert (rtc store_step db db) as H by apply rtc_refl.
  assert (db_missions db !! "m1" = Some row) as Hr by (vm_compute; reflexivity).
  assert (dmem (r_metadata row) "delta_audit_gate" = true) as Hg by (vm_compute; reflexivity).
  split; [exact H|]. split; [exact Hr|]. split; [exact Hg|].
  destruct (audit_verdict_survives db db "m1" row H Hr) as (row' & Hr' & _ & _ & Hk).
  exists row'. split; [exact Hr'|]. apply (Hk Hg).
Defined.

(** The write paths keep the database free of provider keys. *)
Lemma no_vault_persist db r src : no_vault db -> no_vault (persist_intake_mission r src db).2.
Proof.
  intros Hn. unfold persist_intake_mission. pose proof (upsert_params_vault r (Some src)) as Hu.
  destruct (db_missions db !! _); [done|]. by apply no_vault_insert.
Qed.

Lemma no_vault_transition db id e t ev : no_vault db -> no_vault (transition_mission_state id e t ev db).2.
Proof.
  intros Hn. unfold transition_mission_state. destruct (db_missions db !! id) as [row|] eqn:Hr; [|done].
  match goal with |- context [if ?b then _ else _] => destruct b end; [|done].
  apply (no_vault_insert db id (with_state row (state_value t))); [done|]. exact (Hn id row Hr).
Qed.

Lemma no_vault_update db id metadata : no_vault db -> no_vault (update_mission_metadata id metadata db).2.
Proof.
  intros Hn. unfold update_mission_metadata. destruct (db_missions db !! id) eqn:Hr; [|done].
  cbn [snd]. apply no_vault_insert; [done|]. apply keep_delta_gate_vault, strip_vault_none.
Qed.

Lemma no_vault_partition db now id raw : no_vault db -> no_vault (store_partition_result now id raw db).2.
Proof.
  intros Hn. unfold store_partition_result. destruct (read_partition_result now raw) as [r|]; [|done].
  unfold _locked_mission_metadata_update. destruct (db_missions db !! id) as [row|] eqn:Hr; [|done].
  destruct (row_to_mission row ≫= _) as [updated|] eqn:Hu; [|done].
  apply no_vault_insert; [done|]. apply keep_delta_gate_vault, with_project_identity_vault.
  apply result_bind_Ok in Hu as (m & Hm & Hu). eapply partition_update_vault; [|exact Hu].
  unfold row_to_mission in Hm. cbv zeta in Hm. unfold _charter_fields_from_metadata in Hm.
  apply result_bind_Ok in Hm as (s & _ & [= <-]). cbn. exact (Hn id row Hr).
Qed.

Lemma scrub_lookup ids db id :
  db_missions (scrub_mission_vaults ids db).2 !! id =
    (match ids with [] => fun row => row | _ => scrub_row ids end) <$> db_missions db !! id.
Proof. destruct ids; cbn; [by rewrite option_fmap_id|by rewrite lookup_fmap]. Qed.

(** The migration of legacy provider keys ends with none in the database,
    whatever the rows held: scrubbing the missions [list_legacy_vaults] names leaves
    no vault, changes nothing else, and every write path keeps it so. *)
Lemma vaults_leave_database db :
  (forall id row, db_missions db !! id = Some row -> r_mission_id row = id) ->
  (exists legacy, list_legacy_vaults db = (Ok legacy, db) /\
     no_vault (scrub_mission_vaults legacy.*1 db).2 /\
     forall id row k, db_missions db !! id = Some row -> k <> VAULT_METADATA_KEY ->
       exists row', db_missions (scrub_mission_vaults legacy.*1 db).2 !! id = Some row' /\
         dget (r_metadata row') k = dget (r_metadata row) k /\ r_state row' = r_state row) /\
  (no_vault db ->
   (forall r src, no_vault (upsert_mission r src db).2) /\
   (forall r src, no_vault (persist_intake_mission r src db).2) /\
   (forall id e t ev, no_vault (transition_mission_state id e t ev db).2) /\
   (forall id p s ev, no_vault (insert_mission_event id p s ev db).2) /\
   (forall id metadata, no_vault (update_mission_metadata id metadata db).2) /\
   (forall now id raw, no_vault (store_partition_result now id raw db).2)).
Proof.
  intros Hkey. split.
  - eexists. split; [reflexivity|].
    set (legacy := omap _ _).
    assert (forall id row, db_missions db !! id = Some row -> dmem (r_metadata row) VAULT_METADATA_KEY = true ->
              str_in id legacy.*1 = true) as Hin.
    { intros id row Hr Hv. apply str_in_spec, list_elem_of_fmap.
      exists (id, dict_value (dget0 (r_metadata row) VAULT_METADATA_KEY)). split; [done|].
      apply list_elem_of_omap. exists (id, row). split; [by apply elem_of_map_to_list|]. cbn. by rewrite Hv. }
    assert (forall id row, db_missions db !! id = Some row ->
              db_missions (scrub_mission_vaults legacy.*1 db).2 !! id = Some (scrub_row legacy.*1 row)) as Hrow.
    { intros id row Hr. rewrite scrub_lookup, Hr. by destruct legacy.*1. }
    split.
    + intros id row' Hr'. destruct (db_missions db !! id) as [row|] eqn:Hr.
      * rewrite (Hrow id row Hr) in Hr'. injection Hr' as <-. unfold scrub_row.
        destruct (dmem (r_metadata row) VAULT_METADATA_KEY) eqn:Hv.
        -- rewrite (Hkey id row Hr), (Hin id row Hr Hv). cbn. apply dget_ddel_eq.
        -- rewrite andb_false_r. unfold dmem in Hv. by destruct (dget _ _).
      * by rewrite scrub_lookup, Hr in Hr'.
    + intros id row k Hr Hk. exists (scrub_row legacy.*1 row). split; [by apply Hrow|].
      unfold scrub_row. case_match; [|done]. cbn. by rewrite dget_ddel_ne by done.
  - intros Hn. split_and!; auto using no_vault_persist, no_vault_transition, no_vault_update, no_vault_partition.
    + intros r src. unfold upsert_mission. pose proof (upsert_params_vault r src) as Hu.
      destruct (db_missions db !! _); by apply no_vault_insert.
    + intros id p s ev. unfold insert_mission_event. by case_match.
Qed.

Lemma vaults_leave_database_witness :
  let legacy := mkRow "m1" "p" None [("vault", VDict [("openai", VStr "k")]); ("a", VInt 1)]
                  None "QUEUED" "t" None in
  let db := mkDB {["m1" := legacy]} [] in
  (forall id row, db_missions db !! id = Some row -> r_mission_id row = id) /\
  list_legacy_vaults db = (Ok [("m1", [("openai", VStr "k")])], db) /\
  no_vault (scrub_mission_vaults ["m1"] db).2.
Proof.
  intros legacy db. assert (forall id row, db_missions db !! id = Some row -> r_mission_id row = id) as H.
  { intros id row Hr. unfold db in Hr. cbn [db_missions] in Hr. apply lookup_singleton_Some in Hr as [<- <-]. reflexivity. }
  split; [exact H|]. split; [vm_compute; reflexivity|].
  destruct (proj1 (vaults_leave_database db H)) as (l & Hl & Hn & _).
  assert (list_legacy_vaults db = (Ok [("m1", [("openai", VStr "k")])], db)) as E by (vm_compute; reflexivity).
  rewrite E in Hl. injection Hl as <-. exact Hn.
Defined.

(** The results of scaled partitions are merged exactly when they are
    complete. Recording well-formed results one after another in the metadata that
    holds the decision never raises; after each, the metadata holds all of them,
    the completion flag says whether they cover the decision's partitions, and if
    they do the merged result is that of all of them in partition order. *)
Lemma partition_results_merge now d rs r m :
  sd_decided_at d <> "" -> 1 < sd_instance_count d ->
  Forall result_wf (rs ++ [r]) -> NoDup (pr_partition_id <$> (rs ++ [r])) ->
  dget m "partition_results" = None ->
  exists m', foldl (fun acc x => acc ≫= partition_update now x) (Ok (embed_scaling_decision m d)) (rs ++ [r])
             = Ok m' /\ partition_state now d (rs ++ [r]) m'.
Proof.
  intros Hd Hc Hwf Hnd Hm. revert r Hwf Hnd.
  induction rs as [|x rs IH] using rev_ind; intros r Hwf Hnd.
  - cbn [foldl app]. apply (partition_update_spec now d [] _ r); try done.
    + apply not_elem_of_nil.
    + unfold embed_scaling_decision. by dict_simpl.
    + unfold embed_scaling_decision, dget0. dict_simpl. by rewrite Hm.
  - apply Forall_app in Hwf as [Hwf Hr]. rewrite fmap_app, NoDup_app in Hnd. destruct Hnd as (Hnd & Hdis & _).
    destruct (IH x Hwf Hnd) as (m1 & Hm1 & Hdec & Hres & _).
    rewrite foldl_app, Hm1. cbn [foldl mbind result_bind].
    apply partition_update_spec; try done.
    + by apply Forall_app.
    + intros Hin. apply (Hdis _ Hin). by left.
    + unfold dget0. by rewrite Hres.
Qed.

Lemma partition_results_merge_witness :
  let d := compute_scaling_decision (fun _ => "u") "t" "AGENT-14-PYTHON" ["a"; "b"; "c"] 2 1 in
  let r i id := new_partition_result id i "AGENT-14-PYTHON" [VDict [("n", VStr id)]] [] [] "" "t" in
  let rs := [r 1 "p1-u"] ++ [r 0 "p0-u"] in
  (sd_decided_at d <> "" /\ 1 < sd_instance_count d /\ Forall result_wf rs /\ NoDup (pr_partition_id <$> rs)) /\
  mr_logicnodes (merge_partition_results "t" rs) = [VDict [("n", VStr "p0-u")]; VDict [("n", VStr "p1-u")]] /\
  exists m', foldl (fun acc x => acc ≫= partition_update "t" x) (Ok (embed_scaling_decision [] d)) rs = Ok m' /\
             partition_state "t" d rs m'.
Proof.
  intros d r rs.
  assert (sd_decided_at d <> "") as H1 by discriminate.
  assert (1 < sd_instance_count d) as H2 by reflexivity.
  assert (Forall result_wf rs) as H3 by (repeat constructor; discriminate).
  assert (NoDup (pr_partition_id <$> rs)) as H4 by (apply (bool_decide_unpack _); by vm_compute).
  split; [done|]. split; [reflexivity|].
  apply (partition_results_merge "t" d [r 1 "p1-u"] (r 0 "p0-u") [] H1 H2 H3 H4 eq_refl).
Defined.
