(* ===== verification/Lifecycle.v ===== *)
(** * Lifecycle

    [mission_flow_v2/lifecycle.py] (the v2 driver and its gates) and the setting and
    trace readers of [mission_flow_v2/base.py].

    The stage preparers and phase helpers the driver calls (language-model calls,
    artifact packaging, reports) are the fields of the record [Phases]: actions on
    the database whose outcome the driver inspects.  What the driver relies on is
    the class [QuietPhases]: a phase does not move the mission's state, except that
    the PM intake may put it on the clarification hold, and then refuses.
    Emitting state events to Redis happens in [try/except Exception] and never
    changes the outcome; it is left out, as is the pause between transitions. *)

From S2P Require Import Prelude PyVal Agents MissionStates MissionFlow Scaling Store.

(** ** Settings and traces *)

(** [_setting_bool(settings, name, default)] on the value of the attribute. *)
Definition _setting_bool (raw : val) (default : bool) : bool :=
  match raw with
  | VBool b => b
  | VInt z => negb (z =? 0)
  | VStr s =>
      let candidate := str_lower (str_strip s) in
      if str_in candidate ["1"; "true"; "yes"; "on"] then true
      else if str_in candidate ["0"; "false"; "no"; "off"; ""] then false
      else default
  | _ => default
  end.

Definition _chain_event_exists (metadata : dict) (event_type : string) : bool :=
  existsb (fun record => match record with
                         | VDict d => String.eqb (str_upper (py_str (dget_or d "event_type" (VStr "")))) event_type
                         | _ => false
                         end) (chain_trace metadata).

Definition RUNTIME_PHASES : list MissionState := [running; gating; fusion; verified; complete].

(** ** The phases the driver calls *)

Record Phases := mkPhases {
  _prepare_pm_intake : string -> M bool;
  _prepare_fetch_phase : string -> M bool;
  _prepare_ceo_delegation : string -> M bool;
  _prepare_pod_assignment : string -> M bool;
  _prepare_specialist_assignment : string -> M bool;
  _prepare_specialist_plan : string -> M bool;
  _emit_partition_work_items : MissionRecord -> M MissionRecord;
  completion_check_fn : MissionRecord -> M (bool * dict);
  _prepare_equivalence_report : MissionRecord -> M (MissionRecord * bool * dict);
  _prepare_security_compliance_report : MissionRecord -> M (MissionRecord * bool * dict);
  _prepare_dependency_absorption_reports : MissionRecord -> M (MissionRecord * bool * dict);
  _prepare_depabs_execution : MissionRecord -> M MissionRecord;
  _prepare_runtime_qc : MissionRecord -> M (MissionRecord * bool * dict);
  build_deploy_readiness_assessment : string -> dict -> M dict;
  _prepare_delivery_summary : MissionRecord -> M MissionRecord;
  _persist_runtime_phase_artifact : MissionRecord -> string -> M MissionRecord;
  _ensure_verified_build_artifact : MissionRecord -> M MissionRecord;
  _produce_pod_group_standard : MissionRecord -> M MissionRecord;
  _prepare_fusion : MissionRecord -> M MissionRecord;
}.

(** [stage_preparers.get(state)] *)
Definition stage_preparers (P : Phases) (s : MissionState) : option (string -> M bool) :=
  match s with
  | queued => Some (_prepare_pm_intake P)
  | pm_intake => Some (_prepare_fetch_phase P)
  | fetch => Some (_prepare_ceo_delegation P)
  | ceo_delegated => Some (_prepare_pod_assignment P)
  | pod_assigned => Some (_prepare_specialist_assignment P)
  | specialist_assigned => Some (_prepare_specialist_plan P)
  | _ => None
  end.

Section driver.
Context (P : Phases) (now : string) (event_driven_control_plane_enabled : val).

(** [with_chain_defaults(mission.metadata, mission.requested_target_language)] *)
Definition chain_defaults (mission : MissionRecord) : dict :=
  with_chain_defaults (VDict (ms_metadata mission)) (ms_language mission).

Definition log_verified (mission_id event_type : string) : M unit :=
  insert_mission_event mission_id (Some verified) verified event_type.

(** ** Gates *)

Definition _advance_running_to_gating (mission_id : string) : M bool :=
  found ← fetch_mission mission_id;
  match found with
  | None => mret false
  | Some mission =>
      let metadata := chain_defaults mission in
      if truthy (dget0 metadata "scaling_active") then
        metadata ← (if truthy (dget0 metadata "scaling_partition_events_emitted") then mret metadata
                    else mission' ← _emit_partition_work_items P mission; mret (chain_defaults mission'));
        lift (all_partitions_complete now metadata)
      else mret true
  end.

Definition _delta_audit_gate (mission : MissionRecord) : bool * dict :=
  if negb (_setting_bool event_driven_control_plane_enabled false) then (true, [])
  else
    match dget0 (ms_metadata mission) "delta_audit_gate" with
    | VDict gate =>
        if negb (truthy (dget0 gate "passed")) then
          (false, [("reason", VStr "consumed Delta audit verdict did not pass");
                   ("gate", VStr "delta_audit");
                   ("audit_result", dget0 gate "audit_result");
                   ("pod", dget0 gate "pod")])
        else (true, [])
    | _ =>
        (false, [("reason", VStr "no Delta audit verdict has been consumed for this mission");
                 ("gate", VStr "delta_audit");
                 ("consumer", VStr "protocol-bus-orchestrator");
                 ("hint", VStr ("the Delta consumer may be down; the verdict must be consumed off " +:+
                                "the bus, not merely produced"))])
    end.

(** The chain event, the metadata update and the event of a blocked completion. *)
Definition completion_blocked (mission_id : string) (mission : MissionRecord) (details : dict) : M unit :=
  let metadata := append_chain_event (chain_defaults mission) "MISSION_COMPLETION_BLOCKED"
                    CEO_AGENT_ID (Some details) None now in
  _ ← update_mission_metadata mission_id metadata;
  log_verified mission_id "MISSION_COMPLETION_BLOCKED".

Definition runtime_qc_details (report : dict) : dict :=
  [("gate", VStr "runtime_qc");
   ("reason", VStr "runtime QC did not pass, so the mission may not complete");
   ("verdict", dget0 report "verdict");
   ("exit_code", dget0 report "exit_code");
   ("filename", dget0 report "filename");
   ("execution_type", dget0 report "execution_type");
   ("stderr_excerpt", VStr (str_take 400 (py_str (py_or (dget0 report "stderr_preview") (VStr "")))))].

(** After the gates: deploy readiness (advisory) and the delivery summary. *)
Definition deliver (mission_id : string) (mission : MissionRecord) : M bool :=
  found ← fetch_mission mission_id;
  let mission := default mission found in
  let meta := chain_defaults mission in
  readiness ← build_deploy_readiness_assessment P mission_id meta;
  let meta := dset meta "deploy_readiness" (VDict readiness) in
  let meta :=
    if _chain_event_exists meta "MISSION_DEPLOY_READINESS_ASSESSED" then meta
    else append_chain_event meta "MISSION_DEPLOY_READINESS_ASSESSED" "AGENT-11-DEPLOY"
           (Some [("ready", dget0 readiness "ready"); ("blockers", dget0 readiness "blockers");
                  ("source", dget0 readiness "source")]) None now in
  _ ← update_mission_metadata mission_id meta;
  _ ← _prepare_delivery_summary P mission;
  mret true.

(** The gates after the completion check and the audit verdict. *)
Definition runtime_qc_gate (mission_id : string) (mission : MissionRecord) : M bool :=
  mission ← _prepare_depabs_execution P mission;
  '(mission, ready, report) ← _prepare_runtime_qc P mission;
  if ready : bool then deliver mission_id mission
  else
    _ ← completion_blocked mission_id mission (runtime_qc_details report);
    _ ← log_verified mission_id "MISSION_RUNTIME_QC_BLOCKED";
    mret false.

Definition report_gates (mission_id : string) (mission : MissionRecord) : M bool :=
  '(mission, ready, _) ← _prepare_equivalence_report P mission;
  if negb ready then _ ← log_verified mission_id "MISSION_EQUIVALENCE_BLOCKED"; mret false
  else
    '(mission, ready, _) ← _prepare_security_compliance_report P mission;
    if negb ready then _ ← log_verified mission_id "MISSION_SECURITY_COMPLIANCE_BLOCKED"; mret false
    else
      '(mission, ready, _) ← _prepare_dependency_absorption_reports P mission;
      if negb ready then _ ← log_verified mission_id "MISSION_DEPENDENCY_ABSORPTION_BLOCKED"; mret false
      else runtime_qc_gate mission_id mission.

Definition _advance_verified_to_complete (mission_id : string) : M bool :=
  found ← fetch_mission mission_id;
  match found with
  | None => mret false
  | Some mission =>
      '(ready, details) ← completion_check_fn P mission;
      let (ready, details) := if ready : bool then _delta_audit_gate mission else (false, details) in
      if negb ready then _ ← completion_blocked mission_id mission details; mret false
      else report_gates mission_id mission
  end.

(** ** The driver *)

Definition _advance_runtime_phases (record : MissionRecord) (new_state : MissionState)
    (event_type : string) : M MissionRecord :=
  record ← _persist_runtime_phase_artifact P record event_type;
  record ← (if decide (new_state = verified)
            then try_except (_ensure_verified_build_artifact P record) record else mret record);
  if decide (new_state = running) then _emit_partition_work_items P record else mret record.

(** What follows a transition that succeeded. *)
Definition after_transition (record : MissionRecord) (new_state : MissionState)
    (event_type : string) : M MissionRecord :=
  record ← (if decide (new_state ∈ RUNTIME_PHASES)
            then _advance_runtime_phases record new_state event_type else mret record);
  record ← (if decide (new_state = gating) then _produce_pod_group_standard P record else mret record);
  if decide (new_state = fusion) then _prepare_fusion P record else mret record.

(** What must agree before a transition is tried. *)
Definition before_transition (mission_id : string) (expected_state new_state : MissionState) : M bool :=
  prepared ← (match stage_preparers P expected_state with
              | Some preparer => preparer mission_id
              | None => mret true
              end);
  if negb prepared then mret false
  else
    ready ← (if decide (expected_state = running /\ new_state = gating)
             then _advance_running_to_gating mission_id else mret true);
    if negb ready then mret false
    else if decide (expected_state = verified /\ new_state = complete)
         then _advance_verified_to_complete mission_id else mret true.

(** The loop over the pending transitions. *)
Fixpoint drive (mission_id : string) (pending : list (MissionState * MissionState * string)) : M unit :=
  match pending with
  | [] => mret tt
  | (expected_state, new_state, event_type) :: rest =>
      go ← before_transition mission_id expected_state new_state;
      if negb go then mret tt
      else
        record ← transition_mission_state mission_id (Some expected_state) new_state event_type;
        match record with
        | None => mret tt
        | Some record =>
            _ ← after_transition record new_state event_type;
            drive mission_id rest
        end
  end.

(** [V2_TRANSITIONS[start_index:]], empty when no transition starts in the state. *)
Fixpoint pending_from (s : MissionState) (l : list (MissionState * MissionState * string))
    : list (MissionState * MissionState * string) :=
  match l with
  | [] => []
  | tr :: l' => if decide (tr.1.1 = s) then l else pending_from s l'
  end.

Definition advance_mission_lifecycle_v2 (mission_id : string) : M unit :=
  found ← fetch_mission mission_id;
  match found with
  | None => mret tt
  | Some mission => drive mission_id (pending_from (ms_state mission) V2_TRANSITIONS)
  end.
End driver.

(** ** What the driver relies on *)

Definition state_of (db : DB) (mission_id : string) : option string :=
  r_state <$> db_missions db !! mission_id.

(** Nothing happened to the state of the mission, nor to the state changes logged for it. *)
Definition quiet (id : string) (db db' : DB) : Prop :=
  state_of db' id = state_of db id /\ moves id db' = moves id db.

Definition keeps {A} (id : string) (m : M A) : Prop := forall db, quiet id db (m db).2.

Definition hold_move : option string * string := (Some (state_value queued), state_value clarifying).

(** The PM intake puts a queued mission on hold. *)
Definition held (id : string) (db db' : DB) : Prop :=
  state_of db id = Some (state_value queued) /\ state_of db' id = Some (state_value clarifying) /\
  moves id db' = moves id db ++ [hold_move].

(** The contract of the phases towards the driver, for one mission. *)
Class QuietPhases (P : Phases) (id : string) : Prop := {
  quiet_pm_intake : forall db,
    quiet id db (_prepare_pm_intake P id db).2 \/
    (held id db (_prepare_pm_intake P id db).2 /\ (_prepare_pm_intake P id db).1 <> Ok true);
  quiet_fetch_phase : keeps id (_prepare_fetch_phase P id);
  quiet_ceo_delegation : keeps id (_prepare_ceo_delegation P id);
  quiet_pod_assignment : keeps id (_prepare_pod_assignment P id);
  quiet_specialist_assignment : keeps id (_prepare_specialist_assignment P id);
  quiet_specialist_plan : keeps id (_prepare_specialist_plan P id);
  quiet_emit_partitions : forall r, keeps id (_emit_partition_work_items P r);
  quiet_completion_check : forall r, keeps id (completion_check_fn P r);
  quiet_equivalence : forall r, keeps id (_prepare_equivalence_report P r);
  quiet_security : forall r, keeps id (_prepare_security_compliance_report P r);
  quiet_dependency : forall r, keeps id (_prepare_dependency_absorption_reports P r);
  quiet_depabs : forall r, keeps id (_prepare_depabs_execution P r);
  quiet_runtime_qc : forall r, keeps id (_prepare_runtime_qc P r);
  quiet_readiness : forall i m, keeps id (build_deploy_readiness_assessment P i m);
  quiet_delivery : forall r, keeps id (_prepare_delivery_summary P r);
  quiet_persist_artifact : forall r e, keeps id (_persist_runtime_phase_artifact P r e);
  quiet_build_artifact : forall r, keeps id (_ensure_verified_build_artifact P r);
  quiet_group_standard : forall r, keeps id (_produce_pod_group_standard P r);
  quiet_fusion : forall r, keeps id (_prepare_fusion P r);
}.

Create HintDb quiet.
#[export] Hint Resolve quiet_fetch_phase quiet_ceo_delegation quiet_pod_assignment quiet_specialist_assignment
  quiet_specialist_plan quiet_emit_partitions quiet_completion_check quiet_equivalence quiet_security
  quiet_dependency quiet_depabs quiet_runtime_qc quiet_readiness quiet_delivery quiet_persist_artifact
  quiet_build_artifact quiet_group_standard quiet_fusion : quiet.

(** ** Quiet actions *)

Lemma quiet_refl id db : quiet id db db.
Proof. done. Qed.

Lemma quiet_trans id db1 db2 db3 : quiet id db1 db2 -> quiet id db2 db3 -> quiet id db1 db3.
Proof. unfold quiet. intuition congruence. Qed.

Lemma keeps_ret {A} id (a : A) : keeps id (mret a).
Proof. intros db. apply quiet_refl. Qed.

Lemma keeps_lift {A} id (r : result A) : keeps id (lift r).
Proof. intros db. apply quiet_refl. Qed.

Lemma keeps_bind {A B} id (m : M A) (f : A -> M B) :
  keeps id m -> (forall a, keeps id (f a)) -> keeps id (m ≫= f).
Proof.
  intros Hm Hf db. specialize (Hm db). unfold mbind, St_bind. destruct (m db) as [[a|e] db']; [|done].
  eapply quiet_trans; [exact Hm|apply Hf].
Qed.

Lemma keeps_try {A} id (m : M A) (a : A) : keeps id m -> keeps id (try_except m a).
Proof. intros Hm db. specialize (Hm db). unfold try_except. by destruct (m db) as [[]]. Qed.

Lemma keeps_fetch id i : keeps id (fetch_mission i).
Proof. intros db. unfold fetch_mission. by case_match. Qed.

Lemma keeps_update id i m : keeps id (update_mission_metadata i m).
Proof.
  intros db. unfold update_mission_metadata. destruct (db_missions db !! i) as [row|] eqn:Hr; [|done].
  split; [|done]. unfold state_of. cbn. rewrite lookup_insert. case_decide; [|done]. subst. by rewrite Hr.
Qed.

Lemma keeps_log id i s e : keeps id (insert_mission_event i (Some s) s e).
Proof.
  intros db. unfold insert_mission_event. destruct (db_missions db !! i); [|done]. cbn [snd].
  split; [done|]. rewrite moves_log. unfold move_of. cbn [ev_previous_state ev_new_state fmap option_fmap option_map].
  rewrite bool_decide_eq_true_2 by done. cbn [negb]. rewrite andb_false_r. by rewrite app_nil_r.
Qed.

#[export] Hint Resolve keeps_ret keeps_lift keeps_try keeps_fetch keeps_update keeps_log : quiet.

(** Decompose an action into binds and branches and close the leaves. *)
Ltac keep_quiet :=
  repeat match goal with
    | |- keeps _ (mbind _ _) => apply keeps_bind; [|intros ?]
    | |- keeps _ (match ?x with _ => _ end) => destruct x
    | |- keeps _ (let _ := _ in _) => cbv zeta
    | |- keeps _ ((match ?x with _ => _ end) _) => destruct x
    end; eauto with quiet.

Section driver_lemmas.
Context (P : Phases) (now : string) (ctl : val) (id : string) `{QP : !QuietPhases P id}.

Abbreviation drive' := (drive P now ctl id).
Abbreviation before' := (before_transition P now ctl id).

Lemma keeps_running_gate : keeps id (_advance_running_to_gating P now id).
Proof. unfold _advance_running_to_gating. keep_quiet. Qed.

Lemma keeps_blocked i m d : keeps id (completion_blocked now i m d).
Proof. unfold completion_blocked, log_verified. keep_quiet. Qed.

Lemma keeps_deliver i m : keeps id (deliver P now i m).
Proof. unfold deliver. keep_quiet. Qed.

Lemma keeps_report_gates i m : keeps id (report_gates P now i m).
Proof.
  unfold report_gates, runtime_qc_gate, log_verified. keep_quiet; auto using keeps_deliver, keeps_blocked.
Qed.

Lemma keeps_complete_gate : keeps id (_advance_verified_to_complete P now ctl id).
Proof.
  unfold _advance_verified_to_complete. apply keeps_bind; [apply keeps_fetch|]. intros [m|]; [|apply keeps_ret].
  apply keeps_bind; [eauto with quiet|]. intros [ready details].
  destruct (if ready then _ else _) as [ready' details'].
  destruct ready'; cbn [negb]; [apply keeps_report_gates|].
  apply keeps_bind; [apply keeps_blocked|]. intros _. apply keeps_ret.
Qed.

Lemma keeps_after r t ev : keeps id (after_transition P r t ev).
Proof. unfold after_transition, _advance_runtime_phases. keep_quiet. Qed.

(** Before a transition nothing moves, or the mission goes on hold and the driver stops. *)
Lemma before_quiet s t db :
  quiet id db (before' s t db).2 \/
  (s = queued /\ held id db (before' s t db).2 /\ (before' s t db).1 <> Ok true).
Proof.
  unfold before_transition.
  set (rest := fun prepared : bool => _ : M bool).
  assert (forall p, keeps id (rest p)) as Hrest.
  { intros p. unfold rest. destruct p; cbn [negb]; [|apply keeps_ret].
    apply keeps_bind; [case_decide; [apply keeps_running_gate|apply keeps_ret]|].
    intros [|]; cbn [negb]; [|apply keeps_ret]. case_decide; [apply keeps_complete_gate|apply keeps_ret]. }
  destruct (decide (s = queued)) as [->|Hs].
  - cbn [stage_preparers]. unfold mbind, St_bind.
    destruct (quiet_pm_intake db) as [Hq|[Hh Hne]].
    + left. destruct (_prepare_pm_intake P id db) as [[p|e] db']; [|done].
      eapply quiet_trans; [exact Hq|apply Hrest].
    + right. split; [done|]. destruct (_prepare_pm_intake P id db) as [[p|e] db']; cbn in Hh, Hne |- *; [|done].
      destruct p; [done|]. unfold rest. cbn. done.
  - left. apply (keeps_bind id _ rest); [|apply Hrest].
    destruct s; cbn [stage_preparers]; eauto with quiet. done.
Qed.

(** The state and moves after the compare-and-swap. *)
Lemma transition_moves s t ev db r db' :
  s <> t -> transition_mission_state id (Some s) t ev db = (r, db') ->
  (r = Ok None /\ db' = db) \/
  (exists m, r = Ok (Some m) /\ ms_state m = t /\ state_of db id = Some (state_value s) /\
   state_of db' id = Some (state_value t) /\
   moves id db' = moves id db ++ [(Some (state_value s), state_value t)]).
Proof.
  intros Hne E. destruct (transition_cases id s t ev db) as [Hm|(row & Hr & Hs)].
  - rewrite Hm in E. left. split; congruence.
  - destruct (transition_match id s t ev db row Hr Hs) as (m & Hm & Hst & _). rewrite Hm in E.
    injection E as <- <-. right. exists m. split_and!; [done|done| | |].
    + unfold state_of. by rewrite Hr, <- Hs.
    + unfold state_of. cbn. by rewrite lookup_insert_eq.
    + rewrite moves_log. unfold moves at 1. cbn [db_events]. f_equal. unfold move_of. cbn.
      rewrite String.eqb_refl. rewrite bool_decide_eq_false_2; [done|].
      intros [= H]. by apply Hne, state_value_inj.
Qed.

Definition tr_move (tr : MissionState * MissionState * string) : option string * string :=
  (Some (state_value tr.1.1), state_value tr.1.2).

(** Consecutive transitions of a table, from a state. *)
Fixpoint chained (s : MissionState) (l : list (MissionState * MissionState * string)) : Prop :=
  match l with
  | [] => True
  | (e, n, _) :: l' => e = s /\ n <> s /\ chained n l'
  end.

(** The specification of a run: [done] transitions made, each with its
    preparer and gates agreeing on a database in its expected state, and then
    possibly the clarification hold. *)
Definition run_spec (s : MissionState) (l : list (MissionState * MissionState * string)) (db db' : DB) : Prop :=
  exists k hold st,
    (k <= length l)%nat /\
    moves id db' = moves id db ++ (tr_move <$> take k l) ++ hold /\
    leads (state_value s) ((tr_move <$> take k l) ++ hold) st /\
    state_of db' id = Some st /\
    (hold = [] \/ hold = [hold_move]) /\
    forall tr, tr ∈ take k l -> exists db1 db2,
      before' tr.1.1 tr.1.2 db1 = (Ok true, db2) /\ state_of db1 id = Some (state_value tr.1.1).

Lemma run_spec_stop s l db db' :
  state_of db id = Some (state_value s) -> quiet id db db' -> run_spec s l db db'.
Proof.
  intros Hs [Hst Hmv]. exists 0%nat, [], (state_value s). rewrite take_0.
  split_and!; [lia|by rewrite app_nil_r|done|congruence|by left|].
  intros tr Htr. by apply not_elem_of_nil in Htr.
Qed.

Lemma run_spec_quiet s l db0 db db' : quiet id db0 db -> run_spec s l db db' -> run_spec s l db0 db'.
Proof.
  intros [_ Hq] (k & hold & st & H1 & H2 & H). exists k, hold, st. split; [done|]. split; [congruence|done].
Qed.

Lemma run_spec_step s t ev l db db1 db2 db3 db' :
  before' s t db = (Ok true, db1) -> state_of db id = Some (state_value s) -> quiet id db db1 ->
  moves id db2 = moves id db1 ++ [(Some (state_value s), state_value t)] ->
  quiet id db2 db3 -> run_spec t l db3 db' -> run_spec s ((s, t, ev) :: l) db db'.
Proof.
  intros Hb Hs [_ Hq1] Hm [_ Hq2] (k & hold & st & H1 & H2 & H3 & H4 & H5 & H6).
  exists (S k), hold, st. cbn [take fmap list_fmap length]. split_and!; [lia| | |done|done|].
  - rewrite H2, Hq2, Hm, Hq1. by rewrite <- app_assoc.
  - cbn [app leads]. done.
  - intros tr Htr. apply elem_of_cons in Htr as [->|Htr]; [eauto|by apply H6].
Qed.

Lemma drive_spec l s db :
  chained s l -> state_of db id = Some (state_value s) -> run_spec s l db (drive' l db).2.
Proof.
  revert s db. induction l as [|[[e n] ev] l IH]; intros s db Hc Hs; [by apply run_spec_stop|].
  destruct Hc as (-> & Hn & Hc). cbn [drive]. unfold mbind, St_bind.
  pose proof (before_quiet s n db) as Hb.
  destruct (before' s n db) as [[go|ex] db1] eqn:Eb; cbn [fst snd] in Hb.
  - destruct Hb as [Hq|(-> & (Hh1 & Hh2 & Hh3) & Hgo)].
    + destruct go; cbn [negb]; [|by apply run_spec_stop].
      destruct (transition_mission_state id (Some s) n ev db1) as [r db2] eqn:Et.
      destruct (transition_moves s n ev db1 r db2) as [[-> ->]|(m & -> & _ & _ & Hs2 & Hm2)]; [done|done| |].
      * by apply run_spec_stop.
      * pose proof (keeps_after m n ev db2) as Ha.
        destruct (after_transition P m n ev db2) as [[r3|ex] db3]; cbn [snd] in Ha.
        -- eapply run_spec_step; [done..|]. apply IH; [done|]. destruct Ha as [Ha _]. congruence.
        -- eapply run_spec_step; [done..|apply quiet_refl|]. apply run_spec_stop; [done|done].
    + destruct go; cbn [negb]; [done|].
      exists 0%nat, [hold_move], (state_value clarifying). rewrite take_0.
      split_and!; [lia|done|done|done|by right|]. intros tr Htr. by apply not_elem_of_nil in Htr.
  - destruct Hb as [Hq|(-> & (Hh1 & Hh2 & Hh3) & Hgo)]; [by apply run_spec_stop|].
    exists 0%nat, [hold_move], (state_value clarifying). rewrite take_0.
    split_and!; [lia|done|done|done|by right|]. intros tr Htr. by apply not_elem_of_nil in Htr.
Qed.
End driver_lemmas.

(** ** Lemmas on the table and the gates *)

Lemma fetch_state db id s :
  state_of db id = Some (state_value s) ->
  exists m, fetch_mission id db = (Ok (Some m), db) /\ ms_state m = s.
Proof.
  unfold state_of, fetch_mission. destruct (db_missions db !! id) as [row|]; [|done]. intros H. injection H as H.
  destruct (row_to_mission_ok row s H) as (m & -> & ? & _). eauto.
Qed.

Lemma pending_chained s : chained s (pending_from s V2_TRANSITIONS).
Proof. destruct s; vm_compute; repeat (split; [done|]); done. Qed.

Lemma pending_incl s tr : tr ∈ pending_from s V2_TRANSITIONS -> tr ∈ V2_TRANSITIONS.
Proof.
  induction V2_TRANSITIONS as [|x l IH]; simpl; [done|]. case_decide; [done|]. right. by apply IH.
Qed.

Lemma advance_drive P now ctl id db s :
  state_of db id = Some (state_value s) ->
  advance_mission_lifecycle_v2 P now ctl id db = drive P now ctl id (pending_from s V2_TRANSITIONS) db.
Proof.
  intros Hs. destruct (fetch_state db id s Hs) as (m & Hm & Hst).
  unfold advance_mission_lifecycle_v2, mbind, St_bind. by rewrite Hm, Hst.
Qed.

Lemma leads_last s l t : leads s l t -> l <> [] -> exists p, last l = Some (p, t).
Proof.
  revert s. induction l as [|[p n] l IH]; intros s; [done|]. intros [-> H] _.
  destruct l as [|x l]; [simpl in *; subst; eauto|]. rewrite last_cons. by destruct (IH n H ltac:(done)) as [p ->]; eauto.
Qed.

(** Everything the last gate looked at, and that it agreed. *)
Definition gates_passed (P : Phases) (ctl : val) (id : string) (db : DB) : Prop :=
  exists mission details db1 m2 r2 db2 m3 r3 db3 m4 r4 db4 m5 db5 m6 r6 db6,
    fetch_mission id db = (Ok (Some mission), db) /\
    completion_check_fn P mission db = (Ok (true, details), db1) /\
    (_setting_bool ctl false = true ->
     exists gate, dget (ms_metadata mission) "delta_audit_gate" = Some (VDict gate) /\
                  truthy (dget0 gate "passed") = true) /\
    _prepare_equivalence_report P mission db1 = (Ok (m2, true, r2), db2) /\
    _prepare_security_compliance_report P m2 db2 = (Ok (m3, true, r3), db3) /\
    _prepare_dependency_absorption_reports P m3 db3 = (Ok (m4, true, r4), db4) /\
    _prepare_depabs_execution P m4 db4 = (Ok m5, db5) /\
    _prepare_runtime_qc P m5 db5 = (Ok (m6, true, r6), db6).

Lemma delta_gate_true ctl mission d :
  _delta_audit_gate ctl mission = (true, d) ->
  d = [] /\
  (_setting_bool ctl false = true ->
   exists gate, dget (ms_metadata mission) "delta_audit_gate" = Some (VDict gate) /\ truthy (dget0 gate "passed") = true).
Proof.
  unfold _delta_audit_gate. destruct (_setting_bool ctl false); cbn [negb]; [|by intros [= <-]].
  unfold dget0 at 1. destruct (dget (ms_metadata mission) "delta_audit_gate") as [[]|] eqn:E; cbn [default from_option id]; try done.
  destruct (truthy _) eqn:Ht; cbn [negb]; [|done]. intros [= <-]. eauto.
Qed.

Lemma complete_gate_passed P now ctl id db db' :
  _advance_verified_to_complete P now ctl id db = (Ok true, db') -> gates_passed P ctl id db.
Proof.
  unfold _advance_verified_to_complete. intros H.
  apply St_bind_Ok in H as ([mission|] & db0 & Hf & H); [|done].
  assert (db0 = db) as -> by (unfold fetch_mission in Hf; by case_match; simplify_eq).
  apply St_bind_Ok in H as ([ready details] & db1 & Hc & H).
  destruct ready; [destruct (_delta_audit_gate ctl mission) as [[|] d] eqn:Hd|]; cbn [negb] in H;
    [|by apply St_bind_Ok in H as (? & ? & _ & ?)..].
  unfold report_gates in H.
  apply St_bind_Ok in H as ([[m2 b2] r2] & db2 & He & H). destruct b2; cbn [negb] in H;
    [|by apply St_bind_Ok in H as (? & ? & _ & ?)].
  apply St_bind_Ok in H as ([[m3 b3] r3] & db3 & Hs & H). destruct b3; cbn [negb] in H;
    [|by apply St_bind_Ok in H as (? & ? & _ & ?)].
  apply St_bind_Ok in H as ([[m4 b4] r4] & db4 & Ha & H). destruct b4; cbn [negb] in H;
    [|by apply St_bind_Ok in H as (? & ? & _ & ?)].
  unfold runtime_qc_gate in H.
  apply St_bind_Ok in H as (m5 & db5 & Hx & H).
  apply St_bind_Ok in H as ([[m6 b6] r6] & db6 & Hq & H). destruct b6;
    [|apply St_bind_Ok in H as (? & ? & _ & H); by apply St_bind_Ok in H as (? & ? & _ & ?)].
  apply delta_gate_true in Hd as [_ Hd].
  exists mission, details, db1, m2, r2, db2, m3, r3, db3, m4, r4, db4, m5, db5, m6, r6, db6. done.
Qed.

(** What the gates of one transition looked at. *)
Lemma before_gates P now ctl id s t db db' :
  before_transition P now ctl id s t db = (Ok true, db') ->
  (match stage_preparers P s with
   | Some p => exists db1, p id db = (Ok true, db1)
   | None => True
   end) /\
  (s = running -> t = gating -> exists db2, _advance_running_to_gating P now id db = (Ok true, db2)) /\
  (s = verified -> t = complete -> gates_passed P ctl id db).
Proof.
  unfold before_transition. intros H.
  apply St_bind_Ok in H as (prepared & db1 & Hp & H). destruct prepared; cbn [negb] in H; [|done].
  apply St_bind_Ok in H as (ready & db2 & Hg & H). destruct ready; cbn [negb] in H; [|done].
  split_and!.
  - destruct (stage_preparers P s); eauto.
  - intros -> ->. cbn [stage_preparers] in Hp. injection Hp as <-.
    destruct (decide (running = running /\ gating = gating)) as [_|n]; [eauto|]. by destruct n.
  - intros -> ->. cbn [stage_preparers] in Hp. injection Hp as <-.
    destruct (decide (verified = running /\ complete = gating)) as [[? _]|_]; [done|].
    injection Hg as <-. destruct (decide (verified = verified /\ complete = complete)) as [_|n]; [|by destruct n].
    by eapply complete_gate_passed.
Qed.

(** In the table [COMPLETE] is entered from [VERIFIED] and [GATING] from [RUNNING] only. *)
Lemma table_into tr :
  tr ∈ V2_TRANSITIONS ->
  (tr.1.2 = complete -> tr.1.1 = verified) /\ (tr.1.2 = gating -> tr.1.1 = running).
Proof. intros H. unfold V2_TRANSITIONS in H. table_cases H; done. Qed.

(** A run that enters a state made the transition into it. *)
Lemma run_entered P now ctl id s l db db' t :
  run_spec P now ctl id s l db db' -> state_of db' id = Some (state_value t) -> t <> s -> t <> clarifying ->
  (forall tr, tr ∈ l -> tr ∈ V2_TRANSITIONS) ->
  exists tr db1 db2, tr ∈ V2_TRANSITIONS /\ tr.1.2 = t /\
    before_transition P now ctl id tr.1.1 t db1 = (Ok true, db2) /\
    state_of db1 id = Some (state_value tr.1.1).
Proof.
  intros (k & hold & st & _ & _ & Hl & Hst & Hh & Hg) Ht Hs Hc Hin.
  assert (st = state_value t) as -> by congruence.
  destruct Hh as [->| ->].
  - rewrite app_nil_r in Hl. destruct (decide (tr_move <$> take k l = [])) as [E|E].
    + rewrite E in Hl. simpl in Hl. apply state_value_inj in Hl. by subst.
    + destruct (leads_last _ _ _ Hl E) as [p Hp]. rewrite fmap_last in Hp.
      destruct (last (take k l)) as [tr|] eqn:El; [|done]. injection Hp as Hp Hn.
      apply last_Some_elem_of in El. exists tr. apply state_value_inj in Hn as <-.
      destruct (Hg tr El) as (db1 & db2 & Hb & Hs1). exists db1, db2. split_and!; try done.
      apply Hin. apply elem_of_take in El as (i & Hi & _). by eapply list_elem_of_lookup_2.
  - exfalso. apply leads_last in Hl as [p Hp]; [|by destruct (tr_move <$> take k l)].
    rewrite last_snoc in Hp. injection Hp as _ Hp. by apply Hc, state_value_inj.
Qed.

(** A run that completes a mission passed the gates. *)
Lemma entered_complete P now ctl id `{QP : !QuietPhases P id} db s :
  state_of db id = Some (state_value s) -> s <> complete ->
  state_of (advance_mission_lifecycle_v2 P now ctl id db).2 id = Some (state_value complete) ->
  exists db1, state_of db1 id = Some (state_value verified) /\ gates_passed P ctl id db1.
Proof.
  intros Hs Hne He. rewrite (advance_drive P now ctl id db s Hs) in He.
  destruct (run_entered P now ctl id s _ _ _ complete
    (drive_spec P now ctl id _ s db (pending_chained s) Hs) He ltac:(congruence) ltac:(done) (pending_incl s))
    as (tr & db1 & db2 & Hin & Ht & Hb & Hs1).
  apply table_into in Hin as [Hv _]. rewrite (Hv Ht) in Hb, Hs1.
  apply before_gates in Hb as (_ & _ & Hg). eauto.
Qed.

(** ** Resuming *)

(** Phases with other stage preparers. *)
Definition with_preparers (P : Phases) (f : MissionState -> string -> M bool) : Phases :=
  mkPhases (f queued) (f pm_intake) (f fetch) (f ceo_delegated) (f pod_assigned) (f specialist_assigned)
    (_emit_partition_work_items P) (completion_check_fn P) (_prepare_equivalence_report P)
    (_prepare_security_compliance_report P) (_prepare_dependency_absorption_reports P)
    (_prepare_depabs_execution P) (_prepare_runtime_qc P) (build_deploy_readiness_assessment P)
    (_prepare_delivery_summary P) (_persist_runtime_phase_artifact P) (_ensure_verified_build_artifact P)
    (_produce_pod_group_standard P) (_prepare_fusion P).

Lemma drive_preparers P now ctl id f g l db :
  (forall tr, tr ∈ l -> f tr.1.1 = g tr.1.1) ->
  drive (with_preparers P f) now ctl id l db = drive (with_preparers P g) now ctl id l db.
Proof.
  revert db. induction l as [|[[e n] ev] l IH]; intros db Hfg; [done|].
  assert (stage_preparers (with_preparers P f) e = stage_preparers (with_preparers P g) e) as He.
  { specialize (Hfg (e, n, ev) ltac:(by left)). destruct e; cbn in *; congruence. }
  assert (before_transition (with_preparers P f) now ctl id e n =
          before_transition (with_preparers P g) now ctl id e n) as Hb
    by (unfold before_transition; by rewrite He).
  cbn [drive]. rewrite Hb. unfold mbind, St_bind.
  destruct (before_transition _ _ _ _ _ _ db) as [[go|ex] db1]; [|done]. destruct go; cbn [negb]; [|done].
  destruct (transition_mission_state id (Some e) n ev db1) as [[[m|]|ex] db2]; [|done..].
  change (after_transition (with_preparers P f) m n ev db2) with (after_transition (with_preparers P g) m n ev db2).
  destruct (after_transition _ m n ev db2) as [[r|ex] db3]; [|done].
  apply IH. intros tr Htr. apply Hfg. by right.
Qed.

Lemma pending_later s tr :
  tr ∈ pending_from s V2_TRANSITIONS -> v2_phase_index s <= v2_phase_index tr.1.1.
Proof.
  intros H. assert (forallb (fun s => forallb (fun tr : MissionState * MissionState * string =>
    v2_phase_index s <=? v2_phase_index tr.1.1) (pending_from s V2_TRANSITIONS)) all_states = true) as Hall by by_compute.
  rewrite forallb_forall in Hall. assert (In s all_states) as Hs by (destruct s; simpl; tauto).
  specialize (Hall s Hs). rewrite forallb_forall in Hall.
  apply Z.leb_le, Hall. by apply list_elem_of_In.
Qed.

(** ** Progress *)

(** Phases that agree on the databases of an invariant [I], with the mission where
    the table has it, never raise, and preserve [I], as the transitions do. *)
Definition agreeable (P : Phases) (now : string) (ctl : val) (id : string) (I : DB -> Prop) : Prop :=
  (forall s t e db, (s, t, e) ∈ V2_TRANSITIONS -> I db -> state_of db id = Some (state_value s) ->
     exists db', before_transition P now ctl id s t db = (Ok true, db') /\ I db') /\
  (forall s t e db, I db -> I (transition_mission_state id (Some s) t e db).2) /\
  (forall r t e db, I db -> exists r' db', after_transition P r t e db = (Ok r', db') /\ I db').

Lemma drive_progress P now ctl id I `{QP : !QuietPhases P id} l s db :
  agreeable P now ctl id I -> I db -> chained s l -> (forall tr, tr ∈ l -> tr ∈ V2_TRANSITIONS) ->
  state_of db id = Some (state_value s) ->
  exists db', drive P now ctl id l db = (Ok tt, db') /\
    moves id db' = moves id db ++ (tr_move <$> l) /\
    state_of db' id = Some (state_value (default s (snd ∘ fst <$> last l))).
Proof.
  intros (Hb & Hi & Ha). revert s db. induction l as [|[[e n] ev] l IH]; intros s db HI Hc Hin Hs.
  - exists db. split_and!; [done|by rewrite app_nil_r|done].
  - destruct Hc as (-> & Hn & Hc). assert ((s, n, ev) ∈ V2_TRANSITIONS) as Htr by (apply Hin; by left).
    destruct (Hb s n ev db Htr HI Hs) as (db1 & E1 & HI1). cbn [drive]. unfold mbind, St_bind.
    rewrite E1. cbn [negb].
    destruct (before_quiet P now ctl id s n db) as [[Hq1 Hm1]|(_ & _ & Hne)]; rewrite E1 in *; [|done].
    cbn [snd] in *. rewrite Hs in Hq1. pose proof (Hi s n ev db1 HI1) as HI2.
    destruct (transition_mission_state id (Some s) n ev db1) as [r db2] eqn:Et.
    destruct (transition_moves id s n ev db1 r db2) as [[-> ->]|(m & -> & _ & _ & Hs2 & Hm2)]; [done|done| |].
    { exfalso. unfold state_of in Hq1. destruct (db_missions db1 !! id) as [row|] eqn:Hr; [|done].
      injection Hq1 as Hq1. destruct (transition_match id s n ev db1 row Hr Hq1) as (m & Hm & _).
      rewrite Hm in Et. discriminate. }
    destruct (Ha m n ev db2 HI2) as (r' & db3 & E3 & HI3). rewrite E3.
    pose proof (keeps_after P id m n ev db2) as [Hq3 Hm3]. rewrite E3 in Hq3, Hm3. cbn [snd] in *.
    destruct (IH n db3 HI3 Hc) as (db' & E' & Hm' & Hs'); [intros tr ?; apply Hin; by right|congruence|].
    exists db'. split; [done|]. split.
    + rewrite Hm', Hm3, Hm2, Hm1. rewrite <- app_assoc. done.
    + rewrite Hs'. destruct l as [|x l]; [done|]. rewrite last_cons_cons, last_cons. by destruct (last l).
Qed.

(** The two transitions with a gate and no preparer. *)
Lemma before_running P now ctl id db :
  before_transition P now ctl id running gating db = _advance_running_to_gating P now id db.
Proof.
  unfold before_transition. cbn [stage_preparers].
  destruct (decide (running = running /\ gating = gating)) as [_|n]; [|by destruct n].
  destruct (decide (running = verified /\ gating = complete)) as [[? _]|_]; [done|].
  unfold mbind, St_bind. cbn [mret St_ret negb].
  by destruct (_advance_running_to_gating P now id db) as [[[|]|ex] db'].
Qed.

Lemma before_verified P now ctl id db :
  before_transition P now ctl id verified complete db = _advance_verified_to_complete P now ctl id db.
Proof.
  unfold before_transition. cbn [stage_preparers].
  destruct (decide (verified = running /\ complete = gating)) as [[? _]|_]; [done|].
  by destruct (decide (verified = verified /\ complete = complete)) as [_|n]; [|destruct n].
Qed.

(** ** Example phases

    Phases that agree to everything and write nothing, for the examples. *)

Definition demo_phases : Phases :=
  mkPhases (fun _ => mret true) (fun _ => mret true) (fun _ => mret true) (fun _ => mret true)
    (fun _ => mret true) (fun _ => mret true) (fun m => mret m) (fun _ => mret (true, []))
    (fun m => mret (m, true, [])) (fun m => mret (m, true, [])) (fun m => mret (m, true, []))
    (fun m => mret m) (fun m => mret (m, true, [])) (fun _ _ => mret []) (fun m => mret m)
    (fun m _ => mret m) (fun m => mret m) (fun m => mret m) (fun m => mret m).

#[export] Instance demo_quiet id : QuietPhases demo_phases id.
Proof. split; intros; try apply keeps_ret. by left. Qed.

(** The mission is stored, in a valid state, and not scaled. *)
Definition unscaled (id : string) (db : DB) : Prop :=
  exists row s, db_missions db !! id = Some row /\ r_state row = state_value s /\
                truthy (dget0 (r_metadata row) "scaling_active") = false.

Lemma chain_defaults_scaling m :
  dget0 (chain_defaults m) "scaling_active" = dget0 (ms_metadata m) "scaling_active".
Proof. unfold chain_defaults, dget0. by rewrite with_chain_defaults_get. Qed.

Lemma append_chain_event_scaling m e a d t now :
  dget0 (append_chain_event m e a d t now) "scaling_active" = dget0 m "scaling_active".
Proof. unfold append_chain_event. cbv zeta. by dict_simpl. Qed.

Lemma unscaled_update id db metadata :
  unscaled id db -> truthy (dget0 metadata "scaling_active") = false ->
  exists m db', update_mission_metadata id metadata db = (Ok (Some m), db') /\ unscaled id db'.
Proof.
  intros (row & s & Hr & Hs & _) Ht.
  destruct (update_metadata_row id metadata db row s Hr Hs) as (m & row' & -> & _ & _ & Hs' & Hget).
  exists m. eexists. split; [reflexivity|]. exists row', s. cbn [db_missions]. rewrite lookup_insert_eq.
  split_and!; [done|congruence|]. unfold dget0. by rewrite Hget.
Qed.

Lemma demo_delivers now id db m :
  unscaled id db -> exists db', deliver demo_phases now id m db = (Ok true, db') /\ unscaled id db'.
Proof.
  intros Hu. assert (exists m', fetch_mission id db = (Ok (Some m'), db) /\
    truthy (dget0 (ms_metadata m') "scaling_active") = false) as (m' & Hf & Hsc).
  { destruct Hu as (row & s & Hr & Hs & Ht). destruct (row_to_mission_ok row s Hs) as (m' & Hm & _ & _ & Hmd).
    exists m'. unfold fetch_mission. rewrite Hr, Hm, Hmd. done. }
  unfold deliver, mbind, St_bind. rewrite Hf. cbn [default from_option]. cbv zeta. cbn [demo_phases build_deploy_readiness_assessment mret St_ret].
  match goal with |- context [update_mission_metadata id ?md db] =>
    destruct (unscaled_update id db md Hu) as (m2 & db2 & E & Hu2) end.
  - case_match; rewrite ?append_chain_event_scaling, dget0_dset_ne, chain_defaults_scaling by done; done.
  - rewrite E. cbn. eauto.
Qed.

Lemma demo_agreeable now id : agreeable demo_phases now (VBool false) id (unscaled id).
Proof.
  split_and!.
  - intros s t e db Htr Hu Hs.
    assert (exists m, fetch_mission id db = (Ok (Some m), db) /\
      truthy (dget0 (ms_metadata m) "scaling_active") = false) as (m & Hf & Hsc).
    { destruct Hu as (row & s' & Hr & Hs' & Ht). destruct (row_to_mission_ok row s' Hs') as (m & Hm & _ & _ & Hmd).
      exists m. unfold fetch_mission. rewrite Hr, Hm, Hmd. done. }
    destruct (demo_delivers now id db m Hu) as (db' & Hd & Hu').
    unfold V2_TRANSITIONS in Htr. table_cases Htr; try (exists db; by split).
    + exists db. split; [|done]. rewrite before_running.
      unfold _advance_running_to_gating, mbind, St_bind. rewrite Hf. cbv zeta. by rewrite chain_defaults_scaling, Hsc.
    + exists db'. split; [|done]. rewrite before_verified.
      unfold _advance_verified_to_complete, mbind, St_bind. rewrite Hf. exact Hd.
  - intros s t e db Hu. destruct (transition_cases id s t e db) as [->|(row & Hr & Hs)]; [done|].
    destruct (transition_match id s t e db row Hr Hs) as (m & -> & _).
    destruct Hu as (row' & s' & Hr' & _ & Ht). assert (row' = row) as -> by congruence.
    exists (with_state row (state_value t)), t. cbn. by rewrite lookup_insert_eq.
  - intros r t e db Hu. exists r, db. split; [|done]. by destruct t.
Qed.

(** ** Properties *)

(** C1: no mission is completed past a gate. If a run of the v2 driver leaves a
    mission [COMPLETE] that was not so before, then there was a moment, with the
    mission [VERIFIED], at which the completion check passed, a passing Delta audit
    verdict had been consumed (unless the control plane is switched off), and the
    equivalence, security/compliance, dependency and runtime-QC gates all passed,
    one after the other. *)
Theorem complete_only_through_gates P now ctl id `{QP : !QuietPhases P id} db s :
  state_of db id = Some (state_value s) -> s <> complete ->
  state_of (advance_mission_lifecycle_v2 P now ctl id db).2 id = Some (state_value complete) ->
  exists db1, state_of db1 id = Some (state_value verified) /\ gates_passed P ctl id db1.
Proof. exact (entered_complete P now ctl id db s). Qed.

Lemma complete_only_through_gates_witness :
  state_of demo_db "m1" = Some (state_value queued) /\ queued <> complete /\
  state_of (advance_mission_lifecycle_v2 demo_phases "t" (VBool false) "m1" demo_db).2 "m1" = Some "COMPLETE" /\
  exists db1, state_of db1 "m1" = Some "VERIFIED" /\ gates_passed demo_phases (VBool false) "m1" db1.
Proof.
  assert (state_of demo_db "m1" = Some (state_value queued)) as H1 by (vm_compute; reflexivity).
  assert (queued <> complete) as H2 by discriminate.
  assert (state_of (advance_mission_lifecycle_v2 demo_phases "t" (VBool false) "m1" demo_db).2 "m1" =
          Some (state_value complete)) as H3 by (vm_compute; reflexivity).
  split; [exact H1|]. split; [exact H2|]. split; [exact H3|].
  exact (complete_only_through_gates demo_phases "t" (VBool false) "m1" demo_db queued H1 H2 H3).
Defined.

(** C6: the driver makes exactly table steps. Whatever the phases answer, a run
    from a stored state makes some number of the pending transitions in order, each
    only after its preparer and gates agreed on a database in the expected state, and
    then stops, possibly on the clarification hold; the log gains precisely these
    moves, and the mission ends where they lead. States outside the table are left alone. *)
Theorem driver_follows_table P now ctl id `{QP : !QuietPhases P id} db s :
  state_of db id = Some (state_value s) ->
  run_spec P now ctl id s (pending_from s V2_TRANSITIONS) db (advance_mission_lifecycle_v2 P now ctl id db).2 /\
  (pending_from s V2_TRANSITIONS = [] <-> s ∈ [intake; clarifying; complete; failed]) /\
  (s ∈ [intake; clarifying; complete; failed] -> advance_mission_lifecycle_v2 P now ctl id db = (Ok tt, db)).
Proof.
  intros Hs. split.
  - rewrite (advance_drive P now ctl id db s Hs). by apply (drive_spec P now ctl id); [apply pending_chained|].
  - assert (pending_from s V2_TRANSITIONS = [] <-> s ∈ [intake; clarifying; complete; failed]) as H.
    { split; [|intros H; table_cases H; reflexivity]. destruct s; try (by intros H; vm_compute in H);
        intros _; repeat (first [by left|right]). }
    split; [exact H|]. intros Hin. rewrite (advance_drive P now ctl id db s Hs). by rewrite (proj2 H Hin).
Qed.

Lemma driver_follows_table_witness :
  state_of demo_db "m1" = Some (state_value queued) /\
  run_spec demo_phases "t" (VBool false) "m1" queued V2_TRANSITIONS demo_db
    (advance_mission_lifecycle_v2 demo_phases "t" (VBool false) "m1" demo_db).2.
Proof.
  assert (state_of demo_db "m1" = Some (state_value queued)) as H1 by (vm_compute; reflexivity).
  split; [exact H1|].
  exact (proj1 (driver_follows_table demo_phases "t" (VBool false) "m1" demo_db queued H1)).
Defined.

(** C16: a resumed mission does not redo earlier stages. Running the driver on a
    mission gives the same outcome and the same database whatever the preparers of
    the stages before its state are: they are not run again. *)
Theorem resume_skips_passed_stages P now ctl id f g db s :
  state_of db id = Some (state_value s) ->
  (forall s', v2_phase_index s <= v2_phase_index s' -> f s' = g s') ->
  advance_mission_lifecycle_v2 (with_preparers P f) now ctl id db =
  advance_mission_lifecycle_v2 (with_preparers P g) now ctl id db.
Proof.
  intros Hs Hfg. rewrite !(advance_drive _ now ctl id db s Hs).
  apply drive_preparers. intros tr Htr. by apply Hfg, pending_later.
Qed.

Lemma resume_skips_passed_stages_witness :
  let f := fun s : MissionState => if decide (s = queued) then fun _ => lift (Raise ValueError) else fun _ => mret true in
  let g := fun (_ : MissionState) (_ : string) => (mret true : M bool) in
  let db := (transition_mission_state "m1" (Some queued) running "MISSION_RUNNING" demo_db).2 in
  (advance_mission_lifecycle_v2 (with_preparers demo_phases f) "t" (VBool false) "m1" demo_db).1 = Raise ValueError /\
  state_of db "m1" = Some (state_value running) /\
  (forall s', v2_phase_index running <= v2_phase_index s' -> f s' = g s') /\
  advance_mission_lifecycle_v2 (with_preparers demo_phases f) "t" (VBool false) "m1" db =
  advance_mission_lifecycle_v2 (with_preparers demo_phases g) "t" (VBool false) "m1" db.
Proof.
  intros f g db.
  assert (state_of db "m1" = Some (state_value running)) as H1 by (vm_compute; reflexivity).
  assert (forall s', v2_phase_index running <= v2_phase_index s' -> f s' = g s') as H2
    by (intros [] H; first [reflexivity|exfalso; apply H; vm_compute; reflexivity]).
  split; [vm_compute; reflexivity|]. split; [exact H1|]. split; [exact H2|].
  exact (resume_skips_passed_stages demo_phases "t" (VBool false) "m1" f g db running H1 H2).
Defined.

(** C15: progress. If the preparers and gates agree and the phases do not raise,
    the driver takes a mission from any state of the table to [COMPLETE] in one run, returns
    normally, and logs exactly the remaining transitions. *)
Theorem driver_reaches_complete P now ctl id I `{QP : !QuietPhases P id} db s :
  state_of db id = Some (state_value s) -> s ∉ [intake; clarifying; complete; failed] ->
  agreeable P now ctl id I -> I db ->
  exists db', advance_mission_lifecycle_v2 P now ctl id db = (Ok tt, db') /\
    state_of db' id = Some (state_value complete) /\
    moves id db' = moves id db ++ (tr_move <$> pending_from s V2_TRANSITIONS).
Proof.
  intros Hs Hn Ha HI. rewrite (advance_drive P now ctl id db s Hs).
  destruct (drive_progress P now ctl id I _ s db Ha HI (pending_chained s) (pending_incl s) Hs) as (db' & E & Hm & Hst).
  exists db'. split; [done|]. split; [|done]. rewrite Hst.
  destruct s; try reflexivity; exfalso; apply Hn; repeat (first [by left|right]).
Qed.

Lemma driver_reaches_complete_witness :
  state_of demo_db "m1" = Some (state_value queued) /\ queued ∉ [intake; clarifying; complete; failed] /\
  agreeable demo_phases "t" (VBool false) "m1" (unscaled "m1") /\ unscaled "m1" demo_db /\
  exists db', advance_mission_lifecycle_v2 demo_phases "t" (VBool false) "m1" demo_db = (Ok tt, db') /\
              state_of db' "m1" = Some "COMPLETE".
Proof.
  assert (state_of demo_db "m1" = Some (state_value queued)) as H1 by (vm_compute; reflexivity).
  assert (queued ∉ [intake; clarifying; complete; failed]) as H2 by (apply (bool_decide_unpack _); by vm_compute).
  pose proof (demo_agreeable "t" "m1") as H3.
  assert (unscaled "m1" demo_db) as H4 by (exists demo_row, queued; split_and!; vm_compute; reflexivity).
  split; [exact H1|]. split; [exact H2|]. split; [exact H3|]. split; [exact H4|].
  destruct (driver_reaches_complete demo_phases "t" (VBool false) "m1" (unscaled "m1") demo_db queued H1 H2 H3 H4)
    as (db' & Hr & Hs & _).
  exists db'. split; [exact Hr|exact Hs].
Defined.

(** The audit gate passes only on a consumed passing verdict when the control
    plane is on, and is inert when it is off; a missing verdict, a verdict that is
    not an object and a failing one all block, with the reason recorded in the
    mission's trace and the log while the state stays. *)
Lemma delta_audit_gate_states ctl mission :
  (_setting_bool ctl false = false -> _delta_audit_gate ctl mission = (true, [])) /\
  (_setting_bool ctl false = true ->
   ((_delta_audit_gate ctl mission).1 = true <->
    exists gate, dget (ms_metadata mission) "delta_audit_gate" = Some (VDict gate) /\
                 truthy (dget0 gate "passed") = true) /\
   ((_delta_audit_gate ctl mission).1 = false ->
    exists reason, dget (_delta_audit_gate ctl mission).2 "reason" = Some (VStr reason))) /\
  (forall now id details db row, db_missions db !! id = Some row -> r_state row = "VERIFIED" ->
   exists db' row', completion_blocked now id mission details db = (Ok tt, db') /\
     db_missions db' !! id = Some row' /\ r_state row' = r_state row /\
     _chain_event_exists (r_metadata row') "MISSION_COMPLETION_BLOCKED" = true /\
     db_events db' = db_events db ++
       [mkEvent id (Some "VERIFIED") "VERIFIED" "MISSION_COMPLETION_BLOCKED"]).
Proof.
  unfold _delta_audit_gate. split; [by intros ->|]. split.
  - intros ->. cbn [negb]. change (dget0 (ms_metadata mission) "delta_audit_gate")
      with (default VNone (dget (ms_metadata mission) "delta_audit_gate")).
    destruct (dget (ms_metadata mission) "delta_audit_gate") as [[]|] eqn:E; cbn [default from_option id];
      try (split; [split; [done|by intros (? & [=] & _)]|intros _; eexists; reflexivity]).
    destruct (truthy (dget0 d "passed")) eqn:Ht; cbn [negb fst snd].
    + split; [|done]. split; [|done]. intros _. eauto.
    + split; [|by intros _; eexists]. split; [done|]. intros (gate & [= <-] & Hg). congruence.
  - intros now id details db row Hr Hs. unfold completion_blocked, mbind, St_bind. cbv zeta.
    set (metadata := append_chain_event _ _ _ _ _ _).
    destruct (update_metadata_row id metadata db row verified Hr Hs) as (m & row' & -> & _ & _ & Hst & Hget).
    unfold log_verified, insert_mission_event. cbn [db_missions]. rewrite lookup_insert_eq.
    eexists. exists row'. split; [reflexivity|]. cbn [log_event db_missions db_events]. rewrite lookup_insert_eq.
    split_and!; try done. unfold _chain_event_exists, chain_trace, dget0. rewrite Hget by done.
    unfold metadata, append_chain_event. cbv zeta. dict_simpl. cbn [default from_option Datatypes.id].
    rewrite existsb_app. apply orb_true_iff. right. cbn [existsb]. unfold chain_record.
    destruct details as [|kv details]; cbn; done.
Qed.

(** The mission does not leave [RUNNING] for [GATING] while partitions are
    outstanding: when scaling is active the gate opens only if every partition of the
    decision in the metadata it reads has a result, and a mission without
    scaling is not held up. *)
Lemma gating_waits_for_partitions P now id db row s :
  db_missions db !! id = Some row -> r_state row = state_value s ->
  (forall db', _advance_running_to_gating P now id db = (Ok true, db') ->
     exists mission, fetch_mission id db = (Ok (Some mission), db) /\
       (truthy (dget0 (chain_defaults mission) "scaling_active") = true ->
        exists seen, all_partitions_complete now (chain_defaults seen) = Ok true /\
          (seen = mission \/ (_emit_partition_work_items P mission db).1 = Ok seen))) /\
  (truthy (dget0 (r_metadata row) "scaling_active") = false ->
     _advance_running_to_gating P now id db = (Ok true, db)).
Proof.
  intros Hr Hs. destruct (fetch_state db id s) as (m & Hf & _); [unfold state_of; by rewrite Hr, <- Hs|].
  assert (dget0 (chain_defaults m) "scaling_active" = dget0 (r_metadata row) "scaling_active") as Hsc.
  { rewrite chain_defaults_scaling. unfold fetch_mission in Hf. rewrite Hr in Hf.
    destruct (row_to_mission_ok row s Hs) as (m' & Hm' & _ & _ & Hmd). rewrite Hm' in Hf.
    injection Hf as <-. by rewrite Hmd. }
  unfold _advance_running_to_gating. split.
  - intros db' H. apply St_bind_Ok in H as (found & db0 & Hf' & H). rewrite Hf in Hf'. injection Hf' as <- <-.
    exists m. split; [done|]. intros Ha. cbv zeta in H. rewrite Ha in H.
    apply St_bind_Ok in H as (md & db1 & Hmd & H). injection H as H _.
    case_match.
    + injection Hmd as <- _. eauto.
    + apply St_bind_Ok in Hmd as (m' & db2 & He & Hmd). injection Hmd as <- _. rewrite He. eauto.
  - intros Ha. unfold mbind, St_bind. rewrite Hf. cbv zeta. by rewrite Hsc, Ha.
Qed.

Lemma gating_waits_for_partitions_witness :
  db_missions demo_db !! "m1" = Some demo_row /\ r_state demo_row = state_value queued /\
  _advance_running_to_gating demo_phases "t" "m1" demo_db = (Ok true, demo_db).
Proof.
  assert (db_missions demo_db !! "m1" = Some demo_row) as H1 by (vm_compute; reflexivity).
  assert (r_state demo_row = state_value queued) as H2 by reflexivity.
  split; [exact H1|]. split; [exact H2|].
  apply (proj2 (gating_waits_for_partitions demo_phases "t" "m1" demo_db demo_row queued H1 H2)).
  vm_compute. reflexivity.
Defined.
