(* ===== verification/Engines.v ===== *)
(** * Engines

    [orchestrator/lifecycle_interface.py] (engine choice and the legacy engine),
    the chain preparation, completion check and agent routing of
    [orchestrator/runtime.py], the artifact predicates of
    [orchestrator/build_artifacts.py] it uses, and
    [orchestrator/lifecycle_recovery.py].  The pod assignments, LogicNodes and
    build artifacts live in tables of their own; reading them is a parameter. *)

From S2P Require Import Prelude PyVal Agents MissionStates MissionFlow ProjectIdentity Scaling Store Lifecycle.

(** ** Completion check *)

Definition mission_has_generated_output (metadata : val) : bool :=
  match metadata with
  | VDict d =>
      match dget0 d "generated_output" with
      | VDict out =>
          if String.eqb (str_lower (str_strip (py_str (dget_or out "source" (VStr ""))))) "fallback"
          then false
          else match dget0 out "generated_code" with
               | VStr code => 10 <=? Z.of_nat (String.length (str_strip code))
               | _ => false
               end
      | _ => false
      end
  | _ => false
  end.

(** ["generated_output" in {str(item).strip().lower() for item in l}] *)
Definition names_generated_output (l : list val) : bool :=
  str_in "generated_output" ((fun item => str_lower (str_strip (py_str item))) <$> l).

Definition mission_expects_generated_output_artifact (metadata : val) : bool :=
  match metadata with
  | VDict d =>
      let output_mode := str_upper (str_strip (py_str
        (py_or (dget0 d "output_mode_label") (py_or (dget0 d "__output_mode__")
          (py_or (dget0 d "output_mode") (VStr "FULL_BUILD")))))) in
      if str_in output_mode ["ANALYZE_ONLY"; "REPORT_ONLY"; "PLAN_ONLY"; "REPORT"; "ANALYZE"] then false
      else
        match dget0 d "expected_artifacts" with
        | VList l => names_generated_output l
        | _ =>
            match dget0 d "mission_charter" with
            | VDict charter =>
                match dget0 charter "expected_artifacts" with
                | VList l => names_generated_output l
                | _ => false
                end
            | _ => false
            end
        end
  | _ => false
  end.

Definition mission_requires_build_artifact (metadata : val) : bool :=
  match metadata with
  | VDict d =>
      if mission_has_generated_output metadata then true
      else if nonblank_str (dget0 d "source_code") then true
      else mission_expects_generated_output_artifact metadata
  | _ => false
  end.

(** The records of [mission_build_artifacts], newest first. *)
Definition has_successful_build_artifact (records : list dict) : bool :=
  existsb (fun record => String.eqb (str_upper (py_str (dget_or record "status" (VStr "")))) "SUCCESS") records.

Definition latest_build_artifact_status (records : list dict) : string :=
  match records with
  | [] => "MISSING"
  | record :: _ => str_or (str_upper (py_str (dget_or record "status" (VStr "UNKNOWN")))) "UNKNOWN"
  end.

(** The inner [_has_chain_event], on metadata as stored. *)
Definition has_chain_event (meta : dict) (evt : string) : result bool :=
  entries ← py_tuple (dget_or meta "chain_trace" (VList []));
  Ok (existsb (fun e => match e with
                        | VDict d => bool_decide (dget0 d "event_type" = VStr evt)
                        | _ => false
                        end) entries).

Section completion.
Context (get_pod_assignment : string -> val) (list_logicnodes : string -> list val)
        (list_build_artifacts : string -> list dict).

(** The metadata fallback of single-orchestrator deployments. *)
Definition assignment_or_fallback (meta : dict) (has : bool) : result bool :=
  if has then Ok true
  else if truthy (py_or (dget0 meta "assigned_pod_manager_agent_id")
                    (dget0 meta "assigned_specialist_agent_id")) then Ok true
  else has_chain_event meta "MISSION_SPECIALIST_ASSIGNED".

Definition logicnodes_or_fallback (meta : dict) (has : bool) : result bool :=
  if has then Ok true
  else if truthy (py_or (dget0 meta "pod_group_standards") (dget0 meta "master_logic_stream")) then Ok true
  else has_chain_event meta "MISSION_LOGIC_FOLDED".

Definition _completion_artifacts_ready (mission : MissionRecord) : result (bool * dict) :=
  let meta := ms_metadata mission in
  if completion_policy_exempt (VDict meta) then Ok (true, [("policy_exempt", VBool true)])
  else
    let logicnodes := list_logicnodes (ms_mission_id mission) in
    has_assignment ← assignment_or_fallback meta (truthy (get_pod_assignment (ms_mission_id mission)));
    has_logicnodes ← logicnodes_or_fallback meta (truthy (VList logicnodes));
    if mission_requires_build_artifact (VDict meta) then
      let records := list_build_artifacts (ms_mission_id mission) in
      let has_successful_build := has_successful_build_artifact records in
      Ok (has_successful_build && (has_assignment || has_logicnodes),
          [("policy_exempt", VBool false); ("build_artifact_required", VBool true);
           ("build_artifact_count", VInt (Z.of_nat (length records)));
           ("build_artifact_status", VStr (latest_build_artifact_status records));
           ("has_successful_build_artifact", VBool has_successful_build);
           ("has_pod_assignment", VBool has_assignment);
           ("logicnode_count", VInt (Z.of_nat (length logicnodes)))])
    else
      Ok (has_assignment || has_logicnodes,
          [("policy_exempt", VBool false); ("build_artifact_required", VBool false);
           ("has_pod_assignment", VBool has_assignment);
           ("logicnode_count", VInt (Z.of_nat (length logicnodes)))]).
End completion.

(** ** Routing of state events *)

(** [str(a or b or c).strip()] with a string default. *)
Definition routed (a b : val) (c : string) : string := str_strip (py_str (py_or a (py_or b (VStr c)))).

Definition _state_event_agent_routing (mission : MissionRecord) (event_type : string) : dict :=
  let metadata := ms_metadata mission in
  let pod_manager_agent_id := routed (dget0 metadata "assigned_pod_manager_agent_id")
        (dget0 metadata "expected_pod_manager_agent_id") (resolve_pod_manager_agent_id (ms_language mission)) in
  let specialist_agent_id := routed (dget0 metadata "assigned_specialist_agent_id")
        (dget0 metadata "expected_specialist_agent_id") (resolve_specialist_agent_id (ms_language mission)) in
  let routed_agent_id :=
    if String.eqb event_type "MISSION_PM_INTAKE" then PM_AGENT_ID
    else if str_in event_type ["MISSION_CEO_DELEGATED"; "MISSION_COMPLETION_BLOCKED"] then CEO_AGENT_ID
    else if String.eqb event_type "MISSION_POD_MANAGER_ASSIGNED" then pod_manager_agent_id
    else if str_in event_type ["MISSION_SPECIALIST_ASSIGNED"; "MISSION_SPECIALIST_PLANNED"; "MISSION_RUNNING";
                               "MISSION_GATING"; "MISSION_FUSION"; "MISSION_VERIFIED"; "MISSION_COMPLETE";
                               "MISSION_FAILED"] then specialist_agent_id
    else "" in
  if String.eqb routed_agent_id "" then []
  else [("agent_id", VStr routed_agent_id); ("selected_agent_id", VStr routed_agent_id);
        ("target_agent_id", VStr routed_agent_id);
        ("assigned_pod_manager_agent_id", VStr pod_manager_agent_id);
        ("assigned_specialist_agent_id", VStr specialist_agent_id)].

(** ** Chain preparation *)

(** [{str(entry.get("event_type", "")) for entry in trace if isinstance(entry, dict)}] *)
Definition existing_event_types (metadata : dict) : list string :=
  omap (fun entry => match entry with
                     | VDict d => Some (py_str (dget_or d "event_type" (VStr "")))
                     | _ => None
                     end) (chain_trace metadata).

(** The four records of the chain of command, in their order. *)
Definition chain_steps (pod_manager specialist : string) : list (string * string * dict) :=
  [("MISSION_PM_INTAKE", PM_AGENT_ID, [("source", VStr "orchestrator-normalization")]);
   ("MISSION_CEO_DELEGATED", CEO_AGENT_ID, [("target_agent_id", VStr pod_manager)]);
   ("MISSION_POD_MANAGER_ASSIGNED", pod_manager, [("specialist_agent_id", VStr specialist)]);
   ("MISSION_SPECIALIST_ASSIGNED", specialist, [("pod_manager_agent_id", VStr pod_manager)])].

Definition add_chain_steps (now : string) (existing : list string) (metadata : dict)
    (steps : list (string * string * dict)) : dict * list string :=
  foldl (fun (acc : dict * list string) (step : string * string * dict) =>
           let '(ev, agent_id, details) := step in
           if str_in ev existing then acc
           else (append_chain_event acc.1 ev agent_id (Some details) None now, acc.2 ++ [ev]))
    (metadata, []) steps.

Definition prepared_metadata (now : string) (mission : MissionRecord) : dict * list string :=
  let metadata := with_chain_defaults (VDict (ms_metadata mission)) (ms_language mission) in
  let pod_manager := resolve_pod_manager_agent_id (ms_language mission) in
  let specialist := resolve_specialist_agent_id (ms_language mission) in
  let metadata := dset metadata "assigned_pod_manager_agent_id" (VStr pod_manager) in
  let metadata := dset metadata "assigned_specialist_agent_id" (VStr specialist) in
  let metadata := dset metadata "agent_id" (VStr pod_manager) in
  let metadata := dset metadata "selected_agent_id" (VStr pod_manager) in
  add_chain_steps now (existing_event_types metadata) metadata (chain_steps pod_manager specialist).

(** [for event_type in added: insert_mission_event(queued, queued, event_type)] *)
Fixpoint log_all (mission_id : string) (s : MissionState) (events : list string) : M unit :=
  match events with
  | [] => mret tt
  | e :: rest => _ ← insert_mission_event mission_id (Some s) s e; log_all mission_id s rest
  end.

Definition _prepare_mission_chain_for_running (now mission_id : string) : M bool :=
  found ← fetch_mission mission_id;
  match found with
  | None => mret false
  | Some mission =>
      let (metadata, added) := prepared_metadata now mission in
      record ← update_mission_metadata mission_id metadata;
      match record with
      | None => mret false
      | Some _ => _ ← log_all mission_id queued added; mret true
      end
  end.

(** ** The legacy engine *)

Definition RUNNING_PHASE_CHECKPOINT_EVENTS : list string := ["MISSION_GATING"; "MISSION_FUSION"].

(** Each checkpoint is written in a [try]; a failure skips to the next. *)
Fixpoint _emit_running_phase_checkpoints (mission_id : string) (events : list string) : M unit :=
  match events with
  | [] => mret tt
  | e :: rest =>
      _ ← try_except (insert_mission_event mission_id (Some running) running e) tt;
      _emit_running_phase_checkpoints mission_id rest
  end.

Section legacy.
Context (now : string) (completion_artifacts_ready : MissionRecord -> M (bool * dict))
        (ensure_verified_build_artifact : MissionRecord -> M MissionRecord).

Definition legacy_before (mission_id : string) (expected_state new_state : MissionState) : M bool :=
  prepared ← (if decide (expected_state = queued /\ new_state = running)
              then _prepare_mission_chain_for_running now mission_id else mret true);
  if negb prepared then mret false
  else if decide (expected_state = verified /\ new_state = complete) then
    found ← fetch_mission mission_id;
    match found with
    | None => mret false
    | Some mission =>
        '(ready, details) ← completion_artifacts_ready mission;
        if ready : bool then mret true
        else _ ← completion_blocked now mission_id mission details; mret false
    end
  else mret true.

Definition legacy_after (record : MissionRecord) (new_state : MissionState) (event_type : string) : M unit :=
  record ← (if decide (new_state = verified)
            then try_except (ensure_verified_build_artifact record) record else mret record);
  if String.eqb event_type "MISSION_RUNNING"
  then _emit_running_phase_checkpoints (ms_mission_id record) RUNNING_PHASE_CHECKPOINT_EVENTS
  else mret tt.

Fixpoint legacy_drive (mission_id : string) (transitions : list (MissionState * MissionState * string)) : M unit :=
  match transitions with
  | [] => mret tt
  | (expected_state, new_state, event_type) :: rest =>
      go ← legacy_before mission_id expected_state new_state;
      if negb go then mret tt
      else
        record ← transition_mission_state mission_id (Some expected_state) new_state event_type;
        match record with
        | None => mret tt
        | Some record => _ ← legacy_after record new_state event_type; legacy_drive mission_id rest
        end
  end.

(** [LegacyV1Engine.advance]: always from the first transition. *)
Definition LegacyV1Engine_advance (mission_id : string) : M unit := legacy_drive mission_id V1_TRANSITIONS.
End legacy.

(** ** Engine choice *)

Inductive LifecycleEngine := MissionFlowV2Engine | LangGraphEngine | LegacyV1Engine.

Definition get_lifecycle_engine (mission_flow_v2_enabled langgraph_enabled : bool) : LifecycleEngine :=
  if mission_flow_v2_enabled then MissionFlowV2Engine
  else if langgraph_enabled then LangGraphEngine
  else LegacyV1Engine.

Definition get_lifecycle_engine_name (mission_flow_v2_enabled langgraph_enabled : bool) : string :=
  if mission_flow_v2_enabled then "mission_flow_v2"
  else if langgraph_enabled then "langgraph"
  else "legacy_v1".

(** ** Recovery *)

Definition _recoverable_lifecycle_states : list MissionState :=
  List.filter (fun s => negb (bool_decide (s ∈ [intake; clarifying; complete; failed])))
    ((fun tr : MissionState * MissionState * string => tr.1.1) <$> V2_TRANSITIONS).

(** [app.state.lifecycle_tasks]: the tasks by mission, [true] while not done. *)
Abbreviation Tasks := (gmap string bool).

(** [start_lifecycle_task]: the missions started are those added to the list. *)
Definition start_lifecycle_task (auto_transition_enabled : bool) (mission_id : string)
    (st : Tasks * list string) : Tasks * list string :=
  if negb auto_transition_enabled then st
  else match st.1 !! mission_id with
       | Some true => st
       | _ => (<[mission_id := true]> st.1, st.2 ++ [mission_id])
       end.

(** The done callback of a task. *)
Definition task_done (mission_id : string) (tasks : Tasks) : Tasks := delete mission_id tasks.

Fixpoint recover_missions (auto : bool) (missions : list string) (st : Tasks * list string) (recovered : Z)
    : (Tasks * list string) * Z :=
  match missions with
  | [] => (st, recovered)
  | id :: rest =>
      match st.1 !! id with
      | Some true => recover_missions auto rest st recovered
      | _ => recover_missions auto rest (start_lifecycle_task auto id st) (recovered + 1)
      end
  end.

Section recovery.
Context (ts_le : relation string) {ts_dec : forall a b, Decision (ts_le a b)}.

(** [_recover_inflight_lifecycle_tasks]: [None] is the answer False (not ready);
    otherwise the tasks, what was started, and how many were recovered. *)
Definition _recover_inflight_lifecycle_tasks (auto db_ready protocol_ready : bool) (max_missions : Z)
    (tasks : Tasks) (db : DB) : result (option ((Tasks * list string) * Z)) :=
  if negb auto then Ok (Some ((tasks, []), 0))
  else if negb db_ready || negb protocol_ready then Ok None
  else
    missions ← (list_missions_in_states ts_le _recoverable_lifecycle_states max_missions db).1;
    Ok (Some (recover_missions auto (ms_mission_id <$> missions) (tasks, []) 0)).
End recovery.

(** ** Lemmas *)

Lemma existing_clean l :
  omap (fun entry => match entry with
                     | VDict d => Some (py_str (dget_or d "event_type" (VStr "")))
                     | _ => None
                     end) (List.filter is_dict l) =
  omap (fun entry => match entry with
                     | VDict d => Some (py_str (dget_or d "event_type" (VStr "")))
                     | _ => None
                     end) l.
Proof. induction l as [|[] l IH]; simpl; first [done|exact IH|f_equal; exact IH]. Qed.

Lemma existing_defaults m lang :
  existing_event_types (with_chain_defaults (VDict m) lang) = existing_event_types m.
Proof.
  unfold existing_event_types at 1. rewrite chain_trace_with_defaults, dict_value_VDict.
  unfold existing_event_types, chain_trace, clean_trace. destruct (dget0 m "chain_trace"); try done.
  apply existing_clean.
Qed.

Lemma existing_frame m m' :
  dget m "chain_trace" = dget m' "chain_trace" -> existing_event_types m = existing_event_types m'.
Proof. intros H. unfold existing_event_types, chain_trace, dget0. by rewrite H. Qed.

Lemma existing_append m ev a d now :
  existing_event_types (append_chain_event m ev a d None now) = existing_event_types m ++ [ev].
Proof.
  unfold existing_event_types, chain_trace at 1. unfold append_chain_event. cbv zeta.
  rewrite !dget0_dset_ne, dget0_dset_eq by done. rewrite omap_app. f_equal.
  unfold chain_record. by destruct d as [[|kv d]|].
Qed.

(** The steps added are those missing, in their order, and afterwards none is missing. *)
Lemma add_chain_steps_spec now existing steps m added :
  existing_event_types m = existing ++ added ->
  let (m', added') := foldl (fun (acc : dict * list string) (step : string * string * dict) =>
           let '(ev, agent_id, details) := step in
           if str_in ev existing then acc
           else (append_chain_event acc.1 ev agent_id (Some details) None now, acc.2 ++ [ev]))
    (m, added) steps in
  added' = added ++ List.filter (fun ev => negb (str_in ev existing)) ((fun s => s.1.1) <$> steps) /\
  existing_event_types m' = existing ++ added'.
Proof.
  revert m added. induction steps as [|[[ev a] d] steps IH]; intros m added Hm; cbn [foldl].
  - cbn. by rewrite app_nil_r.
  - rewrite fmap_cons. cbn [List.filter fst]. destruct (str_in ev existing) eqn:E; cbn [negb].
    + by apply IH.
    + cbn [fst snd]. specialize (IH (append_chain_event m ev a (Some d) None now) (added ++ [ev])).
      rewrite existing_append, Hm, <- app_assoc in IH. specialize (IH eq_refl).
      destruct (foldl _ _ steps) as [m' added']. destruct IH as [-> ?]. split; [|done].
      by rewrite <- app_assoc.
Qed.

Lemma prepared_metadata_spec now mission :
  let existing := existing_event_types (ms_metadata mission) in
  let (m, added) := prepared_metadata now mission in
  added = List.filter (fun ev => negb (str_in ev existing))
    ["MISSION_PM_INTAKE"; "MISSION_CEO_DELEGATED"; "MISSION_POD_MANAGER_ASSIGNED"; "MISSION_SPECIALIST_ASSIGNED"] /\
  existing_event_types m = existing ++ added.
Proof.
  intros existing. unfold prepared_metadata. cbv zeta.
  set (m0 := dset _ "selected_agent_id" _).
  assert (existing_event_types m0 = existing) as He.
  { unfold existing. rewrite <- (existing_defaults (ms_metadata mission) (ms_language mission)).
    apply existing_frame. unfold m0. by rewrite !dget_dset_ne by done. }
  unfold add_chain_steps. rewrite He.
  pose proof (add_chain_steps_spec now existing (chain_steps (resolve_pod_manager_agent_id (ms_language mission))
    (resolve_specialist_agent_id (ms_language mission))) m0 []) as H.
  rewrite app_nil_r in H. specialize (H He). destruct (foldl _ _ _) as [m added].
  destruct H as [-> ?]. by split.
Qed.

Lemma log_all_spec id s evs db row :
  db_missions db !! id = Some row ->
  log_all id s evs db =
  (Ok tt, mkDB (db_missions db) (db_events db ++
     ((fun ev => mkEvent id (Some (state_value s)) (state_value s) ev) <$> evs))).
Proof.
  revert db. induction evs as [|ev evs IH]; intros db Hr; cbn [log_all].
  - cbn. rewrite app_nil_r. by destruct db.
  - unfold mbind, St_bind, insert_mission_event. rewrite Hr. rewrite (IH (log_event db _)) by done.
    cbn. by rewrite <- app_assoc.
Qed.

Lemma keeps_log_all id i s evs : keeps id (log_all i s evs).
Proof. induction evs as [|ev evs IH]; cbn [log_all]; keep_quiet. Qed.

Lemma keeps_prepare id now i : keeps id (_prepare_mission_chain_for_running now i).
Proof.
  unfold _prepare_mission_chain_for_running. apply keeps_bind; [apply keeps_fetch|]. intros [m|]; [|apply keeps_ret].
  destruct (prepared_metadata now m) as [md added]. apply keeps_bind; [apply keeps_update|].
  intros [r|]; [|apply keeps_ret]. apply keeps_bind; [apply keeps_log_all|]. intros _. apply keeps_ret.
Qed.

Lemma recover_missions_spec ids tasks started n :
  exists fresh tasks', recover_missions true ids (tasks, started) n =
      ((tasks', started ++ fresh), n + Z.of_nat (length fresh)) /\
    NoDup fresh /\
    (forall id, id ∈ fresh -> id ∈ ids /\ tasks !! id <> Some true) /\
    (forall id, id ∈ ids -> tasks' !! id = Some true) /\
    (forall id, tasks' !! id = if decide (id ∈ fresh) then Some true else tasks !! id).
Proof.
  revert tasks started n. induction ids as [|i ids IH]; intros tasks started n; cbn [recover_missions].
  - exists [], tasks. rewrite app_nil_r. split_and!; [by rewrite Z.add_0_r|constructor|..].
    + intros id H. by apply not_elem_of_nil in H.
    + intros id H. by apply not_elem_of_nil in H.
    + intros id. case_decide as H; [by apply not_elem_of_nil in H|done].
  - cbn [fst]. destruct (decide (tasks !! i = Some true)) as [E|E].
    + rewrite E. destruct (IH tasks started n) as (fresh & tasks' & Hr & Hnd & Hf & Hall & Hl).
      exists fresh, tasks'. split_and!; [done|done| |  |done].
      * intros id Hid. split; [right; by apply Hf|by apply Hf].
      * intros id [->|Hid]%elem_of_cons; [|by apply Hall]. rewrite Hl. by case_decide.
    + assert (start_lifecycle_task true i (tasks, started) = (<[i := true]> tasks, started ++ [i])) as Hst.
      { unfold start_lifecycle_task. cbn [negb fst snd]. by destruct (tasks !! i) as [[|]|]. }
      rewrite Hst. destruct (IH (<[i := true]> tasks) (started ++ [i]) (n + 1)) as (fresh & tasks' & Hr & Hnd & Hf & Hall & Hl).
      exists (i :: fresh), tasks'. split_and!.
      * destruct (tasks !! i) as [[|]|]; [done| |]; rewrite Hr, <- app_assoc; cbn [app length];
          replace (n + Z.of_nat (S (length fresh))) with (n + 1 + Z.of_nat (length fresh)) by lia; done.
      * constructor; [|done]. intros Hi. apply Hf in Hi as [_ Hi]. apply Hi, lookup_insert_eq.
      * intros id [->|Hid]%elem_of_cons; [by split; [left|]|]. apply Hf in Hid as [Hin Hne].
        split; [by right|]. intros Ht. apply Hne. rewrite lookup_insert. by case_decide.
      * intros id [->|Hid]%elem_of_cons; [|by apply Hall]. rewrite Hl. case_decide; [done|]. apply lookup_insert_eq.
      * intros id. rewrite Hl. rewrite lookup_insert.
        destruct (decide (id ∈ i :: fresh)) as [H|H]; rewrite elem_of_cons in H;
          repeat case_decide; try done; destruct H; (subst; done || auto).
Qed.

(** ** Properties *)

(** A completion needs evidence. The check lets a mission pass only if it is
    exempt by policy, or there is an assignment or LogicNode on record (in the
    tables or in the metadata of single-orchestrator deployments), and, when the
    mission owes a build artifact, one that succeeded; a mission with no such
    trace anywhere is never complete. *)
Lemma completion_needs_evidence assignment nodes artifacts mission details :
  _completion_artifacts_ready assignment nodes artifacts mission = Ok (true, details) ->
  let id := ms_mission_id mission in
  let meta := ms_metadata mission in
  completion_policy_exempt (VDict meta) = true \/
  ((truthy (assignment id) = true \/ nodes id <> [] \/
    (exists k, k ∈ ["assigned_pod_manager_agent_id"; "assigned_specialist_agent_id";
                    "pod_group_standards"; "master_logic_stream"] /\ truthy (dget0 meta k) = true) \/
    (exists evt, evt ∈ ["MISSION_SPECIALIST_ASSIGNED"; "MISSION_LOGIC_FOLDED"] /\ has_chain_event meta evt = Ok true)) /\
   (mission_requires_build_artifact (VDict meta) = true ->
    exists record, record ∈ artifacts id /\ str_upper (py_str (dget_or record "status" (VStr ""))) = "SUCCESS")).
Proof.
  intros H id meta. unfold _completion_artifacts_ready in H. fold meta id in H. cbv zeta in H.
  destruct (completion_policy_exempt (VDict meta)); [by left|]. right.
  apply result_bind_Ok in H as (a & Ha & H). apply result_bind_Ok in H as (b & Hb & H).
  assert (a || b = true /\ (mission_requires_build_artifact (VDict meta) = true ->
            has_successful_build_artifact (artifacts id) = true)) as [Hab Hart].
  { destruct (mission_requires_build_artifact (VDict meta)); injection H as H _.
    - apply andb_true_iff in H as [? ?]. done.
    - done. }
  split.
  - apply orb_true_iff in Hab as [->| ->].
    + unfold assignment_or_fallback in Ha. destruct (truthy (assignment id)); [by left|].
      unfold py_or in Ha. destruct (truthy (dget0 meta "assigned_pod_manager_agent_id")) eqn:E1;
        [right; right; left; eexists; split; [|exact E1]; repeat (first [by left|right])|].
      destruct (truthy (dget0 meta "assigned_specialist_agent_id")) eqn:E2;
        [right; right; left; eexists; split; [|exact E2]; repeat (first [by left|right])|].
      right; right; right. eexists. split; [|exact Ha]. by left.
    + unfold logicnodes_or_fallback in Hb.
      destruct (nodes id) as [|x l]; [cbn [truthy] in Hb|right; left; done].
      unfold py_or in Hb. destruct (truthy (dget0 meta "pod_group_standards")) eqn:E1;
        [right; right; left; eexists; split; [|exact E1]; repeat (first [by left|right])|].
      destruct (truthy (dget0 meta "master_logic_stream")) eqn:E2;
        [right; right; left; eexists; split; [|exact E2]; repeat (first [by left|right])|].
      right; right; right. eexists. split; [|exact Hb]. right. by left.
  - intros Hr. apply Hart, existsb_exists in Hr as (record & Hin & Hs%String.eqb_eq).
    exists record. split; [by apply list_elem_of_In|done].
Qed.

Lemma completion_needs_evidence_witness :
  let m := mkMission "m1" "p" None None None None None
             [("expected_artifacts", VList [VStr "generated_output"])] None None verified "t" in
  let done := [[("status", VStr "success")]] in
  (exists details, _completion_artifacts_ready (fun _ => VStr "pod") (fun _ => []) (fun _ => done) m = Ok (true, details)) /\
  (exists details, _completion_artifacts_ready (fun _ => VStr "pod") (fun _ => []) (fun _ => []) m = Ok (false, details)) /\
  exists record, record ∈ done /\ str_upper (py_str (dget_or record "status" (VStr ""))) = "SUCCESS".
Proof.
  intros m done.
  assert (exists details, _completion_artifacts_ready (fun _ => VStr "pod") (fun _ => []) (fun _ => done) m =
            Ok (true, details)) as H by (eexists; vm_compute; reflexivity).
  split; [exact H|]. split; [eexists; vm_compute; reflexivity|].
  destruct H as [details H]. destruct (completion_needs_evidence _ _ _ m details H) as [Hx|[_ Ha]].
  - discriminate.
  - apply Ha. vm_compute. reflexivity.
Defined.

(** Preparing the chain of command is idempotent. On a stored mission it
    succeeds, leaves state and state changes alone, and afterwards the trace has each of the
    four steps; it logs exactly the steps that were missing, so repeating it,
    as a restart does, logs nothing more. *)
Lemma chain_preparation_idempotent now now' id db row s :
  db_missions db !! id = Some row -> r_state row = state_value s ->
  let steps := ["MISSION_PM_INTAKE"; "MISSION_CEO_DELEGATED"; "MISSION_POD_MANAGER_ASSIGNED";
                "MISSION_SPECIALIST_ASSIGNED"] in
  exists db1 row1 db2,
    _prepare_mission_chain_for_running now id db = (Ok true, db1) /\
    db_missions db1 !! id = Some row1 /\ r_state row1 = r_state row /\
    (forall ev, ev ∈ steps -> ev ∈ existing_event_types (r_metadata row1)) /\
    db_events db1 = db_events db ++
      ((fun ev => mkEvent id (Some "QUEUED") "QUEUED" ev) <$>
         List.filter (fun ev => negb (str_in ev (existing_event_types (r_metadata row)))) steps) /\
    _prepare_mission_chain_for_running now' id db1 = (Ok true, db2) /\ db_events db2 = db_events db1.
Proof.
  intros Hr Hs steps.
  assert (forall now db row, db_missions db !! id = Some row -> r_state row = state_value s ->
    exists db1 row1, _prepare_mission_chain_for_running now id db = (Ok true, db1) /\
      db_missions db1 !! id = Some row1 /\ r_state row1 = r_state row /\
      (forall ev, ev ∈ steps -> ev ∈ existing_event_types (r_metadata row1)) /\
      db_events db1 = db_events db ++ ((fun ev => mkEvent id (Some "QUEUED") "QUEUED" ev) <$>
         List.filter (fun ev => negb (str_in ev (existing_event_types (r_metadata row)))) steps)) as Hstep.
  { clear. intros now db row Hr Hs. destruct (row_to_mission_ok row s Hs) as (m & Hm & _ & _ & Hmd).
    pose proof (prepared_metadata_spec now m) as Hp. cbv zeta in Hp. rewrite Hmd in Hp.
    unfold _prepare_mission_chain_for_running, mbind, St_bind. unfold fetch_mission at 1. rewrite Hr, Hm.
    cbn [fmap result_fmap]. destruct (prepared_metadata now m) as [md added]. destruct Hp as [Hadd Hex].
    destruct (update_metadata_row id md db row s Hr Hs) as (m' & row' & -> & _ & _ & Hst & Hget).
    rewrite (log_all_spec id queued added _ row') by (cbn; by rewrite lookup_insert_eq).
    eexists. exists row'. split; [reflexivity|]. cbn [db_missions db_events]. rewrite lookup_insert_eq.
    split_and!; [done|done| |by rewrite Hadd].
    intros ev Hev. rewrite (existing_frame _ md), Hex by (by apply Hget).
    destruct (str_in ev (existing_event_types (r_metadata row))) eqn:E.
    - apply elem_of_app. left. by apply str_in_spec.
    - apply elem_of_app. right. rewrite Hadd. apply list_elem_of_In, List.filter_In.
      split; [by apply list_elem_of_In|by rewrite E]. }
  destruct (Hstep now db row Hr Hs) as (db1 & row1 & H1 & Hr1 & Hs1 & Hex1 & Hev1).
  destruct (Hstep now' db1 row1 Hr1) as (db2 & row2 & H2 & _ & _ & _ & Hev2); [congruence|].
  exists db1, row1, db2. split_and!; try done. rewrite Hev2.
  assert (List.filter (fun ev => negb (str_in ev (existing_event_types (r_metadata row1)))) steps = []) as ->;
    [|by rewrite app_nil_r].
  assert (forall l, (forall ev, ev ∈ l -> ev ∈ existing_event_types (r_metadata row1)) ->
    List.filter (fun ev => negb (str_in ev (existing_event_types (r_metadata row1)))) l = []) as Hf; [|by apply Hf].
  clear. induction l as [|ev l IH]; intros H; simpl; [done|].
  rewrite (proj2 (str_in_spec _ _) (H ev ltac:(by left))). cbn [negb]. apply IH. intros ev' H'. apply H. by right.
Qed.

Lemma chain_preparation_idempotent_witness :
  db_missions demo_db !! "m1" = Some demo_row /\ r_state demo_row = state_value queued /\
  exists db1 db2, _prepare_mission_chain_for_running "t" "m1" demo_db = (Ok true, db1) /\
    _prepare_mission_chain_for_running "t2" "m1" db1 = (Ok true, db2) /\
    length (db_events db1) = 5%nat /\ db_events db2 = db_events db1.
Proof.
  assert (db_missions demo_db !! "m1" = Some demo_row) as H1 by (vm_compute; reflexivity).
  assert (r_state demo_row = state_value queued) as H2 by reflexivity.
  split; [exact H1|]. split; [exact H2|].
  destruct (chain_preparation_idempotent "t" "t2" "m1" demo_db demo_row queued H1 H2)
    as (db1 & row1 & db2 & Ha & _ & _ & _ & Hev & Hb & Hc).
  exists db1, db2. split; [exact Ha|]. split; [exact Hb|]. split; [|exact Hc].
  rewrite Hev. vm_compute. reflexivity.
Defined.

(** Recovery and the two engines. The states recovery looks for are exactly
    those in which the v2 driver has a transition to make, whatever the state; but
    the legacy engine makes progress from [QUEUED] only: on a mission that recovery
    restarts in any other of these states it changes neither the state nor the
    state changes logged. *)
Lemma recovery_and_engines s :
  (s ∈ _recoverable_lifecycle_states <-> pending_from s V2_TRANSITIONS <> []) /\
  (s ∈ _recoverable_lifecycle_states <-> s ∉ [intake; clarifying; complete; failed]) /\
  (forall now check ensure id db, s <> queued -> state_of db id = Some (state_value s) ->
     quiet id db (LegacyV1Engine_advance now check ensure id db).2).
Proof.
  assert (s ∈ _recoverable_lifecycle_states <-> bool_decide (s ∈ _recoverable_lifecycle_states) = true) as Hd
    by (by rewrite bool_decide_eq_true).
  split_and!.
  - rewrite Hd. destruct s; vm_compute; split; intros; done.
  - rewrite Hd, <- (bool_decide_eq_true (s ∉ [intake; clarifying; complete; failed])).
    by destruct s.
  - intros now check ensure id db Hne Hs. unfold LegacyV1Engine_advance, V1_TRANSITIONS. cbn [legacy_drive].
    assert (keeps id (legacy_before now check id queued running)) as Hk.
    { unfold legacy_before. apply keeps_bind.
      - destruct (decide (queued = queued /\ running = running)); [apply keeps_prepare|apply keeps_ret].
      - intros [|]; cbn [negb]; [|apply keeps_ret].
        destruct (decide (queued = verified /\ running = complete)) as [[? _]|_]; [done|apply keeps_ret]. }
    specialize (Hk db). unfold mbind at 1, St_bind at 1.
    destruct (legacy_before now check id queued running db) as [[go|ex] db1]; cbn [snd] in *; [|done].
    destruct go; cbn [negb]; [|done]. unfold mbind at 1, St_bind at 1.
    rewrite transition_mismatch; [done|]. intros row Hr He. destruct Hk as [Hk _].
    unfold state_of at 1 in Hk. rewrite Hr, Hs in Hk. injection Hk as Hk. apply Hne, state_value_inj. congruence.
Qed.

(** At most one lifecycle task per mission. Whatever missions recovery
    scans, it starts a task for exactly those that have none running, once each even
    if a mission is listed twice, counts them, leaves running ones alone, and
    afterwards every scanned mission has a running task. *)
Lemma recovery_starts_each_once ids tasks n :
  exists fresh tasks', recover_missions true ids (tasks, []) n = ((tasks', fresh), n + Z.of_nat (length fresh)) /\
    NoDup fresh /\
    (forall id, id ∈ fresh <-> id ∈ ids /\ tasks !! id <> Some true) /\
    (forall id, id ∈ ids -> tasks' !! id = Some true) /\
    (forall id, id ∉ ids -> tasks' !! id = tasks !! id).
Proof.
  destruct (recover_missions_spec ids tasks [] n) as (fresh & tasks' & Hr & Hnd & Hf & Hall & Hl).
  exists fresh, tasks'. split_and!; [done|done| |done|].
  - intros id. split; [apply Hf|]. intros [Hin Hne]. specialize (Hall id Hin). rewrite Hl in Hall. by case_decide.
  - intros id Hid. rewrite Hl. case_decide as H; [by apply Hf in H as [? _]|done].
Qed.
