(* ===== verification/Streams.v ===== *)
(** * Streams

    What the services use of Redis, as interfaces: the key-value and stream commands
    of the Protocol Bus, and the consumer-group commands of the stream consumers.
    Redis is not part of the repository: the laws state its documented
    behaviour, within one expiry window (no key expires between the calls), and each
    interface has a small concrete instance that satisfies them. *)

From S2P Require Import Prelude PyVal.

(** The fields of a stream entry. *)
Abbreviation fields := (list (string * string)).

(** ** Keys and streams *)

Class Redis (R : Type) := {
  set_nx : string -> string -> Z -> St R bool;
  xlen : string -> St R Z;
  xadd : string -> fields -> Z -> St R unit;
  xrevrange : string -> nat -> St R (list (string * fields));
}.

(** [live k] is whether the key exists, [entries c] the stream, newest last. *)
Class RedisLaws (R : Type) `{Redis R} := {
  live : string -> R -> bool;
  entries : string -> R -> list fields;
  set_nx_spec : forall k v ttl r b r',
    set_nx k v ttl r = (Ok b, r') ->
    b = negb (live k r) /\ live k r' = true /\ (forall c, entries c r' = entries c r);
  set_nx_keeps : forall k v ttl r k', live k' r = true -> live k' (set_nx k v ttl r).2 = true;
  set_nx_other : forall k v ttl r k', k <> k' -> live k' (set_nx k v ttl r).2 = live k' r;
  set_nx_error : forall k v ttl r e r' c, set_nx k v ttl r = (Raise e, r') -> entries c r' = entries c r;
  xlen_spec : forall c r, (xlen c r).2 = r /\ (forall n, (xlen c r).1 = Ok n -> n = Z.of_nat (length (entries c r)));
  xadd_keeps : forall c f n r k, live k (xadd c f n r).2 = live k r;
  xadd_other : forall c f n r c', c <> c' -> entries c' (xadd c f n r).2 = entries c' r;
  xrevrange_spec : forall c n r l r', xrevrange c n r = (Ok l, r') ->
    r' = r /\ l.*2 = take n (rev (entries c r));
  xadd_spec : forall c f n r r', xadd c f n r = (Ok tt, r') ->
    exists dropped, dropped ++ entries c r' = entries c r ++ [f];
}.

(** A store that is always available and never trims. *)
Record mem := mkMem { mem_keys : gset string; mem_streams : gmap string (list fields) }.

Definition mem_entries (c : string) (r : mem) : list fields := default [] (mem_streams r !! c).

#[export] Instance mem_redis : Redis mem := {|
  set_nx := fun k _ _ r =>
    (Ok (negb (bool_decide (k ∈ mem_keys r))), mkMem ({[k]} ∪ mem_keys r) (mem_streams r));
  xlen := fun c r => (Ok (Z.of_nat (length (mem_entries c r))), r);
  xadd := fun c f _ r => (Ok tt, mkMem (mem_keys r) (<[c := mem_entries c r ++ [f]]> (mem_streams r)));
  xrevrange := fun c n r =>
    (Ok (take n (rev (imap (fun i f => (pretty (N.of_nat i), f)) (mem_entries c r)))), r);
|}.

Lemma imap_const_id {A} (l : list A) : imap (fun _ x => x) l = l.
Proof. induction l as [|x l IH]; [done|]. cbn. f_equal. exact IH. Qed.

#[export] Instance mem_laws : RedisLaws mem.
Proof.
  refine {| live := fun k r => bool_decide (k ∈ mem_keys r); entries := mem_entries |}.
  - intros k v ttl r b r' [= <- <-]. split_and!; [done| |done]. cbn. apply bool_decide_eq_true. set_solver.
  - intros k v ttl r k' Hk%bool_decide_eq_true. cbn. apply bool_decide_eq_true. set_solver.
  - intros k v ttl r k' Hne. cbn. apply bool_decide_ext. set_solver.
  - done.
  - intros c r. split; [done|]. by intros n [= <-].
  - done.
  - intros c f n r c' Hne. unfold mem_entries. cbn. by rewrite lookup_insert_ne.
  - intros c n r l r' [= <- <-]. split; [done|]. rewrite fmap_take. f_equal.
    etrans; [apply List.map_rev|]. f_equal. etrans; [apply fmap_imap|apply imap_const_id].
  - intros c f n r r' [= <-]. exists []. unfold mem_entries at 1. cbn. by rewrite lookup_insert_eq.
Defined.

(** ** Consumer groups

    The stream read by one consumer of a group.  A read with a history id answers
    every stream asked for, with the entries delivered to this consumer and not yet
    acknowledged (possibly none); a read of new entries answers only the streams that
    have some, and marks them delivered. *)

Definition entry : Type := string * fields.

Class Groups (G : Type) := {
  pending : G -> string -> list entry;
  unread : G -> string -> list entry;
  read_history : list string -> nat -> G -> list (string * list entry);
  read_new : list string -> nat -> G -> list (string * list entry) * G;
  ack : string -> string -> G -> G;
}.

Class GroupsLaws (G : Type) `{Groups G} := {
  read_history_spec : forall cs n g, read_history cs n g = (fun c => (c, take n (pending g c))) <$> cs;
  read_new_spec : forall cs n g, NoDup cs ->
    (read_new cs n g).1 =
      List.filter (fun ce => match ce.2 with [] => false | _ => true end)
        ((fun c => (c, take n (unread g c))) <$> cs) /\
    (forall c, c ∈ cs -> pending (read_new cs n g).2 c = pending g c ++ take n (unread g c) /\
                         unread (read_new cs n g).2 c = drop n (unread g c)) /\
    (forall c, c ∉ cs -> pending (read_new cs n g).2 c = pending g c /\ unread (read_new cs n g).2 c = unread g c);
  ack_spec : forall c i g c',
    pending (ack c i g) c' =
      (if decide (c = c') then List.filter (fun e => negb (String.eqb e.1 i)) (pending g c') else pending g c') /\
    unread (ack c i g) c' = unread g c';
}.

(** One map of pending and unread entries by stream. *)
Record mgroup := mkGroup { mg_pending : gmap string (list entry); mg_unread : gmap string (list entry) }.

Definition at_stream (m : gmap string (list entry)) (c : string) : list entry := default [] (m !! c).

Definition deliver_one (n : nat) (g : mgroup) (c : string) : mgroup :=
  mkGroup (<[c := at_stream (mg_pending g) c ++ take n (at_stream (mg_unread g) c)]> (mg_pending g))
          (<[c := drop n (at_stream (mg_unread g) c)]> (mg_unread g)).

#[export] Instance mgroup_groups : Groups mgroup := {|
  pending := fun g => at_stream (mg_pending g);
  unread := fun g => at_stream (mg_unread g);
  read_history := fun cs n g => (fun c => (c, take n (at_stream (mg_pending g) c))) <$> cs;
  read_new := fun cs n g =>
    (List.filter (fun ce => match ce.2 with [] => false | _ => true end)
       ((fun c => (c, take n (at_stream (mg_unread g) c))) <$> cs),
     foldl (deliver_one n) g cs);
  ack := fun c i g =>
    mkGroup (<[c := List.filter (fun e => negb (String.eqb e.1 i)) (at_stream (mg_pending g) c)]> (mg_pending g))
            (mg_unread g);
|}.

Lemma deliver_other n g c c' :
  c <> c' -> at_stream (mg_pending (deliver_one n g c)) c' = at_stream (mg_pending g) c' /\
             at_stream (mg_unread (deliver_one n g c)) c' = at_stream (mg_unread g) c'.
Proof. intros. unfold at_stream. cbn. by rewrite !lookup_insert_ne. Qed.

Lemma deliver_self n g c :
  at_stream (mg_pending (deliver_one n g c)) c =
    at_stream (mg_pending g) c ++ take n (at_stream (mg_unread g) c) /\
  at_stream (mg_unread (deliver_one n g c)) c = drop n (at_stream (mg_unread g) c).
Proof. unfold at_stream at 1 4. cbn. by rewrite !lookup_insert_eq. Qed.

Lemma deliver_fold n cs g :
  NoDup cs ->
  (forall c, c ∈ cs ->
     at_stream (mg_pending (foldl (deliver_one n) g cs)) c =
       at_stream (mg_pending g) c ++ take n (at_stream (mg_unread g) c) /\
     at_stream (mg_unread (foldl (deliver_one n) g cs)) c = drop n (at_stream (mg_unread g) c)) /\
  (forall c, c ∉ cs ->
     at_stream (mg_pending (foldl (deliver_one n) g cs)) c = at_stream (mg_pending g) c /\
     at_stream (mg_unread (foldl (deliver_one n) g cs)) c = at_stream (mg_unread g) c).
Proof.
  intros Hnd. revert g. induction Hnd as [|x cs Hx Hnd IH]; intros g; cbn [foldl].
  - split; [|done]. intros c Hc. by apply not_elem_of_nil in Hc.
  - destruct (IH (deliver_one n g x)) as [IH1 IH2]. split.
    + intros c [->|Hc]%elem_of_cons.
      * destruct (IH2 x Hx) as [-> ->]. apply deliver_self.
      * assert (x <> c) as Hne by (intros ->; done). destruct (IH1 c Hc) as [-> ->].
        by destruct (deliver_other n g x c Hne) as [-> ->].
    + intros c [Hne Hc]%not_elem_of_cons. destruct (IH2 c Hc) as [-> ->].
      apply deliver_other. congruence.
Qed.

#[export] Instance mgroup_laws : GroupsLaws mgroup.
Proof.
  split; [done| |].
  - intros cs n g Hnd. split; [done|]. apply (deliver_fold n cs g Hnd).
  - intros c i g c'. cbn. unfold at_stream. case_decide; [subst; by rewrite lookup_insert_eq|by rewrite lookup_insert_ne].
Qed.
