(* ===== verification/Bus.v ===== *)
(** * Bus

    The Protocol Bus server, [protocol_bus/mcp_server.py], and the priority and
    replay helpers of [shared_runtime/protocol.py].  A request arrives as the length
    of its body and the parsed JSON ([None] when it does not parse); the answer is a
    response or an [HTTPException] with its status.  Pydantic's strict models are their
    lists of fields; numbers are integers, so a score between 0.0 and 1.0 is 0 or 1.
    The JSON encoder and the text of an exception are parameters; metrics and logging
    are left out. *)

From S2P Require Import Prelude PyVal Auth Streams.

(** ** Vocabularies *)

Definition EVENT_PRIORITIES : list string := ["NORMAL"; "HIGH"].
Definition BUS_PRIORITIES : list string := ["low"; "normal"; "high"; "critical"].
Definition BUS_TO_EVENT : list (string * string) :=
  [("low", "NORMAL"); ("normal", "NORMAL"); ("high", "HIGH"); ("critical", "HIGH")].
Definition EVENT_TO_BUS : list (string * string) := [("NORMAL", "normal"); ("HIGH", "high")].

Definition to_event_priority (value : val) : result string :=
  let candidate := str_strip (py_str value) in
  if str_in candidate EVENT_PRIORITIES then Ok candidate
  else match dget BUS_TO_EVENT (str_lower candidate) with
       | None => Raise ProtocolValidationError
       | Some mapped => Ok mapped
       end.

Definition to_bus_priority (value : val) : result string :=
  let candidate := str_strip (py_str value) in
  if str_in candidate BUS_PRIORITIES then Ok candidate
  else match dget EVENT_TO_BUS (str_upper candidate) with
       | None => Raise ProtocolValidationError
       | Some mapped => Ok mapped
       end.

Definition ALLOWED_PROTOCOLS : list string := ["alpha"; "beta"; "delta"; "sigma"; "omega"; "rho"].
Definition PRIORITY_LEVELS : list string := ["low"; "normal"; "high"; "critical"].

(** ** Agent ids and recipients *)

(** [AGENT_ID_PATTERN.fullmatch(value.strip())]: [^AGENT-\d{2}-[A-Z0-9-]+$]. *)
Definition _is_valid_agent_id (value : string) : bool :=
  match chars (str_strip value) with
  | "A"%char :: "G"%char :: "E"%char :: "N"%char :: "T"%char :: "-"%char :: d1 :: d2 :: "-"%char :: rest =>
      is_digit d1 && is_digit d2 && negb (match rest with [] => true | _ => false end) &&
      forallb (fun a => is_upper a || is_digit a || Ascii.eqb a "-") rest
  | _ => false
  end.

(** [sorted(set(l))] *)
Fixpoint insert_sorted (s : string) (l : list string) : list string :=
  match l with
  | [] => [s]
  | x :: l' => if String.eqb s x then l
               else if String.leb s x then s :: l
               else x :: insert_sorted s l'
  end.

Definition sorted_set (l : list string) : list string := foldr insert_sorted [] l.

Definition recipient_ok (recipient : string) : bool :=
  String.eqb (str_lower recipient) "broadcast" || _is_valid_agent_id recipient.

Definition _normalized_recipients (max_recipients : Z) (value : val) : result (list string) :=
  match value with
  | VStr s =>
      let recipient := str_strip s in
      if String.eqb recipient "" then Raise (HTTPException 422)
      else if negb (recipient_ok recipient) then Raise (HTTPException 422)
      else Ok [recipient]
  | VList l =>
      let recipients := omap (fun item => match item with
                                          | VStr s => if String.eqb (str_strip s) "" then None else Some (str_strip s)
                                          | _ => None
                                          end) l in
      match recipients with
      | [] => Raise (HTTPException 422)
      | _ =>
          if max_recipients <? Z.of_nat (length recipients) then Raise (HTTPException 422)
          else if existsb (fun r => negb (recipient_ok r)) recipients then Raise (HTTPException 422)
          else Ok (sorted_set recipients)
      end
  | _ => Raise (HTTPException 422)
  end.

Definition channel_of (protocol recipient : string) : string :=
  if String.eqb (str_lower recipient) "broadcast" then "protocol:" +:+ protocol +:+ ":broadcast"
  else "protocol:" +:+ protocol +:+ ":" +:+ recipient.

Definition _resolve_channels (protocol : string) (recipients : list string) : list string :=
  sorted_set (channel_of protocol <$> recipients).

(** ** Requests *)

Record SendMessageRequest := mkSend {
  sm_schema_version : string;
  sm_protocol : string;
  sm_sender : string;
  sm_recipient : val;
  sm_correlation_id : option string;
  sm_priority : string;
  sm_payload : dict;
  sm_traceparent : option string;
  sm_tracestate : option string;
}.

Definition len_between (a b : Z) (s : string) : bool :=
  let n := Z.of_nat (String.length s) in (a <=? n) && (n <=? b).

(** A field of type [str | None] with default [None]. *)
Definition opt_str (d : dict) (k : string) : option (option string) :=
  match dget d k with
  | None | Some VNone => Some None
  | Some (VStr s) => Some (Some s)
  | Some _ => None
  end.

(** [SendMessageRequest.model_validate(body)], strict and without extra fields. *)
Definition parse_send_request (body : val) : option SendMessageRequest :=
  match body with
  | VDict d =>
      if negb (forallb (fun k => str_in k ["schema_version"; "protocol"; "sender"; "recipient"; "correlation_id";
                                           "priority"; "payload"; "traceparent"; "tracestate"]) (dkeys d))
      then None
      else
        version ← as_str (dget_or d "schema_version" (VStr "v1"));
        protocol ← as_str (dget0 d "protocol");
        sender ← as_str (dget0 d "sender");
        correlation_id ← opt_str d "correlation_id";
        priority ← as_str (dget_or d "priority" (VStr "normal"));
        payload ← as_dict (dget_or d "payload" (VDict []));
        traceparent ← opt_str d "traceparent";
        tracestate ← opt_str d "tracestate";
        let recipient := dget0 d "recipient" in
        let recipient_typed := match recipient with
                               | VStr _ => true
                               | VList l => forallb (fun x => match x with VStr _ => true | _ => false end) l
                               | _ => false
                               end in
        if len_between 1 32 version && str_in protocol ALLOWED_PROTOCOLS && len_between 1 120 sender &&
           recipient_typed && match correlation_id with Some c => len_between 0 120 c | None => true end &&
           str_in priority PRIORITY_LEVELS
        then Some (mkSend version protocol sender recipient correlation_id priority payload traceparent tracestate)
        else None
  | _ => None
  end.

(** ** Payload models

    The type of a field, with its bounds, and the default of an optional one. *)
Inductive field_type :=
| FStr (lo hi : Z)
| FLit (values : list string)
| FDict
| FStrs
| FDicts
| FOptDict
| FScore
| FNat.

Record field := mkField { f_name : string; f_type : field_type; f_default : option val }.

Definition field_ok (t : field_type) (v : val) : bool :=
  match t, v with
  | FStr lo hi, VStr s => len_between lo hi s
  | FLit values, VStr s => str_in s values
  | FDict, VDict _ => true
  | FStrs, VList l => forallb (fun x => match x with VStr _ => true | _ => false end) l
  | FDicts, VList l => forallb is_dict l
  | FOptDict, VDict _ | FOptDict, VNone => true
  | FScore, VInt z => (0 <=? z) && (z <=? 1)
  | FNat, VInt z => 0 <=? z
  | _, _ => false
  end.

Definition AlphaPayload : list field :=
  [mkField "schema_version" (FStr 1 32) None; mkField "priority" (FLit PRIORITY_LEVELS) None;
   mkField "target_pod" (FStr 1 64) None; mkField "directive_type" (FStr 1 120) None;
   mkField "directive" FDict (Some (VDict [])); mkField "global_style_directives" FStrs (Some (VList []));
   mkField "risk_assessment" FOptDict (Some VNone)].

Definition BetaPayload : list field :=
  [mkField "schema_version" (FStr 1 32) None; mkField "logicnode_id" (FStr 1 120) None;
   mkField "confidence_score" FScore None; mkField "source_language" (FStr 1 64) None;
   mkField "payload" FDict (Some (VDict []))].

Definition DeltaPayload : list field :=
  [mkField "schema_version" (FStr 1 32) None; mkField "audit_result" (FLit ["pass"; "fail"; "warning"]) None;
   mkField "verification_method" (FStr 1 120) None; mkField "tolerance_score" FScore None;
   mkField "findings" FDict (Some (VDict []))].

Definition SigmaPayload : list field :=
  [mkField "schema_version" (FStr 1 32) None; mkField "knowledge_type" (FStr 1 120) None;
   mkField "embedding_ref" (FStr 1 255) None; mkField "relevance_scope" (FStr 1 120) None;
   mkField "content" FDict (Some (VDict []))].

Definition OmegaPayload : list field :=
  [mkField "schema_version" (FStr 1 32) None; mkField "feature_contract" FDict (Some (VDict []));
   mkField "visual_blueprint" FDict (Some (VDict [])); mkField "user_intent" (FStr 1 2000) None;
   mkField "attachments" FDicts (Some (VList [])); mkField "global_style_directives" FStrs (Some (VList []))].

Definition RhoPayload : list field :=
  [mkField "schema_version" (FStr 1 32) None; mkField "token_budget" FNat None;
   mkField "rate_limit_action" (FStr 1 120) None; mkField "agent_target" (FStr 1 120) None;
   mkField "metadata" FDict (Some (VDict []))].

Definition validator_map : list (string * list field) :=
  [("alpha", AlphaPayload); ("beta", BetaPayload); ("delta", DeltaPayload);
   ("sigma", SigmaPayload); ("omega", OmegaPayload); ("rho", RhoPayload)].

(** [model_validate(payload).model_dump(mode="json")]: extra fields are refused,
    defaults filled in, and the fields come out in the order of the class. *)
Fixpoint dump_fields (spec : list field) (payload : dict) : option dict :=
  match spec with
  | [] => Some []
  | f :: spec' =>
      v ← match dget payload (f_name f) with
          | Some v => if field_ok (f_type f) v then Some v else None
          | None => f_default f
          end;
      rest ← dump_fields spec' payload;
      Some ((f_name f, v) :: rest)
  end.

(** [_validate_protocol_payload]; pydantic's [ValidationError] is a [ValueError]. *)
Definition _validate_protocol_payload (protocol : string) (payload : dict) : result dict :=
  match dget validator_map protocol with
  | None => Raise ValueError
  | Some spec =>
      if negb (forallb (fun k => str_in k (f_name <$> spec)) (dkeys payload)) then Raise ValueError
      else match dump_fields spec payload with
           | Some d => Ok d
           | None => Raise ValueError
           end
  end.

Record Headers := mkHeaders {
  x_agent_id : option string;
  x_api_key : option string;
  x_agent_signature : option string;
}.

Record Config := mkConfig {
  MAX_STREAM_LEN : Z;
  MAX_MESSAGE_BYTES : Z;
  MCP_API_KEY : string;
  MAX_RECIPIENTS : Z;
  AGENT_HMAC_SIGNING_ENABLED : bool;
  AGENT_HMAC_MAX_AGE_SECONDS : Z;
  BACKPRESSURE_QUEUE_LIMIT : Z;
  MESSAGE_DEDUP_TTL_SECONDS : Z;
  environ : list (string * string);
}.

Record Response := mkResponse {
  rs_message_id : string;
  rs_channels : list string;
  rs_deduplicated : bool;
}.

(** ** Channel lists *)

Definition str_lt (a b : string) : Prop := String.le a b /\ a <> b.

Lemma insert_sorted_elem x s l : x ∈ insert_sorted s l <-> x = s \/ x ∈ l.
Proof.
  induction l as [|y l IH]; simpl; [set_solver|].
  destruct (String.eqb_spec s y) as [->|Hne]; [set_solver|].
  destruct (String.leb s y); [set_solver|]. rewrite !elem_of_cons, IH. tauto.
Qed.

Lemma insert_sorted_sorted s l : StronglySorted str_lt l -> StronglySorted str_lt (insert_sorted s l).
Proof.
  induction 1 as [|y l Hl IH Hy]; simpl; [by repeat constructor|].
  destruct (String.eqb_spec s y) as [->|Hne]; [by constructor|].
  destruct (String.leb s y) eqn:E.
  - constructor; [by constructor|]. assert (String.le s y) as Hsy by (by apply Is_true_true).
    constructor; [by split|]. eapply Forall_impl; [exact Hy|]. intros z [Hyz Hyz']. split.
    + by transitivity y.
    + intros ->. apply Hne. by apply (anti_symm String.le).
  - constructor; [exact IH|]. apply Forall_forall. intros z [->|Hz]%insert_sorted_elem.
    + destruct (String.leb_total s y) as [?|Hle]; [congruence|]. split; [by apply Is_true_true|congruence].
    + by eapply Forall_forall in Hy.
Qed.

Lemma sorted_set_sorted l : StronglySorted str_lt (sorted_set l).
Proof. induction l as [|x l IH]; [constructor|]. by apply insert_sorted_sorted. Qed.

Lemma sorted_set_elem x l : x ∈ sorted_set l <-> x ∈ l.
Proof. induction l as [|y l IH]; [done|]. cbn. rewrite insert_sorted_elem, elem_of_cons. fold (sorted_set l). tauto. Qed.

Lemma sorted_set_NoDup l : NoDup (sorted_set l).
Proof.
  induction (sorted_set_sorted l) as [|x k Hk IH Hx]; constructor; [|done].
  intros Hin. eapply Forall_forall in Hx; [|exact Hin]. by destruct Hx.
Qed.

Section bus.
Context {R : Type} `{RedisLaws R} (cfg : Config)
        (hmac_hex : string -> string -> string) (canonical_json : dict -> string)
        (json_dumps : val -> string) (exn_text : exn -> string).

(** ** Replay and deduplication *)

Definition REPLAY_KEY_PREFIX := "replay:".

Definition check_replay (correlation_id : string) (ttl_seconds : Z) : St R unit :=
  fresh ← set_nx (REPLAY_KEY_PREFIX +:+ correlation_id) "1" ttl_seconds;
  if fresh : bool then mret tt else raise ReplayDetectedError.

(** The guard around it: 409 for a replay, 503 when the check itself fails. *)
Definition replay_guard (correlation_id : string) : St R unit :=
  on_error (check_replay correlation_id (MESSAGE_DEDUP_TTL_SECONDS cfg))
    (fun e => match e with
              | ReplayDetectedError => raise (HTTPException 409)
              | _ => raise (HTTPException 503)
              end).

(** [not await redis_client.set(dedup_key, ..)], 503 when it fails. *)
Definition dedup_guard (correlation_id : string) : St R bool :=
  on_error (fresh ← set_nx ("mcp:dedup:" +:+ correlation_id) "1" (MESSAGE_DEDUP_TTL_SECONDS cfg);
            mret (negb fresh))
    (fun _ => raise (HTTPException 503)).

(** ** Backpressure *)

Fixpoint queue_depths (channels : list string) : St R (list Z) :=
  match channels with
  | [] => mret []
  | c :: rest => n ← xlen c; ns ← queue_depths rest; mret (n :: ns)
  end.

Definition backpressure_guard (channels : list string) : St R unit :=
  depths ← on_error (queue_depths channels) (fun _ => raise (HTTPException 503));
  if existsb (fun n => BACKPRESSURE_QUEUE_LIMIT cfg <? n) depths then raise (HTTPException 503) else mret tt.

(** ** Publishing *)

Fixpoint publish (channels : list string) (entry : fields) : St R unit :=
  match channels with
  | [] => mret tt
  | c :: rest => _ ← xadd c entry (MAX_STREAM_LEN cfg); publish rest entry
  end.

Definition _write_dlq (protocol : string) (payload : val) (error ts : string) : St R unit :=
  xadd ("dlq:" +:+ protocol) [("error", error); ("payload", json_dumps payload); ("ts", ts)] (MAX_STREAM_LEN cfg).

(** The envelope as published; the id and time stamp are drawn for this request. *)
Definition message_envelope (msg_uuid ts correlation_id : string) (req : SendMessageRequest)
    (recipients : list string) (payload : dict) (traceparent tracestate : option string) : dict :=
  let opt o := match o with Some s => VStr s | None => VNone end in
  [("message_id", VStr ("msg-" +:+ msg_uuid)); ("schema_version", VStr (sm_schema_version req));
   ("protocol", VStr (sm_protocol req)); ("sender", VStr (sm_sender req));
   ("recipient", match recipients with [r] => VStr r | _ => VList (VStr <$> recipients) end);
   ("correlation_id", VStr correlation_id); ("priority", VStr (sm_priority req)); ("timestamp", VStr ts);
   ("payload", VDict payload); ("traceparent", opt traceparent); ("tracestate", opt tracestate)].

(** ** [POST /send] *)

(** The checks on who sends: id, key, identity and, when enabled, signature. *)
Definition authenticate (now_us : Z) (h : Headers) (req : SendMessageRequest) : result unit :=
  if negb (_is_valid_agent_id (sm_sender req)) then Raise (HTTPException 422)
  else if negb (String.eqb (MCP_API_KEY cfg) "") &&
          negb (String.eqb (str_strip (default "" (x_api_key h))) (MCP_API_KEY cfg)) then Raise (HTTPException 403)
  else if negb (String.eqb (str_strip (default "" (x_agent_id h))) (sm_sender req)) then Raise (HTTPException 403)
  else if AGENT_HMAC_SIGNING_ENABLED cfg then
    match x_agent_signature h with
    | None | Some EmptyString => Raise (HTTPException 401)
    | Some sig =>
        match _agent_hmac_secret (environ cfg) (sm_sender req) with
        | None => Raise (HTTPException 401)
        | Some secret =>
            if negb (verify_agent_message hmac_hex canonical_json now_us (sm_sender req) secret (sm_payload req)
                       (VStr sig) (AGENT_HMAC_MAX_AGE_SECONDS cfg) 5)
            then Raise (HTTPException 401) else Ok tt
        end
    end
  else Ok tt.

(** From the raw request to the checked one: size, JSON, schema, sender. *)
Definition read_request (now_us : Z) (h : Headers) (body_length : Z) (body : option val)
    : result (val * SendMessageRequest) :=
  if MAX_MESSAGE_BYTES cfg <? body_length then Raise (HTTPException 413)
  else match body with
       | None => Raise (HTTPException 400)
       | Some v =>
           match parse_send_request v with
           | None => Raise (HTTPException 422)
           | Some req => _ ← authenticate now_us h req; Ok (v, req)
           end
       end.

(** [payload.correlation_id or f"corr-{uuid}"] *)
Definition correlation_id_of (corr_uuid : string) (req : SendMessageRequest) : string :=
  str_or (default "" (sm_correlation_id req)) ("corr-" +:+ corr_uuid).

(** A request that passed every check made before Redis is asked. *)
Record Checked := mkChecked {
  ck_raw : val;
  ck_req : SendMessageRequest;
  ck_recipients : list string;
  ck_channels : list string;
  ck_payload : dict;
}.

Definition checked_request (now_us : Z) (h : Headers) (body_length : Z) (body : option val) : result Checked :=
  '(raw, req) ← read_request now_us h body_length body;
  recipients ← _normalized_recipients (MAX_RECIPIENTS cfg) (sm_recipient req);
  let channels := _resolve_channels (sm_protocol req) recipients in
  payload ← match _validate_protocol_payload (sm_protocol req) (sm_payload req) with
            | Ok p => Ok p
            | Raise ValueError => Raise (HTTPException 422)
            | Raise e => Raise e
            end;
  Ok (mkChecked raw req recipients channels payload).

(** Publication; when it fails the raw request goes to the dead-letter stream. *)
Definition publish_or_dlq (ck : Checked) (ts : string) (f : fields) : St R unit :=
  on_error (publish (ck_channels ck) f)
    (fun e => _ ← _write_dlq (sm_protocol (ck_req ck)) (ck_raw ck) (exn_text e) ts; raise (HTTPException 503)).

(** The part that talks to Redis: replay, deduplication, backpressure, publication. *)
Definition enqueue (correlation_id message_id ts : string) (ck : Checked) (entry : fields) : St R Response :=
  _ ← replay_guard correlation_id;
  already_seen ← dedup_guard correlation_id;
  if already_seen : bool then mret (mkResponse message_id (ck_channels ck) true)
  else
    _ ← backpressure_guard (ck_channels ck);
    _ ← publish_or_dlq ck ts entry;
    mret (mkResponse message_id (ck_channels ck) false).

(** The entry added to each stream. *)
Definition stream_entry (msg_uuid ts correlation_id : string) (trace_headers : option string * option string)
    (ck : Checked) : fields :=
  let or_header o hd := match o with Some s => if String.eqb s "" then hd else o | None => hd end in
  let req := ck_req ck in
  let envelope := message_envelope msg_uuid ts correlation_id req (ck_recipients ck) (ck_payload ck)
                    (or_header (sm_traceparent req) trace_headers.1) (or_header (sm_tracestate req) trace_headers.2) in
  [("envelope", json_dumps (VDict envelope)); ("payload", json_dumps (VDict (ck_payload ck)));
   ("sender", sm_sender req)].

(** The inputs of one request: the HTTP request itself, the clock and the two fresh
    UUIDs, and whether the server has a Redis connection. *)
Record Call := mkCall {
  now_us : Z;
  ts : string;
  msg_uuid : string;
  corr_uuid : string;
  redis_ready : bool;
  headers : Headers;
  trace_headers : option string * option string;
  body_length : Z;
  body : option val;
}.

Definition check_call (c : Call) : result Checked := checked_request (now_us c) (headers c) (body_length c) (body c).

Definition call_id (c : Call) (ck : Checked) : string := correlation_id_of (corr_uuid c) (ck_req ck).

Definition call_entry (c : Call) (ck : Checked) : fields :=
  stream_entry (msg_uuid c) (ts c) (call_id c ck) (trace_headers c) ck.

Definition send_message (c : Call) : St R Response :=
  ck ← lift (check_call c);
  if negb (redis_ready c) then raise (HTTPException 503)
  else enqueue (call_id c ck) ("msg-" +:+ msg_uuid c) (ts c) ck (call_entry c ck).

(** Requests served one after the other, each with its answer. *)
Fixpoint serve (calls : list Call) (r : R) : list (Call * result Response) * R :=
  match calls with
  | [] => ([], r)
  | c :: rest =>
      let '(answer, r1) := send_message c r in
      let '(answers, r2) := serve rest r1 in
      ((c, answer) :: answers, r2)
  end.

(** ** [GET /dlq] *)

(** [l[a:b]] with Python's treatment of negative bounds. *)
Definition py_slice {A} (l : list A) (a b : Z) : list A :=
  let n := Z.of_nat (length l) in
  let clamp x := Z.to_nat (Z.min n (if x <? 0 then Z.max 0 (x + n) else x)) in
  take (clamp b - clamp a)%nat (drop (clamp a) l).

Definition list_dlq (redis_ready : bool) (protocol : string) (limit offset : Z) : St R (list (string * fields)) :=
  if negb (str_in protocol ALLOWED_PROTOCOLS) then raise (HTTPException 422)
  else if negb redis_ready then raise (HTTPException 503)
  else
    entries ← xrevrange ("dlq:" +:+ protocol) (Z.to_nat (Z.min (Z.max limit 1) 200));
    mret (py_slice entries offset (offset + limit)).

(** ** What each step does to Redis

    The keys [replay_key] and [dedup_key] of a correlation id. *)

Definition replay_key (cid : string) : string := REPLAY_KEY_PREFIX +:+ cid.
Definition dedup_key (cid : string) : string := "mcp:dedup:" +:+ cid.

(** Two stores with the same streams. *)
Definition same_streams (r r' : R) : Prop := forall c, entries c r' = entries c r.

(** No key is lost. *)
Definition keys_kept (r r' : R) : Prop := forall k, live k r = true -> live k r' = true.

#[global] Instance keys_kept_preorder : PreOrder keys_kept.
Proof. split; [by intros r k|]. intros r1 r2 r3 H12 H23 k Hk. auto. Qed.

#[global] Instance same_streams_preorder : PreOrder same_streams.
Proof. split; [by intros r c|]. intros r1 r2 r3 H12 H23 c. by rewrite H23, H12. Qed.

Lemma set_nx_streams k v ttl r : same_streams r (set_nx k v ttl r).2.
Proof.
  intros c. destruct (set_nx k v ttl r) as [[b|e] r'] eqn:E; cbn.
  - by apply set_nx_spec in E as (_ & _ & ->).
  - by apply (set_nx_error _ _ _ _ _ _ c) in E.
Qed.

Lemma set_nx_keys k v ttl r : keys_kept r (set_nx k v ttl r).2.
Proof. intros k' Hk'. by apply set_nx_keeps. Qed.

Lemma replay_guard_state cid r :
  (replay_guard cid r).2 = (set_nx (replay_key cid) "1" (MESSAGE_DEDUP_TTL_SECONDS cfg) r).2.
Proof.
  unfold replay_guard, on_error, check_replay, mbind, St_bind. fold (replay_key cid).
  by destruct (set_nx _ _ _ r) as [[[|]|[]] r'].
Qed.

(** The outcome of the guard is that of the [SET NX]. *)
Lemma replay_guard_outcome cid r :
  (replay_guard cid r).1 = match (set_nx (replay_key cid) "1" (MESSAGE_DEDUP_TTL_SECONDS cfg) r).1 with
                           | Ok true => Ok tt
                           | Ok false => Raise (HTTPException 409)
                           | Raise ReplayDetectedError => Raise (HTTPException 409)
                           | Raise _ => Raise (HTTPException 503)
                           end.
Proof.
  unfold replay_guard, on_error, check_replay, mbind, St_bind. fold (replay_key cid).
  destruct (set_nx _ _ _ r) as [[[|]|e] r']; try done. by destruct e.
Qed.

Lemma replay_guard_ok cid r r' :
  replay_guard cid r = (Ok tt, r') ->
  live (replay_key cid) r = false /\ live (replay_key cid) r' = true /\ keys_kept r r' /\ same_streams r r' /\
  (forall k, k <> replay_key cid -> live k r' = live k r).
Proof.
  intros E. pose proof (replay_guard_outcome cid r) as Ho. pose proof (replay_guard_state cid r) as Hs.
  rewrite E in Ho, Hs. cbn in Ho, Hs. subst r'.
  destruct (set_nx _ _ _ r) as [[[|]|e] r1] eqn:Es; [|done|by destruct e].
  pose proof (set_nx_spec _ _ _ _ _ _ Es) as (Hb & Hl & Hst). cbn. split_and!.
  - by destruct (live _ r).
  - done.
  - pose proof (set_nx_keys (replay_key cid) "1" (MESSAGE_DEDUP_TTL_SECONDS cfg) r) as Hk. by rewrite Es in Hk.
  - done.
  - intros k Hk. pose proof (set_nx_other (replay_key cid) "1" (MESSAGE_DEDUP_TTL_SECONDS cfg) r k) as Ho'.
    rewrite Es in Ho'. by apply Ho'.
Qed.

Lemma replay_guard_effect cid r : keys_kept r (replay_guard cid r).2 /\ same_streams r (replay_guard cid r).2.
Proof. rewrite replay_guard_state. split; [apply set_nx_keys|apply set_nx_streams]. Qed.

(** A correlation id seen before is refused, and nothing is added to a stream. *)
Lemma replay_guard_seen cid r :
  live (replay_key cid) r = true -> exists e, (replay_guard cid r).1 = Raise e.
Proof.
  intros Hl. destruct (replay_guard cid r) as [[[]|e] r'] eqn:E; [|by eauto].
  apply replay_guard_ok in E as (? & _). congruence.
Qed.

Lemma dedup_guard_state cid r :
  (dedup_guard cid r).2 = (set_nx (dedup_key cid) "1" (MESSAGE_DEDUP_TTL_SECONDS cfg) r).2.
Proof.
  unfold dedup_guard, on_error, mbind, St_bind. fold (dedup_key cid).
  by destruct (set_nx _ _ _ r) as [b r'] eqn:E; destruct b as [b|e].
Qed.

Lemma dedup_guard_effect cid r : keys_kept r (dedup_guard cid r).2 /\ same_streams r (dedup_guard cid r).2.
Proof. rewrite dedup_guard_state. split; [apply set_nx_keys|apply set_nx_streams]. Qed.

Lemma dedup_guard_fresh cid r :
  live (dedup_key cid) r = false -> (dedup_guard cid r).1 <> Ok true.
Proof.
  intros Hl. unfold dedup_guard, on_error, mbind, St_bind. fold (dedup_key cid).
  destruct (set_nx _ _ _ r) as [[b|e] r'] eqn:E; [|done]. cbn.
  apply set_nx_spec in E as (-> & _). by rewrite Hl.
Qed.

Lemma dedup_guard_other cid r k :
  k <> dedup_key cid -> live k (dedup_guard cid r).2 = live k r.
Proof. intros Hk. rewrite dedup_guard_state. by apply set_nx_other. Qed.

Lemma queue_depths_spec cs r :
  (queue_depths cs r).2 = r /\
  (forall ns, (queue_depths cs r).1 = Ok ns -> ns = (fun c => Z.of_nat (length (entries c r))) <$> cs).
Proof.
  induction cs as [|c cs [IHs IHn]]; [split; [done|by intros ns [= <-]]|].
  cbn [queue_depths]. unfold mbind, St_bind. destruct (xlen_spec c r) as [Hs Hn].
  destruct (xlen c r) as [[n|e] r1]; cbn in Hs, Hn; subst r1; [|done].
  destruct (queue_depths cs r) as [[ns|e] r2]; cbn in IHs, IHn; subst r2; [|done].
  split; [done|]. intros ns' [= <-]. cbn. by rewrite (Hn n eq_refl), (IHn ns eq_refl).
Qed.

Definition over_limit (c : string) (r : R) : bool :=
  BACKPRESSURE_QUEUE_LIMIT cfg <? Z.of_nat (length (entries c r)).

Lemma backpressure_guard_spec cs r :
  (backpressure_guard cs r).2 = r /\
  (backpressure_guard cs r).1 = (if existsb (fun c => over_limit c r) cs then Raise (HTTPException 503) else Ok tt) \/
  (exists e, (queue_depths cs r).1 = Raise e) /\ backpressure_guard cs r = (Raise (HTTPException 503), r).
Proof.
  unfold backpressure_guard, on_error, mbind, St_bind. destruct (queue_depths_spec cs r) as [Hs Hn].
  destruct (queue_depths cs r) as [[ns|e] r2]; cbn in Hs, Hn; subst r2; [|right; split; [by eexists|done]].
  left. rewrite (Hn ns eq_refl).
  assert (existsb (fun n => BACKPRESSURE_QUEUE_LIMIT cfg <? n) ((fun c => Z.of_nat (length (entries c r))) <$> cs)
          = existsb (fun c => over_limit c r) cs) as ->.
  { clear. induction cs as [|c cs IH]; [done|]. cbn. by rewrite IH. }
  by destruct (existsb _ cs).
Qed.

Lemma publish_live cs f r k : live k (publish cs f r).2 = live k r.
Proof.
  revert r. induction cs as [|c cs IH]; intros r; [done|]. cbn [publish]. unfold mbind, St_bind.
  pose proof (xadd_keeps c f (MAX_STREAM_LEN cfg) r k) as Hk.
  destruct (xadd c f _ r) as [[[]|e] r1]; cbn in *; [by rewrite IH|done].
Qed.

(** A publication that succeeds adds the entry at the end of every channel, once, and
    leaves the other streams alone; [dropped] is what the length bound trims. *)
Lemma publish_spec cs f r r' :
  NoDup cs -> publish cs f r = (Ok tt, r') ->
  (forall c, c ∈ cs -> exists dropped, dropped ++ entries c r' = entries c r ++ [f]) /\
  (forall c, c ∉ cs -> entries c r' = entries c r).
Proof.
  intros Hnd. revert r. induction Hnd as [|c cs Hc Hnd IH]; intros r E; cbn [publish] in E.
  - injection E as <-. split; [|done]. intros c Hc. by apply not_elem_of_nil in Hc.
  - apply St_bind_Ok in E as ([] & r1 & E1 & E2). destruct (IH r1 E2) as [IHin IHout].
    pose proof (xadd_spec _ _ _ _ _ E1) as Hadd.
    assert (forall c', c <> c' -> entries c' r1 = entries c' r) as Hoth.
    { intros c' Hne. pose proof (xadd_other c f (MAX_STREAM_LEN cfg) r c' Hne) as Ho. by rewrite E1 in Ho. }
    split.
    + intros c' [->|Hc']%elem_of_cons; [by rewrite IHout|].
      assert (c <> c') as Hne by (intros ->; done). rewrite <- (Hoth c' Hne). by apply IHin.
    + intros c' [Hne Hc']%not_elem_of_cons. rewrite IHout by done. by apply Hoth.
Qed.

Lemma publish_or_dlq_live ck ts f r k : live k (publish_or_dlq ck ts f r).2 = live k r.
Proof.
  unfold publish_or_dlq, on_error, mbind, St_bind, _write_dlq. pose proof (publish_live (ck_channels ck) f r k) as Hp.
  destruct (publish _ f r) as [[[]|e] r1]; cbn in Hp; [done|]. rewrite <- Hp.
  set (d := [_; _; _]). pose proof (xadd_keeps ("dlq:" +:+ sm_protocol (ck_req ck)) d (MAX_STREAM_LEN cfg) r1 k) as Hx.
  by destruct (xadd _ _ _ r1) as [[[]|e'] r2].
Qed.

(** [enqueue] as a whole: the correlation id it was given stays seen. *)
Lemma enqueue_keys_after cid mid ts ck f r r1 :
  replay_guard cid r = (Ok tt, r1) -> keys_kept r1 (enqueue cid mid ts ck f r).2.
Proof.
  intros E1. unfold enqueue, mbind, St_bind. rewrite E1.
  destruct (dedup_guard_effect cid r1) as [H2 _].
  destruct (dedup_guard cid r1) as [[[|]|e] r2]; cbn in *; [done| |done].
  destruct (backpressure_guard_spec (ck_channels ck) r2) as [[Hs _]|[_ Hs]];
    [destruct (backpressure_guard _ r2) as [[[]|e] r3]; cbn in Hs; subst r3|rewrite Hs]; try done.
  intros k Hk. pose proof (publish_or_dlq_live ck ts f r2 k) as Hp.
  destruct (publish_or_dlq ck ts f r2) as [[[]|e] r3]; unfold mret, St_ret; cbn in *; rewrite Hp; auto.
Qed.

Lemma enqueue_keys cid mid ts ck f r : keys_kept r (enqueue cid mid ts ck f r).2.
Proof.
  destruct (replay_guard_effect cid r) as [H1 _].
  destruct (replay_guard cid r) as [[[]|e] r1] eqn:E1; cbn in H1.
  - etrans; [exact H1|by apply enqueue_keys_after].
  - unfold enqueue, mbind, St_bind. by rewrite E1.
Qed.

Lemma enqueue_seen cid mid ts ck f r :
  live (replay_key cid) r = true ->
  (exists e, (enqueue cid mid ts ck f r).1 = Raise e) /\ same_streams r (enqueue cid mid ts ck f r).2.
Proof.
  intros Hl. unfold enqueue, mbind, St_bind. destruct (replay_guard_effect cid r) as [_ Hs].
  destruct (replay_guard_seen cid r Hl) as [e He].
  destruct (replay_guard cid r) as [x r1]. cbn in He, Hs. subst x. split; [by exists e|done].
Qed.

(** The steps of an answered request, in order. *)
Lemma enqueue_ok cid mid ts ck f r resp r' :
  enqueue cid mid ts ck f r = (Ok resp, r') ->
  exists r1 b r2, replay_guard cid r = (Ok tt, r1) /\ dedup_guard cid r1 = (Ok b, r2) /\
    rs_deduplicated resp = b /\ rs_channels resp = ck_channels ck /\ rs_message_id resp = mid /\
    (b = false -> existsb (fun c => over_limit c r2) (ck_channels ck) = false /\
                  publish (ck_channels ck) f r2 = (Ok tt, r')).
Proof.
  unfold enqueue. intros E. apply St_bind_Ok in E as ([] & r1 & E1 & E).
  apply St_bind_Ok in E as (b & r2 & E2 & E). exists r1, b, r2. split; [done|]. split; [done|].
  destruct b; [injection E as <- <-; by split_and!|].
  apply St_bind_Ok in E as ([] & r3 & E3 & E). apply St_bind_Ok in E as ([] & r4 & E4 & E).
  injection E as <- <-. split_and!; [done..|]. intros _.
  destruct (backpressure_guard_spec (ck_channels ck) r2) as [[Hs Hv]|[_ Hs]]; [|congruence].
  rewrite E3 in Hs, Hv. cbn in Hs, Hv. subst r3. split; [by destruct (existsb _ _)|].
  revert E4. unfold publish_or_dlq, on_error. destruct (publish _ f r2) as [[[]|e] r5]; [by intros [= <-]|].
  intros E4. apply St_bind_Ok in E4 as (? & ? & _ & E4). done.
Qed.

(** An answered request leaves its correlation id recorded. *)
Lemma enqueue_marks cid mid ts ck f r resp r' :
  enqueue cid mid ts ck f r = (Ok resp, r') -> live (replay_key cid) r' = true.
Proof.
  intros E. pose proof E as (r1 & b & r2 & Hg & _)%enqueue_ok.
  pose proof (enqueue_keys_after cid mid ts ck f r r1 Hg) as Hk. rewrite E in Hk. cbn in Hk.
  apply Hk. by apply replay_guard_ok in Hg as (_ & Hl & _).
Qed.

(** ** The invariant of the two guards *)

Definition guards_agree (r : R) : Prop :=
  forall cid, live (dedup_key cid) r = true -> live (replay_key cid) r = true.

Lemma dedup_key_inj a b : dedup_key a = dedup_key b -> a = b.
Proof. intros E. by apply (inj (String.append "mcp:dedup:")) in E. Qed.

Lemma dedup_guard_agree cid r :
  live (replay_key cid) r = true -> guards_agree r -> guards_agree (dedup_guard cid r).2.
Proof.
  intros Hl Hg cid' Hd. apply (proj1 (dedup_guard_effect cid r)).
  destruct (decide (cid' = cid)) as [->|Hne]; [done|].
  apply Hg. rewrite <- Hd. symmetry. apply dedup_guard_other. by intros ?%dedup_key_inj.
Qed.

Lemma replay_guard_agree cid r : guards_agree r -> guards_agree (replay_guard cid r).2.
Proof.
  intros Hg cid' Hd. apply (proj1 (replay_guard_effect cid r)), Hg. rewrite <- Hd, replay_guard_state.
  symmetry. by apply set_nx_other.
Qed.

Lemma enqueue_agree cid mid ts ck f r : guards_agree r -> guards_agree (enqueue cid mid ts ck f r).2.
Proof.
  intros Hg. unfold enqueue, mbind, St_bind. pose proof (replay_guard_agree cid r Hg) as H1.
  destruct (replay_guard cid r) as [[[]|e] r1] eqn:E1; cbn in *; [|done].
  apply replay_guard_ok in E1 as (_ & Hl & _). pose proof (dedup_guard_agree cid r1 Hl H1) as H2.
  destruct (dedup_guard cid r1) as [[[|]|e] r2]; cbn in *; [done| |done].
  destruct (backpressure_guard_spec (ck_channels ck) r2) as [[Hs _]|[_ Hs]];
    [destruct (backpressure_guard _ r2) as [[[]|e] r3]; cbn in Hs; subst r3|rewrite Hs]; try done.
  pose proof (publish_or_dlq_live ck ts f r2) as Hp.
  destruct (publish_or_dlq ck ts f r2) as [[[]|e] r3]; unfold mret, St_ret; cbn in *; intros cid'; rewrite !Hp; apply H2.
Qed.

Lemma enqueue_never_dedup cid mid ts ck f r resp r' :
  guards_agree r -> enqueue cid mid ts ck f r = (Ok resp, r') -> rs_deduplicated resp = false.
Proof.
  intros Hg (r1 & b & r2 & E1 & E2 & -> & _)%enqueue_ok. destruct b; [|done].
  apply replay_guard_ok in E1 as (Hno & _ & _ & _ & Hoth).
  destruct (live (dedup_key cid) r1) eqn:Ed.
  - rewrite Hoth in Ed by done. apply Hg in Ed. congruence.
  - pose proof (dedup_guard_fresh cid r1 Ed) as Hf. by rewrite E2 in Hf.
Qed.

(** ** Answers when Redis is up *)

(** Redis answers, as opposed to raising. *)
Definition redis_answers : Prop :=
  (forall k v ttl r, exists b, (set_nx k v ttl r).1 = Ok b) /\ (forall c r, exists n, (xlen c r).1 = Ok n).

Lemma enqueue_replayed cid mid ts ck f r :
  redis_answers -> live (replay_key cid) r = true -> (enqueue cid mid ts ck f r).1 = Raise (HTTPException 409).
Proof.
  intros [Hset _] Hl. unfold enqueue, mbind, St_bind. pose proof (replay_guard_outcome cid r) as Ho.
  destruct (Hset (replay_key cid) "1" (MESSAGE_DEDUP_TTL_SECONDS cfg) r) as [b Hb]. rewrite Hb in Ho.
  destruct (set_nx _ _ _ r) as [x r1] eqn:E in Hb. cbn in Hb. subst x. apply set_nx_spec in E as (-> & _).
  rewrite Hl in Ho. cbn in Ho. destruct (replay_guard cid r) as [y r2]. cbn in Ho. by subst y.
Qed.

Lemma replay_guard_fresh cid r :
  redis_answers -> live (replay_key cid) r = false -> (replay_guard cid r).1 = Ok tt.
Proof.
  intros [Hset _] Hl. pose proof (replay_guard_outcome cid r) as Ho.
  destruct (Hset (replay_key cid) "1" (MESSAGE_DEDUP_TTL_SECONDS cfg) r) as [b Hb]. rewrite Hb in Ho.
  destruct (set_nx _ _ _ r) as [x r1] eqn:E in Hb. cbn in Hb. subst x. apply set_nx_spec in E as (-> & _).
  by rewrite Hl in Ho.
Qed.

Lemma dedup_guard_answer cid r :
  redis_answers -> live (dedup_key cid) r = false -> (dedup_guard cid r).1 = Ok false.
Proof.
  intros [Hset _] Hl. unfold dedup_guard, on_error, mbind, St_bind. fold (dedup_key cid).
  destruct (Hset (dedup_key cid) "1" (MESSAGE_DEDUP_TTL_SECONDS cfg) r) as [b Hb].
  destruct (set_nx _ _ _ r) as [x r1] eqn:E. cbn in Hb. subst x. apply set_nx_spec in E as (-> & _). by rewrite Hl.
Qed.

Lemma queue_depths_answer cs r : redis_answers -> exists ns, (queue_depths cs r).1 = Ok ns.
Proof.
  intros [_ Hlen]. revert r. induction cs as [|c cs IH]; intros r; [by eexists|]. cbn [queue_depths].
  unfold mbind, St_bind. destruct (Hlen c r) as [n Hn]. destruct (xlen c r) as [x r1]. cbn in Hn. subst x.
  destruct (IH r1) as [ns Hns]. destruct (queue_depths cs r1) as [y r2]. cbn in Hns. subst y. by eexists.
Qed.

(** A full target stream: the request is turned away after its id was recorded. *)
Lemma enqueue_backpressure cid mid ts ck f r ch :
  redis_answers -> live (replay_key cid) r = false -> guards_agree r ->
  ch ∈ ck_channels ck -> BACKPRESSURE_QUEUE_LIMIT cfg < Z.of_nat (length (entries ch r)) ->
  live (replay_key cid) (enqueue cid mid ts ck f r).2 = true /\
  (enqueue cid mid ts ck f r).1 = Raise (HTTPException 503) /\ same_streams r (enqueue cid mid ts ck f r).2.
Proof.
  intros Hr Hl Hg Hin Hfull. pose proof (replay_guard_fresh cid r Hr Hl) as H1.
  destruct (replay_guard cid r) as [x r1] eqn:E1. cbn in H1. subst x.
  pose proof (replay_guard_ok _ _ _ E1) as (_ & Hl1 & _ & Hs1 & Ho1).
  assert (live (dedup_key cid) r1 = false) as Hd.
  { rewrite Ho1 by done. apply not_true_is_false. intros Hx%Hg. congruence. }
  pose proof (dedup_guard_answer cid r1 Hr Hd) as H2. pose proof (dedup_guard_effect cid r1) as [Hk2 Hs2].
  unfold enqueue, mbind, St_bind. rewrite E1. destruct (dedup_guard cid r1) as [y r2]. cbn in H2, Hk2, Hs2. subst y.
  assert (backpressure_guard (ck_channels ck) r2 = (Raise (HTTPException 503), r2)) as ->.
  { destruct (backpressure_guard_spec (ck_channels ck) r2) as [[Hs Hv]|[_ Hs]]; [|done].
    rewrite (surjective_pairing (backpressure_guard _ r2)), Hs, Hv.
    assert (existsb (fun c => over_limit c r2) (ck_channels ck) = true) as ->; [|done].
    apply existsb_exists. exists ch. split; [by apply list_elem_of_In|]. unfold over_limit. rewrite Hs2, Hs1. lia. }
  cbn. split_and!; [by apply Hk2|done|]. by etrans.
Qed.

(** ** Sending *)

Lemma check_call_ok c ck :
  check_call c = Ok ck ->
  read_request (now_us c) (headers c) (body_length c) (body c) = Ok (ck_raw ck, ck_req ck) /\
  _normalized_recipients (MAX_RECIPIENTS cfg) (sm_recipient (ck_req ck)) = Ok (ck_recipients ck) /\
  ck_channels ck = _resolve_channels (sm_protocol (ck_req ck)) (ck_recipients ck) /\
  _validate_protocol_payload (sm_protocol (ck_req ck)) (sm_payload (ck_req ck)) = Ok (ck_payload ck).
Proof.
  unfold check_call, checked_request. intros E.
  apply result_bind_Ok in E as ([raw req] & E1 & E). apply result_bind_Ok in E as (rs & E2 & E).
  apply result_bind_Ok in E as (p & E3 & E). injection E as <-. cbn.
  split_and!; [done..|]. by destruct (_validate_protocol_payload _ _) as [p'|[]]; simplify_eq.
Qed.

(** What [read_request] requires of the request and of its sender. *)
Lemma read_request_ok now_us h n b raw req :
  read_request now_us h n b = Ok (raw, req) ->
  n <= MAX_MESSAGE_BYTES cfg /\ b = Some raw /\ parse_send_request raw = Some req /\
  _is_valid_agent_id (sm_sender req) = true /\
  str_strip (default "" (x_agent_id h)) = sm_sender req /\
  (MCP_API_KEY cfg = "" \/ str_strip (default "" (x_api_key h)) = MCP_API_KEY cfg) /\
  (AGENT_HMAC_SIGNING_ENABLED cfg = true -> exists sig secret,
     x_agent_signature h = Some sig /\ _agent_hmac_secret (environ cfg) (sm_sender req) = Some secret /\
     verify_agent_message hmac_hex canonical_json now_us (sm_sender req) secret (sm_payload req)
       (VStr sig) (AGENT_HMAC_MAX_AGE_SECONDS cfg) 5 = true).
Proof.
  unfold read_request. destruct (Z.ltb_spec (MAX_MESSAGE_BYTES cfg) n); [done|].
  destruct b as [v|]; [|done]. destruct (parse_send_request v) as [req'|] eqn:Ep; [|done].
  intros E. apply result_bind_Ok in E as ([] & Ea & E). injection E as -> ->. revert Ea. unfold authenticate.
  destruct (_is_valid_agent_id (sm_sender req)); [cbn [negb]|done].
  destruct (String.eqb_spec (MCP_API_KEY cfg) "") as [Hk|Hk], (String.eqb_spec (str_strip (default "" (x_api_key h))) (MCP_API_KEY cfg)) as [Hk'|Hk'];
    cbn [negb andb]; try done;
    (destruct (String.eqb_spec (str_strip (default "" (x_agent_id h))) (sm_sender req)); [cbn [negb]|done]);
    (intros Ea; split_and!; [lia|done..|by auto|]; intros Hs; rewrite Hs in Ea);
    (destruct (x_agent_signature h) as [[|a s]|]; [done| |done]);
    (destruct (_agent_hmac_secret _ _) as [secret|]; [|done]);
    (exists (String a s), secret; split_and!; [done..|]; by destruct (verify_agent_message _ _ _ _ _ _ _ _ _)).
Qed.

(** C13: A message is published only after every check: body within the size limit, parsed
    request, a well-formed sender that matches the identity header, the API key, the
    signature when signing is on, valid recipients and payload, a correlation id not seen
    in the window, and no target stream above the backpressure limit.  It is then added,
    once, at the end of exactly the resolved channels; other streams do not change, and
    the correlation id is recorded. *)
Theorem send_publishes_only_checked (c : Call) (r r' : R) (resp : Response)
    (Hsend : send_message c r = (Ok resp, r')) (Hnew : rs_deduplicated resp = false) :
  exists ck, check_call c = Ok ck /\ rs_channels resp = ck_channels ck /\
    body_length c <= MAX_MESSAGE_BYTES cfg /\
    _is_valid_agent_id (sm_sender (ck_req ck)) = true /\
    str_strip (default "" (x_agent_id (headers c))) = sm_sender (ck_req ck) /\
    (MCP_API_KEY cfg = "" \/ str_strip (default "" (x_api_key (headers c))) = MCP_API_KEY cfg) /\
    (AGENT_HMAC_SIGNING_ENABLED cfg = true -> exists sig secret,
       x_agent_signature (headers c) = Some sig /\
       _agent_hmac_secret (environ cfg) (sm_sender (ck_req ck)) = Some secret /\
       verify_agent_message hmac_hex canonical_json (now_us c) (sm_sender (ck_req ck)) secret
         (sm_payload (ck_req ck)) (VStr sig) (AGENT_HMAC_MAX_AGE_SECONDS cfg) 5 = true) /\
    _normalized_recipients (MAX_RECIPIENTS cfg) (sm_recipient (ck_req ck)) = Ok (ck_recipients ck) /\
    _validate_protocol_payload (sm_protocol (ck_req ck)) (sm_payload (ck_req ck)) = Ok (ck_payload ck) /\
    live (replay_key (call_id c ck)) r = false /\ live (replay_key (call_id c ck)) r' = true /\
    (forall ch, ch ∈ _resolve_channels (sm_protocol (ck_req ck)) (ck_recipients ck) ->
       Z.of_nat (length (entries ch r)) <= BACKPRESSURE_QUEUE_LIMIT cfg /\
       exists dropped, dropped ++ entries ch r' = entries ch r ++ [call_entry c ck]) /\
    (forall ch, ch ∉ _resolve_channels (sm_protocol (ck_req ck)) (ck_recipients ck) -> entries ch r' = entries ch r).
Proof.
  unfold send_message in Hsend. apply St_bind_Ok in Hsend as (ck & r0 & E1 & E). unfold lift in E1.
  injection E1 as Hck <-. destruct (redis_ready c); [cbn [negb] in E|done]. exists ck. split; [done|].
  pose proof (check_call_ok _ _ Hck) as (Hrd & Hrec & Hch & Hpay). pose proof (read_request_ok _ _ _ _ _ _ Hrd) as Hok.
  pose proof (enqueue_keys (call_id c ck) ("msg-" +:+ msg_uuid c) (ts c) ck (call_entry c ck)) as Hkeys.
  pose proof E as (r1 & b & r2 & Hg & Hd & Hb & Hrs & _ & Hpub)%enqueue_ok.
  rewrite Hnew in Hb. subst b. destruct (Hpub eq_refl) as [Hbp Hp].
  apply replay_guard_ok in Hg as (Hl & Hl1 & _ & Hs1 & _).
  pose proof (dedup_guard_effect (call_id c ck) r1) as [Hk2 Hs2]. rewrite Hd in Hk2, Hs2. cbn in Hk2, Hs2.
  assert (forall ch, entries ch r2 = entries ch r) as Hs by (intros ch; by rewrite Hs2, Hs1).
  pose proof (publish_live (ck_channels ck) (call_entry c ck) r2 (replay_key (call_id c ck))) as Hl2. rewrite Hp in Hl2.
  apply publish_spec in Hp as [Hin Hout]; [|rewrite Hch; apply sorted_set_NoDup].
  rewrite <- Hch. destruct Hok as (? & _ & _ & ? & ? & ? & ?). split_and!; try done.
  - cbn in Hl2. rewrite Hl2. by apply Hk2.
  - intros ch Hc. rewrite <- Hs. split; [|by apply Hin].
    assert (over_limit ch r2 = false) as Ho; [|unfold over_limit in Ho; lia].
    apply not_true_is_false. intros Ho. assert (existsb (fun c => over_limit c r2) (ck_channels ck) = true) as Hx; [|congruence].
    apply existsb_exists. exists ch. split; [by apply list_elem_of_In|done].
  - intros ch Hc. by rewrite Hout, Hs.
Qed.

Lemma send_keys c r : keys_kept r (send_message c r).2.
Proof.
  unfold send_message, mbind, St_bind, lift. destruct (check_call c) as [ck|e]; [|done].
  destruct (redis_ready c); [|done]. apply enqueue_keys.
Qed.

Lemma send_agree c r : guards_agree r -> guards_agree (send_message c r).2.
Proof.
  intros Hg. unfold send_message, mbind, St_bind, lift. destruct (check_call c) as [ck|e]; [|done].
  destruct (redis_ready c); [|done]. by apply enqueue_agree.
Qed.

(** An answered request passed the checks and went through [enqueue]. *)
Lemma send_ok c r resp r' :
  send_message c r = (Ok resp, r') ->
  exists ck, check_call c = Ok ck /\
    enqueue (call_id c ck) ("msg-" +:+ msg_uuid c) (ts c) ck (call_entry c ck) r = (Ok resp, r').
Proof.
  unfold send_message. intros E. apply St_bind_Ok in E as (ck & r0 & E1 & E). injection E1 as Hck <-.
  exists ck. split; [done|]. by destruct (redis_ready c).
Qed.

(** An exchange that published under correlation id [cid]. *)
Definition publishes (cid : string) (x : Call * result Response) : bool :=
  match check_call x.1, x.2 with
  | Ok ck, Ok resp => negb (rs_deduplicated resp) && String.eqb (call_id x.1 ck) cid
  | _, _ => false
  end.

Lemma seen_never_publishes cid calls r :
  live (replay_key cid) r = true -> List.filter (publishes cid) (serve calls r).1 = [].
Proof.
  revert r. induction calls as [|c calls IH]; intros r Hl; [done|]. cbn [serve].
  pose proof (send_keys c r _ Hl) as Hl1. destruct (send_message c r) as [a r1] eqn:E. cbn in Hl1.
  pose proof (IH r1 Hl1) as IH'. destruct (serve calls r1) as [xs r2]. cbn in IH' |- *.
  replace (publishes cid (c, a)) with false; [done|]. unfold publishes. cbn.
  destruct (check_call c) as [ck|] eqn:Eck; [|done]. destruct a as [resp|]; [|done].
  apply send_ok in E as (ck' & Eck' & E). rewrite Eck in Eck'. injection Eck' as <-.
  destruct (String.eqb_spec (call_id c ck) cid) as [<-|]; [|by rewrite andb_false_r].
  destruct (proj1 (enqueue_seen _ ("msg-" +:+ msg_uuid c) (ts c) ck (call_entry c ck) r Hl)) as [e He].
  by rewrite E in He.
Qed.


(** A request turned away by backpressure is told to retry later (503), but its
    correlation id is already recorded: with Redis answering throughout, every later
    request in the window with that id is refused as a replay (409), even once the
    streams have drained, although the message was never queued.  Neither request
    changes a stream. *)
Lemma backpressure_burns_correlation_id (c c' : Call) (ck ck' : Checked) (r r2 : R) (ch : string)
    (Hredis : redis_answers) (Hfresh : live (replay_key (call_id c ck)) r = false) (Hagree : guards_agree r)
    (Hck : check_call c = Ok ck) (Hready : redis_ready c = true)
    (Hch : ch ∈ ck_channels ck) (Hfull : BACKPRESSURE_QUEUE_LIMIT cfg < Z.of_nat (length (entries ch r)))
    (Hlater : keys_kept (send_message c r).2 r2)
    (Hck' : check_call c' = Ok ck') (Hready' : redis_ready c' = true) (Hid : call_id c' ck' = call_id c ck) :
  (send_message c r).1 = Raise (HTTPException 503) /\ same_streams r (send_message c r).2 /\
  (send_message c' r2).1 = Raise (HTTPException 409) /\ same_streams r2 (send_message c' r2).2.
Proof.
  assert (live (replay_key (call_id c ck)) (send_message c r).2 = true /\
          (send_message c r).1 = Raise (HTTPException 503) /\ same_streams r (send_message c r).2) as (Hl & H1 & H2).
  { unfold send_message, mbind, St_bind, lift. rewrite Hck, Hready. cbn [negb].
    by apply (enqueue_backpressure _ _ _ _ _ _ ch). }
  split_and!; [done..| |]; unfold send_message, mbind, St_bind, lift; rewrite Hck', Hready', Hid; cbn [negb].
  - apply enqueue_replayed; auto.
  - apply enqueue_seen; auto.
Qed.
End bus.

(** ** The dead-letter listing *)

Lemma py_slice_nonneg {A} (l : list A) a b :
  0 <= a -> a <= b -> py_slice l a b = take (Z.to_nat b - Z.to_nat a) (drop (Z.to_nat a) l).
Proof.
  intros Ha Hb. unfold py_slice. rewrite (proj2 (Z.ltb_ge a 0)), (proj2 (Z.ltb_ge b 0)) by lia.
  destruct (Z.le_gt_cases (Z.of_nat (length l)) a) as [Hn|Hn].
  - rewrite !Z.min_l, Nat2Z.id by lia. rewrite !drop_ge by lia. by rewrite !take_nil.
  - rewrite (Z.min_r _ a) by lia. destruct (Z.le_gt_cases (Z.of_nat (length l)) b).
    + rewrite Z.min_l, Nat2Z.id by lia. rewrite !take_ge by (rewrite length_drop; lia). done.
    + by rewrite Z.min_r by lia.
Qed.

(** The dead-letter listing reads the newest [limit] entries and only then skips
    [offset] of them, so a page holds what is left of that window: the first page is the
    newest [limit] entries, and every page at an offset of [limit] or more is empty
    however many dead letters there are. *)
Lemma dlq_pages_within_window {R : Type} `{RedisLaws R} (protocol : string) (limit offset : Z) (r r' : R)
    (l : list (string * fields))
    (Hlimit : 1 <= limit <= 200) (Hoffset : 0 <= offset)
    (Hlist : list_dlq true protocol limit offset r = (Ok l, r')) :
  r' = r /\ protocol ∈ ALLOWED_PROTOCOLS /\
  l.*2 = drop (Z.to_nat offset) (take (Z.to_nat limit) (rev (entries ("dlq:" +:+ protocol) r))) /\
  (limit <= offset -> l = []).
Proof.
  unfold list_dlq in Hlist. destruct (str_in protocol ALLOWED_PROTOCOLS) eqn:Ep; [|done]. cbn [negb] in Hlist.
  apply St_bind_Ok in Hlist as (es & r1 & E & Hl). injection Hl as <- <-. apply xrevrange_spec in E as [-> He].
  rewrite (Z.max_l limit 1), (Z.min_l limit 200) in He by lia.
  assert (length es <= Z.to_nat limit)%nat as Hn.
  { rewrite <- (length_fmap snd es), He, length_take. lia. }
  rewrite py_slice_nonneg by lia.
  rewrite take_ge by (rewrite length_drop; lia).
  split_and!; [done|by apply str_in_spec|by rewrite fmap_drop, He|]. intros. by apply drop_ge; lia.
Qed.

(** The two priority vocabularies: both maps accept exactly the words of either
    vocabulary (up to case and surrounding blanks), fix their own words, and a trip to
    the bus and back is the identity on event priorities. *)
Lemma priorities_reconciled (s : string) :
  (forall p, to_event_priority (VStr s) = Ok p -> p ∈ EVENT_PRIORITIES) /\
  (forall p, to_bus_priority (VStr s) = Ok p -> p ∈ BUS_PRIORITIES) /\
  (s ∈ EVENT_PRIORITIES -> to_event_priority (VStr s) = Ok s /\
     exists p, to_bus_priority (VStr s) = Ok p /\ to_event_priority (VStr p) = Ok s) /\
  (s ∈ BUS_PRIORITIES -> to_bus_priority (VStr s) = Ok s /\ exists p, to_event_priority (VStr s) = Ok p).
Proof.
  split_and!.
  - unfold to_event_priority. intros p. destruct (str_in _ EVENT_PRIORITIES) eqn:E.
    + intros [= <-]. by apply str_in_spec.
    + unfold BUS_TO_EVENT, EVENT_PRIORITIES. cbn [dget]. repeat case_match; intros; simplify_eq; set_solver.
  - unfold to_bus_priority. intros p. destruct (str_in _ BUS_PRIORITIES) eqn:E.
    + intros [= <-]. by apply str_in_spec.
    + unfold EVENT_TO_BUS, BUS_PRIORITIES. cbn [dget]. repeat case_match; intros; simplify_eq; set_solver.
  - unfold EVENT_PRIORITIES. rewrite !elem_of_cons. intros [->|[->|?%not_elem_of_nil]]; [..|done];
      (split; [by_compute|eexists; split; by_compute]).
  - unfold BUS_PRIORITIES. rewrite !elem_of_cons. intros [->|[->|[->|[->|?%not_elem_of_nil]]]]; [..|done];
      (split; [by_compute|eexists; by_compute]).
Qed.

(** ** Concrete requests *)

Definition demo_cfg : Config := mkConfig 20000 1048576 "key" 32 true 60 2 300
  [("AGENT_HMAC_SECRET_31_PYTHON", "secret")].

Definition demo_payload : dict :=
  [("schema_version", VStr "v1"); ("token_budget", VInt 10); ("rate_limit_action", VStr "slow");
   ("agent_target", VStr "AGENT-02-X"); ("metadata", VDict [])].

Definition demo_body (cid : string) : val :=
  VDict [("protocol", VStr "rho"); ("sender", VStr "AGENT-31-PYTHON"); ("correlation_id", VStr cid);
         ("recipient", VList [VStr "broadcast"; VStr "AGENT-02-X"; VStr "broadcast"]); ("payload", VDict demo_payload)].

Definition demo_json (d : dict) : string := "json".
Definition demo_dumps (v : val) : string := "text".
Definition demo_exn (e : exn) : string := "error".

Definition demo_headers : Headers :=
  mkHeaders (Some "AGENT-31-PYTHON") (Some "key") (Some ("1000000:" +:+ demo_hmac "" "")).

Definition demo_call (cid : string) : Call :=
  mkCall 1000000000000 "2026-01-01T00:00:00+00:00" "u1" "u2" true demo_headers (None, None) 300 (Some (demo_body cid)).

Definition demo_send := send_message (R:=mem) demo_cfg demo_hmac demo_json demo_dumps demo_exn.

Definition empty_mem : mem := mkMem ∅ ∅.

Example demo_send_ok :
  let '(answer, r) := demo_send (demo_call "c1") empty_mem in
  answer = Ok (mkResponse "msg-u1" ["protocol:rho:AGENT-02-X"; "protocol:rho:broadcast"] false) /\
  length (mem_entries "protocol:rho:broadcast" r) = 1%nat.
Proof. vm_compute. by split. Qed.

Example demo_replay :
  (serve demo_cfg demo_hmac demo_json demo_dumps demo_exn [demo_call "c1"; demo_call "c1"; demo_call "c2"] empty_mem).1.*2
  = [Ok (mkResponse "msg-u1" ["protocol:rho:AGENT-02-X"; "protocol:rho:broadcast"] false); Raise (HTTPException 409);
     Ok (mkResponse "msg-u1" ["protocol:rho:AGENT-02-X"; "protocol:rho:broadcast"] false)].
Proof. by_compute. Qed.

Lemma empty_guards_agree : guards_agree empty_mem.
Proof. intros cid Hd. vm_compute in Hd. discriminate. Qed.

Lemma mem_answers : redis_answers (R:=mem).
Proof. split; intros; eexists; reflexivity. Qed.

Lemma send_publishes_only_checked_witness :
  exists ck, check_call demo_cfg demo_hmac demo_json (demo_call "c1") = Ok ck /\
    dmem (ck_payload ck) "token_budget" = true.
Proof.
  destruct (demo_send (demo_call "c1") empty_mem) as [[resp|e] r'] eqn:E; [|vm_compute in E; discriminate].
  assert (rs_deduplicated resp = false) as Hn by (vm_compute in E; by injection E as <- <-).
  destruct (send_publishes_only_checked demo_cfg demo_hmac demo_json demo_dumps demo_exn (demo_call "c1")
              empty_mem r' resp E Hn) as (ck & Hck & _).
  exists ck. split; [exact Hck|]. vm_compute in Hck. injection Hck as <-. reflexivity.
Defined.

Definition drained (r : mem) : mem := mkMem (mem_keys r) ∅.

Definition flooded : mem := mkMem ∅ {["protocol:rho:broadcast" := [[]; []; []]]}.

Lemma backpressure_burns_correlation_id_witness :
  (demo_send (demo_call "c1") flooded).1 = Raise (HTTPException 503) /\
  (demo_send (demo_call "c1") (drained (demo_send (demo_call "c1") flooded).2)).1 = Raise (HTTPException 409).
Proof.
  destruct (check_call demo_cfg demo_hmac demo_json (demo_call "c1")) as [ck|e] eqn:E; [|vm_compute in E; discriminate].
  assert ("protocol:rho:broadcast" ∈ ck_channels ck) as Hch.
  { vm_compute in E. injection E as <-. cbn. set_solver. }
  destruct (backpressure_burns_correlation_id demo_cfg demo_hmac demo_json demo_dumps demo_exn
              (demo_call "c1") (demo_call "c1") ck ck flooded (drained (demo_send (demo_call "c1") flooded).2)
              "protocol:rho:broadcast" mem_answers) as (H1 & _ & H2 & _); try done.
  intros k Hk. exact Hk.
Defined.

Lemma dlq_pages_within_window_witness :
  let r := mkMem ∅ {["dlq:rho" := [[("error", "1")]; [("error", "2")]; [("error", "3")]]]} in
  exists first second, list_dlq true "rho" 2 0 r = (Ok first, r) /\ list_dlq true "rho" 2 2 r = (Ok second, r) /\
    first.*2 = [[("error", "3")]; [("error", "2")]] /\ second = [].
Proof.
  intros r.
  destruct (list_dlq true "rho" 2 0 r) as [[l1|e] r1] eqn:E1; [|vm_compute in E1; discriminate].
  destruct (list_dlq true "rho" 2 2 r) as [[l2|e] r2] eqn:E2; [|vm_compute in E2; discriminate].
  destruct (dlq_pages_within_window "rho" 2 0 r r1 l1) as (-> & _ & H1 & _); [lia|lia|done|].
  destruct (dlq_pages_within_window "rho" 2 2 r r2 l2) as (-> & _ & _ & H2); [lia|lia|done|].
  exists l1, l2. split_and!; [done|done|by rewrite H1|by apply H2].
Defined.
