(* ===== verification/Consumers.v ===== *)
(** * Consumers

    The two Redis consumers of the orchestrator: the lanes of the Protocol Bus,
    [protocol_bus_consumer.py] (decoding, dispatch, the consumer-group loop), and
    the intake of missions, [runtime.consume_intake_stream], with the envelope
    parsing of [protocol.py].  Both are loops of rounds over a consumer group, the
    interface [Groups] of Streams.v; a round is one pass of the loop body.  Entries
    arrive as text.  [json.loads], the JSON Schema check, the time-stamp parser and
    the text of an exception are parameters; Redis does not fail, the database may. *)

From S2P Require Import Prelude PyVal MissionTypes MissionStates ProjectIdentity Store Engines Streams Bus.

(** ** The Protocol Bus lanes *)

Definition PROTOCOLS : list string := ["alpha"; "beta"; "delta"; "sigma"; "omega"; "rho"].

Record Message := mkMessage {
  msg_envelope : val;
  msg_payload : val;
  msg_sender : string;
  msg_channel : string;
  msg_entry_id : string;
}.

Section lanes.
Context (json_loads : string -> result val).

(** [_decode_entry]: [None] for an envelope that is not JSON. *)
Definition _decode_entry (channel entry_id : string) (fs : fields) : option Message :=
  let payload_of := fun raw => match raw with
                               | Some s => if String.eqb s "" then VDict []
                                           else match json_loads s with Ok v => v | Raise _ => VDict [] end
                               | None => VDict []
                               end in
  let message := fun envelope =>
    mkMessage envelope (payload_of (dget fs "payload")) (default "" (dget fs "sender")) channel entry_id in
  match dget fs "envelope" with
  | Some s =>
      if String.eqb s "" then Some (message (VDict []))
      else match json_loads s with
           | Ok v => Some (message v)
           | Raise _ => None
           end
  | None => Some (message (VDict []))
  end.

Context {G H : Type} `{Groups G} (handler : Message -> St H unit).

(** [_dispatch]: whether the entry is settled.  [message["envelope"].get] raises
    when the envelope is JSON but not an object, outside the [try]. *)
Definition _dispatch (protocol channel entry_id : string) (fs : fields) : St H bool :=
  match _decode_entry channel entry_id fs with
  | None => mret true
  | Some message =>
      match msg_envelope message with
      | VDict envelope =>
          if negb (String.eqb (py_str (dget_or envelope "protocol" (VStr ""))) protocol) then mret true
          else try_except (_ ← handler message; mret true) false
      | _ => raise AttributeError
      end
  end.

(** Lift an action on the handler's state, or on the group, to the pair of both. *)
Definition on_handler {A} (m : St H A) : St (G * H) A := fun gh => let '(a, h') := m gh.2 in (a, (gh.1, h')).

Definition _ack_entry (channel entry_id : string) : St (G * H) unit := fun gh =>
  (Ok tt, (ack channel entry_id gh.1, gh.2)).

Fixpoint lane_entries (protocol channel : string) (es : list entry) : St (G * H) unit :=
  match es with
  | [] => mret tt
  | (entry_id, fs) :: rest =>
      handled ← on_handler (_dispatch protocol channel entry_id fs);
      _ ← (if handled : bool then _ack_entry channel entry_id else mret tt);
      lane_entries protocol channel rest
  end.

Fixpoint lane_records (protocol : string) (records : list (string * list entry)) : St (G * H) unit :=
  match records with
  | [] => mret tt
  | (channel, es) :: rest => _ ← lane_entries protocol channel es; lane_records protocol rest
  end.

Definition lane_channels (protocol agent_id : string) : list string :=
  ["protocol:" +:+ protocol +:+ ":" +:+ agent_id; "protocol:" +:+ protocol +:+ ":broadcast"].

(** One pass of [_consume_lane_grouped]: [if not records] tests the list of records. *)
Definition lane_round (count : nat) (protocol : string) (channels : list string) : St (G * H) unit := fun gh =>
  match read_history channels count gh.1 with
  | [] => let '(records, g') := read_new channels count gh.1 in lane_records protocol records (g', gh.2)
  | records => lane_records protocol records gh
  end.

(** [n] passes; an exception ends the lane. *)
Fixpoint lane_rounds (n count : nat) (protocol : string) (channels : list string) : St (G * H) unit :=
  match n with
  | O => mret tt
  | S n' => _ ← lane_round count protocol channels; lane_rounds n' count protocol channels
  end.
End lanes.

(** ** Mission intake *)

(** What the intake loop reads of the settings. *)
Record IntakeSettings := mkIntakeSettings {
  intake_stream : string;
  intake_topic : string;
  default_priority : string;
  auto_transition_enabled : bool;
}.

Section intake.
Context (settings : IntakeSettings) (topics : list string)
        (json_loads : string -> result val) (json_dumps : val -> string)
        (schema_valid : val -> bool) (iso_timestamp : string -> bool)
        (parse_datetime : val -> option string) (exn_text : exn -> string).

(** [shared_runtime.protocol.validate_envelope]; the schema makes it an object. *)
Definition validate_envelope (envelope : val) : result unit :=
  if negb (schema_valid envelope) then Raise ProtocolValidationError
  else match envelope with
       | VDict d =>
           if dmem d "timestamp" && negb (iso_timestamp (py_str (dget0 d "timestamp"))) then Raise ProtocolValidationError
           else match dget0 d "topic" with
                | VStr topic => if str_in topic topics then Ok tt else Raise ProtocolValidationError
                | _ => Raise ProtocolValidationError
                end
       | _ => Raise TypeError
       end.

(** [raw_fields.get(k)] when it is truthy. *)
Definition raw_field (fs : fields) (k : string) : option string :=
  match dget fs k with
  | Some s => if String.eqb s "" then None else Some s
  | None => None
  end.

Definition trace_fields (fs : fields) : dict :=
  match raw_field fs "traceparent" with Some s => [("traceparent", VStr s)] | None => [] end ++
  match raw_field fs "tracestate" with Some s => [("tracestate", VStr s)] | None => [] end.

(** The envelope of an entry that carries none. *)
Definition default_envelope (now event_uuid : string) (fs : fields) (payload : dict) : result val :=
  let mission_id := py_str (dget_or payload "mission_id" (VStr "")) in
  if String.eqb mission_id "" then Raise ProtocolValidationError
  else
    priority ← to_event_priority (VStr (default (default_priority settings) (raw_field fs "priority")));
    Ok (VDict ([("event_id", VStr ("evt-" +:+ event_uuid)); ("topic", VStr (intake_topic settings));
                ("timestamp", VStr (py_str (py_or (dget0 payload "created_at") (VStr now))));
                ("producer", VStr (default "api-gateway" (dget fs "producer")));
                ("correlation_id", VStr mission_id);
                ("payload_ref", VStr (default ("registry://missions/" +:+ mission_id +:+ "/intake") (dget fs "payload_ref")));
                ("schema", VStr (default "missions.intake.v1" (dget fs "schema")));
                ("priority", VStr priority)] ++ trace_fields fs)).

(** [payload.get] raises when the payload is not an object. *)
Definition parse_intake_envelope (now event_uuid : string) (fs : fields) (payload : val) : result val :=
  envelope ← match raw_field fs "envelope" with
             | Some raw => json_loads raw
             | None => match payload with
                       | VDict d => default_envelope now event_uuid fs d
                       | _ => Raise AttributeError
                       end
             end;
  _ ← validate_envelope envelope;
  Ok envelope.

(** [MissionRecord(..)] as the intake builds it; a wrong type is a [ValidationError]. *)
Definition intake_record (now : string) (mission_id prompt : val) (payload metadata : dict) : result MissionRecord :=
  match mission_id, prompt, dget0 payload "requested_target_language",
        parse_datetime (py_or (dget0 payload "created_at") (VStr now)) with
  | VStr id, VStr p, VNone, Some t => Ok (mkMission id p None None None None None metadata None None queued t)
  | VStr id, VStr p, VStr l, Some t => Ok (mkMission id p (Some l) None None None None metadata None None queued t)
  | _, _, _, _ => Raise ValueError
  end.

Context {G : Type} `{Groups G}.

(** What the loop works on: database, vaults, lifecycle tasks and the missions started,
    the consumer group, and the dead-letter stream. *)
Record Intake := mkIntake {
  in_db : DB;
  in_vaults : gmap string (list (string * string));
  in_tasks : Tasks * list string;
  in_group : G;
  in_dlq : list fields;
}.

Definition set_db (db : DB) (s : Intake) := mkIntake db (in_vaults s) (in_tasks s) (in_group s) (in_dlq s).
Definition set_tasks (t : Tasks * list string) (s : Intake) := mkIntake (in_db s) (in_vaults s) t (in_group s) (in_dlq s).
Definition set_group (g : G) (s : Intake) := mkIntake (in_db s) (in_vaults s) (in_tasks s) g (in_dlq s).

(** A call of the storage layer; without the database it raises. *)
Definition with_db {A} (db_up : bool) (m : M A) : St Intake A := fun s =>
  if negb db_up then (Raise OtherError, s) else let '(a, db') := m (in_db s) in (a, set_db db' s).

(** [fetch_mission] at a JSON value: the database refuses to compare a text column with
    anything but text or NULL. *)
Definition fetch_by (mission_id : val) : M (option MissionRecord) :=
  match mission_id with
  | VStr id => fetch_mission id
  | VNone => mret None
  | _ => raise OtherError
  end.

Definition start_task (mission_id : string) : St Intake unit := fun s =>
  (Ok tt, set_tasks (start_lifecycle_task (auto_transition_enabled settings) mission_id (in_tasks s)) s).

(** [store_vault]: nothing for an empty vault. *)
Definition store_vault (mission_id : val) (vault : list (string * string)) : St Intake unit := fun s =>
  match vault with
  | [] => (Ok tt, s)
  | _ => (Ok tt, mkIntake (in_db s) (<[vault_key (py_str mission_id) := vault]> (in_vaults s))
                   (in_tasks s) (in_group s) (in_dlq s))
  end.

(** [payload_json[k]] *)
Definition item (d : dict) (k : string) : result val :=
  match dget d k with Some v => Ok v | None => Raise KeyError end.

(** The body of the [try] for one entry. *)
Definition process_entry (now event_uuid : string) (db_up : bool) (entry_id : string) (fs : fields) : St Intake unit :=
  payload_json ← lift (json_loads (default "{}" (dget fs "payload")));
  _ ← lift (parse_intake_envelope now event_uuid fs payload_json);
  payload ← lift (match payload_json with VDict d => Ok d | _ => Raise AttributeError end);
  let '(intake_metadata, intake_vault) := split_vault (dict_value (dget0 payload "metadata")) in
  mission_id ← lift (item payload "mission_id");
  _ ← store_vault mission_id intake_vault;
  existing ← with_db db_up (fetch_by mission_id);
  match existing with
  | Some m => if bool_decide (ms_state m = queued) then start_task (ms_mission_id m) else mret tt
  | None =>
      prompt ← lift (item payload "prompt");
      mission ← lift (intake_record now mission_id prompt payload intake_metadata);
      _ ← with_db db_up (persist_intake_mission mission entry_id);
      start_task (ms_mission_id mission)
  end.

(** The exceptions that send an entry to the dead-letter stream. *)
Definition discarded (e : exn) : bool :=
  match e with
  | ValueError | KeyError | ProtocolValidationError | ReplayDetectedError | UnknownMissionTypeError => true
  | _ => false
  end.

Definition _write_intake_dlq (now entry_id : string) (fs : fields) (error : string) : St Intake unit := fun s =>
  (Ok tt, mkIntake (in_db s) (in_vaults s) (in_tasks s) (in_group s)
     (in_dlq s ++ [[("error", error); ("entry_id", entry_id); ("envelope", default "" (dget fs "envelope"));
                    ("payload", scrub_intake_payload_raw
                       (fun t => match json_loads t with Ok v => Some v | Raise _ => None end) json_dumps
                       (default "" (dget fs "payload")));
                    ("ts", now)]])).

Definition xack (entry_id : string) : St Intake unit := fun s =>
  (Ok tt, set_group (ack (intake_stream settings) entry_id (in_group s)) s).

(** One entry: process or dead-letter it, then acknowledge it. *)
Definition intake_entry (now event_uuid : string) (db_up : bool) (e : entry) : St Intake unit :=
  _ ← on_error (process_entry now event_uuid db_up e.1 e.2)
        (fun exc => if discarded exc then _write_intake_dlq now e.1 e.2 (exn_text exc) else raise exc);
  xack e.1.

Fixpoint intake_entries (now event_uuid : string) (db_up : bool) (es : list entry) : St Intake unit :=
  match es with
  | [] => mret tt
  | e :: rest => _ ← intake_entry now event_uuid db_up e; intake_entries now event_uuid db_up rest
  end.

(** One pass of [consume_intake_stream]: history first, new entries when there is none;
    an exception is logged and the loop goes on. *)
Definition intake_round (now event_uuid : string) (db_up : bool) (s : Intake) : Intake :=
  let cs := [intake_stream settings] in
  let history := read_history cs 20 (in_group s) in
  let '(streams, s) :=
    if existsb (fun ce : string * list entry => negb (Nat.eqb (length ce.2) 0)) history then (history, s)
    else let '(new, g') := read_new cs 20 (in_group s) in (new, set_group g' s) in
  (intake_entries now event_uuid db_up (concat streams.*2) s).2.
End intake.

(** ** Lemmas on groups *)

Section groups.
Context {G : Type} `{GroupsLaws G}.

(** Acknowledging a list of entries of one stream, one after the other. *)
Definition ack_all (c : string) (ids : list string) (g : G) : G := foldl (fun g i => ack c i g) g ids.

Lemma ack_all_pending c ids g c' :
  pending (ack_all c ids g) c' =
    if decide (c = c') then List.filter (fun e : entry => negb (str_in e.1 ids)) (pending g c') else pending g c'.
Proof.
  revert g. induction ids as [|i ids IH]; intros g; cbn [ack_all foldl].
  - case_decide; [|done]. symmetry. induction (pending g c') as [|e l IHl]; [done|]. cbn. by f_equal.
  - fold (ack_all c ids (ack c i g)). rewrite IH. destruct (ack_spec c i g c') as [-> _].
    case_decide; [|done]. induction (pending g c') as [|e l IHl]; [done|]. cbn [List.filter str_in existsb].
    rewrite negb_orb. destruct (String.eqb e.1 i); cbn [negb andb]; [done|]. cbn [List.filter].
    unfold str_in in *. by rewrite IHl.
Qed.

Lemma ack_all_unread c ids g c' : unread (ack_all c ids g) c' = unread g c'.
Proof.
  revert g. induction ids as [|i ids IH]; intros g; [done|]. cbn [ack_all foldl].
  fold (ack_all c ids (ack c i g)). rewrite IH. apply ack_spec.
Qed.

Lemma same_id (l : list entry) e e' : NoDup l.*1 -> e ∈ l -> e' ∈ l -> e.1 = e'.1 -> e = e'.
Proof.
  intros Hnd [i Hi]%list_elem_of_lookup [j Hj]%list_elem_of_lookup Heq.
  assert (i = j) as ->; [|congruence].
  eapply NoDup_lookup; [exact Hnd|rewrite list_lookup_fmap, Hi; reflexivity|].
  by rewrite list_lookup_fmap, Hj, Heq.
Qed.

(** Acknowledging the entries of a prefix selected by [p] removes just those. *)
Lemma filter_acked (p : entry -> bool) (done rest : list entry) :
  NoDup (done ++ rest).*1 ->
  List.filter (fun e : entry => negb (str_in e.1 (List.filter p done).*1)) (done ++ rest) =
    List.filter (fun e => negb (p e)) done ++ rest.
Proof.
  intros Hnd. rewrite List.filter_app. f_equal.
  - apply List.filter_ext_in. intros e He%list_elem_of_In. f_equal.
    destruct (p e) eqn:Ep.
    + apply str_in_spec, list_elem_of_fmap. exists e. split; [done|]. apply list_elem_of_In, List.filter_In.
      split; [by apply list_elem_of_In|done].
    + apply str_in_false. intros (e' & Heq & Hin)%list_elem_of_fmap. apply list_elem_of_In, List.filter_In in Hin as [Hin Hp].
      apply list_elem_of_In in Hin. assert (e = e') as ->; [|congruence].
      rewrite fmap_app in Hnd. apply NoDup_app in Hnd as (Hnd & _ & _).
      by eapply same_id.
  - assert (forall e, e ∈ rest -> str_in e.1 (List.filter p done).*1 = false) as Hno.
    { intros e He. apply str_in_false. intros (e' & Heq & Hin)%list_elem_of_fmap.
      apply list_elem_of_In, List.filter_In in Hin as [Hin _]. apply list_elem_of_In in Hin.
      rewrite fmap_app in Hnd. apply NoDup_app in Hnd as (_ & Hd & _). apply (Hd e'.1).
      - apply list_elem_of_fmap. eauto.
      - rewrite <- Heq. apply list_elem_of_fmap. eauto. }
    clear Hnd. induction rest as [|e rest IH]; [done|]. cbn [List.filter]. rewrite Hno by set_solver.
    cbn [negb]. f_equal. apply IH. intros e' He'. apply Hno. set_solver.
Qed.
End groups.

(** ** Lemmas on lanes *)

Section lane_lemmas.
Context (json_loads : string -> result val) {G H : Type} `{GroupsLaws G} (handler : Message -> St H unit).

(** The entries whose envelope is not JSON, or is an object. *)
Definition well_formed (channel : string) (e : entry) : bool :=
  match _decode_entry json_loads channel e.1 e.2 with
  | Some m => is_dict (msg_envelope m)
  | None => true
  end.

(** Whether an entry is settled when the handler's verdict is [verdict]. *)
Definition settles (verdict : Message -> bool) (protocol channel : string) (e : entry) : bool :=
  match _decode_entry json_loads channel e.1 e.2 with
  | None => true
  | Some m => negb (String.eqb (py_str (dget_or (dict_value (msg_envelope m)) "protocol" (VStr ""))) protocol) ||
              verdict m
  end.

Definition decides (verdict : Message -> bool) : Prop :=
  forall m h, match (handler m h).1 with Ok _ => verdict m = true | Raise _ => verdict m = false end.

Lemma dispatch_settles verdict protocol channel e h :
  decides verdict -> well_formed channel e = true ->
  (_dispatch json_loads handler protocol channel e.1 e.2 h).1 = Ok (settles verdict protocol channel e).
Proof.
  unfold well_formed, settles, _dispatch. intros Hv Hw. destruct (_decode_entry _ _ _ _) as [m|]; [|done].
  destruct (msg_envelope m) as [| | | | |env]; try done. rewrite dict_value_VDict.
  destruct (String.eqb _ protocol); cbn [negb orb]; [|done].
  specialize (Hv m h). unfold try_except, mbind, St_bind. destruct (handler m h) as [[[]|x] h']; cbn in *; by rewrite Hv.
Qed.

Lemma lane_entries_acks verdict protocol channel es (g : G) h :
  decides verdict -> Forall (fun e => well_formed channel e = true) es ->
  exists h', lane_entries json_loads handler protocol channel es (g, h) =
             (Ok tt, (ack_all channel (List.filter (settles verdict protocol channel) es).*1 g, h')).
Proof.
  intros Hv Hw. revert g h. induction Hw as [|[i fs] es He Hes IH]; intros g h; [by exists h|].
  cbn [lane_entries]. unfold mbind, St_bind, on_handler. cbn [fst snd].
  pose proof (dispatch_settles verdict protocol channel (i, fs) h Hv He) as Hd. cbn [fst snd] in Hd.
  destruct (_dispatch json_loads handler protocol channel i fs h) as [a h1]. cbn in Hd. subst a. cbn [List.filter].
  destruct (settles verdict protocol channel (i, fs)); cbn; apply IH.
Qed.

Definition ack_records (verdict : Message -> bool) (protocol : string) (records : list (string * list entry)) (g : G) : G :=
  foldl (fun g ce => ack_all ce.1 (List.filter (settles verdict protocol ce.1) ce.2).*1 g) g records.

Lemma lane_records_acks verdict protocol records (g : G) h :
  decides verdict -> Forall (fun ce => Forall (fun e => well_formed ce.1 e = true) ce.2) records ->
  exists h', lane_records json_loads handler protocol records (g, h) = (Ok tt, (ack_records verdict protocol records g, h')).
Proof.
  intros Hv Hw. revert g h. induction Hw as [|[c es] records Hc Hr IH]; intros g h; [by exists h|].
  cbn [lane_records]. unfold mbind, St_bind.
  destruct (lane_entries_acks verdict protocol c es g h Hv Hc) as [h1 ->]. apply IH.
Qed.

Lemma ack_records_pending verdict protocol cs (f : string -> list entry) (g : G) c :
  NoDup cs ->
  pending (ack_records verdict protocol ((fun c => (c, f c)) <$> cs) g) c =
    if decide (c ∈ cs)
    then List.filter (fun e => negb (str_in e.1 (List.filter (settles verdict protocol c) (f c)).*1)) (pending g c)
    else pending g c.
Proof.
  intros Hnd. revert g. induction Hnd as [|x cs Hx Hnd IH]; intros g.
  - rewrite decide_False; [done|apply not_elem_of_nil].
  - rewrite fmap_cons. unfold ack_records. cbn [foldl fst snd].
    fold (ack_records verdict protocol ((fun c => (c, f c)) <$> cs)
            (ack_all x (List.filter (settles verdict protocol x) (f x)).*1 g)).
    rewrite IH, !ack_all_pending.
    destruct (decide (x = c)) as [->|Hne].
    + rewrite decide_False, decide_True by (done || set_solver). done.
    + destruct (decide (c ∈ cs)); [rewrite decide_True by set_solver|rewrite decide_False by set_solver]; done.
Qed.

Lemma ack_records_unread verdict protocol records (g : G) c :
  unread (ack_records verdict protocol records g) c = unread g c.
Proof.
  revert g. induction records as [|r records IH]; intros g; [done|].
  unfold ack_records. cbn [foldl].
  fold (ack_records verdict protocol records (ack_all r.1 (List.filter (settles verdict protocol r.1) r.2).*1 g)).
  by rewrite IH, ack_all_unread.
Qed.

(** The unread entries are untouched whatever the entries and the handler do. *)
Lemma lane_entries_unread protocol channel es (gh : G * H) c :
  unread (lane_entries json_loads handler protocol channel es gh).2.1 c = unread gh.1 c.
Proof.
  revert gh. induction es as [|[i fs] es IH]; intros [g h]; [done|]. cbn [lane_entries].
  unfold mbind, St_bind, on_handler. cbn [fst snd].
  destruct (_dispatch _ _ _ _ _ _ h) as [[[|]|e] h1]; [|apply IH|done]. unfold _ack_entry. rewrite IH. apply ack_spec.
Qed.

Lemma lane_records_unread protocol records (gh : G * H) c :
  unread (lane_records json_loads handler protocol records gh).2.1 c = unread gh.1 c.
Proof.
  revert gh. induction records as [|[ch es] records IH]; intros gh; [done|]. cbn [lane_records].
  unfold mbind, St_bind. pose proof (lane_entries_unread protocol ch es gh c) as He.
  destruct (lane_entries _ _ _ _ es gh) as [[[]|e] gh1]; cbn in He; [by rewrite IH|done].
Qed.

Lemma lane_round_unread count protocol channels (gh : G * H) c :
  channels <> [] -> unread (lane_round json_loads handler count protocol channels gh).2.1 c = unread gh.1 c.
Proof.
  intros Hne. unfold lane_round. rewrite read_history_spec. destruct channels as [|x cs]; [done|]. cbn.
  apply (lane_records_unread protocol ((x, take count (pending gh.1 x)) :: ((fun c => (c, take count (pending gh.1 c))) <$> cs))).
Qed.

(** The consumer-group loop of a lane never takes a new entry: a history read answers
    every stream asked for, so the list of records is never empty and the read of new
    entries is never made.  Whatever the handler does and however many passes are made,
    the undelivered entries of every stream stay undelivered. *)
Lemma grouped_lane_never_reads_new (n count : nat) (protocol agent_id : string) (g : G) (h : H) (c : string) :
  unread (lane_rounds json_loads handler n count protocol (lane_channels protocol agent_id) (g, h)).2.1 c = unread g c.
Proof.
  generalize h. clear h. revert g. induction n as [|n IH]; intros g h; [done|]. cbn [lane_rounds]. unfold mbind, St_bind.
  pose proof (lane_round_unread count protocol (lane_channels protocol agent_id) (g, h) c) as Hr.
  destruct (lane_round _ _ _ _ _ (g, h)) as [[[]|e] [g1 h1]]; cbn in Hr; [rewrite IH|]; by apply Hr.
Qed.

(** A pass over pending entries whose envelopes are objects (or not JSON at all)
    acknowledges exactly the settled ones among the first [count] of each channel: the
    undecodable, those of another protocol, and those the handler accepts; an entry whose
    handler fails stays pending, in place.  But a first entry whose envelope is JSON and
    not an object ends the lane with an [AttributeError] before anything is done, and it
    is still pending for the next consumer. *)
Lemma lane_round_acks_settled (verdict : Message -> bool) (count : nat) (protocol agent_id : string) (g : G) (h : H)
    (Hverdict : decides verdict) (Hids : forall c, NoDup (pending g c).*1)
    (Hagent : agent_id <> "broadcast") :
  let channels := lane_channels protocol agent_id in
  ((forall c e, c ∈ channels -> e ∈ take count (pending g c) -> well_formed c e = true) ->
   exists g' h', lane_round json_loads handler count protocol channels (g, h) = (Ok tt, (g', h')) /\
     forall c, pending g' c = if decide (c ∈ channels)
                              then List.filter (fun e => negb (settles verdict protocol c e)) (take count (pending g c)) ++
                                   drop count (pending g c)
                              else pending g c) /\
  (forall c e rest, head channels = Some c -> take count (pending g c) = e :: rest -> well_formed c e = false ->
   lane_round json_loads handler count protocol channels (g, h) = (Raise AttributeError, (g, h))).
Proof.
  intros channels. assert (NoDup channels) as Hnd.
  { unfold channels, lane_channels. repeat constructor; [|set_solver].
    intros Heq%list_elem_of_singleton. apply Hagent.
    apply (inj (String.append "protocol:")), (inj (String.append protocol)), (inj (String.append ":") _ "broadcast") in Heq.
    exact Heq. }
  unfold lane_round. cbn [fst snd]. rewrite read_history_spec. split.
  - intros Hw. destruct (lane_records_acks verdict protocol ((fun c => (c, take count (pending g c))) <$> channels) g h)
      as [h' E]; [done| |].
    { apply Forall_fmap, Forall_forall. intros c Hc. apply Forall_forall. intros e He. by apply Hw. }
    exists (ack_records verdict protocol ((fun c => (c, take count (pending g c))) <$> channels) g), h'.
    split; [exact E|]. intros c. rewrite ack_records_pending by done. destruct (decide (c ∈ channels)); [|done].
    etrans; [|apply filter_acked; by rewrite take_drop]. by rewrite take_drop.
  - intros c [i fs] rest [= <-] Ht Hw. unfold channels, lane_channels. cbn [fmap list_fmap]. rewrite Ht.
    cbn [lane_records lane_entries]. unfold mbind, St_bind, on_handler, _dispatch. cbn [fst snd].
    unfold well_formed in Hw. cbn [fst snd] in Hw. destruct (_decode_entry _ _ _ _) as [m|]; [|done].
    by destruct (msg_envelope m).
Qed.
End lane_lemmas.

(** ** Lemmas on intake *)

Section intake_lemmas.
Context (settings : IntakeSettings) (topics : list string)
        (json_loads : string -> result val) (json_dumps : val -> string)
        (schema_valid : val -> bool) (iso_timestamp : string -> bool)
        (parse_datetime : val -> option string) (exn_text : exn -> string).
Context {G : Type} `{GroupsLaws G}.

Let process := process_entry settings topics json_loads schema_valid iso_timestamp parse_datetime (G:=G).
Let one_entry := intake_entry settings topics json_loads json_dumps schema_valid iso_timestamp parse_datetime exn_text (G:=G).
Let round := intake_round settings topics json_loads json_dumps schema_valid iso_timestamp parse_datetime exn_text (G:=G).
Let parse_envelope := parse_intake_envelope settings topics json_loads schema_valid iso_timestamp.

Lemma store_vault_spec id vault (s : Intake (G:=G)) :
  exists vs, store_vault id vault s = (Ok tt, mkIntake (in_db s) vs (in_tasks s) (in_group s) (in_dlq s)).
Proof. destruct vault as [|kv vault]; [exists (in_vaults s); by destruct s|by eexists]. Qed.

Lemma store_vault_again id vault (s s1 s2 : Intake (G:=G)) :
  store_vault id vault s = (Ok tt, s1) -> in_vaults s2 = in_vaults s1 -> store_vault id vault s2 = (Ok tt, s2).
Proof.
  destruct vault as [|kv vault]; cbn; intros [= <-]; [done|]. cbn. intros Hv. f_equal.
  rewrite Hv, insert_insert_eq, <- Hv. by destruct s2.
Qed.

(** What an entry can do to the database: nothing, or one insertion of a queued mission. *)
Inductive intake_db (entry_id : string) (db : DB) : DB -> Prop :=
| intake_same : intake_db entry_id db db
| intake_insert m : ms_state m = queued -> intake_db entry_id db (persist_intake_mission m entry_id db).2.

Lemma intake_record_ok now id prompt payload metadata m :
  intake_record parse_datetime now id prompt payload metadata = Ok m ->
  id = VStr (ms_mission_id m) /\ ms_state m = queued.
Proof. unfold intake_record. intros. repeat case_match; simplify_eq; done. Qed.

Lemma fetch_by_spec id (db : DB) :
  (fetch_by id db).2 = db /\
  (forall m, (fetch_by id db).1 = Ok (Some m) -> exists i row, id = VStr i /\ db_missions db !! i = Some row /\
     row_to_mission row = Ok m) /\
  ((fetch_by id db).1 = Ok None -> forall i, id = VStr i -> db_missions db !! i = None).
Proof.
  destruct id; cbn; try done. unfold fetch_mission. destruct (db_missions db !! s) as [row|] eqn:E; [|split_and!; [done|done|]; by intros _ i [= <-]].
  split; [done|]. destruct (row_to_mission row) as [m|e] eqn:Em; cbn; split; try done.
  intros m' [= <-]. by exists s, row.
Qed.

Lemma persist_present m eid db : is_Some (db_missions (persist_intake_mission m eid db).2 !! ms_mission_id m).
Proof.
  unfold persist_intake_mission. change (r_mission_id _) with (ms_mission_id m).
  destruct (db_missions db !! ms_mission_id m) as [row|] eqn:E; [by exists row|]. cbn. rewrite lookup_insert_eq. by eexists.
Qed.

Lemma item_ok d k v : item d k = Ok v -> dget d k = Some v.
Proof. unfold item. destruct (dget d k); by intros [= ->]. Qed.

(** The outcome of processing one entry. *)
Lemma process_effect now u up eid fs (s : Intake (G:=G)) :
  let s' := (process now u up eid fs s).2 in
  in_group s' = in_group s /\ in_dlq s' = in_dlq s /\
  match (process now u up eid fs s).1 with
  | Ok _ => intake_db eid (in_db s) (in_db s') /\
            exists payload id, json_loads (default "{}" (dget fs "payload")) = Ok (VDict payload) /\
              dget payload "mission_id" = Some (VStr id) /\ is_Some (db_missions (in_db s') !! id)
  | Raise _ => in_db s' = in_db s
  end.
Proof.
  unfold process, process_entry, mbind, St_bind, lift. cbn zeta.
  destruct (json_loads _) as [pj|e]; [|done]. destruct (parse_intake_envelope _ _ _ _ _ _ _ _ _) as [env|e]; [|done].
  destruct pj as [| | | | |payload]; try done. destruct (split_vault _) as [md vault].
  destruct (item payload "mission_id") as [mid|] eqn:Emid; [apply item_ok in Emid|done].
  destruct (store_vault_spec mid vault s) as [vs ->]. set (s1 := mkIntake _ vs _ _ _).
  unfold with_db. destruct up; [|done]. cbn [negb]. destruct (fetch_by_spec mid (in_db s1)) as (Hdb & Hsome & Hnone).
  destruct (fetch_by mid (in_db s1)) as [[[m|]|e] db1]; cbn in Hdb, Hsome, Hnone; subst db1; [| |done].
  - destruct (Hsome m eq_refl) as (i & row & -> & Hrow & Hm).
    case_bool_decide; cbn; (split_and!; [done..|by constructor|]); exists payload, i; (split_and!; [done..|]); by exists row.
  - destruct (item payload "prompt") as [prompt|]; [|done].
    destruct (intake_record _ _ _ _ _ _) as [m|e] eqn:Er; [|done].
    apply intake_record_ok in Er as [-> Hq]. cbn [in_db set_db s1].
    destruct (persist_intake_mission m eid (in_db s)) as [ok db2] eqn:Ep.
    assert (db2 = (persist_intake_mission m eid (in_db s)).2) as -> by (by rewrite Ep).
    destruct ok as [created|e]; [|by (unfold persist_intake_mission in Ep; case_match)].
    cbn. split_and!; [done..|by constructor|]. exists payload, (ms_mission_id m). split_and!; [done..|].
    apply persist_present.
Qed.

Lemma intake_db_keeps eid db db' :
  intake_db eid db db' ->
  (forall id row, db_missions db !! id = Some row -> db_missions db' !! id = Some row) /\
  (db_wf db -> db_wf db') /\ (no_vault db -> no_vault db').
Proof.
  intros [|m Hq]; [done|]. split_and!.
  - intros id row Hr. unfold persist_intake_mission.
    destruct (db_missions db !! r_mission_id _) eqn:E; [done|]. cbn in *. rewrite lookup_insert_ne; [done|congruence].
  - by apply db_wf_intake.
  - apply no_vault_persist.
Qed.

(** C18: One intake entry is either settled or left for redelivery, whatever it holds.
    Settled: it is acknowledged, and either its mission is stored, or the database is as
    before and the dead-letter stream has gained one record, whose payload went through
    the vault scrub.  Left: an exception of another kind (the database, say) left the
    consumer group, the dead-letter stream and the database as they were.  Stored missions
    never change, the log invariant and the absence of provider keys are preserved. *)
Theorem intake_entry_settled (now u : string) (up : bool) (e : entry) (s : Intake (G:=G)) :
  let '(answer, s') := one_entry now u up e s in
  match answer with
  | Ok _ =>
      in_group s' = ack (intake_stream settings) e.1 (in_group s) /\
      ((exists payload id, json_loads (default "{}" (dget e.2 "payload")) = Ok (VDict payload) /\
          dget payload "mission_id" = Some (VStr id) /\ is_Some (db_missions (in_db s') !! id) /\ in_dlq s' = in_dlq s) \/
       (exists error, in_db s' = in_db s /\
          in_dlq s' = in_dlq s ++ [[("error", error); ("entry_id", e.1); ("envelope", default "" (dget e.2 "envelope"));
            ("payload", scrub_intake_payload_raw (fun t => match json_loads t with Ok v => Some v | Raise _ => None end)
                          json_dumps (default "" (dget e.2 "payload"))); ("ts", now)]]))
  | Raise exc => discarded exc = false /\ in_group s' = in_group s /\ in_dlq s' = in_dlq s /\ in_db s' = in_db s
  end /\
  (forall id row, db_missions (in_db s) !! id = Some row -> db_missions (in_db s') !! id = Some row) /\
  (db_wf (in_db s) -> db_wf (in_db s')) /\ (no_vault (in_db s) -> no_vault (in_db s')).
Proof.
  unfold one_entry, intake_entry, on_error, mbind, St_bind. fold process.
  destruct (process_effect now u up e.1 e.2 s) as (Hg & Hd & Hp).
  destruct (process now u up e.1 e.2 s) as [[a|exc] s1]; cbn in Hg, Hd, Hp.
  - destruct Hp as (Hdb & payload & id & ? & ? & ?). cbn. rewrite Hg, Hd.
    split; [|by apply intake_db_keeps with e.1]. split; [done|]. left. by exists payload, id.
  - destruct (discarded exc) eqn:Ed; cbn; rewrite ?Hg, ?Hd, Hp; [|by split_and!].
    split; [|by split_and!]. split; [done|]. right. by exists (exn_text exc).
Qed.

Lemma start_task_again id (s s1 s2 : Intake (G:=G)) :
  start_task settings id s = (Ok tt, s1) -> in_tasks s2 = in_tasks s1 -> start_task settings id s2 = (Ok tt, s2).
Proof.
  unfold start_task. intros [= <-] Ht. cbn in Ht. f_equal. unfold set_tasks. rewrite Ht.
  assert (forall auto (t : Tasks * list string), start_lifecycle_task auto id (start_lifecycle_task auto id t) =
            start_lifecycle_task auto id t) as ->.
  { intros auto [t l]. unfold start_lifecycle_task. destruct auto; [|done]. cbn [negb fst].
    destruct (t !! id) as [[|]|] eqn:E; cbn [fst]; rewrite ?E, ?lookup_insert_eq; done. }
  rewrite <- Ht. by destruct s2.
Qed.

(** The second fetch of a mission the first delivery stored or found. *)
Lemma fetch_persisted m eid (db : DB) :
  ms_state m = queued -> db_missions db !! ms_mission_id m = None ->
  exists m', fetch_mission (ms_mission_id m) (persist_intake_mission m eid db).2 =
    (Ok (Some m'), (persist_intake_mission m eid db).2) /\ ms_state m' = queued /\ ms_mission_id m' = ms_mission_id m.
Proof.
  intros Hq Hno. unfold persist_intake_mission. change (r_mission_id _) with (ms_mission_id m). rewrite Hno.
  unfold fetch_mission. cbn [snd log_event set_row db_missions]. change (r_mission_id _) with (ms_mission_id m).
  rewrite lookup_insert_eq. destruct (row_to_mission_ok (_mission_upsert_params m (Some eid)) queued) as (m' & -> & Hs & Hi & _).
  { cbn. by rewrite Hq. }
  by exists m'.
Qed.

(** Redelivery is harmless: when an entry was processed and is delivered again before
    its acknowledgement (a crash in between), processing it again succeeds and changes
    nothing at all, neither the database and its event log, nor the vaults, nor the
    lifecycle tasks. *)
Lemma intake_redelivery_idempotent (now u now' u' : string) (up : bool) (eid : string) (fs : fields)
    (s s1 : Intake (G:=G))
    (Hfirst : process now u up eid fs s = (Ok tt, s1))
    (Hparse : forall payload, json_loads (default "{}" (dget fs "payload")) = Ok payload ->
                exists envelope, parse_envelope now' u' fs payload = Ok envelope) :
  process now' u' true eid fs s1 = (Ok tt, s1).
Proof.
  revert Hfirst. unfold process, process_entry, mbind, St_bind, lift.
  destruct (json_loads _) as [pj|e]; [|done]. destruct (Hparse pj eq_refl) as [env' Henv']. unfold parse_envelope in Henv'.
  rewrite Henv'. clear Henv'. destruct (parse_intake_envelope _ _ _ _ _ now u fs pj) as [env|e]; [|done].
  destruct pj as [| | | | |payload]; try done. destruct (split_vault _) as [md vault].
  destruct (item payload "mission_id") as [mid|]; [|done].
  destruct (store_vault_spec mid vault s) as [vs Ev]. rewrite Ev. set (s0 := mkIntake _ vs _ _ _) in *.
  unfold with_db. destruct up; [|done]. cbn [negb]. destruct (fetch_by_spec mid (in_db s0)) as (Hdb & Hsome & Hnone).
  destruct (fetch_by mid (in_db s0)) as [[[m|]|e] db1] eqn:Ef; cbn in Hdb, Hsome, Hnone; subst db1; [| |done].
  - intros Hf. assert (in_vaults s1 = in_vaults s0 /\ in_db s1 = in_db s0) as [Hv Hd]
      by (case_bool_decide; by injection Hf as <-).
    rewrite (store_vault_again _ _ _ _ s1 Ev Hv), Hd, Ef. cbn [set_db].
    assert (set_db (in_db s) s1 = s1) as -> by (change (in_db s) with (in_db s0); rewrite <- Hd; by destruct s1).
    case_bool_decide; [|done]. eapply start_task_again; [exact Hf|]. done.
  - destruct (item payload "prompt") as [prompt|]; [|done].
    destruct (intake_record _ now _ _ _ _) as [m|e] eqn:Er; [|done].
    apply intake_record_ok in Er as [-> Hq].
    destruct (fetch_persisted m eid (in_db s0) Hq (Hnone eq_refl _ eq_refl)) as (m' & Hfetch & Hq' & Hid').
    destruct (persist_intake_mission m eid (in_db s0)) as [ok db2] eqn:Ep.
    cbn [in_db set_db]. change (in_db s) with (in_db s0). rewrite Ep.
    destruct ok as [created|e]; [|done]. intros Hf. cbn [snd] in Hfetch.
    assert (in_vaults s1 = in_vaults s0 /\ in_db s1 = db2) as [Hv Hd] by (by injection Hf as <-).
    rewrite (store_vault_again _ _ _ _ s1 Ev Hv), Hd. cbn [fetch_by]. rewrite Hfetch. cbn [set_db].
    assert (set_db db2 s1 = s1) as -> by (rewrite <- Hd; by destruct s1).
    rewrite bool_decide_true by done. rewrite Hid'. eapply start_task_again; [exact Hf|]. done.
Qed.

(** A payload that is JSON but not an object, in an entry without an envelope. *)
Definition poison (e : entry) : bool :=
  match json_loads (default "{}" (dget e.2 "payload")) with
  | Ok (VDict _) | Raise _ => false
  | Ok _ => match raw_field e.2 "envelope" with None => true | Some _ => false end
  end.

(** The passes of the loop: the clock, the fresh ids and the database of each are given. *)
Definition rounds (l : list (string * string * bool)) (s : Intake (G:=G)) : Intake :=
  foldl (fun s r => round r.1.1 r.1.2 r.2 s) s l.

(** A pending entry whose payload is JSON but not an object blocks intake for good:
    the [AttributeError] is not among the exceptions that dead-letter an entry, the
    history read returns it first again, and no number of passes changes anything: not
    the entry itself, not the entries behind it, not the new ones. *)
Lemma poison_entry_blocks_intake (l : list (string * string * bool)) (e : entry) (rest : list entry)
    (s : Intake (G:=G))
    (Hhead : pending (in_group s) (intake_stream settings) = e :: rest) (Hpoison : poison e = true) :
  rounds l s = s.
Proof.
  induction l as [|[[now u] up] l IH]; [done|]. unfold rounds. cbn [foldl fst snd].
  fold (rounds l (round now u up s)). assert (round now u up s = s) as ->; [|exact IH].
  assert (process_entry settings topics json_loads schema_valid iso_timestamp parse_datetime now u up e.1 e.2 s =
            (Raise AttributeError, s)) as Hp.
  { unfold process_entry, mbind, St_bind, lift. unfold poison in Hpoison.
    destruct (json_loads _) as [pj|]; [|done]. unfold parse_intake_envelope.
    destruct (raw_field e.2 "envelope"); [by destruct pj|]. by destruct pj. }
  assert (one_entry now u up e s = (Raise AttributeError, s)) as He.
  { unfold one_entry, intake_entry, on_error, mbind, St_bind. by rewrite Hp. }
  unfold round, intake_round. rewrite read_history_spec. cbn [fmap list_fmap]. rewrite Hhead.
  cbn [existsb snd take length Nat.eqb negb orb].
  change (concat _) with ((e :: take 19 rest) ++ []). cbn [app intake_entries].
  unfold one_entry in He. unfold mbind, St_bind. by rewrite He.
Qed.

(** An entry that raises nothing is acknowledged, and nothing else happens to the group. *)
Lemma entry_acked now u up e (s : Intake (G:=G)) :
  (one_entry now u up e s).1 = Ok tt ->
  in_group (one_entry now u up e s).2 = ack (intake_stream settings) e.1 (in_group s).
Proof.
  unfold one_entry, intake_entry, on_error, mbind, St_bind. fold process.
  destruct (process_effect now u up e.1 e.2 s) as (Hg & _ & _).
  destruct (process now u up e.1 e.2 s) as [[a|exc] s1]; cbn in Hg; [cbn; by rewrite Hg|].
  destruct (discarded exc); cbn; [by rewrite Hg|done].
Qed.

Lemma entries_acked now u up es (s : Intake (G:=G)) :
  (forall e s', e ∈ es -> (one_entry now u up e s').1 = Ok tt) ->
  in_group (intake_entries settings topics json_loads json_dumps schema_valid iso_timestamp parse_datetime exn_text
              now u up es s).2 = ack_all (intake_stream settings) es.*1 (in_group s).
Proof.
  revert s. induction es as [|e es IH]; intros s Hok; [done|]. cbn [intake_entries]. unfold mbind, St_bind.
  pose proof (Hok e s ltac:(set_solver)) as H1. pose proof (entry_acked now u up e s H1) as H2. unfold one_entry in H1, H2.
  destruct (intake_entry _ _ _ _ _ _ _ _ now u up e s) as [a s1]. cbn in H1, H2. subst a.
  rewrite IH, H2 by (intros; apply Hok; set_solver). done.
Qed.

Lemma round_takes_new now u up (s : Intake (G:=G)) :
  let c := intake_stream settings in
  pending (in_group s) c = [] -> NoDup (unread (in_group s) c).*1 ->
  (forall e s', e ∈ unread (in_group s) c -> (one_entry now u up e s').1 = Ok tt) ->
  pending (in_group (round now u up s)) c = [] /\
  unread (in_group (round now u up s)) c = drop 20 (unread (in_group s) c).
Proof.
  intros c Hp Hnd Hok. unfold round, intake_round. rewrite read_history_spec. fold c. cbn [fmap list_fmap].
  rewrite Hp. cbn [existsb snd take length Nat.eqb negb orb].
  destruct (read_new_spec [c] 20 (in_group s)) as (Hnew & Hin & _); [apply NoDup_singleton|].
  destruct (Hin c ltac:(set_solver)) as [Hp' Hu']. rewrite Hp in Hp'. cbn [app] in Hp'.
  destruct (read_new [c] 20 (in_group s)) as [new g']. cbn [fst snd] in Hnew, Hp', Hu'.
  assert (concat new.*2 = take 20 (unread (in_group s) c)) as ->.
  { rewrite Hnew. cbn [fmap list_fmap List.filter snd]. destruct (take 20 _); [done|]. cbn. by rewrite app_nil_r. }
  rewrite entries_acked; [|intros e s' (i & Hi & _)%elem_of_take; apply Hok; by eapply list_elem_of_lookup_2].
  cbn [in_group set_group]. fold c. rewrite ack_all_pending, ack_all_unread, decide_True, Hu' by done.
  split; [|done]. rewrite Hp'. apply elem_of_nil_inv. intros x Hx.
  apply list_elem_of_In, List.filter_In in Hx as [Hx%list_elem_of_In Hno%negb_true_iff].
  apply str_in_false in Hno. apply Hno, list_elem_of_fmap. by exists x.
Qed.

(** The intake loop drains its backlog: when nothing is pending and no entry raises an
    exception other than the dead-lettered ones, [n] passes take and acknowledge up to
    [20 n] new entries, so enough passes leave neither unread nor pending entries. *)
Lemma intake_drains_backlog (l : list (string * string * bool)) (s : Intake (G:=G))
    (Hpending : pending (in_group s) (intake_stream settings) = [])
    (Hids : NoDup (unread (in_group s) (intake_stream settings)).*1)
    (Hok : forall now u up e s', e ∈ unread (in_group s) (intake_stream settings) -> (now, u, up) ∈ l ->
             (one_entry now u up e s').1 = Ok tt) :
  pending (in_group (rounds l s)) (intake_stream settings) = [] /\
  unread (in_group (rounds l s)) (intake_stream settings) =
    drop (20 * length l) (unread (in_group s) (intake_stream settings)).
Proof.
  revert s Hpending Hids Hok. induction l as [|[[now u] up] l IH]; intros s Hp Hids Hok; [done|].
  unfold rounds. cbn [foldl fst snd]. fold (rounds l (round now u up s)).
  destruct (round_takes_new now u up s Hp Hids) as [Hp' Hu'].
  { intros e s' He. apply (Hok now u up e s' He). set_solver. }
  destruct (IH (round now u up s) Hp') as [Hp'' Hu''].
  - rewrite Hu'. rewrite fmap_drop. rewrite <- (take_drop 20 (unread (in_group s) (intake_stream settings)).*1) in Hids.
    by apply NoDup_app in Hids as (_ & _ & Hd).
  - intros now' u' up' e s' He Hin. apply Hok; [|set_solver]. rewrite Hu' in He.
    rewrite <- (take_drop 20 (unread _ _)). set_solver.
  - split; [done|]. rewrite Hu'', Hu', drop_drop. f_equal. cbn [length]. lia.
Qed.
End intake_lemmas.

(** ** Concrete consumers *)

Definition demo_loads (s : string) : result val :=
  match dget [("m1", VDict [("mission_id", VStr "m1"); ("prompt", VStr "build it");
                            ("metadata", VDict [("vault", VDict [("openai", VStr "k")])])]);
              ("rho", VDict [("protocol", VStr "rho")]); ("list", VList [])] s with
  | Some v => Ok v
  | None => Raise ValueError
  end.

Lemma forallb_elem {A} (p : A -> bool) l x : x ∈ l -> forallb p l = true -> p x = true.
Proof. intros Hx%list_elem_of_In Hp. by apply (proj1 (List.forallb_forall p l)). Qed.

Definition demo_handler : Message -> St nat unit := fun m n =>
  if String.eqb (msg_sender m) "bad" then (Raise OtherError, n) else (Ok tt, S n).

Definition demo_verdict (m : Message) : bool := negb (String.eqb (msg_sender m) "bad").

Definition lane : list string := lane_channels "rho" "AGENT-01-PM".

(** A lane with three pending entries, one of which the handler refuses, and a new one. *)
Definition demo_lane : mgroup :=
  mkGroup {["protocol:rho:AGENT-01-PM" :=
             [("1-0", [("envelope", "rho"); ("sender", "a")]); ("2-0", [("envelope", "rho"); ("sender", "bad")]);
              ("3-0", [("envelope", "not json")])]]}
          {["protocol:rho:broadcast" := [("4-0", [("envelope", "rho"); ("sender", "a")])]]}.

Lemma grouped_lane_never_reads_new_witness :
  unread (lane_rounds demo_loads demo_handler 50 20 "rho" lane (demo_lane, O)).2.1 "protocol:rho:broadcast" =
    [("4-0", [("envelope", "rho"); ("sender", "a")])].
Proof. exact (grouped_lane_never_reads_new demo_loads demo_handler 50 20 "rho" "AGENT-01-PM" demo_lane O _). Defined.

Lemma lane_round_acks_settled_witness :
  exists g' h', lane_round demo_loads demo_handler 20 "rho" lane (demo_lane, O) = (Ok tt, (g', h')) /\
    (pending g' "protocol:rho:AGENT-01-PM").*1 = ["2-0"].
Proof.
  destruct (lane_round_acks_settled demo_loads demo_handler demo_verdict 20 "rho" "AGENT-01-PM" demo_lane O) as [H _].
  - intros m h. unfold demo_handler, demo_verdict. by destruct (String.eqb _ _).
  - intros c. cbn. unfold at_stream. destruct (decide (c = "protocol:rho:AGENT-01-PM")) as [->|Hne].
    + change (NoDup ["1-0"; "2-0"; "3-0"]). apply (bool_decide_unpack _). vm_compute. done.
    + unfold demo_lane. cbn [mg_pending]. rewrite lookup_singleton_ne by congruence. constructor.
  - done.
  - destruct H as (g' & h' & H1 & H2).
    + intros c e Hc He. unfold lane_channels in Hc. rewrite !elem_of_cons in Hc.
      destruct Hc as [->|[->|Hc%not_elem_of_nil]]; [| |done].
      * apply (forallb_elem (well_formed demo_loads "protocol:rho:AGENT-01-PM")) in He; [exact He|by_compute].
      * apply (forallb_elem (well_formed demo_loads "protocol:rho:broadcast")) in He; [exact He|by_compute].
    + exists g', h'. split; [exact H1|]. rewrite H2. by_compute.
Defined.

Definition demo_settings : IntakeSettings := mkIntakeSettings "missions" "mission.intake" "NORMAL" true.

Definition demo_valid (v : val) : bool := is_dict v.
Definition demo_iso (s : string) : bool := negb (String.eqb s "").
Definition demo_datetime (v : val) : option string := as_str v.

Definition demo_process := process_entry demo_settings ["mission.intake"] demo_loads demo_valid demo_iso demo_datetime (G:=mgroup).
Definition demo_rounds := rounds demo_settings ["mission.intake"] demo_loads demo_dumps demo_valid demo_iso demo_datetime demo_exn
  (G:=mgroup).

Definition intake_of (g : mgroup) : Intake := mkIntake empty_db ∅ (∅, []) g [].

Definition m1_entry : entry := ("1-0", [("payload", "m1")]).

(** A first delivery: the mission is stored without its vault, and started. *)
Example demo_intake :
  let s := demo_rounds [("now", "u", true)] (intake_of (mkGroup ∅ {["missions" := [m1_entry]]})) in
  ((fun row => dmem (r_metadata row) "vault") <$> db_missions (in_db s) !! "m1") = Some false /\
  in_vaults s !! "mission-vault:m1" = Some [("openai", "k")] /\ (in_tasks s).2 = ["m1"] /\
  pending (in_group s) "missions" = [] /\ in_dlq s = [].
Proof. vm_compute. by split_and!. Qed.

Lemma intake_redelivery_idempotent_witness :
  exists s1, demo_process "t1" "u1" true "1-0" [("payload", "m1")] (intake_of (mkGroup ∅ ∅)) = (Ok tt, s1) /\
    demo_process "t2" "u2" true "1-0" [("payload", "m1")] s1 = (Ok tt, s1).
Proof.
  destruct (demo_process "t1" "u1" true "1-0" [("payload", "m1")] (intake_of (mkGroup ∅ ∅))) as [[[]|e] s1] eqn:E;
    [|vm_compute in E; discriminate].
  exists s1. split; [done|].
  apply (intake_redelivery_idempotent demo_settings ["mission.intake"] demo_loads demo_valid demo_iso demo_datetime
           "t1" "u1" "t2" "u2" true "1-0" [("payload", "m1")] (intake_of (mkGroup ∅ ∅)) s1 E).
  intros payload Hp. vm_compute in Hp. injection Hp as <-. eexists. vm_compute. reflexivity.
Defined.

Lemma poison_entry_blocks_intake_witness :
  let s := intake_of (mkGroup {["missions" := [("1-0", [("payload", "list")])]]} {["missions" := [m1_entry]]}) in
  demo_rounds [("t1", "u1", true); ("t2", "u2", true); ("t3", "u3", true)] s = s.
Proof.
  intros s. apply (poison_entry_blocks_intake demo_settings ["mission.intake"] demo_loads demo_dumps demo_valid demo_iso
    demo_datetime demo_exn _ ("1-0", [("payload", "list")]) []); reflexivity.
Defined.

Lemma intake_drains_backlog_witness :
  let s := intake_of (mkGroup ∅ {["missions" := [("1-0", [("payload", "not json")]); ("2-0", [("payload", "x")])]]}) in
  let s' := demo_rounds [("now", "u", true)] s in
  pending (in_group s') "missions" = [] /\ unread (in_group s') "missions" = [].
Proof.
  intros s s'.
  destruct (intake_drains_backlog demo_settings ["mission.intake"] demo_loads demo_dumps demo_valid demo_iso
    demo_datetime demo_exn [("now", "u", true)] s) as [H1 H2]; [reflexivity| | |].
  - change (NoDup ["1-0"; "2-0"]). apply (bool_decide_unpack _). vm_compute. done.
  - intros now u up e s2 He _. change (e ∈ [("1-0", [("payload", "not json")]); ("2-0", [("payload", "x")])]) in He.
    rewrite !elem_of_cons in He. destruct He as [->|[->|He%not_elem_of_nil]]; done.
  - split; [exact H1|]. etrans; [exact H2|]. by_compute.
Defined.
