(* ===== verification/Guards.v ===== *)
(** * Guards

    [shared_runtime/pii_guard.py] and [shared_runtime/prompt_guard.py]: detection
    and redaction of personal data in text, the redaction of a context forwarded to
    a language model, and the prompt-injection check.

    The regular expressions are Python's [re]: the class [Regexes] is
    [Pattern.finditer] by the name of the pattern, [RegexLaws] what the documentation
    says of the spans it returns. *)

From S2P Require Import Prelude PyVal.

(** [pattern.finditer(text)] for the pattern registered under a name: the spans. *)
Class Regexes := finditer : string -> string -> list (nat * nat).

(** Spans lie in the text, are not empty (no registered pattern matches the empty
    string), come from left to right and do not overlap. *)
Fixpoint spans_from (from : nat) (spans : list (nat * nat)) (len : nat) : Prop :=
  match spans with
  | [] => True
  | (s, e) :: l => (from <= s)%nat /\ (s < e)%nat /\ (e <= len)%nat /\ spans_from e l len
  end.

Class RegexLaws `{Regexes} : Prop :=
  finditer_spans : forall name text, spans_from 0 (finditer name text) (String.length text).

(** ** Personal data *)

(** [PiiMatch] *)
Record PiiMatch := mkPii {
  pii_type : string;
  pii_start : nat;
  pii_end : nat;
  placeholder : string;
}.

#[export] Instance PiiMatch_eq_dec : EqDecision PiiMatch.
Proof. solve_decision. Defined.

(** [_PATTERNS]: type and placeholder; the type names the compiled pattern. *)
Definition PII_PATTERNS : list (string * string) :=
  [("SSN", "[REDACTED-SSN]");
   ("CREDIT_CARD", "[REDACTED-CC]");
   ("EMAIL", "[REDACTED-EMAIL]");
   ("PHONE_US", "[REDACTED-PHONE]");
   ("PHONE_INTL", "[REDACTED-PHONE]");
   ("JWT_TOKEN", "[REDACTED-JWT]");
   ("API_KEY_HEX", "[REDACTED-KEY]");
   ("API_KEY_B64", "[REDACTED-KEY]");
   ("PASSWORD_KV", "[REDACTED-CREDENTIAL]");
   ("IP_ADDRESS", "[REDACTED-IP]")].

Definition _FORBIDDEN_FORWARD_FIELDS : list string := ["prompt"; "source_code"; "chain_trace"].
Definition _MAX_CONTEXT_REDACTION_DEPTH : nat := 12.

(** The sort key [(m.start, -(m.end - m.start))], compared as Python compares tuples. *)
Definition match_le (a b : PiiMatch) : bool :=
  (pii_start a <? pii_start b)%nat ||
  ((pii_start a =? pii_start b)%nat && (pii_end b - pii_start b <=? pii_end a - pii_start a)%nat).

(** The loop of [_deduplicate_matches]; [last_end] is -1 at its start, which no
    start is below, so 0 stands for it. *)
Fixpoint dedup_from (last_end : nat) (matches : list PiiMatch) : list PiiMatch :=
  match matches with
  | [] => []
  | m :: l => if (last_end <=? pii_start m)%nat then m :: dedup_from (pii_end m) l
              else dedup_from last_end l
  end.

Definition _deduplicate_matches (matches : list PiiMatch) : list PiiMatch := dedup_from 0 matches.

(** [text[i:j]] for [i <= j]. *)
Definition slice (text : string) (i j : nat) : string := str_take (j - i) (str_drop i text).

(** The loop of [redact_pii] and what follows it. *)
Fixpoint redact_from (text : string) (cursor : nat) (matches : list PiiMatch) : string :=
  match matches with
  | [] => str_drop cursor text
  | m :: l => slice text cursor (pii_start m) +:+ placeholder m +:+ redact_from text (pii_end m) l
  end.

Section pii.
Context `{Regexes}.

Definition pattern_matches (text : string) (p : string * string) : list PiiMatch :=
  (fun se => mkPii p.1 se.1 se.2 p.2) <$> finditer p.1 text.

(** Every match of every pattern, before sorting. *)
Definition raw_matches (text : string) : list PiiMatch :=
  PII_PATTERNS ≫= pattern_matches text.

Definition detect_pii (text : string) : list PiiMatch :=
  if String.eqb text "" then []
  else _deduplicate_matches (sort_by match_le (raw_matches text)).

Definition redact_pii (text : string) : string * list PiiMatch :=
  let matches := detect_pii text in
  match matches with
  | [] => (text, [])
  | _ => (redact_from text 0 matches, matches)
  end.

(** [pattern.search(text)] finds a match when [finditer] has one. *)
Definition has_pii (text : string) : bool :=
  if String.eqb text "" then false
  else existsb (fun p => match finditer p.1 text with [] => false | _ => true end) PII_PATTERNS.

(** The children of a container, walked with their paths.  [depth] is an [int] that
    only decreases. *)
Fixpoint _walk_dict (depth : nat) (path : string) (obj : val) : list (string * string) :=
  match depth with
  | O => []
  | S depth' =>
      match obj with
      | VDict d => d ≫= fun kv =>
          _walk_dict depth' (if String.eqb path "" then kv.1 else path +:+ "." +:+ kv.1) kv.2
      | VList l => mjoin (imap (fun i item =>
          _walk_dict depth' (path +:+ "[" +:+ pretty (N.of_nat i) +:+ "]") item) l)
      | VStr s => (fun m => (path, pii_type m)) <$> detect_pii s
      | _ => []
      end
  end.

Definition scan_dict_for_pii (data : dict) (max_depth : nat) : list (string * string) :=
  _walk_dict max_depth "" (VDict data).

(** [_redact_context_value] on JSON data, which is a tree: [seen] holds the
    containers on the path to the value, and no tree is below itself.  [room] is
    [_MAX_CONTEXT_REDACTION_DEPTH - depth]. *)
Fixpoint _redact_context_value (room : nat) (value : val) : val :=
  match value with
  | VStr s => VStr (redact_pii s).1
  | VNone | VBool _ | VInt _ => value
  | VDict d =>
      match room with
      | O => VStr "[REDACTED-DEPTH-LIMIT]"
      | S room' => VDict ((fun kv => (kv.1, _redact_context_value room' kv.2)) <$>
                          List.filter (fun kv => negb (str_in kv.1 _FORBIDDEN_FORWARD_FIELDS)) d)
      end
  | VList l =>
      match room with
      | O => VStr "[REDACTED-DEPTH-LIMIT]"
      | S room' => VList (_redact_context_value room' <$> l)
      end
  end.

Definition safe_context_json_redact (context : dict) : val :=
  _redact_context_value _MAX_CONTEXT_REDACTION_DEPTH (VDict context).
End pii.

(** ** Prompt injection *)

(** [InjectionMatch] without the text of the pattern, which the type determines. *)
Record InjectionMatch := mkInjection { attack_type : string; matched_text : string }.

Record InjectionResult := mkInjectionResult {
  is_suspicious : bool;
  risk_level : string;
  inj_matches : list InjectionMatch;
}.

(** [_INJECTION_PATTERNS]: attack type and risk level. *)
Definition _INJECTION_PATTERNS : list (string * string) :=
  [("DELIMITER_SYSTEM_TAG", "critical");
   ("DELIMITER_INST_TAG", "critical");
   ("DELIMITER_HUMAN_TURN", "critical");
   ("DELIMITER_SEPARATOR", "medium");
   ("ROLE_OVERRIDE", "high");
   ("JAILBREAK_KEYWORD", "high");
   ("AGENT_ID_INJECT", "medium");
   ("PROMPT_EXTRACTION", "medium");
   ("BASE64_CONTENT", "low")].

Definition _RISK_PRIORITY : list (string * Z) :=
  [("critical", 4); ("high", 3); ("medium", 2); ("low", 1)].

(** [_RISK_PRIORITY.get(level, 0)] *)
Definition risk_priority (level : string) : Z := default 0 (dget _RISK_PRIORITY level).
#[global] Arguments risk_priority : simpl never.

(** The higher of two levels, the first when they tie. *)
Definition max_risk (current level : string) : string :=
  if risk_priority current <? risk_priority level then level else current.

Section prompt.
Context `{Regexes}.

(** The body of the inner loop, for one match of one pattern. *)
Definition note_match (text : string) (p : string * string)
    (acc : list InjectionMatch * string) (se : nat * nat) : list InjectionMatch * string :=
  (acc.1 ++ [mkInjection p.1 (str_take 200 (slice text se.1 se.2))], max_risk acc.2 p.2).

Definition note_pattern (text : string) (acc : list InjectionMatch * string)
    (p : string * string) : list InjectionMatch * string :=
  fold_left (note_match text p) (finditer p.1 text) acc.

Definition check_prompt (text : string) : InjectionResult :=
  if String.eqb (str_strip text) "" then mkInjectionResult false "low" []
  else
    let '(matches, max_risk_level) := fold_left (note_pattern text) _INJECTION_PATTERNS ([], "low") in
    match matches with
    | [] => mkInjectionResult false "low" []
    | _ => mkInjectionResult true max_risk_level matches
    end.
End prompt.

(** ** Lemmas *)

Lemma match_le_total a b : match_le a b = true \/ match_le b a = true.
Proof.
  unfold match_le. rewrite !orb_true_iff, !andb_true_iff, !Nat.ltb_lt, !Nat.eqb_eq, !Nat.leb_le. lia.
Qed.

Lemma match_le_start a b :
  match_le a b = true ->
  (pii_start a <= pii_start b)%nat /\
  (pii_start a = pii_start b -> (pii_end b - pii_start b <= pii_end a - pii_start a)%nat).
Proof.
  unfold match_le. rewrite orb_true_iff, andb_true_iff, Nat.ltb_lt, Nat.eqb_eq, Nat.leb_le. lia.
Qed.

Lemma match_le_trans a b c : match_le a b = true -> match_le b c = true -> match_le a c = true.
Proof.
  unfold match_le. rewrite !orb_true_iff, !andb_true_iff, !Nat.ltb_lt, !Nat.eqb_eq, !Nat.leb_le. lia.
Qed.

(** A position that some match covers. *)
Definition covered (matches : list PiiMatch) (i : nat) : bool :=
  existsb (fun m => (pii_start m <=? i)%nat && (i <? pii_end m)%nat) matches.

Lemma covered_spec ms i :
  covered ms i = true <-> exists m, m ∈ ms /\ (pii_start m <= i < pii_end m)%nat.
Proof.
  unfold covered. rewrite existsb_exists. split.
  - intros (m & Hm & [H1%Nat.leb_le H2%Nat.ltb_lt]%andb_true_iff).
    exists m. split; [by apply list_elem_of_In|lia].
  - intros (m & Hm & H1 & H2). exists m. split; [by apply list_elem_of_In|].
    by rewrite (proj2 (Nat.leb_le _ _) H1), (proj2 (Nat.ltb_lt _ _) H2).
Qed.

(** Matches from left to right without overlap, from a position on. *)
Fixpoint disjoint_from (from : nat) (ms : list PiiMatch) (len : nat) : Prop :=
  match ms with
  | [] => True
  | m :: l => (from <= pii_start m)%nat /\ (pii_start m < pii_end m)%nat /\ (pii_end m <= len)%nat /\
              disjoint_from (pii_end m) l len
  end.

Definition in_text (len : nat) (m : PiiMatch) : Prop :=
  (pii_start m < pii_end m)%nat /\ (pii_end m <= len)%nat.

Lemma dedup_from_elem e ms m : m ∈ dedup_from e ms -> m ∈ ms.
Proof.
  revert e. induction ms as [|x l IH]; intros e; simpl; [done|].
  destruct (_ <=? _)%nat; [rewrite elem_of_cons; intros [->|Hm]|intros Hm]; [by left| |]; right; eauto.
Qed.

Lemma dedup_from_disjoint e ms len :
  Forall (in_text len) ms -> disjoint_from e (dedup_from e ms) len.
Proof.
  intros H. revert e. induction H as [|x l [H1 H2] _ IH]; intros e; simpl; [done|].
  destruct (_ <=? _)%nat eqn:E; [|apply IH]. apply Nat.leb_le in E. by split_and!.
Qed.

(** What is dropped starts inside a match that is kept and comes before it. *)
Lemma dedup_from_covers e ms m :
  StronglySorted (fun a b => match_le a b = true) ms -> m ∈ ms ->
  (pii_start m < e)%nat \/
  exists k, k ∈ dedup_from e ms /\ (k = m \/ (match_le k m = true /\ (pii_start m < pii_end k)%nat)).
Proof.
  intros Hs. revert e. induction Hs as [|x l Hl IH Hx]; intros e Hm; simpl; [by apply elem_of_nil in Hm|].
  rewrite Forall_forall in Hx.
  apply elem_of_cons in Hm. destruct (_ <=? _)%nat eqn:E.
  - right. destruct Hm as [->|Hm].
    { exists x. by split; [left|left]. }
    destruct (IH (pii_end x) Hm) as [Hlt|(k & Hk & Hd)].
    + exists x. split; [by left|]. right. split; [by apply Hx|done].
    + exists k. by split; [right|].
  - apply Nat.leb_gt in E. destruct Hm as [->|Hm]; [by left|]. by apply IH.
Qed.

Section pii_lemmas.
Context `{RegexLaws}.

Lemma spans_in_text n spans len se :
  spans_from n spans len -> se ∈ spans -> (se.1 < se.2)%nat /\ (se.2 <= len)%nat.
Proof.
  revert n. induction spans as [|[s e] l IH]; intros n; simpl; [by intros _ ?%elem_of_nil|].
  intros (_ & H1 & H2 & H3). rewrite elem_of_cons. intros [->|Hse]; [done|]. by eapply IH.
Qed.

Lemma raw_matches_in_text text : Forall (in_text (String.length text)) (raw_matches text).
Proof.
  apply Forall_forall. intros m Hm. unfold raw_matches in Hm.
  apply list_elem_of_bind in Hm as (p & Hm & _). apply list_elem_of_fmap in Hm as (se & -> & Hse).
  exact (spans_in_text _ _ _ _ (finditer_spans _ _) Hse).
Qed.

Lemma sorted_matches_sorted text :
  StronglySorted (fun a b => match_le a b = true) (sort_by match_le (raw_matches text)).
Proof. apply sort_by_sorted; [exact match_le_total|exact match_le_trans]. Qed.

Lemma detect_pii_elem text m : m ∈ detect_pii text -> m ∈ raw_matches text.
Proof.
  unfold detect_pii. destruct (String.eqb text ""); [by intros ?%elem_of_nil|].
  intros Hm%dedup_from_elem. by rewrite sort_by_elem in Hm.
Qed.

Lemma detect_pii_disjoint text : disjoint_from 0 (detect_pii text) (String.length text).
Proof.
  unfold detect_pii. destruct (String.eqb text ""); [done|].
  apply dedup_from_disjoint. rewrite sort_by_perm. apply raw_matches_in_text.
Qed.

Lemma raw_matches_empty_text : raw_matches "" = [].
Proof.
  destruct (raw_matches "") as [|m l] eqn:E; [done|].
  pose proof (raw_matches_in_text "") as HF. rewrite E in HF.
  destruct (Forall_inv HF) as [? ?]. simpl in *. lia.
Qed.

(** Every match of a pattern starts inside a reported match that precedes it. *)
Lemma detect_pii_covers text m :
  m ∈ raw_matches text ->
  exists k, k ∈ detect_pii text /\ (k = m \/ (match_le k m = true /\ (pii_start m < pii_end k)%nat)).
Proof.
  intros Hm. unfold detect_pii. destruct (String.eqb_spec text "") as [->|_].
  { rewrite raw_matches_empty_text in Hm. by apply elem_of_nil in Hm. }
  destruct (dedup_from_covers 0 _ m (sorted_matches_sorted text)) as [Hlt|Hk]; [by rewrite sort_by_elem|lia|].
  exact Hk.
Qed.
End pii_lemmas.

(** Redaction read off position by position: a reported match puts its placeholder
    where it starts, and a covered character is gone. *)
Definition redact_at (ms : list PiiMatch) (i : nat) (c : ascii) : list ascii :=
  match List.find (fun m => (pii_start m =? i)%nat) ms with
  | Some m => chars (placeholder m)
  | None => []
  end ++ (if covered ms i then [] else [c]).

Fixpoint redact_ref (ms : list PiiMatch) (i : nat) (l : list ascii) : list ascii :=
  match l with
  | [] => []
  | c :: l' => redact_at ms i c ++ redact_ref ms (S i) l'
  end.

Lemma redact_ref_app ms i l1 l2 :
  redact_ref ms i (l1 ++ l2) = redact_ref ms i l1 ++ redact_ref ms (i + length l1) l2.
Proof.
  revert i. induction l1 as [|c l1 IH]; intros i; simpl; [by rewrite Nat.add_0_r|].
  rewrite IH, app_assoc. do 2 f_equal. lia.
Qed.

Lemma redact_ref_ext ms ms' i l :
  (forall j c, (i <= j < i + length l)%nat -> redact_at ms j c = redact_at ms' j c) ->
  redact_ref ms i l = redact_ref ms' i l.
Proof.
  revert i. induction l as [|c l IH]; intros i He; simpl in *; [done|].
  rewrite He by lia. f_equal. apply IH. intros. apply He. lia.
Qed.

Lemma redact_ref_nil i l : redact_ref [] i l = l.
Proof. revert i. induction l as [|c l IH]; intros i; simpl; [done|]. by rewrite IH. Qed.

Lemma redact_ref_covered ms i l :
  (forall j c, (i <= j < i + length l)%nat -> redact_at ms j c = []) -> redact_ref ms i l = [].
Proof.
  revert i. induction l as [|c l IH]; intros i He; simpl in *; [done|].
  rewrite He by lia. apply IH. intros. apply He. lia.
Qed.

(** Before the first match nothing happens; inside it everything but its start is
    dropped; after it the rest of the matches decide. *)
Lemma redact_at_before m l len j c :
  disjoint_from 0 (m :: l) len -> (j < pii_start m)%nat -> redact_at (m :: l) j c = [c].
Proof.
  intros Hd Hj.
  assert (forall n ms, disjoint_from n ms len -> (j < n)%nat -> redact_at ms j c = [c]) as Haux.
  { intros n ms. revert n. induction ms as [|x ms IH]; intros n; [done|].
    intros (H1 & H2 & _ & H4) Hjn. specialize (IH _ H4 ltac:(lia)). unfold redact_at in *. simpl.
    rewrite (proj2 (Nat.eqb_neq _ _)) by lia.
    rewrite (proj2 (Nat.leb_gt _ _)) by lia. exact IH. }
  eapply (Haux (pii_start m) (m :: l)); [|done].
  destruct Hd as (_ & Hd). by split.
Qed.

Lemma redact_at_start m l c :
  (pii_start m < pii_end m)%nat -> redact_at (m :: l) (pii_start m) c = chars (placeholder m).
Proof.
  intros Hm. unfold redact_at. simpl. rewrite Nat.eqb_refl, Nat.leb_refl.
  rewrite (proj2 (Nat.ltb_lt _ _)) by lia. simpl. apply app_nil_r.
Qed.

Lemma redact_at_inside m l len j c :
  disjoint_from (pii_end m) l len -> (pii_start m < j < pii_end m)%nat -> redact_at (m :: l) j c = [].
Proof.
  intros Hd Hj. unfold redact_at. simpl.
  rewrite (proj2 (Nat.eqb_neq _ _)) by lia.
  rewrite (proj2 (Nat.leb_le _ _)), (proj2 (Nat.ltb_lt _ _)) by lia. simpl.
  destruct (List.find _ l) as [k|] eqn:E; [|done].
  apply List.find_some in E as [Hk E%Nat.eqb_eq]. apply list_elem_of_In in Hk.
  assert (forall n ms, disjoint_from n ms len -> k ∈ ms -> (n <= pii_start k)%nat) as Haux.
  { intros n ms. revert n. induction ms as [|x ms IH]; intros n; [by intros _ ?%elem_of_nil|].
    intros (H1 & H2 & _ & H4). rewrite elem_of_cons. intros [->|Hin]; [done|].
    specialize (IH _ H4 Hin). lia. }
  specialize (Haux _ _ Hd Hk). lia.
Qed.

Lemma redact_at_after m l j c :
  (pii_start m < pii_end m <= j)%nat -> redact_at (m :: l) j c = redact_at l j c.
Proof.
  intros Hj. unfold redact_at. simpl. rewrite (proj2 (Nat.eqb_neq _ _)) by lia.
  rewrite (proj2 (Nat.ltb_ge _ _)) by lia. by rewrite andb_false_r.
Qed.

Lemma chars_str_take n s : chars (str_take n s) = take n (chars s).
Proof. revert n. induction s as [|a s IH]; intros [|n]; simpl; [done..|]. f_equal. apply IH. Qed.

Lemma chars_str_drop n s : chars (str_drop n s) = drop n (chars s).
Proof. revert n. induction s as [|a s IH]; intros [|n]; simpl; auto. Qed.

(** The loop of [redact_pii] computes the reference. *)
Lemma redact_from_ref text cursor ms :
  disjoint_from cursor ms (String.length text) ->
  chars (redact_from text cursor ms) = redact_ref ms cursor (drop cursor (chars text)).
Proof.
  revert cursor. induction ms as [|m l IH]; intros cursor; simpl.
  { intros _. by rewrite redact_ref_nil, chars_str_drop. }
  intros (H1 & H2 & H3 & H4). rewrite !chars_app, IH by done.
  unfold slice. rewrite chars_str_take, chars_str_drop.
  pose proof (chars_length text) as Hlen.
  set (t := drop cursor (chars text)).
  assert (t = take (pii_start m - cursor) t ++
            take (pii_end m - pii_start m) (drop (pii_start m) (chars text)) ++
            drop (pii_end m) (chars text)) as Et.
  { subst t. rewrite <- (take_drop (pii_start m - cursor) (drop cursor _)) at 1. f_equal.
    rewrite drop_drop. replace (cursor + (pii_start m - cursor))%nat with (pii_start m) by lia.
    rewrite <- (take_drop (pii_end m - pii_start m) (drop (pii_start m) _)) at 1. f_equal.
    rewrite drop_drop. f_equal. lia. }
  assert (length (take (pii_start m - cursor) t) = pii_start m - cursor)%nat as E1.
  { subst t. rewrite length_take, length_drop. lia. }
  assert (length (take (pii_end m - pii_start m) (drop (pii_start m) (chars text)))
          = pii_end m - pii_start m)%nat as E2 by (rewrite length_take, length_drop; lia).
  rewrite Et at 2. rewrite !redact_ref_app, E1, E2.
  replace (cursor + (pii_start m - cursor))%nat with (pii_start m) by lia.
  replace (pii_start m + (pii_end m - pii_start m))%nat with (pii_end m) by lia.
  f_equal; [|f_equal].
  - rewrite <- (redact_ref_nil cursor (take _ _)) at 1. apply redact_ref_ext.
    intros j c Hj. rewrite E1 in Hj. symmetry. eapply (redact_at_before m l _ j c); [|lia].
    split_and!; [lia|done|exact H3|done].
  - destruct (take (pii_end m - pii_start m) _) as [|c s] eqn:Es; [simpl in E2; lia|].
    simpl. rewrite redact_at_start by done. rewrite redact_ref_covered; [by rewrite app_nil_r|].
    intros j c' Hj. simpl in E2. eapply redact_at_inside; [done|lia].
  - apply redact_ref_ext. intros j c Hj. symmetry. apply redact_at_after. lia.
Qed.

(** The spans [re] reports on one text in which two patterns overlap. *)
Definition overlap_text := "foo@bar.token=hunter2".

#[local] Instance overlap_regexes : Regexes := fun name text =>
  if negb (String.eqb text overlap_text) then []
  else if String.eqb name "EMAIL" then [(0, 13)%nat]
  else if String.eqb name "PASSWORD_KV" then [(8, 21)%nat] else [].

#[local] Instance overlap_laws : RegexLaws.
Proof.
  intros name text. unfold finditer, overlap_regexes.
  destruct (String.eqb_spec text overlap_text) as [->|_]; [|done]. cbn [negb].
  destruct (String.eqb name "EMAIL"); [|destruct (String.eqb name "PASSWORD_KV"); [|done]];
    cbn; lia.
Qed.

(** What a forwarded context may hold: no forbidden field at any depth, nesting
    bounded by [room], and no text that did not go through [redact_pii]. *)
Fixpoint forwardable `{Regexes} (room : nat) (v : val) : Prop :=
  match v with
  | VStr s => s = "[REDACTED-DEPTH-LIMIT]" \/ exists t, s = (redact_pii t).1
  | VDict d =>
      match room with
      | O => False
      | S r => Forall (fun kv => kv.1 ∉ _FORBIDDEN_FORWARD_FIELDS /\ forwardable r kv.2) d
      end
  | VList l => match room with O => False | S r => Forall (forwardable r) l end
  | _ => True
  end.

Lemma redact_context_forwardable `{Regexes} room v : forwardable room (_redact_context_value room v).
Proof.
  revert v. induction room as [|room IH]; intros v; destruct v; simpl; eauto.
  - apply Forall_fmap, Forall_forall. intros x _. apply IH.
  - apply Forall_fmap, Forall_forall. intros kv [_ Hk]%list_elem_of_In%List.filter_In. simpl.
    split; [|apply IH]. by apply str_in_false, negb_true_iff.
Qed.

(** The two loops of [check_prompt] count and compare, pattern by pattern. *)
Definition hit `{Regexes} (text : string) (p : string * string) : bool :=
  match finditer p.1 text with [] => false | _ => true end.

Lemma note_match_fold text p spans acc :
  (fold_left (note_match text p) spans acc).1 =
    acc.1 ++ ((fun se => mkInjection p.1 (str_take 200 (slice text se.1 se.2))) <$> spans) /\
  (fold_left (note_match text p) spans acc).2 =
    match spans with [] => acc.2 | _ => max_risk acc.2 p.2 end.
Proof.
  revert acc. induction spans as [|se l IH]; intros acc; simpl; [by rewrite app_nil_r|].
  destruct (IH (note_match text p acc se)) as [-> ->]. unfold note_match. simpl.
  split; [by rewrite <- app_assoc|]. destruct l; [done|]. unfold max_risk.
  destruct (risk_priority acc.2 <? risk_priority p.2) eqn:E; [by rewrite Z.ltb_irrefl|by rewrite E].
Qed.

Lemma note_patterns_fold `{Regexes} text ps acc :
  let r := fold_left (note_pattern text) ps acc in
  (r.1 = [] <-> acc.1 = [] /\ Forall (fun p => hit text p = false) ps) /\
  risk_priority acc.2 <= risk_priority r.2 /\
  (forall p, p ∈ ps -> hit text p = true -> risk_priority p.2 <= risk_priority r.2) /\
  (r.2 = acc.2 \/ exists p, p ∈ ps /\ hit text p = true /\ r.2 = p.2).
Proof.
  revert acc. induction ps as [|p ps IH]; intros acc; cbn -[note_pattern].
  { split_and!; [split; [done|by intros [? _]]|lia|by intros ? ?%elem_of_nil|by left]. }
  specialize (IH (note_pattern text acc p)). cbn -[note_pattern] in IH.
  assert (risk_priority acc.2 <= risk_priority (note_pattern text acc p).2 /\
          (hit text p = true -> risk_priority p.2 <= risk_priority (note_pattern text acc p).2) /\
          ((note_pattern text acc p).2 = acc.2 \/
           (hit text p = true /\ (note_pattern text acc p).2 = p.2)) /\
          ((note_pattern text acc p).1 = [] <-> acc.1 = [] /\ hit text p = false)) as (H1 & H2 & H3 & H4).
  { unfold note_pattern, hit. destruct (note_match_fold text p (finditer p.1 text) acc) as [-> ->].
    destruct (finditer p.1 text) as [|se l].
    - rewrite app_nil_r. split_and!; [lia|done|by left|split; [done|by intros [? _]]].
    - unfold max_risk. split_and!.
      + destruct (_ <? _) eqn:E; [apply Z.ltb_lt in E|]; lia.
      + destruct (_ <? _) eqn:E; [lia|apply Z.ltb_ge in E; lia].
      + destruct (_ <? _); auto.
      + simpl. split; [by intros [_ ?]%app_eq_nil|by intros [_ ?]]. }
  destruct IH as (I1 & I2 & I3 & I4). split_and!.
  - rewrite I1, H4, Forall_cons. tauto.
  - lia.
  - intros q. rewrite elem_of_cons. intros [->|Hq] Hh; [specialize (H2 Hh); lia|by apply I3].
  - destruct I4 as [->|(q & Hq & Hh & ->)].
    + destruct H3 as [->|[? ->]]; [by left|right]. exists p. split_and!; [by left|done..].
    + right. exists q. split_and!; [by right|done..].
Qed.

(** ** Properties *)

(** Redaction replaces exactly the reported matches.  They are matches of
    registered patterns, come from left to right and do not overlap; read position by
    position, the redacted text has the placeholder where a match starts, nothing of a
    character a match covers, and every other character of the text in its place.  The
    quick check [has_pii] says yes exactly when something is reported. *)
Lemma redact_pii_reference `{RegexLaws} text :
  let ms := detect_pii text in
  disjoint_from 0 ms (String.length text) /\
  (forall m, m ∈ ms -> exists p, p ∈ PII_PATTERNS /\ pii_type m = p.1 /\ placeholder m = p.2 /\
     (pii_start m, pii_end m) ∈ finditer p.1 text) /\
  (redact_pii text).2 = ms /\
  chars (redact_pii text).1 = redact_ref ms 0 (chars text) /\
  (has_pii text = true <-> ms <> []).
Proof.
  intros ms. pose proof (detect_pii_disjoint text) as Hd. fold ms in Hd.
  split_and!; [done| | | |].
  - intros m Hm%detect_pii_elem. unfold raw_matches in Hm.
    apply list_elem_of_bind in Hm as (p & Hm & Hp). apply list_elem_of_fmap in Hm as ([s e] & -> & Hse).
    by exists p.
  - unfold redact_pii. fold ms. by destruct ms.
  - unfold redact_pii. fold ms. destruct ms as [|m l] eqn:E; [by rewrite redact_ref_nil|].
    exact (redact_from_ref text 0 (m :: l) Hd).
  - assert (has_pii text = true <-> raw_matches text <> []) as ->.
    { unfold has_pii. destruct (String.eqb_spec text "") as [->|_].
      { rewrite raw_matches_empty_text. by split; [|intros []]. }
      rewrite existsb_exists. split.
      - intros (p & Hp & Hf) Er. destruct (finditer p.1 text) as [|se l] eqn:Ef; [done|].
        apply (not_elem_of_nil (mkPii p.1 se.1 se.2 p.2)). rewrite <- Er.
        apply list_elem_of_bind. exists p. split; [|by apply list_elem_of_In].
        unfold pattern_matches. rewrite Ef. left.
      - intros Hr. destruct (raw_matches text) as [|m l] eqn:Er; [done|].
        assert (m ∈ raw_matches text) as Hm by (rewrite Er; left).
        apply list_elem_of_bind in Hm as (p & Hm & Hp). exists p. split; [by apply list_elem_of_In|].
        unfold pattern_matches in Hm. destruct (finditer p.1 text); [by apply elem_of_nil in Hm|done]. }
    split.
    + intros Hr Hms. destruct (raw_matches text) as [|m l] eqn:Er; [done|].
      destruct (detect_pii_covers text m) as (k & Hk & _); [rewrite Er; left|].
      fold ms in Hk. rewrite Hms in Hk. by apply elem_of_nil in Hk.
    + intros Hms Hr. destruct ms as [|m l] eqn:E; [done|].
      apply (not_elem_of_nil m). rewrite <- Hr. apply detect_pii_elem. fold ms. rewrite E. left.
Qed.

(** No match goes unnoticed.  The first character of every match of every pattern
    is removed, and when matches of different patterns are nested or apart, so is every
    character of every match. *)
Lemma redact_pii_hides `{RegexLaws} text m :
  m ∈ raw_matches text ->
  covered (detect_pii text) (pii_start m) = true /\
  ((forall a b, a ∈ raw_matches text -> b ∈ raw_matches text ->
      (pii_end a <= pii_start b)%nat \/ (pii_end b <= pii_start a)%nat \/
      (pii_start a <= pii_start b /\ pii_end b <= pii_end a)%nat \/
      (pii_start b <= pii_start a /\ pii_end a <= pii_end b)%nat) ->
   forall i, (pii_start m <= i < pii_end m)%nat -> covered (detect_pii text) i = true).
Proof.
  intros Hm. pose proof (raw_matches_in_text text) as Ht. rewrite Forall_forall in Ht.
  destruct (detect_pii_covers text m Hm) as (k & Hk & Hd).
  pose proof (detect_pii_elem _ _ Hk) as Hkr.
  destruct (Ht _ Hm) as [Hm1 _]. split.
  - apply covered_spec. exists k. split; [done|].
    destruct Hd as [->|[Hle Hlt]]; [lia|]. apply match_le_start in Hle as [? _]. lia.
  - intros Hlam i Hi. apply covered_spec. exists k. split; [done|].
    destruct Hd as [->|[Hle Hlt]]; [lia|]. apply match_le_start in Hle as [H1 H2].
    destruct (Ht _ Hkr) as [Hk1 _].
    destruct (Hlam k m Hkr Hm) as [?|[?|[?|[H3 H4]]]]; [lia..|].
    specialize (H2 ltac:(lia)). lia.
Qed.

(** A context redacted for a language model has no field named [prompt],
    [source_code] or [chain_trace] at any depth, is nested at most twelve levels deep,
    and every text in it came out of [redact_pii] or is the depth marker. *)
Lemma context_forwarded_clean `{Regexes} context :
  forwardable _MAX_CONTEXT_REDACTION_DEPTH (safe_context_json_redact context).
Proof. apply redact_context_forwardable. Qed.

(** The prompt check reports a text exactly when it is not blank and some pattern
    matches it, and the level it reports is the highest among the patterns that match. *)
Lemma check_prompt_level `{Regexes} text :
  let r := check_prompt text in
  (is_suspicious r = true <->
     str_strip text <> "" /\ exists p, p ∈ _INJECTION_PATTERNS /\ hit text p = true) /\
  (is_suspicious r = true ->
     (exists p, p ∈ _INJECTION_PATTERNS /\ hit text p = true /\ risk_level r = p.2) /\
     (forall p, p ∈ _INJECTION_PATTERNS -> hit text p = true ->
        risk_priority p.2 <= risk_priority (risk_level r))) /\
  (is_suspicious r = false -> risk_level r = "low" /\ inj_matches r = []).
Proof.
  cbv zeta. unfold check_prompt. destruct (String.eqb_spec (str_strip text) "") as [Hs|Hs].
  { simpl. split_and!; [by split; [|intros [? _]]|done|done]. }
  pose proof (note_patterns_fold text _INJECTION_PATTERNS ([], "low")) as (H1 & H2 & H3 & H4).
  destruct (fold_left _ _ _) as [ms lvl]. simpl in H1, H2, H3, H4.
  destruct ms as [|x ms]; simpl.
  - destruct (proj1 H1 eq_refl) as [_ Hf]. rewrite Forall_forall in Hf.
    split_and!; [|done|done]. split; [done|]. intros (_ & p & Hp & Hh).
    specialize (Hf p Hp). congruence.
  - assert (exists p, p ∈ _INJECTION_PATTERNS /\ hit text p = true) as (p & Hp & Hh).
    { destruct (decide (Exists (fun p => hit text p = true) _INJECTION_PATTERNS)) as [He|Hne].
      - apply Exists_exists in He. exact He.
      - exfalso. assert (x :: ms = []) as [=]. apply H1. split; [done|].
        apply Forall_forall. intros p Hp. apply not_true_iff_false. intros Hh.
        apply Hne, Exists_exists. eauto. }
    split_and!; [by split; [intros _; split; [|exists p]|]| |done]. intros _. split; [|done].
    destruct H4 as [->|(q & ? & ? & ->)]; [|by exists q].
    exists p. split_and!; [done|done|]. specialize (H3 p Hp Hh). simpl in H3.
    assert (forall q, q ∈ _INJECTION_PATTERNS -> risk_priority q.2 <= 1 -> "low" = q.2) as Hlow.
    { intros q. unfold _INJECTION_PATTERNS. rewrite !elem_of_cons. intros Hq.
      repeat (destruct Hq as [->|Hq]; [by (intros Hc; vm_compute in Hc; try done)|]).
      by apply elem_of_nil in Hq. }
    by apply Hlow.
Qed.

(** ** Evaluation on a concrete input

    A secret that overlaps the end of another match is cut in two, and its second half
    stays: [foo@bar.token=hunter2] is an address followed by a token. *)

Lemma redact_pii_reference_witness :
  disjoint_from 0 (detect_pii overlap_text) (String.length overlap_text) /\
  (redact_pii overlap_text).2 = detect_pii overlap_text.
Proof.
  split.
  - apply (redact_pii_reference overlap_text).
  - apply (redact_pii_reference overlap_text).
Defined.

Lemma redact_pii_hides_witness : covered (detect_pii overlap_text) 8 = true.
Proof.
  refine (proj1 (redact_pii_hides overlap_text (mkPii "PASSWORD_KV" 8 21 "[REDACTED-CREDENTIAL]") _)).
  vm_compute. right. left.
Defined.

Example overlap_keeps_secret : (redact_pii overlap_text).1 = "[REDACTED-EMAIL]=hunter2".
Proof. by_compute. Qed.
