(* ===== verification/Access.v ===== *)
(** * Access

    Who may do what over HTTP: the authorization of the gateway
    ([api_gateway/main.py] and [api_gateway/middleware.py]: API keys and their roles,
    bearer tokens and their claims, the three access checks, the start-up checks) and
    the role check of the orchestrator behind it ([orchestrator/auth.py],
    [Settings.api_key_roles]).

    PyJWT is not part of the repository: [jwt_decode] is [jwt.decode] with the key it
    is given, [None] when it raises; the leeway is part of it. *)

From S2P Require Import Prelude PyVal ProjectIdentity.

(** ** Text *)

(** [text.split()]: the words between runs of white space. *)
Fixpoint words_from (word : list ascii) (l : list ascii) : list string :=
  match l with
  | [] => match word with [] => [] | _ => [unchars (rev word)] end
  | a :: l' =>
      if is_space a then match word with [] => words_from [] l' | _ => unchars (rev word) :: words_from [] l' end
      else words_from (a :: word) l'
  end.

Definition str_words (s : string) : list string := words_from [] (chars s).

(** [s in {"1", "true", "yes", "on"}], folded. *)
Definition env_true (s : string) : bool :=
  str_in (str_lower (str_strip s)) ["1"; "true"; "yes"; "on"].

(** [[part.strip() for part in text.split(sep) if part.strip()]] *)
Definition stripped_parts (sep : ascii) (s : string) : list string :=
  List.filter (fun p => negb (String.eqb p "")) (str_strip <$> split_all sep s).

(** ** Configuration of the gateway *)

Record GwAuth := mkGwAuth {
  AUTH_MODE : string;
  ENVIRONMENT : string;
  CORS_ALLOW_ORIGINS : string;
  ORCHESTRATOR_ADMIN_API_KEY : string;
  ORCHESTRATOR_READONLY_API_KEY : string;
  ORCHESTRATOR_API_KEYS : string;
  INTERNAL_SERVICE_API_KEY : string;
  OIDC_ISSUER_URL : string;
  OIDC_AUDIENCE : string;
  OIDC_JWKS_URL : string;
  OIDC_SHARED_SECRET : string;
  OIDC_REQUIRED_ROLE : string;
  OIDC_OPERATOR_ROLE : string;
  OIDC_ENFORCE_OPERATOR_ROUTES : bool;
  GATEWAY_ADMIN_BYPASS : bool;
  OIDC_ROLE_CLAIMS : list string;
  OIDC_SCOPE_CLAIMS : list string;
  OIDC_ALLOWED_ALGORITHMS : list string;
  OIDC_STRICT_CLAIMS : bool;
  OIDC_REQUIRED_TENANT : string;
}.

(** The module constants, read from the environment. *)
Definition gateway_auth_settings (getenv : string -> option string) : GwAuth :=
  let env name d := default d (getenv name) in
  let flag name d := env_true (env name d) in
  mkGwAuth
    (str_lower (str_strip (env "AUTH_MODE" "api_key")))
    (str_lower (str_strip (env "ENVIRONMENT" "development")))
    (env "CORS_ALLOW_ORIGINS" "http://localhost:3100")
    (str_strip (env "ORCHESTRATOR_ADMIN_API_KEY" ""))
    (str_strip (env "ORCHESTRATOR_READONLY_API_KEY" ""))
    (env "ORCHESTRATOR_API_KEYS" "")
    (env "INTERNAL_SERVICE_API_KEY" "")
    (str_strip (env "OIDC_ISSUER_URL" ""))
    (str_strip (env "OIDC_AUDIENCE" ""))
    (str_strip (env "OIDC_JWKS_URL" ""))
    (str_strip (env "OIDC_SHARED_SECRET" ""))
    (str_or (str_lower (str_strip (env "OIDC_REQUIRED_ROLE" "mutate"))) "mutate")
    (str_or (str_lower (str_strip (env "OIDC_OPERATOR_ROLE" "observe"))) "observe")
    (flag "OIDC_ENFORCE_OPERATOR_ROUTES" "true")
    (flag "GATEWAY_ADMIN_BYPASS" "false")
    (stripped_parts "," (env "OIDC_ROLE_CLAIMS" "roles,role,permissions"))
    (stripped_parts "," (env "OIDC_SCOPE_CLAIMS" "scope,scp"))
    (match stripped_parts "," (env "OIDC_ALLOWED_ALGORITHMS" "RS256") with
     | [] => ["RS256"] | l => l end)
    (str_in (str_lower (str_strip (env "OIDC_STRICT_CLAIMS" "false"))) ["true"; "1"])
    (str_strip (env "OIDC_REQUIRED_TENANT" "")).

Definition ALLOWED_AUTH_MODES : list string := ["api_key"; "hybrid"; "oidc"].

Definition _configured_cors_origins (cfg : GwAuth) : list string :=
  stripped_parts "," (CORS_ALLOW_ORIGINS cfg).

(** The warnings of this function are left out. *)
Definition _validate_startup_auth_config (cfg : GwAuth) : result unit :=
  if negb (str_in (AUTH_MODE cfg) ALLOWED_AUTH_MODES) then Raise RuntimeError
  else if String.eqb (ENVIRONMENT cfg) "production" && str_in "*" (_configured_cors_origins cfg)
  then Raise RuntimeError
  else if GATEWAY_ADMIN_BYPASS cfg && String.eqb (ENVIRONMENT cfg) "production" then Raise RuntimeError
  else if String.eqb (AUTH_MODE cfg) "oidc" && String.eqb (OIDC_ISSUER_URL cfg) "" then Raise RuntimeError
  else Ok tt.

(** ** API keys

    A set of roles is a list read through membership. *)

(** [mapping.setdefault(key, roles)] *)
Definition dsetdefault {A} (d : list (string * A)) (k : string) (v : A) : list (string * A) :=
  if dmem d k then d else dset d k v.

(** The body of the loop over the [key=role1,role2] entries, shared by both services. *)
Definition add_key_entry (mapping : list (string * list string)) (entry : string)
    : list (string * list string) :=
  match split_once "=" entry with
  | None => mapping
  | Some (key, roles_csv) =>
      let roles := str_lower <$> stripped_parts "," roles_csv in
      match roles with
      | [] => mapping
      | _ => if String.eqb (str_strip key) "" then mapping else dset mapping (str_strip key) roles
      end
  end.

Definition ADMIN_ROLES : list string := ["admin"; "mutate"; "internal"; "read"].
Definition SERVICE_ROLES : list string := ["worker"; "mutate"; "internal"; "read"].
Definition READONLY_ROLES : list string := ["read"].

Definition _gateway_api_key_roles (cfg : GwAuth) : list (string * list string) :=
  let mapping := [] in
  let mapping := if String.eqb (ORCHESTRATOR_ADMIN_API_KEY cfg) "" then mapping
                 else dset mapping (ORCHESTRATOR_ADMIN_API_KEY cfg) ADMIN_ROLES in
  let internal := str_strip (INTERNAL_SERVICE_API_KEY cfg) in
  let mapping := if String.eqb internal "" then mapping else dsetdefault mapping internal SERVICE_ROLES in
  let mapping := if String.eqb (ORCHESTRATOR_READONLY_API_KEY cfg) "" then mapping
                 else dsetdefault mapping (ORCHESTRATOR_READONLY_API_KEY cfg) READONLY_ROLES in
  fold_left add_key_entry (stripped_parts ";" (ORCHESTRATOR_API_KEYS cfg)) mapping.

(** Every stored key is compared; the last that is equal decides. *)
Definition match_key (candidate : string) (mapping : list (string * list string)) : option (list string) :=
  fold_left (fun matched kv => if String.eqb candidate kv.1 then Some kv.2 else matched) mapping None.

Definition _match_gateway_api_key (cfg : GwAuth) (candidate : string) : option (list string) :=
  match_key candidate (_gateway_api_key_roles cfg).

(** [not header] for an optional header. *)
Definition given (header : option string) : option string :=
  match header with Some h => if String.eqb h "" then None else Some h | None => None end.

Definition _require_api_key_role (cfg : GwAuth) (x_api_key : option string) (required_role : string)
    : result unit :=
  match given x_api_key with
  | None => Raise (HTTPException 401)
  | Some key =>
      match _match_gateway_api_key cfg key with
      | None => Raise (HTTPException 401)
      | Some roles =>
          if negb (String.eqb required_role "") && negb (str_in required_role roles)
          then Raise (HTTPException 403) else Ok tt
      end
  end.

(** ** Bearer tokens *)

Definition _extract_bearer_token (authorization : option string) : option string :=
  match given authorization with
  | None => None
  | Some a =>
      let '(scheme, token) := default (a, "") (split_once " " a) in
      if negb (String.eqb (str_lower (str_strip scheme)) "bearer") then None
      else if String.eqb (str_strip token) "" then None else Some (str_strip token)
  end.

Definition _tokens_from_claim_value (value : val) : list string :=
  match value with
  | VStr s => (fun w => str_lower (str_strip w)) <$> str_words (str_replace "," " " s)
  | VList l => omap (fun item =>
      match item with
      | VStr s => if String.eqb (str_strip s) "" then None else Some (str_lower (str_strip s))
      | _ => None
      end) l
  | _ => []
  end.

Definition _claim_includes_required_role (cfg : GwAuth) (claims : dict) (required_role : string) : bool :=
  let required := str_lower (str_strip required_role) in
  if String.eqb required "" then true
  else str_in required
         ((OIDC_ROLE_CLAIMS cfg ++ OIDC_SCOPE_CLAIMS cfg) ≫=
          fun claim_name => _tokens_from_claim_value (dget0 claims claim_name)).

(** [required_role in value] for a list claim. *)
Definition list_has (role : string) (value : val) : bool :=
  match value with VList l => existsb (fun v => bool_decide (v = VStr role)) l | _ => false end.

(** The role search of [validate_strict_oidc_claims]. *)
Definition strict_role_found (claims : dict) (role : string) : bool :=
  existsb (fun key => list_has role (dget0 claims key)) ["roles"; "groups"; "cognito:groups"] ||
  list_has role (dget0 (dict_value (dget0 claims "realm_access")) "roles") ||
  match dget_or claims "scope" (VStr "") with
  | VStr scope => str_in role (str_words scope)
  | _ => false
  end.

(** [not aud or ...]: the audience claim names the expected audience. *)
Definition audience_ok (aud : val) (expected : string) : bool :=
  truthy aud &&
  match aud with
  | VList l => existsb (fun v => bool_decide (v = VStr expected)) l
  | _ => String.eqb (py_str aud) expected
  end.

Definition validate_strict_oidc_claims (cfg : GwAuth) (claims : dict)
    (required_role expected_issuer expected_audience required_tenant : string) : result dict :=
  if negb (nonblank_str (dget0 claims "sub")) then Raise (HTTPException 401)
  else
    let iss := dget0 claims "iss" in
    if negb (String.eqb expected_issuer "") &&
       (negb (truthy iss) ||
        negb (String.eqb (rstrip_char "/" (py_str iss)) (rstrip_char "/" expected_issuer)))
    then Raise (HTTPException 401)
    else if negb (String.eqb expected_audience "") &&
            negb (audience_ok (dget0 claims "aud") expected_audience)
    then Raise (HTTPException 401)
    else
      let tenant_req := str_or required_tenant (OIDC_REQUIRED_TENANT cfg) in
      let token_tenant := py_or (py_or (dget0 claims "tenant_id") (dget0 claims "tid")) (dget0 claims "tenant") in
      if negb (String.eqb tenant_req "") &&
         (negb (truthy token_tenant) || negb (String.eqb (py_str token_tenant) tenant_req))
      then Raise (HTTPException 403)
      else if negb (String.eqb required_role "") && negb (strict_role_found claims required_role)
      then Raise (HTTPException 403)
      else Ok claims.

(** What [jwt.decode] is called with. *)
Inductive JwtKey := SharedSecret (secret : string) | JwksUrl (url : string).

Record JwtRequest := mkJwt {
  jr_token : string;
  jr_key : JwtKey;
  jr_algorithms : list string;
  jr_audience : option string;   (* verified when present *)
  jr_issuer : option string;
}.

Definition nonempty (s : string) : option string := if String.eqb s "" then None else Some s.

Section access.
Context (jwt_installed jwks_client_installed : bool) (jwt_decode : JwtRequest -> option val).

(** The [try] of [_decode_oidc_token]: [None] for the exceptions it turns into 401. *)
Definition verify_token (cfg : GwAuth) (token : string) : result (option val) :=
  let request key := mkJwt token key
    (match OIDC_ALLOWED_ALGORITHMS cfg with [] => ["RS256"] | l => l end)
    (nonempty (OIDC_AUDIENCE cfg)) (nonempty (OIDC_ISSUER_URL cfg)) in
  if negb (String.eqb (OIDC_SHARED_SECRET cfg) "") then
    Ok (jwt_decode (request (SharedSecret (OIDC_SHARED_SECRET cfg))))
  else if negb jwks_client_installed then Raise (HTTPException 503)
  else
    let jwks_url :=
      if String.eqb (OIDC_JWKS_URL cfg) "" && negb (String.eqb (OIDC_ISSUER_URL cfg) "")
      then rstrip_char "/" (OIDC_ISSUER_URL cfg) +:+ "/.well-known/jwks.json" else OIDC_JWKS_URL cfg in
    if String.eqb jwks_url "" then Raise (HTTPException 503)
    else Ok (jwt_decode (request (JwksUrl jwks_url))).

(** What follows the [try]. *)
Definition accept_decoded (cfg : GwAuth) (decoded : option val) : result dict :=
  match decoded with
  | Some (VDict claims) =>
      if OIDC_STRICT_CLAIMS cfg
      then validate_strict_oidc_claims cfg claims "" (OIDC_ISSUER_URL cfg) (OIDC_AUDIENCE cfg)
             (OIDC_REQUIRED_TENANT cfg)
      else Ok claims
  | _ => Raise (HTTPException 401)
  end.

Definition _decode_oidc_token (cfg : GwAuth) (token : string) : result dict :=
  if negb jwt_installed then Raise (HTTPException 503)
  else decoded ← verify_token cfg token; accept_decoded cfg decoded.

Definition _require_internal_service_api_key (cfg : GwAuth) : result string :=
  let configured_key := str_strip (INTERNAL_SERVICE_API_KEY cfg) in
  if String.eqb configured_key "" then Raise (HTTPException 503) else Ok configured_key.

(** The part the three checks share: a token that decodes and carries the role. *)
Definition require_bearer_role (cfg : GwAuth) (token role : string) : result unit :=
  claims ← _decode_oidc_token cfg token;
  if _claim_includes_required_role cfg claims role then Ok tt else Raise (HTTPException 403).

(** The [x-api-key] to send upstream. *)
Definition _resolve_mutation_forward_headers (cfg : GwAuth) (x_api_key authorization : option string)
    : result string :=
  let bearer_token := _extract_bearer_token authorization in
  if String.eqb (AUTH_MODE cfg) "api_key" then
    match given x_api_key with None => Raise (HTTPException 401) | Some k => Ok k end
  else if String.eqb (AUTH_MODE cfg) "hybrid" then
    match bearer_token with
    | Some token => _ ← require_bearer_role cfg token (OIDC_REQUIRED_ROLE cfg);
                    _require_internal_service_api_key cfg
    | None => match given x_api_key with Some k => Ok k | None => Raise (HTTPException 401) end
    end
  else if String.eqb (AUTH_MODE cfg) "oidc" then
    match bearer_token with
    | Some token => _ ← require_bearer_role cfg token (OIDC_REQUIRED_ROLE cfg);
                    _require_internal_service_api_key cfg
    | None => Raise (HTTPException 401)
    end
  else Raise (HTTPException 500).

Definition _require_operator_access (cfg : GwAuth) (x_api_key authorization : option string)
    : result unit :=
  if GATEWAY_ADMIN_BYPASS cfg then Ok tt
  else if String.eqb (AUTH_MODE cfg) "api_key" then _require_api_key_role cfg x_api_key "read"
  else if negb (OIDC_ENFORCE_OPERATOR_ROUTES cfg) then Ok tt
  else
    let bearer_token := _extract_bearer_token authorization in
    if String.eqb (AUTH_MODE cfg) "hybrid" then
      match bearer_token with
      | Some token => require_bearer_role cfg token (OIDC_OPERATOR_ROLE cfg)
      | None => match given x_api_key with
                | Some _ => _require_api_key_role cfg x_api_key "read"
                | None => Raise (HTTPException 401)
                end
      end
    else if String.eqb (AUTH_MODE cfg) "oidc" then
      match bearer_token with
      | Some token => require_bearer_role cfg token (OIDC_OPERATOR_ROLE cfg)
      | None => Raise (HTTPException 401)
      end
    else Raise (HTTPException 500).

Definition _require_reader_access (cfg : GwAuth) (x_api_key authorization : option string)
    : result unit :=
  if GATEWAY_ADMIN_BYPASS cfg then Ok tt
  else if String.eqb (AUTH_MODE cfg) "api_key" then _require_api_key_role cfg x_api_key "read"
  else
    let bearer_token := _extract_bearer_token authorization in
    if String.eqb (AUTH_MODE cfg) "hybrid" then
      match bearer_token with
      | Some token => require_bearer_role cfg token "read"
      | None => match given x_api_key with
                | Some _ => _require_api_key_role cfg x_api_key "read"
                | None => Raise (HTTPException 401)
                end
      end
    else if String.eqb (AUTH_MODE cfg) "oidc" then
      match bearer_token with
      | Some token => require_bearer_role cfg token "read"
      | None => Raise (HTTPException 401)
      end
    else Raise (HTTPException 500).
End access.

(** ** The orchestrator *)

(** The key fields of [Settings], and the values of [agent_service_api_keys]. *)
Record OrchKeys := mkOrchKeys {
  admin_api_key : string;
  internal_service_api_key : string;
  readonly_api_key : string;
  extra_api_keys : string;
  agent_keys : list string;
}.

Definition set_key (mapping : list (string * list string)) (key : string) (roles : list string)
    : list (string * list string) :=
  if String.eqb key "" then mapping else dset mapping key roles.

Definition api_key_roles (s : OrchKeys) : list (string * list string) :=
  let mapping := set_key [] (admin_api_key s) ADMIN_ROLES in
  let mapping := set_key mapping (internal_service_api_key s) SERVICE_ROLES in
  let mapping := set_key mapping (readonly_api_key s) READONLY_ROLES in
  let mapping := fold_left add_key_entry (stripped_parts ";" (extra_api_keys s)) mapping in
  fold_left (fun mapping key => set_key mapping key SERVICE_ROLES) (agent_keys s) mapping.

Definition _match_api_key (candidate : string) (mapping : list (string * list string)) : option (list string) :=
  match_key candidate mapping.

(** [require_roles(settings, allowed_roles)] applied to a request. *)
Definition require_roles (s : OrchKeys) (allowed_roles : list string) (x_api_key : option string)
    : result (string * list string) :=
  match given x_api_key with
  | None => Raise (HTTPException 401)
  | Some key =>
      match _match_api_key key (api_key_roles s) with
      | None => Raise (HTTPException 401)
      | Some roles =>
          if match allowed_roles with [] => false | _ => true end &&
             negb (existsb (fun r => str_in r allowed_roles) roles)
          then Raise (HTTPException 403) else Ok (key, roles)
      end
  end.

(** [main.MUTATION_AUTH], [main.INTERNAL_AUTH] and [main.READ_AUTH] *)
Definition MUTATION_AUTH : list string := ["mutate"; "admin"; "worker"].
Definition INTERNAL_AUTH : list string := ["internal"; "admin"; "worker"].
Definition READ_AUTH : list string := ["read"; "mutate"; "admin"; "worker"; "internal"].

(** ** Lemmas *)

Lemma given_Some x k : given x = Some k <-> x = Some k /\ k <> "".
Proof.
  destruct x as [h|]; simpl; [|by split; [|intros [? _]]].
  destruct (String.eqb_spec h "") as [->|Hh]; split.
  - done.
  - by intros [[= <-] ?].
  - by intros [= <-].
  - by intros [[= <-] _].
Qed.

Lemma given_None_or_Some x : given x = None \/ exists k, given x = Some k.
Proof. destruct (given x); eauto. Qed.

(** A map with distinct keys is read the same way by the constant-time loop. *)
Lemma match_key_acc c (m : list (string * list string)) acc :
  dict_wf m ->
  fold_left (fun matched kv => if String.eqb c kv.1 then Some kv.2 else matched) m acc =
  match dget m c with Some roles => Some roles | None => acc end.
Proof.
  revert acc. induction m as [|[k v] m IH]; intros acc Hwf; [done|].
  apply NoDup_cons in Hwf as [Hk Hwf]. cbn. rewrite IH by done.
  destruct (String.eqb_spec c k) as [->|_]; [|done].
  by rewrite (proj2 (dget_None_keys m k) Hk).
Qed.

Lemma match_key_dget c m : dict_wf m -> match_key c m = dget m c.
Proof. intros Hwf. unfold match_key. rewrite match_key_acc by done. by destruct (dget m c). Qed.

Lemma dsetdefault_wf {A} (d : list (string * A)) k v : dict_wf d -> dict_wf (dsetdefault d k v).
Proof. intros. unfold dsetdefault. destruct (dmem d k); auto using dset_wf. Qed.

Lemma add_key_entry_wf m e : dict_wf m -> dict_wf (add_key_entry m e).
Proof.
  intros. unfold add_key_entry. destruct (split_once "=" e) as [[k r]|]; [|done]. cbn zeta.
  destruct (str_lower <$> _); [done|]. destruct (String.eqb _ ""); auto using dset_wf.
Qed.

Lemma set_key_wf m k r : dict_wf m -> dict_wf (set_key m k r).
Proof. intros. unfold set_key. destruct (String.eqb k ""); auto using dset_wf. Qed.

Lemma fold_wf {B} (f : list (string * list string) -> B -> list (string * list string)) l m :
  (forall m b, dict_wf m -> dict_wf (f m b)) -> dict_wf m -> dict_wf (fold_left f l m).
Proof. intros Hf. revert m. induction l; simpl; auto. Qed.

#[export] Hint Resolve dsetdefault_wf add_key_entry_wf set_key_wf fold_wf : factory.

Lemma nil_wf {A} : dict_wf (A:=A) [].
Proof. constructor. Qed.

Lemma gateway_roles_wf cfg : dict_wf (_gateway_api_key_roles cfg).
Proof.
  unfold _gateway_api_key_roles. apply fold_wf; [auto with factory|].
  repeat case_match; auto using dset_wf, dsetdefault_wf, nil_wf.
Qed.

Lemma api_key_roles_wf s : dict_wf (api_key_roles s).
Proof.
  unfold api_key_roles. apply fold_wf; [auto with factory|]. apply fold_wf; [auto with factory|].
  auto 6 using set_key_wf, nil_wf.
Qed.

(** The caller's key is known to the gateway and has the role [read]. *)
Definition reader_key (cfg : GwAuth) (x_api_key : option string) : Prop :=
  exists k roles, given x_api_key = Some k /\ dget (_gateway_api_key_roles cfg) k = Some roles /\ "read" ∈ roles.

Lemma require_api_key_role_read cfg x :
  (_require_api_key_role cfg x "read" = Ok tt <-> reader_key cfg x) /\
  (forall e, _require_api_key_role cfg x "read" = Raise e -> e = HTTPException 401 \/ e = HTTPException 403).
Proof.
  unfold _require_api_key_role, reader_key, _match_gateway_api_key.
  destruct (given x) as [k|]; [|split; [split; [done|by intros (?&?&?&_)]|intros e [= <-]; by left]].
  rewrite match_key_dget by apply gateway_roles_wf.
  destruct (dget _ k) as [roles|] eqn:E; cbn.
  - destruct (str_in "read" roles) eqn:Er; cbn.
    + apply str_in_spec in Er. split; [|done]. split; [by exists k, roles|done].
    + apply str_in_false in Er. split; [|intros e [= <-]; by right].
      split; [done|]. intros (k' & roles' & [= <-] & [= <-]%(eq_trans (eq_sym E)) & Hr). done.
  - split; [|intros e [= <-]; by left]. split; [done|]. intros (k' & roles' & [= <-] & ? & _). congruence.
Qed.

Section bearer.
Context (jwt_installed jwks_client_installed : bool) (jwt_decode : JwtRequest -> option val).
Local Abbreviation decode := (_decode_oidc_token jwt_installed jwks_client_installed jwt_decode).

(** The request has a bearer token that decodes to claims with the role. *)
Definition bearer_with (cfg : GwAuth) (authorization : option string) (role : string) : Prop :=
  exists token claims, _extract_bearer_token authorization = Some token /\
    decode cfg token = Ok claims /\ _claim_includes_required_role cfg claims role = true.

(** The statuses with which a request is turned away. *)
Definition refusal (e : exn) : Prop :=
  e = HTTPException 401 \/ e = HTTPException 403 \/ e = HTTPException 500 \/ e = HTTPException 503.

Lemma strict_claims_refusal cfg claims r i a t e :
  validate_strict_oidc_claims cfg claims r i a t = Raise e -> refusal e.
Proof. unfold validate_strict_oidc_claims, refusal. repeat case_match; intros [= <-]; auto. Qed.

Lemma verify_token_refusal cfg token e :
  verify_token jwks_client_installed jwt_decode cfg token = Raise e -> refusal e.
Proof. unfold verify_token, refusal. cbv zeta. repeat case_match; intros [= <-]; auto. Qed.

Lemma accept_decoded_refusal cfg o e : accept_decoded cfg o = Raise e -> refusal e.
Proof.
  unfold accept_decoded. intros Ha.
  repeat case_match; try done; try (injection Ha as <-; by left). by eapply strict_claims_refusal.
Qed.

Lemma decode_refusal cfg token e : decode cfg token = Raise e -> refusal e.
Proof.
  unfold _decode_oidc_token. destruct jwt_installed; cbn; [|intros [= <-]; unfold refusal; auto].
  destruct (verify_token _ _ cfg token) eqn:E; cbn; [apply accept_decoded_refusal|].
  intros [= <-]. by eapply verify_token_refusal.
Qed.

Lemma require_bearer_role_spec cfg authorization token role :
  _extract_bearer_token authorization = Some token ->
  (require_bearer_role jwt_installed jwks_client_installed jwt_decode cfg token role = Ok tt <->
     bearer_with cfg authorization role) /\
  (forall e, require_bearer_role jwt_installed jwks_client_installed jwt_decode cfg token role = Raise e ->
     refusal e).
Proof.
  intros Ht. unfold require_bearer_role, bearer_with.
  destruct (decode cfg token) as [claims|e] eqn:E; cbn.
  - destruct (_claim_includes_required_role cfg claims role) eqn:Ec.
    + split; [|done]. split; [by exists token, claims|done].
    + split; [|intros e [= <-]; unfold refusal; auto]. split; [done|].
      intros (t & c & Ht' & Hd & Hc). congruence.
  - split; [|intros e' [= <-]; by eapply decode_refusal]. split; [done|].
    intros (t & c & Ht' & Hd & Hc). congruence.
Qed.

(** What lets a request through when nothing is bypassed: a known key with the role
    [read], or a bearer token with [role], each in the modes that take it. *)
Definition credential (cfg : GwAuth) (x_api_key authorization : option string) (role : string) : Prop :=
  (AUTH_MODE cfg = "api_key" /\ reader_key cfg x_api_key) \/
  (AUTH_MODE cfg = "hybrid" /\ _extract_bearer_token authorization = None /\ reader_key cfg x_api_key) \/
  ((AUTH_MODE cfg = "hybrid" \/ AUTH_MODE cfg = "oidc") /\ bearer_with cfg authorization role).

(** The tail the reader and the operator checks share, in the modes with tokens. *)
Lemma token_modes_spec cfg x a role :
  AUTH_MODE cfg <> "api_key" ->
  let r :=
    if String.eqb (AUTH_MODE cfg) "hybrid" then
      match _extract_bearer_token a with
      | Some token => require_bearer_role jwt_installed jwks_client_installed jwt_decode cfg token role
      | None => match given x with
                | Some _ => _require_api_key_role cfg x "read"
                | None => Raise (HTTPException 401)
                end
      end
    else if String.eqb (AUTH_MODE cfg) "oidc" then
      match _extract_bearer_token a with
      | Some token => require_bearer_role jwt_installed jwks_client_installed jwt_decode cfg token role
      | None => Raise (HTTPException 401)
      end
    else Raise (HTTPException 500) in
  (r = Ok tt <-> credential cfg x a role) /\ (forall e, r = Raise e -> refusal e).
Proof.
  intros Hm r. subst r. unfold credential.
  assert (forall t, _extract_bearer_token a = Some t -> bearer_with cfg a role <->
    require_bearer_role jwt_installed jwks_client_installed jwt_decode cfg t role = Ok tt) as Hb.
  { intros t Ht. symmetry. by apply require_bearer_role_spec. }
  assert (_extract_bearer_token a = None -> ~ bearer_with cfg a role) as Hn.
  { intros Ht (t & _ & Ht' & _). congruence. }
  assert (reader_key cfg x -> given x <> None) as Hk by (intros (k & _ & -> & _); done).
  pose proof (require_api_key_role_read cfg x) as [Hr Hre].
  destruct (String.eqb_spec (AUTH_MODE cfg) "hybrid") as [->|Hh];
    [|destruct (String.eqb_spec (AUTH_MODE cfg) "oidc") as [->|Ho]];
    destruct (_extract_bearer_token a) as [t|] eqn:Et.
  - rewrite (Hb t) by done. split; [|by eapply require_bearer_role_spec]. naive_solver.
  - destruct (given x) as [k|] eqn:Ek.
    + rewrite Hr. split; [naive_solver|]. intros e He. unfold refusal. apply Hre in He. tauto.
    + split; [naive_solver|]. intros e [= <-]. by left.
  - rewrite (Hb t) by done. split; [|by eapply require_bearer_role_spec]. naive_solver.
  - split; [naive_solver|]. intros e [= <-]. by left.
  - split; [naive_solver|]. intros e [= <-]. unfold refusal. auto.
  - split; [naive_solver|]. intros e [= <-]. unfold refusal. auto.
Qed.

(** In [api_key] mode only the key counts. *)
Lemma key_mode_spec cfg x a role :
  AUTH_MODE cfg = "api_key" ->
  (_require_api_key_role cfg x "read" = Ok tt <-> credential cfg x a role) /\
  (forall e, _require_api_key_role cfg x "read" = Raise e -> refusal e).
Proof.
  intros Hm. pose proof (require_api_key_role_read cfg x) as [Hr Hre]. rewrite Hr.
  unfold credential, refusal. rewrite Hm. split; [|intros e He; apply Hre in He; tauto].
  split; [by left; split|]. by intros [[_ ?]|[[[=] _]|[[[=]|[=]] _]]].
Qed.

(** ** Properties *)

(** C23: the reader check lets a request through exactly when the bypass is set or the
    request carries a credential: a configured API key with the role [read] where keys
    are taken, or a bearer token that decodes and carries the role.  The operator check
    asks for the operator role instead, and is also off when it is switched off outside
    [api_key] mode.  A request turned away gets 401, 403, 500 or 503. *)
Theorem access_granted_iff cfg x a :
  let reader := _require_reader_access jwt_installed jwks_client_installed jwt_decode cfg x a in
  let operator := _require_operator_access jwt_installed jwks_client_installed jwt_decode cfg x a in
  (reader = Ok tt <-> GATEWAY_ADMIN_BYPASS cfg = true \/ credential cfg x a "read") /\
  (operator = Ok tt <-> GATEWAY_ADMIN_BYPASS cfg = true \/
     (AUTH_MODE cfg <> "api_key" /\ OIDC_ENFORCE_OPERATOR_ROUTES cfg = false) \/
     credential cfg x a (OIDC_OPERATOR_ROLE cfg)) /\
  (forall e, reader = Raise e \/ operator = Raise e -> refusal e).
Proof.
  cbv zeta. unfold _require_reader_access, _require_operator_access.
  destruct (GATEWAY_ADMIN_BYPASS cfg); [split_and!; [tauto..|by intros e [?|?]]|].
  destruct (String.eqb_spec (AUTH_MODE cfg) "api_key") as [Hm|Hm].
  - pose proof (key_mode_spec cfg x a "read" Hm) as [H1 H2].
    pose proof (key_mode_spec cfg x a (OIDC_OPERATOR_ROLE cfg) Hm) as [H3 _].
    split_and!; [rewrite H1; naive_solver|rewrite H3; naive_solver|].
    intros e [He|He]; by apply H2.
  - pose proof (token_modes_spec cfg x a "read" Hm) as [H1 H2].
    pose proof (token_modes_spec cfg x a (OIDC_OPERATOR_ROLE cfg) Hm) as [H3 H4].
    split_and!.
    + rewrite H1. naive_solver.
    + destruct (OIDC_ENFORCE_OPERATOR_ROUTES cfg); cbn; [rewrite H3|]; naive_solver.
    + intros e [He|He]; [by apply H2|]. destruct (OIDC_ENFORCE_OPERATOR_ROUTES cfg); [by apply H4|done].
Qed.

(** C24: a gateway that starts in production never lets an anonymous request read: the
    start-up check refuses the bypass, so every accepted request has a credential. *)
Theorem production_needs_credentials cfg x a :
  _validate_startup_auth_config cfg = Ok tt -> ENVIRONMENT cfg = "production" ->
  _require_reader_access jwt_installed jwks_client_installed jwt_decode cfg x a = Ok tt ->
  credential cfg x a "read" /\ AUTH_MODE cfg ∈ ALLOWED_AUTH_MODES.
Proof.
  intros Hs He Hr. unfold _validate_startup_auth_config in Hs. rewrite He in Hs.
  destruct (str_in (AUTH_MODE cfg) ALLOWED_AUTH_MODES) eqn:Em; cbn in Hs; [|done].
  apply str_in_spec in Em. split; [|done].
  destruct (str_in "*" _); [done|].
  unfold _require_reader_access in Hr. destruct (GATEWAY_ADMIN_BYPASS cfg); [done|].
  destruct (String.eqb_spec (AUTH_MODE cfg) "api_key") as [Hm|Hm].
  - by apply (key_mode_spec cfg x a "read" Hm).
  - by apply (token_modes_spec cfg x a "read" Hm).
Qed.

(** The gateway does not lend its own key to a mutation: what it forwards is the
    key the caller sent, or its internal key for a bearer token that decodes and
    carries the required role. *)
Lemma forwarding_never_elevates cfg x a k :
  _resolve_mutation_forward_headers jwt_installed jwks_client_installed jwt_decode cfg x a = Ok k ->
  (x = Some k /\ k <> "" /\ AUTH_MODE cfg <> "oidc") \/
  (k = str_strip (INTERNAL_SERVICE_API_KEY cfg) /\ k <> "" /\ AUTH_MODE cfg <> "api_key" /\
   bearer_with cfg a (OIDC_REQUIRED_ROLE cfg)).
Proof.
  unfold _resolve_mutation_forward_headers. intros H.
  assert (forall t, _extract_bearer_token a = Some t ->
    (_ ← require_bearer_role jwt_installed jwks_client_installed jwt_decode cfg t (OIDC_REQUIRED_ROLE cfg);
     _require_internal_service_api_key cfg) = Ok k ->
    k = str_strip (INTERNAL_SERVICE_API_KEY cfg) /\ k <> "" /\ bearer_with cfg a (OIDC_REQUIRED_ROLE cfg)) as Hb.
  { intros t Ht ([] & H1 & H2)%result_bind_Ok. unfold _require_internal_service_api_key in H2.
    apply (require_bearer_role_spec cfg a t _ Ht) in H1.
    destruct (String.eqb_spec (str_strip (INTERNAL_SERVICE_API_KEY cfg)) ""); [done|].
    by injection H2 as <-. }
  destruct (String.eqb_spec (AUTH_MODE cfg) "api_key") as [Hm|Hm];
    [|destruct (String.eqb_spec (AUTH_MODE cfg) "hybrid") as [Hh|Hh];
      [|destruct (String.eqb_spec (AUTH_MODE cfg) "oidc") as [Ho|Ho]; [|done]]].
  - left. rewrite Hm. destruct (given x) as [k'|] eqn:Ek; [|done]. injection H as <-.
    by apply given_Some in Ek as [-> ?].
  - rewrite Hh. destruct (_extract_bearer_token a) as [t|] eqn:Et.
    + right. destruct (Hb t eq_refl H) as (? & ? & ?). by split_and!.
    + left. destruct (given x) as [k'|] eqn:Ek; [|done]. injection H as <-.
      by apply given_Some in Ek as [-> ?].
  - rewrite Ho. destruct (_extract_bearer_token a) as [t|] eqn:Et; [|done].
    right. destruct (Hb t eq_refl H) as (? & ? & ?). by split_and!.
Qed.
End bearer.

(** The orchestrator configured with the keys the gateway has, and no agent keys. *)
Definition same_keys (cfg : GwAuth) : OrchKeys :=
  mkOrchKeys (ORCHESTRATOR_ADMIN_API_KEY cfg) (INTERNAL_SERVICE_API_KEY cfg)
    (ORCHESTRATOR_READONLY_API_KEY cfg) (ORCHESTRATOR_API_KEYS cfg) [].

(** The three dedicated keys are pairwise distinct where they are set, and the internal
    key has no white space around it. *)
Definition dedicated_keys (cfg : GwAuth) : Prop :=
  str_strip (INTERNAL_SERVICE_API_KEY cfg) = INTERNAL_SERVICE_API_KEY cfg /\
  (INTERNAL_SERVICE_API_KEY cfg <> "" -> INTERNAL_SERVICE_API_KEY cfg <> ORCHESTRATOR_ADMIN_API_KEY cfg) /\
  (ORCHESTRATOR_READONLY_API_KEY cfg <> "" ->
   ORCHESTRATOR_READONLY_API_KEY cfg <> ORCHESTRATOR_ADMIN_API_KEY cfg /\
   ORCHESTRATOR_READONLY_API_KEY cfg <> INTERNAL_SERVICE_API_KEY cfg).

Lemma dsetdefault_new {A} (d : list (string * A)) k v : dmem d k = false -> dsetdefault d k v = dset d k v.
Proof. unfold dsetdefault. by intros ->. Qed.

(** With dedicated keys, the gateway and the orchestrator give every key the same
    roles. *)
Lemma gateway_mirrors_orchestrator cfg :
  dedicated_keys cfg -> _gateway_api_key_roles cfg = api_key_roles (same_keys cfg).
Proof.
  intros (Hs & Hi & Hr). unfold _gateway_api_key_roles, api_key_roles, same_keys, set_key. cbn zeta.
  rewrite Hs. cbn [fold_left agent_keys extra_api_keys admin_api_key internal_service_api_key readonly_api_key].
  f_equal.
  destruct (String.eqb_spec (ORCHESTRATOR_READONLY_API_KEY cfg) "") as [_|H3].
  - destruct (String.eqb_spec (INTERNAL_SERVICE_API_KEY cfg) "") as [_|H2]; [done|].
    apply dsetdefault_new. specialize (Hi H2).
    destruct (String.eqb _ ""); [done|]. unfold dmem. cbn. by rewrite (proj2 (String.eqb_neq _ _) Hi).
  - destruct (Hr H3) as [H4 H5].
    destruct (String.eqb_spec (INTERNAL_SERVICE_API_KEY cfg) "") as [_|H2].
    + apply dsetdefault_new. destruct (String.eqb _ ""); [done|]. unfold dmem. cbn.
      by rewrite (proj2 (String.eqb_neq _ _) H4).
    + specialize (Hi H2). rewrite dsetdefault_new.
      * f_equal. apply dsetdefault_new. destruct (String.eqb _ ""); [done|]. unfold dmem. cbn.
        by rewrite (proj2 (String.eqb_neq _ _) Hi).
      * destruct (String.eqb (ORCHESTRATOR_ADMIN_API_KEY cfg) "").
        -- rewrite dsetdefault_new by done. unfold dmem. cbn. by rewrite (proj2 (String.eqb_neq _ _) H5).
        -- rewrite dsetdefault_new by (unfold dmem; cbn; by rewrite (proj2 (String.eqb_neq _ _) Hi)).
           unfold dmem. cbn. rewrite (proj2 (String.eqb_neq _ _) Hi). cbn.
           by rewrite (proj2 (String.eqb_neq _ _) H4), (proj2 (String.eqb_neq _ _) H5).
Qed.

Lemma no_extra_parts : stripped_parts ";" "" = [].
Proof. done. Qed.

(** The read-only key can do what only services may.  In [api_key] mode the check
    that guards the creation of missions ([create_mission] calls the reader check)
    accepts it, and the key the gateway then forwards is its internal one, which the
    orchestrator's own check of that route accepts, while it answers 403 to the
    read-only key itself. *)
Lemma read_only_key_is_elevated ji jc jd cfg a :
  dedicated_keys cfg -> ORCHESTRATOR_API_KEYS cfg = "" -> AUTH_MODE cfg = "api_key" ->
  ORCHESTRATOR_READONLY_API_KEY cfg <> "" -> INTERNAL_SERVICE_API_KEY cfg <> "" ->
  let key := Some (ORCHESTRATOR_READONLY_API_KEY cfg) in
  _require_reader_access ji jc jd cfg key a = Ok tt /\
  require_roles (same_keys cfg) INTERNAL_AUTH key = Raise (HTTPException 403) /\
  exists internal, _require_internal_service_api_key cfg = Ok internal /\
    require_roles (same_keys cfg) INTERNAL_AUTH (Some internal) = Ok (internal, SERVICE_ROLES).
Proof.
  intros Hded Hx Hm Hr Hi. pose proof (gateway_mirrors_orchestrator cfg Hded) as Heq.
  destruct Hded as (Hs & Hia & Hra). destruct (Hra Hr) as [Hra1 Hra2]. specialize (Hia Hi).
  assert (dget (api_key_roles (same_keys cfg)) (ORCHESTRATOR_READONLY_API_KEY cfg) = Some READONLY_ROLES /\
          dget (api_key_roles (same_keys cfg)) (INTERNAL_SERVICE_API_KEY cfg) = Some SERVICE_ROLES) as [Er Ei].
  { unfold api_key_roles, same_keys, set_key.
    cbn [fold_left agent_keys extra_api_keys admin_api_key internal_service_api_key readonly_api_key].
    rewrite Hx, no_extra_parts. cbn [fold_left].
    rewrite (proj2 (String.eqb_neq _ _) Hr), (proj2 (String.eqb_neq _ _) Hi).
    split; [by rewrite dget_dset_eq|]. rewrite dget_dset_ne by congruence. by rewrite dget_dset_eq. }
  assert (forall k, k <> "" -> given (Some k) = Some k) as Hg by (intros; by apply given_Some).
  cbv zeta. split_and!.
  - unfold _require_reader_access. rewrite Hm. destruct (GATEWAY_ADMIN_BYPASS cfg); [done|].
    apply require_api_key_role_read.
    exists (ORCHESTRATOR_READONLY_API_KEY cfg), READONLY_ROLES.
    rewrite Heq. split_and!; [by apply Hg|done|by left].
  - unfold require_roles, _match_api_key. rewrite Hg by done.
    rewrite match_key_dget, Er by apply api_key_roles_wf. done.
  - exists (INTERNAL_SERVICE_API_KEY cfg). unfold _require_internal_service_api_key. rewrite Hs.
    rewrite (proj2 (String.eqb_neq _ _) Hi). split; [done|].
    unfold require_roles, _match_api_key. rewrite Hg by done.
    rewrite match_key_dget, Ei by apply api_key_roles_wf. done.
Qed.

(** ** Evaluation on a concrete input *)

Definition demo_env : string -> option string := dget
  [("AUTH_MODE", " API_KEY "); ("ENVIRONMENT", "production"); ("CORS_ALLOW_ORIGINS", "https://factory.example");
   ("ORCHESTRATOR_ADMIN_API_KEY", "adm"); ("ORCHESTRATOR_READONLY_API_KEY", "ro");
   ("INTERNAL_SERVICE_API_KEY", "svc")].

Definition demo_auth : GwAuth := gateway_auth_settings demo_env.

Lemma demo_dedicated : dedicated_keys demo_auth.
Proof. split_and!; [by_compute|intros _; vm_compute; congruence|intros _; split; vm_compute; congruence]. Qed.

Lemma production_needs_credentials_witness :
  credential false false (fun _ => None) demo_auth (Some "ro") None "read" /\
  AUTH_MODE demo_auth ∈ ALLOWED_AUTH_MODES.
Proof. apply (production_needs_credentials false false (fun _ => None) demo_auth (Some "ro") None); by_compute. Defined.

Lemma forwarding_never_elevates_witness :
  exists k, (Some "ro" = Some k /\ k <> "" /\ AUTH_MODE demo_auth <> "oidc") \/
  (k = str_strip (INTERNAL_SERVICE_API_KEY demo_auth) /\ k <> "" /\ AUTH_MODE demo_auth <> "api_key" /\
   bearer_with false false (fun _ => None) demo_auth None (OIDC_REQUIRED_ROLE demo_auth)).
Proof. exists "ro". apply forwarding_never_elevates. by_compute. Defined.

Lemma gateway_mirrors_orchestrator_witness :
  _gateway_api_key_roles demo_auth = api_key_roles (same_keys demo_auth).
Proof. apply gateway_mirrors_orchestrator. exact demo_dedicated. Defined.

Lemma read_only_key_is_elevated_witness :
  require_roles (same_keys demo_auth) INTERNAL_AUTH (Some "ro") = Raise (HTTPException 403).
Proof.
  refine (proj1 (proj2 (read_only_key_is_elevated false false (fun _ => None) demo_auth None
    demo_dedicated _ _ _ _))); vm_compute; congruence.
Defined.

Example claims_checked :
  (fun aud => is_ok (validate_strict_oidc_claims demo_auth
    [("sub", VStr "u1"); ("iss", VStr "https://id/"); ("aud", aud); ("scope", VStr "read  mutate")]
    "mutate" "https://id" "factory" "")) <$> [VList [VStr "x"; VStr "factory"]; VStr "other"; VNone]
  = [true; false; false].
Proof. by_compute. Qed.
