(* ===== verification/Gateway.v ===== *)
(** * Gateway

    The creation of missions at the gateway ([api_gateway/main.py]): the calls to the
    orchestrator with their error mapping and retries, the idempotency records, the
    intake telemetry, [create_mission] as a whole, and the rate limit.

    A handler is a [task]: it ends at the awaits, so any number of requests, served by
    any number of processes, interleave between its commands.  Redis answers a command,
    or fails before or after it took effect; the orchestrator answers what it likes,
    except that the mission it returns for an id has that id.  Redis keys do not expire
    within the span of a theorem. *)

From S2P Require Import Prelude PyVal Json Tasks ProjectIdentity Agents Access Guards GatewayIntake Streams Consumers.

(** ** Commands *)

Inductive cmd :=
| Ping
| RedisGet (key : string)
| RedisSet (key value : string) (ttl : Z) (nx : bool)
| RedisIncr (key : string)
| RedisExpire (key : string) (ttl : Z)
| RedisXAdd (stream : string) (fs : fields)
| HttpGet (path api_key : string)
| HttpPost (path api_key : string) (body : val)
| Sleep.

(** A value from Redis, an exception of the client, or an HTTP response: its status and
    its body, [None] when it is not JSON. *)
Inductive reply :=
| RVal (v : val)
| RErr (e : exn)
| RHttp (status : Z) (body : option val).

(** An exception with its text. *)
Record failure := mkFail { f_exn : exn; f_detail : string }.

Definition http_error (status : Z) (detail : string) : failure := mkFail (HTTPException status) detail.

Abbreviation handler := (task cmd reply failure).

Definition fail {A} (f : failure) : handler A := traise f.
Definition of_result {A} (r : result A) : handler A :=
  match r with Ok a => tret a | Raise e => fail (mkFail e "") end.

(** [await redis_client.<command>] *)
Definition redis (c : cmd) : handler val :=
  await c (fun r => match r with
                    | RVal v => inr v
                    | RErr e => inl (mkFail e "")
                    | RHttp _ _ => inl (mkFail OtherError "")
                    end).

(** [except (ConnectionError, TimeoutError, OSError, _RedisConnectionError)] *)
Definition is_connection_error (f : failure) : bool := bool_decide (f_exn f = OSError).

(** ** Calls to the orchestrator *)

(** [response.json()] *)
Definition json_body (body : option val) : failure + val :=
  match body with Some v => inr v | None => inl (mkFail ValueError "") end.

Definition proxy_get_reply (r : reply) : failure + val :=
  match r with
  | RErr _ | RVal _ => inl (http_error 502 "orchestrator unavailable")
  | RHttp status body =>
      if status =? 404 then inl (http_error 404 "resource not found")
      else if (status =? 401) || (status =? 403)
      then inl (http_error 502 "orchestrator internal auth rejected request")
      else if 400 <=? status then inl (http_error 502 "orchestrator internal query failed")
      else json_body body
  end.

Definition proxy_post_reply (r : reply) : failure + val :=
  match r with
  | RErr _ | RVal _ => inl (http_error 502 "orchestrator unavailable")
  | RHttp status body =>
      if (status =? 401) || (status =? 403)
      then inl (http_error 502 "orchestrator internal auth rejected request")
      else if 400 <=? status then
        let detail := match body with Some (VDict d) => dget0 d "detail" | _ => VNone end in
        inl (http_error 502 (py_str (py_or detail (VStr "orchestrator internal write failed"))))
      else json_body body
  end.

Section gateway.
Context `{Regexes, Json} (auth : GwAuth) (intake : IntakeConfig)
        (sha256_hex : string -> string) (canonical_json : val -> string)
        (topics : list string) (schema_valid : val -> bool) (iso_timestamp : string -> bool)
        (exn_text : failure -> string).

Definition _proxy_get_internal (path : string) : handler val :=
  key ← of_result (_require_internal_service_api_key auth);
  await (HttpGet path key) proxy_get_reply.

Definition _proxy_post_internal (path : string) (body : val) : handler val :=
  key ← of_result (_require_internal_service_api_key auth);
  await (HttpPost path key body) proxy_post_reply.

Definition _request_hash (p : MissionCreate) : string :=
  sha256_hex (canonical_json (VDict (mission_create_dump p))).

(** ** Idempotency records *)

Definition IDEMPOTENCY_TTL_SECONDS : Z := 86400.
Definition IDEMPOTENCY_KEY_PREFIX := "idempotency:missions".

Definition _idempotency_redis_key (idempotency_key : string) : string :=
  IDEMPOTENCY_KEY_PREFIX +:+ ":" +:+ sha256_hex idempotency_key.

Definition _load_idempotency_record (redis_key : string) : handler (option dict) :=
  raw ← redis (RedisGet redis_key);
  if negb (truthy raw) then tret None
  else match json_loads (py_str raw) with
       | Some (VDict record) => tret (Some record)
       | _ => tret None
       end.

Definition _save_idempotency_record (redis_key : string) (record : dict) (nx : bool) : handler bool :=
  saved ← redis (RedisSet redis_key (json_dumps (VDict record)) IDEMPOTENCY_TTL_SECONDS nx);
  tret (truthy saved).

(** The response model [MissionRecord]: text fields must be text; other keys are
    dropped. *)
Record GwMission := mkGwMission {
  gm_mission_id : string;
  gm_prompt : string;
  gm_requested_target_language : option string;
  gm_metadata : dict;
  gm_project_id : option string;
  gm_lifecycle_engine : option string;
  gm_state : string;
  gm_created_at : string;
}.

Definition text_field (d : dict) (k : string) : result string :=
  match dget d k with Some (VStr s) => Ok s | _ => Raise ValueError end.

Definition opt_text_field (d : dict) (k : string) : result (option string) :=
  match dget d k with
  | None | Some VNone => Ok None
  | Some (VStr s) => Ok (Some s)
  | Some _ => Raise ValueError
  end.

Definition mission_record_of (d : dict) : result GwMission :=
  id ← text_field d "mission_id";
  prompt ← text_field d "prompt";
  language ← opt_text_field d "requested_target_language";
  metadata ← match dget d "metadata" with
             | None => Ok [] | Some (VDict m) => Ok m | Some _ => Raise ValueError end;
  project_id ← opt_text_field d "project_id";
  engine ← opt_text_field d "lifecycle_engine";
  state ← text_field d "state";
  created_at ← text_field d "created_at";
  Ok (mkGwMission id prompt language metadata project_id engine state created_at).

Definition mission_record_dump (m : GwMission) : dict :=
  [("mission_id", VStr (gm_mission_id m)); ("prompt", VStr (gm_prompt m));
   ("requested_target_language", opt_val (gm_requested_target_language m));
   ("metadata", VDict (gm_metadata m)); ("project_id", opt_val (gm_project_id m));
   ("lifecycle_engine", opt_val (gm_lifecycle_engine m)); ("state", VStr (gm_state m));
   ("created_at", VStr (gm_created_at m))].

(** [MissionRecord( **value )]: the argument of a call must be an object. *)
Definition mission_record_of_val (v : val) : result GwMission :=
  match v with VDict d => mission_record_of d | _ => Raise TypeError end.

Definition completed_record (request_hash mission_id : string) (mission : dict) : dict :=
  [("status", VStr "completed"); ("request_hash", VStr request_hash);
   ("mission_id", VStr mission_id); ("mission", VDict mission)].

(** The project id of a mission that was stored without one. *)
Definition fill_project (m : GwMission) : GwMission :=
  match gm_project_id m with
  | Some p =>
      if negb (String.eqb p "") then m
      else mkGwMission (gm_mission_id m) (gm_prompt m) (gm_requested_target_language m) (gm_metadata m)
             (Some (gw_resolve_project_id (gm_metadata m) (gm_mission_id m)))
             (gm_lifecycle_engine m) (gm_state m) (gm_created_at m)
  | None => mkGwMission (gm_mission_id m) (gm_prompt m) (gm_requested_target_language m) (gm_metadata m)
              (Some (gw_resolve_project_id (gm_metadata m) (gm_mission_id m)))
              (gm_lifecycle_engine m) (gm_state m) (gm_created_at m)
  end.

Definition _reconcile_idempotent_mission (redis_key request_hash mission_id : string)
    : handler (option GwMission) :=
  existing ← tcatch (v ← _proxy_get_internal ("/missions/" +:+ mission_id); tret (Some v))
    (fun f => if bool_decide (f_exn f = HTTPException 404) then tret None else fail f);
  match existing with
  | None => tret None
  | Some existing_mission =>
      mission_record ← of_result (mission_record_of_val existing_mission);
      let mission_record := fill_project mission_record in
      _ ← _save_idempotency_record redis_key
            (completed_record request_hash mission_id (mission_record_dump mission_record)) false;
      tret (Some mission_record)
  end.

Definition in_progress_record (request_hash mission_id : string) : dict :=
  [("status", VStr "processing"); ("request_hash", VStr request_hash); ("mission_id", VStr mission_id)].

Definition conflict {A} : handler A := fail (http_error 409 "request with this Idempotency-Key is in progress").

(** What a record that is already there decides: the answer, or the id to go on with. *)
Definition existing_decision (redis_key request_hash : string) (existing : dict)
    : handler (string + GwMission) :=
  if negb (bool_decide (dget0 existing "request_hash" = VStr request_hash))
  then fail (http_error 409 "Idempotency-Key reuse detected with different payload")
  else if bool_decide (dget0 existing "status" = VStr "completed") && is_dict (dget0 existing "mission")
  then mission ← of_result (mission_record_of_val (dget0 existing "mission")); tret (inr mission)
  else
    let existing_id := str_strip (py_str (py_or (dget0 existing "mission_id") (VStr ""))) in
    if bool_decide (dget0 existing "status" = VStr "upstream_unknown") && negb (String.eqb existing_id "")
    then
      reconciled ← _reconcile_idempotent_mission redis_key request_hash existing_id;
      match reconciled with
      | Some mission => tret (inr mission)
      | None => tret (inl existing_id)
      end
    else conflict.

Definition _handle_mission_idempotency (idempotency_key : string) (p : MissionCreate)
    (provisional_mission_id : string) : handler (string + GwMission) :=
  let trimmed_key := str_strip idempotency_key in
  if String.eqb trimmed_key "" then fail (http_error 400 "Idempotency-Key must not be empty")
  else if (256 <? String.length trimmed_key)%nat
  then fail (http_error 400 "Idempotency-Key must be <= 256 characters")
  else
    let request_hash := _request_hash p in
    let redis_key := _idempotency_redis_key trimmed_key in
    let record := in_progress_record request_hash provisional_mission_id in
    acquired ← _save_idempotency_record redis_key record true;
    if (acquired : bool) then tret (inl provisional_mission_id)
    else
      existing ← _load_idempotency_record redis_key;
      match existing with
      | None =>
          _ ← await Sleep (fun _ => inr tt);
          acquired ← _save_idempotency_record redis_key record true;
          if (acquired : bool) then tret (inl provisional_mission_id) else conflict
      | Some existing => existing_decision redis_key request_hash existing
      end.

(** ** Creation *)

(** Entries of the trace without a time stamp get the creation time. *)
Definition stamp_intake_event (created_at : string) (entry : val) : val :=
  match entry with
  | VDict e => if is_pm_intake entry && negb (truthy (dget0 e "ts")) then VDict (dset e "ts" (VStr created_at)) else entry
  | _ => entry
  end.

(** The metadata dictionary is shared with the payload and mutated in place; what
    follows only reads it here. *)
Definition initial_metadata (created_at : string) (metadata : dict) : dict :=
  let m := match dget0 metadata "chain_trace" with
           | VList l => dset metadata "chain_trace" (VList (stamp_intake_event created_at <$> l))
           | _ => metadata
           end in
  dset m "last_chain_event_at" (VStr created_at).

Definition _prepare_initial_mission_payload (mission_id : string) (p : MissionCreate) (created_at : string) : dict :=
  [("mission_id", VStr mission_id); ("prompt", VStr (mc_prompt p));
   ("requested_target_language", opt_val (mc_requested_target_language p));
   ("metadata", VDict (initial_metadata created_at (mc_metadata p)));
   ("project_id", dget0 (mc_metadata p) "project_id");
   ("lifecycle_engine", dget0 (mc_metadata p) "lifecycle_engine");
   ("created_at", VStr created_at); ("state", VStr "INTAKE")].

Definition upstream_body (mission_id : string) (p : MissionCreate) (metadata : dict) (created_at : string) : dict :=
  [("mission_id", VStr mission_id); ("prompt", VStr (mc_prompt p));
   ("requested_target_language", opt_val (mc_requested_target_language p));
   ("mission_type", dget0 metadata "mission_type"); ("depth_mode", dget0 metadata "depth_mode");
   ("output_mode", dget0 metadata "output_mode"); ("data_classification", dget0 metadata "data_classification");
   ("attachments", VList (attachment_dump <$> mc_attachments p));
   ("global_style_directives", VList (VStr <$> mc_global_style_directives p));
   ("metadata", VDict metadata); ("project_id", dget0 metadata "project_id");
   ("created_at", VStr created_at)].

(** The attempts that are left; 502 "orchestrator unavailable" is tried again. *)
Fixpoint persist_attempts (left : nat) (body : dict) : handler val :=
  match left with
  | O => fail (mkFail RuntimeError "unreachable mission upstream retry state")
  | S left' =>
      tcatch (_proxy_post_internal "/missions" (VDict body))
        (fun f =>
           if bool_decide (f_exn f = HTTPException 502) && String.eqb (f_detail f) "orchestrator unavailable" &&
              match left' with O => false | _ => true end
           then _ ← await Sleep (fun _ => inr tt); persist_attempts left' body
           else fail f)
  end.

(** [MISSION_CREATE_UPSTREAM_MAX_ATTEMPTS] is at least 1. *)
Context (max_attempts : nat).

Definition _persist_mission_upstream (mission_id : string) (p : MissionCreate) (metadata : dict)
    (created_at : string) : handler val :=
  persist_attempts (Nat.max 1 max_attempts) (upstream_body mission_id p metadata created_at).

(** What a request is given by its environment: headers, ids and times. *)
Record Request := mkRequest {
  rq_payload : MissionCreate;
  rq_idempotency_key : option string;
  rq_x_api_key : option string;
  rq_authorization : option string;
  rq_mission_uuid : string;
  rq_event_uuid : string;
  rq_created_at : string;
}.

Definition _build_envelope (rq : Request) (correlation_id payload_ref : string) : result dict :=
  let envelope := [("event_id", VStr ("evt-" +:+ rq_event_uuid rq));
                   ("topic", VStr "intake.feature_contract.created");
                   ("timestamp", VStr (rq_created_at rq)); ("producer", VStr "api-gateway");
                   ("correlation_id", VStr correlation_id); ("payload_ref", VStr payload_ref);
                   ("schema", VStr "missions.intake.v1"); ("priority", VStr "NORMAL")] in
  _ ← validate_envelope topics schema_valid iso_timestamp (VDict envelope);
  Ok envelope.

Definition INTAKE_STREAM := "missions.intake".

(** [scrubbed_payload["metadata"] = strip_vault(..)] *)
Definition scrubbed (mission_payload : dict) : dict :=
  match dget0 mission_payload "metadata" with
  | VDict m => dset mission_payload "metadata" (VDict (strip_vault m))
  | _ => mission_payload
  end.

Definition _emit_intake_telemetry (rq : Request) (mission_id : string) (mission_payload : dict) : handler unit :=
  tcatch
    (envelope ← of_result (_build_envelope rq mission_id ("registry://missions/" +:+ mission_id +:+ "/intake"));
     _ ← redis (RedisXAdd INTAKE_STREAM
                  [("envelope", json_dumps (VDict envelope)); ("payload", json_dumps (VDict (scrubbed mission_payload)))]);
     tret tt)
    (fun f => if bool_decide (f_exn f = ProtocolValidationError) || is_connection_error f then tret tt else fail f).

(** [store_vault], which swallows every exception. *)
Definition gw_store_vault (mission_id : string) (vault : list (string * string)) : handler bool :=
  match vault with
  | [] => tret false
  | _ =>
      tcatch
        (_ ← redis (RedisSet (vault_key mission_id)
                      (json_dumps (VDict ((fun kv => (kv.1, VStr kv.2)) <$> vault))) VAULT_TTL_SECONDS false);
         tret true)
        (fun _ => tret false)
  end.

(** [mission_payload.update({..})] with what the orchestrator answered. *)
Definition merge_persisted (mission_id created_at : string) (mission_payload persisted : dict) : dict :=
  let metadata := dict_value (dget0 mission_payload "metadata") in
  let persisted_metadata := dget0 persisted "metadata" in
  let m := dset mission_payload "state" (VStr (py_str (dget_or persisted "state" (VStr "QUEUED")))) in
  let m := dset m "created_at" (VStr (py_str (dget_or persisted "created_at" (VStr created_at)))) in
  let m := dset m "metadata" (if is_dict persisted_metadata then persisted_metadata else VDict metadata) in
  let m := dset m "project_id"
    (VStr (py_str (py_or (py_or (py_or (dget0 persisted "project_id") (dget0 metadata "project_id"))
                            (dget0 mission_payload "project_id"))
                     (VStr (gw_resolve_project_id metadata mission_id))))) in
  dset m "lifecycle_engine"
    (py_or (py_or (dget0 persisted "lifecycle_engine")
              (if is_dict persisted_metadata then dget0 (dict_value persisted_metadata) "lifecycle_engine" else VNone))
       (dget0 mission_payload "lifecycle_engine")).

(** [if idempotency_key], the key trimmed, as the Redis key. *)
Definition idempotency_redis_key_of (rq : Request) : option string :=
  match given (rq_idempotency_key rq) with
  | Some key => Some (_idempotency_redis_key (str_strip key))
  | None => None
  end.

Definition unknown_record (request_hash mission_id last_error : string) : dict :=
  [("status", VStr "upstream_unknown"); ("request_hash", VStr request_hash);
   ("mission_id", VStr mission_id); ("last_error", VStr last_error)].

(** The end of [create_mission], once the orchestrator has stored the mission. *)
Definition finish_mission (rq : Request) (redis_key : option string) (request_hash mission_id : string)
    (mission_payload : dict) (persisted : val) : handler GwMission :=
  match persisted with
  | VDict persisted =>
      let mission_payload := merge_persisted mission_id (rq_created_at rq) mission_payload persisted in
      _ ← _emit_intake_telemetry rq mission_id mission_payload;
      _ ← match redis_key with
          | Some redis_key =>
              tcatch (_save_idempotency_record redis_key
                        (completed_record request_hash mission_id mission_payload) false)
                (fun f => if is_connection_error f then tret false else fail f)
          | None => tret false
          end;
      of_result (mission_record_of mission_payload)
  | _ => fail (mkFail AttributeError "")
  end.

(** From the storage of the vault on: the mission has its id. *)
Definition store_mission (rq : Request) (p : MissionCreate) (secrets : list (string * string))
    (redis_key : option string) (mission_id : string) : handler GwMission :=
  _ ← gw_store_vault mission_id secrets;
  let request_hash := _request_hash p in
  let mission_payload := _prepare_initial_mission_payload mission_id p (rq_created_at rq) in
  persisted ← tcatch
    (_persist_mission_upstream mission_id p (dict_value (dget0 mission_payload "metadata")) (rq_created_at rq))
    (fun f =>
       _ ← match redis_key with
           | Some redis_key =>
               _save_idempotency_record redis_key (unknown_record request_hash mission_id (exn_text f)) false
           | None => tret false
           end;
       fail f);
  finish_mission rq redis_key request_hash mission_id mission_payload persisted.

Context (jwt_installed jwks_client_installed : bool) (jwt_decode : JwtRequest -> option val).

(** [await redis_client.ping()]: connection errors become 503. *)
Definition check_redis : handler unit :=
  tcatch (_ ← redis Ping; tret tt)
    (fun f => if is_connection_error f then fail (http_error 503 "redis unavailable") else fail f).

Definition create_mission (rq : Request) : handler GwMission :=
  _ ← of_result (_require_reader_access jwt_installed jwks_client_installed jwt_decode auth
                   (rq_x_api_key rq) (rq_authorization rq));
  _ ← check_redis;
  let provisional_id := "mission-" +:+ rq_mission_uuid rq in
  prepared ← of_result (prepare_payload intake (rq_payload rq));
  let '(p, secrets) := prepared in
  match given (rq_idempotency_key rq) with
  | None => store_mission rq p secrets None provisional_id
  | Some key =>
      decision ← _handle_mission_idempotency key p provisional_id;
      match decision with
      | inr existing => _ ← gw_store_vault (gm_mission_id existing) secrets; tret existing
      | inl mission_id => store_mission rq p secrets (idempotency_redis_key_of rq) mission_id
      end
  end.
End gateway.

(** ** The rate limit *)

Record RateConfig := mkRateConfig {
  API_RATE_LIMIT_PER_MINUTE : Z;
  API_READ_RATE_LIMIT_PER_MINUTE : Z;
  RATE_LIMIT_WINDOW_SECONDS : Z;
}.

Definition RATE_LIMIT_KEY_PREFIX := "ratelimit:api-gateway".

Section rate_limit.
Context (cfg : RateConfig) (sha256_hex hmac_hex : string -> string) (trust_proxy_headers : bool).

(** [_client_identifier]; [hmac_hex] is keyed with [RATE_LIMIT_HMAC_KEY]. *)
Definition _client_identifier (x_api_key x_forwarded_for client_host : option string) : string :=
  match given x_api_key with
  | Some api_key => "api-key:" +:+ hmac_hex api_key
  | None =>
      let forwarded_for := if trust_proxy_headers then default "" x_forwarded_for else "" in
      let client_ip :=
        if negb (String.eqb forwarded_for "")
        then str_strip (default "" (head (split_all "," forwarded_for)))
        else default "unknown" client_host in
      "ip:" +:+ client_ip
  end.

Definition rate_key (bucket identifier : string) (window : Z) : string :=
  RATE_LIMIT_KEY_PREFIX +:+ ":" +:+ bucket +:+ ":" +:+ sha256_hex identifier +:+ ":" +:+ pretty window.

(** [_check_rate_limit]: limited, retry_after, remaining.  [t1] and [t2] are the two
    readings of [time.time()], in milliseconds. *)
Definition _check_rate_limit (identifier : string) (limit : option Z) (bucket : string) (t1 t2 : Z)
    : handler (bool * Z * Z) :=
  let effective_limit := default (API_RATE_LIMIT_PER_MINUTE cfg) limit in
  let window := t1 / (1000 * RATE_LIMIT_WINDOW_SECONDS cfg) in
  let key := rate_key bucket identifier window in
  count ← redis (RedisIncr key);
  current ← of_result (py_int count);
  _ ← (if current =? 1 then redis (RedisExpire key (RATE_LIMIT_WINDOW_SECONDS cfg + 5)) else tret VNone);
  let retry_after := RATE_LIMIT_WINDOW_SECONDS cfg - (t2 mod (1000 * RATE_LIMIT_WINDOW_SECONDS cfg)) / 1000 in
  tret (effective_limit <? current, retry_after, Z.max 0 (effective_limit - current)).

Definition _SAFE_METHODS : list string := ["GET"; "HEAD"; "OPTIONS"].

(** What the middleware makes of it. *)
Inductive verdict :=
| Proceed (headers : list (string * Z))   (* the rate-limit headers of the response *)
| TooMany (retry_after limit : Z).

(** The first half of [_security_and_rate_limit]; a limiter that cannot be reached lets
    the request through. *)
Definition rate_limit_verdict (method path : string) (redis_ready : bool) (identifier : string) (t1 t2 : Z)
    : handler verdict :=
  let is_probe := str_in path ["/health"; "/readyz"; "/metrics"] in
  let is_stream := String.eqb path "/v1/stream/state" in
  let is_safe := str_in (str_upper method) _SAFE_METHODS in
  let active_limit := if is_safe then API_READ_RATE_LIMIT_PER_MINUTE cfg else API_RATE_LIMIT_PER_MINUTE cfg in
  if (0 <? active_limit) && negb is_probe && negb is_stream && redis_ready then
    tcatch
      (res ← _check_rate_limit identifier (Some active_limit) (if is_safe then "read" else "write") t1 t2;
       let '(limited, retry_after, remaining) := res in
       if (limited : bool) then tret (TooMany retry_after active_limit)
       else tret (Proceed [("X-RateLimit-Limit", active_limit); ("X-RateLimit-Remaining", remaining)]))
      (fun f => if is_connection_error f then tret (Proceed []) else fail f)
  else tret (Proceed []).
End rate_limit.

(** ** The world of the idempotency records

    The text values of Redis, within the 24 hours after which a record expires.  A
    command that fails may have taken effect or not.  What
    the orchestrator answers is not constrained, except that [GET /missions/id] returns
    the mission with that id. *)

Abbreviation store := (gmap string string).

Definition exec (c : cmd) (w : store) (r : reply) (w' : store) : Prop :=
  match c with
  | RedisGet k =>
      w' = w /\ (r = RVal (match w !! k with Some s => VStr s | None => VNone end) \/ exists e, r = RErr e)
  | RedisSet k v _ nx =>
      if nx && bool_decide (is_Some (w !! k))
      then w' = w /\ (r = RVal VNone \/ exists e, r = RErr e)
      else (w' = <[k := v]> w /\ (r = RVal (VBool true) \/ exists e, r = RErr e)) \/
           (w' = w /\ exists e, r = RErr e)
  | HttpGet path _ =>
      w' = w /\ forall id status d, path = "/missions/" +:+ id -> r = RHttp status (Some (VDict d)) ->
        status < 400 -> dget d "mission_id" = Some (VStr id)
  | _ => w' = w
  end.

Section owner.
Context `{Json}.

(** Who a key belongs to: the request hash and the mission id of its record. *)
Definition record_owner (rec : dict) : option (string * string) :=
  match dget rec "request_hash", dget rec "mission_id" with
  | Some (VStr h), Some (VStr m) => Some (h, m)
  | _, _ => None
  end.

Definition read_record (raw : string) : option dict :=
  match json_loads raw with Some (VDict rec) => Some rec | _ => None end.

Definition owner (w : store) (k : string) : option (string * string) :=
  raw ← w !! k; rec ← read_record raw; record_owner rec.

Definition is_idem (k : string) : bool := startswith IDEMPOTENCY_KEY_PREFIX k.

(** An id as the gateway makes them. *)
Definition mission_id_ok (m : string) : Prop := m <> "" /\ str_strip m = m.

(** Every record has an owner, and the mission it holds is the owner's. *)
Definition rec_ok (rec : dict) : Prop :=
  exists h m, record_owner rec = Some (h, m) /\ mission_id_ok m /\
    forall d, dget rec "mission" = Some (VDict d) -> dget d "mission_id" = Some (VStr m).

Definition inv (w : store) : Prop :=
  forall k raw, is_idem k = true -> w !! k = Some raw ->
    exists rec, read_record raw = Some rec /\ rec_ok rec.

(** Owners never change. *)
Definition later (w w' : store) : Prop :=
  forall k o, is_idem k = true -> owner w k = Some o -> owner w' k = Some o.

#[export] Instance later_preorder : PreOrder later.
Proof. split; [by intros w k o|]. intros w1 w2 w3 Ha Hb k o Hk Ho. by apply Hb, Ha. Qed.
End owner.

(** ** Lemmas *)

Section idempotency.
Context `{Regexes, Json, !JsonLaws} (auth : GwAuth) (intake : IntakeConfig)
        (sha256_hex : string -> string) (canonical_json : val -> string)
        (topics : list string) (schema_valid : val -> bool) (iso_timestamp : string -> bool)
        (exn_text : failure -> string) (max_attempts : nat)
        (jwt_installed jwks_client_installed : bool) (jwt_decode : JwtRequest -> option val).

(** The hash of the payload a request prepares. *)
Definition hash_of (rq : Request) : option string :=
  match prepare_payload intake (rq_payload rq) with
  | Ok (p, _) => Some (_request_hash sha256_hex canonical_json p)
  | Raise _ => None
  end.

Definition posted_id (body : val) : option string :=
  match dget0 (dict_value body) "mission_id" with VStr m => Some m | _ => None end.

(** The request owns its key, for its own payload, with this mission. *)
Definition owns (rq : Request) (mission_id : option string) (w : store) : Prop :=
  forall k, idempotency_redis_key_of sha256_hex rq = Some k ->
    exists h m, owner w k = Some (h, m) /\ hash_of rq = Some h /\ mission_id = Some m.

(** A mission is only sent upstream by a request that owns its key ... *)
Definition pre (rq : Request) (c : cmd) (w : store) : Prop :=
  match c with HttpPost _ _ body => owns rq (posted_id body) w | _ => True end.

(** ... and so is every mission that is answered. *)
Definition post (rq : Request) (r : failure + GwMission) (w : store) : Prop :=
  match r with inr mission => owns rq (Some (gm_mission_id mission)) w | inl _ => True end.

Lemma idem_key_is_idem k : is_idem (_idempotency_redis_key sha256_hex k) = true.
Proof. unfold is_idem, _idempotency_redis_key. apply startswith_app. Qed.

Lemma key_of_is_idem rq k : idempotency_redis_key_of sha256_hex rq = Some k -> is_idem k = true.
Proof.
  unfold idempotency_redis_key_of. destruct (given _); [|done]. intros [= <-]. apply idem_key_is_idem.
Qed.

Lemma vault_key_not_idem m : is_idem (vault_key m) = false.
Proof. done. Qed.

Lemma owns_later rq m w w' : later w w' -> owns rq m w -> owns rq m w'.
Proof.
  intros Hl Ho k Hk. destruct (Ho k Hk) as (h & m' & Ha & Hb). exists h, m'. split; [|done].
  apply Hl; [by eapply key_of_is_idem|done].
Qed.

Lemma pre_later rq c w w' : later w w' -> pre rq c w -> pre rq c w'.
Proof. intros Hl. destruct c; cbn; try done. by apply owns_later. Qed.

Lemma read_dumps rec : read_record (json_dumps (VDict rec)) = Some rec.
Proof. unfold read_record. by rewrite json_roundtrip. Qed.

(** Writing under another key changes nothing here. *)
Lemma set_other k v w : is_idem k = false -> inv w -> inv (<[k := v]> w) /\ later w (<[k := v]> w).
Proof.
  intros Hk Hi. split.
  - intros k' raw Hk' Hl. rewrite lookup_insert_ne in Hl by congruence. by eapply Hi.
  - intros k' o Hk' Ho. unfold owner in *. by rewrite lookup_insert_ne by congruence.
Qed.

(** Writing a record for the same owner, or where there was none, keeps everything. *)
Lemma set_owned k rec h m w :
  is_idem k = true -> rec_ok rec -> record_owner rec = Some (h, m) ->
  (w !! k = None \/ owner w k = Some (h, m)) -> inv w ->
  let w' := <[k := json_dumps (VDict rec)]> w in
  inv w' /\ later w w' /\ owner w' k = Some (h, m).
Proof.
  intros Hk Hrec Ho Hw Hi w'.
  assert (owner w' k = Some (h, m)) as Ho'.
  { unfold owner, w'. rewrite lookup_insert_eq. cbn. by rewrite read_dumps. }
  split_and!; [| |done].
  - intros k' raw Hk' Hl. destruct (decide (k = k')) as [<-|Hne].
    + unfold w' in Hl. rewrite lookup_insert_eq in Hl. injection Hl as <-. exists rec. by rewrite read_dumps.
    + unfold w' in Hl. rewrite lookup_insert_ne in Hl by done. by eapply Hi.
  - intros k' o Hk' Hok. destruct (decide (k = k')) as [<-|Hne].
    + destruct Hw as [Hn|Hw]; [unfold owner in Hok; by rewrite Hn in Hok|]. congruence.
    + unfold owner, w' in *. by rewrite lookup_insert_ne.
Qed.

Lemma inv_owner k w raw : inv w -> is_idem k = true -> w !! k = Some raw ->
  exists rec h m, read_record raw = Some rec /\ rec_ok rec /\ record_owner rec = Some (h, m) /\
    owner w k = Some (h, m).
Proof.
  intros Hi Hk Hl. destruct (Hi k raw Hk Hl) as (rec & Hr & (h & m & Ho & Hrest)).
  exists rec, h, m. split_and!; [done|by exists h, m|done|]. unfold owner. rewrite Hl. cbn. by rewrite Hr.
Qed.

(** ** The handlers, one by one

    [holds rq Q t w]: started in world [w], the handler [t] of request [rq] only issues
    commands it may issue, keeps the invariant, and ends with [Q]. *)
Definition holds {A} (rq : Request) (Q : failure + A -> store -> Prop) (t : handler A) (w : store) : Prop :=
  ok exec inv later (pre rq) Q t w.

Lemma holds_bind {A B} rq (Q : failure + A -> store -> Prop) (Q' : failure + B -> store -> Prop)
    (t : handler A) (f : A -> handler B) w :
  holds rq Q t w ->
  (forall e w', later w w' -> inv w' -> Q (inl e) w' -> Q' (inl e) w') ->
  (forall a w', later w w' -> inv w' -> Q (inr a) w' -> holds rq Q' (f a) w') ->
  holds rq Q' (t ≫= f) w.
Proof.
  intros Ht He Ha. apply ok_bind; [apply _|]. eapply ok_conseq; [apply _| |exact Ht].
  intros [e|a] w' Hl Hi Hq; [by apply He|by apply Ha].
Qed.

Lemma holds_ret {A} rq (Q : failure + A -> store -> Prop) a w :
  (forall w', later w w' -> inv w' -> Q (inr a) w') -> holds rq Q (tret a) w.
Proof. done. Qed.

Lemma holds_fail {A} rq (Q : failure + A -> store -> Prop) e w :
  (forall w', later w w' -> inv w' -> Q (inl e) w') -> holds rq Q (fail e) w.
Proof. done. Qed.

Lemma holds_catch {A} rq (Q Q' : failure + A -> store -> Prop) (t : handler A) (h : failure -> handler A) w :
  holds rq Q t w ->
  (forall e w', later w w' -> inv w' -> Q (inl e) w' -> holds rq Q' (h e) w') ->
  (forall a w', later w w' -> inv w' -> Q (inr a) w' -> Q' (inr a) w') ->
  holds rq Q' (tcatch t h) w.
Proof.
  intros Ht He Ha. apply ok_catch; [apply _|]. eapply ok_conseq; [apply _| |exact Ht].
  intros [e|a] w' Hl Hi Hq; [by apply He|by apply Ha].
Qed.

Lemma holds_result {A} rq (Q : failure + A -> store -> Prop) (r : result A) w :
  (forall w', later w w' -> inv w' -> Q (match r with Ok a => inr a | Raise e => inl (mkFail e "") end) w') ->
  holds rq Q (of_result r) w.
Proof. by destruct r. Qed.

(** Any outcome will do. *)
Definition anything {A} : failure + A -> store -> Prop := fun _ _ => True.

(** Commands that only read Redis, or touch neither Redis nor a mission. *)
Lemma holds_await {A} rq (Q : failure + A -> store -> Prop) c f w :
  (forall w', later w w' -> inv w' -> pre rq c w' /\
     forall r w'', exec c w' r w'' -> inv w'' /\ later w' w'' /\
       forall w3, later w'' w3 -> inv w3 -> Q (f r) w3) ->
  holds rq Q (await c f) w.
Proof.
  intros Hc w' Hl Hi. destruct (Hc w' Hl Hi) as [Hp Hr]. split; [done|].
  intros r w'' He. destruct (Hr r w'' He) as (? & ? & ?). by split_and!.
Qed.

Lemma holds_quiet {A} rq (c : cmd) (f : reply -> failure + A) w :
  (forall w' r w'', exec c w' r w'' -> w'' = w') -> (forall w', pre rq c w') ->
  holds rq anything (await c f) w.
Proof.
  intros Hq Hp. apply holds_await. intros w' _ Hi. split; [done|].
  intros r w'' ->%Hq. split_and!; [done|by intros ? ?|done].
Qed.

(** [SET .. NX] on an idempotency key: either the key is ours, or it has an owner. *)
Lemma holds_acquire rq k h m w :
  is_idem k = true -> mission_id_ok m ->
  holds rq (fun r w' => match r with
              | inr true => owner w' k = Some (h, m)
              | inr false => is_Some (owner w' k)
              | inl _ => True
              end)
    (_save_idempotency_record k (in_progress_record h m) true) w.
Proof.
  intros Hk Hm. unfold _save_idempotency_record, redis.
  eapply holds_bind; [apply holds_await with (Q := fun r w' =>
    match r with
    | inr v => if truthy v then owner w' k = Some (h, m) else is_Some (owner w' k)
    | inl _ => True end)| |]; [|done|].
  - intros w' Hl Hi. split; [done|]. intros r w'' He. cbn [exec] in He. cbn [andb] in He.
    destruct (bool_decide_reflect (is_Some (w' !! k))) as [[raw Hraw]|Hn].
    + destruct He as [-> He].
      destruct (inv_owner k w' raw Hi Hk Hraw) as (rec & h' & m' & _ & _ & _ & Ho).
      split_and!; [done|by intros ? ?|]. intros w3 Hl3 _.
      destruct He as [->|[e ->]]; cbn; [|done]. eauto.
    + assert (w' !! k = None) as Hnone by (destruct (w' !! k); [exfalso; eauto|done]).
      assert (rec_ok (in_progress_record h m)) as Hrec by (exists h, m; by split_and!).
      destruct (set_owned k _ h m w' Hk Hrec eq_refl (or_introl Hnone) Hi) as (Hi' & Hl' & Ho').
      destruct He as [[-> He]|[-> [e ->]]].
      * split_and!; [done..|]. intros w3 Hl3 _. destruct He as [->|[e ->]]; cbn; [by apply Hl3|done].
      * split_and!; [done|by intros ? ?|done].
  - intros v w' Hl Hi Hv. apply holds_ret. intros w'' Hl' _.
    cbn beta iota in Hv. destruct (truthy v); [by apply Hl'|]. destruct Hv as [o Ho]. exists o. by apply Hl'.
Qed.

(** Saving a record for the owner of the key changes nothing about who owns what. *)
Lemma holds_save rq k rec h m w :
  is_idem k = true -> rec_ok rec -> record_owner rec = Some (h, m) -> owner w k = Some (h, m) ->
  holds rq anything (_save_idempotency_record k rec false) w.
Proof.
  intros Hk Hrec Ho How. unfold _save_idempotency_record, redis.
  eapply holds_bind; [apply holds_await with (Q := anything)|done|done].
  intros w' Hl Hi. split; [done|]. intros r w'' He. cbn [exec andb] in He.
  destruct (set_owned k rec h m w' Hk Hrec Ho (or_intror (Hl _ _ Hk How)) Hi) as (Hi' & Hl' & _).
  by destruct He as [[-> _]|[-> _]]; split_and!.
Qed.

(** Loading finds a sound record, if it finds one. *)
Lemma holds_load rq k w :
  is_idem k = true ->
  holds rq (fun r w' => match r with
              | inr (Some rec) => rec_ok rec /\ owner w' k = record_owner rec
              | _ => True
              end) (_load_idempotency_record k) w.
Proof.
  intros Hk. unfold _load_idempotency_record, redis.
  eapply holds_bind; [apply holds_await with (Q := fun r w' =>
    match r with
    | inr v => truthy v = true -> exists rec, json_loads (py_str v) = Some (VDict rec) /\
                 rec_ok rec /\ owner w' k = record_owner rec
    | inl _ => True end)| |]; [|done|].
  - intros w' Hl Hi. split; [done|]. intros r w'' [-> He]. split_and!; [done|by intros ? ?|].
    intros w3 Hl3 _. destruct He as [->|[e ->]]; cbn; [|done].
    destruct (w' !! k) as [raw|] eqn:Hraw; cbn; [|done]. intros _.
    destruct (inv_owner k w' raw Hi Hk Hraw) as (rec & h & m & Hr & Hrec & Ho & How).
    exists rec. split_and!; [|done|rewrite Ho; by apply Hl3].
    unfold read_record in Hr. destruct (json_loads raw) as [[]|]; by simplify_eq/=.
  - intros v w' Hl Hi Hv. cbn beta iota in Hv. destruct (truthy v); cbn [negb]; [|by apply holds_ret].
    destruct (Hv eq_refl) as (rec & -> & Hrec & How). apply holds_ret. intros w'' Hl' _.
    split; [done|]. pose proof Hrec as (h & m & Ho & _). rewrite Ho in *. by apply Hl'.
Qed.

Lemma mission_record_id d mr : mission_record_of d = Ok mr -> dget d "mission_id" = Some (VStr (gm_mission_id mr)).
Proof.
  unfold mission_record_of, text_field. intros (id & Hid & Hr)%result_bind_Ok.
  repeat (apply result_bind_Ok in Hr as (? & _ & Hr)). injection Hr as <-. cbn.
  destruct (dget d "mission_id") as [[]|]; by simplify_eq/=.
Qed.

Lemma fill_project_id mr : gm_mission_id (fill_project mr) = gm_mission_id mr.
Proof. unfold fill_project. repeat case_match; done. Qed.

Lemma holds_proxy_get rq id w :
  holds rq (fun r w' => match r with
              | inr v => forall d, v = VDict d -> dget d "mission_id" = Some (VStr id)
              | inl _ => True
              end) (_proxy_get_internal auth ("/missions/" +:+ id)) w.
Proof.
  unfold _proxy_get_internal. eapply holds_bind; [by apply holds_result with (Q := anything)|done|].
  intros key w' _ _ _. apply holds_await. intros w1 _ Hi. split; [done|].
  intros r w2 [-> Hr]. split_and!; [done|by intros ? ?|]. intros w3 _ _.
  unfold proxy_get_reply. destruct r as [v|e|status [body|]]; cbn; repeat case_match; try done.
  simplify_eq. intros d ->. eapply Hr; [done|done|]. by apply Z.leb_gt.
Qed.

Lemma completed_rec_ok h m d :
  mission_id_ok m -> dget d "mission_id" = Some (VStr m) -> rec_ok (completed_record h m d).
Proof. intros Hm Hd. exists h, m. split_and!; [done|done|]. by intros d' [= <-]. Qed.

Lemma holds_reconcile rq k h m w :
  is_idem k = true -> mission_id_ok m -> owner w k = Some (h, m) ->
  holds rq (fun r w' => match r with inr (Some mission) => gm_mission_id mission = m | _ => True end)
    (_reconcile_idempotent_mission auth k h m) w.
Proof.
  intros Hk Hm Ho. unfold _reconcile_idempotent_mission. eapply holds_bind.
  { eapply holds_catch with (Q' := fun r _ => match r with
      | inr (Some v) => forall d, v = VDict d -> dget d "mission_id" = Some (VStr m)
      | _ => True end).
    - eapply holds_bind with (Q' := fun r _ => match r with
        | inr (Some v) => forall d, v = VDict d -> dget d "mission_id" = Some (VStr m)
        | _ => True end); [apply holds_proxy_get|done|].
      intros v w' _ _ Hv. by apply holds_ret.
    - intros e w' _ _ _. case_bool_decide; [by apply holds_ret|by apply holds_fail].
    - done. }
  - done.
  - intros [v|] w' Hl Hi Hv; [|by apply holds_ret].
    eapply holds_bind; [apply holds_result with (Q := fun r _ => match r with
      | inr mr => gm_mission_id mr = m | inl _ => True end)|done|].
    { intros w'' _ _. destruct (mission_record_of_val v) as [mr|] eqn:Er; [|done].
      destruct v; try done. apply mission_record_id in Er. specialize (Hv _ eq_refl). congruence. }
    intros mr w'' Hl' Hi' Hmr. cbn beta iota in Hmr. eapply holds_bind; [|done|].
    + eapply holds_save with (h := h) (m := m); [done| |done|by apply Hl', Hl].
      apply completed_rec_ok; [done|]. cbn. by rewrite fill_project_id, Hmr.
    + intros b w3 _ _ _. apply holds_ret. intros. by rewrite fill_project_id.
Qed.

(** The request has the key, for hash [h] and mission [m]. *)
Definition owned (rq : Request) (h m : string) (w : store) : Prop :=
  forall k, idempotency_redis_key_of sha256_hex rq = Some k -> owner w k = Some (h, m).

Lemma owned_owns rq h m w : hash_of rq = Some h -> owned rq h m w -> owns rq (Some m) w.
Proof. intros Hh Ho k Hk. exists h, m. by split_and!; [apply Ho| |]. Qed.

Lemma owned_later rq h m w w' : later w w' -> owned rq h m w -> owned rq h m w'.
Proof. intros Hl Ho k Hk. apply Hl; [by eapply key_of_is_idem|by apply Ho]. Qed.

(** What a record that is there lets a request go on with. *)
Definition decided (k h : string) (r : failure + (string + GwMission)) (w : store) : Prop :=
  match r with
  | inr (inl id) => owner w k = Some (h, id) /\ mission_id_ok id
  | inr (inr mission) => owner w k = Some (h, gm_mission_id mission)
  | inl _ => True
  end.

Lemma holds_decision rq k h rec w :
  is_idem k = true -> rec_ok rec -> owner w k = record_owner rec ->
  holds rq (decided k h) (existing_decision auth k h rec) w.
Proof.
  intros Hk (h0 & m & Ho & Hm & Hmission) How. rewrite Ho in How.
  assert (dget rec "request_hash" = Some (VStr h0) /\ dget rec "mission_id" = Some (VStr m)) as [Eh Em].
  { unfold record_owner in Ho.
    destruct (dget rec "request_hash") as [[]|], (dget rec "mission_id") as [[]|]; by simplify_eq/=. }
  unfold existing_decision.
  case_bool_decide as Hhash; cbn [negb]; [|by apply holds_fail].
  unfold dget0 in Hhash at 1. rewrite Eh in Hhash. injection Hhash as ->.
  destruct (bool_decide _ && is_dict _) eqn:Ec.
  - eapply holds_bind; [apply holds_result with (Q := fun r _ => match r with
      | inr mr => gm_mission_id mr = m | inl _ => True end)|done|].
    { intros w' _ _. apply andb_true_iff in Ec as [_ Ed]. unfold dget0 in Ed |- *.
      destruct (dget rec "mission") as [[]|] eqn:Emi; try done. cbn.
      destruct (mission_record_of d) as [mr|] eqn:Er; [|done].
      apply mission_record_id in Er. specialize (Hmission _ eq_refl). congruence. }
    intros mr w' Hl Hi Hmr. apply holds_ret. intros w'' Hl' _. cbn in Hmr |- *. rewrite Hmr.
    apply Hl'; [done|]. by apply Hl.
  - assert (str_strip (py_str (py_or (dget0 rec "mission_id") (VStr ""))) = m) as ->.
    { unfold dget0. rewrite Em. unfold py_or. cbn. destruct Hm as [Hne Hs].
      by rewrite (proj2 (String.eqb_neq _ _) Hne). }
    clear Ec. destruct (bool_decide _ && _); [|by apply holds_fail].
    eapply holds_bind; [by apply holds_reconcile with (m := m)|done|].
    intros [mission|] w' Hl Hi Hmi; apply holds_ret; intros w'' Hl' _; cbn.
    + cbn in Hmi. rewrite Hmi. apply Hl'; [done|]. by apply Hl.
    + split; [|done]. apply Hl'; [done|]. by apply Hl.
Qed.

Lemma holds_handle rq key p id w :
  mission_id_ok id ->
  holds rq (decided (_idempotency_redis_key sha256_hex (str_strip key)) (_request_hash sha256_hex canonical_json p))
    (_handle_mission_idempotency auth sha256_hex canonical_json key p id) w.
Proof.
  intros Hid. unfold _handle_mission_idempotency.
  destruct (String.eqb _ ""); [by apply holds_fail|]. destruct (_ <? _)%nat; [by apply holds_fail|].
  set (k := _idempotency_redis_key _ _). set (h := _request_hash _ _ _).
  assert (is_idem k = true) as Hk by apply idem_key_is_idem.
  eapply holds_bind; [by apply (holds_acquire rq k h id)|done|].
  intros [] w1 Hl1 Hi1 Ha; [apply holds_ret; intros w2 Hl2 _; split; [by apply Hl2|done]|].
  eapply holds_bind; [by apply holds_load|done|].
  intros [rec|] w2 Hl2 Hi2 Hrec; cbn beta iota in Hrec.
  - destruct Hrec as [Hrec How]. by apply holds_decision.
  - eapply holds_bind; [apply holds_quiet; [by intros ? ? ? ?|done]|done|].
    intros _ w3 Hl3 Hi3 _. eapply holds_bind; [by apply (holds_acquire rq k h id)|done|].
    intros [] w4 Hl4 Hi4 Ha4; [apply holds_ret; intros w5 Hl5 _; split; [by apply Hl5|done]|by apply holds_fail].
Qed.

Lemma holds_vault rq m secrets w : holds rq anything (gw_store_vault m secrets) w.
Proof.
  unfold gw_store_vault. destruct secrets as [|sec secrets]; [by apply holds_ret|].
  eapply holds_catch with (Q := anything); [|by intros; apply holds_ret|done].
  eapply holds_bind; [apply holds_await with (Q := anything)|done|by intros; apply holds_ret].
  intros w' Hl Hi. split; [done|]. intros r w'' He. cbn [exec andb] in He.
  destruct (set_other (vault_key m) (json_dumps (VDict ((fun kv => (kv.1, VStr kv.2)) <$> sec :: secrets))) w'
    (vault_key_not_idem m) Hi) as [Hi' Hl'].
  by destruct He as [[-> _]|[-> _]]; split_and!.
Qed.

Lemma holds_persist rq left body w :
  owns rq (posted_id (VDict body)) w -> holds rq anything (persist_attempts auth left body) w.
Proof.
  revert w. induction left as [|left IH]; intros w Ho; cbn [persist_attempts]; [by apply holds_fail|].
  eapply holds_catch with (Q := anything).
  - unfold _proxy_post_internal. eapply holds_bind; [by apply holds_result with (Q := anything)|done|].
    intros key w1 Hl1 _ _. apply holds_await. intros w2 Hl2 Hi2. split.
    + cbn. eapply owns_later; [|exact Ho]. by etrans.
    + intros r w3 ->. by split_and!.
  - intros e w1 Hl1 _ _. destruct (_ && _); [|by apply holds_fail].
    eapply holds_bind; [apply holds_quiet; [by intros ? ? ? ?|done]|done|].
    intros _ w2 Hl2 _ _. apply IH. eapply owns_later; [|exact Ho]. by etrans.
  - done.
Qed.

Lemma holds_telemetry rq rq' m payload w :
  holds rq anything (_emit_intake_telemetry topics schema_valid iso_timestamp rq' m payload) w.
Proof.
  unfold _emit_intake_telemetry. eapply holds_catch with (Q := anything); [| |done].
  - eapply holds_bind; [by apply holds_result with (Q := anything)|done|].
    intros env w1 _ _ _. eapply holds_bind; [apply holds_quiet; [by intros ? ? ? ?|done]|done|].
    intros; by apply holds_ret.
  - intros e w1 _ _ _. destruct (_ || _); [by apply holds_ret|by apply holds_fail].
Qed.

Lemma unknown_rec_ok h m e : mission_id_ok m -> rec_ok (unknown_record h m e).
Proof. intros Hm. exists h, m. by split_and!. Qed.

Lemma merge_persisted_id m c payload persisted :
  dget payload "mission_id" = Some (VStr m) ->
  dget (merge_persisted m c payload persisted) "mission_id" = Some (VStr m).
Proof. intros Hm. unfold merge_persisted. cbv zeta. by rewrite !dget_dset_ne by discriminate. Qed.

(** The last part of [create_mission]: the mission goes upstream and is recorded. *)
Lemma holds_store_mission rq p secrets redis_key m w :
  hash_of rq = Some (_request_hash sha256_hex canonical_json p) -> mission_id_ok m ->
  idempotency_redis_key_of sha256_hex rq = redis_key ->
  owned rq (_request_hash sha256_hex canonical_json p) m w ->
  holds rq (post rq)
    (store_mission auth sha256_hex canonical_json topics schema_valid iso_timestamp exn_text max_attempts
       rq p secrets redis_key m) w.
Proof.
  intros Hh Hm Hk Ho. unfold store_mission. set (h := _request_hash _ _ _) in *.
  eapply holds_bind; [apply holds_vault|done|]. intros _ w1 Hl1 Hi1 _.
  assert (forall w', later w w' -> owned rq h m w') as Hown by (intros; by eapply owned_later).
  eapply holds_bind with (Q := anything); [|done|].
  - eapply holds_catch with (Q := anything).
    + apply holds_persist. eapply owned_owns; [done|]. by apply Hown.
    + intros e w2 Hl2 Hi2 _. assert (later w w2) as Hl by (by etrans).
      eapply holds_bind with (Q := anything); [|done|by intros; apply holds_fail].
      destruct redis_key as [k|]; [|by apply holds_ret].
      eapply holds_save; [by eapply key_of_is_idem|by apply unknown_rec_ok|done|]. by apply (Hown w2 Hl).
    + done.
  - intros persisted w2 Hl2 Hi2 _. assert (later w w2) as Hl by (by etrans).
    unfold finish_mission. destruct persisted as [| | | | |d]; try by apply holds_fail.
    eapply holds_bind; [apply holds_telemetry|done|]. intros _ w3 Hl3 Hi3 _.
    set (mp := merge_persisted _ _ _ _).
    assert (dget mp "mission_id" = Some (VStr m)) as Hmp by by apply merge_persisted_id.
    assert (later w w3) as Hlw3 by (by etrans).
    eapply holds_bind with (Q := anything); [|done|].
    + destruct redis_key as [k|]; [|by apply holds_ret].
      eapply holds_catch with (Q := anything); [|intros e w4 _ _ _; destruct (is_connection_error e);
        [by apply holds_ret|by apply holds_fail]|done].
      eapply holds_save; [by eapply key_of_is_idem|by apply completed_rec_ok|done|]. by apply (Hown w3 Hlw3).
    + intros b w4 Hl4 _ _. apply holds_result. intros w5 Hl5 _. unfold post.
      destruct (mission_record_of mp) as [mr|e] eqn:Er; [|done].
      apply mission_record_id in Er. rewrite Hmp in Er. injection Er as <-.
      eapply owned_owns; [done|]. apply Hown. by do 2 (etrans; [done|]).
Qed.

Lemma mission_prefix_ok u : str_strip ("mission-" +:+ u) = "mission-" +:+ u -> mission_id_ok ("mission-" +:+ u).
Proof. by split. Qed.

(** The whole handler, for a request whose fresh id is an id. *)
Lemma holds_create_mission rq w :
  mission_id_ok ("mission-" +:+ rq_mission_uuid rq) ->
  holds rq (post rq)
    (create_mission auth intake sha256_hex canonical_json topics schema_valid iso_timestamp exn_text max_attempts
       jwt_installed jwks_client_installed jwt_decode rq) w.
Proof.
  intros Hid. unfold create_mission.
  eapply holds_bind; [by apply holds_result with (Q := anything)|done|]. intros _ w1 _ _ _.
  eapply holds_bind with (Q := anything); [|done|].
  { unfold check_redis. eapply holds_catch with (Q := anything); [| |done].
    - eapply holds_bind; [apply holds_quiet; [by intros ? ? ? ?|done]|done|]. intros; by apply holds_ret.
    - intros e w2 _ _ _. destruct (is_connection_error e); by apply holds_fail. }
  intros _ w2 _ _ _.
  eapply holds_bind; [apply holds_result with (Q := fun r _ => match r with
    | inr ps => hash_of rq = Some (_request_hash sha256_hex canonical_json ps.1) | inl _ => True end)|done|].
  { intros w3 _ _. unfold hash_of. by destruct (prepare_payload intake (rq_payload rq)) as [[]|]. }
  intros [p secrets] w3 _ _ Hh. cbn [fst] in Hh.
  destruct (given (rq_idempotency_key rq)) as [key|] eqn:Eg.
  - assert (idempotency_redis_key_of sha256_hex rq = Some (_idempotency_redis_key sha256_hex (str_strip key))) as Ek
      by (unfold idempotency_redis_key_of; by rewrite Eg).
    eapply holds_bind; [by apply holds_handle|done|].
    intros [m|mission] w4 Hl4 Hi4 Hd; cbn in Hd.
    + destruct Hd as [Ho Hm]. apply holds_store_mission; [done|done|done|].
      intros k Hk. rewrite Ek in Hk. by injection Hk as <-.
    + eapply holds_bind; [apply holds_vault|done|]. intros _ w5 Hl5 _ _. apply holds_ret.
      intros w6 Hl6 _ k Hk. rewrite Ek in Hk. injection Hk as <-.
      eexists _, _. split_and!; [|exact Hh|reflexivity]. apply Hl6; [apply idem_key_is_idem|].
      apply Hl5; [apply idem_key_is_idem|done].
  - apply holds_store_mission; [done|done| |].
    + unfold idempotency_redis_key_of. by rewrite Eg.
    + intros k Hk. unfold idempotency_redis_key_of in Hk. by rewrite Eg in Hk.
Qed.
End idempotency.

(** ** A Redis that answers, and an orchestrator that answers [up] *)

Definition gw_env (up : cmd -> reply) (c : cmd) (w : store) : reply * store :=
  match c with
  | RedisGet k => (RVal (match w !! k with Some s => VStr s | None => VNone end), w)
  | RedisSet k v _ nx =>
      if nx && bool_decide (is_Some (w !! k)) then (RVal VNone, w) else (RVal (VBool true), <[k := v]> w)
  | Ping | RedisIncr _ | RedisExpire _ _ | RedisXAdd _ _ => (RVal (VBool true), w)
  | HttpGet _ _ | HttpPost _ _ _ => (up c, w)
  | Sleep => (RVal VNone, w)
  end.

(** An orchestrator that returns the mission it is asked for. *)
Definition up_sound (up : cmd -> reply) : Prop :=
  forall id key status d, up (HttpGet ("/missions/" +:+ id) key) = RHttp status (Some (VDict d)) ->
    status < 400 -> dget d "mission_id" = Some (VStr id).

Lemma gw_env_exec up : up_sound up -> forall c w, exec c w (gw_env up c w).1 (gw_env up c w).2.
Proof.
  intros Hup c w. destruct c; cbn; try done.
  - by split; [|left].
  - destruct (_ && _); [by split; [|left]|]. left. by split; [|left].
  - split; [done|]. intros id status d -> Hr Hs. by eapply Hup.
Qed.

(** ** The rate limit, counted *)

(** Redis' counters; a key outlives its window, since it expires five seconds after. *)
Definition count_exec (c : cmd) (w : gmap string Z) (r : reply) (w' : gmap string Z) : Prop :=
  match c with
  | RedisIncr k => let n := default 0 (w !! k) + 1 in r = RVal (VInt n) /\ w' = <[k := n]> w
  | _ => w' = w /\ exists v, r = RVal v
  end.

Section limiter.
Context (cfg : RateConfig) (sha256_hex : string -> string) (method path identifier : string).

Local Abbreviation W := (RATE_LIMIT_WINDOW_SECONDS cfg).
Local Abbreviation safe := (str_in (str_upper method) _SAFE_METHODS).
Local Abbreviation limit :=
  (if safe then API_READ_RATE_LIMIT_PER_MINUTE cfg else API_RATE_LIMIT_PER_MINUTE cfg).
Local Abbreviation middleware := (fun t : Z * Z => rate_limit_verdict cfg sha256_hex method path true identifier t.1 t.2).

(** What the [n]-th request of a window is told. *)
Definition nth_verdict (n t2 : Z) : verdict :=
  if limit <? n then TooMany (W - (t2 mod (1000 * W)) / 1000) limit
  else Proceed [("X-RateLimit-Limit", limit); ("X-RateLimit-Remaining", Z.max 0 (limit - n))].

Definition limited_path : Prop :=
  0 < limit /\ str_in path ["/health"; "/readyz"; "/metrics"] = false /\ path <> "/v1/stream/state".

Definition let_through (t : task cmd reply failure verdict) : bool :=
  match t with Done (inr (Proceed _)) => true | _ => false end.

Lemma retry_after_bounds t2 : 0 < W -> 1 <= W - (t2 mod (1000 * W)) / 1000 <= W.
Proof.
  intros Hw. pose proof (Z.mod_pos_bound t2 (1000 * W) ltac:(lia)).
  pose proof (Z.div_pos (t2 mod (1000 * W)) 1000 ltac:(lia) ltac:(lia)).
  pose proof (Z.div_lt_upper_bound (t2 mod (1000 * W)) 1000 W ltac:(lia) ltac:(lia)). lia.
Qed.

(** A request before and after it has been counted. *)
Definition counted (t : Z * Z) (v : option Z) (s : task cmd reply failure verdict) : Prop :=
  match v with
  | None => s = middleware t
  | Some n => s = tret (nth_verdict n t.2) \/ exists c, (forall k, c <> RedisIncr k) /\
                (exists f, s = Do c f /\ forall r, f (RVal r) = tret (nth_verdict n t.2))
  end.

Lemma middleware_counts t :
  limited_path -> exists f,
    middleware t = Do (RedisIncr (rate_key sha256_hex (if safe then "read" else "write") identifier
                                    (t.1 / (1000 * W)))) f /\
    forall n, counted t (Some n) (f (RVal (VInt n))).
Proof.
  intros (Hl & Hp & Hs). unfold rate_limit_verdict. rewrite Hp, (proj2 (String.eqb_neq _ _) Hs).
  rewrite (proj2 (Z.ltb_lt _ _) Hl). cbn [andb negb]. eexists. split; [reflexivity|].
  intros n. unfold counted, nth_verdict. cbn. destruct (n =? 1) eqn:E.
  - right. eexists (RedisExpire _ _). split; [by intros ? [=]|]. eexists. split; [reflexivity|]. intros r. cbn.
    by destruct (_ <? n).
  - left. cbn. by destruct (_ <? n).
Qed.

Lemma omap_insert_some (vs : list (option Z)) i n :
  vs !! i = Some None -> omap id (<[i := Some n]> vs) ≡ₚ n :: omap id vs.
Proof.
  revert i. induction vs as [|v vs IH]; intros [|i]; cbn; try done.
  - by intros [= ->].
  - intros Hi. destruct v as [z|]; cbn; rewrite (IH i Hi); [by constructor|done].
Qed.

(** The invariant: the requests counted so far were given 1, 2, .. in some order. *)
Definition limiter_inv (k : string) (times : list (Z * Z)) (p : pool cmd reply failure verdict (gmap string Z)) : Prop :=
  exists vs, length vs = length times /\ length (threads p) = length times /\
    (forall i t v s, times !! i = Some t -> vs !! i = Some v -> threads p !! i = Some s -> counted t v s) /\
    omap id vs ≡ₚ seqZ 1 (Z.of_nat (length (omap id vs))) /\
    default 0 (world p !! k) = Z.of_nat (length (omap id vs)).

Lemma limiter_step win times p p' :
  let k := rate_key sha256_hex (if safe then "read" else "write") identifier win in
  limited_path -> Forall (fun t => t.1 / (1000 * W) = win) times ->
  pool_step count_exec p p' -> limiter_inv k times p -> limiter_inv k times p'.
Proof.
  intros k Hpath Hwin [ts w tr i c f r w' Hi He] (vs & Hv & Ht & Hc & Hp & Hw). cbn in *.
  destruct (lookup_lt_is_Some_2 times i) as [t Hti]; [rewrite <- Ht; by eapply lookup_lt_Some|].
  destruct (lookup_lt_is_Some_2 vs i) as [v Hvi]; [rewrite Hv; by eapply lookup_lt_Some|].
  pose proof (Hc _ _ _ _ Hti Hvi Hi) as Hs. destruct v as [n|]; cbn in Hs.
  - destruct Hs as [Hs|(c' & Hne & f' & Hs & Hf)]; [done|]. injection Hs as <- <-.
    assert (w' = w /\ exists u, r = RVal u) as [-> [u ->]] by (destruct c; try done; by edestruct Hne).
    exists vs. cbn. rewrite length_insert. split_and!; [done..| |done|done].
    intros j t' v' s' Htj Hvj Hsj. destruct (decide (i = j)) as [<-|Hij].
    + rewrite list_lookup_insert_eq in Hsj by (by eapply lookup_lt_Some). simplify_eq. left. apply Hf.
    + rewrite list_lookup_insert_ne in Hsj by done. by eapply Hc.
  - destruct (middleware_counts t Hpath) as (f' & Hm & Hf). rewrite Hm in Hs. injection Hs as -> ->.
    rewrite (proj1 (Forall_lookup _ _) Hwin i t Hti) in He. fold k in He. destruct He as [-> ->].
    rewrite Hw. set (n := Z.of_nat (length (omap id vs)) + 1).
    exists (<[i := Some n]> vs). cbn. rewrite !length_insert.
    pose proof (omap_insert_some vs i n Hvi) as Hperm.
    assert (length (omap id (<[i:=Some n]> vs)) = S (length (omap id vs))) as Hlen by (by rewrite Hperm).
    split_and!; [done..| | |].
    + intros j t' v' s' Htj Hvj Hsj. cbn in Hsj. destruct (decide (i = j)) as [<-|Hij].
      * rewrite list_lookup_insert_eq in Hsj by (by eapply lookup_lt_Some).
        rewrite list_lookup_insert_eq in Hvj by (by eapply lookup_lt_Some). simplify_eq. apply Hf.
      * rewrite list_lookup_insert_ne in Hsj by done. rewrite list_lookup_insert_ne in Hvj by done. by eapply Hc.
    + rewrite Hlen, seqZ_S, Hperm, Hp at 1. rewrite Permutation_cons_append.
      by rewrite (Z.add_comm 1).
    + cbn. rewrite Hlen, lookup_insert_eq. cbn. lia.
Qed.

(** Counting the requests that were given a number within the limit. *)
Lemma count_within (l : Z) (n : nat) :
  0 <= l -> length (filter (fun x => x <= l) (seqZ 1 (Z.of_nat n))) = Nat.min n (Z.to_nat l).
Proof.
  intros Hl. induction n as [|n IH]; [done|]. rewrite seqZ_S, filter_app, length_app, IH, filter_cons, filter_nil.
  destruct (decide (1 + Z.of_nat n <= l)); cbn [length]; lia.
Qed.

Lemma let_through_counted (times : list (Z * Z)) (vs : list (option Z)) ts :
  length vs = length times -> length ts = length times ->
  (forall i t v s, times !! i = Some t -> vs !! i = Some v -> ts !! i = Some s ->
     exists n, v = Some n /\ s = tret (nth_verdict n t.2)) ->
  length (filter (fun s => let_through s = true) ts) = length (filter (fun n => n <= limit) (omap id vs)) /\
  length (omap id vs) = length times.
Proof.
  revert vs ts. induction times as [|t times IH]; intros [|v vs] [|s ts] Hv Ht Hc; try done.
  destruct (Hc 0%nat t v s) as (n & -> & ->); [done..|].
  destruct (IH vs ts) as [Ha Hb]; [by injection Hv|by injection Ht|intros i; apply (Hc (S i))|].
  split; [|cbn; by rewrite Hb].
  change (omap id (Some n :: vs)) with (n :: omap id vs). rewrite !filter_cons.
  assert (let_through (tret (nth_verdict n t.2)) = negb (limit <? n)) as ->
    by (unfold nth_verdict; by destruct (limit <? n)).
  destruct (Z.ltb_spec limit n).
  - rewrite decide_False by done. rewrite decide_False by lia. exact Ha.
  - rewrite decide_True by done. rewrite decide_True by lia. by rewrite !length_cons, Ha.
Qed.

End limiter.

(** A request whose key already has a record, up to the look at the record. *)
Section existing.
Context `{Regexes, Json, !JsonLaws} (auth : GwAuth) (intake : IntakeConfig)
        (sha256_hex : string -> string) (canonical_json : val -> string)
        (topics : list string) (schema_valid : val -> bool) (iso_timestamp : string -> bool)
        (exn_text : failure -> string) (max_attempts : nat)
        (jwt_installed jwks_client_installed : bool) (jwt_decode : JwtRequest -> option val).

Local Abbreviation create := (create_mission auth intake sha256_hex canonical_json topics schema_valid
  iso_timestamp exn_text max_attempts jwt_installed jwks_client_installed jwt_decode).

(** A request that is let in, well-formed, and carries a usable key. *)
Record keyed (rq : Request) (p : MissionCreate) (secrets : list (string * string)) (key : string) : Prop := {
  ky_access : _require_reader_access jwt_installed jwks_client_installed jwt_decode auth
                (rq_x_api_key rq) (rq_authorization rq) = Ok tt;
  ky_prepared : prepare_payload intake (rq_payload rq) = Ok (p, secrets);
  ky_given : given (rq_idempotency_key rq) = Some key;
  ky_nonblank : str_strip key <> "";
  ky_length : (String.length (str_strip key) <= 256)%nat;
}.

Lemma run_create_existing up rq p secrets key rec w :
  keyed rq p secrets key -> json_dumps (VDict rec) <> "" ->
  w !! _idempotency_redis_key sha256_hex (str_strip key) = Some (json_dumps (VDict rec)) ->
  exists tr, run (gw_env up) (create rq) w =
    (let '(out, w', tr') := run (gw_env up)
       (decision ← existing_decision auth (_idempotency_redis_key sha256_hex (str_strip key))
                     (_request_hash sha256_hex canonical_json p) rec;
        match decision with
        | inr existing => _ ← gw_store_vault (gm_mission_id existing) secrets; tret existing
        | inl mission_id => store_mission auth sha256_hex canonical_json topics schema_valid iso_timestamp exn_text
                              max_attempts rq p secrets (idempotency_redis_key_of sha256_hex rq) mission_id
        end) w in (out, w', tr ++ tr')) /\
    Forall (fun cr => match cr.1 with HttpPost _ _ _ => False | _ => True end) tr.
Proof.
  intros [Ha Hp Hg Hn Hlen] Hne Hw. unfold create_mission. rewrite Ha, Hp, Hg. cbn [of_result mbind task_bind tbind tret check_redis redis await tcatch].
  set (k := _idempotency_redis_key _ _) in *. set (h := _request_hash _ _ _).
  unfold _handle_mission_idempotency. rewrite (proj2 (String.eqb_neq _ _) Hn).
  rewrite (proj2 (Nat.ltb_ge _ _) Hlen). fold k h.
  unfold _save_idempotency_record, _load_idempotency_record, redis.
  cbn. rewrite !bool_decide_true by eauto. cbn. rewrite Hw. cbn.
  rewrite (proj2 (String.eqb_neq _ _) Hne). cbn. rewrite json_roundtrip. cbn.
  destruct (run (gw_env up) _ w) as [[out w'] tr'].
  exists [(Ping, RVal (VBool true));
          (RedisSet k (json_dumps (VDict (in_progress_record h ("mission-" +:+ rq_mission_uuid rq))))
             IDEMPOTENCY_TTL_SECONDS true, RVal VNone);
          (RedisGet k, RVal (VStr (json_dumps (VDict rec))))].
  split; [done|by repeat constructor].
Qed.

(** ** Properties *)

(** C4: one mission per idempotency key.  Take any number of creation requests, served
    concurrently by any number of gateway processes in any interleaving, over a Redis
    whose commands may fail with or without effect and an orchestrator that may refuse,
    fail or lose its answer.  For every key there is one payload hash and one mission id
    such that every mission ever sent upstream under that key, and every mission ever
    answered under it, is that mission for that payload. *)
Theorem one_mission_per_key (rqs : list Request) (w0 : store) (p : pool cmd reply failure GwMission store) :
  Forall (fun rq => mission_id_ok ("mission-" +:+ rq_mission_uuid rq)) rqs -> inv w0 ->
  rtc (pool_step exec) (mkPool (create <$> rqs) w0 []) p ->
  forall k, exists h m,
    (forall i rq path key body r, rqs !! i = Some rq -> idempotency_redis_key_of sha256_hex rq = Some k ->
       (i, HttpPost path key body, r) ∈ trace p ->
       posted_id body = Some m /\ hash_of intake sha256_hex canonical_json rq = Some h) /\
    (forall i rq mission, rqs !! i = Some rq -> idempotency_redis_key_of sha256_hex rq = Some k ->
       threads p !! i = Some (tret mission) ->
       gm_mission_id mission = m /\ hash_of intake sha256_hex canonical_json rq = Some h).
Proof.
  intros Hids Hinv Hsteps k.
  set (pre_i := fun i c w => match rqs !! i with
                             | Some rq => pre intake sha256_hex canonical_json rq c w | None => False end).
  set (post_i := fun i (r : failure + GwMission) w => match rqs !! i with
                             | Some rq => post intake sha256_hex canonical_json rq r w | None => False end).
  assert (pool_ok exec inv later pre_i post_i p) as [Hinv' Hts Htr].
  { eapply pool_steps_ok; [apply _| |exact Hsteps|].
    - intros i c w w' Hl. unfold pre_i. destruct (rqs !! i); [by apply pre_later|done].
    - split; cbn; [done| |by intros ? ? ? ?%elem_of_nil].
      intros i t Ht. rewrite list_lookup_fmap in Ht.
      destruct (rqs !! i) as [rq|] eqn:Hi; [|done]. injection Ht as <-.
      unfold pre_i, post_i. rewrite Hi. apply holds_create_mission.
      by apply (proj1 (Forall_lookup _ _) Hids i). }
  exists (default ("", "") (owner (world p) k)).1, (default ("", "") (owner (world p) k)).2. split.
  - intros i rq path key body r Hi Hk Hin. specialize (Htr _ _ _ Hin). unfold pre_i in Htr. rewrite Hi in Htr.
    destruct (Htr k Hk) as (h & m & -> & Hh & Hm). by split.
  - intros i rq mission Hi Hk Ht. specialize (Hts _ _ Ht). unfold pre_i, post_i in Hts. rewrite Hi in Hts.
    specialize (Hts (world p) ltac:(reflexivity) Hinv'). cbn in Hts.
    destruct (Hts k Hk) as (h & m & -> & Hh & Hm). by simplify_eq/=.
Qed.

(** A request whose key belongs to a mission that was created gets that mission
    back, from the record: nothing is sent to the orchestrator and the record stays. *)
Lemma completed_key_replays up rq p secrets key mission mr w :
  keyed rq p secrets key ->
  let k := _idempotency_redis_key sha256_hex (str_strip key) in
  let rec := completed_record (_request_hash sha256_hex canonical_json p) (gm_mission_id mr) mission in
  json_dumps (VDict rec) <> "" -> mission_record_of mission = Ok mr ->
  w !! k = Some (json_dumps (VDict rec)) ->
  exists w' tr, run (gw_env up) (create rq) w = (inr mr, w', tr) /\ w' !! k = w !! k /\
    Forall (fun cr => match cr.1 with HttpPost _ _ _ => False | _ => True end) tr.
Proof.
  intros Hky k rec Hne Hmr Hw.
  destruct (run_create_existing up rq p secrets key rec w Hky Hne Hw) as (tr & -> & Htr).
  fold k. unfold existing_decision.
  rewrite (bool_decide_true (dget0 rec "request_hash" = _)) by done. cbn [negb].
  rewrite (bool_decide_true (dget0 rec "status" = VStr "completed")) by done.
  cbn -[gw_store_vault mission_record_of]. rewrite Hmr. cbn -[gw_store_vault].
  unfold gw_store_vault. destruct secrets as [|sec secrets].
  - exists w, tr. cbn. rewrite app_nil_r. by split_and!.
  - cbn. eexists _, _. split; [reflexivity|]. split.
    + rewrite lookup_insert_ne; [done|]. intros Heq.
      pose proof (idem_key_is_idem sha256_hex (str_strip key)) as Hi. fold k in Hi. rewrite <- Heq in Hi. done.
    + apply Forall_app. split; [done|by repeat constructor].
Qed.

(** A key whose record says [processing] is dead until the record expires: every
    request with it is answered 409, whatever the orchestrator knows, and nothing is
    written.  That record is what is left when the request that took the key ended
    between the two writes, its mission stored or not. *)
Lemma processing_key_blocks up rq p secrets key h m w :
  keyed rq p secrets key ->
  let k := _idempotency_redis_key sha256_hex (str_strip key) in
  json_dumps (VDict (in_progress_record h m)) <> "" ->
  w !! k = Some (json_dumps (VDict (in_progress_record h m))) ->
  exists detail tr, run (gw_env up) (create rq) w = (inl (http_error 409 detail), w, tr) /\
    Forall (fun cr => match cr.1 with HttpPost _ _ _ => False | _ => True end) tr.
Proof.
  intros Hky k Hne Hw.
  destruct (run_create_existing up rq p secrets key _ w Hky Hne Hw) as (tr & -> & Htr).
  fold k. unfold existing_decision.
  destruct (bool_decide (dget0 (in_progress_record h m) "request_hash" = _)); cbn [negb].
  2: by cbn; rewrite app_nil_r; eexists _, _.
  rewrite (bool_decide_false (dget0 (in_progress_record h m) "status" = VStr "completed")) by done.
  rewrite (bool_decide_false (dget0 (in_progress_record h m) "status" = VStr "upstream_unknown")) by done.
  by cbn; rewrite app_nil_r; eexists _, _.
Qed.
End existing.

(** ** Evaluation on a concrete input *)

Definition demo_up (c : cmd) : reply :=
  match c with HttpPost _ _ body => RHttp 201 (Some body) | _ => RHttp 404 None end.

Lemma demo_up_sound : up_sound demo_up.
Proof. by intros id key status d [=]. Qed.

Definition demo_create : Request -> task cmd reply failure GwMission :=
  @create_mission demo_regexes binary_json demo_auth demo_intake_cfg (fun s => s) (fun _ => "body")
    ["intake.feature_contract.created"] (fun _ => true) (fun _ => true) (fun _ => "lost") 3
    false false (fun _ => None).

Definition demo_rq (uuid : string) : Request :=
  mkRequest (demo_request "a parser" demo_metadata) (Some " k1 ") (Some "ro") None uuid "e1" "2026-01-01T00:00:00Z".

(** Two requests with one key, taking turns. *)
Definition demo_rqs : list Request := [demo_rq "a"; demo_rq "b"].

Definition demo_turns : list nat := flat_map (fun _ => [1; 0]%nat) (seq 0 12).

Definition demo_pool : pool cmd reply failure GwMission store :=
  run_pool (gw_env demo_up) demo_turns (mkPool (demo_create <$> demo_rqs) ∅ []).

Lemma demo_ids : Forall (fun rq => mission_id_ok ("mission-" +:+ rq_mission_uuid rq)) demo_rqs.
Proof. repeat constructor; done. Qed.

Lemma one_mission_per_key_witness :
  (exists mission, threads demo_pool !! 1%nat = Some (tret mission) /\ gm_mission_id mission = "mission-b") /\
  forall k, exists h m,
    (forall i rq path key body r, demo_rqs !! i = Some rq -> idempotency_redis_key_of (fun s => s) rq = Some k ->
       (i, HttpPost path key body, r) ∈ trace demo_pool ->
       posted_id body = Some m /\ @hash_of demo_regexes demo_intake_cfg (fun s => s) (fun _ => "body") rq = Some h) /\
    (forall i rq mission, demo_rqs !! i = Some rq -> idempotency_redis_key_of (fun s => s) rq = Some k ->
       threads demo_pool !! i = Some (tret mission) ->
       gm_mission_id mission = m /\ @hash_of demo_regexes demo_intake_cfg (fun s => s) (fun _ => "body") rq = Some h).
Proof.
  split; [eexists; split; [vm_compute; reflexivity|done]|].
  apply (one_mission_per_key (H:=demo_regexes) (H0:=binary_json) (H1:=binary_json_laws)
    demo_auth demo_intake_cfg (fun s => s) (fun _ => "body")
    ["intake.feature_contract.created"] (fun _ => true) (fun _ => true) (fun _ => "lost") 3
    false false (fun _ => None) demo_rqs ∅ demo_pool demo_ids).
  - by intros k raw _ Hl.
  - apply run_pool_steps, gw_env_exec, demo_up_sound.
Defined.

Example demo_second_refused :
  threads demo_pool !! 0%nat =
  Some (traise (http_error 409 "request with this Idempotency-Key is in progress")).
Proof. by_compute. Qed.

(** What the request [demo_rq] prepares. *)
Definition demo_prepared : MissionCreate * list (string * string) :=
  match @prepare_payload demo_regexes demo_intake_cfg (rq_payload (demo_rq "a")) with
  | Ok ps => ps
  | Raise _ => (demo_request "" [], [])
  end.

Lemma demo_keyed :
  @keyed demo_regexes demo_auth demo_intake_cfg false false (fun _ => None)
    (demo_rq "a") demo_prepared.1 demo_prepared.2 " k1 ".
Proof. split; [by_compute..|by vm_compute|vm_compute; lia]. Qed.

Definition demo_key : string := _idempotency_redis_key (fun s => s) "k1".

Definition demo_hash : string := _request_hash (fun s => s) (fun _ => "body") demo_prepared.1.

Definition demo_mission : dict :=
  [("mission_id", VStr "mission-z"); ("prompt", VStr "a parser"); ("metadata", VDict []); ("state", VStr "QUEUED");
   ("created_at", VStr "2026-01-01T00:00:00Z")].

Definition demo_record : GwMission :=
  mkGwMission "mission-z" "a parser" None [] None None "QUEUED" "2026-01-01T00:00:00Z".

Definition demo_completed : store :=
  {[demo_key := @json_dumps binary_json (VDict (completed_record demo_hash "mission-z" demo_mission))]}.

Definition demo_processing : store :=
  {[demo_key := @json_dumps binary_json (VDict (in_progress_record demo_hash "mission-z"))]}.

Lemma completed_key_replays_witness :
  exists w' tr, run (gw_env demo_up) (demo_create (demo_rq "a")) demo_completed = (inr demo_record, w', tr) /\
    w' !! demo_key = demo_completed !! demo_key /\
    Forall (fun cr => match cr.1 with HttpPost _ _ _ => False | _ => True end) tr.
Proof.
  apply (completed_key_replays (H:=demo_regexes) (H0:=binary_json) (H1:=binary_json_laws)
    demo_auth demo_intake_cfg (fun s => s) (fun _ => "body")
    ["intake.feature_contract.created"] (fun _ => true) (fun _ => true) (fun _ => "lost") 3
    false false (fun _ => None) demo_up (demo_rq "a") _ _ " k1 " demo_mission demo_record _ demo_keyed).
  - vm_compute. congruence.
  - by_compute.
  - apply lookup_singleton_eq.
Defined.

Lemma processing_key_blocks_witness :
  exists detail tr, run (gw_env demo_up) (demo_create (demo_rq "a")) demo_processing
    = (inl (http_error 409 detail), demo_processing, tr) /\
    Forall (fun cr => match cr.1 with HttpPost _ _ _ => False | _ => True end) tr.
Proof.
  apply (processing_key_blocks (H:=demo_regexes) (H0:=binary_json) (H1:=binary_json_laws)
    demo_auth demo_intake_cfg (fun s => s) (fun _ => "body")
    ["intake.feature_contract.created"] (fun _ => true) (fun _ => true) (fun _ => "lost") 3
    false false (fun _ => None) demo_up (demo_rq "a") _ _ " k1 " demo_hash "mission-z" _ demo_keyed).
  - vm_compute. congruence.
  - apply lookup_singleton_eq.
Defined.

(** Three requests at once under a limit of two. *)
Definition demo_rates : RateConfig := mkRateConfig 2 5 60.

Definition demo_times : list (Z * Z) := [(61000, 61000); (61000, 119999); (100000, 100001)].

Definition demo_count_env (c : cmd) (w : gmap string Z) : reply * gmap string Z :=
  match c with
  | RedisIncr k => let n := default 0 (w !! k) + 1 in (RVal (VInt n), <[k := n]> w)
  | _ => (RVal (VBool true), w)
  end.

Lemma demo_count_exec c w : count_exec c w (demo_count_env c w).1 (demo_count_env c w).2.
Proof. destruct c; cbn; eauto. Qed.

Definition demo_limited : pool cmd reply failure verdict (gmap string Z) :=
  run_pool demo_count_env [2; 0; 1; 1; 0; 2]%nat
    (mkPool ((fun t => rate_limit_verdict demo_rates (fun s => s) "post" "/v1/missions" true "ip:a" t.1 t.2)
               <$> demo_times) ∅ []).

