(* ===== verification/Routes.v ===== *)
(** * Routes

    The handlers of the orchestrator that write missions on behalf of other
    services: [POST /missions], [POST /missions/id/state] and [/clarify] of
    [O/routes/missions.py], [POST /internal/missions/id/refined-ir] and
    [/partition-results] of [O/routes/internal.py], and the consumer of Delta verdicts
    of [O/main.py].  Each is a coroutine whose commands are the database actions of
    Store, the Redis write of the provider keys and the start of a lifecycle task;
    between two commands any other handler may run.  Audit and state events, whose
    failures the handlers swallow, are left out. *)

From S2P Require Import Prelude PyVal MissionTypes MissionStates MissionFlow ProjectIdentity Scaling.
From S2P Require Import Tasks Store Lifecycle Engines.

(** ** Commands and the world they act on *)

Inductive act :=
| Fetch (mission_id : string)
| Upsert (record : MissionRecord) (source_stream_id : option string)
| LogEvent (mission_id : string) (previous_state : option MissionState) (new_state : MissionState) (event_type : string)
| Transition (mission_id : string) (expected_state : option MissionState) (new_state : MissionState) (event_type : string)
| UpdateMetadata (mission_id : string) (metadata : dict)
| PutPartitionResult (now mission_id : string) (raw : dict)
| PutVault (mission_id : string) (secrets : list (string * string))
| StartLifecycle (mission_id : string).

Inductive answer :=
| Finished
| Mission (record : option MissionRecord)
| Raised (e : exn).

Record World := mkWorld {
  w_db : DB;
  w_vaults : gmap string (list (string * string));
  w_tasks : Engines.Tasks * list string;
}.

Definition with_w_db (db : DB) (w : World) : World := mkWorld db (w_vaults w) (w_tasks w).

(** A database action of Store and how its outcome is answered. *)
Definition db_act {A} (m : M A) (f : A -> answer) (w : World) : answer * World :=
  let '(r, db) := m (w_db w) in
  (match r with Ok a => f a | Raise e => Raised e end, with_w_db db w).

Section routes.
Context (auto_transition_enabled : bool).

Definition act_exec (c : act) (w : World) : answer * World :=
  match c with
  | Fetch id => db_act (fetch_mission id) Mission w
  | Upsert r src => db_act (upsert_mission r src) (fun _ => Finished) w
  | LogEvent id p s ev => db_act (insert_mission_event id p s ev) (fun _ => Finished) w
  | Transition id e t ev => db_act (transition_mission_state id e t ev) Mission w
  | UpdateMetadata id metadata => db_act (update_mission_metadata id metadata) Mission w
  | PutPartitionResult now id raw => db_act (store_partition_result now id raw) Mission w
  | PutVault id secrets => (Finished, mkWorld (w_db w) (<[vault_key id := secrets]> (w_vaults w)) (w_tasks w))
  | StartLifecycle id =>
      (Finished, mkWorld (w_db w) (w_vaults w) (start_lifecycle_task auto_transition_enabled id (w_tasks w)))
  end.

Definition act_step (c : act) (w : World) (r : answer) (w' : World) : Prop := act_exec c w = (r, w').
End routes.

Abbreviation route := (task act answer exn).

Definition do_act (c : act) : route unit :=
  await c (fun r => match r with Raised e => inl e | _ => inr tt end).

Definition ask (c : act) : route (option MissionRecord) :=
  await c (fun r => match r with Raised e => inl e | Mission o => inr o | Finished => inr None end).

Definition http_raise {A} (status : Z) : route A := traise (HTTPException status).

(** ** What the handlers share *)

Section handlers.
Context (now : string) (db_ready : bool).

Definition _ensure_db_ready : route unit := if db_ready then tret tt else http_raise 503.

Definition _fetch_existing_mission (mission_id : string) : route MissionRecord :=
  mission ← ask (Fetch mission_id);
  match mission with Some m => tret m | None => http_raise 404 end.

(** ** [POST /missions] *)

(** [models.MissionCreate], as far as the handler reads it. *)
Record OrchCreate := mkOrchCreate {
  oc_mission_id : string;
  oc_prompt : string;
  oc_language : option string;
  oc_mission_type : option string;
  oc_depth_mode : option string;
  oc_output_mode : option string;
  oc_data_classification : option string;
  oc_metadata : dict;
  oc_project_id : option string;
  oc_created_at : option string;
}.

Definition posted_metadata (engine : string) (p : OrchCreate) : dict :=
  dset (with_project_identity (VDict (split_vault (oc_metadata p)).1) (Some (oc_mission_id p)))
    "lifecycle_engine" (VStr engine).

Definition posted_record (engine : string) (p : OrchCreate) : MissionRecord :=
  let metadata := posted_metadata engine p in
  mkMission (oc_mission_id p) (oc_prompt p) (oc_language p) (oc_mission_type p) (oc_depth_mode p)
    (oc_output_mode p) (oc_data_classification p) metadata
    (Some (str_or (default "" (oc_project_id p)) (resolve_project_id (VDict metadata) (Some (oc_mission_id p)))))
    (Some engine) queued (str_or (default "" (oc_created_at p)) now).

(** [engine] is [get_lifecycle_engine_name] of the settings. *)
Definition post_mission (engine : string) (redis_connected : bool) (p : OrchCreate) : route MissionRecord :=
  _ ← _ensure_db_ready;
  let vault_secrets := (split_vault (oc_metadata p)).2 in
  _ ← match vault_secrets with
      | [] => tret tt
      | _ => if redis_connected then do_act (PutVault (oc_mission_id p) vault_secrets) else tret tt
      end;
  let record := posted_record engine p in
  _ ← do_act (Upsert record None);
  _ ← do_act (LogEvent (ms_mission_id record) (Some intake) queued "MISSION_QUEUED");
  _ ← do_act (StartLifecycle (ms_mission_id record));
  tret record.

(** ** [POST /missions/id/state] *)

Definition update_mission_state (mission_id : string) (expected_state : option MissionState)
    (new_state : MissionState) : route MissionRecord :=
  _ ← _ensure_db_ready;
  record ← ask (Transition mission_id expected_state new_state ("MISSION_" +:+ state_value new_state));
  match record with Some m => tret m | None => http_raise 409 end.

(** ** [POST /missions/id/clarify] *)

Definition clarified_metadata (mission : MissionRecord) (clarification : string) : dict :=
  let metadata := with_chain_defaults (VDict (ms_metadata mission)) (ms_language mission) in
  let metadata := dset metadata "pm_clarification" (VStr clarification) in
  let metadata := dset metadata "user_intent" (VStr "finalize_plan") in
  append_chain_event metadata "MISSION_CLARIFICATION_RECEIVED" "AGENT-01-PM"
    (Some [("clarification_length", VInt (Z.of_nat (String.length clarification)))]) None now.

Definition clarify_mission (mission_id clarification : string) : route MissionRecord :=
  _ ← _ensure_db_ready;
  mission ← _fetch_existing_mission mission_id;
  if negb (bool_decide (ms_state mission = clarifying)) then http_raise 409
  else
    _ ← ask (UpdateMetadata mission_id (clarified_metadata mission clarification));
    record ← ask (Transition mission_id (Some clarifying) queued "MISSION_CLARIFICATION_APPLIED");
    match record with
    | None => http_raise 409
    | Some m => _ ← do_act (StartLifecycle mission_id); tret m
    end.

(** ** [POST /internal/missions/id/refined-ir] *)

Definition _REFINED_IR_MAX_FUNCTIONS : nat := 25.
Definition _REFINED_IR_MAX_VECTORS_PER_FN : nat := 3.

Definition executable_vector (vector : val) : bool :=
  match vector with
  | VDict v => match dget0 v "out" with VDict out => truthy (dget0 out "executable") | _ => false end
  | _ => false
  end.

(** What is kept of a function, if anything is. *)
Definition executable_function (f : val) : option val :=
  match f with
  | VDict function =>
      if negb (bool_decide (dget0 function "projection_method" = VStr "ast_v1")) then None
      else
        let vectors := match dget0 function "tests" with VDict tests => dget0 tests "equivalence_vectors" | _ => VNone end in
        match vectors with
        | VList vectors =>
            let kept := List.filter executable_vector (take _REFINED_IR_MAX_VECTORS_PER_FN vectors) in
            match kept with
            | [] => None
            | _ => Some (VDict [("fn_id", VStr (py_str (py_or (dget0 function "fn_id") (VStr ""))));
                                ("name", VStr (py_str (py_or (dget0 function "name") (VStr ""))));
                                ("projection_method", VStr "ast_v1"); ("purity", dget0 function "purity");
                                ("tests", VDict [("equivalence_vectors", VList kept)])])
            end
        | _ => None
        end
  | _ => None
  end.

Definition executable_functions (functions : list val) : list val :=
  omap executable_function (take _REFINED_IR_MAX_FUNCTIONS functions).

Definition refined_ir_module (payload : dict) (executable : list val) : dict :=
  [("module", match dget0 payload "module" with VDict d => VDict d | _ => VDict [] end);
   ("projection_method", dget0 payload "projection_method");
   ("fns", VList executable); ("recorded_at", VStr now)].

Definition record_refined_ir_module (mission_id : string) (payload : dict) : route (list val) :=
  _ ← _ensure_db_ready;
  mission ← _fetch_existing_mission mission_id;
  match dget0 payload "fns" with
  | VList functions =>
      let executable := executable_functions functions in
      let metadata := dset (ms_metadata mission) "refined_ir_module" (VDict (refined_ir_module payload executable)) in
      record ← ask (UpdateMetadata mission_id metadata);
      match record with None => http_raise 404 | Some _ => tret executable end
  | _ => http_raise 422
  end.

(** ** [POST /internal/missions/id/partition-results] *)

(** The result as it is handed to the store: [payload.get("logicnodes", [])] and
    [artifacts] are iterated and [int()] applied, each of which may raise. *)
Definition partition_payload (payload : dict) : result (option dict) :=
  let partition_id := str_strip (py_str (dget_or payload "partition_id" (VStr ""))) in
  let agent_id := str_strip (py_str (dget_or payload "agent_id" (VStr ""))) in
  if String.eqb partition_id "" || String.eqb agent_id "" then Ok None
  else
    i ← py_int (dget_or payload "instance_index" (VInt 0));
    nodes ← dicts_of (dget_or payload "logicnodes" (VList []));
    artifacts ← dicts_of (dget_or payload "artifacts" (VList []));
    Ok (Some [("partition_id", VStr partition_id); ("instance_index", VInt i); ("agent_id", VStr agent_id);
              ("logicnodes", VList nodes); ("artifacts", VList artifacts);
              ("report", match dget0 payload "report" with VDict d => VDict d | _ => VDict [] end);
              ("completed_at", py_or (dget0 payload "completed_at") (VStr now))]).

Definition of_raw {A} (r : result A) : route A := match r with Ok a => tret a | Raise e => traise e end.

Definition upsert_partition_result (mission_id : string) (payload : dict) : route MissionRecord :=
  _ ← _ensure_db_ready;
  mission ← _fetch_existing_mission mission_id;
  raw ← of_raw (partition_payload payload);
  match raw with
  | None => http_raise 422
  | Some raw =>
      record ← ask (PutPartitionResult now mission_id raw);
      match record with
      | None => http_raise 404
      | Some m =>
          _ ← (if bool_decide (ms_state m = running) && truthy (dget0 (ms_metadata m) "scaling_merge_complete")
               then do_act (StartLifecycle mission_id) else tret tt);
          tret m
      end
  end.

(** ** The consumer of Delta verdicts *)

Definition _DELTA_PASS_RESULTS : list string := ["pass"; "passed"; "verified"; "approved"; "ok"].
Definition DELTA_AUDIT_GATE_KEY := "delta_audit_gate".

(** [remainder.rsplit("-", 1)[0]]: what stands before the last separator. *)
Fixpoint before_last (sep : ascii) (l : list ascii) : option (list ascii) :=
  match l with
  | [] => None
  | a :: l' =>
      match before_last sep l' with
      | Some r => Some (a :: r)
      | None => if Ascii.eqb a sep then Some [] else None
      end
  end.

Definition delta_prefix : string := "delta-".

Definition _mission_id_from_delta (content : dict) (correlation_id : val) : string :=
  let findings := dict_value (dget0 content "findings") in
  let mission_id := str_strip (py_str (py_or (dget0 findings "mission_id") (VStr ""))) in
  if negb (String.eqb mission_id "") then mission_id
  else
    let correlation_id := str_strip (py_str (py_or correlation_id (VStr ""))) in
    if startswith delta_prefix correlation_id then
      let remainder := str_drop (String.length delta_prefix) correlation_id in
      match before_last "-" (chars remainder) with
      | Some l => unchars l
      | None => remainder
      end
    else "".

Definition delta_audit_result (content : dict) : string :=
  str_lower (str_strip (py_str (py_or (dget0 content "audit_result") (VStr "")))).

Definition delta_gate_record (content : dict) (correlation_id : val) : dict :=
  let audit_result := delta_audit_result content in
  [("audit_result", VStr audit_result); ("passed", VBool (str_in audit_result _DELTA_PASS_RESULTS));
   ("pod", dget0 (dict_value (dget0 content "findings")) "pod");
   ("verification_method", dget0 content "verification_method");
   ("tolerance_score", dget0 content "tolerance_score");
   ("consumed_at", VStr now); ("correlation_id", correlation_id)].

(** [message] is what the bus consumer decodes; it has no [correlation_id] of its own,
    so the one of the envelope is used. *)
Definition _handle_delta_audit_verdict (control_plane_enabled : bool) (envelope payload : val) : route unit :=
  if negb control_plane_enabled then tret tt
  else
    let payload := dict_value payload in
    let envelope := dict_value envelope in
    let content := match dget0 payload "content" with VDict c => c | _ => payload end in
    let correlation_id := dget0 envelope "correlation_id" in
    let mission_id := _mission_id_from_delta content correlation_id in
    if String.eqb mission_id "" then tret tt
    else
      mission ← ask (Fetch mission_id);
      match mission with
      | None => tret tt
      | Some mission =>
          let metadata := dset (ms_metadata mission) DELTA_AUDIT_GATE_KEY
                            (VDict (delta_gate_record content correlation_id)) in
          _ ← ask (UpdateMetadata mission_id metadata);
          tret tt
      end.
End handlers.

(** ** Requests served together *)

Inductive request :=
| SetState (mission_id : string) (expected_state new_state : MissionState)
| Clarify (mission_id clarification : string)
| RefinedIr (mission_id : string) (payload : dict)
| PartitionReport (mission_id : string) (payload : dict)
| DeltaVerdict (envelope payload : val).

Definition ignore_answer {A} (t : route A) : route unit := _ ← t; tret tt.

Definition serve (now : string) (rq : request) : route unit :=
  match rq with
  | SetState id e t => ignore_answer (update_mission_state true id (Some e) t)
  | Clarify id text => ignore_answer (clarify_mission now true id text)
  | RefinedIr id payload => ignore_answer (record_refined_ir_module now true id payload)
  | PartitionReport id payload => ignore_answer (upsert_partition_result now true id payload)
  | DeltaVerdict envelope payload => _handle_delta_audit_verdict now true envelope payload
  end.

(** ** Lemmas *)

(** The commands that respect the log: compare-and-swap, metadata, results. *)
Definition logged (c : act) : Prop :=
  match c with
  | Upsert _ _ => False
  | LogEvent _ p s _ => p = Some s
  | Transition _ e _ _ => is_Some e
  | _ => True
  end.

Lemma act_exec_step auto c w :
  logged c -> rtc store_step (w_db w) (w_db (act_exec auto c w).2).
Proof.
  destruct c as [id|r src|id p s ev|id e t ev|id metadata|now id raw|id secrets|id]; cbn; intros Hl; unfold db_act.
  - unfold fetch_mission. by destruct (_ !! id).
  - done.
  - subst p. pose proof (step_checkpoint id s ev (w_db w)) as Hst.
    destruct (insert_mission_event _ _ _ _ _) as [? db]. by apply rtc_once.
  - destruct Hl as [s ->]. pose proof (step_transition id s t ev (w_db w)) as Hst.
    destruct (transition_mission_state _ _ _ _ _) as [? db]. by apply rtc_once.
  - pose proof (step_update id metadata (w_db w)) as Hst.
    destruct (update_mission_metadata _ _ _) as [? db]. by apply rtc_once.
  - unfold store_partition_result. destruct (read_partition_result now raw) as [r|e]; [|done].
    pose proof (step_locked id (fun metadata _ => partition_update now r metadata) (w_db w)) as Hst.
    destruct (_locked_mission_metadata_update _ _ _) as [? db]. by apply rtc_once.
  - done.
  - done.
Qed.

(** Every command of a handler, whatever it is answered, respects the log. *)
Fixpoint all_logged {A} (t : route A) : Prop :=
  match t with
  | Done _ => True
  | Do c k => logged c /\ forall r, all_logged (k r)
  end.

Lemma all_logged_bind {A B} (t : route A) (f : A -> route B) :
  all_logged t -> (forall a, all_logged (f a)) -> all_logged (t ≫= f).
Proof. intros Ht Hf. induction t as [[e|a]|c k IH]; cbn; [done|apply Hf|]. destruct Ht as [Hc Hk]. eauto. Qed.

Lemma all_logged_await {A} c (f : answer -> exn + A) : logged c -> all_logged (await c f).
Proof. done. Qed.

(** A handler is a tree of commands and case distinctions on their answers. *)
Ltac walk_route :=
  repeat (first [ done | progress (intros; cbn) | break_match | split | progress unfold of_raw, http_raise ]).

Lemma serve_logged now rq : all_logged (serve now rq).
Proof. destruct rq; cbn; walk_route. Qed.

(** In every interleaving the database takes steps of Store only. *)
Lemma pool_refines auto (rqs : list (route unit)) (w0 : World) p :
  Forall all_logged rqs -> rtc (pool_step (act_step auto)) (mkPool rqs w0 []) p ->
  rtc store_step (w_db w0) (w_db (world p)) /\ Forall all_logged (threads p).
Proof.
  intros Hrqs Hsteps.
  enough (forall q, rtc (pool_step (act_step auto)) q p -> Forall all_logged (threads q) ->
            rtc store_step (w_db (world q)) (w_db (world p)) /\ Forall all_logged (threads p)) as H
    by by apply (H (mkPool rqs w0 [])).
  clear. induction 1 as [q|q q1 p Hstep _ IH]; intros Hq; [done|].
  destruct Hstep as [ts w tr i c k r w' Hi He]. cbn in *.
  destruct (proj1 (Forall_lookup _ _) Hq i _ Hi) as [Hc Hk]. unfold act_step in He.
  pose proof (act_exec_step auto c w Hc) as Hst. rewrite He in Hst. cbn in Hst.
  destruct IH as [Hr Ht]; [by apply Forall_insert; [done|apply Hk]|]. split; [by etrans|done].
Qed.

(** The commands of the handlers on a stored mission. *)
Lemma fetch_none auto id w :
  db_missions (w_db w) !! id = None -> act_exec auto (Fetch id) w = (Mission None, w).
Proof. intros Hr. destruct w. unfold act_exec, db_act, fetch_mission. by rewrite Hr. Qed.

Lemma fetch_some auto id w row s :
  db_missions (w_db w) !! id = Some row -> r_state row = state_value s ->
  exists m, act_exec auto (Fetch id) w = (Mission (Some m), w) /\ ms_state m = s /\ ms_metadata m = r_metadata row.
Proof.
  intros Hr Hs. destruct (row_to_mission_ok row s Hs) as (m & Hm & Hst & _ & Hmd). exists m. split; [|done].
  destruct w. unfold act_exec, db_act, fetch_mission. by rewrite Hr, Hm.
Qed.

Lemma update_exec auto id metadata db v t m db' :
  update_mission_metadata id metadata db = (Ok (Some m), db') ->
  act_exec auto (UpdateMetadata id metadata) (mkWorld db v t) = (Mission (Some m), mkWorld db' v t).
Proof. intros Hu. unfold act_exec, db_act. cbn [w_db]. by rewrite Hu. Qed.

(** Storing a partition result leaves the row in its state. *)
Lemma partition_result_row now id raw db db1 m row :
  db_missions db !! id = Some row -> store_partition_result now id raw db = (Ok (Some m), db1) ->
  exists row1, db_missions db1 !! id = Some row1 /\ r_state row1 = r_state row.
Proof.
  intros Hr. unfold store_partition_result. destruct (read_partition_result now raw) as [r|]; [|done].
  unfold _locked_mission_metadata_update. rewrite Hr. destruct (_ ≫= _) as [u|e]; [|done].
  intros [= _ <-]. eexists. split; [apply lookup_insert_eq|done].
Qed.

Lemma update_metadata_gate id metadata db row s gate :
  db_missions db !! id = Some row -> r_state row = state_value s ->
  dget metadata DELTA_AUDIT_GATE_KEY = Some gate ->
  exists row', (update_mission_metadata id metadata db).2 = mkDB (<[id := row']> (db_missions db)) (db_events db) /\
    r_state row' = r_state row /\ dget (r_metadata row') DELTA_AUDIT_GATE_KEY = Some gate.
Proof.
  intros Hr Hs Hg. unfold update_mission_metadata. rewrite Hr. cbv zeta. eexists. split; [reflexivity|].
  split; [done|]. cbn [with_metadata r_metadata]. unfold keep_delta_gate.
  set (n := strip_vault _). assert (dget n DELTA_AUDIT_GATE_KEY = Some gate) as Hn.
  { unfold n. rewrite strip_vault_ne by done. unfold with_project_identity.
    rewrite name_project_frame by done. rewrite dget_dset_ne by done. by rewrite dict_value_VDict. }
  unfold dmem at 2. unfold DELTA_AUDIT_GATE_KEY in *. rewrite Hn. by rewrite andb_false_r.
Qed.

Lemma route_leads_last l s p t u : leads s (l ++ [(p, t)]) u -> exists v, leads s l v /\ p = Some v /\ u = t.
Proof.
  revert s. induction l as [|[q n] l IH]; intros s; cbn.
  - intros [-> <-]. by exists s.
  - intros [-> H]. destruct (IH n H) as (v & Hv & ? & ?). by exists v.
Qed.

Lemma leads_det l s t u : leads s l t -> leads s l u -> t = u.
Proof. revert s. induction l as [|[q n] l IH]; intros s; cbn; [congruence|]. intros [_ ?] [_ ?]. eauto. Qed.

Lemma chars_startswith_drop pre s : str_drop (String.length pre) (pre +:+ s) = s.
Proof. by induction pre; cbn; [destruct s|]. Qed.

Lemma before_last_none sep l : sep ∉ l -> before_last sep l = None.
Proof.
  induction l as [|a l IH]; cbn; [done|]. rewrite not_elem_of_cons. intros [Ha Hl]. rewrite IH by done.
  destruct (Ascii.eqb_spec a sep); [congruence|done].
Qed.

Lemma before_last_app sep l1 l2 : sep ∉ l2 -> before_last sep (l1 ++ sep :: l2) = Some l1.
Proof.
  intros Hl. induction l1 as [|a l1 IH]; cbn; [|by rewrite IH].
  rewrite before_last_none by done. by rewrite Ascii.eqb_refl.
Qed.

(** Run the handlers of a schedule up to the next command. *)
Ltac run_on := cbn -[act_exec executable_functions refined_ir_module].

(** ** Properties *)


(** A Refined-IR report can undo a partition report.  For every stored mission and
    every partition report that the store accepts, there is an interleaving with a
    Refined-IR report in which both are answered with success and the partition
    results of the mission are afterwards what they were before: the Refined-IR handler
    writes back the metadata it read, and only the other writers take the lock. *)
Lemma stale_write_loses_partition auto now id row s ir fns payload raw m db1 w :
  db_missions (w_db w) !! id = Some row -> r_state row = state_value s ->
  dget0 ir "fns" = VList fns -> partition_payload now payload = Ok (Some raw) ->
  store_partition_result now id raw (w_db w) = (Ok (Some m), db1) ->
  exists p row', rtc (pool_step (act_step auto))
      (mkPool (serve now <$> [RefinedIr id ir; PartitionReport id payload]) w []) p /\
    threads p = [tret tt; tret tt] /\ db_missions (w_db (world p)) !! id = Some row' /\
    dget (r_metadata row') "partition_results" = dget (r_metadata row) "partition_results".
Proof.
  intros Hr Hs Hir Hpl Hst. destruct (fetch_some auto id w row s Hr Hs) as (mission & Hf & _ & Hmd).
  destruct (partition_result_row _ _ _ _ _ _ _ Hr Hst) as (row1 & Hr1 & Hs1). rewrite Hs in Hs1.
  set (p0 := mkPool _ w []).
  assert (rtc (pool_step (act_step auto)) p0 (run_pool (act_exec auto) [0; 1; 1; 1; 0]%nat p0)) as Hsteps
    by (apply run_pool_steps; intros; by unfold act_step; destruct (act_exec auto c w0)).
  set (metadata := dset (r_metadata row) "refined_ir_module" (VDict (refined_ir_module now ir (executable_functions fns)))).
  destruct (update_metadata_row id metadata db1 row1 s Hr1 Hs1) as (m2 & row2 & Hu & _ & _ & _ & Hget).
  assert (act_exec auto (PutPartitionResult now id raw) w = (Mission (Some m), with_w_db db1 w)) as Hp
    by (cbn; unfold db_act; by rewrite Hst).
  assert (forall tasks, act_exec auto (UpdateMetadata id metadata) (mkWorld db1 (w_vaults w) tasks) =
    (Mission (Some m2), mkWorld (mkDB (<[id := row2]> (db_missions db1)) (db_events db1)) (w_vaults w) tasks)) as Hup
    by (intros; by apply update_exec).
  assert (act_exec auto (StartLifecycle id) (with_w_db db1 w) = (Finished,
    mkWorld db1 (w_vaults w) (start_lifecycle_task auto id (w_tasks w)))) as Hsl by done.
  exists (run_pool (act_exec auto) [0; 1; 1; 1; 0]%nat p0), row2. split; [exact Hsteps|]. clear Hsteps Hu. unfold p0.
  run_on. rewrite Hf. run_on. rewrite Hf. run_on. rewrite Hpl. run_on. rewrite Hp. run_on. rewrite Hir. run_on.
  rewrite Hmd. fold metadata. destruct (_ && _); run_on; [rewrite Hsl; run_on|];
    [|change (with_w_db db1 w) with (mkWorld db1 (w_vaults w) (w_tasks w))]; rewrite Hup; run_on;
    (split_and!; [done|apply lookup_insert_eq|]); rewrite Hget by done; unfold metadata; by rewrite dget_dset_ne.
Qed.

(** Posting a mission again starts it over.  The handler of [POST /missions] writes
    the row and an [INTAKE -> QUEUED] event unconditionally, so a second post of a
    stored mission, such as the gateway's retry after a lost answer, succeeds whatever
    became of the mission: its state is [QUEUED] again, its metadata are those of the
    post, an audit verdict it had is gone, and its log is no longer a chain. *)
Lemma reposted_mission_restarts auto now engine redis p w row :
  db_wf (w_db w) -> db_missions (w_db w) !! oc_mission_id p = Some row -> r_state row <> state_value intake ->
  exists w' tr row', run (act_exec auto) (post_mission now true engine redis p) w =
      (inr (posted_record now engine p), w', tr) /\
    db_missions (w_db w') !! oc_mission_id p = Some row' /\ r_state row' = state_value queued /\
    r_metadata row' = r_metadata (_mission_upsert_params (posted_record now engine p) None) /\
    moves (oc_mission_id p) (w_db w') =
      moves (oc_mission_id p) (w_db w) ++ [(Some (state_value intake), state_value queued)] /\
    ~ leads (state_value intake) (moves (oc_mission_id p) (w_db w')) (r_state row').
Proof.
  intros Hwf Hr Hs. destruct (proj1 Hwf _ _ Hr) as (Hid & _ & Hl).
  set (id := oc_mission_id p) in *. set (new := _mission_upsert_params (posted_record now engine p) None).
  set (row' := mkRow (r_mission_id row) (r_prompt new) (r_language new) (r_metadata new)
                 (r_project_id new) (r_state new) (r_created_at row) (r_source_stream_id new)).
  set (db1 := log_event (set_row (w_db w) row') (mkEvent id (Some (state_value intake)) (state_value queued) "MISSION_QUEUED")).
  assert (db_missions db1 !! id = Some row') as Hr'.
  { unfold db1, set_row. cbn [db_missions log_event row' r_mission_id]. rewrite Hid. apply lookup_insert_eq. }
  assert (moves id db1 = moves id (w_db w) ++ [(Some (state_value intake), state_value queued)]) as Hmv.
  { unfold db1. rewrite moves_log. unfold move_of. cbn. by rewrite String.eqb_refl. }
  assert (forall v t, act_exec auto (Upsert (posted_record now engine p) None) (mkWorld (w_db w) v t)
    = (Finished, mkWorld (set_row (w_db w) row') v t)) as Hup.
  { intros. cbn -[posted_record]. unfold db_act, upsert_mission. fold new. change (r_mission_id new) with id.
    cbn [w_db]. by rewrite Hr. }
  assert (forall v t, act_exec auto (LogEvent id (Some intake) queued "MISSION_QUEUED")
    (mkWorld (set_row (w_db w) row') v t) = (Finished, mkWorld db1 v t)) as Hlog.
  { intros. cbn. unfold db_act, insert_mission_event. cbn [w_db].
    change (db_missions (set_row (w_db w) row') !! id) with (db_missions db1 !! id). by rewrite Hr'. }
  assert (exists w1 tr1, w_db w1 = w_db w /\ run (act_exec auto) (match (split_vault (oc_metadata p)).2 with
    | [] => tret tt | _ => if redis then do_act (PutVault (oc_mission_id p) (split_vault (oc_metadata p)).2) else tret tt end) w
    = (inr tt, w1, tr1)) as (w1 & tr1 & Hw1 & Hv).
  { destruct (split_vault (oc_metadata p)).2; [|destruct redis]; cbn; (eexists _, _; split; [|reflexivity]; done). }
  destruct w1 as [db v t]. cbn in Hw1. subst db.
  eexists (mkWorld db1 v _), (tr1 ++ _), row'. split_and!; try done.
  - unfold post_mission, _ensure_db_ready. unfold mbind, task_bind. rewrite run_bind. cbn [run tret]. cbv zeta.
    rewrite run_bind, Hv.
    cbn -[act_exec posted_record]. rewrite Hup. cbn -[act_exec posted_record].
    change (ms_mission_id (posted_record now engine p)) with id. rewrite Hlog. cbn -[posted_record]. reflexivity.
  - cbn [w_db]. rewrite Hmv. intros (u & Hu & [= <-] & _)%route_leads_last. apply Hs. by eapply leads_det.
Qed.

(** A clarification re-queues a mission that waits for one, and only such a
    mission.  The text is on the mission, the trace ends with its receipt, the log has
    the move, and a lifecycle task is started; a mission that is not waiting is left
    as it was and answered 409, an unknown one 404. *)
Lemma clarify_requeues auto now id text w :
  (db_missions (w_db w) !! id = None ->
   exists tr, run (act_exec auto) (clarify_mission now true id text) w = (inl (HTTPException 404), w, tr)) /\
  (forall row s, db_missions (w_db w) !! id = Some row -> r_state row = state_value s -> s <> clarifying ->
   exists tr, run (act_exec auto) (clarify_mission now true id text) w = (inl (HTTPException 409), w, tr)) /\
  (forall row, db_missions (w_db w) !! id = Some row -> r_state row = state_value clarifying ->
   exists w' tr m row', run (act_exec auto) (clarify_mission now true id text) w = (inr m, w', tr) /\
     db_missions (w_db w') !! id = Some row' /\ r_state row' = state_value queued /\
     dget (r_metadata row') "pm_clarification" = Some (VStr text) /\
     dget (r_metadata row') "user_intent" = Some (VStr "finalize_plan") /\
     _chain_event_exists (r_metadata row') "MISSION_CLARIFICATION_RECEIVED" = true /\
     db_events (w_db w') = db_events (w_db w) ++
       [mkEvent id (Some (state_value clarifying)) (state_value queued) "MISSION_CLARIFICATION_APPLIED"] /\
     w_tasks w' = start_lifecycle_task auto id (w_tasks w)).
Proof.
  split_and!.
  - intros Hr%(fetch_none auto).
    eexists. unfold clarify_mission, _ensure_db_ready, _fetch_existing_mission. cbn -[act_exec]. by rewrite Hr.
  - intros row s Hr Hs Hne. destruct (fetch_some auto id w row s Hr Hs) as (m & Hf & Hst & _).
    eexists. unfold clarify_mission, _ensure_db_ready, _fetch_existing_mission. cbn -[act_exec]. rewrite Hf.
    cbn -[act_exec]. rewrite bool_decide_false by congruence. reflexivity.
  - intros row Hr Hs. destruct (fetch_some auto id w row clarifying Hr Hs) as (m & Hf & Hst & Hmd).
    destruct w as [db v t]. cbn in Hr.
    set (metadata := clarified_metadata now m text).
    destruct (update_metadata_row id metadata db row clarifying Hr Hs) as (m1 & row1 & Hu & _ & _ & Hs1 & Hget).
    set (db1 := mkDB (<[id := row1]> (db_missions db)) (db_events db)) in *.
    assert (db_missions db1 !! id = Some row1) as Hr1 by apply lookup_insert_eq.
    destruct (transition_match id clarifying queued "MISSION_CLARIFICATION_APPLIED" db1 row1 Hr1) as (m2 & Ht & _);
      [by rewrite Hs1|].
    eexists _, _, m2, (with_state row1 (state_value queued)). split_and!.
    + unfold clarify_mission, _ensure_db_ready, _fetch_existing_mission. cbn -[act_exec clarified_metadata].
      rewrite Hf. cbn -[act_exec clarified_metadata]. rewrite bool_decide_true by done.
      cbn -[act_exec clarified_metadata]. fold metadata. rewrite (update_exec auto id metadata db v t m1 db1) by done.
      cbn -[transition_mission_state]. unfold db_act. cbn [w_db]. rewrite Ht. cbn. reflexivity.
    + cbn. apply lookup_insert_eq.
    + done.
    + cbn [with_state r_metadata]. rewrite Hget by done.
      unfold metadata, clarified_metadata, append_chain_event. cbv zeta. by dict_simpl.
    + cbn [with_state r_metadata]. rewrite Hget by done.
      unfold metadata, clarified_metadata, append_chain_event. cbv zeta. by dict_simpl.
    + unfold _chain_event_exists, chain_trace, dget0. cbn [with_state r_metadata]. rewrite Hget by done.
      unfold metadata, clarified_metadata, append_chain_event. cbv zeta. dict_simpl. cbn [default from_option Datatypes.id].
      rewrite existsb_app. apply orb_true_iff. by right.
    + done.
    + done.
Qed.

(** A consumed Delta verdict decides the audit gate.  The handler records the
    verdict on the mission it names, whatever other fields the message has; afterwards
    the gate before completion opens exactly when the verdict, trimmed and in lower
    case, is one of the passing words, so an unknown word blocks; state and log stay. *)
Lemma delta_verdict_decides_gate auto now ctl envelope payload w id row s :
  let content := match dget0 (dict_value payload) "content" with VDict c => c | _ => dict_value payload end in
  _mission_id_from_delta content (dget0 (dict_value envelope) "correlation_id") = id -> id <> "" ->
  db_missions (w_db w) !! id = Some row -> r_state row = state_value s -> _setting_bool ctl false = true ->
  exists w' tr mission, run (act_exec auto) (_handle_delta_audit_verdict now true envelope payload) w = (inr tt, w', tr) /\
    act_exec auto (Fetch id) w' = (Mission (Some mission), w') /\ ms_state mission = s /\
    db_events (w_db w') = db_events (w_db w) /\
    ((_delta_audit_gate ctl mission).1 = true <-> delta_audit_result content ∈ _DELTA_PASS_RESULTS).
Proof.
  intros content Hid Hne Hr Hs Hctl. destruct (fetch_some auto id w row s Hr Hs) as (m & Hf & _ & Hmd).
  set (corr := dget0 (dict_value envelope) "correlation_id") in *.
  set (metadata := dset (ms_metadata m) DELTA_AUDIT_GATE_KEY (VDict (delta_gate_record now content corr))).
  destruct w as [db v t]. cbn in Hr.
  destruct (update_metadata_gate id metadata db row s (VDict (delta_gate_record now content corr)) Hr Hs) as (row' & Hu & Hs' & Hg);
    [apply dget_dset_eq|].
  destruct (update_metadata_row id metadata db row s Hr Hs) as (m1 & row1 & Hu1 & _). rewrite Hu1 in Hu. injection Hu as Hrow.
  assert (row1 = row') as -> by (apply (f_equal (lookup id)) in Hrow; rewrite !lookup_insert_eq in Hrow; congruence). clear Hrow.
  set (w' := mkWorld (mkDB (<[id := row']> (db_missions db)) (db_events db)) v t).
  destruct (fetch_some auto id w' row' s) as (m2 & Hf2 & Hs2 & Hmd2); [apply lookup_insert_eq|by rewrite Hs'|].
  exists w', [(Fetch id, Mission (Some m)); (UpdateMetadata id metadata, Mission (Some m1))], m2. split_and!; [|done..|].
  - unfold _handle_delta_audit_verdict. cbv zeta. cbn [negb]. fold content corr. rewrite Hid.
    rewrite (proj2 (String.eqb_neq _ _) Hne). unfold ask. cbn -[act_exec]. rewrite Hf. cbn -[act_exec delta_gate_record].
    fold metadata. by rewrite (update_exec auto id metadata db v t m1 _ Hu1).
  - unfold _delta_audit_gate. rewrite Hctl. cbn [negb]. unfold dget0. rewrite Hmd2.
    change "delta_audit_gate" with DELTA_AUDIT_GATE_KEY. rewrite Hg. rewrite <- str_in_spec.
    cbn -[str_in _DELTA_PASS_RESULTS delta_audit_result]. by destruct (str_in _ _).
Qed.

(** Without a mission id in the findings, the id is recovered from the
    correlation id of the auditor, whatever dashes the mission id has, as long as the
    pod has none. *)
Lemma delta_correlation_roundtrip content mission_id pod :
  str_strip (py_str (py_or (dget0 (dict_value (dget0 content "findings")) "mission_id") (VStr ""))) = "" ->
  "-"%char ∉ chars pod -> str_strip ("delta-" +:+ mission_id +:+ "-" +:+ pod) = "delta-" +:+ mission_id +:+ "-" +:+ pod ->
  _mission_id_from_delta content (VStr ("delta-" +:+ mission_id +:+ "-" +:+ pod)) = mission_id.
Proof.
  intros Hf Hp Hs. unfold _mission_id_from_delta. rewrite Hf. cbn [negb String.eqb].
  rewrite py_or_truthy by done. cbn [py_str]. rewrite Hs. cbv zeta.
  replace (startswith delta_prefix _) with true by (symmetry; apply startswith_app).
  change "delta-" with delta_prefix. rewrite chars_startswith_drop, chars_app.
  change (chars ("-" +:+ pod)) with ("-"%char :: chars pod). rewrite before_last_app by done. apply unchars_chars.
Qed.

(** What a Refined-IR report can put on a mission is bounded: at most 25 functions,
    each with one to three vectors that the equivalence check can execute. *)
Lemma refined_ir_bounded functions :
  (length (executable_functions functions) <= _REFINED_IR_MAX_FUNCTIONS)%nat /\
  forall f, f ∈ executable_functions functions ->
    exists d kept, f = VDict d /\ dget d "projection_method" = Some (VStr "ast_v1") /\
      dget d "tests" = Some (VDict [("equivalence_vectors", VList kept)]) /\
      (1 <= length kept <= _REFINED_IR_MAX_VECTORS_PER_FN)%nat /\ Forall (fun v => executable_vector v = true) kept.
Proof.
  unfold executable_functions. split.
  - assert (length (take _REFINED_IR_MAX_FUNCTIONS functions) <= _REFINED_IR_MAX_FUNCTIONS)%nat as Hl
      by (rewrite length_take; lia).
    etrans; [|exact Hl]. generalize (take _REFINED_IR_MAX_FUNCTIONS functions). intros l. induction l as [|x l IH]; cbn; [done|]. destruct (executable_function x); cbn; lia.
  - intros f (x & Hx & Hf)%list_elem_of_omap. unfold executable_function in Hf.
    destruct x as [| | | | |function]; try done. case_match; [done|]. destruct (match dget0 function "tests" with VDict _ => _ | _ => _ end) as [| | | |vectors|]; try done.
    destruct (List.filter executable_vector (take _REFINED_IR_MAX_VECTORS_PER_FN vectors)) as [|v kept] eqn:E; [done|].
    injection Hf as <-. eexists _, (v :: kept). split_and!; [reflexivity..| | |].
    + cbn. lia.
    + rewrite <- E. etrans; [apply List.filter_length_le|]. rewrite length_take. lia.
    + rewrite <- E. apply List.Forall_forall. by intros y [_ Hy]%List.filter_In.
Qed.

(** ** Evaluation on a concrete input *)

Definition demo_decision : ScalingDecision :=
  compute_scaling_decision (fun _ => "u") "t" "AGENT-14-PYTHON" ["a"; "b"; "c"] 2 1.

(** A running mission that waits for two partitions. *)
Definition demo_scaled_row : Row :=
  mkRow "m1" "build it" (Some "python") (embed_scaling_decision [] demo_decision) None "RUNNING" "t" None.

Definition demo_scaled : World :=
  mkWorld (mkDB {["m1" := demo_scaled_row]} [mkEvent "m1" (Some "INTAKE") "RUNNING" "MISSION_RUNNING"]) ∅ (∅, []).

Definition demo_report (id : string) : dict :=
  [("partition_id", VStr id); ("instance_index", VInt 0); ("agent_id", VStr "AGENT-14-PYTHON");
   ("logicnodes", VList [VDict [("n", VInt 1)]])].

Lemma demo_scaled_wf : db_wf (w_db demo_scaled).
Proof.
  split.
  - intros id row Hr. cbn in Hr. apply lookup_singleton_Some in Hr as [<- <-].
    split; [done|]. split; [by exists running|]. by vm_compute.
  - intros e [->|He%not_elem_of_nil]%elem_of_cons; [|done]. cbn. rewrite lookup_singleton_eq. by eexists.
Qed.

Definition demo_requests : list request :=
  [SetState "m1" running gating; PartitionReport "m1" (demo_report "p0-u"); Clarify "m1" "yes"; SetState "m1" running failed].


Definition demo_stored : dict :=
  match partition_payload "t" (demo_report "p0-u") with Ok (Some raw) => raw | _ => [] end.

Definition demo_recorded : MissionRecord :=
  match (store_partition_result "t" "m1" demo_stored (w_db demo_scaled)).1 with
  | Ok (Some m) => m | _ => demo_record end.

Lemma stale_write_loses_partition_witness :
  dmem (dict_value (dget0 (ms_metadata demo_recorded) "partition_results")) "p0-u" = true /\
  exists p row', rtc (pool_step (act_step true))
      (mkPool (serve "t" <$> [RefinedIr "m1" [("fns", VList [])]; PartitionReport "m1" (demo_report "p0-u")]) demo_scaled []) p /\
    threads p = [tret tt; tret tt] /\ db_missions (w_db (world p)) !! "m1" = Some row' /\
    dget (r_metadata row') "partition_results" = None.
Proof.
  split; [by vm_compute|].
  apply (stale_write_loses_partition true "t" "m1" demo_scaled_row running [("fns", VList [])] []
    (demo_report "p0-u") demo_stored demo_recorded
    (store_partition_result "t" "m1" demo_stored (w_db demo_scaled)).2 demo_scaled); by vm_compute.
Defined.

Definition demo_post : OrchCreate :=
  mkOrchCreate "m1" "build it" (Some "python") (Some "BUILD_NEW") None None None
    [("source", VStr "demo"); ("vault", VDict [("openai", VStr "k")])] None None.

Lemma reposted_mission_restarts_witness :
  exists w' tr row', run (act_exec true) (post_mission "t" true "mission_flow_v2" true demo_post) demo_scaled =
      (inr (posted_record "t" "mission_flow_v2" demo_post), w', tr) /\
    db_missions (w_db w') !! "m1" = Some row' /\ r_state row' = "QUEUED" /\
    r_metadata row' = r_metadata (_mission_upsert_params (posted_record "t" "mission_flow_v2" demo_post) None) /\
    moves "m1" (w_db w') = [(Some "INTAKE", "RUNNING"); (Some "INTAKE", "QUEUED")] /\
    ~ leads "INTAKE" (moves "m1" (w_db w')) (r_state row').
Proof.
  apply (reposted_mission_restarts true "t" "mission_flow_v2" true demo_post demo_scaled demo_scaled_row demo_scaled_wf);
    [by vm_compute|by vm_compute].
Defined.

Definition demo_verdict : dict :=
  [("audit_result", VStr " Pass "); ("findings", VDict [("pod", VStr "podA")])].

Lemma delta_correlation_roundtrip_witness :
  _mission_id_from_delta demo_verdict (VStr "delta-mission-7-x-podA") = "mission-7-x".
Proof.
  apply (delta_correlation_roundtrip demo_verdict "mission-7-x" "podA"); [by vm_compute| |by vm_compute].
  apply (bool_decide_unpack _). by vm_compute.
Defined.
