(* ===== verification/Producer.v ===== *)
(** * Producer

    [O/protocol_bus_producer.py], the client of [POST /send], with the payload each
    lane is given, and the one sender whose messages decide something: the pod audit
    verdict of [O/mission_flow_v2/phases_build.py], with the discriminators of
    [O/protocol_bus_emissions.py].  The HTTP call is a parameter.  The last part puts
    producer, Bus, the decoding of Consumers and the verdict handler of Routes in a
    row. *)

From S2P Require Import Prelude PyVal Json MissionStates Tasks Store Lifecycle Auth Streams Bus Consumers.
From S2P Require Routes.

(** ** Settings *)

(** [getattr(settings, name, "")], [None] for a missing or null attribute. *)
Record BusSettings := mkBusSettings {
  protocol_bus_url : option string;
  mcp_url : option string;
  protocol_bus_api_key : option string;
  mcp_api_key : option string;
}.

Definition _protocol_bus_url (settings : BusSettings) : option string :=
  let url := str_strip (str_or (default "" (protocol_bus_url settings)) (default "" (mcp_url settings))) in
  if String.eqb url "" then None else Some url.

Definition _protocol_bus_api_key (settings : BusSettings) : string :=
  str_or (default "" (protocol_bus_api_key settings)) (default "" (mcp_api_key settings)).

(** ** Sending *)

(** The [Request] built for [urlopen]. *)
Record HttpRequest := mkHttp {
  hr_url : string;
  hr_api_key : string;
  hr_agent_id : string;
  hr_body : string;
}.

Section producer.
Context `{Json} (settings : BusSettings) (uuid : string)
        (urlopen : HttpRequest -> result Z).

Definition request_body (protocol sender : string) (recipient : val) (payload : dict) (priority : string)
    (correlation_id : option string) : dict :=
  [("schema_version", VStr "v1"); ("protocol", VStr protocol); ("sender", VStr sender); ("recipient", recipient);
   ("correlation_id", VStr (str_or (default "" correlation_id) (protocol +:+ "-" +:+ uuid)));
   ("priority", VStr priority); ("payload", VDict payload)].

(** The message goes out, or [None] without a URL. *)
Definition bus_request (protocol sender : string) (recipient : val) (payload : dict) (priority : string)
    (correlation_id : option string) : option HttpRequest :=
  url ← _protocol_bus_url settings;
  Some (mkHttp (rstrip_char "/" url +:+ "/send") (_protocol_bus_api_key settings) sender
          (json_dumps (VDict (request_body protocol sender recipient payload priority correlation_id)))).

(** True when the bus answered below 300; never raises. *)
Definition send_protocol_message (protocol sender : string) (recipient : val) (payload : dict) (priority : string)
    (correlation_id : option string) : bool :=
  match bus_request protocol sender recipient payload priority correlation_id with
  | None => false
  | Some req => match urlopen req with Ok status => status <? 300 | Raise _ => false end
  end.
End producer.

(** ** The payload of each lane *)

Definition or_empty (v : option dict) : val := VDict (default [] v).

Definition alpha_payload (target_pod directive_type : string) (directive : dict) (priority : string)
    (global_style_directives : list string) : dict :=
  [("schema_version", VStr "v1"); ("priority", VStr priority); ("target_pod", VStr target_pod);
   ("directive_type", VStr directive_type); ("directive", VDict directive);
   ("global_style_directives", VList (VStr <$> global_style_directives))].

Definition omega_payload (user_intent : string) (feature_contract visual_blueprint : option dict)
    (attachments : list dict) (global_style_directives : list string) : dict :=
  [("schema_version", VStr "v1"); ("feature_contract", or_empty feature_contract);
   ("visual_blueprint", or_empty visual_blueprint); ("user_intent", VStr (str_or user_intent "mission handoff"));
   ("attachments", VList (VDict <$> attachments)); ("global_style_directives", VList (VStr <$> global_style_directives))].

Definition beta_payload (logicnode_id : string) (confidence_score : Z) (source_language : string)
    (payload : option dict) : dict :=
  [("schema_version", VStr "v1"); ("logicnode_id", VStr logicnode_id); ("confidence_score", VInt confidence_score);
   ("source_language", VStr source_language); ("payload", or_empty payload)].

Definition delta_payload (audit_result verification_method : string) (tolerance_score : Z)
    (findings : option dict) : dict :=
  [("schema_version", VStr "v1"); ("audit_result", VStr audit_result); ("verification_method", VStr verification_method);
   ("tolerance_score", VInt tolerance_score); ("findings", or_empty findings)].

Definition sigma_payload (knowledge_type embedding_ref relevance_scope : string) (content : option dict) : dict :=
  [("schema_version", VStr "v1"); ("knowledge_type", VStr knowledge_type); ("embedding_ref", VStr embedding_ref);
   ("relevance_scope", VStr relevance_scope); ("content", or_empty content)].

Definition rho_payload (token_budget : Z) (rate_limit_action agent_target : string) (metadata : option dict) : dict :=
  [("schema_version", VStr "v1"); ("token_budget", VInt token_budget); ("rate_limit_action", VStr rate_limit_action);
   ("agent_target", VStr agent_target); ("metadata", or_empty metadata)].

(** ** The pod audit verdict *)

Definition EMISSION_KEY := "emission".
Definition PBLA_POD_AUDIT_TELEMETRY := "pbla_pod_audit_telemetry".
Definition PBLA_EMISSIONS : list string :=
  [PBLA_POD_AUDIT_TELEMETRY; "pbla_delivery_handoff"; "pbla_specialist_result"; "pbla_traffic_telemetry"].

Definition is_pbla_emission (value : option string) : bool :=
  match value with Some v => str_in v PBLA_EMISSIONS | None => false end.

Definition _map_verdict_to_audit_result (verdict : val) : string :=
  let value := str_lower (str_strip (py_str (py_or verdict (VStr "")))) in
  if str_in value ["pass"; "passed"; "approved"; "verified"] then "pass"
  else if str_in value ["fail"; "failed"; "rejected"] then "fail"
  else "warning".

(** What [_send_delta_audit_verdict] hands to [send_delta_audit]; a sender that is not
    text makes no request the bus could read.  The score of an audit
    is between 0.0 and 1.0, of which the integers are 0 and 1. *)
Definition pod_verdict_payload (mission_id pod_name : string) (pod_audit : dict) (score : Z) : dict :=
  delta_payload (_map_verdict_to_audit_result (dget0 pod_audit "verdict"))
    (py_str (dget_or pod_audit "source" (VStr "pod_audit"))) score
    (Some [(EMISSION_KEY, VStr PBLA_POD_AUDIT_TELEMETRY); ("mission_id", VStr mission_id);
           ("pod", VStr pod_name); ("verdict", dget0 pod_audit "verdict")]).

Definition pod_verdict_request `{Json} (settings : BusSettings) (uuid mission_id pod_name pod_manager_agent_id : string)
    (pod_audit : dict) (score : Z) : option HttpRequest :=
  sender ← as_str (dget_or pod_audit "agent_id" (VStr pod_manager_agent_id));
  bus_request settings uuid "delta" sender (VStr "broadcast")
    (pod_verdict_payload mission_id pod_name pod_audit score) "normal"
    (Some ("delta-" +:+ mission_id +:+ "-" +:+ pod_name)).

(** ** On the side of the bus *)

(** How a request of the producer arrives: its three headers, no signature, and the
    body parsed from the text. *)
Definition arrival `{Json} (now_us : Z) (ts msg_uuid corr_uuid : string) (redis_ready : bool) (req : HttpRequest) : Call :=
  mkCall now_us ts msg_uuid corr_uuid redis_ready
    (mkHeaders (Some (hr_agent_id req)) (Some (hr_api_key req)) None) (None, None)
    (Z.of_nat (String.length (hr_body req))) (json_loads (hr_body req)).

(** [json.loads] as the consumer calls it. *)
Definition loads `{Json} (s : string) : result val :=
  match json_loads s with Some v => Ok v | None => Raise ValueError end.

(** ** Lemmas *)

Lemma strings_ok l : forallb (fun x => match x with VStr _ => true | _ => false end) (VStr <$> l) = true.
Proof. by induction l. Qed.

Lemma dicts_ok l : forallb is_dict (VDict <$> l) = true.
Proof. by induction l. Qed.

(** Case analysis on the conditions of a payload model. *)
Ltac lane_cases :=
  cbn -[len_between Z.leb]; change (len_between 1 32 "v1") with true; cbn -[len_between Z.leb];
  rewrite ?strings_ok, ?dicts_ok;
  repeat (match goal with
          | |- context [if ?b then _ else _] => lazymatch b with context [if _ then _ else _] => fail | _ => destruct b end
          | |- context [?b || _] => is_var b; destruct b
          end; cbn -[len_between Z.leb]);
  try done.

Lemma delta_accepted result_word method score findings :
  let p := delta_payload result_word method score findings in
  _validate_protocol_payload "delta" p =
  if str_in result_word ["pass"; "fail"; "warning"] && len_between 1 120 method && ((0 <=? score) && (score <=? 1))
  then Ok p else Raise ValueError.
Proof. intros p. lane_cases. Qed.

(** ** Properties *)

(** What the bus makes of the producer's payloads, lane by lane: a payload is
    accepted exactly when its texts have the lengths, its words the values and its
    numbers the range of the model, and is then published as it was sent, with the
    one field the producer leaves out filled in. *)
Lemma lane_payloads_accepted :
  (forall pod kind d priority styles,
     _validate_protocol_payload "alpha" (alpha_payload pod kind d priority styles) =
     if str_in priority PRIORITY_LEVELS && len_between 1 64 pod && len_between 1 120 kind
     then Ok (alpha_payload pod kind d priority styles ++ [("risk_assessment", VNone)]) else Raise ValueError) /\
  (forall intent contract blueprint attachments styles,
     let p := omega_payload intent contract blueprint attachments styles in
     _validate_protocol_payload "omega" p =
     if len_between 1 2000 (str_or intent "mission handoff") then Ok p else Raise ValueError) /\
  (forall node score lang payload,
     let p := beta_payload node score lang payload in
     _validate_protocol_payload "beta" p =
     if len_between 1 120 node && ((0 <=? score) && (score <=? 1)) && len_between 1 64 lang then Ok p else Raise ValueError) /\
  (forall result_word method score findings,
     let p := delta_payload result_word method score findings in
     _validate_protocol_payload "delta" p =
     if str_in result_word ["pass"; "fail"; "warning"] && len_between 1 120 method && ((0 <=? score) && (score <=? 1))
     then Ok p else Raise ValueError) /\
  (forall kind ref scope content,
     let p := sigma_payload kind ref scope content in
     _validate_protocol_payload "sigma" p =
     if len_between 1 120 kind && len_between 1 255 ref && len_between 1 120 scope then Ok p else Raise ValueError) /\
  (forall budget action target metadata,
     let p := rho_payload budget action target metadata in
     _validate_protocol_payload "rho" p =
     if (0 <=? budget) && len_between 1 120 action && len_between 1 120 target then Ok p else Raise ValueError).
Proof.
  split_and!; intros; lane_cases.
Qed.

Section end_to_end.
Context `{Json, !JsonLaws} (cfg : Config) (hmac_hex : string -> string -> string)
        (canonical_json : dict -> string) (settings : BusSettings) (uuid : string).

(** What the request carries, once the bus has parsed it. *)
Lemma arrival_parsed now_us ts mu cu ready protocol sender recipient payload priority cid req ck :
  bus_request settings uuid protocol sender recipient payload priority (Some cid) = Some req -> cid <> "" ->
  check_call cfg hmac_hex canonical_json (arrival now_us ts mu cu ready req) = Ok ck ->
  sm_protocol (ck_req ck) = protocol /\ sm_recipient (ck_req ck) = recipient /\
  sm_correlation_id (ck_req ck) = Some cid /\ sm_payload (ck_req ck) = payload.
Proof.
  intros Hreq Hcid (Hread & _)%check_call_ok.
  apply read_request_ok in Hread as (_ & Hb & Hp & _). unfold bus_request in Hreq.
  destruct (_protocol_bus_url settings) as [url|]; [|done]. injection Hreq as <-.
  cbn [arrival body hr_body] in Hb. rewrite json_roundtrip in Hb. injection Hb as Hb. rewrite <- Hb in Hp.
  unfold request_body, str_or in Hp. cbn [default from_option] in Hp. unfold id in Hp.
  rewrite (proj2 (String.eqb_neq _ _) Hcid) in Hp. revert Hp. generalize (ck_req ck). intros rq.
  cbn -[len_between str_in]. repeat case_match; intros; simplify_eq/=; done.
Qed.

(** The entry of an accepted request, as the consumer reads it. *)
Lemma decoded_entry channel entry_id c ck :
  (forall d, json_dumps (VDict d) <> "") ->
  exists message envelope, _decode_entry loads channel entry_id (call_entry json_dumps c ck) = Some message /\
    msg_envelope message = VDict envelope /\ dget envelope "protocol" = Some (VStr (sm_protocol (ck_req ck))) /\
    msg_payload message = VDict (ck_payload ck).
Proof.
  intros Hne. unfold call_entry, stream_entry. set (envelope := message_envelope _ _ _ _ _ _ _ _).
  exists (mkMessage (VDict envelope) (VDict (ck_payload ck)) (sm_sender (ck_req ck)) channel entry_id), envelope.
  split; [|by split_and!].
  unfold _decode_entry. cbn [dget String.eqb Ascii.eqb Bool.eqb].
  rewrite !(proj2 (String.eqb_neq _ _) (Hne _)). unfold loads. rewrite !json_roundtrip. reflexivity.
Qed.

Lemma verdict_names_mission mission_id pod audit score corr :
  mission_id <> "" -> str_strip mission_id = mission_id ->
  Routes._mission_id_from_delta (pod_verdict_payload mission_id pod audit score) corr = mission_id.
Proof.
  intros Hid Hs. unfold Routes._mission_id_from_delta. cbn -[str_strip].
  rewrite py_or_truthy by (cbn; by rewrite (proj2 (String.eqb_neq _ _) Hid)). cbn [py_str]. rewrite Hs.
  by rewrite (proj2 (String.eqb_neq _ _) Hid).
Qed.

Lemma verdict_passes mission_id pod audit score :
  Routes.delta_audit_result (pod_verdict_payload mission_id pod audit score) ∈ Routes._DELTA_PASS_RESULTS <->
  _map_verdict_to_audit_result (dget0 audit "verdict") = "pass".
Proof.
  unfold Routes.delta_audit_result, pod_verdict_payload. cbn -[_map_verdict_to_audit_result str_strip str_lower py_or].
  rewrite <- str_in_spec. unfold _map_verdict_to_audit_result. repeat case_match; by vm_compute.
Qed.

(** No message of the orchestrator passes a bus that requires signatures: the
    producer never signs, so whatever it sends is refused. *)
Lemma unsigned_producers_refused now_us ts mu cu ready protocol sender recipient payload priority cid req :
  AGENT_HMAC_SIGNING_ENABLED cfg = true ->
  bus_request settings uuid protocol sender recipient payload priority cid = Some req ->
  exists e, check_call cfg hmac_hex canonical_json (arrival now_us ts mu cu ready req) = Raise e.
Proof.
  intros Hs _. destruct (check_call _ _ _ _) as [ck|e] eqn:E; [|by exists e].
  apply check_call_ok in E as (Hread & _). apply read_request_ok in Hread as (_ & _ & _ & _ & _ & _ & Hsig).
  by destruct (Hsig Hs) as (sig & secret & [=] & _).
Qed.

End end_to_end.

(** ** Evaluation on a concrete input *)

Lemma binary_json_nonempty d : @json_dumps binary_json (VDict d) <> "".
Proof.
  intros He. pose proof (binary_json_laws (VDict d)) as Hr. rewrite He in Hr. vm_compute in Hr. discriminate.
Qed.

Definition producer_settings : BusSettings := mkBusSettings (Some " http://bus:8080/ ") None (Some "key") None.

Definition demo_pod_audit : dict := [("verdict", VStr "PASS"); ("agent_id", VStr "AGENT-12-PODA-MGR"); ("source", VStr "llm")].

Definition demo_bus (signing : bool) : Config := mkConfig 100 1000000 "key" 4 signing 60 10 300 [].

Definition demo_verdict_request : HttpRequest :=
  default (mkHttp "" "" "" "") (@pod_verdict_request binary_json producer_settings "u" "m1" "podA" "AGENT-12-PODA-MGR" demo_pod_audit 1).

Definition demo_arrival : Call := @arrival binary_json 0 "t" "u1" "u2" true demo_verdict_request.

Lemma unsigned_producers_refused_witness :
  exists e, check_call (demo_bus true) demo_hmac demo_json demo_arrival = Raise e.
Proof.
  apply (unsigned_producers_refused (H:=binary_json) (demo_bus true) demo_hmac demo_json
    producer_settings "u" 0 "t" "u1" "u2" true "delta" "AGENT-12-PODA-MGR" (VStr "broadcast")
    (pod_verdict_payload "m1" "podA" demo_pod_audit 1) "normal" (Some "delta-m1-podA")); by vm_compute.
Defined.

