(* ===== verification/AuditWorker.v ===== *)
(** * AuditWorker

    The audit worker, [services/audit-worker/audit_worker/main.py]: a consumer of the
    state stream that posts an audit report for every verified or failed mission and
    publishes the outcome on the same stream.  What the outside answers to one entry (the
    status of each HTTP attempt, whether Redis takes a write) is an argument; JSON
    parsing, the envelope schema and the texts of exceptions are parameters.  The
    signature put into the report, metrics and logs are left out. *)

From S2P Require Import Prelude PyVal Streams Consumers.

Definition STATE_STREAM := "missions.state".

(** What the worker is answered while it works on one entry: the status of the
    [n]-th attempt ([None] for an [HTTPError]), and whether the event, the dead letter
    and the acknowledgement can be written. *)
Record Outside := mkOutside {
  reply_to : nat -> option Z;
  publish_ok : bool;
  dlq_ok : bool;
  ack_ok : bool;
}.

(** ** [_post_audit] *)

Section post.
Context (max_retries : nat) (reply : nat -> option Z).

(** [status < 500 and status != 429] *)
Definition final_status (status : Z) : bool := (status <? 500) && negb (status =? 429).

(** The attempts from [attempt] on: the result and the number of posts made. *)
Fixpoint post_attempts (left attempt : nat) (last : option Z) (made : nat) : bool * nat :=
  match left with
  | O => (match last with Some status => status <? 400 | None => false end, made)
  | S left' =>
      match reply attempt with
      | Some status =>
          if final_status status then (status <? 400, S made)
          else post_attempts left' (S attempt) (Some status) (S made)
      | None => post_attempts left' (S attempt) last (S made)
      end
  end.

Definition _post_audit : bool * nat := post_attempts max_retries 1 None 0.
End post.

Section worker.
Context (max_retries : nat) (json_loads : string -> result val) (topics : list string)
        (schema_valid : val -> bool) (iso_timestamp : string -> bool) (exn_text : exn -> string).
Context {G : Type} `{Groups G}.

(** The consumer group of the stream; the dead letters; the reports the orchestrator
    accepted, as mission and status; the events published; the two counters. *)
Record Auditor := mkAuditor {
  au_group : G;
  au_dlq : list fields;
  au_reports : list (string * string);
  au_events : list (string * string * string);
  au_processed : Z;
  au_errors : Z;
}.

Definition set_audit_group (g : G) (s : Auditor) : Auditor :=
  mkAuditor g (au_dlq s) (au_reports s) (au_events s) (au_processed s) (au_errors s).

Definition modify (f : Auditor -> Auditor) : St Auditor unit := fun s => (Ok tt, f s).

Definition accept_report (mission_id status : string) (s : Auditor) : Auditor :=
  mkAuditor (au_group s) (au_dlq s) (au_reports s ++ [(mission_id, status)]) (au_events s) (au_processed s) (au_errors s).

(** ** Publishing *)

(** [_build_envelope] *)
Definition audit_build_envelope (now event_uuid topic mission_id payload_ref schema_name : string) : result val :=
  let envelope := VDict [("event_id", VStr ("evt-" +:+ event_uuid)); ("topic", VStr topic); ("timestamp", VStr now);
                         ("producer", VStr "audit-worker"); ("correlation_id", VStr mission_id);
                         ("payload_ref", VStr payload_ref); ("schema", VStr schema_name); ("priority", VStr "NORMAL")] in
  _ ← validate_envelope topics schema_valid iso_timestamp envelope;
  Ok envelope.

Definition _publish_event (now event_uuid : string) (io : Outside) (topic mission_id event_type : string)
    : St Auditor unit :=
  _ ← lift (audit_build_envelope now event_uuid topic mission_id
              ("registry://missions/" +:+ mission_id +:+ "/audit/" +:+ topic) "audit.report.v1");
  if publish_ok io
  then modify (fun s => mkAuditor (au_group s) (au_dlq s) (au_reports s) (au_events s ++ [(topic, mission_id, event_type)])
                          (au_processed s) (au_errors s))
  else raise OSError.

(** ** One entry *)

Definition audit_mission (now event_uuid : string) (io : Outside) (mission_id status topic event_type : string)
    : St Auditor unit :=
  if (_post_audit max_retries (reply_to io)).1
  then _ ← modify (accept_report mission_id status); _publish_event now event_uuid io topic mission_id event_type
  else mret tt.

Definition process_event (now event_uuid : string) (io : Outside) (fs : fields) : St Auditor unit :=
  match raw_field fs "envelope", raw_field fs "payload" with
  | Some envelope_raw, Some payload_raw =>
      envelope ← lift (json_loads envelope_raw);
      _ ← lift (validate_envelope topics schema_valid iso_timestamp envelope);
      payload ← lift (json_loads payload_raw);
      match payload with
      | VDict payload =>
          let event_type := py_str (dget_or payload "event_type" (VStr "")) in
          let mission_id := py_str (dget_or payload "mission_id" (VStr "")) in
          if String.eqb mission_id "" then raise ValueError
          else
            _ ← (if String.eqb event_type "MISSION_VERIFIED"
                 then audit_mission now event_uuid io mission_id "PASS" "artifact.rir.verified" "AUDIT_PASS"
                 else if String.eqb event_type "MISSION_FAILED"
                 then audit_mission now event_uuid io mission_id "FAIL" "artifact.rir.rejected" "AUDIT_FAIL"
                 else mret tt);
            modify (fun s => mkAuditor (au_group s) (au_dlq s) (au_reports s) (au_events s) (au_processed s + 1) (au_errors s))
      | _ => raise AttributeError
      end
  | _, _ => raise ProtocolValidationError
  end.

(** The exceptions that send an entry to the dead-letter stream. *)
Definition malformed (e : exn) : bool :=
  match e with ProtocolValidationError | ValueError | KeyError | TypeError => true | _ => false end.

(** [_write_dlq]; a failure is logged and swallowed. *)
Definition audit_write_dlq (now : string) (io : Outside) (entry_id : string) (fs : fields) (error : string)
    (s : Auditor) : Auditor :=
  if dlq_ok io
  then mkAuditor (au_group s)
         (au_dlq s ++ [[("error", error); ("entry_id", entry_id); ("envelope", default "" (dget fs "envelope"));
                        ("payload", default "" (dget fs "payload")); ("ts", now)]])
         (au_reports s) (au_events s) (au_processed s) (au_errors s)
  else s.

Definition count_error (s : Auditor) : Auditor :=
  mkAuditor (au_group s) (au_dlq s) (au_reports s) (au_events s) (au_processed s) (au_errors s + 1).

(** The [finally]: an acknowledgement that fails leaves the loop. *)
Definition acknowledge (io : Outside) (entry_id : string) : St Auditor unit := fun s =>
  if ack_ok io
  then (Ok tt, set_audit_group (ack STATE_STREAM entry_id (au_group s)) s)
  else (Raise OSError, s).

Definition audit_entry (now event_uuid : string) (io : Outside) (e : entry) : St Auditor unit := fun s =>
  match process_event now event_uuid io e.2 s with
  | (Ok _, s1) => acknowledge io e.1 s1
  | (Raise exc, s1) =>
      let s1 := count_error s1 in
      if malformed exc then acknowledge io e.1 (audit_write_dlq now io e.1 e.2 (exn_text exc) s1) else (Ok tt, s1)
  end.

(** The entries of a read, each with what the outside answers meanwhile. *)
Fixpoint audit_entries (now event_uuid : string) (io : entry -> Outside) (es : list entry) : St Auditor unit :=
  match es with
  | [] => mret tt
  | e :: rest => _ ← audit_entry now event_uuid (io e) e; audit_entries now event_uuid io rest
  end.

(** ** The loop *)

(** How the read of a pass ends: with entries, without the group (made again, as a group
    at the start of what the stream still holds), or with any other exception, which ends
    the consumer task. *)
Inductive read_outcome :=
| ReadEntries (io : entry -> Outside)
| NoGroup (again : G)
| ReadFails.

(** One pass of [_consumer_loop]; the flag is whether the task still runs. *)
Definition consumer_pass (now event_uuid : string) (r : read_outcome) (st : bool * Auditor) : bool * Auditor :=
  let '(running, s) := st in
  if negb running then st
  else match r with
       | NoGroup again => (true, set_audit_group again s)
       | ReadFails => (false, s)
       | ReadEntries io =>
           let '(records, g) := read_new [STATE_STREAM] 20 (au_group s) in
           match audit_entries now event_uuid io (concat records.*2) (set_audit_group g s) with
           | (Ok _, s2) => (true, s2)
           | (Raise _, s2) => (false, s2)
           end
       end.

Definition consumer_loop (now event_uuid : string) (rs : list read_outcome) (st : bool * Auditor) : bool * Auditor :=
  foldl (fun st r => consumer_pass now event_uuid r st) st rs.
End worker.

(** ** Lemmas *)

(** An attempt after which the worker tries again. *)
Definition retried (r : option Z) : Prop := match r with Some status => final_status status = false | None => True end.

Lemma final_or_failed status : final_status status = true \/ 400 <= status.
Proof. unfold final_status. destruct (Z.ltb_spec status 500), (Z.eqb_spec status 429); cbn; auto; right; lia. Qed.

Lemma post_attempts_spec reply left attempt last made :
  (forall status, last = Some status -> 400 <= status) ->
  let '(ok, n) := post_attempts reply left attempt last made in
  (made <= n <= made + left)%nat /\
  (ok = true <-> exists k status, (attempt <= k < attempt + left)%nat /\ reply k = Some status /\ status < 400 /\
                   n = (made + S (k - attempt))%nat /\ forall j, (attempt <= j < k)%nat -> retried (reply j)).
Proof.
  revert attempt last made. induction left as [|left IH]; intros attempt last made Hlast; cbn [post_attempts].
  - split; [lia|]. split; [|intros (k & st & ? & _); lia].
    destruct last as [st|]; [|done]. specialize (Hlast st eq_refl). intros ?%Z.ltb_lt. lia.
  - assert (forall last', (forall status, last' = Some status -> 400 <= status) -> retried (reply attempt) ->
        (forall st, reply attempt = Some st -> 400 <= st) ->
        let '(ok, n) := post_attempts reply left (S attempt) last' (S made) in
        (made <= n <= made + S left)%nat /\
        (ok = true <-> exists k status, (attempt <= k < attempt + S left)%nat /\ reply k = Some status /\ status < 400 /\
           n = (made + S (k - attempt))%nat /\ forall j, (attempt <= j < k)%nat -> retried (reply j))) as Hgo.
    { intros last' Hl' Hr Hn. specialize (IH (S attempt) last' (S made) Hl').
      destruct (post_attempts reply left (S attempt) last' (S made)) as [ok n]. destruct IH as [Hb Hok].
      split; [lia|]. rewrite Hok. split.
      - intros (k & st & Hk & Hrk & Hst & Hnk & Hj). exists k, st. split_and!; [lia|lia|done|done|lia|].
        intros j Hj'. destruct (decide (j = attempt)) as [->|]; [done|]. apply Hj. lia.
      - intros (k & st & Hk & Hrk & Hst & Hnk & Hj). exists k, st.
        assert (k <> attempt) by (intros ->; specialize (Hn st Hrk); lia).
        split_and!; [lia|lia|done|done|lia|]. intros j Hj'. apply Hj. lia. }
    destruct (reply attempt) as [st|] eqn:Er; [|by apply Hgo].
    destruct (final_status st) eqn:Ef.
    + split; [lia|]. split.
      * intros Hst%Z.ltb_lt. exists attempt, st. split_and!; [lia|lia|done|done|lia|]. intros; lia.
      * intros (k & st' & Hk & Hrk & Hst & _ & Hj). apply Z.ltb_lt.
        destruct (decide (k = attempt)) as [->|]; [by simplify_eq|].
        specialize (Hj attempt ltac:(lia)). rewrite Er in Hj. cbn in Hj. congruence.
    + destruct (final_or_failed st) as [?|Hge]; [congruence|]. apply Hgo; [by intros ? [= <-]|done|by intros ? [= <-]].
Qed.

(** ** One post *)

(** Posting an audit report ends after at most [max_retries] attempts, and answers true
    exactly when one of the attempts was answered below 400 and every earlier one was an
    HTTP error, a 429 or a server error: a refusal is never retried, and a report is
    posted again only while no answer was final. *)
Lemma post_audit_bounded (max_retries : nat) (reply : nat -> option Z) :
  let '(ok, posts) := _post_audit max_retries reply in
  (posts <= max_retries)%nat /\
  (ok = true <-> exists status, (1 <= posts)%nat /\ reply posts = Some status /\ status < 400 /\
                   forall j, (1 <= j < posts)%nat -> retried (reply j)).
Proof.
  unfold _post_audit. pose proof (post_attempts_spec reply max_retries 1 None 0 ltac:(done)) as H.
  destruct (post_attempts reply max_retries 1 None 0) as [ok n]. destruct H as [Hb Hok]. split; [lia|].
  rewrite Hok. split.
  - intros (k & st & Hk & Hr & Hst & -> & Hj). replace (0 + S (k - 1))%nat with k by lia. exists st. by split_and!; [lia|..].
  - intros (st & Hn & Hr & Hst & Hj). exists n, st. by split_and!; [lia|lia|..|lia|].
Qed.

(** ** What one entry does *)

Section audit_lemmas.
Context (max_retries : nat) (json_loads : string -> result val) (topics : list string)
        (schema_valid : val -> bool) (iso_timestamp : string -> bool) (exn_text : exn -> string).
Context {G : Type} `{GroupsLaws G}.
Implicit Types s : Auditor (G:=G).

Abbreviation process := (process_event max_retries json_loads topics schema_valid iso_timestamp (G:=G)).
Abbreviation one := (audit_entry max_retries json_loads topics schema_valid iso_timestamp exn_text (G:=G)).
Abbreviation pass := (consumer_pass max_retries json_loads topics schema_valid iso_timestamp exn_text (G:=G)).
Abbreviation loop := (consumer_loop max_retries json_loads topics schema_valid iso_timestamp exn_text (G:=G)).

(** The event that tells of an accepted report. *)
Definition event_of (report : string * string) : string * string * string :=
  if String.eqb report.2 "PASS" then ("artifact.rir.verified", report.1, "AUDIT_PASS")
  else ("artifact.rir.rejected", report.1, "AUDIT_FAIL").

(** What work on an entry may do to the reports and events. *)
Definition grows s s' : Prop :=
  exists rs es, au_reports s' = au_reports s ++ rs /\ au_events s' = au_events s ++ es /\ es `sublist_of` (event_of <$> rs).

Lemma grows_refl s s' : au_reports s' = au_reports s -> au_events s' = au_events s -> grows s s'.
Proof. intros Hr He. exists [], []. by rewrite Hr, He, !app_nil_r. Qed.

Lemma grows_trans s s1 s2 : grows s s1 -> grows s1 s2 -> grows s s2.
Proof.
  intros (rs & es & Hr & He & Hs) (rs' & es' & Hr' & He' & Hs').
  exists (rs ++ rs'), (es ++ es'). rewrite Hr', He', Hr, He, !app_assoc, fmap_app. split_and!; [done..|]. by apply sublist_app.
Qed.

Lemma audit_mission_grows now u io mid status topic ev s :
  event_of (mid, status) = (topic, mid, ev) ->
  let s' := (audit_mission max_retries topics schema_valid iso_timestamp now u io mid status topic ev s).2 in
  grows s s' /\ au_group s' = au_group s.
Proof.
  intros Hev. unfold audit_mission. destruct (_post_audit _ _).1; [|by split; [apply grows_refl|]].
  unfold modify, _publish_event, mbind, St_bind, lift.
  destruct (audit_build_envelope _ _ _ _ _ _ _ _ _) as [v|exc]; cbn;
    [destruct (publish_ok io); cbn; (split; [|done])|split; [|done]].
  - exists [(mid, status)], [(topic, mid, ev)]. by rewrite <- Hev.
  - exists [(mid, status)], []. rewrite app_nil_r. split_and!; [done..|]. apply sublist_nil_l.
  - exists [(mid, status)], []. rewrite app_nil_r. split_and!; [done..|]. apply sublist_nil_l.
Qed.

Lemma process_grows now u io fs s : let s' := (process now u io fs s).2 in grows s s' /\ au_group s' = au_group s.
Proof.
  assert (grows s s /\ au_group s = au_group s) as Hid by (split; [by apply grows_refl|done]).
  unfold process_event. destruct (raw_field fs "envelope") as [er|], (raw_field fs "payload") as [pr|]; try done.
  unfold mbind, St_bind, lift. destruct (json_loads er) as [env|]; [|done].
  destruct (validate_envelope _ _ _ env); [|done]. destruct (json_loads pr) as [[]|]; try done.
  destruct (String.eqb _ ""); [done|].
  assert (forall m : St (Auditor (G:=G)) unit, (grows s (m s).2 /\ au_group (m s).2 = au_group s) ->
    let s' := (match m s with (Ok _, s1) => modify (fun s => mkAuditor (au_group s) (au_dlq s) (au_reports s) (au_events s)
                  (au_processed s + 1) (au_errors s)) s1 | (Raise e, s1) => (Raise e, s1) end).2 in
    grows s s' /\ au_group s' = au_group s) as Hthen.
  { intros m Hm. destruct (m s) as [[[]|e] s1]; [|done]. destruct Hm as [Hg He]. split; [|done].
    eapply grows_trans; [exact Hg|by apply grows_refl]. }
  match goal with |- context [if ?b then _ else _] => destruct b end; [apply Hthen, audit_mission_grows; done|].
  match goal with |- context [if ?b then _ else _] => destruct b end; [apply Hthen, audit_mission_grows; done|].
  apply Hthen. done.
Qed.

(** ** Entries and passes *)

Lemma one_effect now u io e s :
  let s' := (one now u io e s).2 in
  grows s s' /\ (au_group s' = au_group s \/ au_group s' = ack STATE_STREAM e.1 (au_group s)) /\
  (ack_ok io = true -> (one now u io e s).1 = Ok tt).
Proof.
  unfold audit_entry. destruct (process_grows now u io e.2 s) as [Hg He].
  destruct (process now u io e.2 s) as [[[]|exc] s1]; cbn [snd] in Hg, He.
  - unfold acknowledge. destruct (ack_ok io); cbn; rewrite He; (split_and!; [|auto|done]); [|done].
    eapply grows_trans; [exact Hg|by apply grows_refl].
  - assert (forall s2, grows s s2 -> au_group s2 = au_group s -> let s' := (acknowledge io e.1 s2).2 in
      grows s s' /\ (au_group s' = au_group s \/ au_group s' = ack STATE_STREAM e.1 (au_group s)) /\
      (ack_ok io = true -> (acknowledge io e.1 s2).1 = Ok tt)) as Hack.
    { intros s2 Hg2 He2. unfold acknowledge. destruct (ack_ok io); cbn; rewrite ?He2; (split_and!; [|auto|done]); [|done].
      eapply grows_trans; [exact Hg2|by apply grows_refl]. }
    destruct (malformed exc).
    + apply Hack; unfold audit_write_dlq; destruct (dlq_ok io); try exact He;
        (eapply grows_trans; [exact Hg|by apply grows_refl]).
    + cbn. split_and!; [|by left|done]. eapply grows_trans; [exact Hg|by apply grows_refl].
Qed.

Lemma entries_grow now u io es s :
  grows s (audit_entries max_retries json_loads topics schema_valid iso_timestamp exn_text now u io es s).2.
Proof.
  revert s. induction es as [|e es IH]; intros s; cbn [audit_entries]; [by apply grows_refl|].
  unfold mbind, St_bind. destruct (one_effect now u (io e) e s) as (Hg & _ & _).
  destruct (one now u (io e) e s) as [[[]|exc] s1]; cbn [snd] in Hg; [|done].
  eapply grows_trans; [exact Hg|apply IH].
Qed.

Lemma pass_grows now u r st : grows st.2 (pass now u r st).2.
Proof.
  destruct st as [[] s]; cbn [consumer_pass negb]; [|by apply grows_refl].
  destruct r as [io|again|]; [|by apply grows_refl..].
  destruct (read_new _ _ _) as [records g].
  pose proof (entries_grow now u io (concat records.*2) (set_audit_group g s)) as Hg.
  destruct (audit_entries _ _ _ _ _ _ now u io _ _) as [[[]|exc] s2]; cbn in *;
    (eapply grows_trans; [|exact Hg]; by apply grows_refl).
Qed.

Lemma loop_grows now u rs st : grows st.2 (loop now u rs st).2.
Proof.
  revert st. induction rs as [|r rs IH]; intros st; [by apply grows_refl|].
  unfold consumer_loop. cbn [foldl]. eapply grows_trans; [apply pass_grows|apply IH].
Qed.

(** C19: Whatever is answered meanwhile, the events the audit worker publishes are events of
    reports the orchestrator has accepted, in their order and with their outcome: no
    verified artifact is announced without an accepted PASS report, no rejected one
    without an accepted FAIL report. *)
Theorem events_follow_reports (now u : string) (rs : list (read_outcome (G:=G))) (running : bool) s
    (Hstart : au_events s `sublist_of` (event_of <$> au_reports s)) :
  let s' := (loop now u rs (running, s)).2 in au_events s' `sublist_of` (event_of <$> au_reports s').
Proof.
  intros s'. destruct (loop_grows now u rs (running, s)) as (reports & events & Hr & He & Hs). cbn [snd] in Hr, He.
  subst s'. rewrite Hr, He, fmap_app. by apply sublist_app.
Qed.

(** ** Entries left pending *)

(** Work on [e] does not acknowledge the entry [x]. *)
Definition spares now u io (x e : entry) : Prop :=
  e.1 <> x.1 \/ forall s, au_group (one now u io e s).2 = au_group s.

Lemma transient_spares now u io e :
  (forall s, exists exc, (process now u io e.2 s).1 = Raise exc /\ malformed exc = false) -> spares now u io e e.
Proof.
  intros Ht. right. intros s. destruct (Ht s) as (exc & Hexc & Hm). unfold audit_entry.
  destruct (process_grows now u io e.2 s) as [_ He]. destruct (process now u io e.2 s) as [r s1].
  cbn in Hexc, He. subst r. rewrite Hm. exact He.
Qed.

Lemma acked_other x i (g : G) : x ∈ pending g STATE_STREAM -> i <> x.1 -> x ∈ pending (ack STATE_STREAM i g) STATE_STREAM.
Proof.
  intros Hx Hi. destruct (ack_spec STATE_STREAM i g STATE_STREAM) as [-> _]. rewrite decide_True by done.
  apply list_elem_of_In, List.filter_In. split; [by apply list_elem_of_In|]. apply negb_true_iff, String.eqb_neq. congruence.
Qed.

Lemma entries_spare now u io es x s :
  Forall (fun e => spares now u (io e) x e) es -> x ∈ pending (au_group s) STATE_STREAM ->
  let s' := (audit_entries max_retries json_loads topics schema_valid iso_timestamp exn_text now u io es s).2 in
  x ∈ pending (au_group s') STATE_STREAM /\ unread (au_group s') STATE_STREAM = unread (au_group s) STATE_STREAM.
Proof.
  intros Hall. revert s. induction Hall as [|e es Hsp _ IH]; intros s Hx; [done|]. cbn [audit_entries].
  unfold mbind, St_bind. destruct (one_effect now u (io e) e s) as (_ & Hg & _).
  assert (x ∈ pending (au_group (one now u (io e) e s).2) STATE_STREAM /\
          unread (au_group (one now u (io e) e s).2) STATE_STREAM = unread (au_group s) STATE_STREAM) as [Hx1 Hu1].
  { destruct Hsp as [Hne|Hsame]; [|by rewrite Hsame]. destruct Hg as [->| ->]; [done|].
    split; [by apply acked_other|]. apply ack_spec. }
  destruct (one now u (io e) e s) as [[[]|exc] s1]; cbn [snd] in Hx1, Hu1; [|done].
  destruct (IH s1 Hx1) as [Hx2 Hu2]. split; [done|]. by rewrite Hu2.
Qed.

(** What a read of the state stream takes. *)
Lemma read_state (g : G) :
  let '(records, g') := read_new [STATE_STREAM] 20 g in
  concat records.*2 = take 20 (unread g STATE_STREAM) /\
  pending g' STATE_STREAM = pending g STATE_STREAM ++ take 20 (unread g STATE_STREAM) /\
  unread g' STATE_STREAM = drop 20 (unread g STATE_STREAM).
Proof.
  destruct (read_new_spec [STATE_STREAM] 20 g) as (Hnew & Hin & _); [apply NoDup_singleton|].
  destruct (Hin STATE_STREAM ltac:(set_solver)) as [Hp Hu]. destruct (read_new _ _ g) as [new g']. cbn [fst snd] in *.
  split_and!; [|done..]. rewrite Hnew. cbn [fmap list_fmap List.filter snd]. destruct (take 20 _); [done|].
  cbn. by rewrite app_nil_r.
Qed.

Definition same_group (r : read_outcome (G:=G)) : Prop := match r with NoGroup _ => False | _ => True end.

(** A pending entry other than the unread ones stays pending. *)
Lemma pass_keeps_pending now u r x st :
  same_group r -> x ∈ pending (au_group st.2) STATE_STREAM -> x.1 ∉ (unread (au_group st.2) STATE_STREAM).*1 ->
  let st' := pass now u r st in
  x ∈ pending (au_group st'.2) STATE_STREAM /\ x.1 ∉ (unread (au_group st'.2) STATE_STREAM).*1.
Proof.
  destruct st as [[] s]; cbn [consumer_pass negb snd]; [|done]. destruct r as [io|again|]; [|done|done].
  intros _ Hx Hu. pose proof (read_state (au_group s)) as Hread.
  destruct (read_new _ _ _) as [records g]. destruct Hread as (Hrec & Hp & Hu').
  destruct (entries_spare now u io (concat records.*2) x (set_audit_group g s)) as [Hx' Hu''].
  - rewrite Hrec. apply Forall_forall. intros e (i & Hi & _)%elem_of_take. left. intros Heq. apply Hu. rewrite <- Heq.
    apply list_elem_of_fmap. exists e. split; [done|]. by eapply list_elem_of_lookup_2.
  - cbn. rewrite Hp. set_solver.
  - assert (x.1 ∉ (drop 20 (unread (au_group s) STATE_STREAM)).*1) as Hd.
    { intros Hin. apply Hu. rewrite <- (take_drop 20 (unread (au_group s) STATE_STREAM)), fmap_app. set_solver. }
    destruct (audit_entries _ _ _ _ _ _ now u io _ _) as [[[]|exc] s2]; cbn in *; (split; [done|]); by rewrite Hu'', Hu'.
Qed.

(** An entry whose work raises anything but a malformed-input error (the event could not
    be published, say) is left pending, and no later pass of the worker takes it up
    again: whatever the following reads answer, it stays unacknowledged for good. *)
Lemma transient_failure_never_retried (now u : string) (io : entry -> Outside) (e : entry)
    (rs : list (read_outcome (G:=G))) s
    (Hnew : e ∈ take 20 (unread (au_group s) STATE_STREAM))
    (Hids : NoDup (unread (au_group s) STATE_STREAM).*1)
    (Htransient : forall s', exists exc, (process now u (io e) e.2 s').1 = Raise exc /\ malformed exc = false)
    (Hgroup : Forall same_group rs) :
  let s' := (loop now u (ReadEntries io :: rs) (true, s)).2 in
  e ∈ pending (au_group s') STATE_STREAM /\ e.1 ∉ (unread (au_group s') STATE_STREAM).*1.
Proof.
  assert (e ∈ pending (au_group (pass now u (ReadEntries io) (true, s)).2) STATE_STREAM /\
          e.1 ∉ (unread (au_group (pass now u (ReadEntries io) (true, s)).2) STATE_STREAM).*1) as Hfirst.
  { cbn [consumer_pass negb]. pose proof (read_state (au_group s)) as Hread.
    destruct (read_new _ _ _) as [records g]. destruct Hread as (Hrec & Hp & Hu').
    rewrite <- (take_drop 20 (unread (au_group s) STATE_STREAM)), fmap_app in Hids.
    apply NoDup_app in Hids as (Hnd & Hdis & _).
    assert (e.1 ∉ (drop 20 (unread (au_group s) STATE_STREAM)).*1) as Hlater by (apply Hdis, list_elem_of_fmap; by exists e).
    destruct (entries_spare now u io (concat records.*2) e (set_audit_group g s)) as [Hx' Hu''].
    - rewrite Hrec. apply Forall_forall. intros e' He'.
      destruct (decide (e' = e)) as [->|Hne]; [by apply transient_spares|]. left.
      intros Heq. apply Hne. by eapply same_id.
    - cbn. rewrite Hp. set_solver.
    - destruct (audit_entries _ _ _ _ _ _ now u io _ _) as [[[]|exc] s2]; cbn in *; (split; [done|]); by rewrite Hu'', Hu'. }
  intros s'. subst s'. unfold consumer_loop. cbn [foldl].
  revert Hfirst. generalize (pass now u (ReadEntries io) (true, s)).
  induction Hgroup as [|r rs Hr _ IH]; intros st [Hx Hu]; [done|]. cbn [foldl].
  apply IH. by apply pass_keeps_pending.
Qed.

(** ** Draining *)

Lemma entries_unread now u io es s :
  (forall e, e ∈ es -> ack_ok (io e) = true) ->
  let '(r, s') := audit_entries max_retries json_loads topics schema_valid iso_timestamp exn_text now u io es s in
  r = Ok tt /\ unread (au_group s') STATE_STREAM = unread (au_group s) STATE_STREAM.
Proof.
  revert s. induction es as [|e es IH]; intros s Hack; [done|]. cbn [audit_entries]. unfold mbind, St_bind.
  destruct (one_effect now u (io e) e s) as (_ & Hg & Hok). specialize (Hok (Hack e ltac:(set_solver))).
  destruct (one now u (io e) e s) as [r s1]. cbn [fst snd] in Hg, Hok. subst r.
  specialize (IH s1 ltac:(intros; apply Hack; set_solver)).
  destruct (audit_entries _ _ _ _ _ _ now u io es s1) as [r s2]. destruct IH as [-> ->]. split; [done|].
  destruct Hg as [->| ->]; [done|]. by apply ack_spec.
Qed.

(** While reads and acknowledgements succeed, [n] passes of the audit worker take [20 n]
    of the entries unread so far and the task keeps running; the first read that fails
    with anything but a missing group ends the task, and whatever could be read afterwards
    is never taken. *)
Lemma audit_loop_drains (now u : string) (ios : list (entry -> Outside)) (rest : list (read_outcome (G:=G))) s
    (Hack : Forall (fun io => forall e, ack_ok (io e) = true) ios) :
  let '(running, s') := loop now u (ReadEntries <$> ios) (true, s) in
  running = true /\
  unread (au_group s') STATE_STREAM = drop (20 * length ios) (unread (au_group s) STATE_STREAM) /\
  loop now u ((ReadEntries <$> ios) ++ ReadFails :: rest) (true, s) = (false, s').
Proof.
  revert s. induction Hack as [|io ios Hio _ IH]; intros s.
  - split_and!; [done..|]. unfold consumer_loop. cbn [fmap list_fmap app foldl consumer_pass negb].
    clear. induction rest as [|r rest IH]; [done|exact IH].
  - unfold consumer_loop in *. cbn [fmap list_fmap app foldl consumer_pass negb].
    pose proof (read_state (au_group s)) as Hread.
    destruct (read_new _ _ _) as [records g]. destruct Hread as (_ & _ & Hu').
    pose proof (entries_unread now u io (concat records.*2) (set_audit_group g s) ltac:(intros; apply Hio)) as He.
    destruct (audit_entries _ _ _ _ _ _ now u io _ _) as [r s2]. destruct He as [-> Hu2]. specialize (IH s2).
    destruct (foldl _ (true, s2) (ReadEntries <$> ios)) as [running s3]. destruct IH as (-> & Hu3 & ->).
    split_and!; [done| |done]. rewrite Hu3, Hu2. cbn [au_group set_audit_group]. rewrite Hu', drop_drop. f_equal. cbn [length]. lia.
Qed.
End audit_lemmas.

(** ** A concrete worker *)

Definition audit_loads (s : string) : result val :=
  if String.eqb s "envelope"
  then Ok (VDict [("event_id", VStr "e"); ("topic", VStr STATE_STREAM); ("timestamp", VStr "now"); ("producer", VStr "p");
                  ("correlation_id", VStr "m1"); ("payload_ref", VStr "registry://missions/m1"); ("schema", VStr "s");
                  ("priority", VStr "NORMAL")])
  else if String.eqb s "verified" then Ok (VDict [("event_type", VStr "MISSION_VERIFIED"); ("mission_id", VStr "m1")])
  else Raise ValueError.

Definition audit_topics : list string := [STATE_STREAM; "artifact.rir.verified"; "artifact.rir.rejected"].

Definition demo_audit := consumer_loop 3 audit_loads audit_topics is_dict (fun _ => true) (fun _ => "error") (G:=mgroup).

Definition audit_backlog : mgroup :=
  mkGroup ∅ {[STATE_STREAM := [("1-0", [("envelope", "envelope"); ("payload", "verified")]);
                               ("2-0", [("envelope", "envelope"); ("payload", "other")])]]}.

Definition auditor_of (g : mgroup) : Auditor := mkAuditor g [] [] [] 0 0.

Definition second_try : nat -> option Z := fun n => if Nat.eqb n 1 then None else Some 201.

(** The first entry is reported at the second attempt and announced, the second is dead-lettered. *)
Example demo_audit_pass :
  let '(running, s) := demo_audit "now" "u" [ReadEntries (fun _ => mkOutside second_try true true true)]
                         (true, auditor_of audit_backlog) in
  running = true /\ au_reports s = [("m1", "PASS")] /\ au_events s = [("artifact.rir.verified", "m1", "AUDIT_PASS")] /\
  length (au_dlq s) = 1%nat /\ pending (au_group s) STATE_STREAM = [] /\ au_processed s = 1 /\ au_errors s = 1.
Proof. vm_compute. by split_and!. Qed.

Lemma events_follow_reports_witness :
  let s' := (demo_audit "now" "u" [ReadEntries (fun _ => mkOutside second_try true true true)]
               (true, auditor_of audit_backlog)).2 in
  au_events s' `sublist_of` (event_of <$> au_reports s') /\ length (au_events s') = 1%nat.
Proof.
  split; [|vm_compute; reflexivity].
  refine (events_follow_reports 3 audit_loads audit_topics is_dict (fun _ => true) (fun _ => "error") "now" "u" _ true (auditor_of audit_backlog) _).
  apply sublist_nil.
Defined.

(** The event of the first entry cannot be published: its report is accepted, but it is
    never announced and the entry is never taken up again. *)
Lemma transient_failure_never_retried_witness :
  let s' := (demo_audit "now" "u"
               [ReadEntries (fun _ => mkOutside second_try false true true);
                ReadEntries (fun _ => mkOutside second_try true true true)] (true, auditor_of audit_backlog)).2 in
  ("1-0", [("envelope", "envelope"); ("payload", "verified")]) ∈ pending (au_group s') STATE_STREAM /\
  au_reports s' = [("m1", "PASS")] /\ au_events s' = [].
Proof.
  split; [|vm_compute; by split].
  refine (proj1 (transient_failure_never_retried 3 audit_loads audit_topics is_dict (fun _ => true) (fun _ => "error") "now" "u"
    (fun _ => mkOutside second_try false true true) ("1-0", [("envelope", "envelope"); ("payload", "verified")])
    [ReadEntries (fun _ => mkOutside second_try true true true)] (auditor_of audit_backlog) _ _ _ _)).
  - change (take 20 _) with [("1-0", [("envelope", "envelope"); ("payload", "verified")]);
                             ("2-0", [("envelope", "envelope"); ("payload", "other")])]. set_solver.
  - change (NoDup ["1-0"; "2-0"]). apply (bool_decide_unpack _). vm_compute. done.
  - intros s'. exists OSError. split; vm_compute; reflexivity.
  - repeat constructor.
Defined.

Lemma audit_loop_drains_witness :
  let '(running, s') := demo_audit "now" "u" (ReadEntries <$> [fun _ => mkOutside second_try true true true])
                          (true, auditor_of audit_backlog) in
  running = true /\ unread (au_group s') STATE_STREAM = [] /\
  demo_audit "now" "u" ((ReadEntries <$> [fun _ => mkOutside second_try true true true]) ++ [ReadFails])
    (true, auditor_of audit_backlog) = (false, s').
Proof.
  refine (audit_loop_drains 3 audit_loads audit_topics is_dict (fun _ => true) (fun _ => "error") "now" "u"
            [fun _ => mkOutside second_try true true true] [] (auditor_of audit_backlog) _).
  by repeat constructor.
Defined.
