(* ===== verification/Bundles.v ===== *)
(** * Bundles

    The [## FILE path] bundle, the text format in which several files travel as one
    string: the packaging of [build_artifacts.py] and [aim_generator.py], the file trees of
    [file_tree.py] and their repair in [rqca_repair.py], the workload items of
    [mission_flow_v2/base.py], runtime QC's unbundling in [rqca_agent.py] and the pod
    worker's partition subsets in [pod_worker/main.py].  Texts are lists of characters.
    Each implementation has a regular expression of its own; both are modelled here as
    a function that tries to match at the start of a line. *)

From S2P Require Import Prelude PyVal.

Abbreviation text := (list ascii).

Definition nl : ascii := "010"%char.
Definition cr : ascii := "013"%char.
Definition slash : ascii := "/"%char.
Definition is_nl (c : ascii) : bool := Ascii.eqb c nl.

(** The characters at which [splitlines] breaks. *)
Definition line_break (c : ascii) : bool := let n := code c in ((10 <=? n) && (n <=? 13)) || ((28 <=? n) && (n <=? 30)).

(** [text.lstrip(CR LF)], [text.rstrip()] and [text.strip()]. *)
Definition lstrip_nl (t : text) : text := dropwhile (fun c => Ascii.eqb c cr || is_nl c) t.
Definition rstrip (t : text) : text := rev (dropwhile is_space (rev t)).
Definition strip (t : text) : text := rstrip (dropwhile is_space t).

(** ** The regular expressions

    A match at the start of the text: the group, and the text after the match. *)

Fixpoint strip_prefix (p t : text) : option text :=
  match p, t with
  | [], _ => Some t
  | a :: p', b :: t' => if Ascii.eqb a b then strip_prefix p' t' else None
  | _ :: _, [] => None
  end.

(** A line and what follows it, from its line feed on. *)
Fixpoint span_line (t : text) : text * text :=
  match t with
  | [] => ([], [])
  | c :: t' => if is_nl c then ([], t) else let '(l, r) := span_line t' in (c :: l, r)
  end.

Definition FILE : text := chars "## FILE".

(** [^## FILE (.+)$] *)
Definition _SOURCE_BUNDLE_FILE_PATTERN (t : text) : option (text * text) :=
  r ← strip_prefix (FILE ++ [" "%char]) t;
  match span_line r with ([], _) => None | (l, r') => Some (l, r') end.

Fixpoint count_space (t : text) : nat :=
  match t with c :: t' => if is_space c then S (count_space t') else O | [] => O end.

(** What [\s+] takes, [n] characters at first and fewer when the rest cannot match. *)
Fixpoint after_spaces (n : nat) (t : text) : option (text * text) :=
  match n with
  | O => None
  | S n' => match span_line (drop n t) with ([], _) => after_spaces n' t | (l, r) => Some (l, r) end
  end.

(** [^## FILE:?\s+(.+)$] *)
Definition FILE_MARKER (t : text) : option (text * text) :=
  r ← strip_prefix FILE t;
  let r := match r with c :: r' => if Ascii.eqb c ":"%char then r' else r | [] => r end in
  after_spaces (count_space r) r.

(** [finditer]: the text before the first match, and for each match its group and the
    text from its end to the next match.  [skip] characters are still part of a match;
    [start] is whether a line starts here. *)
Fixpoint scan (m : text -> option (text * text)) (skip : nat) (start : bool) (t : text) : text * list (text * text) :=
  match t with
  | [] => ([], [])
  | c :: t' =>
      match skip with
      | S k => scan m k false t'
      | O =>
          match (if start then m t else None) with
          | Some (g, r) => let '(pre, ss) := scan m (length t - length r - 1) false t' in ([], (g, pre) :: ss)
          | None => let '(pre, ss) := scan m 0 (is_nl c) t' in (c :: pre, ss)
          end
      end
  end.

Definition matches (m : text -> option (text * text)) (t : text) : list (text * text) := (scan m 0 true t).2.

(** ** The parsers *)

(** [build_artifacts._parse_source_bundle] and [aim_generator._parse_source_bundle], without
    the digests. *)
Definition _parse_source_bundle (source_code : text) : list (text * text) :=
  match matches _SOURCE_BUNDLE_FILE_PATTERN source_code with
  | [] => [(chars "inline_source.txt", source_code)]
  | ms => imap (fun index ms =>
            (match strip ms.1 with
             | [] => chars ("file-" +:+ pretty (Z.of_nat (index + 1)) +:+ ".txt")
             | path => path
             end, lstrip_nl ms.2)) ms
  end.

Definition is_nil {A} (l : list A) : bool := match l with [] => true | _ => false end.

(** The pod worker's. *)
Definition _bundle_source_segments (source_code : text) : list (text * text) :=
  List.filter (fun s => negb (is_nil s.1))
    ((fun ms => (strip ms.1, lstrip_nl ms.2)) <$> matches _SOURCE_BUNDLE_FILE_PATTERN source_code).

Definition dedup_first (l : list text) : list text :=
  foldl (fun acc x => if bool_decide (x ∈ acc) then acc else acc ++ [x]) [] l.

Definition _workload_items_from_source_bundle (source_code : text) : list text :=
  if is_nil (strip source_code) then []
  else dedup_first (List.filter (fun p => negb (is_nil p))
         (strip ∘ fst <$> matches _SOURCE_BUNDLE_FILE_PATTERN source_code)).

Definition block (f : text * text) : text := rstrip (FILE ++ [" "%char] ++ f.1 ++ [nl] ++ rstrip f.2).

Fixpoint text_join (sep : text) (l : list text) : text :=
  match l with
  | [] => []
  | [x] => x
  | x :: l' => x ++ sep ++ text_join sep l'
  end.

(** What a worker sees of the bundle of a partitioned mission. *)
Definition _subset_source_bundle (source_code : text) (assigned_items : list text) : text :=
  if is_nil (strip source_code) || is_nil assigned_items then source_code
  else
    let wanted := List.filter (fun p => negb (is_nil p)) (strip <$> assigned_items) in
    let segments := _bundle_source_segments source_code in
    let selected := List.filter (fun s => bool_decide (s.1 ∈ wanted)) segments in
    if is_nil wanted || is_nil segments || is_nil selected then source_code
    else strip (text_join [nl; nl] (block <$> selected)) ++ [nl].

(** ** File trees *)

Fixpoint split_on (sep : ascii) (t : text) : list text :=
  match t with
  | [] => [[]]
  | c :: t' =>
      if Ascii.eqb c sep then [] :: split_on sep t'
      else match split_on sep t' with [] => [[c]] | w :: ws => (c :: w) :: ws end
  end.

Definition _MAX_FILES : nat := 80.
Definition _MAX_PATH : nat := 240.
Definition _MAX_CONTENT_CHARS : Z := 200000.

(** [t[:n]], for an [n] too large to be written in unary. *)
Fixpoint take_chars (n : Z) (t : text) : text :=
  match t with [] => [] | c :: t' => if n <=? 0 then [] else c :: take_chars (n - 1) t' end.

Definition drop_drive (t : text) : text :=
  match t with a :: c :: t' => if is_alpha a && Ascii.eqb c ":"%char then t' else t | _ => t end.

(** A path component that stays. *)
Definition kept_part (p : text) : bool :=
  negb (is_nil p) && negb (bool_decide (p = chars ".")) && negb (bool_decide (p = chars "..")).

Definition sanitize_rel_path (path : text) : text :=
  let raw := (fun c => if Ascii.eqb c "\"%char then slash else c) <$> strip path in
  let raw := drop_drive raw in
  let raw := dropwhile (Ascii.eqb slash) raw in
  let parts := List.filter kept_part (split_on slash raw) in
  match take _MAX_PATH (text_join [slash] parts) with
  | [] => chars "generated.txt"
  | cleaned => cleaned
  end.

Definition parse_file_tree (source : text) : list (text * text) :=
  (fun ms => (sanitize_rel_path ms.1, take_chars _MAX_CONTENT_CHARS (lstrip_nl ms.2))) <$>
    take _MAX_FILES (matches FILE_MARKER source).

Definition chunk (f : text * text) : text :=
  FILE ++ [" "%char] ++ sanitize_rel_path f.1 ++ [nl] ++ rstrip (take_chars _MAX_CONTENT_CHARS f.2) ++ [nl].

Definition serialize_file_tree (files : list (text * text)) : text :=
  let chunks := chunk <$> take _MAX_FILES files in
  rstrip (text_join [nl] chunks) ++ (if is_nil chunks then [] else [nl]).

(** [item.get(a) or item.get(b) or ...] as text. *)
Fixpoint first_truthy (d : dict) (keys : list string) : text :=
  match keys with
  | [] => []
  | k :: keys' => if truthy (dget0 d k) then chars (py_str (dget0 d k)) else first_truthy d keys'
  end.

Definition normalize_codegen_files (raw_files : val) : list (text * text) :=
  match raw_files with
  | VList items =>
      foldl (fun files item =>
        match item with
        | VDict item =>
            let path := sanitize_rel_path (first_truthy item ["path"; "filename"; "name"]) in
            let content := first_truthy item ["content"; "code"; "generated_code"] in
            if is_nil (strip content) then files
            else if bool_decide (path ∈ files.*1) then files
            else files ++ [(path, take_chars _MAX_CONTENT_CHARS content)]
        | _ => files
        end) [] (take _MAX_FILES items)
  | _ => []
  end.

Definition codegen_bundle_from_result (raw : dict) (generated_code : text) : text * list (text * text) :=
  let files := normalize_codegen_files (dget0 raw "files") in
  let files := if is_nil files then parse_file_tree generated_code else files in
  if is_nil files then (generated_code, []) else (serialize_file_tree files, files).

(** ** Merging a repair *)

(** [{path: content for ...}]: the last content of a path. *)
Definition by_path (files : list (text * text)) (p : text) : option text :=
  snd <$> last (List.filter (fun f => bool_decide (f.1 = p)) files).

Definition merge_files (orig rep : list (text * text)) : list (text * text) :=
  let merged := (fun item => let p := sanitize_rel_path item.1 in
                             (p, default item.2 (by_path ((fun f => (sanitize_rel_path f.1, f.2)) <$> rep) p))) <$> orig in
  foldl (fun merged item => let p := sanitize_rel_path item.1 in
                            if bool_decide (p ∈ merged.*1) then merged else merged ++ [(p, item.2)]) merged rep.

Definition merge_repaired_files (original_code repaired_code : text) : text :=
  let orig_files := parse_file_tree original_code in
  let rep_files := parse_file_tree repaired_code in
  if is_nil orig_files || is_nil rep_files then repaired_code
  else serialize_file_tree (merge_files orig_files rep_files).

(** ** Runtime QC *)

(** [Path(p).name] *)
Definition path_name (p : text) : text :=
  default [] (last (List.filter (fun part => negb (is_nil part) && negb (bool_decide (part = chars "."))) (split_on slash p))).

(** The text to run, and the files beside it by name. *)
Definition _unbundle_source (code filename : text) : text * list (string * text) :=
  match (fun ms => (strip ms.1, lstrip_nl ms.2)) <$> matches _SOURCE_BUNDLE_FILE_PATTERN code with
  | [] => (code, [])
  | (first :: _) as sections =>
      let wanted := path_name filename in
      let primary_index := default O (find_index (fun s => bool_decide (path_name s.1 = wanted)) sections) in
      (snd (default first (sections !! primary_index)),
       foldl (fun extras s => dset extras (unchars (path_name s.1)) s.2) []
         (List.filter (fun s => negb (is_nil (path_name s.1)) && negb (is_nil (strip s.2)))
              (take primary_index sections ++ drop (S primary_index) sections)))
  end.

(** A bundle of two files and a stray line, read three ways. *)
Example bundle_demo :
  let t := chars "hi" ++ [nl] ++ chars "## FILE a/x.py" ++ [nl] ++ chars "print(1)" ++ [nl; nl] ++
           chars "## FILE ../y.py" ++ [nl; nl] ++ chars "pass" in
  _bundle_source_segments t = [(chars "a/x.py", chars "print(1)" ++ [nl; nl]); (chars "../y.py", chars "pass")] /\
  parse_file_tree t = [(chars "a/x.py", chars "print(1)" ++ [nl; nl]); (chars "y.py", chars "pass")] /\
  (_unbundle_source t (chars "tmp/y.py")).1 = chars "pass".
Proof. vm_compute. by split_and!. Qed.

(** ** Lemmas on texts *)

Section strip_lemmas.
Context (p : ascii -> bool).
Implicit Types t k : text.

Lemma dropwhile_app_all k t : Forall (fun c => p c = true) k -> dropwhile p (k ++ t) = dropwhile p t.
Proof. induction 1 as [|c k Hc _ IH]; [done|]. cbn. by rewrite Hc. Qed.

Lemma dropwhile_nil t : dropwhile p t = [] -> Forall (fun c => p c = true) t.
Proof. induction t as [|c t IH]; [done|]. cbn. destruct (p c) eqn:E; [auto|done]. Qed.

Lemma dropwhile_app t k : dropwhile p t <> [] -> dropwhile p (t ++ k) = dropwhile p t ++ k.
Proof. induction t as [|c t IH]; [done|]. cbn. destruct (p c); auto. Qed.
End strip_lemmas.

Definition spaces (k : text) : Prop := Forall (fun c => is_space c = true) k.

Lemma rstrip_app_spaces t k : spaces k -> rstrip (t ++ k) = rstrip t.
Proof.
  intros Hk. unfold rstrip. rewrite rev_app_distr, dropwhile_app_all; [done|].
  by apply List.Forall_rev.
Qed.

Lemma rstrip_split t : exists k, t = rstrip t ++ k /\ spaces k.
Proof.
  induction t as [|c t (k & Hk & Hs)] using rev_ind; [exists []; by split; [|constructor]|].
  destruct (is_space c) eqn:Ec.
  - exists (k ++ [c]). rewrite rstrip_app_spaces by (repeat constructor; done). split; [by rewrite app_assoc, <- Hk|].
    apply Forall_app. split; [done|by repeat constructor].
  - exists []. split; [|constructor]. unfold rstrip. rewrite rev_app_distr. cbn [rev app dropwhile]. rewrite Ec. cbn [rev].
    by rewrite rev_involutive, app_nil_r.
Qed.

Lemma rstrip_idemp t : rstrip (rstrip t) = rstrip t.
Proof. 
  destruct (rstrip_split t) as (k & Hk & Hs).
  rewrite <- (rstrip_app_spaces (rstrip t) k Hs). by rewrite <- Hk.
Qed.

Lemma rstrip_app x y : rstrip y <> [] -> rstrip (x ++ y) = x ++ rstrip y.
Proof.
  intros Hy. unfold rstrip in *. rewrite rev_app_distr, dropwhile_app.
  - by rewrite rev_app_distr, rev_involutive.
  - intros E. rewrite E in Hy. done.
Qed.

Lemma rstrip_nil t : rstrip t = [] -> spaces t.
Proof. destruct (rstrip_split t) as (k & Hk & Hs). intros E. by rewrite Hk, E. Qed.

Lemma rstrip_spaces t : spaces t -> rstrip t = [].
Proof. intros Ht. rewrite <- (app_nil_l t), rstrip_app_spaces; done. Qed.

(** The line breaks around a file's text. *)
Definition breaks (k : text) : Prop := Forall (fun c => Ascii.eqb c cr || is_nl c = true) k.

Lemma break_space c : Ascii.eqb c cr || is_nl c = true -> is_space c = true.
Proof. intros [->%Ascii.eqb_eq| ->%Ascii.eqb_eq]%orb_true_iff; reflexivity. Qed.

Lemma breaks_spaces k : breaks k -> spaces k.
Proof. intros Hk. eapply Forall_impl; [exact Hk|]. intros c. apply break_space. Qed.

(** A file's text up to the line breaks before and the white space after it. *)
Definition canon (t : text) : text := rstrip (lstrip_nl t).

Lemma canon_pad pre t post : breaks pre -> breaks post -> canon (pre ++ t ++ post) = canon t.
Proof.
  intros Hpre Hpost. unfold canon, lstrip_nl. rewrite dropwhile_app_all by done.
  destruct (dropwhile _ t) as [|c l] eqn:E.
  - apply dropwhile_nil in E. rewrite dropwhile_app_all by done. rewrite <- (app_nil_r post), dropwhile_app_all by done. done.
  - rewrite dropwhile_app by (rewrite E; done). rewrite E. by apply rstrip_app_spaces, breaks_spaces.
Qed.

Lemma canon_lstrip t : canon (lstrip_nl t) = canon t.
Proof. unfold canon, lstrip_nl. by rewrite dropwhile_idemp. Qed.

Lemma dropwhile_spaces p t : spaces t -> spaces (dropwhile p t).
Proof. apply dropwhile_Forall. Qed.

Lemma canon_rstrip t : canon (rstrip t) = canon t.
Proof.
  destruct (rstrip_split t) as (k & Hk & Hs). rewrite Hk at 2. unfold canon, lstrip_nl.
  destruct (dropwhile _ (rstrip t)) as [|c l] eqn:E.
  - apply dropwhile_nil in E. rewrite dropwhile_app_all by done. symmetry. by apply rstrip_spaces, dropwhile_spaces.
  - rewrite dropwhile_app by (rewrite E; done). rewrite E. by rewrite rstrip_app_spaces.
Qed.

(** ** Lemmas on matches *)

(** No line of the text (its first one included when [start]) begins with the marker word. *)
Fixpoint no_marker (start : bool) (t : text) : bool :=
  match t with
  | [] => true
  | c :: t' => (if start then match strip_prefix FILE t with None => true | Some _ => false end else true) &&
               no_marker (is_nl c) t'
  end.

(** A path as the header line carries it: one line, without white space before it. *)
Definition header_path (p : text) : Prop :=
  nl ∉ p /\ match p with c :: _ => is_space c = false | [] => False end.

Definition header (p : text) : text := FILE ++ [" "%char] ++ p.

(** What the two regular expressions share. *)
Class Marker (m : text -> option (text * text)) : Prop := {
  marker_word : forall t, strip_prefix FILE t = None -> m t = None;
  marker_header : forall p r, header_path p -> m (header p ++ nl :: r) = Some (p, nl :: r);
}.

Lemma strip_prefix_app p t : strip_prefix p (p ++ t) = Some t.
Proof. induction p as [|c p IH]; [done|]. cbn. by rewrite Ascii.eqb_refl. Qed.

Lemma span_line_app l r : nl ∉ l -> span_line (l ++ nl :: r) = (l, nl :: r).
Proof.
  induction l as [|c l IH]; intros Hl; [done|]. cbn. apply not_elem_of_cons in Hl as [Hc Hl].
  rewrite IH by done. unfold is_nl. destruct (Ascii.eqb_spec c nl); [congruence|done].
Qed.

#[export] Instance bundle_marker : Marker _SOURCE_BUNDLE_FILE_PATTERN.
Proof.
  split.
  - intros t Ht. unfold _SOURCE_BUNDLE_FILE_PATTERN.
    destruct (strip_prefix (FILE ++ [" "%char]) t) eqn:E; [|done]. exfalso. revert Ht E.
    generalize FILE. intros p. revert t. induction p as [|a p IH]; intros t; [done|]. cbn.
    destruct t as [|b t]; [done|]. destruct (Ascii.eqb a b); [apply IH|done].
  - intros p r [Hnl Hp]. unfold _SOURCE_BUNDLE_FILE_PATTERN, header.
    rewrite <- !app_assoc, (app_assoc FILE), strip_prefix_app. cbn [mbind option_bind].
    rewrite span_line_app by done. by destruct p.
Qed.

#[export] Instance tree_marker : Marker FILE_MARKER.
Proof.
  split; unfold FILE_MARKER; [by intros t ->|].
  intros p r [Hnl Hp]. unfold header. rewrite <- !app_assoc, strip_prefix_app.
  destruct p as [|c p]; [done|]. cbn [mbind option_bind app]. change (Ascii.eqb " " ":") with false. cbn iota.
  cbn [count_space]. change (is_space " ") with true. rewrite Hp. cbn [after_spaces drop].
  rewrite app_comm_cons, span_line_app by done. done.
Qed.

(** The marker word holds no line break, so it never spans one. *)
Lemma strip_prefix_break p t r : nl ∉ p -> strip_prefix p t = None -> strip_prefix p (t ++ nl :: r) = None.
Proof.
  revert t. induction p as [|a p IH]; intros t Hp; [done|]. apply not_elem_of_cons in Hp as [Ha Hp].
  destruct t as [|b t]; cbn.
  - destruct (Ascii.eqb_spec a nl); [congruence|done].
  - destruct (Ascii.eqb a b); [by apply IH|done].
Qed.

Lemma FILE_no_nl : nl ∉ FILE.
Proof. apply (bool_decide_unpack _). vm_compute. done. Qed.

Lemma strip_prefix_mono p a b : strip_prefix p (a ++ b) = None -> strip_prefix p a = None.
Proof.
  revert a. induction p as [|x p IH]; intros a; [done|]. destruct a as [|y a]; [done|]. cbn.
  destruct (Ascii.eqb x y); [apply IH|done].
Qed.

Lemma no_marker_app start a b : no_marker start (a ++ b) = true -> no_marker start a = true.
Proof.
  revert start. induction a as [|c a IH]; intros start; [done|]. cbn [app no_marker].
  intros [H1 H2]%andb_true_iff. apply andb_true_iff. split; [|by eapply IH].
  destruct start; [|done]. destruct (strip_prefix FILE (c :: a ++ b)) eqn:E; [done|].
  rewrite app_comm_cons in E. by rewrite (strip_prefix_mono _ _ _ E).
Qed.

Lemma no_marker_breaks start a k :
  no_marker start a = true -> Forall (eq nl) k -> no_marker start (a ++ k) = true.
Proof.
  intros Ha Hk. revert start Ha. induction a as [|c a IH]; intros start Ha; cbn [app].
  - revert start Ha. induction Hk as [|c k <- _ IHk]; intros start Ha; [done|]. cbn [no_marker].
    rewrite IHk by done. by destruct start.
  - cbn [no_marker] in *. apply andb_true_iff in Ha as [H1 H2]. rewrite IH by done. rewrite andb_true_r.
    destruct start; [|done]. destruct (strip_prefix FILE (c :: a)) eqn:E; [done|].
    destruct Hk as [|c' k <- Hk]; [by rewrite app_nil_r, E|].
    rewrite app_comm_cons, strip_prefix_break; [done|apply FILE_no_nl|done].
Qed.

Section scanning.
Context (m : text -> option (text * text)) `{!Marker m}.

Lemma scan_skip (a r : text) : scan m (length a) false (a ++ r) = scan m 0 false r.
Proof. induction a as [|c a IH]; [done|]. exact IH. Qed.

Lemma scan_header p r : header_path p ->
  scan m 0 true (header p ++ nl :: r) = (let '(pre, ss) := scan m 0 true r in ([], (p, nl :: pre) :: ss)).
Proof.
  intros Hp. pose proof (marker_header p r Hp) as Hm. destruct (header p) as [|c h] eqn:Eh; [done|].
  cbn [app scan]. cbn [app] in Hm. rewrite Hm.
  replace (length (c :: h ++ nl :: r) - length (nl :: r) - 1)%nat with (length h) by (cbn; rewrite length_app; cbn; lia).
  rewrite scan_skip. cbn [scan]. change (is_nl nl) with true. by destruct (scan m 0 true r).
Qed.

Lemma scan_line start c t :
  (start = true -> m (c :: t) = None) ->
  scan m 0 start (c :: t) = (let '(pre, ss) := scan m 0 (is_nl c) t in (c :: pre, ss)).
Proof. intros Hm. cbn [scan]. destruct start; [by rewrite Hm|done]. Qed.

(** A text without markers is skipped, up to a line break. *)
Lemma scan_quiet start b r :
  no_marker start b = true ->
  scan m 0 start (b ++ nl :: r) = (let '(pre, ss) := scan m 0 true r in (b ++ nl :: pre, ss)).
Proof.
  revert start. induction b as [|c b IH]; intros start Hb; cbn [app].
  - rewrite scan_line; [done|]. intros _. apply marker_word. done.
  - cbn [no_marker] in Hb. apply andb_true_iff in Hb as [Hc Hb].
    rewrite scan_line.
    + rewrite IH by done. by destruct (scan m 0 true r).
    + intros ->. apply marker_word. destruct (strip_prefix FILE (c :: b)) eqn:E; [done|].
      rewrite app_comm_cons. apply strip_prefix_break; [apply FILE_no_nl|done].
Qed.

(** Files written one after the other, each text ending its last line, are found again. *)
Lemma matches_files (fs : list (text * text)) :
  Forall (fun f => header_path f.1 /\ no_marker true f.2 = true /\ (f.2 = [] \/ exists b, f.2 = b ++ [nl])) fs ->
  scan m 0 true (concat ((fun f => header f.1 ++ nl :: f.2) <$> fs)) = ([], (fun f => (f.1, nl :: f.2)) <$> fs).
Proof.
  induction 1 as [|[p b] fs (Hp & Hb & Hend) _ IH]; [done|]. cbn [fmap list_fmap concat fst snd] in *.
  rewrite <- app_assoc, <- app_comm_cons, scan_header by done.
  destruct Hend as [->|(b' & ->)]; cbn [app].
  - by rewrite IH.
  - rewrite <- app_assoc. cbn [app]. rewrite scan_quiet by (by eapply no_marker_app). by rewrite IH.
Qed.
End scanning.

(** ** Round trip of file trees *)

Lemma sanitize_not_nil p : sanitize_rel_path p <> [].
Proof. unfold sanitize_rel_path. by destruct (take _ _). Qed.

Lemma dropwhile_length (p : ascii -> bool) t : (length (dropwhile p t) <= length t)%nat.
Proof. induction t as [|c t IH]; cbn; [lia|]. destruct (p c); cbn; lia. Qed.

Lemma rstrip_length t : (length (rstrip t) <= length t)%nat.
Proof. destruct (rstrip_split t) as (k & Hk & _). rewrite Hk at 2. rewrite length_app. lia. Qed.

Lemma strip_fix_head c p : strip (c :: p) = c :: p -> is_space c = false.
Proof.
  unfold strip. cbn [dropwhile]. destruct (is_space c); [|done]. intros E. exfalso.
  apply (f_equal length) in E. pose proof (rstrip_length (dropwhile is_space p)).
  pose proof (dropwhile_length is_space p). cbn [length] in E. lia.
Qed.

Lemma strip_fix_rstrip p : strip p = p -> rstrip p = p.
Proof. intros <-. unfold strip. apply rstrip_idemp. Qed.

(** A file that survives being written into a bundle: a path in normal form, on one
    line, and a text without marker lines and within the length limit. *)
Definition tree_path (p : text) : Prop := sanitize_rel_path p = p /\ strip p = p /\ nl ∉ p.
Definition tree_text (c : text) : Prop :=
  no_marker true c = true /\ Z.of_nat (length c) + 3 <= _MAX_CONTENT_CHARS.
Definition tree_file (f : text * text) : Prop := tree_path f.1 /\ tree_text f.2.

Lemma tree_path_header p : tree_path p -> header_path p.
Proof.
  intros (Hs & Hp & Hn). split; [done|]. destruct p as [|c p].
  - by apply sanitize_not_nil in Hs.
  - by apply strip_fix_head in Hp.
Qed.

Lemma take_chars_all n t : Z.of_nat (length t) <= n -> take_chars n t = t.
Proof.
  revert n. induction t as [|c t IH]; intros n Hn; [done|]. cbn [take_chars length] in *.
  destruct (Z.leb_spec n 0); [lia|]. f_equal. apply IH. lia.
Qed.

(** The bundle as headers and texts that end their last line. *)
Definition close (c : text) : text := if is_nil c then [] else c ++ [nl].

Fixpoint laid_out (sep : text -> text) (fs : list (text * text)) : list (text * text) :=
  match fs with
  | [] => []
  | [f] => [(f.1, close (rstrip f.2))]
  | f :: fs' => (f.1, sep (rstrip f.2)) :: laid_out sep fs'
  end.

Definition flat (fs : list (text * text)) : text := concat ((fun f => header f.1 ++ nl :: f.2) <$> fs).

Lemma close_header p c : rstrip p = p -> p <> [] ->
  rstrip (header p ++ nl :: rstrip c) ++ [nl] = header p ++ nl :: close (rstrip c).
Proof.
  intros Hp Hne. unfold close. destruct (is_nil (rstrip c)) eqn:E.
  - destruct (rstrip c); [|done]. rewrite rstrip_app_spaces by (by repeat constructor).
    unfold header. rewrite app_assoc, rstrip_app by (by rewrite Hp). by rewrite Hp, <- app_assoc.
  - assert (rstrip c <> []) as Hc by (by intros Hc; rewrite Hc in E).
    rewrite <- (app_nil_l (rstrip c)), app_comm_cons, app_assoc, rstrip_app by (by rewrite rstrip_idemp).
    by rewrite rstrip_idemp, <- !app_assoc.
Qed.

Lemma rstrip_header p r : rstrip (header p ++ r) <> [].
Proof. intros E%rstrip_nil. unfold header in E. cbn in E. apply Forall_cons in E as [E _]. done. Qed.

(** Blocks joined by [mid] and closed by a line break are the flat layout. *)
Lemma join_flat (blk : text * text -> text) (sep : text -> text) (mid : text) (fs : list (text * text)) :
  Forall (fun f => rstrip (blk f) ++ [nl] = header f.1 ++ nl :: close (rstrip f.2) /\
                   blk f ++ mid = header f.1 ++ nl :: sep (rstrip f.2)) fs ->
  fs <> [] -> rstrip (text_join mid (blk <$> fs)) ++ [nl] = flat (laid_out sep fs).
Proof.
  induction 1 as [|f fs [Hlast Hmid] Hfs IH]; [done|]. intros _.
  destruct fs as [|f' fs]; [unfold flat; cbn; by rewrite app_nil_r|].
  specialize (IH ltac:(done)).
  change (text_join mid (blk <$> f :: f' :: fs)) with (blk f ++ mid ++ text_join mid (blk <$> f' :: fs)).
  rewrite app_assoc, Hmid.
  assert (rstrip (text_join mid (blk <$> f' :: fs)) <> []) as Hne.
  { intros E. rewrite E in IH. unfold flat in IH. destruct fs; cbn in IH; discriminate. }
  rewrite rstrip_app by exact Hne. rewrite <- app_assoc, IH. done.
Qed.

Lemma tree_file_path f : tree_file f -> rstrip f.1 = f.1 /\ f.1 <> [] /\ header_path f.1.
Proof.
  intros ((Hs & Hp & Hn) & _). split_and!; [by apply strip_fix_rstrip| |by apply tree_path_header].
  intros E. rewrite E in Hs. by apply sanitize_not_nil in Hs.
Qed.

Lemma chunk_tree f : tree_file f -> chunk f = header f.1 ++ nl :: rstrip f.2 ++ [nl].
Proof.
  intros ((Hs & _) & (_ & Hlen)). unfold chunk, header. rewrite Hs, take_chars_all by lia. by rewrite <- !app_assoc.
Qed.

Lemma serialize_flat fs :
  (length fs <= _MAX_FILES)%nat -> Forall tree_file fs ->
  serialize_file_tree fs = flat (laid_out (fun c => c ++ [nl; nl]) fs).
Proof.
  intros Hlen Hfs. unfold serialize_file_tree. rewrite take_ge by done.
  destruct fs as [|f fs]; [done|]. change (is_nil (chunk <$> f :: fs)) with false. cbn iota.
  apply join_flat; [|done]. eapply Forall_impl; [exact Hfs|]. intros g Hg.
  destruct (tree_file_path g Hg) as (Hp & Hne & _). rewrite chunk_tree by done. split.
  - rewrite app_comm_cons, app_assoc, rstrip_app_spaces by (by repeat constructor). by apply close_header.
  - by rewrite <- !app_assoc, <- app_comm_cons, <- app_assoc.
Qed.

(** Texts in the layout: they end their last line and hold no marker. *)
Lemma laid_out_ok sep fs :
  (forall c, exists k, Forall (eq nl) k /\ sep c = c ++ k ++ [nl]) ->
  Forall (fun f => header_path f.1 /\ no_marker true f.2 = true) fs ->
  Forall (fun f => header_path f.1 /\ no_marker true f.2 = true /\ (f.2 = [] \/ exists b, f.2 = b ++ [nl])) (laid_out sep fs).
Proof.
  intros Hsep Hfs.
  assert (forall c, no_marker true c = true -> no_marker true (rstrip c) = true) as Hr.
  { intros c Hc. destruct (rstrip_split c) as (k & Hk & _). rewrite Hk in Hc. by eapply no_marker_app. }
  assert (forall c, no_marker true c = true -> forall k, Forall (eq nl) k -> no_marker true (c ++ k ++ [nl]) = true) as Hb.
  { intros c Hc k Hk. apply no_marker_breaks; [done|]. apply Forall_app. split; [done|by repeat constructor]. }
  induction Hfs as [|f fs [Hp Hm] _ IH]; [constructor|]. destruct fs as [|f' fs].
  - constructor; [|constructor]. cbn. split; [done|]. unfold close. destruct (is_nil (rstrip f.2)) eqn:E.
    + by split; [|left].
    + split; [|right; by eexists]. apply (Hb _ (Hr _ Hm) []). constructor.
  - constructor; [|exact IH]. cbn. split; [done|]. destruct (Hsep (rstrip f.2)) as (k & Hk & ->).
    split; [by apply Hb; [apply Hr|]|]. right. exists (rstrip f.2 ++ k). by rewrite app_assoc.
Qed.

Lemma laid_out_canon sep fs :
  (forall c, exists k, breaks k /\ sep c = c ++ k) ->
  (fun f => (f.1, canon (lstrip_nl (nl :: f.2)))) <$> laid_out sep fs = (fun f => (f.1, canon f.2)) <$> fs.
Proof.
  intros Hsep.
  assert (forall c k, breaks k -> canon (lstrip_nl (nl :: rstrip c ++ k)) = canon c) as Hc.
  { intros c k Hk. rewrite canon_lstrip. change (nl :: rstrip c ++ k) with ([nl] ++ rstrip c ++ k).
    rewrite canon_pad by (done || by repeat constructor). apply canon_rstrip. }
  assert (forall c, exists k, breaks k /\ close c = c ++ k) as Hclose.
  { intros c. unfold close. destruct c as [|a c]; [exists []; by split; [constructor|]|].
    exists [nl]. by split; [repeat constructor|]. }
  induction fs as [|f fs IH]; [done|]. destruct fs as [|f' fs]; cbn [laid_out fmap list_fmap fst snd].
  - destruct (Hclose (rstrip f.2)) as (k & Hk & ->). by rewrite Hc.
  - destruct (Hsep (rstrip f.2)) as (k & Hk & ->). rewrite Hc by done. f_equal. exact IH.
Qed.

Lemma laid_out_paths sep fs : (laid_out sep fs).*1 = fs.*1.
Proof. induction fs as [|f [|f' fs] IH]; [done..|]. cbn [laid_out fmap list_fmap fst]. f_equal. exact IH. Qed.

Lemma laid_out_short sep fs n :
  (forall c, (length (sep c) <= length c + 2)%nat) ->
  Forall (fun f => Z.of_nat (length f.2) + 3 <= n) fs ->
  Forall (fun f => Z.of_nat (length (nl :: f.2)) <= n) (laid_out sep fs).
Proof.
  intros Hsep Hfs. assert (forall c, (length (close c) <= length c + 2)%nat) as Hclose.
  { intros c. unfold close. destruct (is_nil c); cbn; rewrite ?length_app; cbn; lia. }
  induction Hfs as [|f fs Hf Hfs IH]; [constructor|]. pose proof (rstrip_length f.2).
  destruct fs as [|f' fs]; (constructor; [|exact IH || constructor]); cbn [snd length].
  - specialize (Hclose (rstrip f.2)). lia.
  - specialize (Hsep (rstrip f.2)). lia.
Qed.

Lemma tree_files_headers fs :
  Forall tree_file fs -> Forall (fun f => header_path f.1 /\ no_marker true f.2 = true) fs.
Proof. intros Hfs. eapply Forall_impl; [exact Hfs|]. intros f Hf. split; [by apply tree_file_path|apply Hf]. Qed.

Abbreviation canonical := (fun f : text * text => (f.1, canon f.2)).

Lemma canonical_paths fs : (canonical <$> fs).*1 = fs.*1.
Proof. rewrite <- list_fmap_compose. by apply list_fmap_ext. Qed.

Lemma parse_serialized fs :
  (length fs <= _MAX_FILES)%nat -> Forall tree_file fs ->
  canonical <$> parse_file_tree (serialize_file_tree fs) = canonical <$> fs.
Proof.
  intros Hlen Hfs. rewrite serialize_flat by done. unfold parse_file_tree, matches, flat.
  assert (forall c, exists k, Forall (eq nl) k /\ c ++ [nl; nl] = c ++ k ++ [nl]) as Hsep.
  { intros c. exists [nl]. by split; [repeat constructor|]. }
  rewrite (matches_files FILE_MARKER) by (by apply (laid_out_ok (fun c => c ++ [nl; nl])); [|apply tree_files_headers]).
  cbn [snd]. rewrite take_ge.
  2: { rewrite length_fmap, <- (length_fmap fst), laid_out_paths, length_fmap. done. }
  rewrite <- (laid_out_canon (fun c => c ++ [nl; nl]) fs) by (intros c; exists [nl; nl]; by split; [repeat constructor|]).
  rewrite <- !list_fmap_compose. apply list_fmap_ext. intros i f Hf. cbn.
  assert (Forall (fun f => tree_path f.1) (laid_out (fun c => c ++ [nl; nl]) fs)) as Hpaths.
  { apply (Forall_fmap fst tree_path). rewrite laid_out_paths. apply Forall_fmap.
    eapply Forall_impl; [exact Hfs|]. by intros ? []. }
  assert (Forall (fun f => Z.of_nat (length (nl :: f.2)) <= _MAX_CONTENT_CHARS) (laid_out (fun c => c ++ [nl; nl]) fs)) as Hshort.
  { apply laid_out_short; [intros c; rewrite length_app; cbn; lia|]. eapply Forall_impl; [exact Hfs|]. by intros ? (_ & _ & ?). }
  eapply Forall_lookup_1 in Hpaths; [|exact Hf]. eapply Forall_lookup_1 in Hshort; [|exact Hf].
  destruct Hpaths as (-> & _). rewrite take_chars_all; [done|].
  pose proof (dropwhile_length (fun c => Ascii.eqb c cr || is_nl c) f.2). cbn [length] in Hshort. unfold lstrip_nl. lia.
Qed.

(** C25: A file tree survives its bundle: at most 80 files, with normal one-line paths
    and texts below the length limit none of whose lines begins with the marker word,
    are read back from the serialized bundle in the same order with the same paths, and
    with the same texts up to line breaks before and white space after them. *)
Theorem file_tree_roundtrip (fs : list (text * text))
    (Hcount : (length fs <= _MAX_FILES)%nat) (Hfiles : Forall tree_file fs) :
  canonical <$> parse_file_tree (serialize_file_tree fs) = canonical <$> fs.
Proof. by apply parse_serialized. Qed.

(** ** Merging a repair *)

Lemma by_path_Some files p c : by_path files p = Some c -> (p, c) ∈ files.
Proof.
  unfold by_path. destruct (last _) as [f|] eqn:E; [|done]. intros [= <-].
  apply last_Some_elem_of, list_elem_of_In, List.filter_In in E as [Hin Hp%bool_decide_eq_true].
  apply list_elem_of_In in Hin. by destruct f; cbn in Hp; subst.
Qed.

Lemma by_path_None files p : by_path files p = None -> p ∉ files.*1.
Proof.
  unfold by_path. destruct (last _) as [f|] eqn:E; [done|]. intros _ ([q c] & Heq & Hin)%list_elem_of_fmap.
  cbn in Heq. subst q. apply last_None in E. apply list_elem_of_In in Hin.
  assert (List.In (p, c) (List.filter (fun f => bool_decide (f.1 = p)) files)) as Hf.
  { apply List.filter_In. split; [done|]. cbn. by apply bool_decide_eq_true. }
  by rewrite E in Hf.
Qed.

Lemma sanitized_files fs : Forall tree_file fs -> (fun f => (sanitize_rel_path f.1, f.2)) <$> fs = fs.
Proof.
  induction 1 as [|[p c] fs ((Hp & _) & _) _ IH]; [done|]. cbn [fmap list_fmap fst snd] in *. by rewrite Hp, IH.
Qed.

(** The files the repair adds. *)
Lemma merge_added rep merged :
  Forall tree_file rep ->
  let out := foldl (fun merged item => let p := sanitize_rel_path item.1 in
                     if bool_decide (p ∈ merged.*1) then merged else merged ++ [(p, item.2)]) merged rep in
  (forall p, p ∈ out.*1 <-> p ∈ merged.*1 \/ p ∈ rep.*1) /\
  (forall f, f ∈ out -> f ∈ merged \/ f ∈ rep).
Proof.
  intros Hrep. revert merged. induction Hrep as [|[q c] rep ((Hq & _) & _) _ IH]; intros merged; cbn [foldl fst snd] in *.
  - split; [|by left]. intros p. split; [by left|intros [?|[]%not_elem_of_nil]; done].
  - rewrite Hq. destruct (bool_decide (q ∈ merged.*1)) eqn:Hmem.
    + apply bool_decide_eq_true in Hmem. destruct (IH merged) as [IH1 IH2]. split.
      * intros p. rewrite IH1. cbn. rewrite elem_of_cons. split; [tauto|intros [?|[->|?]]; tauto].
      * intros f [?|?]%IH2; [by left|]. right. by apply elem_of_cons; right.
    + destruct (IH (merged ++ [(q, c)])) as [IH1 IH2]. split.
      * intros p. rewrite IH1, fmap_app, elem_of_app. cbn. rewrite !elem_of_cons, elem_of_nil. tauto.
      * intros f [[Hf|Hf%list_elem_of_singleton]%elem_of_app|Hf]%IH2; [by left| |]; right; apply elem_of_cons; auto.
Qed.

Lemma merge_files_spec orig rep :
  Forall tree_file orig -> Forall tree_file rep ->
  (forall p, p ∈ (merge_files orig rep).*1 <-> p ∈ orig.*1 \/ p ∈ rep.*1) /\
  (forall f, f ∈ merge_files orig rep -> f ∈ rep \/ f.1 ∉ rep.*1 /\ f ∈ orig).
Proof.
  intros Horig Hrep. unfold merge_files. rewrite (sanitized_files rep Hrep).
  destruct (merge_added rep ((fun item => let p := sanitize_rel_path item.1 in (p, default item.2 (by_path rep p))) <$> orig) Hrep)
    as [H1 H2]. split.
  - intros p. rewrite H1. assert (((fun item => let p := sanitize_rel_path item.1 in
      (p, default item.2 (by_path rep p))) <$> orig).*1 = orig.*1) as ->; [|done].
    rewrite <- list_fmap_compose. apply list_fmap_ext. intros i f Hf. cbn.
    eapply Forall_lookup_1 in Horig; [|exact Hf]. apply Horig.
  - intros f [Hf|Hf]%H2; [|by left]. apply list_elem_of_fmap in Hf as ([q c] & -> & Hin). cbn [fst snd].
    pose proof (proj1 (Forall_forall _ _) Horig (q, c) Hin) as ((Hq & _) & _). cbn [fst] in Hq. rewrite Hq.
    destruct (by_path rep q) as [c'|] eqn:E; cbn.
    + left. by apply by_path_Some.
    + right. split; [by apply by_path_None|done].
Qed.

(** Merging a repair keeps the file tree whole: when both bundles parse into well-formed
    files and their union has at most 80, the merged bundle holds exactly the files of the
    original and of the repair, each with a text of the repair if the repair has the file
    and its original text otherwise (up to surrounding white space). *)
Lemma merge_repaired_files_complete (original_code repaired_code : text)
    (Horig : parse_file_tree original_code <> []) (Hrep : parse_file_tree repaired_code <> [])
    (Hof : Forall tree_file (parse_file_tree original_code)) (Hrf : Forall tree_file (parse_file_tree repaired_code))
    (Hcount : (length (merge_files (parse_file_tree original_code) (parse_file_tree repaired_code)) <= _MAX_FILES)%nat) :
  let merged := parse_file_tree (merge_repaired_files original_code repaired_code) in
  (forall p, p ∈ merged.*1 <-> p ∈ (parse_file_tree original_code).*1 \/ p ∈ (parse_file_tree repaired_code).*1) /\
  (forall f, f ∈ merged -> exists c, canon f.2 = canon c /\
     ((f.1, c) ∈ parse_file_tree repaired_code \/
      f.1 ∉ (parse_file_tree repaired_code).*1 /\ (f.1, c) ∈ parse_file_tree original_code)).
Proof.
  unfold merge_repaired_files. set (O := parse_file_tree original_code) in *. set (R := parse_file_tree repaired_code) in *.
  replace (is_nil O || is_nil R) with false by (destruct O, R; done). cbv zeta.
  destruct (merge_files_spec O R Hof Hrf) as [Hpaths Hfiles].
  assert (Forall tree_file (merge_files O R)) as Hm.
  { apply Forall_forall. intros f [Hf|[_ Hf]]%Hfiles; [by eapply Forall_forall in Hrf|by eapply Forall_forall in Hof]. }
  pose proof (parse_serialized _ Hcount Hm) as Hround. set (F := parse_file_tree (serialize_file_tree _)) in *. split.
  - intros p. rewrite <- Hpaths. apply (f_equal (fmap fst)) in Hround. rewrite !canonical_paths in Hround. by rewrite Hround.
  - intros [p c] Hin. assert ((p, canon c) ∈ canonical <$> F) as Hc by exact (list_elem_of_fmap_2 canonical F (p, c) Hin).
    rewrite Hround in Hc. apply list_elem_of_fmap in Hc as ([q c'] & Heq & Hin'). cbn in Heq. injection Heq as -> Hcc. exists c'.
    split; [done|]. by apply Hfiles in Hin'.
Qed.

(** ** Partition subsets *)

Lemma strip_idemp t : strip (strip t) = strip t.
Proof.
  unfold strip. unfold rstrip at 2 3. rewrite (dropwhile_rev_fix is_space (dropwhile is_space t) (dropwhile_idemp _ _)).
  apply (rstrip_idemp (dropwhile is_space t)).
Qed.

Lemma rstrip_incl c t : c ∈ rstrip t -> c ∈ t.
Proof. destruct (rstrip_split t) as (k & Hk & _). intros Hc. rewrite Hk. apply elem_of_app. by left. Qed.

Lemma strip_incl c t : c ∈ strip t -> c ∈ t.
Proof.
  intros Hc%rstrip_incl. destruct (dropwhile_suffix is_space t) as [k Hk]. rewrite Hk. apply elem_of_app. by right.
Qed.

Lemma scan_groups (P : text -> Prop) m skip start t :
  (forall t g r, m t = Some (g, r) -> P g) -> Forall (fun s => P s.1) (scan m skip start t).2.
Proof.
  intros Hm. revert skip start. induction t as [|c t IH]; intros skip start; [constructor|]. cbn [scan].
  destruct skip as [|k]; [|apply IH]. destruct (if start then m (c :: t) else None) as [[g r]|] eqn:E.
  - specialize (IH (length (c :: t) - length r - 1)%nat false). destruct (scan _ _ false t) as [pre ss]. cbn in *.
    constructor; [|done]. destruct start; [|done]. by eapply Hm.
  - specialize (IH O (is_nl c)). by destruct (scan m 0 (is_nl c) t) as [pre ss].
Qed.

Lemma span_line_group t : nl ∉ (span_line t).1.
Proof.
  induction t as [|c t IH]; cbn; [apply not_elem_of_nil|]. destruct (is_nl c) eqn:E; cbn; [apply not_elem_of_nil|].
  destruct (span_line t). cbn in *. apply not_elem_of_cons. split; [|done]. intros <-. done.
Qed.

Lemma bundle_group t g r : _SOURCE_BUNDLE_FILE_PATTERN t = Some (g, r) -> nl ∉ g.
Proof.
  unfold _SOURCE_BUNDLE_FILE_PATTERN. destruct (strip_prefix _ t) as [u|]; [|done]. cbn [mbind option_bind].
  pose proof (span_line_group u) as Hu. destruct (span_line u) as [[|c l] r']; [done|]. intros [= <- <-]. exact Hu.
Qed.

(** The paths of a bundle's segments are as a header line can carry them. *)
Lemma segments_paths src :
  Forall (fun s => strip s.1 = s.1 /\ header_path s.1) (_bundle_source_segments src).
Proof.
  unfold _bundle_source_segments. apply Forall_forall. intros s Hs%list_elem_of_In.
  apply List.filter_In in Hs as [Hs Hne]. apply list_elem_of_In, list_elem_of_fmap in Hs as ([g b] & -> & Hin).
  cbn [fst snd] in *.
  pose proof (scan_groups (fun g => nl ∉ g) _SOURCE_BUNDLE_FILE_PATTERN 0 true src bundle_group) as Hg.
  eapply Forall_forall in Hg; [|exact Hin]. cbn [fst] in Hg. split; [apply strip_idemp|]. split.
  - intros Hn. by apply Hg, strip_incl.
  - destruct (strip g) as [|c p] eqn:E; [done|]. apply (strip_fix_head c p). rewrite <- E. apply strip_idemp.
Qed.

Lemma scan_quiet_end m `{!Marker m} start b : no_marker start b = true -> scan m 0 start b = (b, []).
Proof.
  revert start. induction b as [|c b IH]; intros start Hb; [done|]. cbn [no_marker] in Hb.
  apply andb_true_iff in Hb as [Hc Hb]. rewrite scan_line.
  - by rewrite IH.
  - intros ->. apply marker_word. by destruct (strip_prefix FILE (c :: b)).
Qed.

Lemma spaces_no_marker start t : spaces t -> no_marker start t = true.
Proof.
  intros Ht. revert start. induction Ht as [|c t Hc _ IH]; intros start; [done|]. cbn [no_marker]. rewrite IH, andb_true_r.
  destruct start; [|done].
  change (strip_prefix FILE (c :: t)) with (if Ascii.eqb "#" c then strip_prefix (chars "# FILE") t else None).
  destruct (Ascii.eqb_spec "#" c); [subst; discriminate Hc|reflexivity].
Qed.

Lemma strip_nil t : strip t = [] -> spaces t.
Proof.
  intros Ht%rstrip_nil. destruct (dropwhile is_space t) as [|c l] eqn:E; [by apply dropwhile_nil|].
  apply dropwhile_head in E as Hc. apply Forall_cons in Ht as [Hc' _]. congruence.
Qed.

Lemma block_shape f : block f = FILE ++ drop 7 (block f) /\ rstrip (block f) = block f.
Proof.
  unfold block. split; [|apply rstrip_idemp]. set (u := [" "%char] ++ f.1 ++ [nl] ++ rstrip f.2).
  assert (rstrip (FILE ++ u) = FILE ++ rstrip u) as ->; [|done].
  destruct (rstrip u) as [|c l] eqn:E.
  - apply rstrip_nil in E. rewrite rstrip_app_spaces by done. reflexivity.
  - rewrite rstrip_app; [by rewrite E|by rewrite E].
Qed.

Lemma subset_text (selected : list (text * text)) :
  selected <> [] -> Forall (fun s => strip s.1 = s.1 /\ header_path s.1) selected ->
  strip (text_join [nl; nl] (block <$> selected)) ++ [nl] = flat (laid_out (fun c => close c ++ [nl]) selected).
Proof.
  intros Hne Hsel. unfold strip.
  assert (dropwhile is_space (text_join [nl; nl] (block <$> selected)) = text_join [nl; nl] (block <$> selected)) as ->.
  { destruct selected as [|f fs]; [done|]. destruct (block_shape f) as [Hf _]. cbn [fmap list_fmap text_join].
    rewrite Hf. by destruct (block <$> fs). }
  apply join_flat; [|done]. eapply Forall_impl; [exact Hsel|]. intros f [Hs [Hn Hp]].
  assert (block f ++ [nl] = header f.1 ++ nl :: close (rstrip f.2)) as Hb.
  { rewrite <- close_header; [|by apply strip_fix_rstrip|by intros E; rewrite E in Hp].
    unfold block, header. by rewrite <- !app_assoc. }
  split; [by rewrite (proj2 (block_shape f))|].
  change [nl; nl] with ([nl] ++ [nl]). by rewrite app_assoc, Hb, <- app_assoc, <- app_comm_cons.
Qed.

Definition close_nl (c : text) : text := close c ++ [nl].

Lemma close_nl_app c : exists k, Forall (eq nl) k /\ close_nl c = c ++ k ++ [nl].
Proof.
  unfold close_nl, close. destruct c as [|a c]; [exists []; by split; [constructor|]|].
  exists [nl]. cbn. rewrite <- app_assoc. by split; [repeat constructor|].
Qed.

(** The segments the worker is asked for. *)
Definition selected (src : text) (items : list text) : list (text * text) :=
  List.filter (fun s => bool_decide (s.1 ∈ List.filter (fun p => negb (is_nil p)) (strip <$> items)))
    (_bundle_source_segments src).

Lemma subset_flat (src : text) (items : list text) :
  selected src items <> [] ->
  _subset_source_bundle src items = flat (laid_out close_nl (selected src items)).
Proof.
  intros Hne. rewrite <- subset_text; [|done|].
  2: { apply Forall_forall. intros s [Hs%list_elem_of_In _]%list_elem_of_In%List.filter_In.
       by eapply Forall_forall in Hs; [|apply segments_paths]. }
  unfold _subset_source_bundle. fold (selected src items). set (wanted := List.filter _ (strip <$> items)).
  destruct (is_nil (strip src)) eqn:Es.
  { exfalso. apply Hne. destruct (strip src) eqn:E; [|done]. apply strip_nil in E.
    unfold selected, _bundle_source_segments, matches. by rewrite (scan_quiet_end _ _ _ (spaces_no_marker true src E)). }
  destruct (selected src items) as [|s0 sel] eqn:Esel; [done|].
  assert (wanted <> [] /\ _bundle_source_segments src <> []) as [Hw Hsg].
  { assert (s0 ∈ selected src items) as Hs0 by (rewrite Esel; by apply elem_of_cons; left).
    apply list_elem_of_In, List.filter_In in Hs0 as [H1 H2%bool_decide_eq_true].
    split; [intros E; unfold wanted in E; rewrite E in H2; by apply not_elem_of_nil in H2|intros E; by rewrite E in H1]. }
  assert (items <> []) as Hi by (intros E; apply Hw; unfold wanted; by rewrite E).
  destruct items; [done|]. destruct wanted; [done|]. by destruct (_bundle_source_segments src).
Qed.

Lemma segments_flat (fs : list (text * text)) :
  Forall (fun s => (strip s.1 = s.1 /\ header_path s.1) /\ no_marker true s.2 = true) fs ->
  canonical <$> _bundle_source_segments (flat (laid_out close_nl fs)) = canonical <$> fs.
Proof.
  intros Hfs. unfold _bundle_source_segments, matches, flat.
  rewrite (matches_files _SOURCE_BUNDLE_FILE_PATTERN).
  2: { apply laid_out_ok; [apply close_nl_app|]. eapply Forall_impl; [exact Hfs|]. by intros s [[_ ?] ?]. }
  cbn [snd]. rewrite <- (laid_out_canon close_nl fs).
  2: { intros c. destruct (close_nl_app c) as (k & Hk & ->). exists (k ++ [nl]). split; [|by rewrite app_assoc].
       apply Forall_app. split; [|by repeat constructor]. eapply Forall_impl; [exact Hk|]. by intros ? <-. }
  assert (Forall (fun s => strip s.1 = s.1 /\ s.1 <> []) (laid_out close_nl fs)) as Hlp.
  { apply (Forall_fmap fst (fun p => strip p = p /\ p <> [])). rewrite laid_out_paths. apply Forall_fmap.
    eapply Forall_impl; [exact Hfs|]. intros s [[H1 [_ H2]] _]. split; [done|]. cbn. intros E. by rewrite E in H2. }
  clear -Hlp. induction Hlp as [|s l [H1 H2] _ IH]; [done|]. cbn [fmap list_fmap fst snd List.filter].
  rewrite H1. replace (is_nil s.1) with false by (by destruct s.1). cbn [negb fmap list_fmap fst snd]. by rewrite IH.
Qed.

Lemma subset_segments (src : text) (items : list text) :
  selected src items <> [] -> Forall (fun s => no_marker true s.2 = true) (_bundle_source_segments src) ->
  canonical <$> _bundle_source_segments (_subset_source_bundle src items) = canonical <$> selected src items.
Proof.
  intros Hne Hquiet. rewrite subset_flat by done. apply segments_flat.
  apply Forall_forall. intros s [Hs%list_elem_of_In _]%list_elem_of_In%List.filter_In.
  split; [by eapply Forall_forall in Hs; [|apply segments_paths]|by eapply Forall_forall in Hs; [|exact Hquiet]].
Qed.

(** ** Paths *)

Lemma split_on_cons sep t : exists w ws, split_on sep t = w :: ws.
Proof.
  destruct t as [|c t]; cbn; [by eexists _, _|]. destruct (Ascii.eqb c sep); [by eexists _, _|].
  destruct (split_on sep t); by eexists _, _.
Qed.

Lemma split_on_word sep w : sep ∉ w -> split_on sep w = [w].
Proof.
  induction w as [|c w IH]; intros Hw; [done|]. apply not_elem_of_cons in Hw as [Hc Hw]. cbn.
  destruct (Ascii.eqb_spec c sep); [congruence|]. by rewrite IH.
Qed.

Lemma split_on_app sep w t : sep ∉ w -> split_on sep (w ++ sep :: t) = w :: split_on sep t.
Proof.
  induction w as [|c w IH]; intros Hw; cbn.
  - by rewrite Ascii.eqb_refl.
  - apply not_elem_of_cons in Hw as [Hc Hw]. destruct (Ascii.eqb_spec c sep); [congruence|]. by rewrite IH.
Qed.

Lemma split_join sep ws : ws <> [] -> Forall (fun w => sep ∉ w) ws -> split_on sep (text_join [sep] ws) = ws.
Proof.
  intros Hne Hws. induction Hws as [|w ws Hw Hws IH]; [done|]. destruct ws as [|w' ws].
  - cbn. by apply split_on_word.
  - change (text_join [sep] (w :: w' :: ws)) with (w ++ sep :: text_join [sep] (w' :: ws)).
    rewrite split_on_app by done. by rewrite IH.
Qed.

Lemma split_on_words sep t : Forall (fun w => sep ∉ w) (split_on sep t).
Proof.
  induction t as [|c t IH]; cbn; [by repeat constructor; apply not_elem_of_nil|].
  destruct (Ascii.eqb_spec c sep); [constructor; [apply not_elem_of_nil|done]|].
  destruct (split_on sep t) as [|w ws]; [repeat constructor|]; apply Forall_cons in IH || idtac.
  - by apply not_elem_of_cons; split; [|apply not_elem_of_nil].
  - destruct IH as [Hw Hws]. constructor; [|done]. by apply not_elem_of_cons.
Qed.

(** Cutting a path short keeps all components but the last. *)
Lemma split_on_take sep n t : exists ws, split_on sep t = removelast (split_on sep (take n t)) ++ ws.
Proof.
  revert n. induction t as [|c t IH]; intros n; [rewrite take_nil; by eexists|].
  destruct n as [|n]; [by eexists|]. cbn [take split_on]. destruct (IH n) as [ws Hws].
  destruct (split_on_cons sep (take n t)) as (w & ws' & Ew). rewrite Ew in *.
  destruct (Ascii.eqb c sep).
  - exists ws. rewrite Hws. by cbn [removelast].
  - destruct ws' as [|w' ws'].
    + cbn [removelast app] in *. destruct (split_on_cons sep t) as (v & vs & ->). by eexists.
    + cbn [removelast app] in *. destruct (split_on_cons sep t) as (v & vs & Ev). rewrite Ev in *.
      injection Hws as -> Hvs. exists ws. by rewrite Hvs.
Qed.

(** C26: A sanitized path is never empty, and every component of it but the last is a real
    name: not empty (so the path is not absolute), not [.] and not [..]; the last one is a
    real name too unless the path was cut at 240 characters, where a longer name can be
    left as [..] or as nothing. *)
Theorem sanitize_rel_path_safe (path : text) :
  let p := sanitize_rel_path path in
  p <> [] /\ (length p <= _MAX_PATH)%nat /\
  Forall (fun part => kept_part part = true) (removelast (split_on slash p)) /\
  ((length p < _MAX_PATH)%nat -> Forall (fun part => kept_part part = true) (split_on slash p)) /\
  exists long, last (split_on slash (sanitize_rel_path long)) = Some (chars "..").
Proof.
  cbv zeta. split; [apply sanitize_not_nil|]. unfold sanitize_rel_path at 1 2 3 4.
  set (raw := dropwhile _ _). set (parts := List.filter kept_part (split_on slash raw)).
  assert (Forall (fun part => kept_part part = true /\ slash ∉ part) parts) as Hparts.
  { apply Forall_forall. intros w [Hw%list_elem_of_In Hk]%list_elem_of_In%List.filter_In. split; [done|].
    by eapply Forall_forall in Hw; [|apply split_on_words]. }
  assert (forall t, t = take _MAX_PATH (text_join [slash] parts) -> t <> [] ->
    (length t <= _MAX_PATH)%nat /\ Forall (fun part => kept_part part = true) (removelast (split_on slash t)) /\
    ((length t < _MAX_PATH)%nat -> Forall (fun part => kept_part part = true) (split_on slash t))) as Hcut.
  { intros t Ht Hne. assert (parts <> []) as Hp by (intros E; rewrite E in Ht; by rewrite Ht in Hne).
    assert (split_on slash (text_join [slash] parts) = parts) as Hsplit.
    { apply split_join; [done|]. eapply Forall_impl; [exact Hparts|]. by intros ? []. }
    split_and!.
    - rewrite Ht, length_take. lia.
    - destruct (split_on_take slash _MAX_PATH (text_join [slash] parts)) as [ws Hws]. rewrite <- Ht, Hsplit in Hws.
      rewrite Hws in Hparts. apply Forall_app in Hparts as [Hparts _]. eapply Forall_impl; [exact Hparts|]. by intros ? [].
    - intros Hlt. rewrite Ht, length_take in Hlt. rewrite Ht, take_ge by lia. rewrite Hsplit.
      eapply Forall_impl; [exact Hparts|]. by intros ? []. }
  assert (exists long, last (split_on slash (sanitize_rel_path long)) = Some (chars "..")) as Hlong.
  { exists (replicate 237 "a"%char ++ chars "/..b"). by_compute. }
  destruct (take _MAX_PATH (text_join [slash] parts)) as [|c t] eqn:E.
  - split_and!; [vm_compute; lia|by repeat constructor|intros _; by repeat constructor|exact Hlong].
  - destruct (Hcut (c :: t) eq_refl ltac:(done)) as (H1 & H2 & H3). by split_and!.
Qed.

(** ** Concrete bundles *)

Definition demo_tree : list (text * text) :=
  [(chars "src/app.py", [nl] ++ chars "print(1)" ++ [nl; nl]); (chars "README.md", []); (chars "a.txt", chars "x # FILE y")].

Lemma file_tree_roundtrip_witness :
  canonical <$> parse_file_tree (serialize_file_tree demo_tree) =
    [(chars "src/app.py", chars "print(1)"); (chars "README.md", []); (chars "a.txt", chars "x # FILE y")].
Proof.
  rewrite (file_tree_roundtrip demo_tree).
  - reflexivity.
  - vm_compute. lia.
  - repeat constructor; try (vm_compute; discriminate || reflexivity); apply (bool_decide_unpack _); vm_compute; done.
Defined.

Definition demo_repair : text :=
  chars "## FILE: README.md" ++ [nl] ++ chars "fixed" ++ [nl] ++ chars "## FILE ./new.py" ++ [nl] ++ chars "pass".

Lemma merge_repaired_files_complete_witness :
  let merged := parse_file_tree (merge_repaired_files (serialize_file_tree demo_tree) demo_repair) in
  (forall p, p ∈ merged.*1 <-> p ∈ (parse_file_tree (serialize_file_tree demo_tree)).*1 \/ p ∈ (parse_file_tree demo_repair).*1) /\
  merged.*1 = [chars "src/app.py"; chars "README.md"; chars "a.txt"; chars "new.py"] /\
  canon <$> merged.*2 = [chars "print(1)"; chars "fixed"; chars "x # FILE y"; chars "pass"].
Proof.
  intros merged. split; [|split; vm_compute; reflexivity].
  refine (proj1 (merge_repaired_files_complete (serialize_file_tree demo_tree) demo_repair _ _ _ _ _)).
  - vm_compute. discriminate.
  - vm_compute. discriminate.
  - vm_compute parse_file_tree.
    repeat constructor; try (vm_compute; discriminate || reflexivity); apply (bool_decide_unpack _); vm_compute; done.
  - vm_compute parse_file_tree.
    repeat constructor; try (vm_compute; discriminate || reflexivity); apply (bool_decide_unpack _); vm_compute; done.
  - vm_compute. lia.
Defined.

(** A bundle of 80 files and a repair that adds one: the new file is lost. *)
Definition full_tree : list (text * text) := imap (fun i _ => (chars ("f" +:+ pretty (Z.of_nat i)), chars "x")) (replicate 80 tt).

Example repair_beyond_cap_is_lost :
  let merged := parse_file_tree (merge_repaired_files (serialize_file_tree full_tree) demo_repair) in
  length merged = 80%nat /\ chars "new.py" ∉ merged.*1.
Proof. split; [by_compute|]. apply (bool_decide_unpack _). vm_compute. done. Qed.
