(* ===== verification/Partitions.v ===== *)
(** * Partitions

    How one specialist's work is spread over several workers and comes back: the work
    items of a mission and the emission of [MISSION_PARTITION_READY] events by the
    lifecycle driver ([_scaling_workload_items] of [mission_flow_v2/base.py],
    [_emit_partition_work_items] of [mission_flow_v2/phases_intake.py]), and what a pod worker
    reads from such an event ([pod_worker/main.py]).  The decision itself is in Scaling, the
    bundle format in Bundles, the store of results in Store and Routes. *)

From S2P Require Import Prelude PyVal Agents MissionStates MissionFlow ProjectIdentity Scaling Tasks Store Bus Engines Routes Bundles.

(** ** Work items *)

Definition _scaling_workload_items (metadata specialist_plan : dict) : result (list string) :=
  let source_items :=
    match dget0 metadata "source_code" with
    | VStr source_code => unchars <$> _workload_items_from_source_bundle (chars source_code)
    | _ => []
    end in
  match source_items with
  | _ :: _ => Ok source_items
  | [] =>
      deliverables ← py_tuple (dget_or specialist_plan "deliverables" (VList []));
      match List.filter (fun item => negb (String.eqb item "")) (str_strip ∘ py_str <$> deliverables) with
      | [] => Ok ["default_workload"]
      | workload_items => Ok workload_items
      end
  end.

(** ** What the worker reads *)

Definition _partition_payload (payload : dict) : dict := dict_value (dget0 payload "partition").

Definition _partition_id (payload : dict) : string :=
  str_strip (py_str (dget_or (_partition_payload payload) "partition_id" (VStr ""))).

Definition _partition_items (payload : dict) : list string :=
  match dget0 (_partition_payload payload) "assigned_items" with
  | VList assigned_items => List.filter (fun item => negb (String.eqb item "")) (str_strip ∘ py_str <$> assigned_items)
  | _ => []
  end.

Definition endswith (suffix s : string) : bool := String.eqb (str_drop (String.length s - String.length suffix) s) suffix
  && (String.length suffix <=? String.length s)%nat.

(** The node ids a partition reports are its own; non-dictionaries are dropped. *)
Definition _apply_partition_suffix (pod_name : string) (logicnodes : list val) (partition_id : string) : list val :=
  if String.eqb partition_id "" then logicnodes
  else omap (fun logicnode =>
    match logicnode with
    | VDict updated =>
        let base_node_id := str_or (str_strip (py_str (dget_or updated "node_id" (VStr ""))))
                              (pod_name +:+ ".partition." +:+ partition_id) in
        let updated := if endswith ("." +:+ partition_id) base_node_id then updated
                       else dset updated "node_id" (VStr (base_node_id +:+ "." +:+ partition_id)) in
        let updated := match dget0 updated "node" with
          | VDict node_payload =>
              let nested_payload := dict_value (dget0 node_payload "payload") in
              dset updated "node" (VDict (dset node_payload "payload"
                (VDict (dset nested_payload "partition_id" (VStr partition_id)))))
          | _ => updated
          end in
        Some (VDict updated)
    | _ => None
    end) logicnodes.

(** The source one partition's worker extracts from. *)
Definition partition_source (source_code : string) (p : WorkPartition) : text :=
  _subset_source_bundle (chars source_code)
    (chars <$> _partition_items [("partition", VDict (WorkPartition_to_dict p))]).

(** ** Emission

    The driver's commands: those of the routes, and the event that hands a partition
    out.  An event that cannot be written raises and is not in the stream. *)

Inductive emission :=
| Act (c : act)
| Publish (mission_id : string) (payload : dict).

Record Emitter := mkEmitter { em_world : World; em_events : list (string * dict) }.

Definition emission_exec (auto : bool) (publishes : dict -> bool) (c : emission) (e : Emitter) : answer * Emitter :=
  match c with
  | Act c => let '(r, w) := act_exec auto c (em_world e) in (r, mkEmitter w (em_events e))
  | Publish id payload =>
      if publishes payload then (Finished, mkEmitter (em_world e) (em_events e ++ [(id, payload)]))
      else (Raised OSError, e)
  end.

Section emit.
Context (now : string) (redis_ready : bool) (validates : string -> bool).

Definition _validate_agent_id (candidate : val) (fallback : string) : string :=
  let normalized := str_upper (str_strip (py_str (py_or candidate (VStr "")))) in
  if existsb (fun a => String.eqb (ag_agent_id a) normalized) AGENT_REGISTRY then normalized else fallback.

Definition partition_event (mission : MissionRecord) (specialist_agent_id pod_manager_agent_id : string)
    (p : WorkPartition) : dict :=
  [("mission_id", VStr (ms_mission_id mission)); ("state", VStr (state_value (ms_state mission)));
   ("event_type", VStr "MISSION_PARTITION_READY");
   ("requested_target_language", match ms_language mission with Some l => VStr l | None => VNone end);
   ("agent_id", VStr specialist_agent_id); ("selected_agent_id", VStr specialist_agent_id);
   ("assigned_specialist_agent_id", VStr specialist_agent_id);
   ("assigned_pod_manager_agent_id", VStr pod_manager_agent_id);
   ("partition", VDict (WorkPartition_to_dict p))].

(** The loop over the partitions: the ids emitted so far, and whether it got to the end. *)
Fixpoint emit_loop (mission_id : string) (event : WorkPartition -> dict) (ps : list WorkPartition)
    (already_emitted_ids : list string) : task emission answer exn (list string * bool) :=
  match ps with
  | [] => tret (already_emitted_ids, true)
  | p :: ps' =>
      let pid := wp_partition_id p in
      if str_in pid already_emitted_ids then emit_loop mission_id event ps' already_emitted_ids
      else if negb (validates pid) then tret (already_emitted_ids, false)
      else Do (Publish mission_id (event p)) (fun r =>
        match r with
        | Raised _ => tret (already_emitted_ids, false)
        | _ => emit_loop mission_id event ps' (already_emitted_ids ++ [pid])
        end)
  end.

(** [set(metadata.get(..) or [])]; only strings can equal a partition id. *)
Definition emitted_ids (metadata : dict) : list string :=
  match dget0 metadata "scaling_partition_emitted_ids" with VList l => sorted_set (omap as_str l) | _ => [] end.

Definition emission_metadata (metadata : dict) (ids : list string) (all_sent : bool) : dict :=
  if all_sent
  then
    let m := dset metadata "scaling_partition_events_emitted" (VBool true) in
    let m := dset m "scaling_partition_events_emitted_at" (VStr now) in
    let m := dset m "scaling_partition_event_count" (VInt (Z.of_nat (length ids))) in
    dset m "scaling_partition_emitted_ids" (VList (VStr <$> sorted_set ids))
  else
    dset (dset metadata "scaling_partition_emitted_ids" (VList (VStr <$> sorted_set ids)))
      "scaling_partition_event_count" (VInt (Z.of_nat (length ids))).

Definition ask_act (c : act) : task emission answer exn (option MissionRecord) :=
  await (Act c) (fun r => match r with Raised e => inl e | Mission o => inr o | Finished => inr None end).

Definition _emit_partition_work_items (mission : MissionRecord) : task emission answer exn MissionRecord :=
  let metadata := with_chain_defaults (VDict (ms_metadata mission)) (ms_language mission) in
  match scaling_decision_from_metadata now metadata with
  | Raise e => traise e
  | Ok None => tret mission
  | Ok (Some decision) =>
      if sd_instance_count decision <=? 1 then tret mission
      else if truthy (dget0 metadata "scaling_partition_events_emitted") then tret mission
      else if negb redis_ready then tret mission
      else
        let specialist := _validate_agent_id (dget0 metadata "assigned_specialist_agent_id")
                            (resolve_specialist_agent_id (ms_language mission)) in
        let pod_manager := _validate_agent_id (dget0 metadata "assigned_pod_manager_agent_id")
                            (resolve_pod_manager_agent_id (ms_language mission)) in
        tbind (emit_loop (ms_mission_id mission) (partition_event mission specialist pod_manager)
                 (sd_partitions decision) (emitted_ids metadata)) (fun '(ids, all_sent) =>
        tbind (ask_act (UpdateMetadata (ms_mission_id mission) (emission_metadata metadata ids all_sent)))
          (fun updated => tret (if all_sent then default mission updated else mission)))
  end.

(** The driver's use: fetch, emit. *)
Definition emit_round (id : string) : task emission answer exn unit :=
  Do (Act (Fetch id)) (fun r =>
    match r with
    | Raised e => traise e
    | Mission (Some m) => tbind (_emit_partition_work_items m) (fun _ => tret tt)
    | Mission None | Finished => tret tt
    end).
End emit.

(** ** The partitions cover the bundle *)

Lemma dedup_first_spec l : NoDup (dedup_first l) /\ forall x, x ∈ dedup_first l <-> x ∈ l.
Proof.
  unfold dedup_first.
  assert (forall acc, NoDup acc ->
    NoDup (foldl (fun acc x => if bool_decide (x ∈ acc) then acc else acc ++ [x]) acc l) /\
    forall x, x ∈ foldl (fun acc x => if bool_decide (x ∈ acc) then acc else acc ++ [x]) acc l <-> x ∈ acc \/ x ∈ l) as H.
  { induction l as [|y l IH]; intros acc Hacc; cbn [foldl]; [split; [done|set_solver]|].
    destruct (bool_decide (y ∈ acc)) eqn:E.
    - apply bool_decide_eq_true in E. destruct (IH acc Hacc) as [H1 H2]. split; [done|]. set_solver.
    - apply bool_decide_eq_false in E. destruct (IH (acc ++ [y])) as [H1 H2].
      + apply NoDup_app. split_and!; [done| |apply NoDup_singleton]. set_solver.
      + split; [done|]. set_solver. }
  destruct (H [] (NoDup_nil_2)) as [H1 H2]. split; [done|]. set_solver.
Qed.

Lemma filter_fst {A B} (p : A -> bool) (l : list (A * B)) :
  (List.filter (fun s => p s.1) l).*1 = List.filter p l.*1.
Proof. induction l as [|[a b] l IH]; [done|]. cbn. destruct (p a); cbn; by rewrite IH. Qed.

Lemma workload_items_paths src :
  NoDup (_workload_items_from_source_bundle src) /\
  forall p, p ∈ _workload_items_from_source_bundle src <-> p ∈ (_bundle_source_segments src).*1.
Proof.
  unfold _workload_items_from_source_bundle. destruct (is_nil (strip src)) eqn:Es.
  - split; [constructor|]. intros p. destruct (strip src) eqn:E; [|done]. apply strip_nil in E.
    unfold _bundle_source_segments, matches.
    rewrite (scan_quiet_end _SOURCE_BUNDLE_FILE_PATTERN true src (spaces_no_marker true src E)). done.
  - destruct (dedup_first_spec (List.filter (fun p => negb (is_nil p))
      (strip ∘ fst <$> matches _SOURCE_BUNDLE_FILE_PATTERN src))) as [H1 H2]. split; [done|].
    intros p. rewrite H2. unfold _bundle_source_segments. rewrite (filter_fst (fun q => negb (is_nil q))).
    by rewrite <- list_fmap_compose.
Qed.

Lemma dealt_elem n i idx items x :
  x ∈ dealt n i idx items <-> exists k, items !! k = Some x /\ ((idx + k) mod n = i)%nat.
Proof.
  revert idx. induction items as [|y items IH]; intros idx; cbn [dealt].
  - split; [intros []%not_elem_of_nil|]. by intros (k & Hk & _).
  - assert ((exists k, (y :: items) !! k = Some x /\ ((idx + k) mod n = i)%nat) <->
            (x = y /\ (idx mod n = i)%nat) \/ exists k, items !! k = Some x /\ ((S idx + k) mod n = i)%nat) as ->.
    { split.
      - intros ([|k] & Hk & Hm); cbn in Hk.
        + left. injection Hk as ->. by rewrite Nat.add_0_r in Hm.
        + right. exists k. split; [done|]. by rewrite <- Nat.add_succ_comm in Hm.
      - intros [[-> Hm]|(k & Hk & Hm)]; [exists O; by rewrite Nat.add_0_r|]. exists (S k). by rewrite <- Nat.add_succ_comm. }
    rewrite <- IH. case_decide; [rewrite elem_of_cons; tauto|]. tauto.
Qed.

(** Items that are stripped and not empty are read back from the event. *)
Lemma read_items (items : list text) (p : WorkPartition) :
  wp_assigned_items p = VStr <$> (unchars <$> items) -> Forall (fun p => strip p = p /\ p <> []) items ->
  _partition_items [("partition", VDict (WorkPartition_to_dict p))] = unchars <$> items.
Proof.
  intros Hp Hi.
  change (List.filter (fun item => negb (String.eqb item "")) (str_strip ∘ py_str <$> wp_assigned_items p) = unchars <$> items).
  rewrite Hp. clear Hp. induction Hi as [|q items [Hq Hne] _ IH]; [done|]. cbn [fmap list_fmap List.filter].
  change ((str_strip ∘ py_str) (VStr (unchars q))) with (unchars (strip (chars (unchars q)))).
  rewrite chars_unchars, Hq. replace (String.eqb (unchars q) "") with false.
  - cbn [negb]. f_equal. exact IH.
  - symmetry. apply String.eqb_neq. intros E. apply Hne. by rewrite <- (chars_unchars q), E.
Qed.

Lemma decision_partitions uuid now agent_id items max_instances per :
  exists k, sd_partitions (compute_scaling_decision uuid now agent_id items max_instances per) = partition_workload uuid items k.
Proof. unfold compute_scaling_decision. destruct (_ || _); by eexists. Qed.

Lemma unchars_chars_map (l : list string) : unchars <$> (chars <$> l) = l.
Proof. rewrite <- list_fmap_compose. induction l as [|x l IH]; [done|]. cbn. by rewrite unchars_chars, IH. Qed.

Section coverage.
Context (src : text) (n : nat).
Let items := unchars <$> _workload_items_from_source_bundle src.
Hypothesis Hn : (1 <= n <= length items)%nat.

Lemma item_path x : x ∈ items <-> chars x ∈ (_bundle_source_segments src).*1.
Proof.
  rewrite <- (proj2 (workload_items_paths src)). unfold items. rewrite list_elem_of_fmap. split.
  - intros (t & -> & Ht). by rewrite chars_unchars.
  - intros Ht. exists (chars x). by rewrite unchars_chars.
Qed.

Lemma items_NoDup : NoDup items.
Proof.
  apply NoDup_fmap_2; [|apply workload_items_paths]. intros a b E. by rewrite <- (chars_unchars a), E, chars_unchars.
Qed.

(** What the worker of partition [i] is given. *)
Lemma dealt_source (p : WorkPartition) i :
  wp_assigned_items p = VStr <$> dealt n i 0 items ->
  partition_source (unchars src) p = _subset_source_bundle src (chars <$> dealt n i 0 items) /\
  selected src (chars <$> dealt n i 0 items) =
    List.filter (fun s => bool_decide (unchars s.1 ∈ dealt n i 0 items)) (_bundle_source_segments src).
Proof.
  intros Hp. pose proof (segments_paths src) as Hpaths.
  assert (Forall (fun p => strip p = p /\ p <> []) (chars <$> dealt n i 0 items)) as Hok.
  { apply Forall_fmap, Forall_forall. intros x (k & Hk & _)%dealt_elem. apply list_elem_of_lookup_2, item_path in Hk.
    apply list_elem_of_fmap in Hk as (s & Hs & Hin). cbn. rewrite Hs.
    eapply Forall_forall in Hpaths as [H1 [_ H2]]; [|exact Hin]. split; [done|]. intros E. by rewrite E in H2. }
  split.
  - unfold partition_source. rewrite chars_unchars, (read_items (chars <$> dealt n i 0 items)); [|by rewrite unchars_chars_map|done].
    by rewrite unchars_chars_map.
  - unfold selected.
    assert (List.filter (fun p => negb (is_nil p)) (strip <$> (chars <$> dealt n i 0 items)) = chars <$> dealt n i 0 items) as ->.
    { revert Hok. generalize (chars <$> dealt n i 0 items). induction 1 as [|q l [Hq Hne] _ IH]; [done|].
      cbn [fmap list_fmap List.filter]. rewrite Hq. replace (is_nil q) with false by (by destruct q). cbn. by rewrite IH. }
    apply List.filter_ext. intros s. apply bool_decide_ext. rewrite list_elem_of_fmap. split.
    + intros (x & -> & Hx). by rewrite unchars_chars.
    + intros Hx. exists (unchars s.1). by rewrite chars_unchars.
Qed.

Lemma dealt_not_nil i : (i < n)%nat -> dealt n i 0 items <> [].
Proof.
  intros Hi E. pose proof (dealt_balanced n i items Hi) as [Hb _]. rewrite E in Hb. cbn in Hb.
  assert (1 <= length items / n)%nat by (apply Nat.div_le_lower_bound; lia). lia.
Qed.

Lemma dealt_segments (p : WorkPartition) i :
  wp_assigned_items p = VStr <$> dealt n i 0 items -> (i < n)%nat ->
  Forall (fun s => no_marker true s.2 = true) (_bundle_source_segments src) ->
  canonical <$> _bundle_source_segments (partition_source (unchars src) p) =
  canonical <$> List.filter (fun s => bool_decide (unchars s.1 ∈ dealt n i 0 items)) (_bundle_source_segments src).
Proof.
  intros Hp Hi Hq. destruct (dealt_source p i Hp) as [-> Hsel]. rewrite <- Hsel. apply subset_segments; [|done].
  rewrite Hsel. destruct (dealt n i 0 items) as [|x l] eqn:E; [by apply dealt_not_nil in E|].
  assert (x ∈ items) as Hx.
  { assert (x ∈ dealt n i 0 items) as (k & Hk & _)%dealt_elem by (rewrite E; by apply elem_of_cons; left).
    by eapply list_elem_of_lookup_2. }
  apply item_path, list_elem_of_fmap in Hx as (s & Hs & Hin). intros Hnil.
  assert (List.In s (List.filter (fun s => bool_decide (unchars s.1 ∈ x :: l)) (_bundle_source_segments src))) as Hf.
  { apply List.filter_In. split; [by apply list_elem_of_In|]. apply bool_decide_eq_true. rewrite <- Hs, unchars_chars.
    by apply elem_of_cons; left. }
  by rewrite Hnil in Hf.
Qed.
End coverage.

Lemma source_items metadata plan src items :
  dget0 metadata "source_code" = VStr (unchars src) -> _bundle_source_segments src <> [] ->
  _scaling_workload_items metadata plan = Ok items ->
  items = unchars <$> _workload_items_from_source_bundle src /\ items <> [].
Proof.
  intros Hsrc Hfiles Hitems. unfold _scaling_workload_items in Hitems. rewrite Hsrc, chars_unchars in Hitems.
  destruct (unchars <$> _workload_items_from_source_bundle src) as [|x l] eqn:E; [|by injection Hitems as <-].
  exfalso. apply fmap_nil_inv in E. destruct (_bundle_source_segments src) as [|s ss] eqn:Es; [done|].
  assert (s.1 ∈ _workload_items_from_source_bundle src) as Hin.
  { apply workload_items_paths. rewrite Es. by apply elem_of_cons; left. }
  rewrite E in Hin. by apply not_elem_of_nil in Hin.
Qed.

Lemma partition_index uuid items k p :
  p ∈ partition_workload uuid items k -> exists i, (i < effective_count items k)%nat /\
    partition_workload uuid items k !! i = Some p /\ wp_assigned_items p = VStr <$> dealt (effective_count items k) i 0 items.
Proof.
  intros [i Hi]%list_elem_of_lookup_1. exists i. assert (i < effective_count items k)%nat as Hlt.
  { apply lookup_lt_Some in Hi. by rewrite partition_workload_length in Hi. }
  split_and!; [done..|]. rewrite (partition_workload_lookup uuid items k i Hlt) in Hi. by injection Hi as <-.
Qed.

(** C9: The partitions of a scaled mission cover its source bundle exactly: each file of the
    bundle is in the source that exactly one partition's worker extracts from, with its
    text (up to surrounding white space), and a worker sees no other files.  The bundle
    has a file, and no line inside a file's text begins with the marker word. *)
Theorem partitions_cover_bundle (uuid : nat -> string) (now agent_id : string) (max_instances per : Z)
    (metadata plan : dict) (src : text) (items : list string)
    (Hsrc : dget0 metadata "source_code" = VStr (unchars src))
    (Hfiles : _bundle_source_segments src <> [])
    (Hquiet : Forall (fun s => no_marker true s.2 = true) (_bundle_source_segments src))
    (Hitems : _scaling_workload_items metadata plan = Ok items) :
  let ps := sd_partitions (compute_scaling_decision uuid now agent_id items max_instances per) in
  let files p := canonical <$> _bundle_source_segments (partition_source (unchars src) p) in
  (forall s, s ∈ _bundle_source_segments src -> exists p, p ∈ ps /\ canonical s ∈ files p /\
     forall q, q ∈ ps -> s.1 ∈ (files q).*1 -> q = p) /\
  (forall p f, p ∈ ps -> f ∈ files p -> f ∈ canonical <$> _bundle_source_segments src).
Proof.
  destruct (source_items metadata plan src items Hsrc Hfiles Hitems) as [-> Hne].
  set (items := unchars <$> _) in *. destruct (decision_partitions uuid now agent_id items max_instances per) as [k Hk].
  cbv zeta. rewrite Hk. set (n := effective_count items k).
  assert (1 <= n <= length items)%nat as Hn.
  { pose proof (effective_count_bounds items k). fold n in H. destruct items; [done|]. cbn in *. lia. }
  pose proof (partition_index uuid items k) as Hps. fold n in Hps.
  split.
  - intros s Hs. assert (unchars s.1 ∈ items) as Hx.
    { apply item_path. rewrite chars_unchars. apply list_elem_of_fmap. by exists s. }
    apply list_elem_of_lookup_1 in Hx as [j Hj]. set (i := (j mod n)%nat).
    assert (i < n)%nat as Hi by (apply Nat.mod_upper_bound; lia).
    pose proof (partition_workload_lookup uuid items k i Hi) as Hp.
    match type of Hp with _ = Some ?q => set (p := q) in Hp end. exists p. split; [by eapply list_elem_of_lookup_2|].
    split.
    + rewrite (dealt_segments src n Hn p i) by done. apply (list_elem_of_fmap_2 canonical).
      apply list_elem_of_In, List.filter_In. split; [by apply list_elem_of_In|]. apply bool_decide_eq_true, dealt_elem.
      by exists j.
    + intros q (i' & Hi' & Hq & Ha)%Hps Hin. rewrite (dealt_segments src n Hn q i') in Hin by done.
      rewrite canonical_paths in Hin. apply list_elem_of_fmap in Hin as (s' & Hs' & Hin).
      apply list_elem_of_In, List.filter_In in Hin as [_ Hd%bool_decide_eq_true]. rewrite <- Hs' in Hd.
      apply dealt_elem in Hd as (j' & Hj' & Hm). assert (j' = j) as -> by (eapply NoDup_lookup; [apply items_NoDup|done..]).
      cbn in Hm. subst i'. fold i in Hq. congruence.
  - intros p f (i & Hi & _ & Ha)%Hps Hf. rewrite (dealt_segments src n Hn p i) in Hf by done.
    apply list_elem_of_fmap in Hf as (s & -> & Hin). apply list_elem_of_In, List.filter_In in Hin as [Hin _].
    apply (list_elem_of_fmap_2 canonical). by apply list_elem_of_In.
Qed.

(** ** What a round of the driver does *)

(** The partition ids handed out for a mission, in order. *)
Definition sent (id : string) (events : list (string * dict)) : list string :=
  omap (fun ev => if String.eqb ev.1 id then as_str (dget0 (dict_value (dget0 ev.2 "partition")) "partition_id") else None) events.

Lemma sent_app id a b : sent id (a ++ b) = sent id a ++ sent id b.
Proof. apply omap_app. Qed.

Section rounds.
Context (auto : bool) (now id : string).

(** A round: which envelopes are valid, and which events Redis takes. *)
Definition round (io : (string -> bool) * (dict -> bool)) (e : Emitter) : Emitter :=
  (run (emission_exec auto io.2) (emit_round now true io.1 id) e).1.2.

Definition rounds (ios : list ((string -> bool) * (dict -> bool))) (e : Emitter) : Emitter :=
  foldl (fun e io => round io e) e ios.

Lemma emit_loop_run validates publishes mission sp pm ps already (e : Emitter) :
  ms_mission_id mission = id ->
  exists new all_sent events tr,
    run (emission_exec auto publishes) (emit_loop validates id (partition_event mission sp pm) ps already) e =
      (inr (already ++ new, all_sent), mkEmitter (em_world e) (em_events e ++ events), tr) /\
    sent id events = new /\ NoDup new /\ (forall x, x ∈ new -> x ∉ already /\ x ∈ wp_partition_id <$> ps) /\
    (all_sent = true -> forall x, x ∈ wp_partition_id <$> ps -> x ∈ already ++ new) /\
    ((forall x, validates x = true) -> (forall x, publishes x = true) -> all_sent = true).
Proof.
  intros Hid. revert already e. induction ps as [|p ps IH]; intros already e; cbn [emit_loop run].
  - exists [], true, [], []. rewrite !app_nil_r. destruct e. split_and!; try done; [constructor|set_solver..].
  - destruct (str_in (wp_partition_id p) already) eqn:Ein.
    + apply str_in_spec in Ein. destruct (IH already e) as (new & fin & events & tr & Hrun & Hs & Hnd & Hnew & Hfin & Hok).
      exists new, fin, events, tr. split_and!; try done.
      * intros x Hx. destruct (Hnew x Hx). split; [done|]. cbn. by apply elem_of_cons; right.
      * intros Hf x [->|Hx]%elem_of_cons; [by apply elem_of_app; left|by apply Hfin].
    + apply str_in_false in Ein. destruct (validates (wp_partition_id p)) eqn:Ev; cbn [negb run].
      2: { exists [], false, [], []. rewrite !app_nil_r. destruct e. split_and!; try done; [constructor|set_solver|].
           intros Hv. by rewrite Hv in Ev. }
      destruct e as [w evs]. cbn [emission_exec]. destruct (publishes _) eqn:Ep; cbn [run].
      2: { exists [], false, []. eexists. rewrite !app_nil_r. split_and!; try done; [constructor|set_solver|].
           intros _ Hp. by rewrite Hp in Ep. }
      destruct (IH (already ++ [wp_partition_id p]) (mkEmitter w (evs ++ [(id, partition_event mission sp pm p)])))
        as (new & fin & events & tr & Hrun & Hs & Hnd & Hnew & Hfin & Hok).
      cbn [em_world em_events] in *. rewrite Hrun.
      exists (wp_partition_id p :: new), fin, ((id, partition_event mission sp pm p) :: events). eexists.
      rewrite <- !app_assoc. cbn [app]. split_and!; try done.
      * cbn [sent omap list_omap fst]. rewrite String.eqb_refl. cbn. fold (sent id events). by rewrite Hs.
      * constructor; [|done]. intros Hin. destruct (Hnew _ Hin) as [Hno _]. apply Hno, elem_of_app. right. by apply list_elem_of_singleton.
      * intros x [->|Hx]%elem_of_cons; [split; [done|by apply elem_of_cons; left]|]. destruct (Hnew x Hx) as [H1 H2].
        split; [set_solver|by apply elem_of_cons; right].
      * intros Hf x [->|Hx]%elem_of_cons; [set_solver|]. specialize (Hfin Hf x Hx). rewrite <- app_assoc in Hfin. exact Hfin.
Qed.

(** What the driver reads from a row's metadata: the keys it does not own itself. *)
Lemma driver_reads md lang k :
  str_in k ["chain_trace"; "agent_id"; "selected_agent_id"; "expected_specialist_agent_id"; "expected_pod_manager_agent_id";
            "executive_agent_id"; "intake_agent_id"; "routing_enforced"; "routing_version"] = false ->
  dget (with_chain_defaults (VDict md) lang) k = dget md k.
Proof.
  intros Hk. rewrite with_chain_defaults_get, dict_value_VDict. apply str_in_false in Hk.
  rewrite !not_elem_of_cons in Hk. destruct Hk as (H1 & H2 & H3 & H4 & H5 & H6 & H7 & H8 & H9 & _).
  replace (str_in k ["agent_id"; "selected_agent_id"]) with false by (symmetry; apply str_in_false; set_solver).
  by repeat rewrite (proj2 (String.eqb_neq _ _)) by done.
Qed.

Lemma emitted_ids_written metadata md ids all_sent :
  dget metadata "scaling_partition_emitted_ids" = dget (emission_metadata now md ids all_sent) "scaling_partition_emitted_ids" ->
  forall x, x ∈ emitted_ids metadata <-> x ∈ ids.
Proof.
  intros Hm x. unfold emitted_ids, dget0. rewrite Hm.
  assert (dget (emission_metadata now md ids all_sent) "scaling_partition_emitted_ids" = Some (VList (VStr <$> sorted_set ids))) as ->.
  { unfold emission_metadata. destruct all_sent; by dict_simpl. }
  cbn [default from_option Datatypes.id]. rewrite sorted_set_elem, <- (sorted_set_elem x ids).
  assert (omap as_str (VStr <$> sorted_set ids) = sorted_set ids) as ->; [|done].
  induction (sorted_set ids) as [|y l IH]; [done|]. cbn. by f_equal.
Qed.

Lemma update_keeps_mission_id metadata db r db' row row' :
  update_mission_metadata id metadata db = (r, db') -> db_missions db !! id = Some row ->
  db_missions db' !! id = Some row' -> r_mission_id row' = r_mission_id row.
Proof.
  unfold update_mission_metadata. intros Hu Hr. rewrite Hr in Hu. injection Hu as _ <-. cbn [db_missions].
  rewrite lookup_insert_eq. by intros [= <-].
Qed.

Section decided.
Context (d : ScalingDecision).
Hypothesis Hdecided : sd_decided_at d <> "".
Hypothesis Hscaled : 1 < sd_instance_count d.
Let ids := wp_partition_id <$> sd_partitions d.

(** The metadata agree with the stream. *)
Definition emission_inv (e : Emitter) : Prop :=
  exists row s, db_missions (w_db (em_world e)) !! id = Some row /\ r_mission_id row = id /\ r_state row = state_value s /\
    dget (r_metadata row) "scaling_decision" = Some (VDict (ScalingDecision_to_dict d)) /\
    NoDup (sent id (em_events e)) /\
    (forall x, x ∈ sent id (em_events e) <-> x ∈ emitted_ids (r_metadata row)) /\
    (forall x, x ∈ sent id (em_events e) -> x ∈ ids) /\
    (truthy (dget0 (r_metadata row) "scaling_partition_events_emitted") = true -> forall x, x ∈ ids -> x ∈ sent id (em_events e)).

Lemma emitted_ids_read row lang :
  emitted_ids (with_chain_defaults (VDict (r_metadata row)) lang) = emitted_ids (r_metadata row).
Proof. unfold emitted_ids, dget0. by rewrite driver_reads. Qed.

(** The rest of a round once the mission [m] is read, from any point of the loop. *)
Definition emit_rest (validates : string -> bool) (m : MissionRecord) (md : dict) (ps : list WorkPartition)
    (already : list string) : task emission answer exn unit :=
  let specialist := _validate_agent_id (dget0 md "assigned_specialist_agent_id") (resolve_specialist_agent_id (ms_language m)) in
  let pod_manager := _validate_agent_id (dget0 md "assigned_pod_manager_agent_id") (resolve_pod_manager_agent_id (ms_language m)) in
  tbind (tbind (emit_loop validates (ms_mission_id m) (partition_event m specialist pod_manager) ps already) (fun '(ids, all_sent) =>
    tbind (ask_act (UpdateMetadata (ms_mission_id m) (emission_metadata now md ids all_sent)))
      (fun updated => tret (if all_sent then default m updated else m)))) (fun _ => tret tt).

Lemma emit_round_rest validates m :
  dget (ms_metadata m) "scaling_decision" = Some (VDict (ScalingDecision_to_dict d)) ->
  truthy (dget0 (ms_metadata m) "scaling_partition_events_emitted") = false ->
  tbind (_emit_partition_work_items now true validates m) (fun _ => tret tt) =
  emit_rest validates m (with_chain_defaults (VDict (ms_metadata m)) (ms_language m)) (sd_partitions d) (emitted_ids (ms_metadata m)).
Proof.
  intros Hd Hflag. unfold _emit_partition_work_items, emit_rest.
  rewrite (decision_roundtrip now _ d Hdecided) by (by rewrite driver_reads).
  replace (sd_instance_count d <=? 1) with false by (symmetry; apply Z.leb_gt; lia).
  assert (truthy (dget0 (with_chain_defaults (VDict (ms_metadata m)) (ms_language m)) "scaling_partition_events_emitted") = false)
    as -> by (unfold dget0; by rewrite driver_reads).
  unfold emitted_ids, dget0. rewrite !driver_reads by done. done.
Qed.

Lemma emit_rest_run validates publishes m md ps already e row s :
  ms_mission_id m = id -> db_missions (w_db (em_world e)) !! id = Some row -> r_mission_id row = id -> r_state row = state_value s ->
  exists new all_sent events row' w' tr,
    run (emission_exec auto publishes) (emit_rest validates m md ps already) e = (inr tt, mkEmitter w' (em_events e ++ events), tr) /\
    sent id events = new /\ NoDup new /\ (forall x, x ∈ new -> x ∉ already /\ x ∈ wp_partition_id <$> ps) /\
    (all_sent = true -> forall x, x ∈ wp_partition_id <$> ps -> x ∈ already ++ new) /\
    ((forall x, validates x = true) -> (forall x, publishes x = true) -> all_sent = true) /\
    db_missions (w_db w') !! id = Some row' /\ r_mission_id row' = id /\ r_state row' = state_value s /\
    (forall k, str_in k ["project_id"; "project_name"; "vault"; "delta_audit_gate"] = false ->
       dget (r_metadata row') k = dget (emission_metadata now md (already ++ new) all_sent) k).
Proof.
  intros Hmid Hr Hid Hs. unfold emit_rest. rewrite Hmid.
  set (sp := _validate_agent_id (dget0 md "assigned_specialist_agent_id") _).
  set (pm := _validate_agent_id (dget0 md "assigned_pod_manager_agent_id") _).
  destruct (emit_loop_run validates publishes m sp pm ps already e Hmid)
    as (new & fin & events & tr & Hrun & Hsent & Hnd & Hnew & Hfin & Hok).
  set (metadata := emission_metadata now md (already ++ new) fin).
  destruct e as [[db v t] evs]. cbn [em_world w_db em_events] in *.
  destruct (update_metadata_row id metadata db row s Hr Hs) as (m' & row' & Hu & _ & _ & Hs' & Hget).
  exists new, fin, events, row', (mkWorld (mkDB (<[id := row']> (db_missions db)) (db_events db)) v t). eexists. split_and!; try done.
  - rewrite !run_bind, Hrun. fold metadata. unfold ask_act. cbn [tbind await run emission_exec em_world].
    rewrite (update_exec auto id metadata db v t m' _ Hu). by destruct fin.
  - apply lookup_insert_eq.
  - rewrite <- Hid. eapply update_keeps_mission_id; [exact Hu|done|]. apply lookup_insert_eq.
  - by rewrite Hs'.
Qed.

Lemma emit_round_fetch publishes w evs row s :
  db_missions (w_db w) !! id = Some row -> r_mission_id row = id -> r_state row = state_value s ->
  exists m, ms_mission_id m = id /\ ms_metadata m = r_metadata row /\
    emission_exec auto publishes (Act (Fetch id)) (mkEmitter w evs) = (Mission (Some m), mkEmitter w evs).
Proof.
  intros Hr Hid Hs. destruct (row_to_mission_ok row s Hs) as (m & Hm & _ & Hmid & Hmd). exists m. rewrite <- Hid at 1.
  split_and!; [done..|]. destruct w as [db v t]. cbn [emission_exec act_exec em_world em_events]. unfold db_act. cbn [w_db] in *.
  unfold fetch_mission. by rewrite Hr, Hm.
Qed.

(** A round on a scaled mission that still has partitions to hand out. *)
Lemma emit_round_run validates publishes e row s :
  db_missions (w_db (em_world e)) !! id = Some row -> r_mission_id row = id -> r_state row = state_value s ->
  dget (r_metadata row) "scaling_decision" = Some (VDict (ScalingDecision_to_dict d)) ->
  truthy (dget0 (r_metadata row) "scaling_partition_events_emitted") = false ->
  exists new all_sent events row' lang w',
    round (validates, publishes) e = mkEmitter w' (em_events e ++ events) /\
    sent id events = new /\ NoDup new /\ (forall x, x ∈ new -> x ∉ emitted_ids (r_metadata row) /\ x ∈ ids) /\
    (all_sent = true -> forall x, x ∈ ids -> x ∈ emitted_ids (r_metadata row) ++ new) /\
    ((forall x, validates x = true) -> (forall x, publishes x = true) -> all_sent = true) /\
    db_missions (w_db w') !! id = Some row' /\ r_mission_id row' = id /\ r_state row' = state_value s /\
    (forall k, str_in k ["project_id"; "project_name"; "vault"; "delta_audit_gate"] = false ->
       dget (r_metadata row') k =
         dget (emission_metadata now (with_chain_defaults (VDict (r_metadata row)) lang) (emitted_ids (r_metadata row) ++ new) all_sent) k).
Proof.
  intros Hr Hid Hs Hd Hflag. destruct e as [w evs]. cbn [em_world] in Hr.
  destruct (emit_round_fetch publishes w evs row s Hr Hid Hs) as (m & Hmid & Hmd & Hf).
  destruct (emit_rest_run validates publishes m (with_chain_defaults (VDict (r_metadata row)) (ms_language m))
    (sd_partitions d) (emitted_ids (r_metadata row)) (mkEmitter w evs) row s Hmid Hr Hid Hs)
    as (new & fin & events & row' & w' & tr & Hrun & Hrest).
  exists new, fin, events, row', (ms_language m), w'. split; [|exact Hrest].
  unfold round. cbn [fst snd]. unfold emit_round. cbn [run]. rewrite Hf.
  rewrite emit_round_rest by (by rewrite Hmd). by rewrite Hmd, Hrun.
Qed.

(** A round with nothing left to do. *)
Lemma emit_round_done validates publishes e row s :
  db_missions (w_db (em_world e)) !! id = Some row -> r_mission_id row = id -> r_state row = state_value s ->
  dget (r_metadata row) "scaling_decision" = Some (VDict (ScalingDecision_to_dict d)) ->
  truthy (dget0 (r_metadata row) "scaling_partition_events_emitted") = true ->
  round (validates, publishes) e = e.
Proof.
  intros Hr Hid Hs Hd Hflag. destruct e as [w evs]. cbn [em_world] in Hr.
  destruct (emit_round_fetch publishes w evs row s Hr Hid Hs) as (m & Hmid & Hmd & Hf).
  unfold round. cbn [fst snd]. unfold emit_round. cbn [run]. rewrite Hf.
  unfold _emit_partition_work_items. rewrite (decision_roundtrip now _ d Hdecided) by (by rewrite driver_reads, Hmd).
  replace (sd_instance_count d <=? 1) with false by (symmetry; apply Z.leb_gt; lia).
  unfold dget0. rewrite driver_reads by done. rewrite Hmd. unfold dget0 in Hflag. by rewrite Hflag.
Qed.

Lemma round_inv io e : emission_inv e ->
  emission_inv (round io e) /\
  ((forall x, io.1 x = true) -> (forall x, io.2 x = true) -> forall x, x ∈ ids -> x ∈ sent id (em_events (round io e))).
Proof.
  intros (row & s & Hr & Hid & Hs & Hd & Hnd & Hiff & Hsub & Hflag). destruct io as [validates publishes]. cbn [fst snd].
  destruct (truthy (dget0 (r_metadata row) "scaling_partition_events_emitted")) eqn:Ef.
  - rewrite (emit_round_done validates publishes e row s Hr Hid Hs Hd Ef). specialize (Hflag eq_refl).
    split; [|done]. exists row, s. by split_and!.
  - destruct (emit_round_run validates publishes e row s Hr Hid Hs Hd Ef)
      as (new & fin & events & row' & lang & w' & Hround & Hsent & Hndn & Hnew & Hfin & Hok & Hr' & Hid' & Hs' & Hget).
    assert (forall x, x ∈ emitted_ids (r_metadata row') <-> x ∈ emitted_ids (r_metadata row) ++ new) as Hids.
    { apply (emitted_ids_written _ (with_chain_defaults (VDict (r_metadata row)) lang) _ fin). by apply Hget. }
    rewrite Hround. cbn [em_world em_events]. rewrite sent_app, Hsent. split.
    + exists row', s. cbn [em_world em_events]. rewrite sent_app, Hsent. split_and!; try done.
      * rewrite Hget by done. unfold emission_metadata. destruct fin; rewrite !dget_dset_ne by done; by rewrite driver_reads.
      * apply NoDup_app. split_and!; [done| |done]. intros x Hx Hxn. destruct (Hnew x Hxn) as [Hno _]. by apply Hno, Hiff.
      * intros x. rewrite Hids, !elem_of_app, Hiff. done.
      * intros x [Hx|Hx]%elem_of_app; [by apply Hsub|by apply Hnew].
      * intros Ht x Hx. destruct fin.
        -- specialize (Hfin eq_refl x Hx). apply elem_of_app in Hfin as [?|?]; apply elem_of_app; [left; by apply Hiff|by right].
        -- exfalso. unfold dget0 in Ht. rewrite Hget in Ht by done. unfold emission_metadata in Ht.
           rewrite !dget_dset_ne in Ht by done. rewrite driver_reads in Ht by done. unfold dget0 in Ef. congruence.
    + intros Hv Hp x Hx. rewrite Hok in Hfin by done. specialize (Hfin eq_refl x Hx).
      apply elem_of_app in Hfin as [?|?]; apply elem_of_app; [left; by apply Hiff|by right].
Qed.

Lemma rounds_inv ios e : emission_inv e -> emission_inv (rounds ios e).
Proof. revert e. induction ios as [|io ios IH]; intros e He; [done|]. cbn. by apply IH, round_inv. Qed.
End decided.


(** Requests answered by the routes, as commands of this world. *)
Fixpoint as_emission {A} (t : route A) : task emission answer exn A :=
  match t with
  | Done r => Done r
  | Do c k => Do (Act c) (fun r => as_emission (k r))
  end.

Lemma run_as_emission {A} publishes (t : route A) w evs :
  run (emission_exec auto publishes) (as_emission t) (mkEmitter w evs) =
  (let '(out, w', tr) := run (act_exec auto) t w in
   (out, mkEmitter w' evs, (fun cr => (Act cr.1, cr.2)) <$> tr)).
Proof.
  revert w. induction t as [r|c k IH]; intros w; [done|]. cbn. destruct (act_exec auto c w) as [r w1].
  rewrite IH. by destruct (run (act_exec auto) (k r) w1) as [[out w'] tr].
Qed.

Lemma emit_rest_cons m md p ps already :
  str_in (wp_partition_id p) already = false ->
  exists sp pm k, emit_rest (fun _ => true) m md (p :: ps) already = Do (Publish (ms_mission_id m) (partition_event m sp pm p)) k /\
    k Finished = emit_rest (fun _ => true) m md ps (already ++ [wp_partition_id p]).
Proof. intros Hin. unfold emit_rest. cbn [emit_loop]. rewrite Hin. cbn [negb tbind]. by eexists _, _, _. Qed.

(** While partitions are being handed out, a result can be lost.  Let the driver have
    read a scaled mission and handed out the first partition, and let a worker's report,
    of any partition, be accepted before the driver ends its round.  Then there is an
    interleaving in which both succeed, every partition is handed out and marked so, and
    the partition results of the mission are what they were before the report; as the
    mark is set, no later round hands the partition out again. *)
Lemma emission_loses_results (d : ScalingDecision) (p0 : WorkPartition) (ps : list WorkPartition) (rq : request)
    (w w1 : World) (row row1 : Row) (s s1 : MissionState) (tr : list (act * answer))
    (Hdecided : sd_decided_at d <> "") (Hscaled : 1 < sd_instance_count d) (Hps : sd_partitions d = p0 :: ps)
    (Hrow : db_missions (w_db w) !! id = Some row) (Hid : r_mission_id row = id) (Hstate : r_state row = state_value s)
    (Hmd : dget (r_metadata row) "scaling_decision" = Some (VDict (ScalingDecision_to_dict d)))
    (Hflag : truthy (dget0 (r_metadata row) "scaling_partition_events_emitted") = false)
    (Hnew : wp_partition_id p0 ∉ emitted_ids (r_metadata row))
    (Hreport : run (act_exec auto) (serve now rq) w = (inr tt, w1, tr))
    (Hrow1 : db_missions (w_db w1) !! id = Some row1) (Hid1 : r_mission_id row1 = id) (Hstate1 : r_state row1 = state_value s1) :
  let step := pool_step (fun c e r e' => emission_exec auto (fun _ => true) c e = (r, e')) in
  exists p row2, rtc step (mkPool [emit_round now true (fun _ => true) id; as_emission (serve now rq)] (mkEmitter w []) []) p /\
    threads p = [tret tt; tret tt] /\ db_missions (w_db (em_world (world p))) !! id = Some row2 /\
    (forall x, x ∈ wp_partition_id <$> sd_partitions d -> x ∈ emitted_ids (r_metadata row) ++ sent id (em_events (world p))) /\
    dget (r_metadata row2) "scaling_partition_events_emitted" = Some (VBool true) /\
    dget (r_metadata row2) "partition_results" = dget (r_metadata row) "partition_results".
Proof.
  intros step. set (ok := fun _ : dict => true) in *.
  assert (forall c e, (fun c e r e' => emission_exec auto ok c e = (r, e')) c e (emission_exec auto ok c e).1 (emission_exec auto ok c e).2)
    as Hexec by (intros; by destruct (emission_exec auto ok c e)).
  destruct (emit_round_fetch ok w [] row s Hrow Hid Hstate) as (m & Hmid & Hmmd & Hf).
  set (md := with_chain_defaults (VDict (ms_metadata m)) (ms_language m)).
  destruct (emit_rest_cons m md p0 ps (emitted_ids (r_metadata row))) as (sp & pm & k & Hk & Hkf); [by apply str_in_false|].
  set (ev := (id, partition_event m sp pm p0)).
  destruct (emit_rest_run (fun _ => true) ok m md ps (emitted_ids (r_metadata row) ++ [wp_partition_id p0]) (mkEmitter w1 [ev])
    row1 s1 Hmid Hrow1 Hid1 Hstate1) as (new & fin & events & row2 & w2 & tr2 & Hrun & Hsent & _ & _ & Hfin & Hall & Hr2 & _ & _ & Hget).
  rewrite Hall in Hget, Hfin by done. clear Hall. specialize (Hfin eq_refl).
  eexists (mkPool [tret tt; tret tt] (mkEmitter w2 ([ev] ++ events)) _), row2. split_and!; [|done|done|..].
  - eapply rtc_l; [apply (pool_do _ _ _ _ 0 (Act (Fetch id))); [reflexivity|exact Hf]|]. cbn [list_insert].
    rewrite (emit_round_rest d Hdecided Hscaled) by (by rewrite Hmmd). rewrite Hmmd. fold md in Hk. rewrite Hps. unfold md in Hk.
    rewrite Hmmd in Hk. rewrite Hk, Hmid.
    eapply rtc_l; [apply (pool_do _ _ _ _ 0 (Publish id (partition_event m sp pm p0))); reflexivity|]. cbn [list_insert].
    rewrite Hkf. etrans.
    + apply (run_solo _ (emission_exec auto ok) _ _ _ 1 (as_emission (serve now rq)) (inr tt) (mkEmitter w1 [ev])); [done|reflexivity|].
      rewrite run_as_emission. cbn [em_world em_events app]. rewrite Hreport. reflexivity.
    + refine (run_solo _ (emission_exec auto ok) [emit_rest (fun _ => true) m md ps (emitted_ids (r_metadata row) ++ [wp_partition_id p0]);
        tret tt] (mkEmitter w1 [ev]) _ 0 _ (inr tt) _ tr2 Hexec eq_refl Hrun).
  - intros x Hx. cbn [world em_events]. rewrite sent_app, Hsent. rewrite Hps in Hx.
    assert (sent id [ev] = [wp_partition_id p0]) as ->.
    { unfold sent, ev. cbn [omap list_omap fst]. by rewrite String.eqb_refl. }
    rewrite app_assoc. apply elem_of_cons in Hx as [->|Hx]; [set_solver|by apply Hfin].
  - rewrite Hget by done. unfold emission_metadata. by dict_simpl.
  - rewrite Hget by done. unfold emission_metadata. rewrite !dget_dset_ne by done. unfold md.
    by rewrite driver_reads, Hmmd.
Qed.
End rounds.

(** ** A concrete scaled mission *)

Definition demo_bundle : text :=
  chars "## FILE a.py" ++ [nl] ++ chars "a = 1" ++ [nl; nl] ++ chars "## FILE b.py" ++ [nl] ++ chars "b = 2" ++ [nl] ++
  chars "## FILE c.py" ++ [nl] ++ chars "c = 3".

Lemma partitions_cover_bundle_witness :
  let ps := sd_partitions (compute_scaling_decision (fun _ => "u") "t" "AGENT-14-PYTHON" ["a.py"; "b.py"; "c.py"] 2 1) in
  let files p := canonical <$> _bundle_source_segments (partition_source (unchars demo_bundle) p) in
  (forall s, s ∈ _bundle_source_segments demo_bundle -> exists p, p ∈ ps /\ canonical s ∈ files p /\
     forall q, q ∈ ps -> s.1 ∈ (files q).*1 -> q = p) /\
  (files <$> ps) = [[(chars "a.py", chars "a = 1"); (chars "c.py", chars "c = 3")]; [(chars "b.py", chars "b = 2")]].
Proof.
  intros ps files. split; [|vm_compute; reflexivity].
  refine (proj1 (partitions_cover_bundle (fun _ => "u") "t" "AGENT-14-PYTHON" 2 1 [("source_code", VStr (unchars demo_bundle))] []
    demo_bundle ["a.py"; "b.py"; "c.py"] _ _ _ _)); [reflexivity| | |].
  - vm_compute. discriminate.
  - vm_compute _bundle_source_segments. by repeat constructor.
  - vm_compute. reflexivity.
Defined.

Definition demo_emitter : Emitter := mkEmitter demo_scaled [].

(** The second event cannot be written at first. *)
Definition flaky : dict -> bool := fun payload => negb (String.eqb (_partition_id payload) "p1-u").

Definition all_well : (string -> bool) * (dict -> bool) := (fun _ => true, fun _ => true).

Example demo_emission :
  sent "m1" (em_events (rounds true "t" "m1" [(fun _ => true, flaky)] demo_emitter)) = ["p0-u"] /\
  sent "m1" (em_events (rounds true "t" "m1" [(fun _ => true, flaky); all_well; all_well] demo_emitter)) = ["p0-u"; "p1-u"].
Proof. vm_compute. by split. Qed.


Lemma emission_loses_results_witness :
  let step := pool_step (fun c e r e' => emission_exec true (fun _ => true) c e = (r, e')) in
  exists p row2, rtc step (mkPool [emit_round "t" true (fun _ => true) "m1";
      as_emission (serve "t" (PartitionReport "m1" (demo_report "p0-u")))] (mkEmitter demo_scaled []) []) p /\
    threads p = [tret tt; tret tt] /\ db_missions (w_db (em_world (world p))) !! "m1" = Some row2 /\
    (forall x, x ∈ wp_partition_id <$> sd_partitions demo_decision ->
       x ∈ emitted_ids (r_metadata demo_scaled_row) ++ sent "m1" (em_events (world p))) /\
    dget (r_metadata row2) "scaling_partition_events_emitted" = Some (VBool true) /\
    dget (r_metadata row2) "partition_results" = None.
Proof.
  destruct (run (act_exec true) (serve "t" (PartitionReport "m1" (demo_report "p0-u"))) demo_scaled) as [[out w1] tr] eqn:Hrun.
  destruct (db_missions (w_db w1) !! "m1") as [row1|] eqn:Hrow1.
  2: { exfalso. revert Hrun Hrow1. vm_compute. by intros [= _ <- _]. }
  assert (out = inr tt /\ r_mission_id row1 = "m1" /\ r_state row1 = state_value running) as (-> & Hid1 & Hs1).
  { revert Hrun Hrow1. vm_compute. intros [= <- <- _]. by intros [= <-]. }
  apply (emission_loses_results true "t" "m1" demo_decision
    (mkPartition "p0-u" 0 2 [VStr "a"; VStr "c"]) [mkPartition "p1-u" 1 2 [VStr "b"]]
    (PartitionReport "m1" (demo_report "p0-u")) demo_scaled w1 demo_scaled_row row1 running running tr);
    try (vm_compute; reflexivity || discriminate); try done.
  vm_compute. intros []%not_elem_of_nil.
Defined.
