(* ===== verification/Pods.v ===== *)
(** * Pods

    Which pod works on a mission.  The assignment table and its two kinds of writes
    ([O/storage_pods.py]: the pod worker's claim and the orchestrator's provisional row), the
    endpoints on it ([O/routes/internal.py]), and the pod worker ([pod_worker/main.py]): the
    tests that decide whether a worker takes an event up, its three handlers as
    coroutines, and its consumer loop.  Extraction, the agent pipeline and the Refined IR
    are commands of the handlers whose answers are arbitrary; audit events, the Refined-IR
    hand-off and the fetching of documents, whose failures the code swallows, are left out. *)

From S2P Require Import Prelude PyVal Agents MissionFlow Tasks Streams Consumers Bundles Partitions.

(** ** The assignment table *)

Record Assignment := mkAssignment {
  pa_pod_name : string;
  pa_metadata : dict;
  pa_assigned_at : string;
}.

Abbreviation assignments := (gmap string Assignment).

Definition PROVISIONAL_ASSIGNED_BY := "orchestrator".

(** [metadata_json->>'assigned_by' = 'orchestrator'] *)
Definition row_provisional (row : Assignment) : bool :=
  match dget (pa_metadata row) "assigned_by" with
  | Some (VStr by_whom) => String.eqb by_whom PROVISIONAL_ASSIGNED_BY
  | _ => false
  end.

(** A write answers the row it wrote, or the row it conflicts with. *)
Inductive upsert_outcome :=
| Written (row : Assignment)
| PodAssignmentConflict (existing : Assignment).

Definition upsert_pod_assignment (provisional : bool) (mission_id pod_name : string) (metadata : dict)
    (assigned_at : string) (t : assignments) : upsert_outcome * assignments :=
  let row := mkAssignment pod_name metadata assigned_at in
  match t !! mission_id with
  | None => (Written row, <[mission_id := row]> t)
  | Some old =>
      if (if provisional then row_provisional old
          else String.eqb (pa_pod_name old) pod_name || row_provisional old)
      then (Written row, <[mission_id := row]> t)
      else (PodAssignmentConflict old, t)
  end.

Definition assignment_dict (mission_id : string) (row : Assignment) : dict :=
  [("mission_id", VStr mission_id); ("pod_name", VStr (pa_pod_name row)); ("metadata", VDict (pa_metadata row));
   ("assigned_at", VStr (pa_assigned_at row))].

(** [is_provisional_assignment] of the orchestrator and of the worker. *)
Definition is_provisional_assignment (record : val) : bool :=
  match record with
  | VDict d =>
      let metadata := match dget0 d "metadata" with VDict m => m | _ => d end in
      String.eqb (str_lower (str_strip (py_str (py_or (dget0 metadata "assigned_by") (VStr ""))))) PROVISIONAL_ASSIGNED_BY
  | _ => false
  end.

(** [POST /internal/pod-assignment] and [GET /internal/missions/id/pod-assignment], on the
    missions that exist: status and body. *)
Definition post_assignment (exists_mission : string -> bool) (now mission_id pod_name : string) (metadata : dict)
    (t : assignments) : (Z * val) * assignments :=
  if negb (exists_mission mission_id) then ((404, VNone), t)
  else match upsert_pod_assignment false mission_id pod_name metadata now t with
       | (Written row, t') => ((200, VDict (assignment_dict mission_id row)), t')
       | (PodAssignmentConflict _, t') => ((409, VNone), t')
       end.

Definition get_assignment (exists_mission : string -> bool) (mission_id : string) (t : assignments) : Z * val :=
  if negb (exists_mission mission_id) then (404, VNone)
  else match t !! mission_id with
       | Some row => (200, VDict (assignment_dict mission_id row))
       | None => (404, VNone)
       end.

(** ** Commands of the workers *)

Inductive pod_cmd :=
| GetAssignment (mission_id : string)
| GetMission (mission_id : string)
| PostAssignment (mission_id pod_name : string) (metadata : dict)
| ProvisionalAssignment (mission_id pod_name : string) (metadata : dict)
| PostHeartbeat (agent_id mission_id state : string)
| ExtractNodes (mission_id : string) (source : text)
| RunAgent (mission_id agent_id : string)
| PostLogicnode (mission_id node_id : string)
| PostKnowledge (mission_id knowledge_id : string)
| PostPartitionResult (mission_id partition_id : string) (instance_index : Z)
| PublishEvent (topic mission_id event_type : string).

Inductive pod_answer :=
| Response (status : Z) (body : val)
| Nodes (logicnodes : list val)
| Failed (e : exn).

Abbreviation pod_task := (task pod_cmd pod_answer exn).

(** The response of a request, or the exception it ends in. *)
Definition request (c : pod_cmd) : pod_task (Z * val) :=
  await c (fun r => match r with Response status body => inr (status, body) | Nodes _ => inr (200, VNone) | Failed e => inl e end).

Definition compute (c : pod_cmd) : pod_task (list val) :=
  await c (fun r => match r with Nodes l => inr l | Response _ _ => inr [] | Failed e => inl e end).

Definition pod_result {A} (r : result A) : pod_task A := match r with Ok a => tret a | Raise e => traise e end.

(** ** Which events a worker takes up *)

Record PodConfig := mkPodConfig {
  POD_NAME : string;
  SUPPORTED_LANGUAGES : list string;
  AGENT_BINDINGS : list string;
  WORKER_AGENT_ID : string;
}.

Definition AGENT_ID_KEYS : list string := ["agent_id"; "target_agent_id"; "selected_agent_id"; "assigned_agent_id"].

(** The first of some keys that normalises to an agent id. *)
Fixpoint first_agent (d : dict) (keys : list string) : option string :=
  match keys with
  | [] => None
  | k :: keys' => match normalize_agent_id (dget0 d k) with Some a => Some a | None => first_agent d keys' end
  end.

Definition or_else {A} (a b : option A) : option A := match a with Some _ => a | None => b end.

Definition _agent_id_from_metadata (metadata : val) : option string :=
  match metadata with
  | VDict d =>
      or_else (first_agent d AGENT_ID_KEYS)
        (match dget0 d "agent" with VDict nested_agent => first_agent nested_agent ["agent_id"; "id"] | _ => None end)
  | _ => None
  end.

Definition _agent_id_from_payload (payload : dict) : option string :=
  or_else (first_agent payload AGENT_ID_KEYS) (_agent_id_from_metadata (dget0 payload "metadata")).

Definition DEFAULT_POD_MANAGER_AGENT_IDS : list (string * string) :=
  [("poda", "AGENT-12-PODA-MGR"); ("podb", "AGENT-18-PODB-MGR"); ("podc", "AGENT-24-PODC-MGR"); ("podd", "AGENT-30-PODD-MGR")].

(** The id of [agent_base.make_specialist_for_language], which is given a normal form. *)
Definition specialist_for_language (language : string) : option string :=
  let normalized := str_or (registry_normalize_language (Some language)) (str_lower (str_strip language)) in
  ag_agent_id <$> List.find (fun a => String.eqb (ag_category a) "specialist" &&
    (str_in normalized (ag_specialties a) || str_in language (ag_specialties a))) AGENT_REGISTRY.

Section worker.
Context (cfg : PodConfig).

Definition _effective_worker_agent_id (agent_id : option string) : option string :=
  or_else (agent_id ≫= fun a => normalize_agent_id (VStr a))
    (if String.eqb (WORKER_AGENT_ID cfg) "" then match AGENT_BINDINGS cfg with [a] => Some a | _ => None end
     else Some (WORKER_AGENT_ID cfg)).

Definition pod_manager_default : option string := dget DEFAULT_POD_MANAGER_AGENT_IDS (str_lower (str_strip (POD_NAME cfg))).

Definition _default_agent_id_for_event (event_type target_language : string) : option string :=
  or_else (_effective_worker_agent_id None)
    (if String.eqb (str_upper (str_strip event_type)) "MISSION_POD_MANAGER_ASSIGNED" then pod_manager_default
     else or_else (specialist_for_language (registry_normalize_language (Some target_language))) pod_manager_default).

Definition _mission_targets_supported_language (target_language : string) : bool :=
  if negb (String.eqb target_language "") && negb (str_in target_language (SUPPORTED_LANGUAGES cfg)) then false
  else negb (String.eqb target_language "" && negb (String.eqb (POD_NAME cfg) "podA")).

(** [str(target).lower() if isinstance(target, str) else ""] *)
Definition target_language_of (payload : dict) : string :=
  match dget0 payload "requested_target_language" with VStr s => str_lower s | _ => "" end.

Definition _fetch_mission_snapshot (mission_id : string) : pod_task (option dict) :=
  tbind (request (GetMission mission_id)) (fun '(status, body) =>
    tret (if 400 <=? status then None else as_dict body)).

Definition _fetch_mission_agent_id (mission_id : string) : pod_task (option string) :=
  tbind (_fetch_mission_snapshot mission_id) (fun mission =>
    tret (match mission with
          | Some d => or_else (first_agent d AGENT_ID_KEYS) (_agent_id_from_metadata (dget0 d "metadata"))
          | None => None
          end)).

Definition _mission_matches_agent_binding (mission_id : string) (payload : dict) : pod_task bool :=
  match AGENT_BINDINGS cfg with
  | [] => tret true
  | bindings =>
      tbind (match _agent_id_from_payload payload with
             | Some a => tret (Some a)
             | None => _fetch_mission_agent_id mission_id
             end) (fun mission_agent_id =>
        tret (match mission_agent_id with Some a => str_in a bindings | None => false end))
  end.

(** [assignment.get("pod_name")] on what is not an object raises. *)
Definition _has_assignment (mission_id : string) : pod_task bool :=
  tbind (request (GetAssignment mission_id)) (fun '(status, body) =>
    if 400 <=? status then tret false
    else if is_provisional_assignment body then tret false
    else match body with VDict d => tret (truthy (dget0 d "pod_name")) | _ => traise AttributeError end).

(** The snapshot's metadata, and the agent that is to work. *)
Definition resolve_agent (mission_id event_type target_language : string) (payload : dict)
    : pod_task (val * string) :=
  tbind (_fetch_mission_snapshot mission_id) (fun mission_snapshot =>
    let metadata := match mission_snapshot with Some d => dget0 d "metadata" | None => VDict [] end in
    match or_else (_agent_id_from_payload payload) (_agent_id_from_metadata metadata) with
    | Some a => tret (metadata, a)
    | None =>
        tbind (_fetch_mission_agent_id mission_id) (fun fetched =>
          tret (metadata, default "UNBOUND" (or_else fetched (_default_agent_id_for_event event_type target_language))))
    end).

Definition _post_agent_heartbeat (agent_id mission_id state : string) : pod_task bool :=
  match _effective_worker_agent_id (Some agent_id) with
  | None => tret false
  | Some a => tbind (request (PostHeartbeat a mission_id state)) (fun '(status, _) => tret (status <? 400))
  end.

Definition claim_details (agent_id reason : string) : dict :=
  [("assigned_by", VStr "pod-worker"); ("pod_name", VStr (POD_NAME cfg)); ("agent_id", VStr agent_id);
   ("supported_languages", VList (VStr <$> SUPPORTED_LANGUAGES cfg)); ("reason", VStr reason)].

(** ** The handlers *)

Definition _handle_pod_manager_assignment (payload : dict) : pod_task unit :=
  let mission_id := py_str (dget_or payload "mission_id" (VStr "")) in
  let target_language := target_language_of payload in
  if String.eqb mission_id "" then tret tt
  else if negb (_mission_targets_supported_language target_language) then tret tt
  else
    tbind (_mission_matches_agent_binding mission_id payload) (fun matches =>
    if negb matches then tret tt
    else
    tbind (resolve_agent mission_id "MISSION_POD_MANAGER_ASSIGNED" target_language payload) (fun '(_, agent) =>
    if String.eqb agent "UNBOUND" then tret tt
    else
    tbind (_post_agent_heartbeat agent mission_id "RUNNING") (fun _ =>
    tbind (_has_assignment mission_id) (fun assigned =>
    if assigned then tret tt
    else
    tbind (request (PostAssignment mission_id (POD_NAME cfg) (claim_details agent "pod-manager-routing"))) (fun '(status, _) =>
    if 400 <=? status then tret tt
    else
    tbind (compute (RunAgent mission_id agent)) (fun _ =>
    tbind (request (PostKnowledge mission_id (POD_NAME cfg +:+ ".pod-manager." +:+ mission_id))) (fun _ =>
    tbind (request (PublishEvent ("cluster.assigned." +:+ POD_NAME cfg) mission_id "MISSION_POD_ASSIGNED")) (fun _ =>
    tbind (_post_agent_heartbeat agent mission_id "ACTIVE") (fun _ => tret tt))))))))).

(** [payload.get(k) or metadata.get(k) or ""] for the source text. *)
Definition event_source (payload : dict) (metadata : val) : val :=
  py_or (dget0 payload "source_code") (py_or (dget0 (dict_value metadata) "source_code") (VStr "")).

(** [.strip()] on what is not text raises. *)
Definition text_of (v : val) : pod_task text := match v with VStr s => tret (chars s) | _ => traise AttributeError end.

(** The nodes extracted, or the routing stub when there are none. *)
Definition extract (mission_id agent : string) (source : text) : pod_task (list val) :=
  let stub := [VDict [("node_id", VStr (POD_NAME cfg +:+ ".core." +:+ mission_id)); ("agent_id", VStr agent)]] in
  match source with
  | [] => tret stub
  | _ => tbind (compute (ExtractNodes mission_id source)) (fun nodes => tret (match nodes with [] => stub | _ => nodes end))
  end.

Fixpoint post_nodes (mission_id fallback : string) (nodes : list val) : pod_task unit :=
  match nodes with
  | [] => tret tt
  | node :: rest =>
      let node_id := str_or (str_strip (py_str (dget_or (dict_value node) "node_id" (VStr "")))) fallback in
      tbind (request (PostLogicnode mission_id node_id)) (fun _ => post_nodes mission_id fallback rest)
  end.

(** A mission that was scaled out is left to the workers of its partitions. *)
Definition scaled_out (metadata : val) : result bool :=
  match metadata with
  | VDict m =>
      match dget0 m "scaling_active", dget0 m "scaling_decision" with
      | VBool true, VDict decision =>
          count ← py_int (dget_or decision "instance_count" (VInt 1));
          Ok (1 <? count)
      | _, _ => Ok false
      end
  | _ => Ok false
  end.

Definition _handle_running_mission (payload : dict) : pod_task unit :=
  let mission_id := py_str (dget_or payload "mission_id" (VStr "")) in
  let target_language := target_language_of payload in
  if String.eqb mission_id "" then tret tt
  else if negb (_mission_targets_supported_language target_language) then tret tt
  else
    tbind (_mission_matches_agent_binding mission_id payload) (fun matches =>
    if negb matches then tret tt
    else
    tbind (_has_assignment mission_id) (fun has_assignment =>
    tbind (resolve_agent mission_id "MISSION_RUNNING" target_language payload) (fun '(metadata, agent) =>
    tbind (pod_result (scaled_out metadata)) (fun scaled =>
    if scaled then tret tt
    else
    tbind (_post_agent_heartbeat agent mission_id "RUNNING") (fun _ =>
    tbind (if has_assignment then tret true
           else tbind (request (PostAssignment mission_id (POD_NAME cfg) (claim_details agent "language-match")))
                  (fun '(status, _) => tret (negb ((400 <=? status) && negb (status =? 409))))) (fun go_on =>
    if negb go_on then tret tt
    else
    tbind (extract mission_id agent (chars (py_str (event_source payload metadata)))) (fun extracted =>
    tbind (compute (RunAgent mission_id agent)) (fun produced =>
    tbind (post_nodes mission_id (POD_NAME cfg +:+ ".core." +:+ mission_id) (match produced with [] => extracted | _ => produced end)) (fun _ =>
    tbind (request (PostKnowledge mission_id (POD_NAME cfg +:+ ".assignment." +:+ mission_id))) (fun _ =>
    tbind (request (PublishEvent ("cluster.assigned." +:+ POD_NAME cfg) mission_id "MISSION_POD_ASSIGNED")) (fun _ =>
    tbind (request (PublishEvent "pod.standard.ready" mission_id "POD_READY")) (fun _ =>
    tbind (_post_agent_heartbeat agent mission_id "ACTIVE") (fun _ => tret tt))))))))))))).

Definition _handle_partition_ready (payload : dict) : pod_task unit :=
  let mission_id := py_str (dget_or payload "mission_id" (VStr "")) in
  let partition_id := _partition_id payload in
  let target_language := target_language_of payload in
  if String.eqb mission_id "" || String.eqb partition_id "" then tret tt
  else if negb (_mission_targets_supported_language target_language) then tret tt
  else
    tbind (_mission_matches_agent_binding mission_id payload) (fun matches =>
    if negb matches then tret tt
    else
    tbind (resolve_agent mission_id "MISSION_RUNNING" target_language payload) (fun '(metadata, agent) =>
    if String.eqb agent "UNBOUND" then tret tt
    else
    tbind (_post_agent_heartbeat agent mission_id "RUNNING") (fun _ =>
    tbind (text_of (event_source payload metadata)) (fun source =>
    tbind (extract mission_id agent (_subset_source_bundle source (chars <$> _partition_items payload))) (fun extracted =>
    tbind (compute (RunAgent mission_id agent)) (fun produced =>
    let final := _apply_partition_suffix (POD_NAME cfg) (match produced with [] => extracted | _ => produced end) partition_id in
    tbind (post_nodes mission_id (POD_NAME cfg +:+ ".core." +:+ mission_id +:+ "." +:+ partition_id) final) (fun _ =>
    tbind (request (PostKnowledge mission_id (POD_NAME cfg +:+ ".partition." +:+ partition_id +:+ "." +:+ mission_id))) (fun _ =>
    tbind (pod_result (py_int (dget_or (_partition_payload payload) "instance_index" (VInt 0)))) (fun instance_index =>
    tbind (request (PostPartitionResult mission_id partition_id instance_index)) (fun _ =>
    tbind (request (PublishEvent "pod.standard.ready" mission_id "MISSION_PARTITION_COMPLETE")) (fun _ =>
    tbind (_post_agent_heartbeat agent mission_id "ACTIVE") (fun _ => tret tt)))))))))))).

(** The dispatch of the consumer loop. *)
Definition handle_event (payload : dict) : pod_task unit :=
  let event_type := py_str (dget_or payload "event_type" (VStr "")) in
  if String.eqb event_type "MISSION_POD_MANAGER_ASSIGNED" then _handle_pod_manager_assignment payload
  else if String.eqb event_type "MISSION_RUNNING" then _handle_running_mission payload
  else if String.eqb event_type "MISSION_PARTITION_READY" then _handle_partition_ready payload
  else tret tt.
End worker.

(** ** The orchestrator's provisional row *)

(** [mission_flow_v2.base._pod_key_for_manager] *)
Definition _pod_key_for_manager (agent_id : string) : string :=
  let normalized := str_upper (str_strip agent_id) in
  let pod_name := match List.find (fun a => String.eqb (ag_agent_id a) normalized) AGENT_REGISTRY with
                  | Some a => str_strip (ag_pod a)
                  | None => ""
                  end in
  match dget [("Pod A", "podA"); ("Pod B", "podB"); ("Pod C", "podC"); ("Pod D", "podD")] pod_name with
  | Some key => key
  | None => str_or (unchars (List.filter (fun c => negb (Ascii.eqb c " ")) (chars pod_name))) "pod"
  end.

(** [mission_flow_v2.phases_build._persist_pod_assignment_record]: the row, and nothing on failure. *)
Definition _persist_pod_assignment_record (mission_id pod_manager_agent_id specialist_agent_id language : string)
    : pod_task (option val) :=
  let pod_name := _pod_key_for_manager pod_manager_agent_id in
  let details := [("assigned_by", VStr "orchestrator"); ("pod_name", VStr pod_name); ("agent_id", VStr pod_manager_agent_id);
                  ("specialist_agent_id", VStr specialist_agent_id); ("requested_target_language", VStr language);
                  ("reason", VStr "delegation-routing")] in
  tcatch (tbind (request (ProvisionalAssignment mission_id pod_name details)) (fun '(status, body) =>
            tret (if 400 <=? status then None else Some body)))
    (fun _ => tret None).

(** ** The consumer loop

    [handle] is the worker's handler run against the outside, [W] what it acts on. *)

Section consumer.
Context (json_loads : string -> result val) (topics : list string) (schema_valid : val -> bool)
        (iso_timestamp : string -> bool) (exn_text : exn -> string).
Context {G : Type} `{Groups G} {W : Type} (handle : dict -> St W unit).

Definition POD_STREAM := "missions.state".

(** The group, the dead letters with the id of their entry, what the handlers act on,
    and the entries handled to their end. *)
Record PodConsumer := mkPodConsumer {
  pc_group : G;
  pc_dlq : list (string * fields);
  pc_world : W;
  pc_handled : list string;
}.

Definition process_state_event (fs : fields) : St W unit := fun w =>
  match raw_field fs "envelope", raw_field fs "payload" with
  | Some envelope_raw, Some payload_raw =>
      match (envelope ← json_loads envelope_raw; _ ← validate_envelope topics schema_valid iso_timestamp envelope;
             json_loads payload_raw) with
      | Ok (VDict payload) => handle payload w
      | Ok _ => (Raise AttributeError, w)
      | Raise e => (Raise e, w)
      end
  | _, _ => (Raise ProtocolValidationError, w)
  end.

(** [finally]: acknowledge, when the entry was handled or dead-lettered; an
    acknowledgement that fails leaves the loop. *)
Definition pod_ack (ack_ok : bool) (entry_id : string) : St PodConsumer unit := fun s =>
  if ack_ok then (Ok tt, mkPodConsumer (ack POD_STREAM entry_id (pc_group s)) (pc_dlq s) (pc_world s) (pc_handled s))
  else (Raise OSError, s).

(** [io]: whether the dead letter can be written, and whether the acknowledgement can. *)
Definition pod_entry (now : string) (io : bool * bool) (e : entry) : St PodConsumer unit := fun s =>
  match process_state_event e.2 (pc_world s) with
  | (Ok _, w) => pod_ack io.2 e.1 (mkPodConsumer (pc_group s) (pc_dlq s) w (pc_handled s ++ [e.1]))
  | (Raise exc, w) =>
      if io.1
      then pod_ack io.2 e.1
             (mkPodConsumer (pc_group s)
                (pc_dlq s ++ [(e.1, [("error", exn_text exc); ("entry_id", e.1); ("envelope", default "" (dget e.2 "envelope"));
                                      ("payload", default "" (dget e.2 "payload")); ("ts", now)])])
                w (pc_handled s))
      else (Ok tt, mkPodConsumer (pc_group s) (pc_dlq s) w (pc_handled s))
  end.

Fixpoint pod_entries (now : string) (io : entry -> bool * bool) (es : list entry) : St PodConsumer unit :=
  match es with
  | [] => mret tt
  | e :: rest => _ ← pod_entry now (io e) e; pod_entries now io rest
  end.

(** A pass; [None] for a read that fails with anything but a missing group. *)
Definition pod_pass (now : string) (r : option (entry -> bool * bool)) (st : bool * PodConsumer) : bool * PodConsumer :=
  let '(running, s) := st in
  if negb running then st
  else match r with
       | None => (false, s)
       | Some io =>
           let '(records, g) := read_new [POD_STREAM] 20 (pc_group s) in
           match pod_entries now io (concat records.*2) (mkPodConsumer g (pc_dlq s) (pc_world s) (pc_handled s)) with
           | (Ok _, s') => (true, s')
           | (Raise _, s') => (false, s')
           end
       end.

Definition pod_loop (now : string) (rs : list (option (entry -> bool * bool))) (st : bool * PodConsumer) : bool * PodConsumer :=
  foldl (fun st r => pod_pass now r st) st rs.
End consumer.

(** ** Lemmas on the table *)

(** A pod worker holds the mission. *)
Definition claimed (pod mission_id : string) (t : assignments) : Prop :=
  exists row, t !! mission_id = Some row /\ pa_pod_name row = pod /\ row_provisional row = false.

Definition claims_kept (t t' : assignments) : Prop := forall pod id, claimed pod id t -> claimed pod id t'.

#[export] Instance claims_preorder : PreOrder claims_kept.
Proof. split; [by intros t pod id|]. intros t1 t2 t3 H1 H2 pod id H. by apply H2, H1. Qed.

Lemma claimed_unique pod pod' id t : claimed pod id t -> claimed pod' id t -> pod = pod'.
Proof. intros (r & Hr & <- & _) (r' & Hr' & <- & _). congruence. Qed.

Lemma metadata_provisional pod md at_ : row_provisional (mkAssignment pod md at_) = false <->
  dget md "assigned_by" <> Some (VStr PROVISIONAL_ASSIGNED_BY).
Proof.
  unfold row_provisional. cbn [pa_metadata]. destruct (dget md "assigned_by") as [[]|]; try (split; [by intros _ [=]|done]).
  destruct (String.eqb_spec s PROVISIONAL_ASSIGNED_BY) as [->|Hne]; [split; [done|by intros []]|].
  split; [by intros _ [= ?]|done].
Qed.

Lemma upsert_later provisional id pod md at_ t :
  (provisional = false -> dget md "assigned_by" <> Some (VStr PROVISIONAL_ASSIGNED_BY)) ->
  claims_kept t (upsert_pod_assignment provisional id pod md at_ t).2.
Proof.
  intros Hmd pod' id' (row & Hrow & Hpod & Hp). unfold upsert_pod_assignment.
  destruct (t !! id) as [old|] eqn:Eold.
  - destruct (if provisional then _ else _) eqn:Ec; [|by exists row].
    destruct (decide (id = id')) as [<-|Hne]; [|exists row; cbn; by rewrite lookup_insert_ne].
    rewrite Hrow in Eold. injection Eold as <-. destruct provisional; [congruence|]. rewrite Hp, orb_false_r in Ec.
    apply String.eqb_eq in Ec. eexists. cbn. rewrite lookup_insert_eq. split_and!; [done|cbn; congruence|].
    apply metadata_provisional. by apply Hmd.
  - destruct (decide (id = id')) as [<-|Hne]; [congruence|]. exists row. cbn. by rewrite lookup_insert_ne.
Qed.

Lemma upsert_claims id pod md at_ t row t' :
  dget md "assigned_by" <> Some (VStr PROVISIONAL_ASSIGNED_BY) ->
  upsert_pod_assignment false id pod md at_ t = (Written row, t') -> claimed pod id t'.
Proof.
  intros Hmd. unfold upsert_pod_assignment. set (new := mkAssignment pod md at_).
  assert (claimed pod id (<[id := new]> t)) as Hc.
  { exists new. rewrite lookup_insert_eq. split_and!; [done..|]. by apply metadata_provisional. }
  destruct (t !! id) as [old|]; [destruct (_ || _)|]; intros Heq; simplify_eq; exact Hc.
Qed.

(** ** The workers together *)

Section pods.
Context (exists_mission : string -> bool) (now : string).

(** How a command may be answered: the table's commands by the endpoint, or by an
    error before or after the table was written; anything else in any way. *)
Inductive pod_exec : pod_cmd -> assignments -> pod_answer -> assignments -> Prop :=
| exec_claim id pod md t status body t' :
    post_assignment exists_mission now id pod md t = ((status, body), t') ->
    pod_exec (PostAssignment id pod md) t (Response status body) t'
| exec_claim_unanswered id pod md t e :
    pod_exec (PostAssignment id pod md) t (Failed e) (post_assignment exists_mission now id pod md t).2
| exec_claim_error id pod md t r :
    (forall status body, r = Response status body -> 400 <= status) -> (forall l, r <> Nodes l) ->
    pod_exec (PostAssignment id pod md) t r t
| exec_provisional id pod md t r :
    pod_exec (ProvisionalAssignment id pod md) t r (upsert_pod_assignment true id pod md now t).2
| exec_provisional_error id pod md t r : pod_exec (ProvisionalAssignment id pod md) t r t
| exec_get id t status body :
    get_assignment exists_mission id t = (status, body) -> pod_exec (GetAssignment id) t (Response status body) t
| exec_get_error id t r : (forall l, r <> Nodes l) -> (forall status body, r = Response status body -> 400 <= status) ->
    pod_exec (GetAssignment id) t r t
| exec_other c t r :
    match c with PostAssignment _ _ _ | ProvisionalAssignment _ _ _ | GetAssignment _ => False | _ => True end ->
    pod_exec c t r t.

Lemma post_assignment_later id pod md t :
  dget md "assigned_by" <> Some (VStr PROVISIONAL_ASSIGNED_BY) ->
  claims_kept t (post_assignment exists_mission now id pod md t).2.
Proof.
  intros Hmd. unfold post_assignment. destruct (negb _); [done|].
  pose proof (upsert_later false id pod md now t (fun _ => Hmd)) as Hl.
  by destruct (upsert_pod_assignment false id pod md now t) as [[row|old] t'].
Qed.

Definition claim_ok (c : pod_cmd) : Prop :=
  match c with PostAssignment _ _ md => dget md "assigned_by" <> Some (VStr PROVISIONAL_ASSIGNED_BY) | _ => True end.

Lemma exec_later c t r t' : claim_ok c -> pod_exec c t r t' -> claims_kept t t'.
Proof.
  intros Hc Hx. destruct Hx; cbn in Hc; try done.
  - pose proof (post_assignment_later id pod md t Hc) as Hl. by rewrite H in Hl.
  - by apply post_assignment_later.
  - by apply upsert_later.
Qed.

(** An accepted claim. *)
Lemma exec_accepts id pod md t status body t' :
  dget md "assigned_by" <> Some (VStr PROVISIONAL_ASSIGNED_BY) -> status < 400 ->
  pod_exec (PostAssignment id pod md) t (Response status body) t' -> claimed pod id t'.
Proof.
  intros Hmd Hst Hx. remember (PostAssignment id pod md) as c. remember (Response status body) as r.
  destruct Hx; simplify_eq; try done.
  - unfold post_assignment in H. destruct (negb _); [injection H; lia|].
    destruct (upsert_pod_assignment false id pod md now t) as [[row|old] t1] eqn:E; [|injection H; lia].
    injection H as _ _ <-. by eapply upsert_claims.
  - specialize (H status body eq_refl). lia.
Qed.

(** What is owed for a command of the [i]-th handler: a manager handler of pod
    [pod_of i] runs its agent only on missions its pod has claimed. *)
Context (pod_of : nat -> option string).

Definition owed (i : nat) (c : pod_cmd) (t : assignments) : Prop :=
  match c, pod_of i with RunAgent id _, Some pod => claimed pod id t | _, _ => True end.

Lemma owed_later i c t t' : claims_kept t t' -> owed i c t -> owed i c t'.
Proof. intros Hl. unfold owed. destruct c, (pod_of i); try done. apply Hl. Qed.

Abbreviation safe i := (ok pod_exec (fun _ => True) claims_kept (owed i) (fun _ _ => True)).

Lemma issues_request (P : pod_cmd -> Prop) c : P c -> issues P (request c).
Proof. done. Qed.

Lemma issues_compute (P : pod_cmd -> Prop) c : P c -> issues P (compute c).
Proof. done. Qed.

(** Commands that leave claims and agents alone. *)
Definition quiet_cmd (c : pod_cmd) : Prop := match c with PostAssignment _ _ _ | RunAgent _ _ => False | _ => True end.

Lemma quiet_claim_ok c : quiet_cmd c -> claim_ok c.
Proof. by destruct c. Qed.

Lemma safe_quiet_bind {A B} i (t : pod_task A) (f : A -> pod_task B) w :
  issues quiet_cmd t -> (forall a w', claims_kept w w' -> safe i (f a) w') -> safe i (tbind t f) w.
Proof.
  revert w. induction t as [[e|a]|c k IH]; intros w Ht Hf; cbn [tbind ok].
  - done.
  - by apply Hf.
  - destruct Ht as [Hc Hk]. intros w' Hl _. split.
    + unfold owed. by destruct c.
    + intros r w'' Hx. assert (claims_kept w' w'') as Hl' by (by eapply exec_later; [apply quiet_claim_ok|]). split_and!; [done..|].
      apply IH; [done|]. intros a w3 Hl3. apply Hf. by do 2 (etrans; [eassumption|]).
Qed.

(** A handler that owes nothing for its agents. *)
Lemma safe_unowed {A} i (t : pod_task A) w :
  (forall c w', claim_ok c -> owed i c w') -> issues claim_ok t -> safe i t w.
Proof.
  intros Hi. revert w. induction t as [r|c k IH]; intros w Ht; cbn [ok]; [done|]. destruct Ht as [Hc Hk].
  intros w' Hl _. split; [by apply Hi|]. intros r w'' Hx. split_and!; [done|by eapply exec_later|by apply IH].
Qed.

Lemma safe_quiet {A} i (t : pod_task A) w : issues quiet_cmd t -> safe i t w.
Proof.
  revert w. induction t as [r|c k IH]; intros w Ht; cbn [ok]; [done|]. destruct Ht as [Hc Hk].
  intros w' Hl _. split; [unfold owed; by destruct c|]. intros r w'' Hx. split_and!; [done|by eapply exec_later; [apply quiet_claim_ok|]|by apply IH].
Qed.
End pods.

(** Walk through a handler's text. *)
Ltac walk :=
  repeat first
    [ done
    | apply issues_request; cbn; first [done | by intros [=]]
    | apply issues_compute; cbn; done
    | apply issues_bind; [|intros ?]
    | match goal with
      | |- context [let '(_, _) := ?x in _] => destruct x
      | |- issues _ (if ?b then _ else _) => destruct b
      | |- issues _ (match ?x with _ => _ end) => destruct x
      end ].

Section walks.
Context (P : pod_cmd -> Prop) (HP : forall c, quiet_cmd c -> P c).

Lemma walk_snapshot id : issues P (_fetch_mission_snapshot id).
Proof. unfold _fetch_mission_snapshot. walk. apply issues_request. by apply HP. Qed.

Lemma walk_mission_agent id : issues P (_fetch_mission_agent_id id).
Proof. unfold _fetch_mission_agent_id. apply issues_bind; [apply walk_snapshot|done]. Qed.

Lemma walk_matches cfg id payload : issues P (_mission_matches_agent_binding cfg id payload).
Proof.
  unfold _mission_matches_agent_binding. destruct (AGENT_BINDINGS cfg); [done|]. apply issues_bind; [|done].
  destruct (_agent_id_from_payload payload); [done|]. apply walk_mission_agent.
Qed.

Lemma walk_resolve cfg id ev lang payload : issues P (resolve_agent cfg id ev lang payload).
Proof.
  unfold resolve_agent. apply issues_bind; [apply walk_snapshot|]. intros snap.
  destruct (or_else _ _); [done|]. apply issues_bind; [apply walk_mission_agent|done].
Qed.

Lemma walk_heartbeat cfg agent id st : issues P (_post_agent_heartbeat cfg agent id st).
Proof.
  unfold _post_agent_heartbeat. destruct (_effective_worker_agent_id _ _); [|done]. apply issues_bind; [|by intros []].
  apply issues_request. by apply HP.
Qed.

Lemma walk_has_assignment id : issues P (_has_assignment id).
Proof. unfold _has_assignment. apply issues_bind; [apply issues_request; by apply HP|]. intros [status body]. walk. Qed.

Lemma walk_extract cfg id agent source : issues P (extract cfg id agent source).
Proof. unfold extract. destruct source; [done|]. apply issues_bind; [apply issues_compute; by apply HP|by intros []]. Qed.

Lemma walk_post_nodes id fb nodes : issues P (post_nodes id fb nodes).
Proof. induction nodes as [|n nodes IH]; [done|]. cbn [post_nodes]. apply issues_bind; [apply issues_request; by apply HP|done]. Qed.
End walks.

Create HintDb walks discriminated.
#[export] Hint Resolve walk_snapshot walk_mission_agent walk_matches walk_resolve walk_heartbeat walk_has_assignment
  walk_extract walk_post_nodes quiet_claim_ok : walks.

(** ** Several pods on one mission *)

(** What runs next to each other: a pod worker on an event, or the orchestrator
    recording its routing. *)
Inductive actor :=
| Worker (cfg : PodConfig) (payload : dict)
| Orchestrator (mission_id pod_manager_agent_id specialist_agent_id language : string).

Definition actor_task (a : actor) : pod_task unit :=
  match a with
  | Worker cfg payload => handle_event cfg payload
  | Orchestrator id manager specialist language =>
      tbind (_persist_pod_assignment_record id manager specialist language) (fun _ => tret tt)
  end.

(** The pod whose manager the [i]-th actor is, if it is one. *)
Definition manager_pod (actors : list actor) (i : nat) : option string :=
  match actors !! i with
  | Some (Worker cfg payload) =>
      if String.eqb (py_str (dget_or payload "event_type" (VStr ""))) "MISSION_POD_MANAGER_ASSIGNED"
      then Some (POD_NAME cfg) else None
  | _ => None
  end.

Ltac walk_handler :=
  repeat first
    [ done
    | solve [eauto with walks]
    | apply issues_request; cbn; first [done | by intros [=]]
    | apply issues_compute; cbn; done
    | apply issues_bind; [|intros ?]
    | match goal with
      | |- issues _ (let '(_, _) := ?x in _) => destruct x
      | |- issues _ (if ?b then _ else _) => destruct b
      | |- issues _ (pod_result ?x) => destruct x
      | |- issues _ (text_of ?x) => destruct x
      | |- issues _ (match ?x with _ => _ end) => destruct x
      end ].

Lemma running_issues cfg payload : issues claim_ok (_handle_running_mission cfg payload).
Proof. unfold _handle_running_mission. walk_handler. Qed.

Lemma partition_issues cfg payload : issues claim_ok (_handle_partition_ready cfg payload).
Proof. unfold _handle_partition_ready. walk_handler. Qed.

Lemma provisional_issues id manager specialist language :
  issues claim_ok (tbind (_persist_pod_assignment_record id manager specialist language) (fun _ => tret tt)).
Proof. unfold _persist_pod_assignment_record. cbn. split; [done|]. intros [status body|l|e]; cbn; [by destruct (400 <=? status)|done..]. Qed.

Section together.
Context (exists_mission : string -> bool) (now : string) (pod_of : nat -> option string).

Abbreviation safe i := (ok (pod_exec exists_mission now) (fun _ => True) claims_kept (owed pod_of i) (fun _ _ => True)).

Lemma safe_claim_bind {B} i id pod md (f : Z * val -> pod_task B) w :
  dget md "assigned_by" <> Some (VStr PROVISIONAL_ASSIGNED_BY) ->
  (forall status body w', (status < 400 -> claimed pod id w') -> safe i (f (status, body)) w') ->
  safe i (tbind (request (PostAssignment id pod md)) f) w.
Proof.
  intros Hmd Hf. unfold request, await. cbn [tbind ok]. intros w1 _ _. split; [done|]. intros r w2 Hx.
  split_and!; [done|by eapply exec_later; [|exact Hx]|].
  destruct r as [status body|l|e]; cbn [tbind]; [| |done].
  - apply Hf. intros Hst. by eapply exec_accepts.
  - inversion Hx; subst; naive_solver.
Qed.

Lemma safe_run_bind {B} i pod id agent (f : list val -> pod_task B) w :
  pod_of i = Some pod -> claimed pod id w -> (forall l, issues quiet_cmd (f l)) ->
  safe i (tbind (compute (RunAgent id agent)) f) w.
Proof.
  intros Hi Hc Hf. unfold compute, await. cbn [tbind ok]. intros w1 Hl _. split; [unfold owed; rewrite Hi; by apply Hl|].
  intros r w2 Hx. split_and!; [done|by eapply exec_later; [|exact Hx]|].
  apply safe_quiet. by destruct r; cbn [tbind].
Qed.

Lemma manager_safe cfg payload i w :
  pod_of i = Some (POD_NAME cfg) -> safe i (_handle_pod_manager_assignment cfg payload) w.
Proof.
  intros Hi. unfold _handle_pod_manager_assignment. set (id := py_str _).
  destruct (String.eqb id ""); [by apply safe_quiet|]. destruct (negb _); [by apply safe_quiet|].
  apply safe_quiet_bind; [eauto with walks|]. intros matches_ w1 _. destruct (negb matches_); [by apply safe_quiet|].
  apply safe_quiet_bind; [eauto with walks|]. intros [md agent] w2 _. destruct (String.eqb agent "UNBOUND"); [by apply safe_quiet|].
  apply safe_quiet_bind; [eauto with walks|]. intros _ w3 _.
  apply safe_quiet_bind; [eauto with walks|]. intros [] w4 _; [by apply safe_quiet|].
  apply safe_claim_bind; [by intros [=]|]. intros status body w5 Hc.
  destruct (400 <=? status) eqn:Est; [by apply safe_quiet|]. apply Z.leb_gt in Est.
  apply (safe_run_bind i (POD_NAME cfg)); [done|by apply Hc|]. intros l. walk_handler.
Qed.

Lemma actor_safe actors i a w :
  (forall j, pod_of j = manager_pod actors j) -> actors !! i = Some a -> safe i (actor_task a) w.
Proof.
  intros Hpods Ha. destruct a as [cfg payload|id manager specialist language]; cbn [actor_task].
  - unfold handle_event. set (ev := py_str _).
    assert (pod_of i = if String.eqb ev "MISSION_POD_MANAGER_ASSIGNED" then Some (POD_NAME cfg) else None) as Hi
      by (rewrite Hpods; unfold manager_pod; by rewrite Ha).
    destruct (String.eqb ev "MISSION_POD_MANAGER_ASSIGNED"); [by apply manager_safe|].
    assert (forall c w', claim_ok c -> owed pod_of i c w') as Howed by (intros c w' _; unfold owed; rewrite Hi; by destruct c).
    destruct (String.eqb _ "MISSION_RUNNING"); [apply safe_unowed; [done|apply running_issues]|].
    destruct (String.eqb _ "MISSION_PARTITION_READY"); [apply safe_unowed; [done|apply partition_issues]|done].
  - apply safe_unowed; [|apply provisional_issues]. intros c w' _. unfold owed. rewrite Hpods. unfold manager_pod. rewrite Ha.
    by destruct c.
Qed.
End together.

(** C11: Two pods never work on one mission as its manager.  Let any number of pod workers, of any
    pods and on any events, and of orchestrator steps that record a routing run next to
    each other in any interleaving, against an assignment table that may also answer
    errors, before or after it has written.  Whenever a worker's handler of
    [MISSION_POD_MANAGER_ASSIGNED] starts its agent on a mission, its pod holds the
    mission's assignment, and no other actor takes it away: two such agents on one
    mission are of one pod. *)
Theorem pods_never_share_a_mission (exists_mission : string -> bool) (now : string) (actors : list actor) (t : assignments) p
    (Hsteps : rtc (pool_step (pod_exec exists_mission now)) (mkPool (actor_task <$> actors) t []) p) :
  (forall i pod id agent r, (i, RunAgent id agent, r) ∈ trace p -> manager_pod actors i = Some pod ->
     claimed pod id (world p)) /\
  (forall i j pod pod' id agent agent' r r',
     (i, RunAgent id agent, r) ∈ trace p -> (j, RunAgent id agent', r') ∈ trace p ->
     manager_pod actors i = Some pod -> manager_pod actors j = Some pod' -> pod = pod').
Proof.
  assert (forall i pod id agent r, (i, RunAgent id agent, r) ∈ trace p -> manager_pod actors i = Some pod ->
     claimed pod id (world p)) as Hclaims.
  { assert (pool_ok (pod_exec exists_mission now) (fun _ => True) claims_kept (owed (manager_pod actors)) (fun _ _ _ => True) p)
      as [_ _ Htr].
    { eapply pool_steps_ok; [apply _|intros i c w w'; apply owed_later|exact Hsteps|]. split; cbn; [done| |set_solver].
      intros i h Hh. apply list_lookup_fmap_Some in Hh as (a & -> & Ha). by apply (actor_safe _ _ _ actors). }
    intros i pod id agent r Hin Hpod. specialize (Htr _ _ _ Hin). unfold owed in Htr. by rewrite Hpod in Htr. }
  split; [done|]. intros i j pod pod' id agent agent' r r' Hi Hj Hpi Hpj.
  eapply claimed_unique; [exact (Hclaims _ _ _ _ _ Hi Hpi)|exact (Hclaims _ _ _ _ _ Hj Hpj)].
Qed.

(** ** One worker alone

    Every service answers: the mission service with [body], extraction and the agent
    with [nodes]. *)

Section alone.
Context (exists_mission : string -> bool) (now : string) (body : string -> val) (nodes : pod_cmd -> list val).

Definition pod_env (c : pod_cmd) (t : assignments) : pod_answer * assignments :=
  match c with
  | PostAssignment id pod md =>
      let '((status, b), t') := post_assignment exists_mission now id pod md t in (Response status b, t')
  | ProvisionalAssignment id pod md => (Response 200 VNone, (upsert_pod_assignment true id pod md now t).2)
  | GetAssignment id => let '(status, b) := get_assignment exists_mission id t in (Response status b, t)
  | GetMission id => (Response 200 (body id), t)
  | ExtractNodes _ _ | RunAgent _ _ => (Nodes (nodes c), t)
  | _ => (Response 200 VNone, t)
  end.

Lemma pod_env_exec c t : pod_exec exists_mission now c t (pod_env c t).1 (pod_env c t).2.
Proof.
  destruct c; cbn; try by constructor.
  - destruct (get_assignment exists_mission mission_id t) eqn:E. by apply exec_get.
  - destruct (post_assignment _ _ _ _ _ t) as [[] t'] eqn:E. by apply exec_claim.
Qed.

(** A handler that ends well from [t], with what it asked and the table it leaves. *)
Definition ends {A} (h : pod_task A) (t : assignments) (Q : A -> assignments -> list pod_cmd -> Prop) : Prop :=
  exists a t' tr, run pod_env h t = (inr a, t', tr) /\ Q a t' tr.*1.

Lemma ends_ret {A} (a : A) t (Q : A -> assignments -> list pod_cmd -> Prop) : Q a t [] -> ends (tret a) t Q.
Proof. intros HQ. by exists a, t, []. Qed.

Lemma ends_bind {A B} (h : pod_task A) (f : A -> pod_task B) t (Q : B -> assignments -> list pod_cmd -> Prop) :
  ends h t (fun a t' asked => ends (f a) t' (fun b t'' asked' => Q b t'' (asked ++ asked'))) ->
  ends (tbind h f) t Q.
Proof.
  intros (a & t' & tr & Hh & b & t'' & tr' & Hf & HQ). exists b, t'', (tr ++ tr').
  rewrite run_bind, Hh, Hf, fmap_app. done.
Qed.

Lemma ends_conseq {A} (h : pod_task A) t (Q Q' : A -> assignments -> list pod_cmd -> Prop) :
  (forall a t' asked, Q a t' asked -> Q' a t' asked) -> ends h t Q -> ends h t Q'.
Proof. intros HQ (a & t' & tr & Hh & HQa). exists a, t', tr. split; [done|]. by apply HQ. Qed.

Lemma ends_request c t (Q : Z * val -> assignments -> list pod_cmd -> Prop) :
  (forall status b t', pod_env c t = (Response status b, t') -> Q (status, b) t' [c]) ->
  (exists status b t', pod_env c t = (Response status b, t')) -> ends (request c) t Q.
Proof. intros HQ (status & b & t' & Hc). exists (status, b), t', [(c, Response status b)]. cbn. rewrite Hc. split; [done|]. by apply HQ. Qed.

Lemma ends_compute c t (Q : list val -> assignments -> list pod_cmd -> Prop) :
  pod_env c t = (Nodes (nodes c), t) -> Q (nodes c) t [c] -> ends (compute c) t Q.
Proof. intros Hc HQ. exists (nodes c), t, [(c, Nodes (nodes c))]. cbn. by rewrite Hc. Qed.

(** What a handler that leaves the table alone and cannot fail does to a postcondition
    that looks at the table and at what was asked. *)
Definition calm {A} (h : pod_task A) : Prop := forall t (Q : A -> assignments -> list pod_cmd -> Prop),
  (forall a asked, Q a t asked) -> ends h t Q.

Lemma calm_ret {A} (a : A) : calm (tret a).
Proof. intros t Q HQ. by apply ends_ret. Qed.

Lemma calm_bind {A B} (h : pod_task A) (f : A -> pod_task B) : calm h -> (forall a, calm (f a)) -> calm (tbind h f).
Proof. intros Hh Hf t Q HQ. apply ends_bind, Hh. intros a asked. apply Hf. intros b asked'. apply HQ. Qed.

Definition plain_cmd (c : pod_cmd) : Prop :=
  match c with
  | GetMission _ | PostHeartbeat _ _ _ | PostLogicnode _ _ | PostKnowledge _ _ | PublishEvent _ _ _ | GetAssignment _ => True
  | _ => False
  end.

Lemma calm_request c : plain_cmd c -> calm (request c).
Proof.
  intros Hc t Q HQ. apply ends_request.
  - intros status b t' Heq. destruct c; cbn in Heq, Hc; try done; try (injection Heq as <- <- <-; apply HQ).
    destruct (get_assignment exists_mission mission_id t). injection Heq as <- <- <-. apply HQ.
  - destruct c; cbn in *; try done; try by eexists _, _, _.
    destruct (get_assignment exists_mission mission_id t). by eexists _, _, _.
Qed.

Lemma calm_compute c : match c with ExtractNodes _ _ | RunAgent _ _ => True | _ => False end -> calm (compute c).
Proof. intros Hc t Q HQ. apply ends_compute; [|apply HQ]. by destruct c. Qed.

Lemma calm_snapshot id : calm (_fetch_mission_snapshot id).
Proof. apply calm_bind; [by apply calm_request|]. intros []. apply calm_ret. Qed.

Lemma calm_mission_agent id : calm (_fetch_mission_agent_id id).
Proof. apply calm_bind; [apply calm_snapshot|]. intros ?. apply calm_ret. Qed.

Lemma calm_heartbeat cfg agent id st : calm (_post_agent_heartbeat cfg agent id st).
Proof.
  unfold _post_agent_heartbeat. destruct (_effective_worker_agent_id _ _); [|apply calm_ret].
  apply calm_bind; [by apply calm_request|]. intros []. apply calm_ret.
Qed.

Lemma calm_extract cfg id agent source : calm (extract cfg id agent source).
Proof.
  unfold extract. destruct source; [apply calm_ret|]. apply calm_bind; [by apply calm_compute|]. intros []; apply calm_ret.
Qed.

Lemma calm_post_nodes id fb ns : calm (post_nodes id fb ns).
Proof. induction ns as [|n ns IH]; [apply calm_ret|]. cbn [post_nodes]. apply calm_bind; [by apply calm_request|done]. Qed.

(** The mission's metadata, as the worker reads them. *)
Definition snapshot_metadata (id : string) : val :=
  match as_dict (body id) with Some d => dget0 d "metadata" | None => VDict [] end.

Lemma ends_resolve cfg id ev lang payload t (Q : val * string -> assignments -> list pod_cmd -> Prop) :
  (forall agent asked, Q (snapshot_metadata id, agent) t asked) -> ends (resolve_agent cfg id ev lang payload) t Q.
Proof.
  intros HQ. unfold resolve_agent, _fetch_mission_snapshot. do 2 apply ends_bind. apply ends_request; [|by eexists _, _, _].
  intros status b t' [= <- <- <-]. apply ends_ret. fold (snapshot_metadata id).
  destruct (or_else _ _); [by apply ends_ret|]. apply ends_bind, calm_mission_agent. intros fetched asked. by apply ends_ret.
Qed.

(** The endpoint answers a row or 404, so the look-up never raises. *)
Lemma calm_has_assignment id : calm (_has_assignment id).
Proof.
  intros t Q HQ. unfold _has_assignment. apply ends_bind. apply ends_request.
  - intros status b t' Heq. cbn in Heq. unfold get_assignment in Heq.
    destruct (exists_mission id); [destruct (t !! id) as [row|]|]; injection Heq as <- <- <-; cbn [negb]; cbv zeta;
      repeat case_match; try (by apply ends_ret); done.
  - cbn. destruct (get_assignment exists_mission id t). by eexists _, _, _.
Qed.

(** Another pod's claim is answered 409. *)
Lemma post_conflict id pod pod' md t :
  exists_mission id = true -> claimed pod id t -> pod' <> pod ->
  post_assignment exists_mission now id pod' md t = ((409, VNone), t).
Proof.
  intros He (row & Hrow & Hpod & Hp) Hne. unfold post_assignment, upsert_pod_assignment. rewrite He, Hrow, Hp, orb_false_r. cbn.
  destruct (String.eqb_spec (pa_pod_name row) pod'); [congruence|done].
Qed.

(** What follows once the worker goes on. *)
Lemma ends_post_nodes id fb ns t (Q : unit -> assignments -> list pod_cmd -> Prop) :
  ns <> [] -> (forall asked, (exists node, PostLogicnode id node ∈ asked) -> Q tt t asked) -> ends (post_nodes id fb ns) t Q.
Proof.
  intros Hns HQ. destruct ns as [|n ns]; [done|]. cbn [post_nodes]. apply ends_bind. apply ends_request; [|by eexists _, _, _].
  intros status b t' [= <- <- <-]. apply calm_post_nodes. intros [] asked. apply HQ. eexists. apply elem_of_app. left. by constructor.
Qed.

(** The claim of a worker whose mission another pod holds. *)
Lemma ends_claim id pod cfg agent assigned t (Q : bool -> assignments -> list pod_cmd -> Prop) :
  exists_mission id = true -> claimed pod id t -> POD_NAME cfg <> pod -> (forall asked, Q true t asked) ->
  ends (if assigned : bool then tret true
        else tbind (request (PostAssignment id (POD_NAME cfg) (claim_details cfg agent "language-match")))
               (fun '(status, _) => tret (negb ((400 <=? status) && negb (status =? 409))))) t Q.
Proof.
  intros He Hc Hne HQ. destruct assigned; [by apply ends_ret|]. apply ends_bind. apply ends_request.
  - intros status b t'. cbn [pod_env]. rewrite (post_conflict _ pod) by done. intros [= <- <- <-]. by apply ends_ret.
  - cbn [pod_env]. rewrite (post_conflict _ pod) by done. by eexists _, _, _.
Qed.

Lemma ends_extract cfg id agent source t (Q : list val -> assignments -> list pod_cmd -> Prop) :
  (forall ns asked, ns <> [] -> Q ns t asked) -> ends (extract cfg id agent source) t Q.
Proof.
  intros HQ. unfold extract. destruct source as [|c s]; [apply ends_ret; by apply HQ|]. apply ends_bind. apply ends_compute; [done|].
  destruct (nodes _) eqn:En; apply ends_ret; by apply HQ.
Qed.
End alone.

(** The other route is not guarded.  Let another pod hold the mission's assignment,
    and let every service answer.  Whatever the extraction and the agent produce, a
    worker whose languages fit still handles [MISSION_RUNNING] to its end: its claim is
    refused, the table does not change, and it runs its agent on the mission all the
    same, stores nodes for it and announces that the mission's work is ready. *)
Lemma running_mission_ignores_conflict (exists_mission : string -> bool) (now : string) (body : string -> val)
    (nodes : pod_cmd -> list val) (cfg : PodConfig) (payload : dict) (id pod : string) (t : assignments)
    (Hpid : dget payload "mission_id" = Some (VStr id)) (Hid : id <> "") (Hexists : exists_mission id = true)
    (Hlang : _mission_targets_supported_language cfg (target_language_of payload) = true)
    (Hbind : AGENT_BINDINGS cfg = []) (Hscaled : scaled_out (snapshot_metadata body id) = Ok false)
    (Hclaimed : claimed pod id t) (Hother : POD_NAME cfg <> pod) :
  exists tr, run (pod_env exists_mission now body nodes) (_handle_running_mission cfg payload) t = (inr tt, t, tr) /\
    (exists agent, RunAgent id agent ∈ tr.*1) /\ (exists node, PostLogicnode id node ∈ tr.*1) /\
    PublishEvent "pod.standard.ready" id "POD_READY" ∈ tr.*1.
Proof.
  enough (ends exists_mission now body nodes (_handle_running_mission cfg payload) t (fun _ t' asked => t' = t /\
    (exists agent, RunAgent id agent ∈ asked) /\ (exists node, PostLogicnode id node ∈ asked) /\
    PublishEvent "pod.standard.ready" id "POD_READY" ∈ asked)) as ([] & t' & tr & Hrun & -> & HQ) by (by exists tr).
  assert (py_str (dget_or payload "mission_id" (VStr "")) = id) as Hm by (unfold dget_or; by rewrite Hpid).
  unfold _handle_running_mission. rewrite Hm, (proj2 (String.eqb_neq id "")), Hlang by done. cbn [negb].
  apply ends_bind. unfold _mission_matches_agent_binding. rewrite Hbind. apply ends_ret. cbn [negb].
  apply ends_bind, calm_has_assignment. intros assigned asked1.
  apply ends_bind, ends_resolve. intros agent asked2. rewrite Hscaled. cbn [pod_result].
  apply ends_bind, ends_ret. apply ends_bind, calm_heartbeat. intros _ asked3.
  apply ends_bind. apply (ends_claim _ _ _ _ _ pod); [done..|]. intros asked4. cbn [negb].
  apply ends_bind, ends_extract. intros ns asked5 Hns. apply ends_bind, ends_compute; [done|].
  apply ends_bind, ends_post_nodes; [by destruct (nodes _)|]. intros asked6 [node Hnode].
  apply ends_bind, calm_request; [done|]. intros _ asked7. apply ends_bind, calm_request; [done|]. intros _ asked8.
  apply ends_bind, ends_request; [|by eexists _, _, _]. intros _ _ t' [= _ _ <-].
  apply ends_bind, calm_heartbeat. intros _ asked9. apply ends_ret.
  split_and!; [done|exists agent|exists node|]; repeat rewrite elem_of_app; set_solver.
Qed.

(** ** Entries of the stream *)

Section entries.
Context (json_loads : string -> result val) (topics : list string) (schema_valid : val -> bool)
        (iso_timestamp : string -> bool) (exn_text : exn -> string).
Context {G : Type} `{GroupsLaws G} {W : Type} (handle : dict -> St W unit) (now : string).

Abbreviation entries_of := (pod_entries json_loads topics schema_valid iso_timestamp exn_text handle now).
Abbreviation loop := (pod_loop json_loads topics schema_valid iso_timestamp exn_text handle now).

(** Handled to its end, or dead-lettered. *)
Definition settled (s : PodConsumer (G:=G) (W:=W)) (entry_id : string) : Prop :=
  entry_id ∈ pc_handled s \/ entry_id ∈ (pc_dlq s).*1.

Definition accounted (s : PodConsumer (G:=G) (W:=W)) (e : entry) : Prop :=
  e ∈ unread (pc_group s) POD_STREAM \/ e ∈ pending (pc_group s) POD_STREAM \/ settled s e.1.

Definition keeps_entries (s s' : PodConsumer (G:=G) (W:=W)) : Prop := forall e, accounted s e -> accounted s' e.

Lemma ack_keeps ack_ok i s :
  settled s i -> let '(r, s') := pod_ack ack_ok i s in
    keeps_entries s s' /\ (forall j, settled s j -> settled s' j) /\
    (forall e, e ∈ pending (pc_group s') POD_STREAM -> e ∈ pending (pc_group s) POD_STREAM) /\
    (ack_ok = true -> r = Ok tt /\ forall e, e ∈ pending (pc_group s') POD_STREAM -> e.1 <> i).
Proof.
  intros Hi. unfold pod_ack. destruct ack_ok; [|split_and!; try done; by intros e]. split_and!; [|done|..].
  - intros e He. unfold accounted. cbn [pc_group]. destruct (ack_spec POD_STREAM i (pc_group s) POD_STREAM) as [-> ->].
    rewrite decide_True by done. destruct (decide (e.1 = i)) as [<-|Hne]; [by right; right|].
    destruct He as [He|[He|He]]; [by left| |by right; right]. right. left. apply list_elem_of_In, filter_In. split; [by apply list_elem_of_In|].
    by apply negb_true_iff, String.eqb_neq.
  - cbn [pc_group]. destruct (ack_spec POD_STREAM i (pc_group s) POD_STREAM) as [-> _]. rewrite decide_True by done.
    intros e [He _]%list_elem_of_In%filter_In. by apply list_elem_of_In.
  - intros _. split; [done|]. cbn [pc_group]. destruct (ack_spec POD_STREAM i (pc_group s) POD_STREAM) as [-> _]. rewrite decide_True by done.
    intros e [_ He%negb_true_iff%String.eqb_neq]%list_elem_of_In%filter_In. done.
Qed.

(** The state in which an entry is acknowledged: it keeps_entries everything, and the entry is settled. *)
Lemma settle_keeps (s s1 : PodConsumer (G:=G) (W:=W)) :
  pc_group s1 = pc_group s -> (forall j, settled s j -> settled s1 j) -> keeps_entries s s1.
Proof. intros Hg Hs e. unfold accounted. rewrite Hg. naive_solver. Qed.

Lemma entry_keeps io e s :
  let '(r, s') := pod_entry json_loads topics schema_valid iso_timestamp exn_text handle now io e s in
    keeps_entries s s' /\ (forall j, settled s j -> settled s' j) /\
    (forall x, x ∈ pending (pc_group s') POD_STREAM -> x ∈ pending (pc_group s) POD_STREAM) /\
    (io = (true, true) -> r = Ok tt /\ forall x, x ∈ pending (pc_group s') POD_STREAM -> x.1 <> e.1).
Proof.
  unfold pod_entry. destruct (process_state_event _ _ _ _ _ _ _) as [[u|exc] w]; [|destruct io as [[] ack_ok]; cbn [fst snd]].
  all: try match goal with |- context [pod_ack ?a ?i ?s1] =>
    assert (settled s1 i) as Hi by (unfold settled; cbn; rewrite ?fmap_app; set_solver);
    assert (forall j, settled s j -> settled s1 j) as Hj by (intros j; unfold settled; cbn; rewrite ?fmap_app; set_solver);
    pose proof (settle_keeps s s1 eq_refl Hj) as Hk; pose proof (ack_keeps a i s1 Hi) as Ha;
    destruct (pod_ack a i s1) as [r s']; destruct Ha as (H1 & H2 & H3 & H4) end.
  - split_and!; [by intros x Hx; apply H1, Hk|naive_solver|exact H3|]. intros ->. by apply H4.
  - split_and!; [by intros x Hx; apply H1, Hk|naive_solver|exact H3|]. intros [= ->]. by apply H4.
  - split_and!; [|done..|done]. by apply settle_keeps.
Qed.

Lemma entries_keep io es s :
  let '(r, s') := entries_of io es s in
    keeps_entries s s' /\ (forall x, x ∈ pending (pc_group s') POD_STREAM -> x ∈ pending (pc_group s) POD_STREAM) /\
    ((forall e, io e = (true, true)) -> r = Ok tt /\
       forall x e, x ∈ pending (pc_group s') POD_STREAM -> e ∈ es -> x.1 <> e.1).
Proof.
  revert s. induction es as [|e es IH]; intros s.
  - cbn. split_and!; [by intros e|done|]. intros _. split; [done|]. intros x e _ []%not_elem_of_nil.
  - cbn [pod_entries]. unfold mbind, St_bind. pose proof (entry_keeps (io e) e s) as He.
    destruct (pod_entry _ _ _ _ _ _ _ _ _ s) as [[[]|exc] s1]; destruct He as (H1 & _ & H2 & H3).
    + specialize (IH s1). destruct (entries_of io es s1) as [r s2]. destruct IH as (K1 & K2 & K3). split_and!.
      * intros x Hx. by apply K1, H1.
      * naive_solver.
      * intros Hio. destruct (K3 Hio) as [-> K4]. split; [done|]. intros x d Hx [->|Hd]%elem_of_cons; [|by apply K4].
        apply H3; [done|]. by apply K2.
    + split_and!; [done..|]. intros Hio. by destruct (H3 (Hio e)) as [[=] _].
Qed.

Lemma pod_entries_unread io es s :
  unread (pc_group (entries_of io es s).2) POD_STREAM = unread (pc_group s) POD_STREAM.
Proof.
  revert s. induction es as [|e es IH]; intros s; [done|]. cbn [pod_entries]. unfold mbind, St_bind.
  assert (unread (pc_group (pod_entry json_loads topics schema_valid iso_timestamp exn_text handle now (io e) e s).2) POD_STREAM =
    unread (pc_group s) POD_STREAM) as He.
  { unfold pod_entry, pod_ack. destruct (process_state_event _ _ _ _ _ _ _) as [[u|exc] w]; repeat case_match; try done; cbn;
      by destruct (ack_spec POD_STREAM e.1 (pc_group s) POD_STREAM) as [_ ->]. }
  destruct (pod_entry _ _ _ _ _ _ _ _ _ s) as [[[]|exc] s1]; cbn in He; [by rewrite IH|done].
Qed.

Lemma read_pods (g : G) :
  let '(records, g') := read_new [POD_STREAM] 20 g in
    concat records.*2 = take 20 (unread g POD_STREAM) /\
    pending g' POD_STREAM = pending g POD_STREAM ++ take 20 (unread g POD_STREAM) /\
    unread g' POD_STREAM = drop 20 (unread g POD_STREAM).
Proof.
  pose proof (read_new_spec [POD_STREAM] 20 g (NoDup_singleton _)) as (Hr & Hin & _).
  destruct (read_new [POD_STREAM] 20 g) as [records g']. cbn [fst snd] in *. destruct (Hin POD_STREAM) as [-> ->]; [by constructor|].
  split_and!; [|done..]. rewrite Hr. cbn. destruct (unread g POD_STREAM); cbn; [done|]. by rewrite app_nil_r.
Qed.

Lemma pass_keeps r st :
  keeps_entries st.2 (pod_pass json_loads topics schema_valid iso_timestamp exn_text handle now r st).2.
Proof.
  destruct st as [running s]. unfold pod_pass. destruct running; [|by intros e]. destruct r as [io|]; [|by intros e]. cbn [negb snd].
  pose proof (read_pods (pc_group s)) as Hr. destruct (read_new _ _ _) as [records g']. destruct Hr as (-> & Hp & Hu).
  set (s0 := mkPodConsumer g' _ _ _). pose proof (entries_keep io (take 20 (unread (pc_group s) POD_STREAM)) s0) as He.
  destruct (entries_of io _ s0) as [[[]|exc] s']; destruct He as (Hk & _); cbn [snd]; intros e Hacc; apply Hk; revert Hacc.
  all: unfold accounted, settled; subst s0; cbn [pc_group pc_handled pc_dlq]; rewrite Hp, Hu.
  all: intros [Hun|Hrest]; [|set_solver].
  all: rewrite <- (take_drop 20 (unread (pc_group s) POD_STREAM)) in Hun; set_solver.
Qed.

Lemma pass_works io s :
  (forall e, io e = (true, true)) ->
  let '(running, s') := pod_pass json_loads topics schema_valid iso_timestamp exn_text handle now (Some io) (true, s) in
    running = true /\ unread (pc_group s') POD_STREAM = drop 20 (unread (pc_group s) POD_STREAM) /\
    (forall e, e ∈ pending (pc_group s') POD_STREAM -> e ∈ pending (pc_group s) POD_STREAM).
Proof.
  intros Hio. unfold pod_pass. cbn [negb]. pose proof (read_pods (pc_group s)) as Hr.
  destruct (read_new _ _ _) as [records g']. destruct Hr as (-> & Hp & Hu). set (s0 := mkPodConsumer g' _ _ _).
  pose proof (entries_keep io (take 20 (unread (pc_group s) POD_STREAM)) s0) as He.
  pose proof (pod_entries_unread io (take 20 (unread (pc_group s) POD_STREAM)) s0) as Hun.
  destruct (entries_of io _ s0) as [r s']. destruct He as (_ & Hpend & Hok). destruct (Hok Hio) as [-> Hne]. cbn [snd] in Hun.
  split_and!; [done|by rewrite Hun|]. intros e He. pose proof (Hpend e He) as Hin. subst s0. cbn [pc_group] in Hin.
  rewrite Hp in Hin. apply elem_of_app in Hin as [Hin|Hin]; [done|]. by destruct (Hne e e He Hin).
Qed.

Lemma loop_keeps rs st : keeps_entries st.2 (loop rs st).2.
Proof.
  unfold pod_loop. revert st. induction rs as [|r rs IH]; intros st; [by intros e|]. cbn [foldl].
  intros e He. by apply IH, pass_keeps.
Qed.

Lemma loop_works (ios : list (entry -> bool * bool)) s :
  Forall (fun io => forall e, io e = (true, true)) ios ->
  let '(running, s') := loop (Some <$> ios) (true, s) in
    running = true /\ unread (pc_group s') POD_STREAM = drop (20 * length ios) (unread (pc_group s) POD_STREAM) /\
    (forall e, e ∈ pending (pc_group s') POD_STREAM -> e ∈ pending (pc_group s) POD_STREAM).
Proof.
  intros Hios. unfold pod_loop. revert s. induction Hios as [|io ios Hio _ IH]; intros s; [done|]. cbn [fmap list_fmap foldl].
  pose proof (pass_works io s Hio) as Hp. destruct (pod_pass _ _ _ _ _ _ _ (Some io) (true, s)) as [running s1].
  destruct Hp as (-> & Hu & Hpend). specialize (IH s1). destruct (foldl _ (true, s1) _) as [running s2].
  destruct IH as (-> & -> & Hpend2). rewrite Hu, drop_drop. split_and!; [done|f_equal; cbn [length]; lia|naive_solver].
Qed.

End entries.

(** ** Concrete pods *)

Definition demo_pod (name : string) : PodConfig := mkPodConfig name ["python"] [] "".

Definition manager_event : dict :=
  [("event_type", VStr "MISSION_POD_MANAGER_ASSIGNED"); ("mission_id", VStr "m1"); ("requested_target_language", VStr "Python")].

Definition running_event : dict :=
  [("event_type", VStr "MISSION_RUNNING"); ("mission_id", VStr "m1"); ("requested_target_language", VStr "Python");
   ("source_code", VStr "x = 1")].

Definition pod_demo_body (mission_id : string) : val := VDict [("mission_id", VStr mission_id); ("metadata", VDict [])].

Definition pod_demo_env := pod_env (fun _ => true) "t" pod_demo_body (fun _ => []).

(** The orchestrator's row, then two pods in turns. *)
Definition demo_actors : list actor :=
  [Worker (demo_pod "podA") manager_event; Worker (demo_pod "podB") manager_event;
   Orchestrator "m1" "AGENT-18-PODB-MGR" "AGENT-20-C" "c"].

Definition demo_race : pool pod_cmd pod_answer exn unit assignments :=
  run_pool pod_demo_env (2 :: concat (replicate 20 [1; 0]))%nat (mkPool (actor_task <$> demo_actors) ∅ []).

Definition agents_run (p : pool pod_cmd pod_answer exn unit assignments) : list (nat * string) :=
  omap (fun '(i, c, _) => match c with RunAgent id _ => Some (i, id) | _ => None end) (trace p).

(** The second pod overwrites the orchestrator's row, and the first is refused. *)
Example demo_race_result :
  agents_run demo_race = [(1%nat, "m1")] /\ threads demo_race = [tret tt; tret tt; tret tt] /\
  (pa_pod_name <$> world demo_race !! "m1") = Some "podB".
Proof. vm_compute. by split_and!. Qed.

Lemma pods_never_share_a_mission_witness :
  agents_run demo_race = [(1%nat, "m1")] /\ manager_pod demo_actors 1 = Some "podB" /\
  (forall i pod id agent r, (i, RunAgent id agent, r) ∈ trace demo_race -> manager_pod demo_actors i = Some pod ->
     claimed pod id (world demo_race)).
Proof.
  split; [vm_compute; reflexivity|]. split; [reflexivity|].
  refine (proj1 (pods_never_share_a_mission (fun _ => true) "t" demo_actors ∅ demo_race _)).
  apply run_pool_steps. intros c w. apply pod_env_exec.
Defined.

Definition held_by_a : assignments := {["m1" := mkAssignment "podA" [("assigned_by", VStr "pod-worker")] "t"]}.

Lemma running_mission_ignores_conflict_witness :
  exists tr, run pod_demo_env (_handle_running_mission (demo_pod "podB") [("mission_id", VStr "m1");
      ("requested_target_language", VStr "Python")]) held_by_a = (inr tt, held_by_a, tr) /\
    (exists agent, RunAgent "m1" agent ∈ tr.*1) /\ (exists node, PostLogicnode "m1" node ∈ tr.*1) /\
    PublishEvent "pod.standard.ready" "m1" "POD_READY" ∈ tr.*1.
Proof.
  apply (running_mission_ignores_conflict (fun _ => true) "t" pod_demo_body (fun _ => []) (demo_pod "podB") _ "m1" "podA");
    try reflexivity; try discriminate.
  exists (mkAssignment "podA" [("assigned_by", VStr "pod-worker")] "t"). by split_and!.
Defined.

Definition pod_loads (s : string) : result val :=
  if String.eqb s "envelope"
  then Ok (VDict [("event_id", VStr "e"); ("topic", VStr POD_STREAM); ("timestamp", VStr "now"); ("producer", VStr "p");
                  ("correlation_id", VStr "m1"); ("payload_ref", VStr "registry://missions/m1"); ("schema", VStr "s");
                  ("priority", VStr "NORMAL")])
  else if String.eqb s "running" then Ok (VDict running_event)
  else Raise ValueError.

Definition demo_handle (payload : dict) : St assignments unit := fun t =>
  match run pod_demo_env (handle_event (demo_pod "podA") payload) t with
  | (inr tt, t', _) => (Ok tt, t')
  | (inl e, t', _) => (Raise e, t')
  end.

Definition demo_pod_loop := pod_loop pod_loads [POD_STREAM] is_dict (fun _ => true) (fun _ => "error") (G:=mgroup) demo_handle "now".

Definition pod_backlog : PodConsumer (G:=mgroup) (W:=assignments) :=
  mkPodConsumer (mkGroup ∅ {[POD_STREAM := [("1-0", [("envelope", "envelope"); ("payload", "running")]);
                                           ("2-0", [("envelope", "envelope"); ("payload", "other")])]]}) [] ∅ [].

Example demo_pod_pass :
  let '(running, s) := demo_pod_loop [Some (fun _ => (true, true))] (true, pod_backlog) in
  running = true /\ pc_handled s = ["1-0"] /\ (pc_dlq s).*1 = ["2-0"] /\ (pa_pod_name <$> pc_world s !! "m1") = Some "podA".
Proof. vm_compute. by split_and!. Qed.

