(* ===== verification/Reports.v ===== *)
(** * Reports

    What the deterministic reports of [O/equivalence_verifier.py] and
    [O/security_compliance.py] share: the lists of checks they are made of, and how
    values of unknown shape are read. *)

From S2P Require Import Prelude PyVal.

(** [str(d.get(key) or "")] *)
Definition get_text (d : dict) (key : string) : string := py_str (py_or (dget0 d key) (VStr "")).

(** [str(value or "").strip().lower()] and [.upper()] *)
Definition lower_name (v : val) : string := str_lower (str_strip (py_str (py_or v (VStr "")))).
Definition upper_name (v : val) : string := str_upper (str_strip (py_str (py_or v (VStr "")))).

(** What a [for] loop over a value sees. *)
Definition py_iter (v : val) : result (list val) :=
  match v with
  | VList l => Ok l
  | VStr s => Ok ((fun c => VStr (String c "")) <$> chars s)
  | VDict d => Ok (VStr <$> dkeys d)
  | _ => Raise TypeError
  end.

(** [len(value)] *)
Definition py_len (v : val) : result Z :=
  match v with
  | VList l => Ok (Z.of_nat (length l))
  | VDict d => Ok (Z.of_nat (length d))
  | VStr s => Ok (Z.of_nat (String.length s))
  | _ => Raise TypeError
  end.

(** [sorted(set(l))] *)
Definition sorted_strings (l : list string) : list string := sort_by String.leb (remove_dups l).

Lemma sorted_strings_elem x l : x ∈ sorted_strings l <-> x ∈ l.
Proof. unfold sorted_strings. by rewrite sort_by_elem, elem_of_remove_dups. Qed.

Definition VStrs (l : list string) : val := VList (VStr <$> l).

Definition py_endswith (s suffix : string) : bool :=
  (String.length suffix <=? String.length s)%nat &&
  String.eqb (str_drop (String.length s - String.length suffix) s) suffix.

(** ** Checks *)

Definition has_status (statuses : list string) (check : dict) : bool :=
  match dget0 check "status" with VStr s => str_in s statuses | _ => false end.

Definition is_required (check : dict) : bool := truthy (dget0 check "required").
Definition failed_required (check : dict) : bool := is_required check && has_status ["fail"] check.
Definition required_failures (checks : list dict) : list dict := List.filter failed_required checks.

(** [[check["message"] for check in checks if check["status"] in statuses]] *)
Definition findings_of (statuses : list string) (checks : list dict) : list val :=
  (fun check => dget0 check "message") <$> List.filter (has_status statuses) checks.

Definition any_check (f : dict -> bool) (checks : list dict) : bool := existsb f checks.

Lemma filter_nil_forallb {A} (f : A -> bool) l : List.filter f l = [] <-> forallb (fun x => negb (f x)) l = true.
Proof. induction l as [|x l IH]; cbn; [done|]. by destruct (f x). Qed.

Lemma has_failures checks : negb (bool_decide (required_failures checks = [])) = existsb failed_required checks.
Proof.
  unfold required_failures. induction checks as [|c l IH]; cbn; [done|].
  destruct (failed_required c); cbn; [done|]. exact IH.
Qed.

(** The three possible verdicts on a list of checks. *)
Lemma no_failures checks : existsb failed_required checks = false -> forall c, c ∈ checks -> failed_required c = false.
Proof.
  intros H c Hc. destruct (failed_required c) eqn:E; [|done]. rewrite <- H. symmetry.
  apply existsb_exists. exists c. split; [by apply list_elem_of_In|done].
Qed.
