(* ===== verification/Replies.v ===== *)
(** * Replies

    How the answer of a model is found ([O/llm_delegation/text.py]): the text in the answer
    of a provider, the balanced objects in that text, and the object that is taken for the
    decision. *)

From S2P Require Import Prelude PyVal Json Bundles Regex Text.

(** ** The text of an answer *)

(** [value.strip()] of a text that is not blank *)
Definition stripped_text (v : val) : option string :=
  match v with VStr s => let t := str_strip s in if String.eqb t "" then None else Some t | _ => None end.

(** The dictionaries of a list. *)
Definition dicts (v : val) : list dict := match v with VList l => omap as_dict l | _ => [] end.

Definition joined (parts : list string) : option string := match parts with [] => None | _ => Some (str_join NL parts) end.

Definition choice_text (choice : dict) : option string := as_dict (dget0 choice "message") ≫= fun m => stripped_text (dget0 m "content").

Definition block_texts (blocks : val) : list string := omap (fun block => stripped_text (dget0 block "text")) (dicts blocks).

Definition _extract_openai_text (payload : dict) : option string :=
  match stripped_text (dget0 payload "output_text") with
  | Some text => Some text
  | None =>
      match head (omap choice_text (dicts (dget0 payload "choices"))) with
      | Some text => Some text
      | None => joined (dicts (dget0 payload "output") ≫= fun item => block_texts (dget0 item "content"))
      end
  end.

Definition is_text_block (block : dict) : bool := bool_decide (dget0 block "type" = VStr "text").

Definition _extract_anthropic_text (payload : dict) : option string :=
  joined (omap (fun block => if is_text_block block then stripped_text (dget0 block "text") else None) (dicts (dget0 payload "content"))).

Definition _extract_gemini_text (payload : dict) : option string :=
  joined (dicts (dget0 payload "candidates") ≫= fun candidate =>
            match dget0 candidate "content" with VDict content => block_texts (dget0 content "parts") | _ => [] end).

(** ** The object in a text *)

Record scanner := mkScanner { depth : nat; in_string : bool; escaped : bool; start : option nat; spans : list text }.

Definition backslash : ascii := ascii_of_N 92.

(** [text[a : b]] *)
Definition cut (t : text) (a b : nat) : text := take (b - a) (drop a t).

Definition scan_char (t : text) (s : scanner) (index : nat) (char : ascii) : scanner :=
  if in_string s then
    if escaped s then mkScanner (depth s) true false (start s) (spans s)
    else if Ascii.eqb char backslash then mkScanner (depth s) true true (start s) (spans s)
    else if Ascii.eqb char dquote then mkScanner (depth s) false false (start s) (spans s)
    else s
  else if Ascii.eqb char dquote then mkScanner (depth s) true (escaped s) (start s) (spans s)
  else if Ascii.eqb char "{" then
    mkScanner (S (depth s)) false (escaped s) (if (depth s =? 0)%nat then Some index else start s) (spans s)
  else if Ascii.eqb char "}" then
    match depth s with
    | O => s
    | S d =>
        match d, start s with
        | O, Some from => mkScanner O false (escaped s) None (spans s ++ [cut t from (S index)])
        | _, _ => mkScanner d false (escaped s) (start s) (spans s)
        end
    end
  else s.

Fixpoint scan_from (t : text) (s : scanner) (index : nat) (rest : text) : scanner :=
  match rest with
  | [] => s
  | c :: rest' => scan_from t (scan_char t s index c) (S index) rest'
  end.

Definition _find_balanced_json_objects (t : text) : list text := spans (scan_from t (mkScanner O false false None []) O t).

Section json.
Context `{Json}.

Definition read_dict (candidate : string) : option dict := json_loads candidate ≫= as_dict.

Definition _extract_decision_payload (raw_text : val) : option dict :=
  candidate ← stripped_text raw_text;
  let spans := unchars <$> _find_balanced_json_objects (chars candidate) in
  head (omap read_dict (match reverse spans with [] => [candidate] | spans => spans end)).
End json.

(** Prose with an example before the answer; a lone quotation mark hides the answer. *)
Example find_demo :
  let q s := str_replace "'" dquote s in
  unchars <$> _find_balanced_json_objects (chars (q "Like {'a': {}} or so. {'b': '}'} } ok")) = [q "{'a': {}}"; q "{'b': '}'}"] /\
  _find_balanced_json_objects (chars (q "A 5' screen: {'a': 1}")) = [].
Proof. vm_compute. by split. Qed.

(** ** The objects of a text

    What is between the quotation marks of a literal, what is between the braces of an
    object, and the text around objects. *)

Inductive str_body : text -> Prop :=
| body_nil : str_body []
| body_char c u : c <> backslash -> c <> dquote -> str_body u -> str_body (c :: u)
| body_escape c u : str_body u -> str_body (backslash :: c :: u).

Definition plain (c : ascii) : Prop := c <> dquote /\ c <> "{"%char /\ c <> "}"%char.

Inductive inner : text -> Prop :=
| inner_nil : inner []
| inner_char c u : plain c -> inner u -> inner (c :: u)
| inner_literal b u : str_body b -> inner u -> inner (dquote :: b ++ dquote :: u)
| inner_object v u : inner v -> inner u -> inner ("{"%char :: v ++ "}"%char :: u).

Definition object (w : text) : Prop := exists v, inner v /\ w = "{"%char :: v ++ ["}"%char].

(** A closing brace outside of any object counts for nothing. *)
Inductive prose : text -> Prop :=
| prose_nil : prose []
| prose_char c u : c <> dquote -> c <> "{"%char -> prose u -> prose (c :: u)
| prose_literal b u : str_body b -> prose u -> prose (dquote :: b ++ dquote :: u).

Inductive prose_around : text -> list text -> Prop :=
| reply_end p : prose p -> prose_around p []
| reply_object p w t ws : prose p -> object w -> prose_around t ws -> prose_around (p ++ w ++ t) (w :: ws).

(** *** Reading *)

(** Outside of a literal, at a depth. *)
Definition at_depth (d : nat) (from : option nat) (l : list text) : scanner := mkScanner d false false from l.

Ltac fold_depth :=
  repeat match goal with
  | |- context [mkScanner ?d false false ?f ?l] => change (mkScanner d false false f l) with (at_depth d f l)
  end.

Section reading.
Context (t : text).
Implicit Types (s : scanner) (u v w rest : text).

Lemma scan_body d from l i u rest :
  str_body u ->
  scan_from t (mkScanner d true false from l) i (u ++ dquote :: rest) = scan_from t (at_depth d from l) (i + length u + 1) rest.
Proof.
  intros Hu. revert i. induction Hu as [|c u Hb Hq Hu IH|c u Hu IH]; intros i.
  - cbn. by replace (i + 0 + 1)%nat with (S i) by lia.
  - cbn [app scan_from]. unfold scan_char at 1. cbn [in_string escaped depth start spans].
    apply Ascii.eqb_neq in Hb, Hq. rewrite Hb, Hq, IH. f_equal. cbn [length]. lia.
  - cbn [app scan_from]. unfold scan_char at 2. cbn [in_string escaped depth start spans]. rewrite Ascii.eqb_refl.
    unfold scan_char at 1. cbn [in_string escaped depth start spans]. rewrite IH. f_equal. cbn [length]. lia.
Qed.

Lemma scan_plain d from l i c rest :
  plain c -> scan_from t (at_depth d from l) i (c :: rest) = scan_from t (at_depth d from l) (S i) rest.
Proof.
  intros (H1 & H2 & H3). cbn [scan_from]. unfold scan_char at 1. cbn [in_string at_depth].
  apply Ascii.eqb_neq in H1, H2, H3. by rewrite H1, H2, H3.
Qed.

Lemma scan_literal d from l i b rest :
  str_body b -> scan_from t (at_depth d from l) i (dquote :: b ++ dquote :: rest) = scan_from t (at_depth d from l) (i + length b + 2) rest.
Proof.
  intros Hb. cbn [scan_from]. unfold scan_char at 1. cbn [in_string at_depth]. rewrite Ascii.eqb_refl. cbn [depth start spans escaped].
  rewrite scan_body by done. f_equal. lia.
Qed.

Lemma scan_inner d from l i u rest :
  inner u -> scan_from t (at_depth (S d) (Some from) l) i (u ++ rest) = scan_from t (at_depth (S d) (Some from) l) (i + length u) rest.
Proof.
  intros Hu. revert d i rest. induction Hu as [|c u Hc Hu IH|b u Hb Hu IH|v u Hv IHv Hu IHu]; intros d i rest.
  - cbn. by rewrite Nat.add_0_r.
  - cbn [app]. rewrite scan_plain, IH by done. f_equal. cbn. lia.
  - cbn [app]. rewrite <- app_assoc. cbn [app]. rewrite scan_literal, IH by done. f_equal. cbn. rewrite length_app. cbn. lia.
  - cbn [app]. rewrite <- app_assoc. cbn [app scan_from]. unfold scan_char at 1. cbn. fold_depth.
    rewrite IHv. cbn [scan_from]. unfold scan_char at 1. cbn. fold_depth. rewrite IHu. f_equal. rewrite length_app. cbn. lia.
Qed.

Lemma scan_prose l i u rest :
  prose u -> scan_from t (at_depth 0 None l) i (u ++ rest) = scan_from t (at_depth 0 None l) (i + length u) rest.
Proof.
  intros Hu. revert i. induction Hu as [|c u Hq Hb Hu IH|b u Hb Hu IH]; intros i.
  - cbn. by rewrite Nat.add_0_r.
  - cbn [app scan_from]. unfold scan_char at 1. cbn [in_string at_depth]. apply Ascii.eqb_neq in Hq, Hb. rewrite Hq, Hb.
    replace (if Ascii.eqb c "}" then _ else _) with (at_depth 0 None l) by by destruct (Ascii.eqb c "}").
    rewrite IH. f_equal. cbn. lia.
  - cbn [app]. rewrite <- app_assoc. cbn [app]. rewrite scan_literal, IH by done. f_equal. cbn. rewrite length_app. cbn. lia.
Qed.
End reading.

Lemma cut_app (a w b : text) : cut (a ++ w ++ b) (length a) (length a + length w) = w.
Proof. unfold cut. rewrite drop_app_length. replace (length a + length w - length a)%nat with (length w) by lia. apply take_app_length. Qed.

Lemma scan_object l a w rest :
  object w ->
  scan_from (a ++ w ++ rest) (at_depth 0 None l) (length a) (w ++ rest) =
  scan_from (a ++ w ++ rest) (at_depth 0 None (l ++ [w])) (length (a ++ w)) rest.
Proof.
  intros (v & Hv & E). set (t := a ++ w ++ rest).
  assert (cut t (length a) (length a + length w) = w) as Hs by apply cut_app. clearbody t.
  assert (length w = length v + 2)%nat as Hw by (rewrite E; cbn; rewrite length_app; cbn; lia).
  rewrite E at 1. cbn [app]. rewrite <- app_assoc. cbn [app scan_from]. unfold scan_char at 1. cbn. fold_depth.
  rewrite scan_inner by done. cbn [scan_from]. unfold scan_char at 1. cbn. fold_depth.
  replace (S (S (length a + length v))) with (length a + length w)%nat by lia. by rewrite Hs, length_app.
Qed.

Lemma scan_reply u ws a l :
  prose_around u ws -> spans (scan_from (a ++ u) (at_depth 0 None l) (length a) u) = l ++ ws.
Proof.
  intros Hr. revert a l. induction Hr as [p Hp|p w u ws Hp Hw Hr IH]; intros a l.
  - rewrite <- (app_nil_r p) at 2. rewrite scan_prose by done. cbn. by rewrite app_nil_r.
  - rewrite scan_prose by done. rewrite (app_assoc a p), <- length_app. rewrite scan_object by done.
    rewrite (app_assoc _ w). rewrite IH. by rewrite <- app_assoc.
Qed.

Lemma find_reply t ws : prose_around t ws -> _find_balanced_json_objects t = ws.
Proof. intros Hr. exact (scan_reply t ws [] [] Hr). Qed.

(** *** Soundness

    What has been read since the start of an object: the bodies of as many open objects as
    the depth says, and possibly the beginning of a literal. *)

Lemma inner_app u v : inner u -> inner v -> inner (u ++ v).
Proof.
  intros Hu Hv. induction Hu as [|c u Hc Hu IH|b u Hb Hu IH|w u Hw IHw Hu IHu]; cbn [app]; [done| | |].
  - by apply inner_char.
  - rewrite <- app_assoc. by apply inner_literal.
  - rewrite <- app_assoc. by apply inner_object.
Qed.

Lemma str_body_app u v : str_body u -> str_body v -> str_body (u ++ v).
Proof. intros Hu Hv. induction Hu; cbn [app]; [done|by apply body_char|by apply body_escape]. Qed.

Inductive opened : nat -> text -> Prop :=
| opened_one i : inner i -> opened 1 ("{"%char :: i)
| opened_more d w i : opened d w -> inner i -> opened (S d) (w ++ "{"%char :: i).

Lemma opened_app d w v : opened d w -> inner v -> opened d (w ++ v).
Proof.
  intros Hw Hv. destruct Hw as [i Hi|d w i Hw Hi].
  - apply opened_one. by apply inner_app.
  - rewrite <- app_assoc. cbn [app]. apply opened_more; [done|by apply inner_app].
Qed.

Lemma opened_close d w : opened (S (S d)) w -> opened (S d) (w ++ ["}"%char]).
Proof.
  inversion 1 as [|? w' i Hw Hi]; subst. rewrite <- app_assoc. cbn [app].
  apply opened_app; [done|]. apply inner_object; [done|]. apply inner_nil.
Qed.

Lemma opened_close_all w : opened 1 w -> object (w ++ ["}"%char]).
Proof.
  inversion 1 as [i Hi|d w' i Hw Hi]; subst; [by exists i|]. inversion Hw.
Qed.

(** The beginning of a literal, after a half-read escape when [e]. *)
Definition in_literal (e : bool) (v : text) : Prop :=
  exists u, str_body u /\ v = dquote :: u ++ (if e then [backslash] else []).

Definition pending (s : scanner) (read : text) : Prop :=
  match depth s with
  | O => start s = None
  | S d => exists from w v, start s = Some from /\ (from <= length read)%nat /\ drop from read = w ++ v /\ opened (S d) w /\
                            (if in_string s then in_literal (escaped s) v else v = [])
  end /\ (in_string s = false -> escaped s = false).

Definition sound (t : text) (s : scanner) : Prop := Forall (fun w => object w /\ infix w t) (spans s).

Lemma drop_snoc (from : nat) (read : text) c : (from <= length read)%nat -> drop from (read ++ [c]) = drop from read ++ [c].
Proof. intros H. by apply drop_app_le. Qed.

Lemma cut_snoc (from : nat) (read : text) c rest :
  (from <= length read)%nat -> cut (read ++ c :: rest) from (S (length read)) = drop from read ++ [c].
Proof.
  intros H. unfold cut. rewrite drop_app_le by done.
  replace (S (length read) - from)%nat with (length (drop from read ++ [c])) by (rewrite length_app, length_drop; cbn; lia).
  replace (drop from read ++ c :: rest) with ((drop from read ++ [c]) ++ rest) by by rewrite <- app_assoc.
  apply take_app_length.
Qed.

(** One more character of a literal, and of an object outside of its literals. *)
Lemma in_literal_char e v c :
  in_literal e v ->
  if e then in_literal false (v ++ [c])
  else if Ascii.eqb c backslash then in_literal true (v ++ [c])
  else if Ascii.eqb c dquote then inner (v ++ [c])
  else in_literal false (v ++ [c]).
Proof.
  intros (u & Hu & ->). destruct e.
  - exists (u ++ [backslash; c]). split; [apply str_body_app; [done|]; apply body_escape, body_nil|].
    cbn. by rewrite <- !app_assoc.
  - rewrite app_nil_r. destruct (Ascii.eqb_spec c backslash) as [->|Hb]; [by exists u|].
    destruct (Ascii.eqb_spec c dquote) as [->|Hq]; [apply inner_literal; [done|apply inner_nil]|].
    exists (u ++ [c]). split; [apply str_body_app; [done|]; apply body_char; [done..|apply body_nil]|]. by rewrite app_nil_r.
Qed.

Lemma pending_string t d e from l read c :
  pending (mkScanner d true e from l) read ->
  pending (scan_char t (mkScanner d true e from l) (length read) c) (read ++ [c]) /\
  spans (scan_char t (mkScanner d true e from l) (length read) c) = l.
Proof.
  intros [Hp _]. unfold scan_char. cbn [in_string escaped depth start spans] in *. unfold pending.
  destruct d as [|d]; [by destruct e, (Ascii.eqb c backslash), (Ascii.eqb c dquote)|].
  destruct Hp as (f & w & v & -> & Hf & Hd & Hw & Hv). pose proof (in_literal_char e v c Hv) as Hc.
  assert (drop f (read ++ [c]) = w ++ (v ++ [c])) as Hd' by (by rewrite drop_snoc, Hd, <- app_assoc).
  assert (f <= length (read ++ [c]))%nat as Hf' by (rewrite length_app; lia).
  destruct e; [|destruct (Ascii.eqb c backslash); [|destruct (Ascii.eqb c dquote)]]; cbn [in_string escaped depth start spans];
    (split; [split; [|done]|done]); try (by exists f, w, (v ++ [c])).
  exists f, (w ++ v ++ [c]), []. rewrite app_nil_r. split_and!; [done..|by apply opened_app|done].
Qed.

Lemma pending_outside d from l read c :
  pending (at_depth d from l) read ->
  d = O /\ from = None \/
  exists f d', d = S d' /\ from = Some f /\ (f <= length read)%nat /\ drop f (read ++ [c]) = drop f read ++ [c] /\ opened d (drop f read).
Proof.
  intros [Hp _]. destruct d as [|d]; [by left|]. right. destruct Hp as (f & w & v & Hfrom & Hf & Hd & Hw & Hv).
  cbn in Hfrom, Hv. subst. rewrite app_nil_r in Hd. exists f, d. rewrite drop_snoc, Hd by done. done.
Qed.

Lemma pending_at d f l read w :
  (f <= length read)%nat -> drop f read = w -> opened (S d) w -> pending (at_depth (S d) (Some f) l) read.
Proof. intros Hf Hd Hw. split; [|done]. exists f, w, []. by rewrite app_nil_r. Qed.

Lemma pending_plain t d from l read c rest :
  t = read ++ c :: rest -> pending (at_depth d from l) read ->
  let s := scan_char t (at_depth d from l) (length read) c in
  pending s (read ++ [c]) /\ (spans s = l \/ exists w, object w /\ infix w t /\ spans s = l ++ [w]).
Proof.
  intros Ht Hp. unfold scan_char. cbn [in_string escaped depth start spans at_depth].
  assert (length read <= length (read ++ [c]))%nat as Hlen by (rewrite length_app; lia).
  destruct (pending_outside _ _ _ _ c Hp) as [[-> ->]|(f & d' & -> & -> & Hf & Hd & Hw)]; clear Hp.
  - destruct (Ascii.eqb c dquote); [by split; [|left]|].
    destruct (Ascii.eqb_spec c "{") as [->|_]; [split; [|by left]|by destruct (Ascii.eqb c "}"); split; [split|left|split|left]].
    apply (pending_at _ _ _ _ ["{"%char]); [done|by rewrite drop_app_length|apply opened_one, inner_nil].
  - destruct (Ascii.eqb_spec c dquote) as [->|Hq]; [split; [split; [|done]|by left]|].
    { exists f, (drop f read), [dquote]. split_and!; [done|lia|done|done|]. exists []. by split; [apply body_nil|]. }
    destruct (Ascii.eqb_spec c "{") as [->|Ho]; [split; [|by left]|].
    { eapply pending_at; [lia|exact Hd|]. apply opened_more; [done|apply inner_nil]. }
    destruct (Ascii.eqb_spec c "}") as [->|Hc].
    + destruct d' as [|d'].
      * split; [done|]. right. rewrite Ht, cut_snoc by done. eexists. split_and!; [by apply opened_close_all| |done].
        exists (take f read), rest. rewrite <- app_assoc. cbn [app]. by rewrite app_assoc, take_drop.
      * split; [|by left]. eapply pending_at; [lia|exact Hd|]. by apply opened_close.
    + split; [|by left]. eapply pending_at; [lia|exact Hd|]. apply opened_app; [done|]. apply inner_char; [done|apply inner_nil].
Qed.

Lemma scan_sound t read rest s :
  t = read ++ rest -> pending s read -> sound t s -> sound t (scan_from t s (length read) rest).
Proof.
  revert read s. induction rest as [|c rest IH]; intros read s Ht Hp Hs; [done|]. cbn [scan_from].
  assert (pending (scan_char t s (length read) c) (read ++ [c]) /\ sound t (scan_char t s (length read) c)) as [Hp' Hs'].
  { destruct s as [d q e from l]. destruct q.
    - destruct (pending_string t _ _ _ _ _ c Hp) as [H1 H2]. split; [done|]. unfold sound. by rewrite H2.
    - pose proof (proj2 Hp eq_refl) as He. cbn in He. subst e.
      destruct (pending_plain t d from l read c rest Ht Hp) as [H1 H2]. split; [exact H1|]. unfold sound, at_depth in *.
      destruct H2 as [->|(w & Hw & Hi & ->)]; [done|]. apply Forall_app. by repeat constructor. }
  replace (S (length read)) with (length (read ++ [c])) by (rewrite length_app; cbn; lia).
  apply IH; [by rewrite Ht, <- app_assoc|done..].
Qed.

Lemma find_sound t : Forall (fun w => object w /\ infix w t) (_find_balanced_json_objects t).
Proof. apply (scan_sound t [] t); [done|by split|constructor]. Qed.

(** C30: what is found in a text are objects of it with balanced braces, and when the text
    is prose around objects, exactly those objects in their order. *)
Theorem objects_found t :
  Forall (fun w => object w /\ infix w t) (_find_balanced_json_objects t) /\
  (forall ws, prose_around t ws -> _find_balanced_json_objects t = ws).
Proof. split; [apply find_sound|apply find_reply]. Qed.

Ltac solve_prose := repeat first [apply prose_nil|apply prose_char; [done|done|]].

Lemma demo_reply : prose_around (chars "see {x}: {}") [chars "{x}"; chars "{}"].
Proof.
  apply (reply_object (chars "see ") (chars "{x}") (chars ": {}") [chars "{}"]); [solve_prose| |].
  - exists (chars "x"). split; [|done]. apply inner_char; [done|apply inner_nil].
  - apply (reply_object (chars ": ") (chars "{}") [] []); [solve_prose| |apply reply_end, prose_nil].
    exists []. split; [apply inner_nil|done].
Qed.

Lemma objects_found_witness : _find_balanced_json_objects (chars "see {x}: {}") = [chars "{x}"; chars "{}"].
Proof. apply (objects_found (chars "see {x}: {}")). apply demo_reply. Defined.

Section decision.
Context `{Json}.

(** Of a reply that is prose around objects, the last object is the decision when it
    reads as one, whatever came before it. *)
Lemma decision_is_last raw t ws w d :
  stripped_text raw = Some (unchars t) -> prose_around t (ws ++ [w]) -> json_loads (unchars w) = Some (VDict d) ->
  _extract_decision_payload raw = Some d.
Proof.
  intros Hraw Hr Hw. unfold _extract_decision_payload. rewrite Hraw. cbn [mbind option_bind].
  rewrite chars_unchars, (find_reply _ _ Hr), fmap_app, reverse_app. cbn. unfold read_dict at 1. by rewrite Hw.
Qed.

Lemma head_omap {A B} (f : A -> option B) l b : head (omap f l) = Some b -> exists a, a ∈ l /\ f a = Some b.
Proof.
  induction l as [|a l IH]; [done|]. cbn. destruct (f a) as [b'|] eqn:E.
  - intros [= ->]. exists a. by split; [left|].
  - intros (a' & Ha & Hf)%IH. exists a'. by split; [right|].
Qed.

(** A decision is a dictionary that was read from an object of the reply, or from the
    whole reply. *)
Lemma decision_is_read raw d :
  _extract_decision_payload raw = Some d ->
  exists candidate w, stripped_text raw = Some candidate /\ json_loads w = Some (VDict d) /\
    (w = candidate \/ object (chars w) /\ infix (chars w) (chars candidate)).
Proof.
  unfold _extract_decision_payload. destruct (stripped_text raw) as [candidate|]; [|done]. cbn [mbind option_bind].
  intros (w & Hin & Hw)%head_omap. exists candidate, w. split; [done|]. split.
  { unfold read_dict in Hw. destruct (json_loads w) as [[]|]; cbn in Hw; congruence. }
  pose proof (find_sound (chars candidate)) as Hs. destruct (reverse _) as [|x l] eqn:E.
  - apply list_elem_of_singleton in Hin. by left.
  - rewrite <- E in Hin. right. apply elem_of_reverse, list_elem_of_fmap in Hin as (u & -> & Hu).
    rewrite chars_unchars. rewrite Forall_forall in Hs. by apply Hs.
Qed.
End decision.

(** A reader that knows the empty object. *)
Definition empty_json : Json := {|
  json_dumps := fun _ => "{}";
  json_loads := fun s => if String.eqb s "{}" then Some (VDict []) else None;
|}.

Lemma decision_is_last_witness : @_extract_decision_payload empty_json (VStr " see {x}: {} ") = Some [].
Proof. apply (@decision_is_last empty_json _ (chars "see {x}: {}") [chars "{x}"] (chars "{}")); [reflexivity|apply demo_reply|reflexivity]. Defined.

Lemma decision_is_read_witness :
  exists w, w = "{}" /\ (w = "see {x}: {}" \/ object (chars w) /\ infix (chars w) (chars "see {x}: {}")).
Proof.
  destruct (@decision_is_read empty_json (VStr " see {x}: {} ") []) as (candidate & w & Hc & Hw & H); [reflexivity|].
  exists w. injection Hc as <-. split; [|exact H]. cbn in Hw. destruct (String.eqb_spec w "{}"); [done|discriminate].
Defined.
