(* ===== verification/Fields.v ===== *)
(** * Fields

    How the fields of a model's answer are normalised ([O/llm_delegation/text.py]): lists
    of texts, agent ids, code fences, file names, priorities and identifiers; what is taken
    from a LogicNode; and the texts that tell a prompt what came before.  Ratios are
    counted in ten-thousandths of the exact quotient, rounded half to even. *)

From S2P Require Import Prelude PyVal Agents Regex Bundles Reports Text Replies.

(** ** Texts *)

Definition has_text (s : string) : bool := negb (String.eqb s "").

Definition _normalize_text_list (value : val) (limit : nat) : list string :=
  take limit (match value with
              | VStr s => if has_text (str_strip s) then [_clean_text value 160 false] else []
              | VList l => List.filter has_text ((fun item => _clean_text item 160 false) <$> l)
              | _ => []
              end).

Definition _string_list (value : val) (limit : nat) (max_length : Z) : list string :=
  match value with
  | VList l => List.filter has_text ((fun item => _clean_text item max_length true) <$> take limit l)
  | _ => []
  end.

Definition _MAX_KNOWLEDGE_CONTEXT_CHARS : Z := 8000.

Definition snippet (item : dict) : option string :=
  let text := match dget0 item "content" with
              | VDict content => str_strip (get_text content "combined_text")
              | VStr s => str_strip s
              | _ => ""
              end in
  if has_text text then Some text else None.

Definition capped (text : string) : string :=
  if _MAX_KNOWLEDGE_CONTEXT_CHARS <? Z.of_nat (String.length text)
  then unchars (take_chars _MAX_KNOWLEDGE_CONTEXT_CHARS (chars text)) +:+ NL +:+ "...[truncated]" else text.

Definition _format_knowledge_context (knowledge : val) : string :=
  let text := match knowledge with
              | VStr s => str_strip s
              | VList _ => str_join (NL +:+ NL) (omap snippet (dicts knowledge))
              | _ => ""
              end in
  if has_text text then NL +:+ "Relevant documentation from the Knowledge Lake:" +:+ NL +:+ capped text +:+ NL else "".

Definition bullets (lines : list string) : string := str_join NL ((fun line => "  - " +:+ line) <$> lines).

(** One line for the texts of a field, when there are any. *)
Definition risk_line (contract : val) (key label : string) : list string :=
  match contract with
  | VDict contract =>
      match _string_list (dget0 contract key) 3 1000 with [] => [] | texts => [label +:+ ": " +:+ str_join "; " texts] end
  | _ => []
  end.

Definition _format_upstream_risks (metadata : dict) : string :=
  match mjoin [risk_line (dget0 metadata "feature_contract") "risk_notes" "PM risk notes";
               risk_line (dget0 metadata "feature_contract") "clarifying_questions" "PM open questions";
               risk_line (dget0 metadata "mission_contract") "risk_notes" "CEO risk notes"] with
  | [] => ""
  | lines => NL +:+ "Upstream risk context:" +:+ NL +:+ bullets lines +:+ NL
  end.

Definition _format_upstream_style (metadata : dict) : result string :=
  let directives := dget0 metadata "global_style_directives" in
  if truthy directives then
    items ← py_iter directives;
    Ok (NL +:+ "Global Team Style Directives (MANDATORY):" +:+ NL +:+ bullets (py_str <$> items) +:+ NL)
  else Ok "".

(** ** Choices *)

Definition _normalize_agent_choice (raw_value : val) (allowed_ids : list string) (fallback : string) : string :=
  let candidate := str_upper (_clean_text raw_value 32 false) in
  if str_in candidate allowed_ids then candidate else fallback.

Definition priorities : list string := ["HIGH"; "MEDIUM"; "LOW"].

Definition _priority (value : val) : string :=
  let priority := str_upper (_clean_text (py_or value (VStr "MEDIUM")) 16 false) in
  if str_in priority priorities then priority else "MEDIUM".

(** ** Code fences *)

(** [text.splitlines()] *)
Fixpoint splitlines_from (line t : text) : list text :=
  match t with
  | [] => match line with [] => [] | _ => [rev line] end
  | c :: t' =>
      if line_break c then
        rev line :: match t' with
                    | d :: t'' => if Ascii.eqb c cr && is_nl d then splitlines_from [] t'' else splitlines_from [] t'
                    | [] => splitlines_from [] t'
                    end
      else splitlines_from (c :: line) t'
  end.

Definition splitlines (t : text) : list text := splitlines_from [] t.

Definition fence : text := chars "```".
Definition fenced (t : text) : bool := match strip_prefix fence t with Some _ => true | None => false end.

Definition drop_first_fence (lines : list text) : list text :=
  match lines with line :: rest => if fenced line then rest else lines | [] => [] end.

Definition drop_last_fence (lines : list text) : list text :=
  match last lines with Some line => if bool_decide (strip line = fence) then removelast lines else lines | None => lines end.

Definition _strip_code_fences (value : text) : text :=
  let t := strip value in
  if fenced t then strip (text_join [nl] (drop_last_fence (drop_first_fence (splitlines t)))) else t.

(** ** Names *)

Definition _safe_filename (value : val) (fallback : string) : string :=
  let filename := chars (_clean_text (py_or value (VStr fallback)) 96 false) in
  let filename := sub (Chr (Ascii.eqb "/")) "_" (sub (Chr (Ascii.eqb backslash)) "_" filename) in
  let filename := strip (sub (lit "..") "_" filename) in
  str_or (unchars filename) fallback.

Definition two_digits (index : nat) : string := (if (index <? 10)%nat then "0" else "") +:+ pretty (Z.of_nat index).

Definition slug (s : string) : string :=
  str_or (strip_with (Ascii.eqb "-") (unchars (sub (plus (Chr (fun c => negb (az09 c)))) "-" (chars (str_lower (str_strip s)))))) "general".

Definition _cluster_id (index : nat) (domain : string) : string := "cluster-" +:+ two_digits index +:+ "-" +:+ slug domain.
Definition _standard_node_id (index : nat) (domain concept : string) : string :=
  "standard-node-" +:+ two_digits index +:+ "-" +:+ slug (domain +:+ "-" +:+ concept).

(** ** LogicNodes *)

Definition _logicnode_payload (record : val) : dict :=
  match record with VDict d => match dget0 d "node" with VDict nested => nested | _ => d end | _ => [] end.

(** The cleaned value of a key, when there is one. *)
Definition cleaned_field (d : dict) (max_length : Z) (key : string) : option string :=
  match dget0 d key with
  | VNone => None
  | raw => let candidate := _clean_text raw max_length false in if has_text candidate then Some candidate else None
  end.

Definition _logicnode_text (value : dict) (keys : list string) (fallback : string) : string :=
  let nested := match dget0 value "payload" with VDict nested => omap (cleaned_field nested 120) keys | _ => [] end in
  default fallback (head (omap (cleaned_field value 120) keys ++ nested)).

Definition add_new (l : list string) (x : string) : list string := if str_in x l then l else l ++ [x].

(** The values of the keys in both containers, each once. *)
Definition collected (record : val) (payload : dict) (max_length : Z) (change : string -> string) (keys : list string) : list string :=
  foldl add_new [] (change <$> mjoin ((fun container => omap (cleaned_field container max_length) keys) <$> [dict_value record; payload])).

Definition _logicnode_sources (record : val) (payload : dict) : list string :=
  match collected record payload 96 id ["node_id"; "id"; "logicnode_id"] with [] => ["unidentified-logicnode"] | sources => sources end.

Definition _logicnode_languages (record : val) (payload : dict) : list string :=
  take 6 (collected record payload 32 str_lower ["language"; "target_language"; "requested_target_language"; "source_language"]).

(** [round(a / b, 4)] *)
Definition ratio (a b : Z) : Z :=
  let q := a * 10000 / b in
  let r := (a * 10000) mod b in
  if 2 * r <? b then q else if b <? 2 * r then q + 1 else if Z.even q then q else q + 1.

Definition source_lines (source_code : val) : nat :=
  length (List.filter (fun line => negb (is_nil (strip line))) (splitlines (chars (py_str (py_or source_code (VStr "")))))).

Definition expected_minimum (source_line_count : nat) : Z :=
  if (source_line_count =? 0)%nat then 1 else Z.max 1 (Z.min 20 (Z.of_nat source_line_count / 25)).

Definition _pod_standard_coverage_verdict (logicnodes : list val) (canonical_count : nat) (source_code : val) : dict :=
  let raw_count := Z.of_nat (length (List.filter is_dict logicnodes)) in
  let canonical_count := Z.of_nat canonical_count in
  let source_line_count := source_lines source_code in
  let expected_minimum := expected_minimum source_line_count in
  let coverage_thin := (canonical_count <? expected_minimum) || ((0 <? raw_count) && (canonical_count =? 0)) in
  let duplicate_ratio := if raw_count =? 0 then 0 else ratio (Z.max 0 (raw_count - canonical_count)) raw_count in
  let findings :=
    (if coverage_thin then ["Canonical LogicNode coverage is thin for the available source and pod evidence."] else []) ++
    (if (0 <? raw_count) && (8500 <=? duplicate_ratio) then ["High duplicate-elimination ratio requires pod-manager review."] else []) in
  [("schema_version", VStr "pod_standard_coverage.v1"); ("raw_logicnode_count", VInt raw_count);
   ("canonical_logicnode_count", VInt canonical_count); ("source_line_count", VInt (Z.of_nat source_line_count));
   ("expected_minimum_canonical_logicnodes", VInt expected_minimum); ("duplicate_ratio", VInt duplicate_ratio);
   ("coverage_thin", VBool coverage_thin);
   ("findings", VStrs (match findings with [] => ["Canonical LogicNode coverage meets deterministic pod standard checks."] | _ => findings end))].

Example fields_demo :
  _safe_filename (VStr "../a\b.py") "x" = "__a_b.py" /\
  _cluster_id 3 " Data & Storage! " = "cluster-03-data-storage" /\
  _priority (VStr " high") = "HIGH" /\
  _string_list (VList [VStr " "; VInt 3; VStr "a"; VStr "b"]) 3 10 = ["3"; "a"] /\
  _strip_code_fences (chars (" ```python" +:+ NL +:+ "x = 1" +:+ NL +:+ "``` ")) = chars "x = 1".
Proof. vm_compute. by split_and!. Qed.

(** ** Fields are clean *)

Lemma clean_bound value n b : (String.length (_clean_text value n b) <= Z.to_nat n)%nat.
Proof. destruct (clean_text_ok value n b) as (H & _). rewrite chars_length in H. lia. Qed.

(** A field: not empty, of bounded length, and redacted. *)
Definition clean_field (max_length : Z) (s : string) : Prop :=
  s <> "" /\ (String.length s <= Z.to_nat max_length)%nat /\ redacted (chars s).

Lemma nonempty_spec s : has_text s = true <-> s <> "".
Proof. unfold has_text. by destruct (String.eqb_spec s ""). Qed.

Lemma clean_text_field value n b : has_text (_clean_text value n b) = true -> clean_field n (_clean_text value n b).
Proof.
  intros H%nonempty_spec. split; [done|]. split; [apply clean_bound|]. apply clean_text_ok.
Qed.

Lemma string_list_clean value limit max_length :
  (length (_string_list value limit max_length) <= limit)%nat /\
  Forall (clean_field max_length) (_string_list value limit max_length).
Proof.
  destruct value as [| | | |l|]; cbn [_string_list]; try (split; [cbn; lia|constructor]). split.
  - etrans; [apply filter_length_le|]. rewrite length_fmap, length_take. lia.
  - apply List.Forall_forall. intros s (Hin & Hs)%filter_In. apply list_elem_of_In, list_elem_of_fmap in Hin as (item & -> & _). by apply clean_text_field.
Qed.

(** ** File names *)

(** A name without a path: no separators and no parent. *)
Definition confined_name (t : text) : Prop :=
  Forall (fun c => c <> backslash /\ c <> "/"%char) t /\ ~ infix (chars "..") t.

Lemma sub_lit1_Forall c s t : Forall (fun d => d <> c) (chars s) -> Forall (fun d => d <> c) (sub (Chr (Ascii.eqb c)) s t).
Proof.
  intros Hs. assert (Forall (fun d => Ascii.eqb c d = false) (sub (Chr (Ascii.eqb c)) s t)) as H.
  { apply sub_chr_Forall. eapply Forall_impl; [exact Hs|]. intros d Hd. by apply Ascii.eqb_neq. }
  eapply Forall_impl; [exact H|]. cbn. intros d Hd%Ascii.eqb_neq. done.
Qed.

Lemma no_parent_sub t : ~ infix (chars "..") (sub (lit "..") "_" t).
Proof.
  intros H. apply (sub_removes (lit "..") (fun w => w = chars "..") (fun w => w = chars "..") (fun c => c <> "_"%char) "_" t "_"%char "_"%char []);
    [apply language_lit|done|by exists []|by intros []|by intros []| | |by left|by exists (chars "..")].
  - intros w ->. split; [done|]. by repeat constructor.
  - intros (w & (a & b & E) & ->). by destruct a.
Qed.

Lemma filename_confined t : confined_name (strip (sub (lit "..") "_" (sub (Chr (Ascii.eqb "/")) "_" (sub (Chr (Ascii.eqb backslash)) "_" t)))).
Proof.
  set (u := sub (Chr (Ascii.eqb "/")) _ _).
  assert (Forall (fun c => c <> backslash /\ c <> "/"%char) u) as Hu.
  { apply Forall_and. subst u. split; [|by apply sub_lit1_Forall; repeat constructor].
    apply sub_Forall; [by repeat constructor|]. apply sub_lit1_Forall. by repeat constructor. }
  clearbody u. split.
  - eapply infix_Forall; [apply strip_infix|]. apply sub_Forall; [|done]. by repeat constructor.
  - intros H. eapply no_parent_sub, infix_trans; [exact H|apply strip_infix].
Qed.

Lemma strip_spaces t : spaces t -> strip t = [].
Proof. intros H. by apply rstrip_spaces, dropwhile_spaces. Qed.

Lemma sub_spaces r t : spaces (sub r "_" t) -> spaces t.
Proof.
  unfold sub. generalize (@nil ascii) as l. induction t as [|c t IH]; intros l; [done|]. cbn [sub_from].
  destruct (accept r Some (l, c :: t)); [by intros [? _]%Forall_cons|]. intros [Hc Ht]%Forall_cons. constructor; [done|by eapply IH].
Qed.

(** A file name a model proposes loses its separators and parent directories; only a
    blank one is replaced by the fallback, which is taken as it is. *)
Lemma filename_confined_or_fallback value fallback :
  confined_name (chars (_safe_filename value fallback)) \/
  _safe_filename value fallback = fallback /\
  strip (chars (_clean_text (py_or value (VStr fallback)) 96 false)) = [].
Proof.
  unfold _safe_filename. set (t := chars (_clean_text _ _ _)). clearbody t. unfold str_or.
  destruct (String.eqb_spec (unchars (strip (sub (lit "..") "_" (sub (Chr (Ascii.eqb "/")) "_" (sub (Chr (Ascii.eqb backslash)) "_" t))))) "") as [E|E].
  - right. split; [done|]. apply unchars_empty, strip_nil in E. apply strip_spaces. repeat apply sub_spaces in E; [done|..]; by intros.
  - left. rewrite chars_unchars. apply filename_confined.
Qed.

(** ** Fences *)

Definition one_line (l : text) : Prop := Forall (fun c => line_break c = false) l.

Lemma splitlines_line line l rest :
  one_line l -> splitlines_from line (l ++ rest) = splitlines_from (rev l ++ line) rest.
Proof.
  intros Hl. revert line. induction Hl as [|c l Hc Hl IH]; intros line; [done|]. cbn [app splitlines_from]. rewrite Hc, IH.
  cbn [rev]. by rewrite <- app_assoc.
Qed.

Lemma splitlines_join ls z : Forall one_line (ls ++ [z]) -> z <> [] -> splitlines (text_join [nl] (ls ++ [z])) = ls ++ [z].
Proof.
  unfold splitlines. intros Hls Hz. induction ls as [|l ls IH].
  - cbn in *. apply Forall_cons in Hls as [Hl _]. rewrite <- (app_nil_r z) at 1. rewrite splitlines_line, app_nil_r by done.
    cbn. destruct (rev z) eqn:E; [by apply (f_equal (@rev ascii)) in E; rewrite rev_involutive in E|]. by rewrite <- E, rev_involutive.
  - cbn [app] in *. apply Forall_cons in Hls as [Hl Hls]. destruct (ls ++ [z]) as [|l' ls'] eqn:E; [by destruct ls|].
    change (text_join [nl] (l :: l' :: ls')) with (l ++ nl :: text_join [nl] (l' :: ls')).
    rewrite splitlines_line, app_nil_r by done. cbn [splitlines_from line_break]. change (line_break nl) with true. cbn [Ascii.eqb].
    rewrite rev_involutive. f_equal. transitivity (splitlines_from [] (text_join [nl] (l' :: ls'))); [|exact (IH Hls)]. by destruct (text_join [nl] (l' :: ls')).
Qed.

Lemma strip_pad pre x post c d r q :
  spaces pre -> spaces post -> x = c :: r -> x = q ++ [d] -> is_space c = false -> is_space d = false -> strip (pre ++ x ++ post) = x.
Proof.
  intros Hpre Hpost Hc Hd Ec Ed. unfold strip. rewrite dropwhile_app_all by done. rewrite Hc at 1. cbn [app dropwhile]. rewrite Ec.
  change (rstrip ((c :: r) ++ post) = x). rewrite <- Hc, rstrip_app_spaces, Hd by done.
  unfold rstrip. rewrite rev_app_distr. cbn. rewrite Ed. cbn. by rewrite rev_involutive.
Qed.

Lemma text_join_last sep ls z : exists q, text_join sep (ls ++ [z]) = q ++ z.
Proof.
  induction ls as [|l ls (q & IH)]; [by exists []|]. cbn [app]. destruct (ls ++ [z]) as [|l' ls'] eqn:E; [by destruct ls|].
  exists (l ++ sep ++ q). change (l ++ sep ++ text_join sep (l' :: ls') = (l ++ sep ++ q) ++ z). by rewrite IH, <- !app_assoc.
Qed.

(** Code that a model puts between fences is what remains, up to the white space
    around it, whatever tag the fence has and whatever white space is around the fences. *)
Lemma fences_stripped pre tag ls post :
  spaces pre -> spaces post -> one_line tag -> Forall one_line ls ->
  _strip_code_fences (pre ++ text_join [nl] ((fence ++ tag) :: ls ++ [fence]) ++ post) = strip (text_join [nl] ls).
Proof.
  intros Hpre Hpost Htag Hls. unfold _strip_code_fences. set (x := text_join _ (_ :: _)).
  assert (exists r, x = "`"%char :: r) as [r Hr] by (subst x; destruct ls; by eexists).
  assert (exists q, x = q ++ ["`"%char]) as [q Hq].
  { destruct (text_join_last [nl] ((fence ++ tag) :: ls) fence) as [q Hq]. exists (q ++ chars "``"). subst x.
    cbn [app] in *. rewrite Hq. by rewrite <- app_assoc. }
  rewrite (strip_pad pre x post _ _ _ _ Hpre Hpost Hr Hq) by done.
  assert (fenced x = true) as -> by (subst x; destruct ls; reflexivity).
  assert (splitlines x = ((fence ++ tag) :: ls) ++ [fence]) as ->.
  { apply (splitlines_join ((fence ++ tag) :: ls)); [|done]. cbn [app]. constructor; [apply Forall_app; by split; [repeat constructor|]|].
    apply Forall_app. split; [done|by repeat constructor]. }
  cbn [app drop_first_fence]. change (fenced (fence ++ tag)) with true. cbn iota. unfold drop_last_fence.
  rewrite last_snoc. change (strip fence) with fence. rewrite bool_decide_true, removelast_last by done. done.
Qed.

Lemma fences_stripped_witness :
  _strip_code_fences (chars (" ```py" +:+ NL +:+ "x = 1" +:+ NL +:+ NL +:+ "y = 2" +:+ NL +:+ "``` ")) = chars ("x = 1" +:+ NL +:+ NL +:+ "y = 2").
Proof.
  apply (fences_stripped (chars " ") (chars "py") [chars "x = 1"; []; chars "y = 2"] (chars " ")); by repeat constructor.
Defined.
