(* ===== verification/Questions.v ===== *)
(** * Questions

    What the PM agent asks about an underspecified request ([O/llm_delegation/text.py]):
    the ambiguity score of a feature contract, the questions of the product policy, the
    structured questions an operator is shown with defaults and options, and the reply in
    words.  Scores are counted in hundredths.  Texts are ASCII, so that the dash stripped
    from a question is the ASCII one. *)

From S2P Require Import Prelude PyVal Agents Regex Bundles Reports Text Replies Fields.

(** ** The ambiguity score *)

(** Whether a question carries the answer that is taken when there is none. *)
Definition has_default (question : val) : bool := str_contains "recommended default" (str_lower (py_str question)).

Definition open_questions (contract : dict) : nat :=
  match dget0 contract "clarifying_questions" with
  | VList l => length (List.filter (fun q => negb (has_default q)) l)
  | _ => O
  end.

Definition needs_clarification (contract : dict) : bool :=
  String.eqb (lower_name (dget0 contract "intake_status")) "needs_clarification".

Definition short_prompt (prompt : string) : bool := (String.length (str_strip prompt) <? 60)%nat.

(** A complex request of one or two requirements. *)
Definition thin (contract : dict) : bool :=
  str_in (str_lower (str_strip (py_str (py_or (dget0 contract "estimated_complexity") (VStr "medium"))))) ["high"; "very_high"] &&
  match dget0 contract "functional_requirements" with VList l => (length l <=? 2)%nat | _ => false end.

Definition _pm_ambiguity_score (contract : dict) (prompt : string) : Z :=
  let score := if needs_clarification contract then 55 else 0 in
  let score := score + Z.min (Z.of_nat (open_questions contract) * 15) 45 in
  let score := if short_prompt prompt then score + 20 else score in
  let score := if thin contract then score + 20 else score in
  Z.min score 100.

(** ** What a request says *)

Definition _FRAMEWORK_LABELS : list (string * string) :=
  [("next.js", "Next.js"); ("react", "React (Vite)"); ("vue", "Vue (Vite)"); ("svelte", "Svelte (Vite)"); ("angular", "Angular CLI")].

(** [(?<![a-z0-9])token(?![a-z0-9])] *)
Definition not_before (x : position) : bool := match x.1 with c :: _ => negb (az09 c) | [] => true end.
Definition not_after (x : position) : bool := match x.2 with c :: _ => negb (az09 c) | [] => true end.
Definition token_re (token : string) : regex := Cat (Look not_before) (Cat (lit token) (Look not_after)).

Definition has_token (t : text) (tokens : list string) : bool := existsb (fun token => search (token_re token) t) tokens.

Definition _pm_framework_default (t language_text : string) : string :=
  match List.find (fun tl => has_token (chars (str_lower t)) [tl.1]) _FRAMEWORK_LABELS with
  | Some (_, label) => label
  | None => if str_contains "typescript" language_text || str_contains "javascript" language_text then "Vite" else "the framework default"
  end.

Definition _QUESTION_TOPICS : list (string * list string) :=
  [("packaging", ["packaged for handoff"; "package"; "handoff"]); ("acceptance", ["count as done"; "acceptance"])].

Definition _question_topic (question : string) : option string :=
  fst <$> List.find (fun tm => existsb (fun marker => str_contains marker (str_lower question)) tm.2) _QUESTION_TOPICS.

(** [" ".join(str(item) for item in value or [])] *)
Definition words_of (value : val) : result string :=
  items ← py_iter (py_or value (VList []));
  Ok (str_join " " (py_str <$> items)).

Definition product_text (prompt : string) (contract : dict) : result string :=
  requirements ← words_of (dget0 contract "functional_requirements");
  assumptions ← words_of (dget0 contract "assumptions");
  Ok (str_lower (str_join " " [prompt; get_text contract "summary"; requirements; assumptions])).

Definition game_tokens := ["game"; "snake"; "pong"; "tetris"; "rpg"; "platformer"].
Definition app_tokens := ["app"; "application"; "dashboard"; "frontend"; "ui"; "user interface"; "angular"; "react"; "next.js"; "vue"].
Definition stdlib_tokens :=
  ["standard library"; "stdlib"; "no pygame"; "no pip"; "no pyqt"; "zero-dependency"; "zero dependency"; "no third-party"].
Definition control_tokens := ["wasd"; "arrow"; "arrows"; "keyboard"].
Definition loop_tokens := ["score"; "collision"; "wall"; "game over"; "quit"].
Definition terminal_tokens := ["terminal"; "curses"; "msvcrt"; "console"; "no curses"; "windows without curses"].
Definition style_tokens := ["theme"; "visual"; "style"; "brand"; "neon"; "minimal"; "retro"; "dark mode"; "light mode"; "pixel"].
Definition gameplay_tokens :=
  ["power"; "level"; "difficulty"; "speed"; "leaderboard"; "save"; "pause"; "mobile"; "touch"; "keyboard"].
Definition packaging_tokens := ["start.bat"; "docker"; "electron"; "installer"; "zip"; "readme"; "dev server"; "production build"].
Definition acceptance_tokens := ["test"; "acceptance"; "done"; "verify"; "lint"; "playtest"].

(** [\b\w+\.(py|js|ts|go|rs)\b] *)
Definition source_file_re : regex :=
  Cat word_boundary (Cat (plus (Chr word_char)) (Cat (lit ".") (Cat (alts (lit <$> ["py"; "js"; "ts"; "go"; "rs"])) word_boundary))).

Definition is_game (t : text) : bool := has_token t game_tokens.
Definition is_interactive_app (t : text) : bool := is_game t || has_token t app_tokens.
Definition specified_single_file (t : text) : bool := has_token t ["single file"; "single python file"] || search source_file_re t.
Definition fully_specified_cli_game (t : text) : bool :=
  is_game t && has_token t stdlib_tokens && specified_single_file t && has_token t control_tokens.

(** ** The product questions *)

Definition style_question : string := "What visual direction should the UI use? Recommended default: polished dark arcade style with clear contrast and responsive layout.".
Definition scope_question : string := "What gameplay scope should be included beyond the core loop? Recommended default: keyboard controls, score, pause/resume, restart, and increasing speed.".
Definition packaging_question (framework : string) : string :=
  "How should the project be packaged for handoff? Recommended default: complete " +:+ framework +:+ " project with install/start script and run instructions.".
Definition acceptance_question : string := "What should count as done for acceptance? Recommended default: app builds, starts locally, and the main user flow can be manually verified.".

(** The questions that the text leaves open. *)
Definition open_topics (t : text) (framework : string) : list string :=
  let stdlib := has_token t stdlib_tokens in
  let looped := has_token t loop_tokens in
  mjoin [if negb (has_token t terminal_tokens) && negb stdlib && negb (has_token t style_tokens) then [style_question] else [];
         if is_game t && negb (has_token t control_tokens) && negb looped && negb (has_token t gameplay_tokens) then [scope_question] else [];
         if negb (specified_single_file t) && negb stdlib && negb (has_token t packaging_tokens) then [packaging_question framework] else [];
         if negb looped && negb (has_token t acceptance_tokens) then [acceptance_question] else []].

Definition topic_asked (existing : list string) (question : string) : bool :=
  match _question_topic question with
  | Some topic => str_in topic (omap _question_topic existing)
  | None => false
  end.

Definition add_question (existing questions : list string) (question : string) : list string :=
  if topic_asked existing question then questions
  else if str_in (str_lower (str_strip question)) existing || str_in question questions then questions
  else questions ++ [question].

(** [[str(x).strip() for x in value or [] if str(x).strip()]] *)
Definition stripped_items (value : val) : result (list string) :=
  items ← py_iter (py_or value (VList []));
  Ok (List.filter has_text ((fun item => str_strip (py_str item)) <$> items)).

Definition _pm_product_clarifying_questions (prompt : string) (contract : dict) (requested_target_language : option string) : result (list string) :=
  words ← product_text prompt contract;
  languages ← py_iter (py_or (dget0 contract "target_languages") (VList []));
  let language_text :=
    str_lower (str_strip (default "" requested_target_language)) +:+ " " +:+ str_join " " ((fun item => str_lower (py_str item)) <$> languages) in
  let t := chars words in
  if negb (is_interactive_app t) then Ok []
  else if fully_specified_cli_game t then Ok []
  else
    asked ← stripped_items (dget0 contract "clarifying_questions");
    let existing := str_lower <$> asked in
    let framework := _pm_framework_default (str_join " " (words :: existing)) language_text in
    Ok (take 3 (foldl (add_question existing) [] (open_topics t framework))).

(** ** Structured questions *)

Definition question_entry (id question recommended_default : string) (options : list string) (impact : string) : dict :=
  [("id", VStr id); ("question", VStr question); ("recommended_default", VStr recommended_default);
   ("options", VStrs options); ("impact", VStr impact)].

Definition numbered (n : nat) : string := "q" +:+ pretty (Z.of_nat n).
Definition recommended (rec_default : string) : string := rec_default +:+ " (Recommended)".

Definition with_recommended (rec_default : string) (options : list string) : list string :=
  if has_text rec_default && negb (existsb (fun opt => str_contains (str_lower rec_default) (str_lower opt)) options)
  then take 5 (recommended rec_default :: options) else options.

Definition from_raw (idx : nat) (item : dict) : option dict :=
  let q_text := _clean_text (dget_or item "question" (VStr "")) 1000 false in
  if has_text q_text then
    let rec_default := _clean_text (dget_or item "recommended_default" (VStr "")) 400 false in
    Some (question_entry (str_or (_clean_text (py_or (dget0 item "id") (VStr (numbered idx))) 32 false) (numbered idx))
            q_text rec_default (with_recommended rec_default (_string_list (dget0 item "options") 5 300))
            (_clean_text (dget_or item "impact" (VStr "")) 400 false))
  else None.

Definition structured_from_raw (raw_structured : val) : list dict :=
  match raw_structured with
  | VList l => omap (fun ix => as_dict ix.2 ≫= from_raw ix.1) (imap (fun i x => (S i, x)) (take 5 l))
  | _ => []
  end.

(** A lazy [+]: the shortest run of characters of a class after which [k] agrees. *)
Fixpoint shortest {A} (p : ascii -> bool) (k : position -> option A) (l t : list ascii) : option A :=
  match t with
  | [] => None
  | c :: t' =>
      if p c then match k (c :: l, t') with Some v => Some v | None => shortest p k (c :: l) t' end else None
  end.

(** [\(?recommended\s+default\s*:\s*([^)]+?)\)?\.?$], ignoring case *)
Definition before_default : regex :=
  Cat (opt (Chr (Ascii.eqb "("))) (Cat (lit_ci "recommended") (Cat (plus (Chr is_space))
    (Cat (lit_ci "default") (Cat spaces_re (Cat (lit ":") spaces_re))))).
Definition after_default : regex := Cat (opt (Chr (Ascii.eqb ")"))) (Cat (opt (Chr (Ascii.eqb "."))) text_end).

Definition default_at (x : position) : option (nat * text) :=
  accept before_default (fun y =>
    shortest (fun c => negb (Ascii.eqb c ")"))
      (fun z => accept after_default (fun _ => Some (length x.1, take (length y.2 - length z.2) y.2)) z) y.1 y.2) x.

Definition find_default (t : text) : option (nat * text) := head (omap default_at (positions [] t)).

(** The question and its default; the question without a default is the whole text. *)
Definition split_default (cleaned : string) : string * string :=
  match find_default (chars cleaned) with
  | Some (start, g) =>
      (str_or (unchars (rev (dropwhile (any_of "- ") (rev (strip (take start (chars cleaned))))))) cleaned,
       _clean_text (VStr (unchars g)) 400 false)
  | None => (cleaned, "")
  end.

Definition same_question (question : string) (s : dict) : bool :=
  String.eqb (str_lower (py_str (dget0 s "question"))) (str_lower question).

Definition add_structured (acc : list dict * list string) (question_str : val) : list dict * list string :=
  let '(structured, seen_questions) := acc in
  let cleaned := str_strip (py_str (py_or question_str (VStr ""))) in
  if String.eqb cleaned "" || str_in (str_lower cleaned) seen_questions then acc
  else
    let '(question_part, rec_default) := split_default cleaned in
    if existsb (same_question question_part) structured then acc
    else (structured ++ [question_entry (numbered (S (length structured))) question_part rec_default
                           (if has_text rec_default then [recommended rec_default] else []) ""],
          str_lower cleaned :: seen_questions).

Definition _build_structured_clarifying_questions (raw_structured : val) (clarifying_questions : list val) : list dict :=
  let structured := structured_from_raw raw_structured in
  let seen_questions := (fun s => str_lower (py_str (dget0 s "question"))) <$> structured in
  take 5 (foldl add_structured (structured, seen_questions) (take 5 clarifying_questions)).1.

(** ** The reply in words *)

Definition reply_text (value : val) : string := match value with VStr _ => _clean_text value 2000 true | _ => "" end.

Definition _synthesize_pm_conversational_reply (contract : dict) (raw_reply : val) : result string :=
  if has_text (reply_text raw_reply) then Ok (reply_text raw_reply)
  else
    let existing := reply_text (dget0 contract "conversational_reply") in
    if has_text existing then Ok existing
    else
      let title := _clean_text (py_or (dget0 contract "title") (VStr "your mission")) 120 false in
      let questions := py_or (dget0 contract "clarifying_questions") (VList []) in
      reqs ← py_len (py_or (dget0 contract "functional_requirements") (VList []));
      criteria ← py_len (py_or (dget0 contract "acceptance_criteria") (VList []));
      let scope := "the Statement of Work for " +:+ title +:+ " with " +:+ pretty reqs +:+ " functional requirement(s) and " +:+
                   pretty criteria +:+ " acceptance criteria. " in
      if bool_decide (dget0 contract "intake_status" = VStr "needs_clarification") && truthy questions then
        n ← py_len questions;
        Ok ("I've drafted " +:+ scope +:+ "Before we lock the scope, please review the " +:+ pretty n +:+
            " clarifying question(s) below or accept the recommended defaults to proceed.")
      else Ok ("I've prepared " +:+ scope +:+ "Review the contract in the studio panel and approve when ready to launch.").

(** ** The policy *)

Definition is_followup (conversation_context user_intent : val) : result bool :=
  if String.eqb (lower_name user_intent) "finalize_plan" then Ok true
  else match conversation_context with
       | VDict context =>
           if existsb (fun key => truthy (dget0 context key)) ["decision_memory"; "answered_questions"; "prior_sow"] then Ok true
           else turns ← py_int (py_or (dget0 context "turn_count") (VInt 0)); Ok (1 <? turns)
       | _ => Ok false
       end.

(** The structured questions and the reply of a contract. *)
Definition presented (contract : dict) (raw_reply : val) : result dict :=
  questions ← py_iter (py_or (dget0 contract "clarifying_questions") (VList []));
  let contract := dset contract "clarifying_questions_structured"
                    (VList (VDict <$> _build_structured_clarifying_questions (dget0 contract "clarifying_questions_structured") questions)) in
  reply ← _synthesize_pm_conversational_reply contract raw_reply;
  Ok (dset contract "conversational_reply" (VStr reply)).

Definition assumed_defaults : string :=
  "If the operator says to proceed with assumptions, use the recommended defaults from the clarifying questions.".

Definition ask_operator (contract : dict) (prompt : string) (questions : list string) : result dict :=
  existing ← stripped_items (dget0 contract "clarifying_questions");
  let contract := dset contract "clarifying_questions" (VStrs (take 5 (existing ++ questions))) in
  let contract := dset contract "intake_status" (VStr "needs_clarification") in
  assumptions ← stripped_items (dget0 contract "assumptions");
  let contract := dset contract "assumptions" (VStrs (take 10 (assumptions ++ [assumed_defaults]))) in
  Ok (dset contract "ambiguity_score" (VInt (_pm_ambiguity_score contract prompt))).

Definition _apply_pm_product_clarification_policy (contract : dict) (prompt : string) (requested_target_language : option string)
    (conversation_context user_intent : val) : result dict :=
  followup ← is_followup conversation_context user_intent;
  if (followup : bool) then presented contract VNone
  else
    questions ← _pm_product_clarifying_questions prompt contract requested_target_language;
    match questions with
    | [] => presented contract VNone
    | _ =>
        contract ← ask_operator contract prompt questions;
        contract ← presented contract (dget0 contract "_raw_conversational_reply");
        Ok (ddel contract "_raw_conversational_reply")
    end.

Example default_demo :
  split_default "Which store? (Recommended default: SQLite)." = ("Which store?", "SQLite") /\
  split_default "Why?" = ("Why?", "") /\
  _pm_product_clarifying_questions "Build a snake game" [] None = Ok [style_question; scope_question; packaging_question "the framework default"].
Proof. vm_compute. by split_and!. Qed.

(** ** What is asked *)

Lemma add_question_spec existing questions q :
  add_question existing questions q = questions \/
  (add_question existing questions q = questions ++ [q] /\ q ∉ questions /\ topic_asked existing q = false).
Proof.
  unfold add_question. destruct (topic_asked existing q); [by left|].
  destruct (str_in (str_lower (str_strip q)) existing); [by left|]. cbn [orb].
  destruct (str_in q questions) eqn:E; [by left|]. right. by split_and!; [|apply str_in_false|].
Qed.

Lemma add_questions_spec existing l questions :
  NoDup questions -> NoDup (foldl (add_question existing) questions l) /\
  forall q, q ∈ foldl (add_question existing) questions l -> q ∈ questions \/ q ∈ l /\ topic_asked existing q = false.
Proof.
  revert questions. induction l as [|x l IH]; intros questions Hnd; cbn [foldl]; [by split; [|left]|].
  destruct (add_question_spec existing questions x) as [->|(-> & Hx & Ht)].
  - destruct (IH _ Hnd) as [H1 H2]. split; [done|]. intros q [H|[H ?]]%H2; [by left|right; by split; [right|]].
  - destruct (IH (questions ++ [x])) as [H1 H2].
    { apply NoDup_app. split_and!; [done|by intros y Hy ->%list_elem_of_singleton|apply NoDup_singleton]. }
    split; [done|]. intros q [H|[H ?]]%H2; [|right; by split; [right|]].
    apply elem_of_app in H as [H| ->%list_elem_of_singleton]; [by left|right; by split; [left|]].
Qed.

Definition frameworks : list string := (snd <$> _FRAMEWORK_LABELS) ++ ["Vite"; "the framework default"].

Lemma framework_known t language_text : _pm_framework_default t language_text ∈ frameworks.
Proof.
  unfold _pm_framework_default. destruct (List.find _ _) as [[token label]|] eqn:E.
  - apply find_some in E as [Hin _]. apply list_elem_of_In in Hin. apply elem_of_app. left.
    apply list_elem_of_fmap. by exists (token, label).
  - apply elem_of_app. right. destruct (_ || _); [by left|by right; left].
Qed.

Lemma open_topics_default t framework q : framework ∈ frameworks -> q ∈ open_topics t framework -> has_default (VStr q) = true.
Proof.
  intros Hf Hq. assert (q ∈ [style_question; scope_question; packaging_question framework; acceptance_question]) as H.
  { unfold open_topics in Hq. cbn [mjoin list_join] in Hq. rewrite app_nil_r, !elem_of_app in Hq.
    destruct Hq as [Hq|[Hq|[Hq|Hq]]]; destruct (_ && _) in Hq; try (by apply elem_of_nil in Hq);
      apply list_elem_of_singleton in Hq as ->; set_solver. }
  assert (forallb (fun f => forallb (fun q => has_default (VStr q)) [style_question; scope_question; packaging_question f; acceptance_question]) frameworks = true)
    as Hall by by vm_compute.
  rewrite forallb_forall in Hall. specialize (Hall framework (proj1 (list_elem_of_In _ _) Hf)). rewrite forallb_forall in Hall.
  by apply Hall, list_elem_of_In.
Qed.

Lemma product_questions_spec prompt contract language qs :
  _pm_product_clarifying_questions prompt contract language = Ok qs ->
  (length qs <= 3)%nat /\ NoDup qs /\ Forall (fun q => has_default (VStr q) = true) qs.
Proof.
  unfold _pm_product_clarifying_questions. intros H.
  apply result_bind_Ok in H as (words & _ & H). apply result_bind_Ok in H as (languages & _ & H).
  destruct (negb (is_interactive_app (chars words))); [injection H as <-; by repeat constructor; cbn; lia|].
  destruct (fully_specified_cli_game (chars words)); [injection H as <-; by repeat constructor; cbn; lia|].
  apply result_bind_Ok in H as (asked & _ & H). injection H as <-.
  set (framework := _pm_framework_default _ _). set (l := open_topics _ framework).
  destruct (add_questions_spec (str_lower <$> asked) l [] (NoDup_nil_2)) as [Hnd Hin].
  set (qs := foldl _ _ _) in *. assert (NoDup (take 3 qs ++ drop 3 qs)) as [Hqs _]%NoDup_app by by rewrite take_drop.
  split_and!; [rewrite length_take; lia|done|]. apply Forall_take, Forall_forall. intros q [H|[Hq _]]%Hin; [by apply elem_of_nil in H|].
  by eapply open_topics_default; [apply framework_known|].
Qed.

(** ** Holding a mission for the policy's questions *)

Lemma open_questions_VStrs contract l :
  dget0 contract "clarifying_questions" = VStrs l -> Forall (fun q => has_default (VStr q) = true) l -> open_questions contract = O.
Proof.
  intros E Hl. unfold open_questions. rewrite E. unfold VStrs. cbv iota. clear E.
  induction Hl as [|q l Hq Hl IH]; [done|]. cbn [fmap list_fmap List.filter]. by rewrite Hq.
Qed.

Definition score_keys : list string := ["intake_status"; "clarifying_questions"; "estimated_complexity"; "functional_requirements"].

Lemma score_ext c c' prompt :
  (forall key, key ∈ score_keys -> dget0 c key = dget0 c' key) -> _pm_ambiguity_score c prompt = _pm_ambiguity_score c' prompt.
Proof.
  intros H. unfold _pm_ambiguity_score, needs_clarification, open_questions, thin.
  by rewrite (H "intake_status"), (H "clarifying_questions"), (H "estimated_complexity"), (H "functional_requirements") by (apply str_in_spec; reflexivity).
Qed.

(** What asking changes. *)
Lemma ask_fields contract prompt questions asked :
  ask_operator contract prompt questions = Ok asked ->
  exists existing, stripped_items (dget0 contract "clarifying_questions") = Ok existing /\
    dget0 asked "clarifying_questions" = VStrs (take 5 (existing ++ questions)) /\
    dget0 asked "intake_status" = VStr "needs_clarification" /\
    dget0 asked "ambiguity_score" = VInt (_pm_ambiguity_score asked prompt) /\
    dget0 asked "estimated_complexity" = dget0 contract "estimated_complexity" /\
    dget0 asked "functional_requirements" = dget0 contract "functional_requirements".
Proof.
  unfold ask_operator. intros (existing & He & H)%result_bind_Ok. apply result_bind_Ok in H as (assumptions & _ & H). injection H as <-.
  exists existing. split; [done|]. set (scored := dset _ "assumptions" _). split_and!.
  - subst scored. by dict_simpl.
  - subst scored. by dict_simpl.
  - rewrite dget0_dset_eq. f_equal. apply score_ext. intros key Hkey. rewrite dget0_dset_ne; [done|]. intros <-.
    apply str_in_spec in Hkey. discriminate Hkey.
  - subst scored. by dict_simpl.
  - subst scored. by dict_simpl.
Qed.

Lemma presented_keeps contract raw_reply result key :
  presented contract raw_reply = Ok result -> key <> "clarifying_questions_structured" -> key <> "conversational_reply" ->
  dget0 result key = dget0 contract key.
Proof.
  unfold presented. intros (questions & _ & H)%result_bind_Ok. apply result_bind_Ok in H as (reply & _ & H). injection H as <-.
  intros H1 H2. by rewrite !dget0_dset_ne by done.
Qed.

(** The score of a contract all whose questions have defaults, when it asks. *)
Lemma score_of_defaults contract prompt :
  dget0 contract "intake_status" = VStr "needs_clarification" -> open_questions contract = O ->
  70 <= _pm_ambiguity_score contract prompt <-> short_prompt prompt = true \/ thin contract = true.
Proof.
  intros Hs Ho. unfold _pm_ambiguity_score. rewrite Ho. unfold needs_clarification. rewrite Hs.
  change (String.eqb (lower_name (VStr "needs_clarification")) "needs_clarification") with true. cbn [Z.of_nat].
  destruct (short_prompt prompt), (thin contract); cbn; split; intros H; try (by left); try (by right); try lia; by destruct H.
Qed.

(** C33: when the product policy asks and every question already there has a default, the
    contract asks for clarification with at most five questions, and its score reaches the
    threshold that holds a mission exactly when the prompt is short or the contract thin:
    the policy's own questions never hold a mission by themselves. *)
Theorem policy_holds contract prompt language context intent q qs existing result :
  is_followup context intent = Ok false ->
  _pm_product_clarifying_questions prompt contract language = Ok (q :: qs) ->
  stripped_items (dget0 contract "clarifying_questions") = Ok existing ->
  Forall (fun x => has_default (VStr x) = true) existing ->
  _apply_pm_product_clarification_policy contract prompt language context intent = Ok result ->
  dget0 result "intake_status" = VStr "needs_clarification" /\
  dget0 result "clarifying_questions" = VStrs (take 5 (existing ++ q :: qs)) /\
  exists score, dget0 result "ambiguity_score" = VInt score /\
    (70 <= score <-> short_prompt prompt = true \/ thin contract = true).
Proof.
  intros Hf Hq He Hd. unfold _apply_pm_product_clarification_policy. rewrite Hf. cbn [mbind result_bind]. rewrite Hq. cbn [mbind result_bind].
  intros (asked & Ha & H)%result_bind_Ok. apply result_bind_Ok in H as (shown & Hp & H). injection H as <-.
  apply ask_fields in Ha as (existing' & He' & Hcq & His & Hsc & Hc & Hr). rewrite He in He'. injection He' as <-.
  assert (forall key, key ∉ ["_raw_conversational_reply"; "clarifying_questions_structured"; "conversational_reply"] ->
    dget0 (ddel shown "_raw_conversational_reply") key = dget0 asked key) as Hk.
  { intros key Hkey. unfold dget0 at 1. rewrite dget_ddel_ne by (intros <-; apply Hkey; by left).
    apply (presented_keeps _ _ _ _ Hp); intros ->; apply Hkey; set_solver. }
  assert (thin asked = thin contract) as Ht by (unfold thin; by rewrite Hc, Hr).
  destruct (product_questions_spec _ _ _ _ Hq) as (_ & _ & Hqs).
  rewrite !Hk by (apply str_in_false; reflexivity). split; [done|]. split; [done|]. exists (_pm_ambiguity_score asked prompt).
  split; [done|]. rewrite <- Ht. apply score_of_defaults; [done|].
  eapply open_questions_VStrs; [exact Hcq|]. apply Forall_take, Forall_app. done.
Qed.

Lemma policy_holds_witness :
  let contract := [("clarifying_questions", VStrs ["Which store? Recommended default: SQLite"])] in
  let language := None in
  exists result, _apply_pm_product_clarification_policy contract "Build a snake game" language VNone VNone = Ok result /\
    dget0 result "intake_status" = VStr "needs_clarification" /\ exists score, dget0 result "ambiguity_score" = VInt score /\ 70 <= score.
Proof.
  cbn zeta. destruct (_apply_pm_product_clarification_policy _ _ _ _ _) as [result|e] eqn:E; [|exfalso; vm_compute in E; discriminate].
  exists result. split; [done|].
  destruct (policy_holds [("clarifying_questions", VStrs ["Which store? Recommended default: SQLite"])] "Build a snake game" None VNone VNone
    style_question [scope_question; packaging_question "the framework default"] ["Which store? Recommended default: SQLite"] result) as (H1 & _ & score & H2 & H3);
    [by vm_compute..|by repeat constructor|exact E|].
  split; [exact H1|]. exists score. split; [exact H2|]. apply H3. left. reflexivity.
Defined.

(** ** Structured questions are well formed *)

Definition offered (d : string) (options : list string) : Prop :=
  d = "" \/ exists o, o ∈ options /\ str_contains (str_lower d) (str_lower o) = true.

Definition entry_ok (e : dict) : Prop :=
  exists id question d options impact, e = question_entry id question d options impact /\
    id <> "" /\ question <> "" /\ (length options <= 5)%nat /\ offered d options.

Lemma str_contains_prefix n s : str_contains n (n +:+ s) = true.
Proof.
  assert (String.prefix n (n +:+ s) = true) as H.
  { induction n as [|c n IH]; [by destruct s|]. change (String.prefix (String c n) (String c (n +:+ s)) = true).
    cbn [String.prefix]. destruct (Ascii.ascii_dec c c); [exact IH|congruence]. }
  destruct (n +:+ s); cbn [str_contains]; by rewrite H.
Qed.

Lemma str_lower_app s t : str_lower (s +:+ t) = str_lower s +:+ str_lower t.
Proof.
  unfold str_lower. rewrite chars_app, fmap_app. generalize (ascii_lower <$> chars s) as l.
  induction l as [|c l IH]; [done|]. set (m := ascii_lower <$> chars t) in *.
  change (String c (unchars (l ++ m)) = String c (unchars l +:+ unchars m)). by rewrite IH.
Qed.

Lemma recommended_offers d : str_contains (str_lower d) (str_lower (recommended d)) = true.
Proof. unfold recommended. rewrite str_lower_app. apply str_contains_prefix. Qed.

Lemma with_recommended_ok d options :
  (length options <= 5)%nat -> (length (with_recommended d options) <= 5)%nat /\ offered d (with_recommended d options).
Proof.
  intros Hl. unfold with_recommended, offered. destruct (has_text d && _) eqn:E.
  - split; [rewrite length_take; lia|]. right. exists (recommended d). split; [by left|apply recommended_offers].
  - split; [done|]. apply andb_false_iff in E as [E|E]; [left; unfold has_text in E; by destruct (String.eqb_spec d "")|].
    right. apply negb_false_iff, existsb_exists in E as (o & Hin & Ho). exists o. split; [by apply list_elem_of_In|done].
Qed.

Lemma str_or_ne a b : b <> "" -> str_or a b <> "".
Proof. unfold str_or. by destruct (String.eqb_spec a ""). Qed.

Lemma from_raw_ok idx item e : from_raw idx item = Some e -> entry_ok e.
Proof.
  unfold from_raw. destruct (has_text _) eqn:Hq; [|done]. apply nonempty_spec in Hq. intros [= <-].
  destruct (string_list_clean (dget0 item "options") 5 300) as [Hl _].
  destruct (with_recommended_ok (_clean_text (dget_or item "recommended_default" (VStr "")) 400 false) _ Hl) as [Hl' Ho].
  do 5 eexists. split; [reflexivity|]. split_and!; [by apply str_or_ne|done|done|done].
Qed.

Lemma add_structured_ok acc q : Forall entry_ok acc.1 -> Forall entry_ok (add_structured acc q).1.
Proof.
  destruct acc as [structured seen]. intros Hs. unfold add_structured.
  set (cleaned := str_strip _). destruct (String.eqb_spec cleaned "") as [|Hne]; [done|]. cbn [orb].
  destruct (str_in _ seen); [done|]. destruct (split_default cleaned) as [question d] eqn:E.
  destruct (existsb _ structured); [done|]. apply Forall_app. split; [done|]. constructor; [|constructor].
  do 5 eexists. split; [reflexivity|]. split_and!; [done| |by destruct (has_text d); cbn; lia|].
  - unfold split_default in E. destruct (find_default _) as [[start g]|]; injection E as <- _; [by apply str_or_ne|done].
  - unfold offered, has_text. destruct (String.eqb_spec d "") as [->|]; [by left|]. right. exists (recommended d).
    split; [by left|apply recommended_offers].
Qed.

(** An operator is shown at most five questions, each with an identifier, a text, at
    most five options, and its recommended default among them. *)
Lemma structured_questions_ok raw_structured clarifying_questions :
  (length (_build_structured_clarifying_questions raw_structured clarifying_questions) <= 5)%nat /\
  Forall entry_ok (_build_structured_clarifying_questions raw_structured clarifying_questions).
Proof.
  unfold _build_structured_clarifying_questions. split; [rewrite length_take; lia|]. apply Forall_take.
  assert (Forall entry_ok (structured_from_raw raw_structured)) as H.
  { unfold structured_from_raw. destruct raw_structured; try constructor. apply Forall_forall.
    intros e (ix & _ & He)%list_elem_of_omap. destruct (as_dict ix.2); [|done]. by eapply from_raw_ok. }
  revert H. generalize (structured_from_raw raw_structured) as structured. intros structured.
  generalize ((fun s => str_lower (py_str (dget0 s "question"))) <$> structured) as seen.
  revert structured. induction (take 5 clarifying_questions) as [|q l IH]; intros structured seen H; [exact H|].
  cbn [foldl]. destruct (add_structured (structured, seen) q) as [s' seen'] eqn:E. apply IH.
  pose proof (add_structured_ok (structured, seen) q H) as H'. by rewrite E in H'.
Qed.

(** A follow-up or a finalised plan is asked nothing more: its questions, its status
    and its score stay as they are. *)
Lemma followup_asks_nothing contract prompt language context intent result key :
  is_followup context intent = Ok true -> key ∈ ["clarifying_questions"; "intake_status"; "ambiguity_score"; "assumptions"] ->
  _apply_pm_product_clarification_policy contract prompt language context intent = Ok result ->
  dget0 result key = dget0 contract key.
Proof.
  intros Hf Hk. unfold _apply_pm_product_clarification_policy. rewrite Hf. cbn [mbind result_bind].
  intros H. apply (presented_keeps _ _ _ _ H); intros ->; apply str_in_spec in Hk; discriminate Hk.
Qed.

Lemma followup_asks_nothing_witness :
  exists result, _apply_pm_product_clarification_policy [] "Build a game" None VNone (VStr "finalize_plan") = Ok result /\
    dget0 result "intake_status" = VNone.
Proof.
  destruct (_apply_pm_product_clarification_policy [] "Build a game" None VNone (VStr "finalize_plan")) as [result|e] eqn:E;
    [|exfalso; vm_compute in E; discriminate].
  exists result. split; [done|].
  apply (followup_asks_nothing [] "Build a game" None VNone (VStr "finalize_plan") result "intake_status"); [reflexivity|apply str_in_spec; reflexivity|exact E].
Defined.

(** The policy asks for clarification although none of its questions fits. *)
Example questions_dropped :
  let existing := ["a?"; "b?"; "c?"; "d?"; "e?"] in
  match _apply_pm_product_clarification_policy [("clarifying_questions", VStrs existing); ("intake_status", VStr "ready")]
          "Build a snake game" None VNone VNone with
  | Ok result => dget0 result "clarifying_questions" = VStrs existing /\ dget0 result "intake_status" = VStr "needs_clarification"
  | Raise _ => False
  end.
Proof. vm_compute. by split. Qed.

(** A field that is null in the reply is shown as the word None. *)
Example null_is_text :
  (fun e => dget0 e "question") <$> _build_structured_clarifying_questions (VList [VDict [("question", VNone)]]) [] = [VStr "None"].
Proof. by_compute. Qed.
