(* ===== verification/Delegation.v ===== *)
(** * Delegation

    Who does what: how the replies of models become a CEO delegation, logic clusters, a
    pod-manager delegation, a specialist plan, generated code and a pod group standard
    ([O/llm_delegation/normalizers.py], [O/llm_delegation/generators.py]), and the
    deterministic results that stand in for them ([O/llm_delegation/fallbacks.py]).
    A model's answer is an argument ([None]: no object); prompts and metrics are left out. *)

From S2P Require Import Prelude PyVal Agents Regex Bundles Reports Text Replies Fields Questions Contracts.

Definition _VALID_POD_MANAGER_IDS : list string := dvalues POD_MANAGER_BY_LANGUAGE.
Definition _VALID_SPECIALIST_IDS : list string := dvalues SPECIALIST_BY_LANGUAGE.

Definition choose_pod_manager (value : val) (fallback : string) : string := _normalize_agent_choice value _VALID_POD_MANAGER_IDS fallback.
Definition choose_specialist (value : val) (fallback : string) : string := _normalize_agent_choice value _VALID_SPECIALIST_IDS fallback.

(** ** Logic clusters *)

Record cluster := mkCluster {
  c_cluster_id : string; c_title : string; c_domain : string; c_priority : string; c_pod_manager : string; c_specialist : string;
  c_requirement_refs : list string; c_depends_on : list string; c_rationale : string;
}.

Definition cluster_val (c : cluster) : val :=
  VDict [("cluster_id", VStr (c_cluster_id c)); ("title", VStr (c_title c)); ("domain", VStr (c_domain c)); ("priority", VStr (c_priority c));
         ("pod_manager_agent_id", VStr (c_pod_manager c)); ("specialist_agent_id", VStr (c_specialist c));
         ("requirement_refs", VStrs (c_requirement_refs c)); ("depends_on", VStrs (c_depends_on c)); ("rationale", VStr (c_rationale c))].

(** Who a cluster falls to when it does not say. *)
Definition default_agents (ceo_delegation : dict) (requested_target_language : option string) : string * string :=
  (choose_pod_manager (dget0 ceo_delegation "pod_manager_agent_id") (resolve_pod_manager_agent_id requested_target_language),
   choose_specialist (dget0 ceo_delegation "specialist_agent_id") (resolve_specialist_agent_id requested_target_language)).

Definition cleaned_or (item : dict) (key fallback : string) (max_length : Z) : string :=
  _clean_text (py_or (dget0 item key) (VStr fallback)) max_length false.

Definition raw_cluster (agents : string * string) (index : nat) (item : dict) : cluster :=
  let domain := _clean_text (py_or (dget0 item "domain") (py_or (dget0 item "title") (VStr "general"))) 64 false in
  mkCluster (cleaned_or item "cluster_id" (_cluster_id index domain) 80) (cleaned_or item "title" domain 96) domain
    (_priority (dget0 item "priority")) (choose_pod_manager (dget0 item "pod_manager_agent_id") agents.1)
    (choose_specialist (dget0 item "specialist_agent_id") agents.2) (_string_list (dget0 item "requirement_refs") 8 1000)
    (_string_list (dget0 item "depends_on") 8 96) (cleaned_or item "rationale" "Grouped by related domain scope." 240).

(** [str.title()]: letters after a letter in lower case, others in upper case. *)
Fixpoint title_from (after_letter : bool) (t : text) : text :=
  match t with
  | [] => []
  | c :: t' => (if after_letter then ascii_lower c else ascii_upper c) :: title_from (is_alpha c) t'
  end.
Definition str_title (s : string) : string := unchars (title_from false (chars s)).

Definition fallback_domains (mission_contract : dict) (items : list dict) : list string :=
  first_list (first_list (_string_list (dget0 mission_contract "required_domains") 8 1000)
             ((fun item => cleaned_or item "domain" "general" 64) <$> take 8 items)) ["general"].

Definition in_domain (key : string) (item : dict) : bool := String.eqb (str_lower (cleaned_or item "domain" "" 64)) key.

Definition fallback_cluster (agents : string * string) (items : list dict) (index : nat) (domain : string) : cluster :=
  let matching := List.filter (in_domain (str_lower domain)) items in
  let concept item := _clean_text (py_or (dget0 item "concept") (py_or (dget0 item "intent") (VStr domain))) 80 false in
  mkCluster (_cluster_id index domain) (str_title domain +:+ " Cluster") domain
    (match matching with item :: _ => _priority (dget0 item "priority") | [] => "MEDIUM" end) agents.1 agents.2
    (take 8 (concept <$> matching)) [] "Deterministic cluster from mission contract domain scope.".

Definition add_fallback_cluster (agents : string * string) (items : list dict) (acc : list string * list cluster) (domain : string) : list string * list cluster :=
  let '(seen, clusters) := acc in
  let domain := str_or domain "general" in
  if str_in (str_lower domain) seen then acc
  else (str_lower domain :: seen, clusters ++ [fallback_cluster agents items (S (length clusters)) domain]).

Definition fallback_clusters (mission_contract : dict) (agents : string * string) : list cluster :=
  let items := dicts (dget0 mission_contract "logicnode_requirements") in
  take 8 (foldl (add_fallback_cluster agents items) ([], []) (fallback_domains mission_contract items)).2.

Definition clusters_report (clusters : list cluster) (by_whom : dict) : dict :=
  [("schema_version", VStr "logic_clusters.v1"); ("clusters", VList (cluster_val <$> clusters))] ++ by_whom.

Definition _fallback_logic_clusters (mission_contract ceo_delegation recommendation : dict) (now : string) (requested_target_language : option string) : dict :=
  clusters_report (fallback_clusters mission_contract (default_agents ceo_delegation requested_target_language)) (by_fallback recommendation now).

Definition _normalize_logic_clusters (raw : dict) (r : route) (now : string) (mission_contract ceo_delegation : dict) (requested_target_language : option string) : dict :=
  let agents := default_agents ceo_delegation requested_target_language in
  let items := omap as_dict (match dget0 raw "clusters" with VList l => take 8 l | _ => [] end) in
  match imap (fun i item => raw_cluster agents (S i) item) items with
  | [] => _fallback_logic_clusters mission_contract ceo_delegation [("provider", VStr (r_provider r)); ("model", VStr (r_model r))] now requested_target_language
  | clusters => clusters_report clusters (by_model r now)
  end.

Definition generate_logic_clusters (answer : option (dict * route)) (recommendation : dict) (now : string) (mission_contract ceo_delegation : dict)
    (requested_target_language : option string) : dict :=
  match answer with
  | None => _fallback_logic_clusters mission_contract ceo_delegation recommendation now requested_target_language
  | Some (parsed, r) => _normalize_logic_clusters parsed r now mission_contract ceo_delegation requested_target_language
  end.

(** ** CEO and pod managers *)

Definition delegation (pod_manager specialist rationale source : string) (by_whom : dict) (mission_context : dict) : dict :=
  [("pod_manager_agent_id", VStr pod_manager); ("specialist_agent_id", VStr specialist); ("rationale", VStr rationale); ("source", VStr source)] ++
  by_whom ++ [("mission_context", VDict mission_context)].

Definition recommended_model (recommendation : dict) : dict :=
  [("model_provider", dget0 recommendation "provider"); ("model", dget0 recommendation "model")].
Definition resolved_model (r : route) : dict :=
  [("llm_route", VStr (r_route r)); ("model_provider", VStr (r_provider r)); ("model", VStr (r_model r))].

Definition _fallback_delegation (requested_target_language : option string) (mission_context recommendation : dict) : dict :=
  delegation (resolve_pod_manager_agent_id requested_target_language) (resolve_specialist_agent_id requested_target_language)
    "Deterministic fallback delegation based on target language mapping." "fallback" (recommended_model recommendation) mission_context.

Definition generate_ceo_delegation (answer : option (dict * route)) (recommendation mission_context : dict) (requested_target_language : option string) : dict :=
  match answer with
  | None => _fallback_delegation requested_target_language mission_context recommendation
  | Some (parsed, r) =>
      let pod_manager_fallback := resolve_pod_manager_agent_id requested_target_language in
      let pod_manager := choose_pod_manager (dget0 parsed "pod_manager_agent_id") pod_manager_fallback in
      delegation (if String.eqb pod_manager pod_manager_fallback then pod_manager else pod_manager_fallback)
        (choose_specialist (dget0 parsed "specialist_agent_id") (resolve_specialist_agent_id requested_target_language))
        (clean_or parsed "rationale" "Delegation synthesized from mission context." 240) "llm" (resolved_model r) mission_context
  end.

(** [force]: [FORCE_LLM_DELEGATION_ROUTING] *)
Definition _can_use_sow_fast_path (force : bool) (mission_context : dict) (requested_target_language : option string) : bool :=
  if force then false
  else if negb (truthy (dget0 mission_context "sow_approved")) then false
  else match dget0 mission_context "feature_contract" with
       | VDict fc =>
           if negb (truthy (dget0 fc "sow_id")) then false
           else if negb (String.eqb (str_upper (str_strip (py_str (py_or (dget0 mission_context "mission_type") (VStr "BUILD_NEW"))))) "BUILD_NEW") then false
           else
             let norm_lang := normalize_language requested_target_language in
             if String.eqb norm_lang "" || negb (dmem POD_MANAGER_BY_LANGUAGE norm_lang) then false
             else match dget0 fc "target_languages" with VList (_ :: _ :: _) => false | _ => true end
       | _ => false
       end.

Definition agent_or (agent : string) (fallback : string) : string := str_or (str_upper (str_strip agent)) fallback.

Definition _fallback_pod_manager_delegation (pod_manager specialist : string) (mission_context recommendation : dict) : dict :=
  delegation pod_manager specialist "Deterministic pod-manager fallback delegation based on language mapping." "fallback"
    (recommended_model recommendation) mission_context.

(** [provider] and [model] are the recommended ones. *)
Definition generate_pod_manager_delegation (force : bool) (answer : option (dict * route)) (recommendation mission_context : dict) (provider model : string)
    (requested_target_language : option string) (pod_manager_agent_id : string) (default_specialist_agent_id : option string) : dict :=
  let pod_manager := str_upper (str_strip pod_manager_agent_id) in
  let fallback_specialist := agent_or (default "" default_specialist_agent_id) (resolve_specialist_agent_id requested_target_language) in
  if _can_use_sow_fast_path force mission_context requested_target_language then
    delegation pod_manager fallback_specialist
      ("SOW-locked fast-path routing to " +:+ fallback_specialist +:+ " for " +:+ default "None" requested_target_language +:+ ".") "sow_locked"
      (resolved_model (mkRoute provider model "fast_path_sow")) mission_context
  else match answer with
       | None => _fallback_pod_manager_delegation pod_manager fallback_specialist mission_context recommendation
       | Some (parsed, r) =>
           delegation pod_manager (choose_specialist (dget0 parsed "specialist_agent_id") fallback_specialist)
             (clean_or parsed "rationale" "Pod manager confirmed specialist routing from mission context." 240) "llm" (resolved_model r) mission_context
       end.

(** ** The specialist's plan *)

Definition _PLAN_BOILERPLATE_PAIRS : list (string * string) :=
  [("refined-ir", "logicnode"); ("pep 585", "traceability matrix"); ("pep 8/585", "traceability matrix"); ("intent extraction", "semantic mapping")].

Definition _looks_like_boilerplate_plan (plan_summary : string) (deliverables : list string) : bool :=
  let blob := str_lower (str_join " " (plan_summary :: deliverables)) in
  existsb (fun pair => str_contains pair.1 blob && str_contains pair.2 blob) _PLAN_BOILERPLATE_PAIRS.

Record plan := mkPlan { plan_summary : string; deliverables : list string; risk_notes : list string }.

Definition _plan_from_contract (mission_context : dict) : result plan :=
  let language := str_lower (str_strip (py_str (py_or (dget0 mission_context "requested_target_language") (VStr "general")))) in
  let feature := dict_value (dget0 mission_context "feature_contract") in
  let contract := dict_value (dget0 mission_context "mission_contract") in
  let title := str_strip (get_text feature "title") in
  let summary := str_strip (py_str (py_or (dget0 feature "summary") (py_or (dget0 contract "contract_summary") (VStr "")))) in
  criteria ← stripped_items (inherited feature contract "acceptance_criteria");
  risks ← stripped_items (inherited feature contract "risk_notes");
  Ok (mkPlan
        (if has_text summary then unchars (take 280 (chars summary))
         else if has_text title then "Implement " +:+ title +:+ " in " +:+ language +:+ "."
         else "Implement the requested " +:+ language +:+ " artifact against the mission contract.")
        (first_list (take 6 criteria) ["Produce the requested " +:+ language +:+ " artifact."; "Keep third-party dependencies at the contract minimum."])
        (first_list (take 4 risks) ["No explicit contract risks recorded."])).

(** The plan a model proposes, mended from the contract where it is missing or boilerplate. *)
Definition settled_plan (parsed mission_context : dict) : result (plan * string) :=
  let proposed := mkPlan (_clean_text (dget_or parsed "plan_summary" (VStr "")) 280 false)
                    (_normalize_text_list (dget0 parsed "deliverables") 6) (_normalize_text_list (dget0 parsed "risk_notes") 6) in
  let boilerplate := _looks_like_boilerplate_plan (plan_summary proposed) (deliverables proposed) in
  if negb (has_text (plan_summary proposed)) || is_nil (deliverables proposed) || boilerplate then
    derived ← _plan_from_contract mission_context;
    Ok (mkPlan (if negb (has_text (plan_summary proposed)) || boilerplate then plan_summary derived else plan_summary proposed)
               (if is_nil (deliverables proposed) || boilerplate then deliverables derived else deliverables proposed)
               (first_list (risk_notes proposed) (risk_notes derived)), "contract")
  else Ok (proposed, "llm").

Definition plan_fields (p : plan) : dict :=
  [("plan_summary", VStr (plan_summary p)); ("deliverables", VStrs (deliverables p)); ("risk_notes", VStrs (risk_notes p))].

Definition _fallback_specialist_plan (specialist pod_manager : string) (mission_context recommendation : dict) : result dict :=
  p ← _plan_from_contract mission_context;
  Ok (plan_fields p ++ [("specialist_agent_id", VStr specialist); ("pod_manager_agent_id", VStr pod_manager); ("source", VStr "fallback")] ++
      recommended_model recommendation ++ [("mission_context", VDict mission_context)]).

Definition generate_specialist_plan (answer : option (dict * route)) (recommendation mission_context : dict) (requested_target_language : option string)
    (specialist_agent_id pod_manager_agent_id : string) : result dict :=
  let specialist := agent_or specialist_agent_id (resolve_specialist_agent_id requested_target_language) in
  let pod_manager := agent_or pod_manager_agent_id (resolve_pod_manager_agent_id requested_target_language) in
  match answer with
  | None => _fallback_specialist_plan specialist pod_manager mission_context recommendation
  | Some (parsed, r) =>
      '(p, source) ← settled_plan parsed mission_context;
      Ok ([("specialist_agent_id", VStr specialist); ("pod_manager_agent_id", VStr pod_manager)] ++
          plan_fields (mkPlan (plan_summary p) (deliverables p) (first_list (risk_notes p) ["No explicit risks returned by model output."])) ++
          [("source", VStr source)] ++ resolved_model r ++ [("mission_context", VDict mission_context)])
  end.

(** ** Generated code *)

Section codegen.
Context (sha256 : text -> string).

Definition _code_text_trace (value : text) : dict :=
  let non_ascii_count := Z.of_nat (length (List.filter (fun c => 127 <? code c) value)) in
  [("digest_sha256", VStr (sha256 value)); ("length_chars", VInt (Z.of_nat (length value)));
   ("size_bytes", VInt (Z.of_nat (length value) + non_ascii_count)); ("non_ascii_count", VInt non_ascii_count)].

(** [first_filename(files, "")]: the base name of the first file. *)
Definition first_filename (files : list (text * text)) : string :=
  match files with [] => "" | f :: _ => unchars (default [] (last (split_on slash f.1))) end.

Definition codegen_filename (raw : dict) (files : list (text * text)) (language : string) : string :=
  _safe_filename (py_or (dget0 raw "filename") (VStr (first_filename files))) ("generated." +:+ str_or language "txt").

Definition _normalize_codegen_result (raw : dict) (r : route) (now specialist_agent_id target_language : string) : option dict :=
  let raw_generated_code := chars (py_str (dget_or raw "generated_code" (VStr ""))) in
  let '(generated_code, tree_files) := codegen_bundle_from_result raw (_strip_code_fences raw_generated_code) in
  if (length (strip generated_code) <? 10)%nat then None
  else
    let language := str_lower (clean_or raw "language" target_language 32) in
    Some
      [("schema_version", VStr "generated_output.v1"); ("generated_code", VStr (unchars generated_code));
       ("filename", VStr (codegen_filename raw tree_files language)); ("file_count", VInt (if is_nil tree_files then 1 else Z.of_nat (length tree_files)));
       ("files", VList ((fun f => VDict [("path", VStr (unchars f.1))]) <$> tree_files)); ("language", VStr (str_or language target_language));
       ("description", VStr (clean_or raw "description" "Generated output." 240)); ("dependencies", VStrs (_string_list (dget0 raw "dependencies") 20 80));
       ("usage_example", VStr (clean_or raw "usage_example" "" 240)); ("source", VStr "llm"); ("specialist_agent_id", VStr specialist_agent_id);
       ("llm_route", VStr (r_route r)); ("model_provider", VStr (r_provider r)); ("model", VStr (r_model r)); ("generated_at", VStr now);
       ("code_length_chars", VInt (Z.of_nat (length generated_code)));
       ("encoding_trace", VDict [("codegen_normalization",
          VDict [("raw", VDict (_code_text_trace raw_generated_code)); ("normalized", VDict (_code_text_trace generated_code));
                 ("stripped_code_fences", VBool (negb (bool_decide (raw_generated_code = generated_code))))])])].

Definition _fallback_codegen (specialist_agent_id target_language contract_summary : string) (recommendation : dict) (now : string) : dict :=
  let language := str_lower (_clean_text (VStr (str_or target_language "text")) 32 false) in
  [("schema_version", VStr "generated_output.v1"); ("generated_code", VStr ""); ("filename", VStr ("generated." +:+ str_or language "txt"));
   ("language", VStr language); ("description", VStr "Code generation unavailable; provider output was not available."); ("dependencies", VList []);
   ("usage_example", VStr ""); ("source", VStr "fallback"); ("specialist_agent_id", VStr specialist_agent_id);
   ("model_provider", dget0 recommendation "provider"); ("model", dget0 recommendation "model"); ("generated_at", VStr now);
   ("code_length_chars", VInt 0);
   ("risk_notes", VStrs [_clean_text (VStr contract_summary) 160 false; "Fallback output is not a generated software deliverable."])].

Definition generate_code_from_contract (answer : option (dict * route)) (recommendation mission_contract : dict) (now specialist_agent_id target_language : string) : dict :=
  let fallback := _fallback_codegen specialist_agent_id target_language (py_str (dget_or mission_contract "contract_summary" (VStr "mission"))) recommendation now in
  match answer with
  | None => fallback
  | Some (parsed, r) => default fallback (_normalize_codegen_result parsed r now specialist_agent_id target_language)
  end.
End codegen.

(** ** The pod group standard *)

Record group := mkGroup {
  g_domain : string; g_concept : string; g_intent : string; g_sources : list string; g_languages : list string; g_confidence : val;
}.

Abbreviation group_key := (string * string)%type.
Abbreviation groups := (list (group_key * group)).

Definition number_or_none (v : val) : val := match v with VInt _ | VBool _ => v | _ => VNone end.
Definition extracted_behavior : string := "Implement extracted mission behavior.".

Definition group_of (record : val) (payload : dict) : group :=
  let concept := _logicnode_text payload ["concept"; "name"; "title"] "" in
  mkGroup (_logicnode_text payload ["domain"; "category"] "general")
    (if has_text concept then concept else _logicnode_text payload ["intent"; "summary"] "primary_operation")
    (_logicnode_text payload ["intent"; "summary"; "description"] extracted_behavior)
    (_logicnode_sources record payload) (_logicnode_languages record payload) (number_or_none (dget0 payload "confidence")).

Definition key_of (g : group) : group_key := (str_lower (g_domain g), str_lower (g_concept g)).

Definition merged (existing g : group) : group :=
  mkGroup (g_domain existing) (g_concept existing)
    (if negb (has_text (g_intent existing)) || String.eqb (g_intent existing) extracted_behavior then g_intent g else g_intent existing)
    (foldl add_new (g_sources existing) (g_sources g)) (foldl add_new (g_languages existing) (g_languages g)) (g_confidence existing).

(** Merge with the group of the same key, or add a group. *)
Fixpoint add_group (grouped : groups) (g : group) : groups :=
  match grouped with
  | [] => [(key_of g, g)]
  | (k, existing) :: rest => if bool_decide (k = key_of g) then (k, merged existing g) :: rest else (k, existing) :: add_group rest g
  end.

(** [grouped[key] = g] *)
Fixpoint put_group (grouped : groups) (g : group) : groups :=
  match grouped with
  | [] => [(key_of g, g)]
  | (k, existing) :: rest => if bool_decide (k = key_of g) then (k, g) :: rest else (k, existing) :: put_group rest g
  end.

Definition group_record (grouped : groups) (record : val) : groups :=
  match _logicnode_payload record with [] => grouped | payload => add_group grouped (group_of record payload) end.

Definition grouped_records (logicnodes : list val) : groups := foldl group_record [] (take 200 logicnodes).

Definition requirement_group (mission_contract item : dict) : group :=
  mkGroup (cleaned_or item "domain" "general" 64) (cleaned_or item "concept" "primary_operation" 80)
    (cleaned_or item "intent" "Implement mission contract requirement." 180) [] (_string_list (dget0 mission_contract "target_languages") 6 32) VNone.

Definition grouped_requirements (mission_contract : dict) : groups :=
  let items := omap as_dict (match dget0 mission_contract "logicnode_requirements" with VList l => take 8 l | _ => [] end) in
  foldl (fun grouped item => put_group grouped (requirement_group mission_contract item)) [] items.

Definition standard_node (id domain concept intent : string) (sources languages : list string) (confidence : val) : val :=
  VDict [("standard_node_id", VStr id); ("domain", VStr domain); ("concept", VStr concept); ("intent", VStr intent);
         ("source_node_ids", VStrs sources); ("languages", VStrs languages); ("confidence", confidence)].

Definition canonical_group (index : nat) (g : group) : val :=
  let domain := str_or (g_domain g) "general" in
  let concept := str_or (g_concept g) "primary_operation" in
  standard_node (_standard_node_id index domain concept) domain concept (str_or (g_intent g) extracted_behavior)
    (take 20 (g_sources g)) (take 6 (g_languages g)) (number_or_none (g_confidence g)).

Definition fallback_canonical (logicnodes : list val) (mission_contract : dict) : list val :=
  let grouped := match grouped_records logicnodes with [] => grouped_requirements mission_contract | grouped => grouped end in
  take 20 (imap (fun i kg => canonical_group (S i) kg.2) grouped).

Definition group_standard (pod_name pod_manager_agent_id mission_id : string) (logicnodes canonical : list val) (source_code : val)
    (eliminated_duplicates : val) (summary : string) (by_whom : dict) : dict :=
  [("schema_version", VStr "pod_group_standard.v1"); ("pod", VStr pod_name); ("pod_manager_agent_id", VStr pod_manager_agent_id);
   ("mission_id", VStr mission_id); ("canonical_logicnodes", VList canonical);
   ("coverage_verdict", VDict (_pod_standard_coverage_verdict logicnodes (length canonical) source_code));
   ("eliminated_duplicates", eliminated_duplicates); ("summary", VStr summary)] ++ by_whom.

Definition surplus (logicnodes canonical : list val) : val := VInt (Z.max 0 (Z.of_nat (length logicnodes) - Z.of_nat (length canonical))).

Definition _fallback_pod_group_standard (pod_name pod_manager_agent_id mission_id : string) (logicnodes : list val) (mission_contract recommendation : dict)
    (source_code : val) (now : string) : dict :=
  let canonical := fallback_canonical logicnodes mission_contract in
  group_standard pod_name pod_manager_agent_id mission_id logicnodes canonical source_code (surplus logicnodes canonical)
    "Deterministic pod group standard produced by consolidating equivalent LogicNodes for pod-manager fusion." (by_fallback recommendation now).

Definition raw_node (index : nat) (item : dict) : val :=
  let domain := cleaned_or item "domain" "general" 64 in
  let concept := cleaned_or item "concept" "primary_operation" 80 in
  standard_node (cleaned_or item "standard_node_id" (_standard_node_id index domain concept) 96) domain concept
    (cleaned_or item "intent" extracted_behavior 180) (_string_list (dget0 item "source_node_ids") 20 96)
    (_string_list (dget0 item "languages") 6 32) (number_or_none (dget0 item "confidence")).

(** [raw.get("eliminated_duplicates")] when it is a number that is not negative *)
Definition stated_duplicates (raw : dict) : option val :=
  match dget0 raw "eliminated_duplicates" with
  | VInt z => if z <? 0 then None else Some (VInt z)
  | VBool b => Some (VBool b)
  | _ => None
  end.

Definition _normalize_pod_group_standard (raw : dict) (r : route) (now pod_name pod_manager_agent_id mission_id : string) (logicnodes : list val)
    (mission_contract : dict) (source_code : val) : dict :=
  let items := omap as_dict (match dget0 raw "canonical_logicnodes" with VList l => take 20 l | _ => [] end) in
  match imap (fun i item => raw_node (S i) item) items with
  | [] => _fallback_pod_group_standard pod_name pod_manager_agent_id mission_id logicnodes mission_contract
            [("provider", VStr (r_provider r)); ("model", VStr (r_model r))] source_code now
  | canonical =>
      group_standard pod_name pod_manager_agent_id mission_id logicnodes canonical source_code
        (default (surplus logicnodes canonical) (stated_duplicates raw))
        (_clean_text (py_or (dget0 raw "summary") (VStr "Pod group standard consolidated from specialist LogicNodes.")) 260 false) (by_model r now)
  end.

Definition generate_pod_group_standard (answer : option (dict * route)) (recommendation : dict) (now pod_name pod_manager_agent_id mission_id : string)
    (logicnodes : list val) (mission_contract : dict) (source_code : val) : dict :=
  let pod_manager := str_upper (str_strip pod_manager_agent_id) in
  match answer with
  | None => _fallback_pod_group_standard pod_name pod_manager mission_id logicnodes mission_contract recommendation source_code now
  | Some (parsed, r) => _normalize_pod_group_standard parsed r now pod_name pod_manager mission_id logicnodes mission_contract source_code
  end.

Example delegation_demo :
  c_cluster_id <$> fallback_clusters [("required_domains", VStrs ["Data"; "data"; "UI"])] ("M", "S") = ["cluster-01-data"; "cluster-02-ui"] /\
  codegen_filename [("filename", VStr "../x.py")] [] "python" = "__x.py" /\
  length (fallback_canonical [VDict [("domain", VStr "D"); ("concept", VStr "c"); ("id", VStr "n1")];
                              VDict [("node", VDict [("domain", VStr "d"); ("concept", VStr "C")]); ("id", VStr "n2")]] []) = 1%nat.
Proof. vm_compute. by split_and!. Qed.

(** A blank name makes the language of the reply part of a path. *)
Example language_in_path :
  codegen_filename [("filename", VStr " ")] [] (str_lower (clean_or [("language", VStr "x/../../app")] "language" "python" 32)) = "generated.x/../../app".
Proof. by_compute. Qed.

(** ** Only known agents *)

Lemma choice_in value allowed fallback : fallback ∈ allowed -> _normalize_agent_choice value allowed fallback ∈ allowed.
Proof. intros H. unfold _normalize_agent_choice. destruct (str_in _ allowed) eqn:E; [by apply str_in_spec|done]. Qed.

Lemma dget_values (d : list (string * string)) k x : x ∈ dvalues d -> default x (dget d k) ∈ dvalues d.
Proof.
  intros Hx. destruct (dget d k) as [v|] eqn:E; [|done]. apply dget_In in E. unfold dvalues. apply list_elem_of_fmap. by exists (k, v).
Qed.

Lemma resolved_manager language : resolve_pod_manager_agent_id language ∈ _VALID_POD_MANAGER_IDS.
Proof. apply dget_values. apply str_in_spec. reflexivity. Qed.

Lemma resolved_specialist language : resolve_specialist_agent_id language ∈ _VALID_SPECIALIST_IDS.
Proof. apply dget_values. apply str_in_spec. reflexivity. Qed.

Definition agents_ok (agents : string * string) : Prop := agents.1 ∈ _VALID_POD_MANAGER_IDS /\ agents.2 ∈ _VALID_SPECIALIST_IDS.

Lemma default_agents_ok ceo_delegation language : agents_ok (default_agents ceo_delegation language).
Proof.
  unfold agents_ok, default_agents, choose_pod_manager, choose_specialist. cbn [fst snd].
  split; apply choice_in; [exact (resolved_manager language)|exact (resolved_specialist language)].
Qed.

Definition cluster_ok (c : cluster) : Prop :=
  c_pod_manager c ∈ _VALID_POD_MANAGER_IDS /\ c_specialist c ∈ _VALID_SPECIALIST_IDS /\ c_priority c ∈ priorities.

Lemma priority_in value : _priority value ∈ priorities.
Proof. unfold _priority. destruct (str_in _ priorities) eqn:E; [by apply str_in_spec|by right; left]. Qed.

Lemma fallback_cluster_ok agents items index domain : agents_ok agents -> cluster_ok (fallback_cluster agents items index domain).
Proof.
  intros [Hm Hs]. unfold fallback_cluster, cluster_ok. cbn [c_pod_manager c_specialist c_priority]. split_and!; [done|done|].
  destruct (List.filter _ items); [by right; left|apply priority_in].
Qed.

Lemma raw_cluster_ok agents index item : agents_ok agents -> cluster_ok (raw_cluster agents index item).
Proof.
  intros [Hm Hs]. unfold raw_cluster, cluster_ok, choose_pod_manager, choose_specialist. cbn [c_pod_manager c_specialist c_priority].
  split; [exact (choice_in _ _ _ Hm)|split; [exact (choice_in _ _ _ Hs)|apply priority_in]].
Qed.

Lemma add_fallback_clusters agents items domains acc :
  agents_ok agents -> Forall cluster_ok acc.2 ->
  Forall cluster_ok (foldl (add_fallback_cluster agents items) acc domains).2 /\
  (length acc.2 <= length (foldl (add_fallback_cluster agents items) acc domains).2)%nat.
Proof.
  intros Ha. revert acc. induction domains as [|d domains IH]; intros [seen clusters] Hc; [done|]. cbn [foldl add_fallback_cluster].
  destruct (str_in _ seen); [by apply IH|].
  destruct (IH (str_lower (str_or d "general") :: seen, clusters ++ [fallback_cluster agents items (S (length clusters)) (str_or d "general")])) as [H1 H2].
  - apply Forall_app. split; [exact Hc|]. constructor; [by apply fallback_cluster_ok|constructor].
  - split; [done|]. cbn [snd] in *. rewrite length_app in H2. cbn in H2. lia.
Qed.

Lemma fallback_clusters_ok mission_contract agents :
  agents_ok agents -> (1 <= length (fallback_clusters mission_contract agents) <= 8)%nat /\ Forall cluster_ok (fallback_clusters mission_contract agents).
Proof.
  intros Ha. unfold fallback_clusters. set (items := dicts _).
  assert (exists d ds, fallback_domains mission_contract items = d :: ds) as (d & ds & ->).
  { unfold fallback_domains. destruct (first_list (_string_list _ _ _) _) as [|d ds]; [by eexists _, []|by exists d, ds]. }
  cbn [foldl add_fallback_cluster]. change (str_in (str_lower (str_or d "general")) []) with false. cbv iota.
  destruct (add_fallback_clusters agents items ds ([str_lower (str_or d "general")], [fallback_cluster agents items 1 (str_or d "general")])) as [H1 H2]; [done| |].
  - constructor; [by apply fallback_cluster_ok|constructor].
  - cbn [snd length app] in *. split; [rewrite length_take; lia|by apply Forall_take].
Qed.

(** C27: whatever a model answers, or when none does, a mission is divided into one to eight
    clusters, each with a pod manager, a specialist and a priority that exist. *)
Theorem clusters_valid answer recommendation now mission_contract ceo_delegation language :
  exists clusters,
    dget0 (generate_logic_clusters answer recommendation now mission_contract ceo_delegation language) "clusters" = VList (cluster_val <$> clusters) /\
    (1 <= length clusters <= 8)%nat /\ Forall cluster_ok clusters.
Proof.
  pose proof (default_agents_ok ceo_delegation language) as Ha.
  pose proof (fallback_clusters_ok mission_contract _ Ha) as [Hl Hf].
  assert (forall recommendation, exists clusters,
    dget0 (_fallback_logic_clusters mission_contract ceo_delegation recommendation now language) "clusters" = VList (cluster_val <$> clusters) /\
    (1 <= length clusters <= 8)%nat /\ Forall cluster_ok clusters) as Hfallback by (intros; eexists; split; [reflexivity|by split]).
  unfold generate_logic_clusters. destruct answer as [[parsed r]|]; [|apply Hfallback]. unfold _normalize_logic_clusters.
  set (items := omap as_dict _). assert (length items <= 8)%nat as Hi.
  { subst items. etrans; [apply omap_length_le|]. destruct (dget0 parsed "clusters"); cbn [length]; try lia. rewrite length_take. lia. }
  set (clusters := imap _ items). assert (Forall cluster_ok clusters /\ length clusters = length items) as [Hc Hlen].
  { subst clusters. split; [|apply length_imap]. apply Forall_lookup. intros i c. rewrite list_lookup_imap.
    destruct (items !! i); [|done]. intros [= <-]. apply raw_cluster_ok, Ha. }
  destruct clusters as [|c cs]; [apply Hfallback|]. exists (c :: cs). split; [reflexivity|]. rewrite Hlen in *. cbn in Hlen. split; [lia|done].
Qed.

Lemma delegation_routed m x rationale source by_whom mission_context manager (ids : list string) :
  m = manager -> x ∈ ids ->
  let d := delegation m x rationale source by_whom mission_context in
  dget0 d "pod_manager_agent_id" = VStr manager /\
  exists specialist, dget0 d "specialist_agent_id" = VStr specialist /\ specialist ∈ ids.
Proof. intros -> Hx. split; [reflexivity|]. exists x. by split. Qed.

(** The CEO's delegation always goes to the pod manager of the mission's language, and
    to a specialist that exists, whatever the model answers. *)
Lemma ceo_delegation_routed answer recommendation mission_context language :
  let d := generate_ceo_delegation answer recommendation mission_context language in
  dget0 d "pod_manager_agent_id" = VStr (resolve_pod_manager_agent_id language) /\
  exists specialist, dget0 d "specialist_agent_id" = VStr specialist /\ specialist ∈ _VALID_SPECIALIST_IDS.
Proof.
  destruct answer as [[parsed r]|]; unfold generate_ceo_delegation, _fallback_delegation.
  - apply delegation_routed; [by destruct (String.eqb_spec (choose_pod_manager (dget0 parsed "pod_manager_agent_id") (resolve_pod_manager_agent_id language)) (resolve_pod_manager_agent_id language))|].
    exact (choice_in _ _ _ (resolved_specialist language)).
  - apply delegation_routed; [reflexivity|exact (resolved_specialist language)].
Qed.

(** ** Plans are complete *)

Definition plan_ok (p : plan) : Prop := plan_summary p <> "" /\ deliverables p <> [] /\ risk_notes p <> [].

Lemma or_else_ne l fallback : fallback <> [] -> first_list l fallback <> [].
Proof. by destruct l. Qed.

Lemma contract_plan_ok mission_context p : _plan_from_contract mission_context = Ok p -> plan_ok p.
Proof.
  unfold _plan_from_contract. cbv zeta. set (summary := str_strip (py_str (py_or _ _))). set (title := str_strip (get_text _ _)).
  intros (criteria & _ & Hp)%result_bind_Ok. apply result_bind_Ok in Hp as (risks & _ & Hp). injection Hp as <-.
  split; [|by split; apply or_else_ne]. cbn [plan_summary]. destruct (has_text summary) eqn:E; [|by destruct (has_text title)].
  apply nonempty_spec in E. clearbody summary. by destruct summary.
Qed.

Lemma settled_plan_ok parsed mission_context p source :
  settled_plan parsed mission_context = Ok (p, source) -> plan_summary p <> "" /\ deliverables p <> [].
Proof.
  unfold settled_plan. set (proposed := mkPlan _ _ _). clearbody proposed. cbv zeta.
  destruct (has_text (plan_summary proposed)) eqn:Es, (is_nil (deliverables proposed)) eqn:Ed, (_looks_like_boilerplate_plan _ _); cbn [negb orb];
    try (intros (derived & (H1 & H2 & _)%contract_plan_ok & Hp)%result_bind_Ok; injection Hp as <- _); try (intros [= <- _]); cbn [plan_summary deliverables];
    (split; [first [assumption|by apply nonempty_spec]|first [assumption|by destruct (deliverables proposed)]]).
Qed.

(** A specialist's plan has a summary, deliverables and risk notes, whatever a model
    answers; what is missing or boilerplate comes from the contract. *)
Lemma plan_complete answer recommendation mission_context language specialist pod_manager d :
  generate_specialist_plan answer recommendation mission_context language specialist pod_manager = Ok d ->
  exists p, plan_ok p /\ dget0 d "plan_summary" = VStr (plan_summary p) /\ dget0 d "deliverables" = VStrs (deliverables p) /\
    dget0 d "risk_notes" = VStrs (risk_notes p).
Proof.
  unfold generate_specialist_plan. destruct answer as [[parsed r]|].
  - intros ([p source] & Hp%settled_plan_ok & Hd)%result_bind_Ok. injection Hd as <-.
    exists (mkPlan (plan_summary p) (deliverables p) (first_list (risk_notes p) ["No explicit risks returned by model output."])).
    destruct Hp as [H1 H2]. split; [split; [exact H1|split; [exact H2|by apply or_else_ne]]|by split].
  - unfold _fallback_specialist_plan. intros (p & Hp%contract_plan_ok & Hd)%result_bind_Ok. injection Hd as <-. exists p. by split.
Qed.

Lemma plan_complete_witness :
  exists d, generate_specialist_plan (Some ([("plan_summary", VStr "Refined-IR LogicNode plan"); ("deliverables", VStrs ["IR"])], some_route)) []
    [("feature_contract", VDict [("title", VStr "Ledger")])] (Some "python") "" "" = Ok d /\
  exists p, plan_ok p /\ dget0 d "plan_summary" = VStr (plan_summary p).
Proof.
  destruct (generate_specialist_plan (Some ([("plan_summary", VStr "Refined-IR LogicNode plan"); ("deliverables", VStrs ["IR"])], some_route)) []
    [("feature_contract", VDict [("title", VStr "Ledger")])] (Some "python") "" "") as [d|e] eqn:E; [|vm_compute in E; discriminate].
  exists d. split; [done|]. destruct (plan_complete _ _ _ _ _ _ _ E) as (p & Hp & Hs & _). by exists p.
Defined.

(** ** The fallback standard loses no source *)

Lemma add_new_all l xs x : x ∈ l \/ x ∈ xs -> x ∈ foldl add_new l xs.
Proof.
  revert l. induction xs as [|y xs IH]; intros l H; cbn [foldl].
  - destruct H as [H|H]; [done|by apply elem_of_nil in H].
  - apply IH. unfold add_new. destruct (str_in y l) eqn:E.
    + apply str_in_spec in E. destruct H as [H|[->|H]%elem_of_cons]; [by left|by left|by right].
    + rewrite elem_of_app, list_elem_of_singleton. destruct H as [H|[->|H]%elem_of_cons]; [by left; left|by left; right|by right].
Qed.

(** A group with at least the sources and languages of another. *)
Definition covers (h g : group) : Prop :=
  (forall s, s ∈ g_sources g -> s ∈ g_sources h) /\ (forall l, l ∈ g_languages g -> l ∈ g_languages h).

Lemma covers_refl g : covers g g.
Proof. by split. Qed.

Lemma covers_trans g h i : covers i h -> covers h g -> covers i g.
Proof. intros [H1 H2] [H3 H4]. split; auto. Qed.

Lemma merged_covers existing g : covers (merged existing g) existing /\ covers (merged existing g) g.
Proof. repeat split; intros x Hx; cbn; apply add_new_all; first [by left|by right]. Qed.

Lemma add_group_keys grouped g :
  (add_group grouped g).*1 = if bool_decide (key_of g ∈ grouped.*1) then grouped.*1 else grouped.*1 ++ [key_of g].
Proof.
  induction grouped as [|[k h] rest IH]; [done|]. cbn [add_group]. destruct (decide (k = key_of g)) as [->|Hne].
  - rewrite !bool_decide_true by (try done; by left). done.
  - rewrite (bool_decide_false (k = key_of g)) by done. cbn [fmap list_fmap fst]. rewrite IH.
    destruct (decide (key_of g ∈ rest.*1)); [rewrite !bool_decide_true by (try done; by right); done|].
    rewrite !bool_decide_false; [done| |done]. intros [H|H]%elem_of_cons; congruence.
Qed.

Lemma add_group_spec grouped g :
  (exists h, (key_of g, h) ∈ add_group grouped g /\ covers h g) /\
  (forall k h, (k, h) ∈ grouped -> exists h', (k, h') ∈ add_group grouped g /\ covers h' h).
Proof.
  induction grouped as [|[k e] rest [(h & Hin & Hh) IH]]; cbn [add_group].
  - split; [exists g; split; [by left|apply covers_refl]|]. intros k h H. by apply elem_of_nil in H.
  - destruct (decide (k = key_of g)) as [->|Hne].
    + rewrite bool_decide_true by done. split; [exists (merged e g); split; [by left|apply merged_covers]|].
      intros k' h' [[= -> ->]|H]%elem_of_cons; [exists (merged e g); split; [by left|apply merged_covers]|].
      exists h'. split; [by right|apply covers_refl].
    + rewrite bool_decide_false by done. split; [exists h; split; [by right|done]|].
      intros k' h' [[= -> ->]|H]%elem_of_cons; [exists e; split; [by left|apply covers_refl]|].
      destruct (IH _ _ H) as (h'' & ? & ?). exists h''. split; [by right|done].
Qed.

Lemma add_records_spec records grouped :
  NoDup grouped.*1 ->
  NoDup (foldl group_record grouped records).*1 /\
  (forall k h, (k, h) ∈ grouped -> exists h', (k, h') ∈ foldl group_record grouped records /\ covers h' h) /\
  (forall record, record ∈ records -> _logicnode_payload record <> [] ->
     let g := group_of record (_logicnode_payload record) in
     exists h, (key_of g, h) ∈ foldl group_record grouped records /\ covers h g).
Proof.
  revert grouped. induction records as [|r records IH]; intros grouped Hnd; cbn [foldl].
  { split; [done|]. split; [intros k h H; exists h; split; [done|apply covers_refl]|]. intros record H. by apply elem_of_nil in H. }
  assert (NoDup (group_record grouped r).*1) as Hnd'.
  { unfold group_record. destruct (_logicnode_payload r) as [|f d]; [done|]. rewrite add_group_keys.
    destruct (decide (key_of (group_of r (f :: d)) ∈ grouped.*1)); [by rewrite bool_decide_true|]. rewrite bool_decide_false by done.
    apply NoDup_app. split_and!; [done|by intros x Hx ->%list_elem_of_singleton|apply NoDup_singleton]. }
  destruct (IH _ Hnd') as (H1 & H2 & H3). split; [done|]. split.
  - intros k h Hin. assert (exists h', (k, h') ∈ group_record grouped r /\ covers h' h) as (h' & Hin' & Hc).
    { unfold group_record. destruct (_logicnode_payload r); [exists h; split; [done|apply covers_refl]|exact (proj2 (add_group_spec _ _) _ _ Hin)]. }
    destruct (H2 _ _ Hin') as (h'' & ? & ?). exists h''. split; [done|by eapply covers_trans].
  - intros record [->|Hin]%elem_of_cons Hp; [|by apply H3]. cbv zeta.
    assert (exists h, (key_of (group_of r (_logicnode_payload r)), h) ∈ group_record grouped r /\ covers h (group_of r (_logicnode_payload r))) as (h & Hin & Hc).
    { unfold group_record. destruct (_logicnode_payload r) as [|f d]; [done|exact (proj1 (add_group_spec _ _))]. }
    destruct (H2 _ _ Hin) as (h' & ? & ?). exists h'. split; [done|by eapply covers_trans].
Qed.


Definition demo_nodes : list val :=
  [VDict [("domain", VStr "D"); ("concept", VStr "c"); ("id", VStr "n1")];
   VDict [("node", VDict [("domain", VStr "d"); ("concept", VStr "C"); ("language", VStr "Go")]); ("id", VStr "n2")]].

