(* ===== verification/Compliance.v ===== *)
(** * Compliance

    [O/security_compliance.py]: the verdict on what a mission generated, from patterns in
    the code, the equivalence report, the data classification and the promised files. *)

From S2P Require Import Prelude PyVal Bundles Regex Reports.

Definition SECURITY_COMPLIANCE_SCHEMA_VERSION : string := "security_compliance_report.v1".

(** ** The patterns *)

Definition a_quote (c : ascii) : bool := Ascii.eqb c quote || Ascii.eqb c dquote.
Definition equals_re : regex := Chr (Ascii.eqb "=").

Definition secret_word : regex :=
  alts [Cat (lit_ci "api") (Cat (opt (Chr (any_of "_-"))) (lit_ci "key")); lit_ci "secret"; lit_ci "token"; lit_ci "password"].

Definition secret_assignment : regex :=
  Cat secret_word (Cat spaces_re (Cat equals_re (Cat spaces_re
    (Cat (Chr a_quote) (Cat (at_least 8 (Chr (fun c => negb (a_quote c)))) (Chr a_quote)))))).

Definition key_char (c : ascii) : bool := is_alnum c || any_of "_-" c.
Definition sk_token : regex := Cat (lit "sk-") (at_least 16 (Chr key_char)).

(** [_SECRET_PATTERNS]: the first 80 characters of the pattern, and the pattern. *)
Definition _SECRET_PATTERNS : list (string * regex) :=
  [("(?i)(api[_-]?key|secret|token|password)\s*=\s*[" +:+ String quote "\" +:+ String dquote "][^" +:+
      String quote "\" +:+ String dquote "]{8,}[" +:+ String quote "\" +:+ String dquote "]", secret_assignment);
   ("sk-[A-Za-z0-9_-]{16,}", sk_token)].

Definition call_re (name : string) : regex := Cat word_boundary (Cat (lit name) (Cat spaces_re (Chr (Ascii.eqb "(")))).

(** [_DANGEROUS_PATTERNS] *)
Definition _DANGEROUS_PATTERNS : list (string * regex) :=
  [("python_eval", call_re "eval");
   ("python_exec", call_re "exec");
   ("shell_subprocess", Cat word_boundary (Cat (lit "subprocess.")
      (Cat (alts [lit "Popen"; lit "run"; lit "call"]) (Cat spaces_re (Chr (Ascii.eqb "("))))));
   ("shell_injection_risk", Alt (Cat (lit "shell") (Cat spaces_re (Cat equals_re (Cat spaces_re (lit "True")))))
      (call_re "os.system"));
   ("unsafe_deserialization", Alt (Cat word_boundary (Cat (lit "pickle.load") (Cat (opt (lit "s"))
        (Cat spaces_re (Chr (Ascii.eqb "("))))))
      (Cat (call_re "yaml.load") (Cat (Star (Chr (fun c => negb (Ascii.eqb c ")")))) (Unless (lit "SafeLoader")))));
   ("node_child_process", lit "child_process");
   ("unsafe_inner_html", Alt (lit "dangerouslySetInnerHTML") (Cat (lit "innerHTML") (Cat spaces_re equals_re)))].

Definition path_char (c : ascii) : bool := is_alnum c || any_of "_./-" c.

(** [^[a-zA-Z0-9_./-]+\.[a-zA-Z0-9]{1,8}$] *)
Definition _FILE_HINT_RE : regex :=
  Cat (plus (Chr path_char)) (Cat (Chr (Ascii.eqb ".")) (Cat (between 1 8 (Chr is_alnum)) text_end)).

(** ** Checks *)

Definition _check (check_id title status : string) (required : bool) (message : string) (evidence : dict)
    (recommendation : string) : dict :=
  [("check_id", VStr check_id); ("title", VStr title); ("status", VStr status); ("required", VBool required);
   ("message", VStr message); ("evidence", VDict evidence)] ++
  (if String.eqb recommendation "" then [] else [("recommendation", VStr recommendation)]).

Definition _check_secret_patterns (code : string) : dict :=
  match List.filter (fun p => search p.2 (chars code)) _SECRET_PATTERNS with
  | [] => _check "secret_pattern_scan" "Secret pattern scan" "pass" true
            "No obvious secret-like text was detected." [] ""
  | matched => _check "secret_pattern_scan" "Secret pattern scan" "fail" true
            "Generated output contains secret-like text." [("matched_patterns", VStrs (str_take 80 ∘ fst <$> matched))]
            "Remove hard-coded secrets and reference runtime configuration."
  end.

Definition _check_dangerous_patterns (code : string) : dict :=
  match List.filter (fun p => search p.2 (chars code)) _DANGEROUS_PATTERNS with
  | [] => _check "dangerous_api_scan" "Dangerous API scan" "pass" false
            "No dangerous API hints were detected." [] ""
  | matched => _check "dangerous_api_scan" "Dangerous API scan" "warn" false
            "Generated output uses APIs that need security review." [("matched_patterns", VStrs (fst <$> matched))]
            "Review dynamic execution, shell, or unsafe DOM usage before release."
  end.

Definition _check_aim_risk_flags (aim : dict) : result dict :=
  items ← py_iter (dget_or aim "risk_flags" (VList []));
  let flags := List.filter (fun s => negb (String.eqb s "")) ((fun item => str_lower (str_strip (py_str item))) <$> items) in
  match sorted_strings (List.filter (fun s => str_in s ["security"; "data"; "approval"]) flags) with
  | [] => Ok (_check "aim_risk_flags" "AIM risk flags" "pass" false "No high-risk AIM flags were detected." [] "")
  | high_flags => Ok (_check "aim_risk_flags" "AIM risk flags" "warn" false "AIM includes risk flags that need review."
            [("risk_flags", VStrs high_flags); ("aim_id", dget0 aim "aim_id")]
            "Review AIM risk flags before approving the mission output.")
  end.

Definition equivalence_check (status : string) (required : bool) (message : string) (evidence : dict)
    (recommendation : string) : dict :=
  _check "equivalence_evidence_present" "Equivalence evidence present" status required message evidence recommendation.

Definition _check_equivalence_presence (metadata equivalence_report : dict) : dict :=
  let ran := truthy (VDict equivalence_report) in
  let report_id := [("report_id", dget0 equivalence_report "report_id")] in
  if negb (is_dict (dget0 metadata "generated_output")) then
    equivalence_check "pass" false "No generated output requires equivalence evidence." [] ""
  else if bool_decide (dget0 equivalence_report "passed" = VBool true) then
    equivalence_check "pass" true "Passing equivalence evidence is present." report_id ""
  else if ran && negb (bool_decide (dget0 equivalence_report "blocking" = VBool true)) then
    equivalence_check "manual_review" false
      ("Equivalence verification reported findings in advisory mode; " +:+ "review them before delivery.")
      (report_id ++ [("equivalence_status", dget0 equivalence_report "status");
                     ("equivalence_enforcement_enabled", dget0 equivalence_report "enforcement_enabled")])
      "Review the equivalence findings before approving delivery."
  else
    equivalence_check "fail" true
      (if ran then "Generated output does not have passing equivalence evidence."
       else "Generated output has no equivalence evidence at all.")
      report_id "Run or repair equivalence verification before delivery.".

Definition classification_of (metadata mission_charter : dict) : string :=
  upper_name (py_or (dget0 metadata "data_classification") (dget0 mission_charter "data_classification")).

Definition REGULATED : list string := ["TIER_3_REGULATED"; "REGULATED"].

Definition _check_data_classification (metadata mission_charter : dict) : dict :=
  let classification := classification_of metadata mission_charter in
  if str_in classification REGULATED then
    _check "data_classification_review" "Data classification review" "manual_review" false
      "Regulated data classification requires manual compliance review."
      [("data_classification", VStr classification)] "Confirm regulated-data handling before release."
  else
    _check "data_classification_review" "Data classification review" "pass" false
      "No regulated data classification was detected."
      [("data_classification", VStr (str_or classification "unknown"))] "".

Definition _check_provenance (generated_output aim : dict) : dict :=
  let refs := (if truthy (VDict generated_output) then ["generated_output"] else []) ++
              (if truthy (VDict aim) then ["application_intelligence_map"] else []) in
  match refs with
  | [] => _check "provenance_available" "Provenance available" "manual_review" false
            "Mission output has limited provenance evidence." []
            "Attach source/AIM/build evidence for stronger compliance review."
  | _ => _check "provenance_available" "Provenance available" "pass" false
            "Mission output has provenance evidence." [("refs", VStrs refs)] ""
  end.

(** ** Promised files *)

(** The first of the two keys whose text is a file name not yet expected. *)
Fixpoint file_hint (item : dict) (expected : list string) (keys : list string) : list string :=
  match keys with
  | [] => expected
  | key :: keys' =>
      let candidate := str_strip (get_text item key) in
      if matches_at_start _FILE_HINT_RE (chars candidate) && negb (str_in candidate expected)
      then expected ++ [candidate] else file_hint item expected keys'
  end.

Definition expected_files (raw_deliverables : val) : list string :=
  match raw_deliverables with
  | VList l => foldl (fun expected item =>
      match item with VDict d => file_hint d expected ["artifact_hint"; "name"] | _ => expected end) [] l
  | _ => []
  end.

Definition delivered_paths (generated_output : dict) : list string :=
  let listed := match dget0 generated_output "files" with
                | VList l => omap (fun f => match f with
                                            | VDict d => match str_lower (str_strip (get_text d "path")) with
                                                         | "" => None | path => Some path end
                                            | _ => None
                                            end) l
                | _ => []
                end in
  let headed := (fun m => str_lower (str_strip (unchars m.1))) <$> matches FILE_MARKER (chars (get_text generated_output "generated_code")) in
  let primary := str_lower (str_strip (get_text generated_output "filename")) in
  listed ++ headed ++ (if String.eqb primary "" then [] else [primary]).

Definition is_delivered (delivered : list string) (hint : string) : bool :=
  let hint := str_lower hint in
  str_in hint delivered ||
  existsb (fun p => py_endswith p ("/" +:+ hint) || py_endswith hint ("/" +:+ p)) delivered.

Definition completeness (status message : string) (evidence : dict) (recommendation : string) : dict :=
  _check "sow_deliverable_completeness" "SOW deliverable completeness" status false message evidence recommendation.

Definition _check_deliverable_completeness (metadata generated_output : dict) : dict :=
  let mc := dict_value (dget0 metadata "mission_contract") in
  let fc := dict_value (dget0 metadata "feature_contract") in
  let expected := expected_files (py_or (dget0 mc "deliverables") (py_or (dget0 fc "deliverables") (VList []))) in
  if (length expected <=? 1)%nat || negb (truthy (VDict generated_output)) then
    completeness "pass" "Deliverable file structure satisfies SOW expectations." [("expected_files", VStrs expected)] ""
  else
    let delivered := delivered_paths generated_output in
    match List.filter (fun hint => negb (is_delivered delivered hint)) expected with
    | [] => completeness "pass" "All SOW file deliverables are present in the generated bundle."
              [("expected_files", VStrs expected); ("delivered_paths", VStrs (sorted_strings delivered))] ""
    | missing => completeness "warn" "Some SOW file deliverables were not found in the generated multi-file bundle."
              [("expected_files", VStrs expected); ("delivered_paths", VStrs (sorted_strings delivered));
               ("missing_files", VStrs missing)]
              "Verify all multi-file SOW deliverables are emitted with ## FILE headers."
    end.

(** ** The report *)

Definition _requires_blocking_context (metadata mission_charter : dict) : bool :=
  String.eqb (upper_name (dget0 metadata "depth_mode")) "REGULATED" ||
  String.eqb (upper_name (dget0 mission_charter "depth_mode_label")) "REGULATED" ||
  str_in (classification_of metadata mission_charter) REGULATED.

Definition _risk_level (blocked failed warned : bool) : string :=
  if blocked then "high" else if failed then "high" else if warned then "medium" else "low".

Definition _recommendations (checks : list dict) : list string :=
  sorted_strings (List.filter (fun s => negb (String.eqb s ""))
                ((fun check => str_strip (get_text check "recommendation")) <$> checks)).

Definition _evidence_refs (metadata : dict) : list val :=
  (fun key => VDict [("type", VStr "metadata"); ("ref", VStr key)]) <$>
  List.filter (fun key => is_dict (dget0 metadata key))
    ["feature_contract"; "mission_contract"; "application_intelligence_map"; "equivalence_report"; "generated_output"].

Definition mission_requires_security_compliance (metadata : dict) : bool :=
  is_dict (dget0 metadata "generated_output") || is_dict (dget0 metadata "application_intelligence_map") ||
  match dget0 metadata "source_code" with VStr s => negb (String.eqb (str_strip s) "") | _ => false end.

(** The checks, security first. *)
Definition security_checks (metadata : dict) : result (list dict) :=
  let code := get_text (dict_value (dget0 metadata "generated_output")) "generated_code" in
  flags ← _check_aim_risk_flags (dict_value (dget0 metadata "application_intelligence_map"));
  Ok [_check_secret_patterns code; _check_dangerous_patterns code; flags].

Definition compliance_checks (metadata : dict) : list dict :=
  let generated_output := dict_value (dget0 metadata "generated_output") in
  let aim := dict_value (dget0 metadata "application_intelligence_map") in
  let mission_charter := dict_value (dget0 metadata "mission_charter") in
  [_check_equivalence_presence metadata (dict_value (dget0 metadata "equivalence_report"));
   _check_data_classification metadata mission_charter; _check_provenance generated_output aim;
   _check_deliverable_completeness metadata generated_output].

Definition regulated_context (metadata : dict) : bool :=
  _requires_blocking_context metadata (dict_value (dget0 metadata "mission_charter")).

Definition section (checks : list dict) : val :=
  VDict [("passed", VBool (negb (existsb (has_status ["fail"]) checks))); ("checks", VList (VDict <$> checks))].

Definition build_security_compliance_report (now mission_id : string) (metadata : dict) (enforcement_enabled : bool)
    : result dict :=
  security ← security_checks metadata;
  let compliance := compliance_checks metadata in
  let all_checks := security ++ compliance in
  let regulated := regulated_context metadata in
  let failed := existsb failed_required all_checks in
  let warned := existsb (has_status ["warn"; "manual_review"]) all_checks in
  let should_block := failed && (enforcement_enabled || regulated) in
  let status := if should_block then "blocked" else if failed || warned then "warned" else "passed" in
  Ok [("schema_version", VStr SECURITY_COMPLIANCE_SCHEMA_VERSION);
      ("report_id", VStr ("security-compliance-" +:+ mission_id)); ("mission_id", VStr mission_id);
      ("generated_at", VStr now); ("status", VStr status); ("passed", VBool (negb failed));
      ("blocking", VBool should_block); ("enforcement_enabled", VBool enforcement_enabled);
      ("regulated_context", VBool regulated); ("risk_level", VStr (_risk_level should_block failed warned));
      ("security", section security); ("compliance", section compliance);
      ("findings", VList (findings_of ["fail"; "warn"; "manual_review"] all_checks));
      ("recommendations", VStrs (_recommendations all_checks));
      ("evidence_refs", VList (_evidence_refs metadata)); ("source", VStr "deterministic")].

(** ** What counts as a secret *)

Definition secret_names : list string := ["apikey"; "api_key"; "api-key"; "secret"; "token"; "password"].

(** A secret-like name in any case, an equals sign, and a quoted text of eight characters or more. *)
Definition assigned_secret (w : list ascii) : Prop :=
  exists name s1 s2 q1 body q2,
    w = name ++ s1 ++ ["="%char] ++ s2 ++ [q1] ++ body ++ [q2] /\
    unchars (ascii_lower <$> name) ∈ secret_names /\ all_chars is_space s1 /\ all_chars is_space s2 /\
    a_quote q1 = true /\ a_quote q2 = true /\ (8 <= length body)%nat /\ all_chars (fun c => negb (a_quote c)) body.

(** A key as the providers print them. *)
Definition provider_token (w : list ascii) : Prop :=
  exists body, w = chars "sk-" ++ body /\ (16 <= length body)%nat /\ all_chars key_char body.

Definition leaks_secret (code : list ascii) : Prop :=
  exists a w b, code = a ++ w ++ b /\ (assigned_secret w \/ provider_token w).

Lemma language_one c : language (Chr (Ascii.eqb c)) (fun w => w = [c]).
Proof.
  eapply language_equiv; [|apply language_chr]. intros w. split.
  - by intros (d & -> & <-%Ascii.eqb_eq).
  - intros ->. exists c. by rewrite Ascii.eqb_refl.
Qed.

Lemma unchars_is l s : unchars l = s <-> l = chars s.
Proof. split; [intros <-; by rewrite chars_unchars|intros ->; by rewrite unchars_chars]. Qed.

Lemma lower_fixed a c : ascii_lower a = a -> is_alpha a = false -> ascii_lower c = a -> c = a.
Proof. intros _ Ha <-. revert Ha. by destruct c as [[] [] [] [] [] [] [] []]. Qed.

(** [api], an optional separator, [key]. *)
Lemma api_key_names w :
  (exists u v, w = u ++ v /\ ascii_lower <$> u = ascii_lower <$> chars "api" /\
     exists u0 v0, v = u0 ++ v0 /\ ((exists c, u0 = [c] /\ any_of "_-" c = true) \/ u0 = []) /\
       ascii_lower <$> v0 = ascii_lower <$> chars "key") <->
  ascii_lower <$> w ∈ [chars "apikey"; chars "api_key"; chars "api-key"].
Proof.
  split.
  - intros (u & v & -> & Hu & u0 & v0 & -> & Hu0 & Hv). rewrite !fmap_app, Hu, Hv.
    destruct Hu0 as [(c & -> & Hc)| ->]; [|by left].
    unfold any_of in Hc. apply bool_decide_eq_true in Hc. right.
    repeat (apply elem_of_cons in Hc as [->|Hc]); [by left|by right; left|by apply not_elem_of_nil in Hc].
  - intros Hw. assert (exists sep, ascii_lower <$> w = chars "api" ++ sep ++ chars "key" /\ (sep = [] \/ exists a, sep = [a] /\ (a = "_" \/ a = "-")%char))
      as (sep & E & Hsep).
    { repeat (apply elem_of_cons in Hw as [Hw|Hw]); [| | |by apply not_elem_of_nil in Hw].
      - exists []. auto.
      - exists ["_"%char]. eauto 6.
      - exists ["-"%char]. eauto 6. }
    apply fmap_app_inv in E as (u & v & Hu & (u0 & v0 & Hu0 & Hv0 & ->)%symmetry%fmap_app_inv & ->).
    exists u, (u0 ++ v0). split_and!; [done|done|]. exists u0, v0. split_and!; [done| |done].
    destruct Hsep as [->|(a & -> & Ha)]; [right; by destruct u0|left].
    destruct u0 as [|c [|]]; try done. injection Hu0 as Hc. exists c. split; [done|].
    destruct Ha as [->| ->].
    + by rewrite (lower_fixed "_" c).
    + by rewrite (lower_fixed "-" c).
Qed.

Lemma secret_word_language : language secret_word (fun w => unchars (ascii_lower <$> w) ∈ secret_names).
Proof.
  unfold secret_word. cbn [alts foldl].
  eapply language_equiv; [|repeat first [apply language_alt | apply language_lit_ci | apply language_cat
    | apply language_eps | apply language_chr]].
  intros w. cbn beta. rewrite api_key_names. unfold secret_names. rewrite !elem_of_cons, !unchars_is.
  rewrite !elem_of_nil. change (ascii_lower <$> chars "secret") with (chars "secret").
  change (ascii_lower <$> chars "token") with (chars "token").
  change (ascii_lower <$> chars "password") with (chars "password"). tauto.
Qed.

Lemma secret_assignment_language : language secret_assignment assigned_secret.
Proof.
  unfold secret_assignment. eapply language_equiv; [|
    apply language_cat; [apply secret_word_language|]; apply language_cat; [apply language_star_chr|];
    apply language_cat; [apply language_one|]; apply language_cat; [apply language_star_chr|];
    apply language_cat; [apply language_chr|]; apply language_cat; [apply language_at_least_chr|apply language_chr]].
  intros w. cbn beta. unfold assigned_secret. split.
  - intros (name & v & -> & Hn & s1 & v1 & -> & H1 & eq & v2 & -> & -> & s2 & v3 & -> & H2 & u & v4 & -> &
      (q1 & -> & Hq1) & body & v5 & -> & [Hl Hb] & q2 & -> & Hq2).
    exists name, s1, s2, q1, body, q2. done.
  - intros (name & s1 & s2 & q1 & body & q2 & -> & Hn & H1 & H2 & Hq1 & Hq2 & Hl & Hb). eauto 30.
Qed.

Lemma sk_token_language : language sk_token provider_token.
Proof.
  unfold sk_token. eapply language_equiv; [|apply language_cat; [apply language_lit|apply language_at_least_chr]].
  intros w. cbn beta. unfold provider_token. split.
  - intros (u & v & -> & -> & Hl & Hv). by exists v.
  - intros (v & -> & Hl & Hv). eauto 10.
Qed.

Lemma search_secrets code :
  existsb (fun p => search p.2 code) _SECRET_PATTERNS = true <-> leaks_secret code.
Proof.
  unfold _SECRET_PATTERNS, leaks_secret. cbn [existsb snd]. rewrite orb_false_r, orb_true_iff.
  rewrite (search_language _ _ code secret_assignment_language), (search_language _ _ code sk_token_language).
  naive_solver.
Qed.

(** ** Lemmas on the checks *)

Lemma filter_existsb {A} (f : A -> bool) l : existsb f l = false <-> List.filter f l = [].
Proof. induction l as [|x l IH]; cbn; [done|]. by destruct (f x). Qed.

Lemma secret_check_fails code :
  failed_required (_check_secret_patterns code) = existsb (fun p => search p.2 (chars code)) _SECRET_PATTERNS.
Proof.
  unfold _check_secret_patterns. destruct (existsb _ _) eqn:E.
  - destruct (List.filter _ _) as [|m l] eqn:Ef; [|done]. apply filter_existsb in Ef. congruence.
  - apply filter_existsb in E. by rewrite E.
Qed.

(** Evidence is missing when the generated output has neither a passed report nor one that only advises. *)
Definition lacks_evidence (metadata : dict) : bool :=
  let report := dict_value (dget0 metadata "equivalence_report") in
  is_dict (dget0 metadata "generated_output") &&
  negb (bool_decide (dget0 report "passed" = VBool true)) &&
  (bool_decide (report = []) || bool_decide (dget0 report "blocking" = VBool true)).

Lemma evidence_check_fails metadata :
  failed_required (_check_equivalence_presence metadata (dict_value (dget0 metadata "equivalence_report"))) =
  lacks_evidence metadata.
Proof.
  unfold _check_equivalence_presence, lacks_evidence. set (report := dict_value _). cbv zeta.
  destruct (is_dict (dget0 metadata "generated_output")); [|done]. cbn [negb andb].
  destruct (bool_decide (dget0 report "passed" = _)) eqn:Ep; [done|]. cbn [negb andb].
  assert (truthy (VDict report) = negb (bool_decide (report = []))) as -> by (by destruct report).
  destruct (bool_decide (report = [])) eqn:Er; cbn [negb andb orb]; [done|].
  by destruct (bool_decide (dget0 report "blocking" = _)).
Qed.

(** The other checks advise. *)
Lemma advisory_checks metadata flags :
  _check_aim_risk_flags (dict_value (dget0 metadata "application_intelligence_map")) = Ok flags ->
  failed_required flags = false /\
  (forall code, failed_required (_check_dangerous_patterns code) = false) /\
  (forall m c, failed_required (_check_data_classification m c) = false) /\
  (forall g a, failed_required (_check_provenance g a) = false) /\
  (forall m g, failed_required (_check_deliverable_completeness m g) = false).
Proof.
  intros H. split_and!.
  - unfold _check_aim_risk_flags in H. destruct (py_iter _) as [items|]; cbn in H; [|done].
    destruct (sorted_strings _); by injection H as <-.
  - intros code. unfold _check_dangerous_patterns. by destruct (List.filter _ _).
  - intros m c. unfold _check_data_classification. by destruct (str_in _ _).
  - intros g a. unfold _check_provenance. by destruct g, a.
  - intros m g. unfold _check_deliverable_completeness. cbv zeta. destruct (_ || _); [done|]. by destruct (List.filter _ _).
Qed.

(** What fails in a report. *)
Lemma report_failures metadata security :
  security_checks metadata = Ok security ->
  existsb failed_required (security ++ compliance_checks metadata) =
  existsb (fun p => search p.2 (chars (get_text (dict_value (dget0 metadata "generated_output")) "generated_code"))) _SECRET_PATTERNS
  || lacks_evidence metadata.
Proof.
  unfold security_checks. destruct (_check_aim_risk_flags _) as [flags|] eqn:Ef; cbn [mbind result_bind]; [|done].
  intros [= <-]. destruct (advisory_checks _ _ Ef) as (H1 & H2 & H3 & H4 & H5).
  unfold compliance_checks. cbn [app existsb]. rewrite secret_check_fails, evidence_check_fails, H1, H2, H3, H4, H5.
  by rewrite !orb_false_r.
Qed.

(** The verdict of a report, from what failed and what is to be reviewed. *)
Lemma report_verdict now id metadata enf report :
  build_security_compliance_report now id metadata enf = Ok report ->
  exists security warned,
    security_checks metadata = Ok security /\
    let failed := existsb failed_required (security ++ compliance_checks metadata) in
    let blocks := failed && (enf || regulated_context metadata) in
    dget0 report "blocking" = VBool blocks /\ dget0 report "passed" = VBool (negb failed) /\
    dget0 report "status" = VStr (if blocks then "blocked" else if failed || warned then "warned" else "passed") /\
    dget0 report "risk_level" = VStr (_risk_level blocks failed warned).
Proof.
  unfold build_security_compliance_report. destruct (security_checks metadata) as [security|]; [|done].
  intros [= <-]. by eexists security, _.
Qed.

(** ** Properties *)

(** C28: The report of the security gate blocks exactly when blocking is switched on, by the
    setting or by a regulated mission, and the generated code has a secret in it or the
    generated output lacks acceptable equivalence evidence; it passed exactly when neither
    is so, and status and risk say the same. *)
Theorem security_blocks_iff (now mission_id : string) (metadata report : dict) (enforcement_enabled : bool)
    (Hreport : build_security_compliance_report now mission_id metadata enforcement_enabled = Ok report) :
  let bad := leaks_secret (chars (get_text (dict_value (dget0 metadata "generated_output")) "generated_code")) \/
             lacks_evidence metadata = true in
  let armed := enforcement_enabled = true \/ regulated_context metadata = true in
  (dget0 report "blocking" = VBool true <-> bad /\ armed) /\
  (dget0 report "passed" = VBool true <-> ~ bad) /\
  (dget0 report "status" = VStr "blocked" <-> bad /\ armed) /\
  (bad -> dget0 report "risk_level" = VStr "high").
Proof.
  destruct (report_verdict _ _ _ _ _ Hreport) as (security & warned & Hs & Hv).
  rewrite (report_failures _ _ Hs) in Hv. cbv zeta in *. rewrite <- search_secrets.
  destruct (existsb _ _), (lacks_evidence metadata), enforcement_enabled, (regulated_context metadata), warned;
    cbn in Hv; destruct Hv as (-> & -> & -> & ->); cbn; intuition congruence.
Qed.

(** ** A concrete report *)

Definition demo_leak : dict :=
  [("generated_output", VDict [("generated_code", VStr ("API_KEY = " +:+ String dquote "0123456789" +:+ String dquote ""))]);
   ("equivalence_report", VDict [("passed", VBool true)]); ("depth_mode", VStr "regulated")].

Definition demo_security : dict :=
  match build_security_compliance_report "t" "m1" demo_leak false with Ok report => report | Raise _ => [] end.

Lemma security_blocks_iff_witness :
  dget0 demo_security "blocking" = VBool true /\
  (leaks_secret (chars (get_text (dict_value (dget0 demo_leak "generated_output")) "generated_code")) \/
   lacks_evidence demo_leak = true).
Proof.
  split; [by_compute|].
  refine (proj1 (proj1 (proj1 (security_blocks_iff "t" "m1" demo_leak demo_security false ltac:(by_compute))) _));
    by_compute.
Defined.
