(* ===== verification/Equivalence.v ===== *)
(** * Equivalence

    [O/equivalence_verifier.py]: the deterministic report on whether what was generated
    matches its contract, by artifact, format, language, criteria and source concepts,
    and the behavioural section that is attached to it. *)

From S2P Require Import Prelude PyVal Regex Reports.

Definition EQUIVALENCE_REPORT_SCHEMA_VERSION : string := "equivalence_report.v1".
Definition GENERATED_OUTPUT_ARTIFACT_TYPE : string := "generated_code".

(** ** Tables and patterns *)

Definition _ARTIFACT_FORMAT_EXTENSIONS : list (string * list string) :=
  [("html", ["html"; "htm"]); ("html5", ["html"; "htm"]); ("htm", ["html"; "htm"]);
   ("markdown", ["md"; "markdown"]); ("json", ["json"]); ("yaml", ["yaml"; "yml"]); ("css", ["css"]);
   ("pdf", ["pdf"]); ("csv", ["csv"])].

Definition _KNOWN_ARTIFACT_EXTENSIONS : list string :=
  ["html"; "htm"; "js"; "mjs"; "ts"; "tsx"; "jsx"; "py"; "rb"; "go"; "rs"; "java"; "cs"; "cpp"; "c"; "css";
   "json"; "md"; "sh"; "sql"; "yaml"; "yml"; "pdf"; "csv"].

Definition _CRITERION_STOPWORDS : list string :=
  ["that"; "this"; "with"; "from"; "into"; "when"; "then"; "must"; "should"; "will"; "shall"; "without";
   "successfully"; "directly"; "allows"; "using"; "their"; "there"; "which"; "while"; "after"; "before";
   "between"; "single"; "able"; "they"; "them"; "have"; "been"; "such"; "than"; "each"; "also"].

Definition _PYTHON_DISSIMILAR_LANGUAGES : list string :=
  ["c"; "cpp"; "c++"; "r"; "go"; "golang"; "rust"; "shell"; "bash"; "sh"].

Definition one (c : ascii) : regex := Chr (Ascii.eqb c).
Definition lower_or_digit (c : ascii) : bool := is_lower c || is_digit c.
Definition words (l : list string) : regex := alts (lit <$> l).

(** [\b(w1|..)\b] *)
Definition whole_word (l : list string) : regex := Cat word_boundary (Cat (words l) word_boundary).

(** [_KEYWORD_FILE_PATTERN] and [_EXPLICIT_EXTENSION_PATTERN]: before, in and after the group. *)
Definition keyword_files (text : list ascii) : list (list ascii * position) :=
  find_groups word_boundary (between 2 12 (Chr (fun c => lower_or_digit c || any_of "+#" c)))
    (Cat (plus (Chr is_space)) (Cat (lit "file") word_boundary)) text.

Definition explicit_extensions (text : list ascii) : list (list ascii * position) :=
  find_groups (one ".") (Cat (Chr is_lower) (between 0 4 (Chr lower_or_digit))) word_boundary text.

Definition context_gap (extra : string) : regex :=
  Cat (between 0 40 (Chr (fun c => word_char c || is_space c || any_of (",;:./-" +:+ extra) c))) text_end.

Definition _PROHIBITED_EXTENSION_CONTEXT_PATTERN : regex :=
  Cat (whole_word ["no"; "not"; "without"; "avoid"; "exclude"; "excluding"; "forbid"; "forbidden"; "prohibit";
                   "prohibited"]) (context_gap "").

Definition both_quotes : string := String quote (String dquote "").

Definition _OPERAND_FORMAT_CONTEXT_PATTERN : regex :=
  Cat (whole_word ["convert"; "converts"; "converting"; "converted"; "converter"; "converters"; "parse"; "parses";
                   "parsing"; "read"; "reads"; "reading"; "load"; "loads"; "loading"; "import"; "imports"; "importing";
                   "accept"; "accepts"; "accepting"; "ingest"; "ingests"; "transform"; "transforms"; "transforming";
                   "process"; "processes"; "processing"; "input"; "inputs"; "given"; "valid"; "source"; "from"; "on"])
      (context_gap both_quotes).

Definition _RUNTIME_OUTPUT_CONTEXT_PATTERN : regex :=
  Cat (alts [Cat (lit "--") (Cat (Chr is_lower) (Star (Chr (fun c => lower_or_digit c || Ascii.eqb c "-"))));
             whole_word ["stdout"]; whole_word ["stderr"]]) (context_gap both_quotes).

Definition dotted (c : ascii) : bool := word_char c || Ascii.eqb c ".".
Definition not_in (s : string) (c : ascii) : bool := negb (any_of s c).

Definition newline : string := String "010" "".

Definition _PYTHON_SIGNAL_PATTERNS : list regex :=
  [Cat word_boundary (Cat (lit "def") (Cat (plus (Chr is_space)) (Cat (plus (Chr word_char)) (Cat spaces_re
     (Cat (one "(") (Cat (Star (Chr (not_in ")"))) (Cat (one ")") (Cat spaces_re
     (Cat (opt (Cat (lit "->") (Cat spaces_re (plus (Chr (not_in (":" +:+ newline))))))) (one ":"))))))))));
   Cat line_start (Cat spaces_re (Cat (lit "elif") word_boundary));
   Cat line_start (Cat spaces_re
     (Cat (opt (Cat (lit "from") (Cat (plus (Chr is_space)) (Cat (plus (Chr dotted)) (plus (Chr is_space))))))
     (Cat (lit "import") (Cat (plus (Chr is_space)) (Cat (plus (Chr dotted))
     (Cat (Star (Cat spaces_re (Cat (one ",") (Cat spaces_re (plus (Chr dotted)))))) (Cat spaces_re line_end)))))));
   whole_word ["self"]].

Definition _PYTHON_SIGNAL_MIN_MATCHES : nat := 2.

(** ** Reading contracts *)

Definition _string_list (value : val) (limit : nat) : list string :=
  match value with
  | VList l => take limit (str_take 220 <$> List.filter (fun s => negb (String.eqb s "")) ((fun item => str_strip (py_str item)) <$> l))
  | _ => []
  end.

(** [name.rsplit(".", 1)[-1].lower() if "." in name else ""] *)
Definition extension (filename : string) : string :=
  if str_contains "." filename then str_lower (default "" (last (split_all "." filename))) else "".

Definition _target_language (requested_target_language : option string) (mission_contract generated_output : dict)
    : option string :=
  let generated_language := lower_name (dget0 generated_output "language") in
  let requested := default "" requested_target_language in
  if negb (String.eqb generated_language "") then
    Some (str_lower (str_strip (str_or requested generated_language)))
  else
    let listed := match dget0 mission_contract "target_languages" with
                  | VList l => head (List.filter (fun s => negb (String.eqb s "")) (lower_name <$> l))
                  | _ => None
                  end in
    match listed with
    | Some candidate => Some candidate
    | None => match str_lower (str_strip requested) with "" => None | candidate => Some candidate end
    end.

Definition _accepted_languages (requested_target_language : option string) (mission_contract : dict)
    (target_language : option string) : list string :=
  let named := (fun o => str_lower (str_strip (default "" o))) <$> [requested_target_language; target_language] in
  let listed := match dget0 mission_contract "target_languages" with VList l => lower_name <$> l | _ => [] end in
  List.filter (fun s => negb (String.eqb s "")) (named ++ listed).

Definition _contract_format_text (feature_contract mission_contract : dict) : string :=
  let parts := fun contract : dict =>
    omap (fun key => as_str (dget0 contract key)) ["summary"; "title"] ++
    (["functional_requirements"; "acceptance_criteria"; "deliverables"] ≫= fun key => _string_list (dget0 contract key) 20) in
  str_join " " (parts feature_contract ++ parts mission_contract).

(** [text[max(0, i - n):i]] at a position. *)
Definition context_before (n : nat) (x : position) : list ascii := rev (take n x.1).

Definition _is_filename_literal (x : position) : bool :=
  match x.1 with c :: _ => is_alnum c || Ascii.eqb c "_" | [] => false end.

Definition _is_prohibited_extension_mention (x : position) : bool :=
  search _PROHIBITED_EXTENSION_CONTEXT_PATTERN (context_before 48 x).

Definition _is_operand_format_mention (x : position) : bool :=
  search _OPERAND_FORMAT_CONTEXT_PATTERN (context_before 60 x) ||
  search _RUNTIME_OUTPUT_CONTEXT_PATTERN (context_before 60 x).

Definition demanded_by_keyword (m : list ascii * position) : list string :=
  match dget _ARTIFACT_FORMAT_EXTENSIONS (unchars m.1) with
  | Some extensions => if _is_operand_format_mention m.2 then [] else extensions
  | None => []
  end.

Definition demanded_by_extension (m : list ascii * position) : list string :=
  let ext := unchars m.1 in
  if negb (str_in ext _KNOWN_ARTIFACT_EXTENSIONS) then []
  else if _is_prohibited_extension_mention m.2 then []
  else if _is_filename_literal m.2 then [] else [ext].

Definition _expected_artifact_extensions (contract_text : string) : list string :=
  let text := chars (str_lower contract_text) in
  (keyword_files text ≫= demanded_by_keyword) ++ (explicit_extensions text ≫= demanded_by_extension).

(** ** Checks *)

Definition _check (check_id title status : string) (required : bool) (message : string) (evidence : dict) : dict :=
  [("check_id", VStr check_id); ("title", VStr title); ("status", VStr status); ("required", VBool required);
   ("message", VStr message); ("evidence", VDict evidence)].

Definition code_of (generated_output : dict) : string := get_text generated_output "generated_code".

Definition _check_generated_output_exists (generated_output : dict) : dict :=
  let n := String.length (str_strip (code_of generated_output)) in
  let evidence := [("code_length_chars", VInt (Z.of_nat n))] in
  if (10 <=? n)%nat then
    _check "generated_output_exists" "Generated output exists" "pass" true "Generated output has executable text." evidence
  else
    _check "generated_output_exists" "Generated output exists" "fail" true
      "Generated output is missing or too small to verify." evidence.

Definition generated_artifact (build_artifacts : list dict) : option dict :=
  head (List.filter (fun item => String.eqb (str_lower (py_str (dget_or item "artifact_type" (VStr ""))))
                                   GENERATED_OUTPUT_ARTIFACT_TYPE) build_artifacts).

Definition artifact_verified (artifact : dict) : bool :=
  truthy (dget0 (dict_value (dget0 artifact "verification")) "verified") &&
  negb (String.eqb (str_strip (get_text artifact "digest_sha256")) "").

Definition _check_generated_artifact (build_artifacts : list dict) : dict :=
  let check := _check "generated_artifact_verified" in
  match generated_artifact build_artifacts with
  | None => check "Generated artifact verified" "fail" true "No generated-code build artifact is available." []
  | Some artifact =>
      let verification := dict_value (dget0 artifact "verification") in
      let digest := str_strip (get_text artifact "digest_sha256") in
      if artifact_verified artifact then
        check "Generated artifact integrity verified" "pass" true
          ("Generated-code artifact passed integrity verification " +:+
           "(digest/signature). This attests the bytes are intact, not that " +:+
           "the artifact is correct — correctness is assessed by the other checks.")
          [("artifact_id", dget0 artifact "artifact_id"); ("digest_sha256", VStr digest);
           ("verification_method", dget0 verification "verification_method");
           ("verification_scope", dget_or verification "verification_scope" (VStr "integrity"))]
      else
        check "Generated artifact verified" "fail" true "Generated-code artifact is present but not verified."
          [("artifact_id", dget0 artifact "artifact_id"); ("digest_sha256", VStr digest);
           ("verified", VBool (truthy (dget0 verification "verified")))]
  end.

Definition format_check : string -> bool -> string -> dict -> dict :=
  _check "artifact_format_matches_contract" "Artifact format matches contract".

Definition _contract_deliverable_files (feature_contract : dict) : list string :=
  match dget0 feature_contract "deliverables" with
  | VList raw =>
      List.filter (fun candidate => str_contains "." candidate && (String.length candidate <=? 120)%nat)
        ((fun item => str_strip (match item with
                                 | VDict d => py_str (py_or (dget0 d "name") (py_or (dget0 d "artifact_hint") (VStr "")))
                                 | _ => py_str (py_or item (VStr ""))
                                 end)) <$> take 20 raw)
  | _ => []
  end.

Definition delivered_count (generated_output : dict) : result Z :=
  match dget0 generated_output "files" with
  | VList ((_ :: _) as files) => Ok (Z.of_nat (length files))
  | _ => py_int (py_or (dget0 generated_output "file_count") (VInt 0))
  end.

Definition _check_declared_deliverables (feature_contract generated_output : dict) (filename actual_ext : string)
    : result dict :=
  let declared := _contract_deliverable_files feature_contract in
  let n := Z.of_nat (length declared) in
  delivered ← delivered_count generated_output;
  let evidence := [("artifact_filename", VStr filename); ("artifact_extension", VStr actual_ext);
                   ("contract_deliverables", VStrs declared); ("contract_deliverable_count", VInt n);
                   ("delivered_file_count", VInt delivered)] in
  match declared with
  | [] => Ok (format_check "manual_review" false "No explicit deliverable format was specified in the contract." evidence)
  | _ =>
      let declared_exts := extension <$> declared in
      let evidence := dset evidence "contract_deliverable_extensions" (VStrs (sorted_strings declared_exts)) in
      let shortfall := (1 <? n) && (0 <? delivered) && (delivered <? n) in
      Ok (if negb (String.eqb actual_ext "") && str_in actual_ext declared_exts then
            if shortfall then
              format_check "manual_review" false
                ("Delivered " +:+ pretty delivered +:+ " file(s) against " +:+ pretty n +:+ " " +:+
                 "contracted deliverables; the format matches but the " +:+ "deliverable set needs review.") evidence
            else format_check "pass" false "Delivered artifact matches a contracted deliverable." evidence
          else
            format_check "manual_review" false
              ("The contract named specific deliverables and the packaged artifact " +:+ "matches none of them.") evidence)
  end.

Definition artifact_filename (build_artifacts : list dict) (generated_output : dict) : string :=
  let manifest := match generated_artifact build_artifacts with
                  | Some artifact => dict_value (dget0 artifact "manifest")
                  | None => []
                  end in
  str_strip (py_str (py_or (dget0 manifest "filename") (py_or (dget0 generated_output "filename") (VStr "")))).

Definition _check_artifact_format (feature_contract mission_contract : dict) (build_artifacts : list dict)
    (generated_output : dict) : result dict :=
  let filename := artifact_filename build_artifacts generated_output in
  let actual_ext := extension filename in
  let expected := _expected_artifact_extensions (_contract_format_text feature_contract mission_contract) in
  let sorted := VStrs (sorted_strings expected) in
  match expected with
  | [] => _check_declared_deliverables feature_contract generated_output filename actual_ext
  | _ =>
      Ok (if String.eqb actual_ext "" then
            format_check "fail" true "Artifact filename has no extension but the contract names a required format."
              [("expected_extensions", sorted); ("artifact_filename", VStr filename)]
          else
            let evidence := [("expected_extensions", sorted); ("artifact_extension", VStr actual_ext);
                             ("artifact_filename", VStr filename)] in
            if str_in actual_ext expected then
              format_check "pass" true "Delivered artifact format matches the contracted deliverable format." evidence
            else
              format_check "fail" true
                ("Delivered artifact format '." +:+ actual_ext +:+ "' does not match the " +:+
                 "contracted deliverable format(s): " +:+ py_repr sorted +:+ ".") evidence)
  end.

Definition alignment_check : string -> bool -> string -> dict -> dict := _check "language_alignment" "Language alignment".

Definition _check_language_alignment (generated_output : dict) (target_language : option string)
    (accepted_languages : list string) : dict :=
  let generated_language := lower_name (dget0 generated_output "language") in
  let target := str_lower (str_strip (default "" target_language)) in
  let accepted := List.filter (fun s => negb (String.eqb s "")) accepted_languages ++
                  (if String.eqb target "" then [] else [target]) in
  let evidence := [("generated_language", VStr generated_language); ("target_language", VStr target);
                   ("accepted_languages", VStrs (sorted_strings accepted))] in
  if String.eqb generated_language "" || match accepted with [] => true | _ => false end then
    alignment_check "manual_review" false "Language metadata is incomplete and needs review." evidence
  else if String.eqb generated_language target then
    alignment_check "pass" true "Generated output language matches the target language." evidence
  else if str_in generated_language accepted then
    alignment_check "pass" true
      ("Generated output language is one of the contract's accepted " +:+ "target languages.") evidence
  else alignment_check "fail" true "Generated output language is not an accepted contract language." evidence.

Definition python_matches (code : string) : nat :=
  length (List.filter (fun pattern => search pattern (chars code)) _PYTHON_SIGNAL_PATTERNS).

Definition signature_check : string -> bool -> string -> dict -> dict :=
  _check "language_content_signature" "Language content signature".

Definition _check_language_content_signature (generated_output : dict) (target_language : option string) : dict :=
  let target := str_lower (str_strip (default "" target_language)) in
  let seen := [("target_language", VStr target)] in
  if negb (str_in target _PYTHON_DISSIMILAR_LANGUAGES) then
    signature_check "manual_review" false
      ("Content-based language verification is not implemented for " +:+
       "'" +:+ str_or target "unknown" +:+ "'; relying on self-reported language metadata.") seen
  else
    let code := code_of generated_output in
    if String.eqb (str_strip code) "" then
      signature_check "manual_review" false "No generated code available to inspect for a language signature." seen
    else
      let n := python_matches code in
      let evidence := seen ++ [("python_signals_matched", VInt (Z.of_nat n))] in
      if (_PYTHON_SIGNAL_MIN_MATCHES <=? n)%nat then
        signature_check "fail" true
          ("Generated code contains unambiguous Python syntax (matched " +:+ pretty (Z.of_nat n) +:+
           " independent tells) but the target language is " +:+ "'" +:+ target +:+
           "' — this looks like a Python simulation rather than real " +:+ target +:+ " source.") evidence
      else
        signature_check "pass" true
          ("No contradicting Python syntax signature found for target language '" +:+ target +:+ "'.") evidence.

(** ** Criteria and context *)

(** The tokens of [re.split(r"[^a-z0-9]+", text)] that are not empty. *)
Fixpoint tokens (word : list ascii) (text : list ascii) : list (list ascii) :=
  let flush := match word with [] => [] | _ => [rev word] end in
  match text with
  | [] => flush
  | c :: text' => if lower_or_digit c then tokens (c :: word) text' else flush ++ tokens [] text'
  end.

Definition dedup (l : list string) : list string :=
  foldl (fun seen s => if str_in s seen then seen else seen ++ [s]) [] l.

Definition _criterion_keywords (criterion : string) : list string :=
  dedup (List.filter (fun token => (4 <=? String.length token)%nat && negb (str_in token _CRITERION_STOPWORDS))
           (unchars <$> tokens [] (chars (str_lower criterion)))).

Section report.
(** [round(covered / all, 3)] as a value, and the time. *)
Context (ratio : nat -> nat -> val) (now : string).

(** A criterion is covered when half of its keywords are, which rounding to three
    places does not change for fewer than a thousand of them. *)
Definition criterion_status (search_text criterion : string) : dict :=
  let keywords := _criterion_keywords criterion in
  let covered := length (List.filter (fun keyword => str_contains keyword search_text) keywords) in
  [("criterion", VStr criterion);
   ("covered_ratio", match keywords with [] => VInt 0 | _ => ratio covered (length keywords) end);
   ("status", VStr (match keywords with
                    | [] => "needs_review"
                    | _ => if (length keywords <=? 2 * covered)%nat then "covered" else "needs_review"
                    end))].

Definition criteria_check : string -> bool -> string -> dict -> dict :=
  _check "acceptance_criteria_mapped" "Acceptance criteria mapped".

Definition _check_acceptance_criteria (feature_contract mission_contract generated_output : dict) : dict :=
  let criteria := match _string_list (dget0 feature_contract "acceptance_criteria") 10 with
                  | [] => _string_list (dget0 mission_contract "acceptance_criteria") 10
                  | l => l
                  end in
  match criteria with
  | [] => criteria_check "manual_review" false
            "No explicit acceptance criteria were available for equivalence verification." []
  | _ =>
      let search_text := str_lower (get_text generated_output "description" +:+ " " +:+ code_of generated_output) in
      let criteria_status := criterion_status search_text <$> criteria in
      let count := Z.of_nat (length criteria) in
      let evidence := [("criteria_status", VList (VDict <$> criteria_status)); ("criteria_count", VInt count)] in
      match List.filter (has_status ["needs_review"]) criteria_status with
      | [] => criteria_check "pass" false
                "All acceptance criteria are heuristically reflected in the generated output." evidence
      | needs_review => criteria_check "manual_review" false
                (pretty (Z.of_nat (length needs_review)) +:+ " of " +:+ pretty count +:+ " acceptance criteria are not " +:+
                 "clearly reflected in the generated output and need manual review.") evidence
      end
  end.

Definition aim_check : string -> bool -> string -> dict -> dict := _check "aim_context_available" "AIM context available".

Definition _check_aim_consistency (aim generated_output : dict) : result dict :=
  match aim with
  | [] => Ok (aim_check "manual_review" false "No AIM was available for source-context comparison." [])
  | _ =>
      items ← py_iter (dget_or aim "detected_languages" (VList []));
      let detected := List.filter (fun s => negb (String.eqb s "")) ((fun item => str_lower (str_strip (py_str item))) <$> items) in
      let generated_language := lower_name (dget0 generated_output "language") in
      let evidence := [("aim_id", dget0 aim "aim_id"); ("detected_languages", VStrs (sorted_strings detected));
                       ("generated_language", VStr generated_language)] in
      Ok (if negb (String.eqb generated_language "") && str_in generated_language detected then
            aim_check "pass" false "Generated output language is represented in the AIM language inventory." evidence
          else aim_check "manual_review" false "AIM is available, but language equivalence needs review." evidence)
  end.

Definition source_concept (n : val) : option string :=
  match n with
  | VDict d => if truthy (dget0 d "concept")
               then Some (str_strip (get_text d "domain") +:+ "." +:+ str_strip (get_text d "concept")) else None
  | _ => None
  end.

Definition port_check (search_text concept_key : string) : dict :=
  let concept_name := match split_once "." concept_key with Some (_, name) => name | None => concept_key end in
  let concept_slug := str_lower (str_replace "-" " " (str_replace "_" " " concept_name)) in
  let present := str_contains concept_slug search_text || str_contains (str_lower concept_name) search_text in
  [("check", VStr ("port_concept_preserved:" +:+ concept_key));
   ("status", VStr (if present then "pass" else "manual_review")); ("required", VBool false);
   ("message", VStr (if present then "Source concept '" +:+ concept_key +:+ "' found in generated output."
                     else "Source concept '" +:+ concept_key +:+ "' not detected" +:+
                          " in generated output — manual review."))].

Definition _port_concept_coverage_checks (source_logicnodes : list val) (generated_output : dict) : list dict :=
  let search_text := str_lower (get_text generated_output "description") +:+ " " +:+ str_lower (code_of generated_output) in
  port_check search_text <$> take 20 (sorted_strings (omap source_concept source_logicnodes)).

(** ** The report *)

Definition _risk_level (checks : list dict) (blocking : bool) : string :=
  if blocking then "high"
  else if existsb (has_status ["fail"]) checks then "medium"
  else if existsb (has_status ["manual_review"]) checks then "medium" else "low".

Definition _evidence_refs (metadata : dict) (build_artifacts : list dict) : list val :=
  ((fun key => VDict [("type", VStr "metadata"); ("ref", VStr key)]) <$>
     List.filter (fun key => is_dict (dget0 metadata key)) ["feature_contract"; "mission_contract"; "application_intelligence_map"]) ++
  ((fun artifact => VDict [("type", VStr "build_artifact"); ("ref", dget0 artifact "artifact_id");
                           ("artifact_type", dget0 artifact "artifact_type");
                           ("digest_sha256", dget0 artifact "digest_sha256")]) <$> take 10 build_artifacts).

Definition mission_requires_equivalence (metadata : dict) : bool :=
  match dget0 metadata "generated_output" with
  | VDict generated_output =>
      if String.eqb (str_lower (str_strip (py_str (dget_or generated_output "source" (VStr ""))))) "fallback" then false
      else (10 <=? String.length (str_strip (code_of generated_output)))%nat
  | _ => false
  end.

(** The checks of a report, in order. *)
Definition equivalence_checks (requested_target_language : option string) (metadata : dict) (build_artifacts : list dict)
    : result (list dict) :=
  let generated_output := dict_value (dget0 metadata "generated_output") in
  let feature_contract := dict_value (dget0 metadata "feature_contract") in
  let mission_contract := dict_value (dget0 metadata "mission_contract") in
  let target := _target_language requested_target_language mission_contract generated_output in
  let accepted := _accepted_languages requested_target_language mission_contract target in
  format ← _check_artifact_format feature_contract mission_contract build_artifacts generated_output;
  aim ← _check_aim_consistency (dict_value (dget0 metadata "application_intelligence_map")) generated_output;
  Ok ([_check_generated_output_exists generated_output; _check_generated_artifact build_artifacts; format;
       _check_language_alignment generated_output target accepted; _check_language_content_signature generated_output target;
       _check_acceptance_criteria feature_contract mission_contract generated_output; aim] ++
      match dget0 metadata "port_source_logicnodes" with
      | VList ((_ :: _) as nodes) => _port_concept_coverage_checks nodes generated_output
      | _ => []
      end).

Definition build_equivalence_report (mission_id : string) (requested_target_language : option string) (metadata : dict)
    (build_artifacts : list dict) (enforcement_enabled : bool) : result dict :=
  let generated_output := dict_value (dget0 metadata "generated_output") in
  let mission_contract := dict_value (dget0 metadata "mission_contract") in
  let target := _target_language requested_target_language mission_contract generated_output in
  let accepted := _accepted_languages requested_target_language mission_contract target in
  checks ← equivalence_checks requested_target_language metadata build_artifacts;
  let failed := existsb failed_required checks in
  let blocking := enforcement_enabled && failed in
  Ok [("schema_version", VStr EQUIVALENCE_REPORT_SCHEMA_VERSION);
      ("report_id", VStr ("equivalence-" +:+ mission_id)); ("mission_id", VStr mission_id);
      ("generated_at", VStr now); ("verification_scope", VStr "correctness");
      ("status", VStr (if negb failed then "passed" else if blocking then "blocked" else "review_required"));
      ("passed", VBool (negb failed)); ("blocking", VBool blocking); ("enforcement_enabled", VBool enforcement_enabled);
      ("risk_level", VStr (_risk_level checks blocking));
      ("target_language", match target with Some s => VStr s | None => VNone end);
      ("accepted_languages", VStrs (sorted_strings accepted)); ("checks", VList (VDict <$> checks));
      ("findings", VList (findings_of ["fail"; "manual_review"] checks));
      ("evidence_refs", VList (_evidence_refs metadata build_artifacts)); ("source", VStr "deterministic")].
End report.

(** [attach_behavioural_report] *)
Definition attach_behavioural_report (report behavioural : dict) (enforce : bool) : result dict :=
  match behavioural with
  | [] => Ok report
  | _ =>
      items ← py_iter (dget_or behavioural "findings" (VList []));
      let behavioural_findings := omap (fun f => match f with VStr s => Some (VStr ("[behavioural] " +:+ s)) | _ => None end) items in
      earlier ← (match behavioural_findings with [] => Ok [] | _ => py_iter (dget_or report "findings" (VList [])) end);
      let enriched := dset report "behavioural" (VDict behavioural) in
      let enriched := match behavioural_findings with
                      | [] => enriched
                      | _ => dset enriched "findings" (VList (earlier ++ behavioural_findings))
                      end in
      let enriched := dset enriched "behavioural_enforcement_enabled" (VBool enforce) in
      Ok (if enforce && bool_decide (dget0 behavioural "status" = VStr "failed") then
            dset (dset (dset (dset (dset enriched "blocking" (VBool true)) "passed" (VBool false))
              "status" (VStr "blocked")) "risk_level" (VStr "high")) "blocked_by" (VStr "behavioural")
          else enriched)
  end.

(** ** What fails a report

    The required checks, as conditions on what was generated. *)

Section defects.
Context (requested : option string) (metadata : dict) (build_artifacts : list dict).

Let output := dict_value (dget0 metadata "generated_output").
Let feature := dict_value (dget0 metadata "feature_contract").
Let contract := dict_value (dget0 metadata "mission_contract").

Definition headline_language : string := default "" (_target_language requested contract output).

Definition too_short : Prop := (String.length (str_strip (code_of output)) < 10)%nat.

Definition artifact_unverified : Prop :=
  match generated_artifact build_artifacts with Some a => artifact_verified a = false | None => True end.

(** The contract demands formats, and the artifact's extension is none of them. *)
Definition format_mismatch : Prop :=
  let expected := _expected_artifact_extensions (_contract_format_text feature contract) in
  let ext := extension (artifact_filename build_artifacts output) in
  expected <> [] /\ (ext = "" \/ ext ∉ expected).

(** The generated language is none of those the mission accepts. *)
Definition language_mismatch : Prop :=
  let language := lower_name (dget0 output "language") in
  let accepted := _accepted_languages requested contract (_target_language requested contract output) in
  language <> "" /\ accepted <> [] /\ language ∉ accepted.

(** Python is delivered under the name of a language that is unlike it. *)
Definition python_in_disguise : Prop :=
  headline_language ∈ _PYTHON_DISSIMILAR_LANGUAGES /\ str_strip (code_of output) <> "" /\
  (2 <= python_matches (code_of output))%nat.

Definition defective : Prop :=
  too_short \/ artifact_unverified \/ format_mismatch \/ language_mismatch \/ python_in_disguise.
End defects.

Lemma exists_check_fails output :
  failed_required (_check_generated_output_exists output) = true <-> (String.length (str_strip (code_of output)) < 10)%nat.
Proof.
  unfold _check_generated_output_exists. destruct (Nat.leb_spec 10 (String.length (str_strip (code_of output)))).
  - split; [done|lia].
  - split; [lia|done].
Qed.

Lemma artifact_check_fails build_artifacts :
  failed_required (_check_generated_artifact build_artifacts) = true <-> artifact_unverified build_artifacts.
Proof.
  unfold _check_generated_artifact, artifact_unverified. destruct (generated_artifact _) as [a|]; [|done].
  by destruct (artifact_verified a).
Qed.

Lemma declared_check_advises feature output filename ext check :
  _check_declared_deliverables feature output filename ext = Ok check -> failed_required check = false.
Proof.
  unfold _check_declared_deliverables. destruct (delivered_count output) as [n|]; cbn [mbind result_bind]; [|done].
  destruct (_contract_deliverable_files feature); [by intros [= <-]|]. intros H. injection H as <-.
  by repeat case_match.
Qed.

Lemma format_check_fails metadata build_artifacts check :
  let output := dict_value (dget0 metadata "generated_output") in
  let feature := dict_value (dget0 metadata "feature_contract") in
  let contract := dict_value (dget0 metadata "mission_contract") in
  _check_artifact_format feature contract build_artifacts output = Ok check ->
  failed_required check = true <-> format_mismatch metadata build_artifacts.
Proof.
  cbv zeta. unfold _check_artifact_format, format_mismatch.
  set (ext := extension _). set (expected := _expected_artifact_extensions _). clearbody ext expected.
  destruct expected as [|e l].
  - intros H%declared_check_advises. rewrite H. naive_solver.
  - assert (e :: l <> []) as Hex by done. revert Hex. generalize (e :: l). clear e l. intros ex Hex H. injection H as <-.
    destruct (String.eqb_spec ext "") as [->|Hne]; [split; [by auto|done]|].
    destruct (str_in ext ex) eqn:Ei.
    + apply str_in_spec in Ei. split; [done|]. intros [_ [?|?]]; contradiction.
    + apply str_in_false in Ei. split; [by auto|done].
Qed.

(** The accepted languages contain the target, when there is one. *)
Lemma accepted_target requested contract target :
  target <> "" -> str_lower (str_strip target) = target ->
  target ∈ _accepted_languages requested contract (Some target).
Proof.
  intros Hne Hfix. unfold _accepted_languages. apply list_elem_of_In, List.filter_In. split.
  - apply list_elem_of_In, elem_of_app. left. apply list_elem_of_fmap. exists (Some target).
    split; [by rewrite <- Hfix at 1|]. right. by left.
  - by apply negb_true_iff, String.eqb_neq.
Qed.

Lemma lower_strip_fixed s : str_lower (str_strip (str_lower (str_strip s))) = str_lower (str_strip s).
Proof. by rewrite str_strip_lower, str_strip_idemp, str_lower_idemp. Qed.

Lemma target_fixed requested contract output t :
  _target_language requested contract output = Some t -> str_lower (str_strip t) = t.
Proof.
  unfold _target_language. destruct (negb _); [intros [= <-]; apply lower_strip_fixed|].
  assert (forall l c, head (List.filter (fun s => negb (String.eqb s "")) (lower_name <$> l)) = Some c ->
            str_lower (str_strip c) = c) as Hl.
  { intros l c Hc. assert (c ∈ lower_name <$> l) as (v & -> & _)%list_elem_of_fmap.
    - apply list_elem_of_In, (proj1 (List.filter_In (fun s => negb (String.eqb s "")) c _)).
      destruct (List.filter _ _); [done|]. injection Hc as ->. by left.
    - apply lower_strip_fixed. }
  destruct (match dget0 contract "target_languages" with VList _ => _ | _ => _ end) as [c|] eqn:E.
  - intros [= <-]. destruct (dget0 contract "target_languages"); try done. by eapply Hl.
  - destruct (str_lower (str_strip (default "" requested))) eqn:Es; [done|]. intros [= <-].
    rewrite <- Es. apply lower_strip_fixed.
Qed.

Lemma accepted_nonempty requested contract t s : s ∈ _accepted_languages requested contract t -> s <> "".
Proof.
  unfold _accepted_languages. intros [_ Hs]%list_elem_of_In%List.filter_In. by apply negb_true_iff, String.eqb_neq in Hs.
Qed.

(** The list the check compares with has the accepted languages and no others. *)
Lemma alignment_accepted requested contract output s :
  let t := _target_language requested contract output in
  let target := str_lower (str_strip (default "" t)) in
  s ∈ List.filter (fun s => negb (String.eqb s "")) (_accepted_languages requested contract t) ++
      (if String.eqb target "" then [] else [target]) <->
  s ∈ _accepted_languages requested contract t.
Proof.
  cbv zeta. rewrite elem_of_app. split.
  - intros [[H _]%list_elem_of_In%List.filter_In|H]; [by apply list_elem_of_In|].
    destruct (_target_language requested contract output) as [t|] eqn:Et; cbn [default from_option id] in *.
    + rewrite (target_fixed _ _ _ _ Et) in H. destruct (String.eqb_spec t "") as [->|Hne]; [by apply not_elem_of_nil in H|].
      apply list_elem_of_singleton in H as ->. apply accepted_target; [done|by eapply target_fixed].
    + by apply not_elem_of_nil in H.
  - intros H. left. apply list_elem_of_In, List.filter_In. split; [by apply list_elem_of_In|].
    apply negb_true_iff, String.eqb_neq. by eapply accepted_nonempty.
Qed.

Lemma nonempty_same (l m : list string) : (forall s, s ∈ l <-> s ∈ m) -> l <> [] -> m <> [].
Proof.
  intros H Hl ->. destruct l as [|x l]; [done|]. apply (not_elem_of_nil x), H. by left.
Qed.

Lemma alignment_fails output target accepted_languages :
  let language := lower_name (dget0 output "language") in
  let t := str_lower (str_strip (default "" target)) in
  let compared := List.filter (fun s => negb (String.eqb s "")) accepted_languages ++ (if String.eqb t "" then [] else [t]) in
  failed_required (_check_language_alignment output target accepted_languages) = true <->
  language <> "" /\ compared <> [] /\ language ∉ compared.
Proof.
  cbv zeta. unfold _check_language_alignment.
  set (language := lower_name _). set (t := str_lower _). set (compared := _ ++ _).
  assert (t <> "" -> t ∈ compared) as Ht.
  { intros Hne. apply elem_of_app. right. rewrite (proj2 (String.eqb_neq t "") Hne). by left. }
  clearbody compared language t. destruct (String.eqb_spec language "") as [->|Hne]; [split; [done|by intros []]|].
  cbn [orb]. assert (compared = [] \/ exists x l, compared = x :: l) as [->|Hc] by (destruct compared; eauto).
  { split; [done|]. by intros (_ & ? & _). }
  assert (compared <> [] /\ match compared with [] => true | _ :: _ => false end = false) as [Hc' ->]
    by (by destruct Hc as (x & l & ->)).
  destruct (String.eqb_spec language t) as [->|Hnt].
  { split; [done|]. intros (_ & _ & Hni). by destruct Hni; apply Ht. }
  destruct (str_in language compared) eqn:Ei.
  - apply str_in_spec in Ei. split; [done|]. by intros (_ & _ & ?).
  - apply str_in_false in Ei. by split.
Qed.

Lemma alignment_check_fails requested metadata :
  let output := dict_value (dget0 metadata "generated_output") in
  let contract := dict_value (dget0 metadata "mission_contract") in
  let t := _target_language requested contract output in
  failed_required (_check_language_alignment output t (_accepted_languages requested contract t)) = true <->
  language_mismatch requested metadata.
Proof.
  cbv zeta. rewrite alignment_fails. unfold language_mismatch.
  set (output := dict_value (dget0 metadata "generated_output")). set (contract := dict_value _).
  pose proof (alignment_accepted requested contract output) as Ha. cbv zeta in Ha.
  rewrite Ha. split; intros (H1 & H2 & H3); (split_and!; [done| |done]); (eapply nonempty_same; [|exact H2]).
  - exact Ha.
  - intros s. symmetry. apply Ha.
Qed.

Lemma signature_check_fails requested metadata :
  let output := dict_value (dget0 metadata "generated_output") in
  let contract := dict_value (dget0 metadata "mission_contract") in
  failed_required (_check_language_content_signature output (_target_language requested contract output)) = true <->
  python_in_disguise requested metadata.
Proof.
  cbv zeta. unfold _check_language_content_signature, python_in_disguise, headline_language.
  set (output := dict_value (dget0 metadata "generated_output")). set (contract := dict_value _).
  assert (str_lower (str_strip (default "" (_target_language requested contract output))) =
          default "" (_target_language requested contract output)) as ->.
  { destruct (_target_language _ _ _) as [t|] eqn:E; [by apply target_fixed in E|done]. }
  set (target := default "" _). clearbody target.
  destruct (str_in target _) eqn:Ei.
  - apply str_in_spec in Ei. cbn [negb]. destruct (String.eqb_spec (str_strip (code_of output)) "") as [E|E].
    + split; [done|]. by intros (_ & ? & _).
    + unfold _PYTHON_SIGNAL_MIN_MATCHES. destruct (Nat.leb_spec 2 (python_matches (code_of output))).
      * done.
      * split; [done|]. intros (_ & _ & ?). lia.
  - apply str_in_false in Ei. split; [done|]. by intros (? & _).
Qed.

Lemma criteria_check_advises ratio f c o : failed_required (_check_acceptance_criteria ratio f c o) = false.
Proof. unfold _check_acceptance_criteria. cbv zeta. by repeat case_match. Qed.

Lemma aim_check_advises aim o check : _check_aim_consistency aim o = Ok check -> failed_required check = false.
Proof.
  unfold _check_aim_consistency. destruct aim as [|kv aim]; [by intros [= <-]|].
  destruct (py_iter _) as [items|]; cbn [mbind result_bind]; [|done]. intros H. injection H as <-. by case_match.
Qed.

Lemma port_checks_advise nodes o : existsb failed_required (_port_concept_coverage_checks nodes o) = false.
Proof. unfold _port_concept_coverage_checks. by induction (take 20 _) as [|k l IH]. Qed.

Lemma checks_failures ratio requested metadata build_artifacts checks :
  equivalence_checks ratio requested metadata build_artifacts = Ok checks ->
  existsb failed_required checks = true <-> defective requested metadata build_artifacts.
Proof.
  unfold equivalence_checks. cbv zeta.
  destruct (_check_artifact_format _ _ _ _) as [format|] eqn:Ef; cbn [mbind result_bind]; [|done].
  destruct (_check_aim_consistency _ _) as [aim|] eqn:Ea; cbn [mbind result_bind]; [|done].
  intros [= <-]. cbn [app existsb]. rewrite criteria_check_advises, (aim_check_advises _ _ _ Ea).
  set (ports := match dget0 metadata "port_source_logicnodes" with VList _ => _ | _ => _ end).
  assert (existsb failed_required ports = false) as ->.
  { subst ports. repeat case_match; try done. apply port_checks_advise. }
  rewrite orb_false_r, !orb_true_iff, exists_check_fails, artifact_check_fails, (format_check_fails _ _ _ Ef),
    alignment_check_fails, signature_check_fails. unfold defective, too_short. tauto.
Qed.

Lemma build_verdict ratio now mission_id requested metadata build_artifacts enforcement_enabled report :
  build_equivalence_report ratio now mission_id requested metadata build_artifacts enforcement_enabled = Ok report ->
  exists failed, (failed = true <-> defective requested metadata build_artifacts) /\
    dget0 report "blocking" = VBool (enforcement_enabled && failed) /\ dget0 report "passed" = VBool (negb failed).
Proof.
  intros Hreport. unfold build_equivalence_report in Hreport. destruct (equivalence_checks _ _ _ _) as [checks|] eqn:Ec; [|done].
  injection Hreport as <-. exists (existsb failed_required checks). by rewrite <- (checks_failures _ _ _ _ _ Ec).
Qed.

Lemma build_blocks ratio now mission_id requested metadata build_artifacts enforcement_enabled report :
  build_equivalence_report ratio now mission_id requested metadata build_artifacts enforcement_enabled = Ok report ->
  dget0 report "blocking" = VBool true <-> enforcement_enabled = true /\ defective requested metadata build_artifacts.
Proof.
  intros (failed & Hf & -> & _)%build_verdict. rewrite <- Hf. destruct enforcement_enabled, failed; cbn; intuition congruence.
Qed.

(** The section is attached; what it does to the verdict. *)
Lemma attach_verdict report behavioural enriched enforce :
  attach_behavioural_report report behavioural enforce = Ok enriched ->
  let contradicted := enforce && bool_decide (dget0 behavioural "status" = VStr "failed") in
  dget0 enriched "blocking" = (if contradicted then VBool true else dget0 report "blocking") /\
  dget0 enriched "passed" = (if contradicted then VBool false else dget0 report "passed").
Proof.
  unfold attach_behavioural_report. destruct behavioural as [|kv b].
  { intros [= <-]. cbn. by rewrite andb_false_r. }
  generalize (kv :: b). clear kv b. intros behavioural Hattach.
  destruct (py_iter (dget_or behavioural _ _)) as [items|]; cbn [mbind result_bind] in Hattach; [|done].
  set (found := omap _ _) in *. destruct (match found with [] => _ | _ => _ end) as [earlier|]; cbn [mbind result_bind] in Hattach; [|done].
  injection Hattach as <-. cbv zeta. destruct (enforce && _), found; by dict_simpl.
Qed.

Lemma attach_blocks report behavioural enriched enforce :
  attach_behavioural_report report behavioural enforce = Ok enriched ->
  dget0 enriched "blocking" = VBool true <->
  dget0 report "blocking" = VBool true \/ (enforce = true /\ dget0 behavioural "status" = VStr "failed").
Proof.
  intros [-> _]%attach_verdict. destruct enforce; cbn [andb]; [case_bool_decide|]; intuition congruence.
Qed.

(** ** Properties *)

(** The equivalence report blocks exactly when enforcement is on and what was generated is
    defective: too short, without a verified artifact, in a format other than the ones the
    contract demands, in a language the mission does not accept, or Python under the name
    of an unlike language; it passed exactly when there is no defect. *)
Lemma equivalence_blocks_iff (ratio : nat -> nat -> val) (now mission_id : string) (requested : option string)
    (metadata : dict) (build_artifacts : list dict) (enforcement_enabled : bool) (report : dict)
    (Hreport : build_equivalence_report ratio now mission_id requested metadata build_artifacts enforcement_enabled = Ok report) :
  (dget0 report "blocking" = VBool true <-> enforcement_enabled = true /\ defective requested metadata build_artifacts) /\
  (dget0 report "passed" = VBool true <-> ~ defective requested metadata build_artifacts).
Proof.
  split; [by eapply build_blocks|]. destruct (build_verdict _ _ _ _ _ _ _ _ Hreport) as (failed & <- & _ & ->).
  destruct failed; cbn; intuition congruence.
Qed.

(** Attaching a behavioural section never lifts a block and never marks a failed report
    passed; it makes the report block exactly when enforced evidence contradicts it. *)
Lemma behavioural_only_tightens (report behavioural enriched : dict) (enforce : bool)
    (Hattach : attach_behavioural_report report behavioural enforce = Ok enriched) :
  let contradicted := enforce = true /\ dget0 behavioural "status" = VStr "failed" in
  (dget0 enriched "blocking" = VBool true <-> dget0 report "blocking" = VBool true \/ contradicted) /\
  (dget0 enriched "passed" = VBool true <-> dget0 report "passed" = VBool true /\ ~ contradicted).
Proof.
  cbv zeta. split; [by apply attach_blocks|]. destruct (attach_verdict _ _ _ _ Hattach) as [_ ->].
  destruct enforce; cbn [andb]; [case_bool_decide|]; intuition congruence.
Qed.

(** ** Concrete reports *)

(** A browser game contracted as one HTML file and delivered as a script. *)
Definition demo_metadata : dict :=
  [("generated_output", VDict [("generated_code", VStr "console.log('pong');"); ("language", VStr "javascript");
                               ("filename", VStr "neon-pong.js")]);
   ("feature_contract", VDict [("summary", VStr "Deliver a single self-contained HTML file")]);
   ("mission_contract", VDict [("target_languages", VList [VStr "javascript"; VStr "html"])])].

Definition demo_artifacts : list dict :=
  [[("artifact_type", VStr "generated_code"); ("artifact_id", VStr "a1"); ("digest_sha256", VStr "d1");
    ("verification", VDict [("verified", VBool true)]); ("manifest", VDict [("filename", VStr "neon-pong.js")])]].

Definition demo_ratio (a b : nat) : val := VInt (Z.of_nat (a * 1000 / b)).

Definition demo_equivalence : dict :=
  match build_equivalence_report demo_ratio "t" "m1" (Some "javascript") demo_metadata demo_artifacts true with
  | Ok report => report
  | Raise _ => []
  end.

Lemma equivalence_blocks_iff_witness :
  dget0 demo_equivalence "blocking" = VBool true /\ defective (Some "javascript") demo_metadata demo_artifacts.
Proof.
  split; [by_compute|].
  apply (equivalence_blocks_iff demo_ratio "t" "m1" (Some "javascript") demo_metadata demo_artifacts true demo_equivalence);
    by_compute.
Defined.

Definition demo_behavioural : dict :=
  [("status", VStr "failed"); ("findings", VList [VStr "vector 1 contradicted"])].

Definition demo_attached : dict :=
  match attach_behavioural_report [("blocking", VBool false); ("passed", VBool true)] demo_behavioural true with
  | Ok report => report
  | Raise _ => []
  end.

Lemma behavioural_only_tightens_witness : dget0 demo_attached "blocking" = VBool true.
Proof.
  refine (proj2 (proj1 (behavioural_only_tightens [("blocking", VBool false); ("passed", VBool true)] demo_behavioural
    demo_attached true ltac:(by_compute))) _).
  right. by split.
Defined.

(** What the contract reader makes of formats that a tool works on, and of formats it is to
    be delivered in. *)
Example operands_are_no_demand :
  _expected_artifact_extensions "convert a CSV file to JSON, with flag -o/--output for the output JSON file" = [] /\
  _expected_artifact_extensions "Running csv2json input.csv -o output.json writes it" = [] /\
  _expected_artifact_extensions "deliver a single .html file without any .css" = ["html"; "htm"; "html"].
Proof. split_and!; by_compute. Qed.
