(* ===== verification/Phase.v ===== *)
(** * Phase

    How a preparer of [O/mission_flow_v2] runs: it reads and writes its mission through
    the storage functions, and in between it awaits functions that are not modelled, such
    as a language model or the sandbox.  A phase is a coroutine over both kinds of call;
    [as_phase] runs it for the driver of Lifecycle, and a phase that only reads, updates
    metadata and logs what happened is quiet, whatever the outside answers. *)

From S2P Require Import Prelude PyVal Agents MissionStates MissionFlow Store Tasks Lifecycle Engines Routes.

(** ** Calls *)

Inductive phase_call :=
| Storage (c : act)
| Call (callee : string) (arguments : dict).

Inductive phase_reply :=
| Stored (a : answer)
| Returned (v : val)
| Failed (e : exn).

Abbreviation phase := (task phase_call phase_reply exn).

Definition storage (c : act) : phase (option MissionRecord) :=
  await (Storage c) (fun r => match r with
                              | Stored (Mission o) => inr o
                              | Stored (Raised e) | Failed e => inl e
                              | _ => inr None
                              end).

(** [await callee(arguments)] *)
Definition call (callee : string) (arguments : dict) : phase val :=
  await (Call callee arguments) (fun r => match r with
                                          | Returned v => inr v
                                          | Stored (Raised e) | Failed e => inl e
                                          | _ => inr VNone
                                          end).

(** A pure function that may raise. *)
Definition pure {A} (r : result A) : phase A :=
  match r with Ok a => tret a | Raise e => traise e end.

(** [try: t except Exception: fallback] *)
Definition try_or {A} (t : phase A) (fallback : A) : phase A := tcatch t (fun _ => tret fallback).

(** [updated = update_mission_metadata(..); updated or mission] *)
Definition save_metadata (mission : MissionRecord) (metadata : dict) : phase MissionRecord :=
  updated ← storage (UpdateMetadata (ms_mission_id mission) metadata);
  tret (default mission updated).

(** ** Running a phase

    [outside] answers the calls, from all that was asked before. *)

Abbreviation asked := (list (string * dict)).

Definition phase_env (outside : asked -> string -> dict -> phase_reply) (c : phase_call) (w : DB * asked)
    : phase_reply * (DB * asked) :=
  match c with
  | Storage c => let '(a, w') := act_exec false c (mkWorld w.1 ∅ (∅, [])) in (Stored a, (w_db w', w.2))
  | Call callee arguments => (outside w.2 callee arguments, (w.1, w.2 ++ [(callee, arguments)]))
  end.

Definition run_phase {A} (outside : asked -> string -> dict -> phase_reply) (t : phase A) (db : DB)
    : (exn + A) * DB * asked :=
  let '(out, (db', log), _) := run (phase_env outside) t (db, []) in (out, db', log).

Definition as_phase {A} (outside : asked -> string -> dict -> phase_reply) (t : phase A) : M A := fun db =>
  let '(out, db', _) := run_phase outside t db in
  (match out with inl e => Raise e | inr a => Ok a end, db').

(** ** Quiet phases *)

(** Calls that do not move a mission. *)
Definition gentle (c : phase_call) : Prop :=
  match c with
  | Storage (Fetch _) | Storage (UpdateMetadata _ _) => True
  | Storage (LogEvent _ previous new _) => previous = Some new
  | Storage _ => False
  | Call _ _ => True
  end.

Lemma gentle_quiet id outside c w : gentle c -> quiet id w.1 (phase_env outside c w).2.1.
Proof.
  destruct c as [c|callee arguments]; cbn; [|by intros _; apply quiet_refl].
  assert (forall A (m : M A) f, keeps id m -> quiet id w.1 (w_db (db_act m f (mkWorld w.1 ∅ (∅, []))).2)) as Hact.
  { intros A m f Hm. specialize (Hm w.1). unfold db_act. cbn. by destruct (m w.1). }
  destruct c; cbn; try done.
  - intros _. specialize (Hact _ (fetch_mission mission_id) Mission (keeps_fetch _ _)).
    by destruct (db_act (fetch_mission mission_id) Mission _).
  - intros ->. specialize (Hact _ (insert_mission_event mission_id (Some new_state) new_state event_type)
      (fun _ => Finished) (keeps_log _ _ _ _)). by destruct (db_act _ _ _).
  - intros _. specialize (Hact _ (update_mission_metadata mission_id metadata) Mission (keeps_update _ _ _)).
    by destruct (db_act _ _ _).
Qed.

#[export] Instance quiet_preorder id : PreOrder (quiet id).
Proof. split; [intros db; apply quiet_refl|intros a b c; apply quiet_trans]. Qed.

Lemma gentle_keeps {A} id outside (t : phase A) : issues gentle t -> keeps id (as_phase outside t).
Proof.
  intros Ht db. unfold as_phase, run_phase.
  assert (PreOrder (fun w w' : DB * asked => quiet id w.1 w'.1)) as Hpre.
  { split; [intros w; apply quiet_refl|intros a b c; apply quiet_trans]. }
  pose proof (run_issues (phase_env outside) gentle (fun w w' => quiet id w.1 w'.1) t (db, [])
    (fun c w => gentle_quiet id outside c w) Ht) as H.
  by destruct (run _ t (db, [])) as [[out [db' log]] tr].
Qed.

(** Walk through a phase's text. *)
Create HintDb phases discriminated.
#[export] Hint Constants Opaque : phases.

Ltac walk_phase :=
  repeat first
    [ solve [eauto with phases nocore]
    | match goal with
      | |- True => exact I
      | |- issues _ (let _ := _ in _) => cbv zeta
      | |- issues _ (tret _) => exact I
      | |- issues _ (traise _) => exact I
      | |- issues _ (call _ _) => apply (issues_await _ (Call _ _)); first [exact I | by cbn]
      | |- issues _ (storage _) => apply (issues_await _ (Storage _)); first [exact I | by cbn]
      | |- issues _ (mbind _ _) => apply issues_mbind; [|intros ?]
      | |- issues _ (let '(_, _) := ?x in _) => destruct x
      | |- issues _ (if ?b then _ else _) => destruct b
      | |- issues _ (match ?x with _ => _ end) => destruct x
      | |- issues _ (pure ?x) => destruct x; exact I
      | |- issues _ (try_or _ _) => unfold try_or
      | |- issues _ (tcatch _ _) => apply issues_catch; [|intros ?]
      | |- issues _ (save_metadata _ _) => unfold save_metadata
      end ].

(** ** Helpers of [base.py] *)

Section base.
Context (now : string).

(** Metadata is copied shallowly before a phase writes to it. *)
Definition _record_artifact (metadata : dict) (stage event_type agent_id : string) (details : dict) : dict :=
  let artifacts := dict_value (dget0 metadata "mission_artifacts") in
  dset metadata "mission_artifacts"
    (VDict (dset artifacts stage
       (VDict [("event_type", VStr event_type); ("agent_id", VStr agent_id); ("recorded_at", VStr now);
               ("details", VDict details)]))).

(** [if not _chain_event_exists(..): append_chain_event(..)] *)
Definition append_once (metadata : dict) (event_type agent_id : string) (details : dict) : dict :=
  if _chain_event_exists metadata event_type then metadata
  else append_chain_event metadata event_type agent_id (Some details) None now.
End base.

Definition str_or_none (o : option string) : val := match o with Some s => VStr s | None => VNone end.

Definition _mission_context (mission : MissionRecord) (metadata : dict) : dict :=
  [("mission_id", VStr (ms_mission_id mission)); ("prompt", VStr (ms_prompt mission));
   ("requested_target_language", str_or_none (ms_language mission)); ("source", dget0 metadata "source");
   ("routing_version", dget0 metadata "routing_version"); ("routing_enforced", dget0 metadata "routing_enforced")].

Definition phase_defaults (mission : MissionRecord) : dict :=
  with_chain_defaults (VDict (ms_metadata mission)) (ms_language mission).

(** ** Reasoning about a run

    [wp outside Q t w]: run on the database and the calls so far, [t] returns only
    values and leaves only worlds that [Q] allows. *)

Definition wp {A} (outside : asked -> string -> dict -> phase_reply) (Q : A -> DB * asked -> Prop) (t : phase A)
    (w : DB * asked) : Prop :=
  match run (phase_env outside) t w with (inr a, w', _) => Q a w' | _ => True end.

Section wp.
Context (outside : asked -> string -> dict -> phase_reply).

Lemma wp_ret {A} (Q : A -> DB * asked -> Prop) a w : Q a w -> wp outside Q (tret a) w.
Proof. done. Qed.

Lemma wp_bind {A B} (Q : B -> DB * asked -> Prop) (t : phase A) (f : A -> phase B) w :
  wp outside (fun a w' => wp outside Q (f a) w') t w -> wp outside Q (t ≫= f) w.
Proof.
  unfold wp, mbind, task_bind. rewrite run_bind. destruct (run _ t w) as [[[e|a] w'] tr]; [done|].
  by destruct (run _ (f a) w') as [[[] ?] ?].
Qed.

Lemma wp_pure {A} (Q : A -> DB * asked -> Prop) (r : result A) w :
  (forall a, r = Ok a -> Q a w) -> wp outside Q (pure r) w.
Proof. intros H. destruct r as [a|e]; [by apply H|done]. Qed.

Lemma wp_try {A} (Q : A -> DB * asked -> Prop) (t : phase A) fallback w :
  wp outside Q t w -> (forall w', Q fallback w') -> wp outside Q (try_or t fallback) w.
Proof.
  intros Ht HQ. unfold wp, try_or in *. rewrite run_catch. destruct (run _ t w) as [[[e|a] w'] tr]; [|done]. cbn. apply HQ.
Qed.

(** A gentle phase may return anything, but leaves the state of a mission alone. *)
Lemma wp_gentle {A} id (Q : A -> DB * asked -> Prop) (t : phase A) w :
  issues gentle t -> (forall a w', quiet id w.1 w'.1 -> Q a w') -> wp outside Q t w.
Proof.
  intros Ht HQ. unfold wp.
  assert (PreOrder (fun w w' : DB * asked => quiet id w.1 w'.1)) as Hpre.
  { split; [intros v; apply quiet_refl|intros a b c; apply quiet_trans]. }
  pose proof (run_issues (phase_env outside) gentle (fun w w' => quiet id w.1 w'.1) t w
    (fun c w => gentle_quiet id outside c w) Ht) as H.
  destruct (run _ t w) as [[[e|a] w'] tr]; [done|]. by apply HQ.
Qed.

Lemma wp_mono {A} (P Q : A -> DB * asked -> Prop) (t : phase A) w :
  wp outside P t w -> (forall a w', P a w' -> Q a w') -> wp outside Q t w.
Proof. unfold wp. intros H HPQ. destruct (run _ t w) as [[[e|a] w'] tr]; [done|]. by apply HPQ. Qed.

Lemma wp_yields {A} (P : A -> Prop) (Q : A -> DB * asked -> Prop) (t : phase A) w :
  yields P t -> (forall a w', P a -> Q a w') -> wp outside Q t w.
Proof.
  intros Ht HPQ. unfold wp. destruct (run _ t w) as [[[e|a] w'] tr] eqn:Er; [done|]. apply HPQ. by eapply run_yields.
Qed.

(** The next call is answered by the outside. *)
Lemma wp_call {A} (Q : A -> DB * asked -> Prop) callee arguments (f : val -> phase A) w :
  (forall v, outside w.2 callee arguments = Returned v -> wp outside Q (f v) (w.1, w.2 ++ [(callee, arguments)])) ->
  (forall o, outside w.2 callee arguments = Stored o -> wp outside Q (f VNone) (w.1, w.2 ++ [(callee, arguments)])) ->
  wp outside Q (call callee arguments ≫= f) w.
Proof.
  intros Hv Ho. apply wp_bind. unfold wp at 1. cbn. destruct (outside w.2 callee arguments) as [o|v|e]; cbn; [|by apply Hv|done].
  destruct o; try done; by eapply Ho.
Qed.

Lemma run_phase_wp {A} (Q : A -> DB * asked -> Prop) (t : phase A) db a db' log :
  wp outside Q t (db, []) -> run_phase outside t db = (inr a, db', log) -> Q a (db', log).
Proof.
  unfold wp, run_phase. destruct (run _ t (db, [])) as [[[e|b] [db1 log1]] tr]; [done|]. intros H. by intros [= -> -> ->].
Qed.
End wp.


(** ** Saving metadata *)

Lemma update_then_fetch id metadata db m db' :
  update_mission_metadata id metadata db = (Ok (Some m), db') -> fetch_mission id db' = (Ok (Some m), db').
Proof.
  unfold update_mission_metadata, fetch_mission. destruct (db_missions db !! id) as [row|]; [|done].
  cbv zeta. set (row' := with_metadata _ _ _). clearbody row'. destruct (row_to_mission row') as [m'|] eqn:E; [|done].
  change (Some <$> Ok m') with (Ok (Some m')). intros [= -> <-]. cbn [db_missions]. rewrite lookup_insert_eq. cbv iota beta. by rewrite E.
Qed.

(** The keys that storage rewrites. *)
Definition rewritten_keys : list string := ["project_id"; "project_name"; "vault"; "delta_audit_gate"].

Lemma wp_save {A} outside (Q : A -> DB * asked -> Prop) mission metadata s (f : MissionRecord -> phase A) w :
  let id := ms_mission_id mission in
  state_of w.1 id = Some (state_value s) ->
  (forall m db', fetch_mission id db' = (Ok (Some m), db') -> state_of db' id = Some (state_value s) -> quiet id w.1 db' ->
     (forall k, str_in k rewritten_keys = false -> dget (ms_metadata m) k = dget metadata k) ->
     wp outside Q (f m) (db', w.2)) ->
  wp outside Q (save_metadata mission metadata ≫= f) w.
Proof.
  cbv zeta. intros Hs HQ. set (id := ms_mission_id mission) in *.
  destruct (db_missions w.1 !! id) as [row|] eqn:Hr; [|by unfold state_of in Hs; rewrite Hr in Hs].
  assert (r_state row = state_value s) as Hrs by (unfold state_of in Hs; rewrite Hr in Hs; by injection Hs).
  destruct (update_metadata_row id metadata w.1 row s Hr Hrs) as (m & row' & Hu & _ & Hmd & Hst & Hk).
  set (db' := mkDB _ _) in *. apply wp_bind. unfold wp at 1.
  assert (run (phase_env outside) (save_metadata mission metadata) w =
    (inr m, (db', w.2), [(Storage (UpdateMetadata id metadata), Stored (Mission (Some m)))])) as ->.
  { unfold save_metadata, mbind, task_bind, storage. fold id. cbn -[update_mission_metadata]. unfold db_act.
    cbn -[update_mission_metadata]. by rewrite Hu. }
  apply HQ.
  - exact (update_then_fetch _ _ _ _ _ Hu).
  - unfold state_of. cbn. rewrite lookup_insert_eq. cbn. congruence.
  - pose proof (keeps_update id id metadata w.1) as Hq. by rewrite Hu in Hq.
  - intros k Hk'. rewrite Hmd. by apply Hk.
Qed.

(** What the defaults of the chain leave alone. *)
Lemma defaults_keep mission k :
  str_in k ["chain_trace"; "agent_id"; "selected_agent_id"; "expected_specialist_agent_id"; "expected_pod_manager_agent_id";
            "executive_agent_id"; "intake_agent_id"; "routing_enforced"; "routing_version"] = false ->
  dget (phase_defaults mission) k = dget (ms_metadata mission) k.
Proof.
  intros Hk. unfold phase_defaults. rewrite with_chain_defaults_get. cbn [str_in existsb] in Hk |- *.
  repeat (apply orb_false_iff in Hk as [? Hk]). repeat match goal with H : String.eqb _ _ = false |- _ => rewrite H end. done.
Qed.

Lemma defaults_keep0 mission k :
  str_in k ["chain_trace"; "agent_id"; "selected_agent_id"; "expected_specialist_agent_id"; "expected_pod_manager_agent_id";
            "executive_agent_id"; "intake_agent_id"; "routing_enforced"; "routing_version"] = false ->
  dget0 (phase_defaults mission) k = dget0 (ms_metadata mission) k.
Proof. intros Hk. unfold dget0. by rewrite defaults_keep. Qed.

(** What an event on the chain leaves alone. *)
Definition chain_keys : list string := ["chain_trace"; "last_chain_event_type"; "last_chain_event_at"].

Lemma append_keeps metadata ev agent details ts now k :
  str_in k chain_keys = false -> dget0 (append_chain_event metadata ev agent details ts now) k = dget0 metadata k.
Proof.
  intros Hk. unfold append_chain_event. cbv zeta. apply str_in_false in Hk. unfold chain_keys in Hk.
  rewrite !not_elem_of_cons in Hk. destruct Hk as (H1 & H2 & H3 & _). by rewrite !dget0_dset_ne by congruence.
Qed.

Lemma append_once_keeps now metadata ev agent details k :
  str_in k chain_keys = false -> dget0 (append_once now metadata ev agent details) k = dget0 metadata k.
Proof. intros Hk. unfold append_once. case_match; [done|]. by apply append_keeps. Qed.

Lemma dget0_ddel_ne (d : dict) k k' : k <> k' -> dget0 (ddel d k) k' = dget0 d k'.
Proof. intros. unfold dget0. by rewrite dget_ddel_ne. Qed.

(** Push [dget0] through the updates of a phase, at literal keys. *)
Ltac meta_simpl :=
  repeat first
    [ rewrite dget0_dset_eq | rewrite dget0_dset_ne by discriminate | rewrite dget0_ddel_ne by discriminate
    | rewrite append_keeps by reflexivity | rewrite append_once_keeps by reflexivity ].

Lemma yields_pure {A} (Q : A -> Prop) (r : result A) : (forall a, r = Ok a -> Q a) -> yields Q (pure r : phase A).
Proof. intros H. destruct r as [a|e]; [by apply H|done]. Qed.

Lemma yields_true {A} (t : phase A) : yields (fun _ => True) t.
Proof. by apply yields_any. Qed.

(** A returned value with what was asked for it. *)
Lemma run_phase_yields {A} (Q : A -> Prop) outside (t : phase A) db a db' log :
  yields Q t -> run_phase outside t db = (inr a, db', log) -> Q a.
Proof.
  intros HQ Hrun. unfold run_phase in Hrun. destruct (run _ _ _) as [[out [db1 log1]] tr] eqn:Er.
  injection Hrun as -> -> ->. exact (run_yields _ _ _ _ _ _ _ HQ Er).
Qed.
