(* ===== verification/Delivery.v ===== *)
(** * Delivery

    The preparers of [O/mission_flow_v2/phases_delivery.py]: the equivalence gate with its
    behavioural evidence, the security gate, and the delivery summary.  The reports are
    those of Equivalence and Compliance; language models, the sandbox, signing and the
    artifact and audit stores are calls to the outside. *)

From S2P Require Import Prelude PyVal Agents MissionStates MissionFlow Store Tasks Lifecycle Routes Reports Phase.
From S2P Require Compliance Equivalence.

(** The attributes of the settings. *)
Definition setting (settings : dict) (name : string) : bool := _setting_bool (dget_or settings name (VBool false)) false.

Definition AGENT_10_TESTER : string := "AGENT-10-TESTER".
Definition AGENT_05_SECURITY : string := "AGENT-05-SECURITY".

(** [storage.list_build_artifacts(settings, mission_id, 50)] *)
Definition list_build_artifacts (mission_id : string) : phase (list dict) :=
  found ← call "list_build_artifacts" [("mission_id", VStr mission_id); ("limit", VInt 50)];
  tret (match found with VList l => omap as_dict l | _ => [] end).

Definition verdict_fields (report : dict) : dict :=
  (fun key => (key, dget0 report key)) <$> ["report_id"; "status"; "passed"; "blocking"; "risk_level"].

Definition list_length (v : val) : Z := match v with VList l => Z.of_nat (length l) | _ => 0 end.

Definition record_audit_event (mission_id agent_id event_type object_type object_id : string) (summary : dict) : phase val :=
  call "record_audit_event" [("mission_id", VStr mission_id); ("agent_id", VStr agent_id); ("event_type", VStr event_type);
                             ("object_type", VStr object_type); ("object_id", VStr object_id); ("payload_summary", VDict summary)].

Section delivery.
Context (settings : dict) (now : string) (ratio : nat -> nat -> val).

(** ** Behavioural evidence *)

(** What both runs need: the code, its language and its file name. *)
Definition runnable (mission : MissionRecord) (metadata : dict) : option (dict * string * string * string) :=
  match dget0 metadata "generated_output" with
  | VDict output =>
      let code := get_text output "generated_code" in
      if String.eqb (str_strip code) "" then None
      else Some (output, code,
                 py_str (py_or (dget0 output "language") (py_or (str_or_none (ms_language mission)) (VStr ""))),
                 py_str (py_or (dget0 output "filename") (VStr "artifact.py")))
  | _ => None
  end.

Definition docker_bin : val := VStr (py_str (py_or (dget_or settings "docker_bin" (VStr "docker")) (VStr "docker"))).

Definition no_vectors (mission_id : string) : dict :=
  [("schema_version", VStr "1.0.0"); ("verification_scope", VStr "behavioural"); ("mission_id", VStr mission_id);
   ("status", VStr "skipped"); ("reason", VStr "no Refined-IR module in mission metadata");
   ("equivalence_vectors_passed", VInt 0); ("equivalence_vectors_total", VInt 0); ("findings", VList [])].

Definition _run_behavioural_equivalence (mission : MissionRecord) (metadata : dict) : phase (option dict) :=
  match runnable mission metadata with
  | None => tret None
  | Some (_, code, language, filename) =>
      match dget0 metadata "refined_ir_module" with
      | VDict rir_module =>
          try_or (v ← call "run_behavioural_equivalence"
                        [("mission_id", VStr (ms_mission_id mission)); ("language", VStr language);
                         ("artifact_filename", VStr filename); ("artifact_code", VStr code);
                         ("rir_module", VDict rir_module); ("docker_bin", docker_bin)];
                  tret (as_dict v)) None
      | _ => tret (Some (no_vectors (ms_mission_id mission)))
      end
  end.

(** The vectors of the oracle: those stored, or new ones, which are then stored. *)
Definition oracle_vectors (mission : MissionRecord) (metadata output : dict) (code language filename : string) : phase dict :=
  let stored := dict_value (dget0 metadata "contract_equivalence_vectors") in
  if is_dict (dget0 metadata "contract_equivalence_vectors") && bool_decide (dget0 stored "source" = VStr "llm") then tret metadata
  else
    interface ← call "interface_for_oracle" [("language", VStr language); ("code", VStr code); ("filename", VStr filename);
                                             ("generated_output", VDict output)];
    let contract := py_or (dget0 metadata "feature_contract") (py_or (dget0 metadata "mission_contract") (VDict [])) in
    let summary := match contract with
                   | VDict c => py_str (py_or (dget0 c "summary") (py_or (dget0 c "contract_summary") (VStr "")))
                   | _ => ""
                   end in
    vectors ← call "generate_contract_vectors" [("mission_id", VStr (ms_mission_id mission)); ("contract_summary", VStr summary);
                                                ("interface", interface); ("metadata", VDict metadata)];
    tret (dset metadata "contract_equivalence_vectors" vectors).

(** The metadata with the vectors, and the report.  Both steps are inside one
    [try]; what the first has stored stays when the second fails. *)
Definition _run_contract_equivalence (mission : MissionRecord) (metadata : dict) : phase (dict * option dict) :=
  match runnable mission metadata with
  | None => tret (metadata, None)
  | Some (output, code, language, filename) =>
      found ← try_or (m ← oracle_vectors mission metadata output code language filename; tret (Some m)) None;
      match found with
      | None => tret (metadata, None)
      | Some metadata =>
          report ← try_or (v ← call "run_contract_equivalence"
                                 [("mission_id", VStr (ms_mission_id mission)); ("language", VStr language);
                                  ("artifact_filename", VStr filename); ("artifact_code", VStr code);
                                  ("contract_vectors", dget0 metadata "contract_equivalence_vectors");
                                  ("dependencies", dget0 output "dependencies"); ("docker_bin", docker_bin)];
                           tret (as_dict v)) None;
          tret (metadata, report)
      end
  end.

Definition non_empty (o : option dict) : option dict := match o with Some (_ :: _) => o | _ => None end.

(** The Refined-IR run, and the contract oracle when that gave no verdict. *)
Definition behavioural_evidence (mission : MissionRecord) (metadata : dict) : phase (dict * option dict) :=
  behavioural ← (if setting settings "mission_equivalence_python_execution_enabled"
                 then _run_behavioural_equivalence mission metadata else tret None);
  let undecided := match behavioural with None => true | Some b => bool_decide (dget0 b "status" = VStr "skipped") end in
  if undecided && setting settings "mission_equivalence_contract_oracle_enabled" then
    '(metadata, contract_report) ← _run_contract_equivalence mission metadata;
    tret (metadata,
          match non_empty contract_report with
          | None => behavioural
          | Some report =>
              Some (match non_empty behavioural with
                    | Some b => dset report "refined_ir_attempt" (VDict [("status", dget0 b "status"); ("reason", dget0 b "reason")])
                    | None => report
                    end)
          end)
  else tret (metadata, behavioural).

Definition behavioural_details (b : dict) : dict :=
  [("status", dget0 b "status"); ("verification_basis", dget_or b "verification_basis" (VStr "refined_ir"));
   ("vectors_total", dget_or b "equivalence_vectors_total" (VInt 0));
   ("vectors_passed", dget_or b "equivalence_vectors_passed" (VInt 0));
   ("vectors_failed", dget_or b "equivalence_vectors_failed" (VInt 0)); ("reason", dget0 b "reason")].

(** ** The equivalence gate *)

Definition skipped_report (reason : string) : dict := [("skipped", VBool true); ("reason", VStr reason)].

(** The report stored, the event and the artifact recorded, and the audit event. *)
Definition file_report (mission : MissionRecord) (metadata report : dict)
    (key stage event_type agent_id count_key : string) (count : Z) : phase MissionRecord :=
  let metadata := dset metadata key (VDict report) in
  let metadata := append_once now metadata event_type agent_id (verdict_fields report ++ [(count_key, VInt count)]) in
  let metadata := _record_artifact now metadata stage event_type agent_id (verdict_fields report) in
  _ ← record_audit_event (ms_mission_id mission) agent_id event_type key (py_str (dget0 report "report_id"))
        (tail (verdict_fields report) ++ [(count_key, VInt count)]);
  save_metadata mission metadata.

Definition equivalence_event (report : dict) : string :=
  if truthy (dget0 report "blocking") then "MISSION_EQUIVALENCE_BLOCKED" else "MISSION_EQUIVALENCE_VERIFIED".

(** The report with its behavioural section. *)
Definition attach_evidence (metadata report : dict) (behavioural : option dict) : phase (dict * dict) :=
  match non_empty behavioural with
  | None => tret (metadata, report)
  | Some b =>
      report ← pure (Equivalence.attach_behavioural_report report b (setting settings "mission_behavioural_enforcement_enabled"));
      tret (append_once now metadata "MISSION_BEHAVIOURAL_EQUIVALENCE_RECORDED" AGENT_10_TESTER (behavioural_details b), report)
  end.

(** The report on a mission with these artifacts, filed, and the verdict. *)
Definition equivalence_verdict (mission : MissionRecord) (build_artifacts : list dict) : phase (MissionRecord * bool * dict) :=
  let metadata := phase_defaults mission in
  report ← pure (Equivalence.build_equivalence_report ratio now (ms_mission_id mission) (ms_language mission) metadata
                   build_artifacts (setting settings "mission_equivalence_enforcement_enabled"));
  '(metadata, behavioural) ← behavioural_evidence mission metadata;
  '(metadata, report) ← attach_evidence metadata report behavioural;
  updated ← file_report mission metadata report "equivalence_report" "equivalence" (equivalence_event report) AGENT_10_TESTER
              "check_count" (list_length (dget0 report "checks"));
  tret (updated, negb (truthy (dget0 report "blocking")), report).

Definition _prepare_equivalence_report (mission : MissionRecord) : phase (MissionRecord * bool * dict) :=
  if negb (Equivalence.mission_requires_equivalence (phase_defaults mission)) then
    tret (mission, true, skipped_report "generated output not present")
  else
    build_artifacts ← list_build_artifacts (ms_mission_id mission);
    equivalence_verdict mission build_artifacts.

(** ** The security gate *)

Definition security_event (report : dict) : string :=
  if truthy (dget0 report "blocking") then "MISSION_SECURITY_COMPLIANCE_BLOCKED"
  else if bool_decide (dget0 report "status" = VStr "warned") then "MISSION_SECURITY_COMPLIANCE_WARNED"
  else "MISSION_SECURITY_COMPLIANCE_PASSED".

Definition sign_report (report : dict) : phase dict :=
  try_or (signature ← call "sign_payload" [("payload", VDict (ddel report "signature_record"))];
          tret (dset report "signature_record" signature)) report.

Definition _prepare_security_compliance_report (mission : MissionRecord) : phase (MissionRecord * bool * dict) :=
  let metadata := phase_defaults mission in
  if negb (Compliance.mission_requires_security_compliance metadata) then
    tret (mission, true, skipped_report "no mission artifact to scan")
  else
    let cached_report := dict_value (dget0 metadata "security_compliance_report") in
    if is_dict (dget0 metadata "security_compliance_report") && negb (truthy (dget0 cached_report "skipped")) then
      tret (mission, negb (truthy (dget0 cached_report "blocking")), cached_report)
    else
      report ← pure (Compliance.build_security_compliance_report now (ms_mission_id mission) metadata
                       (setting settings "mission_security_compliance_enforcement_enabled"));
      report ← sign_report report;
      updated ← file_report mission metadata report "security_compliance_report" "security_compliance" (security_event report)
                  AGENT_05_SECURITY "finding_count" (list_length (dget0 report "findings"));
      tret (updated, negb (truthy (dget0 report "blocking")), report).

(** ** The delivery summary *)

(** [_send_omega_handoff]: one attempt, whatever comes of it. *)
Definition _send_omega_handoff (mission_id pm_agent_id : string) (delivery_summary : dict) (feature_contract : val) : phase unit :=
  _ ← try_or (call "send_omega_message"
                [("sender", VStr pm_agent_id); ("recipient", VStr "broadcast");
                 ("user_intent", VStr (py_str (py_or (dget0 delivery_summary "delivery_title")
                                                 (py_or (dget0 delivery_summary "summary") (VStr "mission handoff")))));
                 ("feature_contract", VDict (dupdate [("message_type", VStr "pbla_delivery_handoff")]
                    (dict_value (py_or feature_contract (VDict [])))));
                 ("correlation_id", VStr ("omega-" +:+ mission_id))]) VNone;
  tret tt.

(** One of the four reports an agent makes once, at delivery. *)
Record delivery_report := mkReport {
  dr_key : string;
  dr_generator : string;
  dr_event : string;
  dr_agent : string;
  dr_details : dict -> result dict;
  dr_arguments : list string;
}.

Definition fields (keys : list string) (d : dict) : dict := (fun key => (key, dget0 d key)) <$> keys.

(** [report.get(..)] on what a generator returned. *)
Definition expect_dict (v : val) : result dict := match v with VDict d => Ok d | _ => Raise AttributeError end.

(** The fields before, the number of entries under [key], and the fields after. *)
Definition counted (before : list string) (name key : string) (after : list string) (d : dict) : result dict :=
  n ← py_len (py_or (dget0 d key) (VList []));
  Ok (fields before d ++ [(name, VInt n)] ++ fields after d).

Definition security_analysis : delivery_report :=
  mkReport "security_analysis" "generate_security_analysis" "MISSION_SECURITY_ANALYSIS_COMPLETE" AGENT_05_SECURITY
    (counted ["risk_level"; "deployment_safe"] "threat_count" "threats" ["passed"; "source"])
    ["generated_output"; "mission_contract"].
Definition vc_commit_strategy : delivery_report :=
  mkReport "vc_commit_strategy" "generate_vc_commit_strategy" "MISSION_VC_COMMIT_STRATEGY_READY" "AGENT-07-VC"
    (fun d => Ok (fields ["conventional_type"; "branch_name"; "source"] d)) ["generated_output"; "delivery_summary"].
Definition integration_tests : delivery_report :=
  mkReport "integration_tests" "generate_integration_tests" "MISSION_INTEGRATION_TESTS_GENERATED" AGENT_10_TESTER
    (counted ["test_filename"] "test_case_count" "test_cases" ["framework"; "source"])
    ["generated_output"; "mission_contract"].
Definition compliance_assessment : delivery_report :=
  mkReport "compliance_assessment" "generate_compliance_assessment" "MISSION_COMPLIANCE_ASSESSMENT_COMPLETE" "AGENT-08-COMPLIANCE"
    (counted ["compliance_status"; "passed"] "note_count" "regulatory_notes" ["source"])
    ["generated_output"; "mission_contract"].

(** Make the report unless the mission has one. *)
Definition report_once (mission_id : string) (context : dict) (arguments : string -> val) (r : delivery_report) (metadata : dict)
    : phase dict :=
  if is_dict (dget0 metadata (dr_key r)) then tret metadata
  else
    made ← call (dr_generator r) ([("mission_id", VStr mission_id); ("mission_context", VDict context)] ++
                                  ((fun k => (k, arguments k)) <$> dr_arguments r));
    details ← pure (report ← expect_dict made; dr_details r report);
    tret (append_chain_event (dset metadata (dr_key r) made) (dr_event r) (dr_agent r) (Some details) None now).

Fixpoint reports_once (mission_id : string) (context : dict) (arguments : string -> val) (l : list delivery_report) (metadata : dict)
    : phase dict :=
  match l with
  | [] => tret metadata
  | r :: l' => metadata ← report_once mission_id context arguments r metadata;
               reports_once mission_id context arguments l' metadata
  end.

Definition delivered_details (delivery_summary : val) : result dict :=
  match delivery_summary with
  | VDict d =>
      title ← (match dget d "delivery_title" with Some title => Ok title | None => Raise KeyError end);
      n ← py_len (dget_or d "criteria_met" (VList []));
      Ok [("delivery_title", title); ("artifact_type", dget0 d "primary_artifact_type"); ("criteria_met_count", VInt n);
          ("source", dget0 d "source")]
  | _ => Raise TypeError
  end.

(** What is written after the reports. *)
Definition close_delivery (mission_id : string) (metadata : dict) (delivery_summary : val) : phase dict :=
  let clarification := dget0 metadata "pm_clarification" in
  let metadata := if truthy clarification then
                    append_once now metadata "MISSION_CLARIFICATION_APPLIED" PM_AGENT_ID
                      [("clarification_length", VInt (Z.of_nat (String.length (py_str clarification))))]
                  else metadata in
  usage ← try_or (u ← call "get_mission_token_usage" [("mission_id", VStr mission_id)]; tret (Some u)) None;
  let metadata := match usage with Some u => dset metadata "llm_usage_summary" u | None => metadata end in
  if _chain_event_exists metadata "MISSION_DELIVERED" then tret metadata
  else
    details ← pure (delivered_details delivery_summary);
    tret (append_chain_event metadata "MISSION_DELIVERED" PM_AGENT_ID (Some details) None now).

Definition _prepare_delivery_summary (mission : MissionRecord) : phase MissionRecord :=
  let metadata := phase_defaults mission in
  let context := _mission_context mission metadata in
  let generated_output := VDict (dict_value (dget0 metadata "generated_output")) in
  let mission_contract := VDict (dict_value (dget0 metadata "mission_contract")) in
  let feature_contract := py_or (dget0 metadata "feature_contract") (VDict []) in
  build_artifacts ← list_build_artifacts (ms_mission_id mission);
  made ← call "generate_pm_delivery_summary"
           [("mission_context", VDict context); ("generated_output", generated_output);
            ("build_artifacts", VList (VDict <$> build_artifacts)); ("feature_contract", feature_contract);
            ("mission_contract", mission_contract)];
  let metadata := dset metadata "delivery_summary" made in
  _ ← _send_omega_handoff (ms_mission_id mission) PM_AGENT_ID (dict_value made) feature_contract;
  let arguments := fun k => if String.eqb k "generated_output" then generated_output
                            else if String.eqb k "delivery_summary" then made else mission_contract in
  metadata ← reports_once (ms_mission_id mission) context arguments
               [security_analysis; vc_commit_strategy; integration_tests; compliance_assessment] metadata;
  metadata ← close_delivery (ms_mission_id mission) metadata made;
  details ← pure (delivered_details made);
  _ ← record_audit_event (ms_mission_id mission) PM_AGENT_ID "MISSION_DELIVERED" "delivery_summary" (ms_mission_id mission) details;
  save_metadata mission metadata.
End delivery.

(** ** The preparers are quiet *)

Lemma gentle_artifacts id : issues gentle (list_build_artifacts id).
Proof. unfold list_build_artifacts. walk_phase. Qed.

Lemma gentle_audit id agent ev ty obj summary : issues gentle (record_audit_event id agent ev ty obj summary).
Proof. unfold record_audit_event. walk_phase. Qed.

#[export] Hint Resolve gentle_artifacts gentle_audit : phases.

Lemma gentle_file mission now metadata report key stage ev agent ck n :
  issues gentle (file_report now mission metadata report key stage ev agent ck n).
Proof. unfold file_report. walk_phase. Qed.

Lemma gentle_behavioural settings mission metadata : issues gentle (_run_behavioural_equivalence settings mission metadata).
Proof. unfold _run_behavioural_equivalence. walk_phase. Qed.

Lemma gentle_contract settings mission metadata : issues gentle (_run_contract_equivalence settings mission metadata).
Proof. unfold _run_contract_equivalence, oracle_vectors. walk_phase. Qed.

#[export] Hint Resolve gentle_file gentle_behavioural gentle_contract : phases.

Lemma gentle_evidence settings mission metadata : issues gentle (behavioural_evidence settings mission metadata).
Proof. unfold behavioural_evidence. walk_phase. Qed.

Lemma gentle_attach settings now metadata report b : issues gentle (attach_evidence settings now metadata report b).
Proof. unfold attach_evidence. walk_phase. Qed.

#[export] Hint Resolve gentle_evidence gentle_attach : phases.

Lemma gentle_equivalence settings now ratio mission : issues gentle (_prepare_equivalence_report settings now ratio mission).
Proof. unfold _prepare_equivalence_report, equivalence_verdict. walk_phase. Qed.

Lemma gentle_security settings now mission : issues gentle (_prepare_security_compliance_report settings now mission).
Proof. unfold _prepare_security_compliance_report, sign_report. walk_phase. Qed.

Lemma gentle_summary now mission : issues gentle (_prepare_delivery_summary now mission).
Proof.
  unfold _prepare_delivery_summary, close_delivery, reports_once, report_once, _send_omega_handoff. walk_phase.
Qed.

(** ** What the gates say *)

Lemma behavioural_section report b enforce enriched :
  Equivalence.attach_behavioural_report report b enforce = Ok enriched -> b <> [] ->
  dget0 enriched "behavioural" = VDict b.
Proof.
  unfold Equivalence.attach_behavioural_report. destruct b as [|kv b]; [done|]. intros H _. revert H.
  generalize (kv :: b). clear kv b. intros b. destruct (py_iter (dget_or b _ _)) as [items|]; cbn [mbind result_bind]; [|done].
  set (found := omap _ _). destruct (match found with [] => _ | _ => _ end) as [earlier|]; cbn [mbind result_bind]; [|done].
  intros [= <-]. destruct (enforce && _), found; by dict_simpl.
Qed.

(** The status of the behavioural section of a report. *)
Definition behavioural_status (report : dict) : val := dget0 (dict_value (dget0 report "behavioural")) "status".

Lemma no_section ratio now id lang metadata artifacts enf report :
  Equivalence.build_equivalence_report ratio now id lang metadata artifacts enf = Ok report ->
  behavioural_status report = VNone.
Proof.
  unfold Equivalence.build_equivalence_report. destruct (Equivalence.equivalence_checks _ _ _ _); [|done]. by intros [= <-].
Qed.

Lemma blocking_bool ratio now id lang metadata artifacts enf report :
  Equivalence.build_equivalence_report ratio now id lang metadata artifacts enf = Ok report ->
  exists b, dget0 report "blocking" = VBool b.
Proof.
  unfold Equivalence.build_equivalence_report. destruct (Equivalence.equivalence_checks _ _ _ _); [|done].
  intros [= <-]. by eexists.
Qed.

Lemma attached_bool report b enforce enriched :
  Equivalence.attach_behavioural_report report b enforce = Ok enriched ->
  (exists x, dget0 report "blocking" = VBool x) -> exists x, dget0 enriched "blocking" = VBool x.
Proof.
  unfold Equivalence.attach_behavioural_report. destruct b as [|kv b]; [by intros [= <-]|]. revert kv b.
  intros kv b H [x Hx]. revert H. generalize (kv :: b). clear kv b. intros b.
  destruct (py_iter (dget_or b _ _)) as [items|]; cbn [mbind result_bind]; [|done].
  set (found := omap _ _). destruct (match found with [] => _ | _ => _ end) as [earlier|]; cbn [mbind result_bind]; [|done].
  intros [= <-]. destruct (enforce && _), found; dict_simpl; eauto.
Qed.

Lemma truthy_bool v b : v = VBool b -> (negb (truthy v) = true <-> v <> VBool true).
Proof. intros ->. destruct b; cbn; naive_solver. Qed.

(** The build artifacts that the store answers with. *)
Definition stored_artifacts (outside : asked -> string -> dict -> phase_reply) (mission_id : string) : list dict :=
  match outside [] "list_build_artifacts" [("mission_id", VStr mission_id); ("limit", VInt 50)] with
  | Returned (VList l) => omap as_dict l
  | _ => []
  end.

Definition equivalence_sound settings mission build_artifacts (out : MissionRecord * bool * dict) : Prop :=
  out.1.2 = true <->
  ~ (setting settings "mission_equivalence_enforcement_enabled" = true /\
     Equivalence.defective (ms_language mission) (phase_defaults mission) build_artifacts) /\
  ~ (setting settings "mission_behavioural_enforcement_enabled" = true /\ behavioural_status out.2 = VStr "failed").

Lemma verdict_exact settings now ratio mission build_artifacts :
  yields (equivalence_sound settings mission build_artifacts) (equivalence_verdict settings now ratio mission build_artifacts).
Proof.
  unfold equivalence_verdict, equivalence_sound.
  eapply yields_mbind; [apply yields_pure; intros r Hr; exact Hr|]. intros r Hr.
  eapply yields_mbind; [apply yields_true|]. intros [metadata behavioural] _.
  pose proof (Equivalence.build_blocks _ _ _ _ _ _ _ _ Hr) as Hblock.
  eapply (yields_mbind (fun out : dict * dict => exists b, dget0 out.2 "blocking" = VBool b /\
    (dget0 out.2 "blocking" = VBool true <-> dget0 r "blocking" = VBool true \/
       (setting settings "mission_behavioural_enforcement_enabled" = true /\ behavioural_status out.2 = VStr "failed")))).
  - unfold attach_evidence. destruct (non_empty behavioural) as [b|] eqn:Eb.
    + eapply yields_mbind; [apply yields_pure; intros e He; exact He|]. intros e He. cbn [yields tret snd].
      destruct (attached_bool _ _ _ _ He (blocking_bool _ _ _ _ _ _ _ _ Hr)) as [x Hx]. exists x. split; [done|].
      unfold behavioural_status. rewrite (behavioural_section _ _ _ _ He); [|by destruct behavioural as [[|]|]; try done; injection Eb as <-].
      apply (Equivalence.attach_blocks _ _ _ _ He).
    + cbn [yields tret snd]. destruct (blocking_bool _ _ _ _ _ _ _ _ Hr) as [x Hx]. exists x. split; [done|].
      rewrite (no_section _ _ _ _ _ _ _ _ Hr). intuition congruence.
  - intros [metadata' r'] (b & Hb & Hiff). cbn [snd] in *.
    eapply yields_mbind; [apply yields_true|]. intros updated _. cbn [yields tret fst snd].
    rewrite (truthy_bool _ _ Hb), Hiff, Hblock. tauto.
Qed.

Lemma gate_exact settings now ratio mission outside w :
  w.2 = [] -> Equivalence.mission_requires_equivalence (phase_defaults mission) = true ->
  wp outside (fun out _ => equivalence_sound settings mission (stored_artifacts outside (ms_mission_id mission)) out)
    (_prepare_equivalence_report settings now ratio mission) w.
Proof.
  intros Hw Hr. unfold _prepare_equivalence_report. rewrite Hr. cbn [negb]. apply wp_bind. unfold list_build_artifacts.
  assert (forall v w', stored_artifacts outside (ms_mission_id mission) = match v with VList l => omap as_dict l | _ => [] end ->
    wp outside (fun a w'' => wp outside (fun out _ => equivalence_sound settings mission (stored_artifacts outside (ms_mission_id mission)) out)
                               (equivalence_verdict settings now ratio mission a) w'')
      (tret (match v with VList l => omap as_dict l | _ => [] end)) w') as Hrest.
  { intros v w' <-. apply wp_ret. eapply wp_yields; [apply verdict_exact|]. intros a w'' Ha. exact Ha. }
  apply wp_call; rewrite Hw; intros v Ev.
  - apply (Hrest v). unfold stored_artifacts. rewrite Ev. reflexivity.
  - apply (Hrest VNone). unfold stored_artifacts. rewrite Ev. reflexivity.
Qed.

(** Whatever the outside answers, the equivalence gate agrees exactly when enforcement is
    off or what was generated, packaged as the artifact store says, is not defective, and no
    enforced execution contradicted it. *)
Lemma equivalence_gate_exact (settings : dict) (now : string) (ratio : nat -> nat -> val) (mission m' : MissionRecord)
    (outside : asked -> string -> dict -> phase_reply) (db db' : DB) (ready : bool) (report : dict) (log : asked)
    (Hrun : run_phase outside (_prepare_equivalence_report settings now ratio mission) db = (inr (m', ready, report), db', log))
    (Hrequired : Equivalence.mission_requires_equivalence (phase_defaults mission) = true) :
  ready = true <->
  ~ (setting settings "mission_equivalence_enforcement_enabled" = true /\
     Equivalence.defective (ms_language mission) (phase_defaults mission) (stored_artifacts outside (ms_mission_id mission))) /\
  ~ (setting settings "mission_behavioural_enforcement_enabled" = true /\ behavioural_status report = VStr "failed").
Proof. exact (run_phase_wp _ _ _ _ _ _ _ (gate_exact _ _ _ _ _ (db, []) eq_refl Hrequired) Hrun). Qed.

(** A stored security report is the verdict for good: nothing is scanned again, whatever
    the generated output has become since. *)
Lemma security_report_reused settings now mission report :
  Compliance.mission_requires_security_compliance (phase_defaults mission) = true ->
  dget (ms_metadata mission) "security_compliance_report" = Some (VDict report) -> truthy (dget0 report "skipped") = false ->
  _prepare_security_compliance_report settings now mission = tret (mission, negb (truthy (dget0 report "blocking")), report).
Proof.
  intros Hr Hd Hs. unfold _prepare_security_compliance_report. rewrite Hr. cbn [negb].
  assert (dget0 (phase_defaults mission) "security_compliance_report" = VDict report) as ->.
  { unfold dget0. rewrite defaults_keep by done. by rewrite Hd. }
  unfold dict_value. cbn [is_dict as_dict default from_option id]. by rewrite Hs.
Qed.

(** ** A concrete gate *)

Definition demo_mission : MissionRecord :=
  mkMission "m1" "pong" (Some "javascript") None None None None Equivalence.demo_metadata None None verified "t0".

Definition demo_db : DB := (persist_intake_mission demo_mission "1-0" empty_db).2.

(** The artifact store has the packaged script; nothing else answers. *)
Definition demo_outside (log : asked) (callee : string) (arguments : dict) : phase_reply :=
  if String.eqb callee "list_build_artifacts" then Returned (VList (VDict <$> Equivalence.demo_artifacts))
  else if String.eqb callee "record_audit_event" then Returned VNone else Failed OSError.

Definition demo_gate_task : phase (MissionRecord * bool * dict) :=
  _prepare_equivalence_report [("mission_equivalence_enforcement_enabled", VStr "on")] "t" Equivalence.demo_ratio demo_mission.

Lemma equivalence_gate_exact_witness :
  exists x db' log, run_phase demo_outside demo_gate_task demo_db = (inr x, db', log) /\ x.1.2 = false /\
  (x.1.2 = true <->
   ~ (true = true /\ Equivalence.defective (Some "javascript") (phase_defaults demo_mission) Equivalence.demo_artifacts) /\
   ~ (false = true /\ behavioural_status x.2 = VStr "failed")).
Proof.
  do 3 eexists. split; [by_compute|]. split; [by_compute|].
  eapply (equivalence_gate_exact [("mission_equivalence_enforcement_enabled", VStr "on")] "t" Equivalence.demo_ratio demo_mission
            _ demo_outside demo_db); by_compute.
Defined.
