(* ===== verification/RuntimeQc.v ===== *)
(** * RuntimeQc

    [O/mission_flow_v2/phases_runtime.py]: dependency absorption, the runtime-QC gate with
    its self-repair and spending limit, and the packaging of
    [O/mission_flow_v2/phases_build.py].  [O/rqca_repair.py] and the limit of
    [O/sow_store.py] are functions here; the sandbox ([run_runtime_qc]), the language
    models, packaging itself and the other stores are calls to the outside. *)

From S2P Require Import Prelude PyVal Agents MissionStates MissionFlow Store Tasks Lifecycle Engines Routes.
From S2P Require Import Bundles Partitions Regex Reports Phase Delivery.

Definition AGENT_41_RQCA : string := "AGENT-41-RQCA".
Definition AGENT_39_DEPABS : string := "AGENT-39-DEPABS".
Definition RQCA_HARNESS_VERSION : Z := 3.

(** The keys of [_LANGUAGE_RUNTIMES]. *)
Definition runtime_languages : list string :=
  ["python"; "javascript"; "typescript"; "ruby"; "php"; "r"; "julia"; "ocaml"; "c"; "cpp"; "c++"; "rust"; "go"; "zig";
   "haskell"; "java"; "kotlin"; "matlab"; "mathematica"; "scala"; "csharp"; "c#"].

(** [bool(getattr(settings, name, False))] *)
Definition enabled (settings : dict) (name : string) : bool := truthy (dget_or settings name (VBool false)).

(** ** What a stored report is worth *)

Definition _report_harness_version (report : dict) : Z :=
  match py_int (py_or (dget0 report "harness_version") (VInt 1)) with Ok z => z | Raise _ => 1 end.

Definition _tests_were_flattened (integration_tests : val) : bool :=
  match integration_tests with
  | VDict tests =>
      let code := get_text tests "test_code" in
      (80 <? Z.of_nat (String.length code)) && negb (existsb is_nl (chars code))
  | _ => false
  end.

Definition qc_assessment_of (report : dict) : dict := dict_value (dget0 report "qc_assessment").

Definition _cached_runtime_qc_is_stale (report : dict) : bool :=
  let scope := str_lower (str_strip (get_text report "verified_scope_detail")) in
  let qc_verdict := str_upper (str_strip (get_text (qc_assessment_of report) "qc_verdict")) in
  if _report_harness_version report <? RQCA_HARNESS_VERSION then true
  else if String.eqb scope "started_only" then true
  else String.eqb qc_verdict "PASS" && negb (truthy (dget0 report "invocation_args")) &&
       negb (str_in scope ["tests"; "executed"]).

Definition qc_failed (report : dict) : bool := bool_decide (dget0 (qc_assessment_of report) "qc_verdict" = VStr "FAIL").

(** [check_mission_spend_cap], in whole units of currency. *)
Definition check_mission_spend_cap (actual_usd cap_usd : option Z) : string :=
  match cap_usd, actual_usd with
  | Some cap, Some actual =>
      if cap <=? actual then "pause" else if cap * 8 <=? actual * 10 then "warn" else "ok"
  | _, _ => "ok"
  end.

(** [float(v)] where JSON numbers are integers. *)
Definition py_float (v : val) : result Z := py_int v.
Definition float_or_none (v : val) : result (option Z) :=
  match v with VNone => Ok None | _ => Some <$> py_float v end.

(** ** Self-repair *)

Section repair_context.
(** [hashlib.sha256(text).hexdigest()[:16]] *)
Context (sha256_16 : string -> string).

Definition hex_char (c : ascii) : bool := is_digit c || any_of "abcdefABCDEF" c.
Definition _HEX_ADDR_RE : regex := Cat (lit "0x") (plus (Chr hex_char)).
Definition _TEMP_PATH_RE : regex := Cat (lit "/tmp/") (plus (Chr (fun c => is_alnum c || any_of "_./-" c))).

Fixpoint split_lines (line t : list ascii) : list (list ascii) :=
  match t with
  | [] => [rev line]
  | c :: t' => if line_break c then rev line :: split_lines [] t' else split_lines (c :: line) t'
  end.

Definition last_n {A} (n : nat) (l : list A) : list A := drop (length l - n) l.

Definition compute_error_signature (stderr stdout : string) (exit_code : val) : string :=
  let raw := str_or (str_strip stderr) (str_strip stdout) in
  let normalized := sub _TEMP_PATH_RE "/tmp/ WORKSPACE" (sub _HEX_ADDR_RE "0xADDR" (chars raw)) in
  let lines := List.filter (fun line => negb (String.eqb line "")) ((fun line => str_strip (unchars line)) <$> split_lines [] normalized) in
  let tail := str_take 1500 (str_join (String nl "") (last_n 12 lines)) in
  sha256_16 ("exit=" +:+ py_str exit_code +:+ "|" +:+ tail).

(** Whether the error was seen before, and its signature. *)
Definition is_duplicate_error_signature (execution : dict) (previous_signatures : list string) : bool * string :=
  let sig := compute_error_signature (get_text execution "stderr_preview") (get_text execution "stdout_preview")
               (dget0 execution "exit_code") in
  (str_in sig previous_signatures, sig).

(** The files an error text names, by path or by base name; all of them when it names none. *)
Definition extract_failing_files (stderr stdout : string) (files : list (text * text)) : list text :=
  let combined := stderr +:+ String nl stdout in
  if String.eqb (str_strip combined) "" then files.*1
  else
    let named := fun path =>
      str_contains (unchars path) combined ||
      (negb (is_nil (default [] (last (split_on slash path)))) && str_contains (unchars (default [] (last (split_on slash path)))) combined) in
    match dedup_first (List.filter (fun path => negb (is_nil path) && named path) (strip <$> files.*1)) with
    | [] => files.*1
    | matched => matched
    end.

Definition _MAX_SURGICAL_CODE_CHARS : Z := 32000.

Definition build_surgical_repair_context (execution : dict) (generated_code : string) (attempt max_attempts : Z)
    (previous_errors : list string) : dict :=
  let stderr := str_take 4000 (get_text execution "stderr_preview") in
  let stdout := str_take 2000 (get_text execution "stdout_preview") in
  let files := parse_file_tree (chars generated_code) in
  let failing := extract_failing_files stderr stdout files in
  let is_failing := fun f : text * text => bool_decide (f.1 ∈ failing) in
  let previous_code :=
    match files with
    | [] => take_chars _MAX_SURGICAL_CODE_CHARS (chars generated_code)
    | _ => take_chars _MAX_SURGICAL_CODE_CHARS
             (serialize_file_tree (List.filter is_failing files ++ List.filter (fun f => negb (is_failing f)) files))
    end in
  [("attempt", VInt attempt); ("max_attempts", VInt max_attempts); ("exit_code", dget0 execution "exit_code");
   ("stderr_preview", VStr stderr); ("stdout_preview", VStr stdout); ("command", dget0 execution "command");
   ("previous_code", VStr (unchars previous_code)); ("file_tree_manifest", VStrs (unchars <$> files.*1));
   ("failing_files", VStrs (unchars <$> failing)); ("previous_errors", VStrs (last_n 4 previous_errors))].
End repair_context.

(** ** Packaging *)

Section phases.
Context (settings : dict) (now : string) (sha256_16 : string -> string).

(** [record_build_artifact_metadata] *)
Definition record_build_artifact_metadata (metadata : dict) (agent_id : string) (artifact_record : dict) : result dict :=
  let status := str_upper (py_str (dget_or artifact_record "status" (VStr ""))) in
  let event_type := if String.eqb status "SUCCESS" then "MISSION_BUILD_ARTIFACT_PACKAGED" else "MISSION_BUILD_ARTIFACT_FAILED" in
  size ← py_int (py_or (dget_or artifact_record "size_bytes" (VInt 0)) (VInt 0));
  let details := fields ["artifact_id"; "artifact_type"; "stage"] artifact_record ++
                 [("status", VStr (str_or status "UNKNOWN"))] ++
                 fields ["storage_backend"; "storage_ref"; "digest_sha256"] artifact_record ++ [("size_bytes", VInt size)] in
  let recorded := existsb (fun entry => match entry with
    | VDict d => String.eqb (str_upper (py_str (dget_or d "event_type" (VStr "")))) event_type &&
                 String.eqb (py_str (dget_or (dict_value (dget0 d "details")) "artifact_id" (VStr "")))
                            (py_str (dget0 details "artifact_id"))
    | _ => false
    end) (chain_trace metadata) in
  let metadata := if recorded then metadata else append_chain_event metadata event_type agent_id (Some details) None now in
  Ok (_record_artifact now metadata "build_packaged" event_type agent_id details).

Definition _ensure_verified_build_artifact (mission : MissionRecord) : phase MissionRecord :=
  let m := ms_metadata mission in
  if negb (mission_requires_build_artifact (VDict m)) then tret mission
  else
    let arguments := [("mission_id", VStr (ms_mission_id mission)); ("requested_target_language", str_or_none (ms_language mission))] in
    record ← (if mission_has_generated_output (VDict m) then
                call "build_generated_output_artifact" (arguments ++ [("generated_output", dget0 m "generated_output")])
              else if negb (String.eqb (str_strip (get_text m "source_code")) "") then
                call "build_source_bundle_artifact" (arguments ++ [("source_code", dget0 m "source_code")])
              else call "build_missing_source_artifact_failure" arguments);
    artifact_record ← pure (expect_dict record);
    _ ← call "upsert_build_artifact" [("mission_id", VStr (ms_mission_id mission)); ("artifact_record", record)];
    _ ← call "_write_artifact_to_disk" [("mission_id", VStr (ms_mission_id mission)); ("artifact_record", record)];
    _ ← record_audit_event (ms_mission_id mission) (py_str (py_or (dget0 m "selected_agent_id") (VStr CEO_AGENT_ID)))
          "MISSION_BUILD_ARTIFACT_WRITTEN" "build_artifact" (py_str (dget0 artifact_record "artifact_id"))
          (fields ["artifact_type"; "stage"; "status"; "digest_sha256"; "size_bytes"] artifact_record);
    let metadata := phase_defaults mission in
    let fallback := py_str (py_or (dget0 metadata "assigned_specialist_agent_id") (VStr CEO_AGENT_ID)) in
    metadata ← pure (record_build_artifact_metadata metadata (_validate_agent_id (dget0 metadata "selected_agent_id") fallback)
                       artifact_record);
    save_metadata mission metadata.

(** ** Dependencies *)

(** What the gate reads of the reports it is given, which are made by functions of
    [O/dependency_absorption.py]. *)
Definition _prepare_dependency_absorption_reports (mission : MissionRecord) : phase (MissionRecord * bool * dict) :=
  let metadata := phase_defaults mission in
  required ← call "mission_requires_dependency_absorption" [("metadata", VDict metadata)];
  if negb (truthy required) then tret (mission, true, skipped_report "no dependency evidence")
  else
    made ← call "build_dependency_absorption_reports" [("mission_id", VStr (ms_mission_id mission)); ("metadata", VDict metadata)];
    reports ← pure (expect_dict made);
    let inventory := dict_value (dget0 reports "dependency_inventory") in
    let classification := dict_value (dget0 reports "dependency_classification_report") in
    let absorption := dict_value (dget0 reports "dependency_absorption_report") in
    let metadata := foldl (fun m key => dset m key (dget0 reports key)) metadata
      ["dependency_inventory"; "dependency_classification_report"; "dependency_absorption_report";
       "dependency_survival_justifications"] in
    let blocking := truthy (dget0 absorption "blocking") in
    let event_type := if blocking then "MISSION_DEPENDENCY_ABSORPTION_BLOCKED"
                      else if truthy (dget0 absorption "planned_replacements") then "MISSION_DEPENDENCY_ABSORPTION_PLANNED"
                      else "MISSION_DEPENDENCY_CLASSIFIED" in
    planned ← pure (py_len (dget_or absorption "planned_replacements" (VList [])));
    let metadata := append_once now metadata "MISSION_DEPENDENCY_INVENTORY_CREATED" AGENT_39_DEPABS
      (fields ["inventory_id"; "dependency_count"] inventory ++ [("sources", dget_or inventory "sources" (VList []))]) in
    let metadata := append_once now metadata event_type AGENT_39_DEPABS
      (fields ["report_id"] absorption ++ [("classification_report_id", dget0 classification "report_id")] ++
       fields ["status"; "blocking"] absorption ++
       [("planned_replacement_count", VInt planned); ("safety_block_count", dget_or absorption "safety_block_count" (VInt 0))]) in
    let metadata := _record_artifact now metadata "dependency_absorption" event_type AGENT_39_DEPABS
      (fields ["inventory_id"] inventory ++ fields ["report_id"; "status"; "blocking"] absorption ++ fields ["dependency_count"] inventory) in
    _ ← record_audit_event (ms_mission_id mission) AGENT_39_DEPABS event_type "dependency_absorption_report"
          (py_str (dget0 absorption "report_id"))
          (fields ["status"; "blocking"] absorption ++ fields ["dependency_count"] inventory ++
           [("planned_replacement_count", VInt planned); ("safety_block_count", dget_or absorption "safety_block_count" (VInt 0))]);
    updated ← save_metadata mission metadata;
    tret (updated, negb blocking, absorption).

Definition _extension_for_language (language : string) : string :=
  default "txt" (dget [("python", "py"); ("javascript", "js"); ("typescript", "ts"); ("java", "java"); ("csharp", "cs");
                       ("rust", "rs"); ("go", "go")] (str_lower language)).

(** The generated output that replaces the one of the mission. *)
Definition absorbed_output (mission_id language source_code : string) (absorption_count : Z) (execution sbom_delta : dict) : dict :=
  [("schema_version", VStr "generated_output.v1");
   ("generated_code", py_or (dget0 execution "modified_source") (VStr source_code));
   ("filename", VStr ("absorbed_" +:+ mission_id +:+ "." +:+ _extension_for_language language)); ("language", VStr language);
   ("description", VStr ("Source with " +:+ pretty absorption_count +:+ " dependencies absorbed into first-party code."));
   ("dependencies", dget_or sbom_delta "remaining" (VList [])); ("source", VStr "depabs_execution");
   ("code_length_chars", VInt (Z.of_nat (String.length (get_text execution "modified_source"))))].

Definition _prepare_depabs_execution (mission : MissionRecord) : phase MissionRecord :=
  if negb (enabled settings "depabs_execution_enabled") then tret mission
  else
    let metadata := phase_defaults mission in
    let source_code := get_text metadata "source_code" in
    let absorption_report := dget0 metadata "dependency_absorption_report" in
    if String.eqb (str_strip source_code) "" || negb (is_dict absorption_report) then tret mission
    else if is_dict (dget0 metadata "depabs_execution") then tret mission
    else
      let language := str_or (default "" (ms_language mission)) "python" in
      made ← call "execute_absorption" [("mission_id", VStr (ms_mission_id mission)); ("source_code", VStr source_code);
                                        ("language", VStr language); ("absorption_report", absorption_report)];
      execution ← pure (expect_dict made);
      let metadata := dset metadata "depabs_execution" made in
      delta ← call "build_sbom_delta" [("original_dependencies", dget_or (dict_value (dget0 metadata "dependency_inventory"))
                                           "dependencies" (VList [])); ("absorption_result", made);
                                       ("survival_justifications", match dget0 metadata "dependency_survival_justifications" with
                                                                   | VList l => VList l | _ => VList [] end)];
      sbom_delta ← pure (expect_dict delta);
      let metadata := dset metadata "sbom_delta" delta in
      absorption_count ← pure (py_int (py_or (dget0 execution "absorption_count") (VInt 0)));
      let metadata := if 0 <? absorption_count then
                        dset metadata "generated_output"
                          (VDict (absorbed_output (ms_mission_id mission) language source_code absorption_count execution sbom_delta))
                      else metadata in
      let details := fields ["status"] execution ++ [("absorption_count", VInt absorption_count)] ++ fields ["reduction_percent"] sbom_delta in
      let metadata := append_chain_event metadata "MISSION_DEPABS_EXECUTED" AGENT_39_DEPABS (Some details) None now in
      _ ← record_audit_event (ms_mission_id mission) AGENT_39_DEPABS "MISSION_DEPABS_EXECUTED" "depabs_execution"
            (ms_mission_id mission) details;
      updated ← storage (UpdateMetadata (ms_mission_id mission) metadata);
      match updated with
      | Some record => if 0 <? absorption_count then try_or (_ensure_verified_build_artifact record) record else tret record
      | None => tret mission
      end.

(** ** The runtime-QC gate *)

Definition skip_report (reason : string) : dict :=
  [("schema_version", VStr "runtime_qc.v1"); ("skipped", VBool true); ("reason", VStr reason); ("verdict", VStr "SKIPPED");
   ("execution_type", VStr "not_run"); ("deployment_safe", VNone); ("source", VStr "settings")].

Definition enforced : bool := setting settings "rqca_enforcement_enabled".

Definition _persist_runtime_qc_skip (mission : MissionRecord) (metadata : dict) (reason : string)
    : phase (MissionRecord * bool * dict) :=
  let metadata := dset metadata "runtime_qc_report" (VDict (skip_report reason)) in
  let skip_event_exists := _chain_event_exists metadata "MISSION_RUNTIME_QC_SKIPPED" in
  let metadata := append_once now metadata "MISSION_RUNTIME_QC_SKIPPED" AGENT_41_RQCA
    [("reason", VStr reason); ("execution_type", VStr "not_run"); ("source", VStr "settings")] in
  updated ← storage (UpdateMetadata (ms_mission_id mission) metadata);
  _ ← (if skip_event_exists then tret None
       else try_or (storage (LogEvent (ms_mission_id mission) (Some (ms_state mission)) (ms_state mission)
                               "MISSION_RUNTIME_QC_SKIPPED")) None);
  tret (default mission updated, negb (enforced && String.eqb reason "RQCA disabled"), skip_report reason).

Definition _requalify_runtime_qc (metadata stale : dict) : dict :=
  let flattened := _tests_were_flattened (dget0 metadata "integration_tests") in
  let metadata := append_chain_event metadata "MISSION_RUNTIME_QC_REQUALIFIED" AGENT_41_RQCA
    (Some [("previous_verdict", py_or (dget0 (qc_assessment_of stale) "qc_verdict") (dget0 stale "verdict"));
           ("previous_harness_version", VInt (_report_harness_version stale)); ("harness_version", VInt RQCA_HARNESS_VERSION);
           ("previous_completed_at", dget0 stale "completed_at"); ("tests_regenerated", VBool flattened)]) None now in
  let metadata := ddel (ddel metadata "runtime_qc_report") "testdata_manifest" in
  if flattened then ddel metadata "integration_tests" else metadata.

Definition dict_or_none (v : val) : val := match v with VDict d => VDict d | _ => VNone end.
Definition contract_argument (metadata : dict) : val := VDict (dict_value (dget0 metadata "mission_contract")).

(** The manifest of the mission, made and recorded when it has none. *)
Definition testdata_manifest (mission : MissionRecord) (metadata : dict) (generated_output : dict) (target_language : string)
    : phase (dict * val) :=
  if is_dict (dget0 metadata "testdata_manifest") then tret (metadata, dget0 metadata "testdata_manifest")
  else
    manifest ← call "generate_testdata_manifest"
      [("mission_id", VStr (ms_mission_id mission)); ("generated_output", VDict generated_output);
       ("integration_tests", dict_or_none (dget0 metadata "integration_tests"));
       ("mission_contract", contract_argument metadata); ("language", VStr target_language)];
    details ← pure (d ← expect_dict manifest;
                    counted ["base_image"; "timeout_seconds"] "synthetic_input_count" "synthetic_inputs" ["source"] d);
    let metadata := append_chain_event (dset metadata "testdata_manifest" manifest) "MISSION_TESTDATA_MANIFEST_READY"
                      "AGENT-40-TESTDATA" (Some details) None now in
    _ ← try_or (call "insert_testdata_manifest" [("mission_id", VStr (ms_mission_id mission)); ("manifest", manifest)]) VNone;
    tret (metadata, manifest).

(** The generated tests of the mission, made when it has none. *)
Definition tests_for_qc (mission : MissionRecord) (metadata generated_output : dict) : phase dict :=
  if is_dict (dget0 metadata "integration_tests") then tret metadata
  else
    tests ← call "generate_integration_tests"
      [("mission_id", VStr (ms_mission_id mission)); ("mission_context", VDict (_mission_context mission metadata));
       ("generated_output", VDict generated_output); ("mission_contract", contract_argument metadata)];
    let metadata := dset metadata "integration_tests" tests in
    if _chain_event_exists metadata "MISSION_INTEGRATION_TESTS_GENERATED" then tret metadata
    else
      details ← pure (d ← expect_dict tests;
                      fields ← counted ["test_filename"] "test_case_count" "test_cases" ["framework"; "source"] d;
                      Ok (fields ++ [("when", VStr "before_runtime_qc")]));
      tret (append_chain_event metadata "MISSION_INTEGRATION_TESTS_GENERATED" AGENT_10_TESTER (Some details) None now).

Definition run_runtime_qc (mission_id : string) (metadata generated_output : dict) (manifest : val) (target_language : string)
    : phase dict :=
  execution ← call "run_runtime_qc"
    [("mission_id", VStr mission_id); ("generated_output", VDict generated_output); ("testdata_manifest", manifest);
     ("integration_tests", dict_or_none (dget0 metadata "integration_tests")); ("language", VStr target_language)];
  pure (expect_dict execution).

(** ** The repair loop *)

Record repair := mkRepair {
  rp_metadata : dict;
  rp_output : dict;
  rp_execution : dict;
  rp_seen : list string;
  rp_errors : list string;
  rp_attempts : Z;
  rp_reason : string;
}.

Definition stopped (s : repair) (reason : string) : repair :=
  mkRepair (rp_metadata s) (rp_output s) (rp_execution s) (rp_seen s) (rp_errors s) (rp_attempts s) reason.

(** What a repair puts in the place of the generated output. *)
Definition repaired_output (current_code : string) (repaired : dict) : dict :=
  let merged := merge_repaired_files (chars current_code) (chars (get_text repaired "generated_code")) in
  let output := dset repaired "generated_code" (VStr (unchars merged)) in
  match parse_file_tree merged with
  | [] => output
  | tree => dset (dset output "files" (VList ((fun f => VDict [("path", VStr (unchars f.1))]) <$> tree)))
                 "file_count" (VInt (Z.of_nat (length tree)))
  end.

Definition usable_repair (v : val) : option dict :=
  match v with
  | VDict d => if negb (String.eqb (str_strip (get_text d "generated_code")) "") && bool_decide (dget0 d "source" = VStr "llm")
               then Some d else None
  | _ => None
  end.

Section repair_loop.
Context (mission : MissionRecord) (manifest : val) (target_language specialist_agent_id : string) (max_attempts : Z).

(** One pass of the loop, with the rest of it. *)
Definition repair_attempt (attempt : Z) (s : repair) (continue : repair -> phase repair) : phase repair :=
  let current_code := get_text (rp_output s) "generated_code" in
  let repair_context := build_surgical_repair_context (rp_execution s) current_code attempt max_attempts (rp_errors s) in
  let errors := rp_errors s ++ [str_take 300 (get_text (rp_execution s) "stderr_preview")] in
  answer ← try_or (call "generate_code_from_contract"
    [("mission_context", VDict (dupdate (_mission_context mission (rp_metadata s))
        [("feature_contract", dget0 (rp_metadata s) "feature_contract"); ("specialist_plan", dget0 (rp_metadata s) "specialist_plan");
         ("runtime_qc_repair_context", VDict repair_context)]));
     ("specialist_agent_id", VStr specialist_agent_id); ("mission_contract", contract_argument (rp_metadata s));
     ("logicnodes", VList []); ("target_language", VStr target_language)]) VNone;
  match usable_repair answer with
  | None => tret (stopped (mkRepair (rp_metadata s) (rp_output s) (rp_execution s) (rp_seen s) errors (rp_attempts s) "") "llm_unavailable")
  | Some repaired =>
      let output := repaired_output current_code repaired in
      let metadata := dset (rp_metadata s) "generated_output" (VDict output) in
      execution ← run_runtime_qc (ms_mission_id mission) metadata output manifest target_language;
      let s := mkRepair metadata output execution (rp_seen s) errors attempt "" in
      let verdict := dget0 execution "verdict" in
      if bool_decide (verdict = VStr "PASS") then tret (stopped s "passed")
      else if negb (bool_decide (verdict = VStr "FAIL")) then
        tret (stopped s (str_lower (py_str (py_or verdict (VStr "non_fail")))))
      else
        let '(is_dup, next_sig) := is_duplicate_error_signature sha256_16 execution (rp_seen s) in
        let s := mkRepair metadata output execution (rp_seen s ++ [next_sig]) errors attempt "" in
        if is_dup then tret (stopped s "duplicate_error_signature") else continue s
  end.

Fixpoint repair_attempts (n : nat) (attempt : Z) (s : repair) : phase repair :=
  match n with
  | O => tret s
  | S n' => repair_attempt attempt s (repair_attempts n' (attempt + 1))
  end.
End repair_loop.

Definition max_repair_attempts : result Z :=
  n ← py_int (py_or (dget_or settings "runtime_qc_max_repair_attempts" (VInt 2)) (VInt 2));
  Ok (Z.max 1 n).

Definition repair_summary (s : repair) (default_reason : string) : dict :=
  dupdate (rp_execution s)
    [("repair_attempted", VBool true); ("repair_attempts", VInt (rp_attempts s));
     ("repair_succeeded", VBool ((0 <? rp_attempts s) && bool_decide (dget0 (rp_execution s) "verdict" = VStr "PASS")));
     ("repair_stop_reason", VStr (str_or (rp_reason s) default_reason))].

(** The repair of a failed execution: the metadata and the execution that counts. *)
Definition self_repair (mission : MissionRecord) (metadata generated_output execution : dict) (manifest : val)
    (target_language : string) : phase (dict * dict) :=
  let metadata := dset metadata "runtime_qc_repair_attempted" (VBool true) in
  let specialist := _validate_agent_id (dget0 metadata "assigned_specialist_agent_id")
                      (resolve_specialist_agent_id (Some target_language)) in
  max_attempts ← pure max_repair_attempts;
  let initial_sig := (is_duplicate_error_signature sha256_16 execution []).2 in
  s ← repair_attempts mission manifest target_language specialist max_attempts (Z.to_nat max_attempts) 1
        (mkRepair metadata generated_output execution [initial_sig] [] 0 "");
  let metadata := dset (rp_metadata s) "runtime_qc_repair_attempts" (VInt (rp_attempts s)) in
  if 0 <? rp_attempts s then
    let execution := repair_summary s "max_attempts_reached" in
    tret (append_chain_event metadata "MISSION_RUNTIME_QC_REPAIRED" specialist
            (Some [("repair_succeeded", dget0 execution "repair_succeeded"); ("repair_attempts", VInt (rp_attempts s));
                   ("repair_stop_reason", dget0 execution "repair_stop_reason"); ("execution_verdict", dget0 execution "verdict")])
            None now, execution)
  else tret (metadata, repair_summary s "llm_unavailable").

Definition needs_repair (metadata generated_output execution : dict) : bool :=
  bool_decide (dget0 execution "verdict" = VStr "FAIL") && negb (truthy (dget0 metadata "runtime_qc_repair_attempted")) &&
  negb (String.eqb (str_strip (get_text generated_output "generated_code")) "").

(** ** The spending limit *)

(** The mission when it is to pause; the other states are noted in metadata that is not
    written back. *)
Definition spend_check (mission : MissionRecord) (metadata : dict) : phase (option MissionRecord) :=
  let estimate := dict_value (dget0 (dict_value (dget0 metadata "feature_contract")) "cost_estimate") in
  let cap_usd := dget0 estimate "cap_usd" in
  try_or
    (answer ← call "get_mission_token_usage" [("mission_id", VStr (ms_mission_id mission))];
     usage ← pure (expect_dict answer);
     let actual := dget0 usage "estimated_cost_usd" in
     actual_usd ← pure (float_or_none actual);
     cap ← pure (float_or_none cap_usd);
     let spend_state := check_mission_spend_cap actual_usd cap in
     if String.eqb spend_state "pause" then
       let metadata := dset metadata "spend_cap"
         (VDict [("state", VStr spend_state); ("quoted_usd", dget0 estimate "likely_usd"); ("actual_usd", actual); ("cap_usd", cap_usd)]) in
       saved ← save_metadata mission (dset metadata "spend_cap_hit" (VBool true));
       tret (Some saved)
     else tret None) None.

(** ** The gate *)

(** The assessment of an execution, its report, and the verdict. *)
Definition assess (mission : MissionRecord) (metadata execution : dict) (target_language : string)
    : phase (MissionRecord * bool * dict) :=
  answer ← call "generate_rqca_assessment"
    [("mission_id", VStr (ms_mission_id mission)); ("execution_result", VDict execution);
     ("mission_contract", contract_argument metadata); ("language", VStr target_language);
     ("integration_tests", dict_or_none (dget0 metadata "integration_tests"))];
  qc_assessment ← pure (expect_dict answer);
  let runtime_qc_report := dset (dset execution "qc_assessment" answer) "harness_version" (VInt RQCA_HARNESS_VERSION) in
  let verdicts := [("execution_verdict", dget0 execution "verdict"); ("qc_verdict", dget0 qc_assessment "qc_verdict");
                   ("execution_type", dget0 execution "execution_type")] in
  let metadata := append_chain_event (dset metadata "runtime_qc_report" (VDict runtime_qc_report)) "MISSION_RUNTIME_QC_COMPLETE"
    AGENT_41_RQCA (Some (verdicts ++ [("deployment_safe", dget0 qc_assessment "deployment_safe"); ("source", dget0 execution "source")]))
    None now in
  _ ← try_or (call "insert_runtime_qc_report" [("mission_id", VStr (ms_mission_id mission)); ("execution", VDict execution);
                                               ("qc_assessment", answer)]) VNone;
  _ ← record_audit_event (ms_mission_id mission) AGENT_41_RQCA "MISSION_RUNTIME_QC_COMPLETE" "runtime_qc_report"
        (ms_mission_id mission) verdicts;
  updated ← save_metadata mission metadata;
  paused ← spend_check mission metadata;
  match paused with
  | Some saved => tret (saved, false, runtime_qc_report)
  | None => tret (updated, negb (enforced && qc_failed runtime_qc_report), runtime_qc_report)
  end.

(** Tests, manifest, execution and repair, when runtime QC is enabled. *)
Definition execute_qc (mission : MissionRecord) (metadata generated_output : dict) (target_language : string)
    : phase (MissionRecord * bool * dict) :=
  metadata ← tests_for_qc mission metadata generated_output;
  '(metadata, manifest) ← testdata_manifest mission metadata generated_output target_language;
  execution ← run_runtime_qc (ms_mission_id mission) metadata generated_output manifest target_language;
  '(metadata, execution) ← (if needs_repair metadata generated_output execution
                            then self_repair mission metadata generated_output execution manifest target_language
                            else tret (metadata, execution));
  assess mission metadata execution target_language.

(** Where there is no report to reuse. *)
Definition fresh_qc (mission : MissionRecord) (metadata : dict) : phase (MissionRecord * bool * dict) :=
  match dget0 metadata "generated_output" with
  | VDict generated_output =>
      let requested := default "" (ms_language mission) in
      let named := get_text generated_output "language" in
      let qc_language := str_lower (str_strip (str_or requested named)) in
      let target_language := str_or requested (py_str (py_or (dget0 generated_output "language") (VStr "python"))) in
      if negb (enabled settings "testdata_agent_enabled") && negb (str_in qc_language runtime_languages) &&
         negb (enabled settings "rqca_agent_enabled")
      then _persist_runtime_qc_skip mission metadata
             ("TESTDATA disabled and no known runtime for " +:+ str_or qc_language "unknown")
      else if negb (enabled settings "rqca_agent_enabled") then
        '(metadata, _) ← (if enabled settings "testdata_agent_enabled"
                          then testdata_manifest mission metadata generated_output target_language
                          else tret (metadata, VNone));
        _persist_runtime_qc_skip mission metadata "RQCA disabled"
      else execute_qc mission metadata generated_output target_language
  | _ => _persist_runtime_qc_skip mission metadata "no generated output"
  end.

(** The report on a mission, when it is one of an execution. *)
Definition cached_qc (metadata : dict) : option dict :=
  match dget0 metadata "runtime_qc_report" with
  | VDict report => if truthy (dget0 report "skipped") then None else Some report
  | _ => None
  end.

Definition _prepare_runtime_qc (mission : MissionRecord) : phase (MissionRecord * bool * dict) :=
  let metadata := phase_defaults mission in
  match cached_qc metadata with
  | Some report =>
      if negb (_cached_runtime_qc_is_stale report) then tret (mission, negb (enforced && qc_failed report), report)
      else if _report_harness_version report <? RQCA_HARNESS_VERSION
      then fresh_qc mission (_requalify_runtime_qc metadata report)
      else fresh_qc mission metadata
  | None => fresh_qc mission metadata
  end.
End phases.

(** ** The preparers are quiet *)

Lemma gentle_package now mission : issues gentle (_ensure_verified_build_artifact now mission).
Proof. unfold _ensure_verified_build_artifact. walk_phase. Qed.

#[export] Hint Resolve gentle_package : phases.

Lemma gentle_dependency now mission : issues gentle (_prepare_dependency_absorption_reports now mission).
Proof. unfold _prepare_dependency_absorption_reports. walk_phase. Qed.

Lemma gentle_depabs settings now mission : issues gentle (_prepare_depabs_execution settings now mission).
Proof. unfold _prepare_depabs_execution. walk_phase. Qed.

Lemma gentle_skip settings now mission metadata reason : issues gentle (_persist_runtime_qc_skip settings now mission metadata reason).
Proof. unfold _persist_runtime_qc_skip. walk_phase. Qed.

Lemma gentle_manifest now mission metadata output lang : issues gentle (testdata_manifest now mission metadata output lang).
Proof. unfold testdata_manifest. walk_phase. Qed.

Lemma gentle_tests now mission metadata output : issues gentle (tests_for_qc now mission metadata output).
Proof. unfold tests_for_qc. walk_phase. Qed.

Lemma gentle_run id metadata output manifest lang : issues gentle (run_runtime_qc id metadata output manifest lang).
Proof. unfold run_runtime_qc. walk_phase. Qed.

Lemma gentle_spend mission metadata : issues gentle (spend_check mission metadata).
Proof. unfold spend_check. walk_phase. Qed.

#[export] Hint Resolve gentle_skip gentle_manifest gentle_tests gentle_run gentle_spend : phases.

Lemma gentle_attempts sha mission manifest lang agent mx n attempt s :
  issues gentle (repair_attempts sha mission manifest lang agent mx n attempt s).
Proof.
  revert attempt s. induction n as [|n IH]; intros attempt s; cbn [repair_attempts]; [exact I|].
  unfold repair_attempt. walk_phase.
Qed.

#[export] Hint Resolve gentle_attempts : phases.

Lemma gentle_assess settings now mission metadata execution lang : issues gentle (assess settings now mission metadata execution lang).
Proof. unfold assess. walk_phase. Qed.

#[export] Hint Resolve gentle_assess : phases.

Lemma gentle_repair settings now sha mission metadata output execution manifest lang :
  issues gentle (self_repair settings now sha mission metadata output execution manifest lang).
Proof. unfold self_repair. walk_phase. Qed.

#[export] Hint Resolve gentle_repair : phases.

Lemma gentle_fresh settings now sha mission metadata : issues gentle (fresh_qc settings now sha mission metadata).
Proof. unfold fresh_qc, execute_qc. walk_phase. Qed.

#[export] Hint Resolve gentle_fresh : phases.

Lemma gentle_runtime_qc settings now sha mission : issues gentle (_prepare_runtime_qc settings now sha mission).
Proof. unfold _prepare_runtime_qc. walk_phase. Qed.

(** ** How often the sandbox and the model are asked *)

Definition calls (name : string) (c : phase_call) : bool :=
  match c with Call callee _ => String.eqb callee name | Storage _ => false end.

Definition count (name : string) (log : asked) : nat := length (List.filter (fun ca => String.eqb ca.1 name) log).

(** The calls in the log are those of the trace. *)
Lemma run_counts {A} outside name (t : phase A) w :
  let '(_, w', tr) := run (phase_env outside) t w in
  count name w'.2 = (count name w.2 + length (List.filter (fun cr => calls name cr.1) tr))%nat.
Proof.
  revert w. induction t as [r|c k IH]; intros w; cbn [run]; [cbn; lia|].
  destruct (phase_env outside c w) as [r w1] eqn:Ee. specialize (IH r w1).
  destruct (run (phase_env outside) (k r) w1) as [[out w2] tr]. rewrite IH. destruct c as [c|callee arguments]; cbn in Ee.
  - destruct (act_exec false c _) as [a v]. injection Ee as _ <-. reflexivity.
  - injection Ee as _ <-. unfold count. cbn [snd List.filter calls fst]. rewrite List.filter_app, length_app. cbn.
    destruct (String.eqb callee name); cbn; lia.
Qed.

Lemma run_phase_counts {A} outside name n (t : phase A) db out db' log :
  at_most (calls name) n t -> run_phase outside t db = (out, db', log) -> (count name log <= n)%nat.
Proof.
  intros Ht. unfold run_phase. pose proof (run_counts outside name t (db, [])) as H.
  pose proof (run_at_most (calls name) (phase_env outside) n t (db, []) Ht) as Hn.
  destruct (run (phase_env outside) t (db, [])) as [[o [db1 log1]] tr]. intros [= -> -> ->].
  cbn [snd] in H, Hn. change (count name []) with 0%nat in H. lia.
Qed.

(** What only the execution, the repair and the packaging ask for, and the steps that do not. *)
Definition costly (name : string) : Prop :=
  (name = "run_runtime_qc" \/ name = "generate_code_from_contract") \/
  (name = "upsert_build_artifact" \/ name = "_write_artifact_to_disk").

Section sandbox.
Context (name : string) (Hname : costly name).

Abbreviation unasked := (issues (fun c => calls name c = false)).

Ltac not_asked := destruct Hname as [[-> | ->]|[-> | ->]]; walk_phase.

Lemma unasked_skip settings now mission metadata reason : unasked (_persist_runtime_qc_skip settings now mission metadata reason).
Proof. unfold _persist_runtime_qc_skip. not_asked. Qed.

Lemma unasked_manifest now mission metadata output lang : unasked (testdata_manifest now mission metadata output lang).
Proof. unfold testdata_manifest. not_asked. Qed.

Lemma unasked_tests now mission metadata output : unasked (tests_for_qc now mission metadata output).
Proof. unfold tests_for_qc. not_asked. Qed.

Lemma unasked_assess settings now mission metadata execution lang : unasked (assess settings now mission metadata execution lang).
Proof. unfold assess, record_audit_event, spend_check. not_asked. Qed.
End sandbox.



(** A repair runs the sandbox and asks the model at most once an attempt. *)
Lemma at_most_attempts name sha mission manifest lang agent mx n attempt s :
  name = "run_runtime_qc" \/ name = "generate_code_from_contract" ->
  at_most (calls name) n (repair_attempts sha mission manifest lang agent mx n attempt s).
Proof.
  intros Hname. revert attempt s. induction n as [|n IH]; intros attempt s; cbn [repair_attempts]; [exact I|].
  unfold repair_attempt, run_runtime_qc.
  change (S n) with (1 + n)%nat. destruct Hname as [-> | ->].
  - apply (at_most_mbind _ 0 (1 + n)); [|intros answer].
    { apply at_most_none. walk_phase. }
    destruct (usable_repair answer) as [repaired|]; [|exact I]. cbv zeta.
    apply (at_most_mbind _ 1 n); [cbn; intros [a|v|e]; cbn; [by destruct a|by destruct v|done]|intros execution].
    case_bool_decide; [exact I|]. case_bool_decide; cbn [negb]; [|exact I].
    destruct (is_duplicate_error_signature _ _ _) as [dup sig]. destruct dup; [exact I|]. apply IH.
  - apply (at_most_mbind _ 1 n); [cbn; intros [a|v|e]; cbn; [by destruct a|by destruct v|done]|intros answer].
    destruct (usable_repair answer) as [repaired|]; [|exact I]. cbv zeta.
    apply (at_most_mbind _ 0 n); [apply at_most_none; walk_phase|intros execution].
    case_bool_decide; [exact I|]. case_bool_decide; cbn [negb]; [|exact I].
    destruct (is_duplicate_error_signature _ _ _) as [dup sig]. destruct dup; [exact I|]. apply IH.
Qed.

Section kept.
Context (k : string) (Hk : k = "runtime_qc_repair_attempted" \/ k = "generated_output").

Ltac at_key := destruct Hk as [-> | ->]; meta_simpl.

Lemma tests_keep now mission metadata output :
  yields (fun m => dget0 m k = dget0 metadata k) (tests_for_qc now mission metadata output).
Proof.
  unfold tests_for_qc. destruct (is_dict _); [done|]. eapply yields_mbind; [apply yields_true|]. intros tests _.
  cbv zeta. destruct (_chain_event_exists _ _); [cbn [yields tret]; by at_key|].
  eapply yields_mbind; [apply yields_true|]. intros details _. cbn [yields tret fst]. by at_key.
Qed.

Lemma manifest_keeps now mission metadata output lang :
  yields (fun mv => dget0 mv.1 k = dget0 metadata k) (testdata_manifest now mission metadata output lang).
Proof.
  unfold testdata_manifest. destruct (is_dict _); [done|]. eapply yields_mbind; [apply yields_true|]. intros manifest _.
  eapply yields_mbind; [apply yields_true|]. intros details _. cbv zeta.
  eapply yields_mbind; [apply yields_true|]. intros saved _. cbn [yields tret fst]. by at_key.
Qed.

Lemma requalify_keeps now metadata stale : dget0 (_requalify_runtime_qc now metadata stale) k = dget0 metadata k.
Proof. unfold _requalify_runtime_qc. cbv zeta. case_match; by at_key. Qed.
End kept.

(** The repairs the settings allow, and those a mission still has. *)
Definition allowed_repairs (settings : dict) : nat :=
  match max_repair_attempts settings with Ok n => Z.to_nat n | Raise _ => 0 end.

Definition repairs_left (settings metadata : dict) : nat :=
  if truthy (dget0 metadata "runtime_qc_repair_attempted") then 0 else allowed_repairs settings.

(** How often [name] is asked: the sandbox once more than there are repairs. *)
Definition asked_at_most (name : string) (repairs : nat) : nat :=
  if String.eqb name "run_runtime_qc" then 1 + repairs else repairs.

Section bounds.
Context (name : string) (Hname : name = "run_runtime_qc" \/ name = "generate_code_from_contract").
Context (settings : dict) (now : string) (sha : string -> string) (mission : MissionRecord).

Lemma at_most_self_repair metadata output execution manifest lang :
  at_most (calls name) (allowed_repairs settings) (self_repair settings now sha mission metadata output execution manifest lang).
Proof.
  unfold self_repair, allowed_repairs. cbv zeta. destruct (max_repair_attempts settings) as [n|e]; [|done].
  change (Z.to_nat n) with (0 + (Z.to_nat n))%nat. apply at_most_mthen with (P := fun a => a = n); [done|done|]. intros a ->.
  apply (at_most_le _ (Z.to_nat n + 0)); [lia|]. apply at_most_mbind; [by apply at_most_attempts|].
  intros s. by destruct (0 <? rp_attempts s).
Qed.

Lemma at_most_sandbox_run metadata output manifest lang :
  at_most (calls name) (asked_at_most name 0) (run_runtime_qc (ms_mission_id mission) metadata output manifest lang).
Proof.
  unfold run_runtime_qc. destruct Hname as [-> | ->]; cbn; intros [a|v|e]; cbn; try done; try by destruct a.
  all: by destruct v.
Qed.

Lemma at_most_execute metadata output lang :
  at_most (calls name) (asked_at_most name (repairs_left settings metadata)) (execute_qc settings now sha mission metadata output lang).
Proof.
  unfold execute_qc. assert (asked_at_most name (repairs_left settings metadata) =
    0 + (0 + (asked_at_most name 0 + (repairs_left settings metadata + 0))))%nat as ->.
  { unfold asked_at_most. destruct (String.eqb _ _); lia. }
  eapply at_most_mthen; [apply at_most_none; apply unasked_tests; by left|apply (tests_keep _ (or_introl eq_refl))|]. intros m Hm.
  eapply at_most_mthen; [apply at_most_none; apply unasked_manifest; by left|apply (manifest_keeps _ (or_introl eq_refl))|].
  intros [m' manifest] Hm'. cbn [fst] in Hm'.
  apply at_most_mbind; [apply at_most_sandbox_run|]. intros execution.
  apply at_most_mbind; [|intros [m2 e2]; apply at_most_none, unasked_assess; by left].
  unfold needs_repair, repairs_left. rewrite Hm', Hm. destruct (truthy _); cbn [negb]; [by rewrite andb_false_r|].
  destruct (_ && _); [apply at_most_self_repair|done].
Qed.

Lemma at_most_fresh metadata :
  at_most (calls name) (asked_at_most name (repairs_left settings metadata)) (fresh_qc settings now sha mission metadata).
Proof.
  unfold fresh_qc. destruct (dget0 metadata "generated_output") as [| | | | |output];
    try (eapply at_most_le; [|apply at_most_none, unasked_skip; by left]; lia). cbv zeta.
  destruct (_ && negb (enabled settings "rqca_agent_enabled")) eqn:E1.
  { eapply at_most_le; [|apply at_most_none, unasked_skip; by left]. lia. }
  destruct (negb (enabled settings "rqca_agent_enabled")); [|apply at_most_execute].
  eapply at_most_le; [|apply (at_most_mbind _ 0 0)]; [lia| |].
  - destruct (enabled settings "testdata_agent_enabled"); [apply at_most_none; apply unasked_manifest; by left|done].
  - intros [m manifest]. apply at_most_none, unasked_skip. by left.
Qed.
End bounds.

(** ** Properties *)

(** C31: Whatever the sandbox and the model answer, one evaluation of the runtime-QC gate asks the
    model for at most the configured number of repairs and runs the sandbox at most once more;
    a mission that had its repairs gets none again, and one with a report that still counts
    costs nothing. *)
Theorem repairs_bounded (settings : dict) (now : string) (sha256_16 : string -> string) (mission : MissionRecord)
    (outside : asked -> string -> dict -> phase_reply) (db db' : DB) (out : exn + (MissionRecord * bool * dict)) (log : asked)
    (Hrun : run_phase outside (_prepare_runtime_qc settings now sha256_16 mission) db = (out, db', log)) :
  let repairs := repairs_left settings (ms_metadata mission) in
  (count "generate_code_from_contract" log <= repairs)%nat /\ (count "run_runtime_qc" log <= 1 + repairs)%nat /\
  (forall report, cached_qc (ms_metadata mission) = Some report -> _cached_runtime_qc_is_stale report = false -> log = []).
Proof.
  assert (forall name, name = "run_runtime_qc" \/ name = "generate_code_from_contract" ->
    at_most (calls name) (asked_at_most name (repairs_left settings (ms_metadata mission)))
      (_prepare_runtime_qc settings now sha256_16 mission)) as Hat.
  { intros name Hname. unfold _prepare_runtime_qc. cbv zeta. unfold repairs_left at 1.
    rewrite <- (defaults_keep0 mission) by done. fold (repairs_left settings (phase_defaults mission)).
    destruct (cached_qc _) as [report|]; [|by apply at_most_fresh].
    destruct (negb _); [done|]. destruct (_ <? _); [|by apply at_most_fresh].
    unfold repairs_left. rewrite <- (requalify_keeps _ (or_introl eq_refl) now _ report). by apply at_most_fresh. }
  split_and!.
  - exact (run_phase_counts _ _ _ _ _ _ _ _ (Hat _ (or_intror eq_refl)) Hrun).
  - exact (run_phase_counts _ _ _ _ _ _ _ _ (Hat _ (or_introl eq_refl)) Hrun).
  - intros report Hc Hs. revert Hrun. unfold _prepare_runtime_qc, cached_qc. rewrite defaults_keep0 by done.
    unfold cached_qc in Hc. rewrite Hc, Hs. by intros [= _ _ <-].
Qed.

(** The verdict of a report that was made. *)
Lemma assess_yields settings now mission metadata execution lang :
  yields (fun out : MissionRecord * bool * dict =>
      RQCA_HARNESS_VERSION <= _report_harness_version out.2 /\
      (out.1.2 = true -> enforced settings = true -> qc_failed out.2 = false))
    (assess settings now mission metadata execution lang).
Proof.
  unfold assess. eapply yields_mbind; [apply yields_true|]. intros answer _.
  eapply yields_mbind; [apply yields_true|]. intros qc _. cbv zeta. set (report := dset _ "harness_version" _).
  assert (RQCA_HARNESS_VERSION <= _report_harness_version report) as Hv.
  { unfold _report_harness_version, report. rewrite dget0_dset_eq. done. }
  do 3 (eapply yields_mbind; [apply yields_true|]; intros ? _).
  eapply yields_mbind; [apply yields_true|]. intros paused _. destruct paused; cbn [yields tret fst snd]; split; try done.
  destruct (enforced settings), (qc_failed report); done.
Qed.

(** What the gate's answer rests on. *)
Definition runtime_qc_grounds (settings : dict) (ready : bool) (report : dict) : Prop :=
  (exists reason, report = skip_report reason /\ ready = negb (enforced settings && String.eqb reason "RQCA disabled")) \/
  (RQCA_HARNESS_VERSION <= _report_harness_version report /\
   (ready = true -> enforced settings = true -> qc_failed report = false)).

Lemma skip_yields settings now mission metadata reason :
  yields (fun out : MissionRecord * bool * dict => runtime_qc_grounds settings out.1.2 out.2)
    (_persist_runtime_qc_skip settings now mission metadata reason).
Proof.
  unfold _persist_runtime_qc_skip. cbv zeta. do 2 (eapply yields_mbind; [apply yields_true|]; intros ? _).
  cbn [yields tret fst snd]. left. by exists reason.
Qed.

Lemma fresh_yields settings now sha mission metadata :
  yields (fun out : MissionRecord * bool * dict => runtime_qc_grounds settings out.1.2 out.2)
    (fresh_qc settings now sha mission metadata).
Proof.
  unfold fresh_qc. destruct (dget0 metadata "generated_output"); try apply skip_yields. cbv zeta.
  destruct (_ && _); [apply skip_yields|]. destruct (negb _).
  - eapply yields_mbind; [apply yields_true|]. intros [m v] _. apply skip_yields.
  - unfold execute_qc. eapply yields_mbind; [apply yields_true|]. intros m _.
    eapply yields_mbind; [apply yields_true|]. intros [m1 v1] _. do 2 (eapply yields_mbind; [apply yields_true|]; intros ? _).
    destruct a0 as [m2 e2]. eapply yields_mono; [apply assess_yields|]. intros out Hout. by right.
Qed.

Lemma prepare_yields settings now sha mission :
  yields (fun out : MissionRecord * bool * dict => runtime_qc_grounds settings out.1.2 out.2)
    (_prepare_runtime_qc settings now sha mission).
Proof.
  unfold _prepare_runtime_qc. cbv zeta. destruct (cached_qc _) as [cached|]; [|apply fresh_yields].
  destruct (_cached_runtime_qc_is_stale cached) eqn:Es; cbn [negb].
  - destruct (_ <? _); apply fresh_yields.
  - cbn [yields tret fst snd]. right. split.
    + unfold _cached_runtime_qc_is_stale in Es. cbv zeta in Es.
      destruct (Z.ltb_spec (_report_harness_version cached) RQCA_HARNESS_VERSION); [done|lia].
    + intros Hr He. destruct (enforced settings), (qc_failed cached); done.
Qed.

(** Whatever happens on the way, the runtime-QC gate's answer rests on a report of the current
    harness, whose assessment did not fail when the gate agrees and enforcement is on, or on
    a recorded skip, which agrees unless enforcement is on and the agent is off; the report of
    an older harness decides nothing. *)
Lemma runtime_qc_grounded (settings : dict) (now : string) (sha256_16 : string -> string) (mission m' : MissionRecord)
    (outside : asked -> string -> dict -> phase_reply) (db db' : DB) (ready : bool) (report : dict) (log : asked)
    (Hrun : run_phase outside (_prepare_runtime_qc settings now sha256_16 mission) db = (inr (m', ready, report), db', log)) :
  runtime_qc_grounds settings ready report.
Proof. exact (run_phase_yields _ _ _ _ _ _ _ (prepare_yields _ _ _ _) Hrun). Qed.

(** ** A pause for spending does not last *)

(** What [assess] leaves when it refuses without enforcement. *)
Lemma spend_pauses outside mission metadata s w :
  state_of w.1 (ms_mission_id mission) = Some (state_value s) ->
  wp outside (fun paused w' => forall m, paused = Some m ->
      fetch_mission (ms_mission_id mission) w'.1 = (Ok (Some m), w'.1) /\
      (forall k, str_in k rewritten_keys = false -> k <> "spend_cap" -> k <> "spend_cap_hit" ->
         dget (ms_metadata m) k = dget metadata k)) (spend_check mission metadata) w.
Proof.
  intros Hs. unfold spend_check. cbv zeta. apply wp_try; [|by intros w' m].
  apply wp_bind, (wp_gentle outside (ms_mission_id mission)); [walk_phase|]. intros answer w1 Hq1.
  apply wp_bind, wp_pure. intros usage _. apply wp_bind, wp_pure. intros actual _. apply wp_bind, wp_pure. intros cap _.
  destruct (String.eqb _ "pause"); [|by intros m]. apply (wp_save _ _ _ _ s); [by rewrite (proj1 Hq1)|].
  intros m db' Hf _ _ Hk. apply wp_ret. intros m' [= <-]. split; [done|]. intros k Hr H1 H2.
  rewrite Hk by done. by rewrite !dget_dset_ne by congruence.
Qed.

Section pause.
Context (settings : dict) (Hoff : enforced settings = false) (outside : asked -> string -> dict -> phase_reply).
Context (now : string) (sha : string -> string) (mission : MissionRecord) (s : MissionState).

Let id := ms_mission_id mission.

(** A refusal leaves its report on the mission. *)
Definition refused (out : MissionRecord * bool * dict) (w : DB * asked) : Prop :=
  out.1.2 = false -> fetch_mission id w.1 = (Ok (Some out.1.1), w.1) /\
                     dget (ms_metadata out.1.1) "runtime_qc_report" = Some (VDict out.2).

Lemma assess_refuses metadata execution lang w :
  state_of w.1 id = Some (state_value s) -> wp outside refused (assess settings now mission metadata execution lang) w.
Proof.
  intros Hs. unfold assess. apply wp_bind, (wp_gentle outside id); [walk_phase|]. intros answer w1 H1.
  apply wp_bind, wp_pure. intros qc _. cbv zeta.
  apply wp_bind, (wp_gentle outside id); [walk_phase|]. intros a2 w2 H2.
  apply wp_bind, (wp_gentle outside id); [walk_phase|]. intros a3 w3 H3.
  apply wp_bind, (wp_gentle outside id); [walk_phase|]. intros updated w4 H4.
  apply wp_bind. eapply wp_mono.
  - apply (spend_pauses _ _ _ s). fold id. rewrite (proj1 H4), (proj1 H3), (proj1 H2), (proj1 H1). exact Hs.
  - intros [m|] w5 Hp; apply wp_ret; unfold refused; cbn [fst snd]; [|by rewrite Hoff].
    intros _. destruct (Hp m eq_refl) as [Hf Hk]. split; [exact Hf|]. rewrite Hk by done.
    unfold append_chain_event. cbv zeta. by rewrite !dget_dset_ne, dget_dset_eq by discriminate.
Qed.

Lemma skip_agrees metadata reason w : wp outside refused (_persist_runtime_qc_skip settings now mission metadata reason) w.
Proof.
  apply (wp_yields outside (fun out => out.1.2 = true)).
  - unfold _persist_runtime_qc_skip. cbv zeta. do 2 (eapply yields_mbind; [apply yields_true|]; intros ? _).
    cbn [yields tret fst snd]. by rewrite Hoff.
  - intros out w' Ht Hf. congruence.
Qed.

Lemma fresh_refuses metadata w : state_of w.1 id = Some (state_value s) -> wp outside refused (fresh_qc settings now sha mission metadata) w.
Proof.
  intros Hs. unfold fresh_qc. destruct (dget0 metadata "generated_output"); try apply skip_agrees. cbv zeta.
  destruct (_ && _); [apply skip_agrees|]. destruct (negb _).
  - apply wp_bind, (wp_gentle outside id); [walk_phase|]. intros [m v] w1 _. apply skip_agrees.
  - unfold execute_qc. apply wp_bind, (wp_gentle outside id); [walk_phase|]. intros m w1 H1.
    apply wp_bind, (wp_gentle outside id); [walk_phase|]. intros [m2 v2] w2 H2.
    apply wp_bind, (wp_gentle outside id); [walk_phase|]. intros e w3 H3.
    apply wp_bind, (wp_gentle outside id); [walk_phase|]. intros [m4 e4] w4 H4.
    apply assess_refuses. rewrite (proj1 H4), (proj1 H3), (proj1 H2), (proj1 H1). exact Hs.
Qed.
End pause.

(** With QC enforcement off, the gate refuses a mission only because it has spent its
    limit; but the next evaluation finds the report stored and agrees without any call, so
    without looking at the spending again. *)
Lemma spend_pause_forgotten (settings : dict) (now : string) (sha256_16 : string -> string) (mission m' : MissionRecord)
    (s : MissionState) (outside : asked -> string -> dict -> phase_reply) (db db' : DB) (report : dict) (log : asked)
    (Hoff : enforced settings = false) (Hstored : state_of db (ms_mission_id mission) = Some (state_value s))
    (Hrun : run_phase outside (_prepare_runtime_qc settings now sha256_16 mission) db = (inr (m', false, report), db', log))
    (Hreal : truthy (dget0 report "skipped") = false) (Hfresh : _cached_runtime_qc_is_stale report = false) :
  fetch_mission (ms_mission_id mission) db' = (Ok (Some m'), db') /\
  forall later outside', run_phase outside' (_prepare_runtime_qc settings later sha256_16 m') db' = (inr (m', true, report), db', []).
Proof.
  assert (refused mission (m', false, report) (db', log)) as H.
  { refine (run_phase_wp outside _ _ db _ _ _ _ Hrun). unfold _prepare_runtime_qc. cbv zeta.
    destruct (cached_qc _) as [cached|]; [|by apply (fresh_refuses _ Hoff _ _ _ _ s)].
    destruct (negb _); [apply wp_ret; unfold refused; cbn; by rewrite Hoff|].
    destruct (_ <? _); by apply (fresh_refuses _ Hoff _ _ _ _ s). }
  destruct (H eq_refl) as [Hf Hr]. cbn [fst snd] in Hf, Hr. split; [exact Hf|]. intros later outside'.
  assert (cached_qc (phase_defaults m') = Some report) as Hc.
  { unfold cached_qc. rewrite defaults_keep0 by done. unfold dget0 at 1. rewrite Hr. cbn. by rewrite Hreal. }
  unfold _prepare_runtime_qc. rewrite Hc, Hfresh. cbn [negb]. rewrite Hoff. done.
Qed.

(** ** A concrete gate *)

Definition qc_settings : dict := [("rqca_agent_enabled", VBool true); ("runtime_qc_max_repair_attempts", VInt 3)].

Definition qc_mission : MissionRecord :=
  mkMission "m1" "pong" (Some "javascript") None None None None
    [("generated_output", VDict [("generated_code", VStr "run(undefined)"); ("filename", VStr "app.js")]);
     ("feature_contract", VDict [("cost_estimate", VDict [("cap_usd", VInt 5)])])] None None verified "t0".

Definition qc_db : DB := (persist_intake_mission qc_mission "1-0" empty_db).2.

(** A sandbox in which the first program fails and any later one passes, a model that answers
    every repair, and a mission that has spent seven. *)
Definition qc_outside (log : asked) (callee : string) (arguments : dict) : phase_reply :=
  if String.eqb callee "run_runtime_qc" then
    Returned (VDict [("verdict", VStr (if Nat.eqb (count "run_runtime_qc" log) 0 then "FAIL" else "PASS"));
                     ("stderr_preview", VStr "TypeError: undefined"); ("exit_code", VInt 1);
                     ("verified_scope_detail", VStr "tests")])
  else if String.eqb callee "generate_code_from_contract" then
    Returned (VDict [("generated_code", VStr "run(1)"); ("source", VStr "llm")])
  else if String.eqb callee "generate_rqca_assessment" then Returned (VDict [("qc_verdict", VStr "PASS")])
  else if String.eqb callee "get_mission_token_usage" then Returned (VDict [("estimated_cost_usd", VInt 7)])
  else Returned (VDict []).

Definition qc_task : phase (MissionRecord * bool * dict) := _prepare_runtime_qc qc_settings "t1" (fun t => t) qc_mission.

Lemma repairs_bounded_witness : exists x db' log,
  run_phase qc_outside qc_task qc_db = (inr x, db', log) /\ count "generate_code_from_contract" log = 1%nat /\
  ((count "generate_code_from_contract" log <= 3)%nat /\ (count "run_runtime_qc" log <= 4)%nat /\
   (forall report, cached_qc (ms_metadata qc_mission) = Some report -> _cached_runtime_qc_is_stale report = false -> log = [])).
Proof.
  do 3 eexists. split; [by_compute|]. split; [by_compute|].
  eapply (repairs_bounded qc_settings "t1" (fun t => t) qc_mission qc_outside qc_db). by_compute.
Defined.

Lemma runtime_qc_grounded_witness : exists x db' log,
  run_phase qc_outside qc_task qc_db = (inr x, db', log) /\ x.1.2 = false /\ runtime_qc_grounds qc_settings x.1.2 x.2.
Proof.
  do 3 eexists. split; [by_compute|]. split; [by_compute|].
  eapply (runtime_qc_grounded qc_settings "t1" (fun t => t) qc_mission _ qc_outside qc_db). by_compute.
Defined.

Lemma spend_pause_forgotten_witness : exists x db' log,
  run_phase qc_outside qc_task qc_db = (inr x, db', log) /\ x.1.2 = false /\
  fetch_mission "m1" db' = (Ok (Some x.1.1), db') /\
  forall later outside', run_phase outside' (_prepare_runtime_qc qc_settings later (fun t => t) x.1.1) db' = (inr (x.1.1, true, x.2), db', []).
Proof.
  do 3 eexists. split; [by_compute|]. split; [by_compute|].
  eapply (spend_pause_forgotten qc_settings "t1" (fun t => t) qc_mission _ verified qc_outside qc_db); by_compute.
Defined.
