(* ===== verification/Gates.v ===== *)
(** * Gates

    The driver of Lifecycle with the preparers of Delivery and RuntimeQc for its gates:
    what a mission that reached [COMPLETE] went through, and what may still change after
    it did. *)

From S2P Require Import Prelude PyVal Agents MissionStates MissionFlow Store Tasks Lifecycle Engines Routes.
From S2P Require Import Bundles Partitions Regex Reports Phase Delivery RuntimeQc.
From S2P Require Compliance Equivalence.

Section gated.
(** The other phases; what is outside, for each preparer; the settings, the clock, the
    rounding of rates and the digest of error signatures. *)
Context (P : Phases) (outside : string -> asked -> string -> dict -> phase_reply).
Context (settings : dict) (now : string) (ratio : nat -> nat -> val) (sha256_16 : string -> string).

Definition gated : Phases :=
  mkPhases (_prepare_pm_intake P) (_prepare_fetch_phase P) (_prepare_ceo_delegation P) (_prepare_pod_assignment P)
    (_prepare_specialist_assignment P) (_prepare_specialist_plan P) (Lifecycle._emit_partition_work_items P) (completion_check_fn P)
    (fun m => as_phase (outside "equivalence") (Delivery._prepare_equivalence_report settings now ratio m))
    (fun m => as_phase (outside "security") (Delivery._prepare_security_compliance_report settings now m))
    (fun m => as_phase (outside "dependency") (RuntimeQc._prepare_dependency_absorption_reports now m))
    (fun m => as_phase (outside "depabs") (RuntimeQc._prepare_depabs_execution settings now m))
    (fun m => as_phase (outside "runtime_qc") (RuntimeQc._prepare_runtime_qc settings now sha256_16 m))
    (build_deploy_readiness_assessment P)
    (fun m => as_phase (outside "delivery") (Delivery._prepare_delivery_summary now m))
    (_persist_runtime_phase_artifact P)
    (fun m => as_phase (outside "package") (RuntimeQc._ensure_verified_build_artifact now m))
    (_produce_pod_group_standard P) (_prepare_fusion P).

(** What the driver relies on holds of the gates whatever is outside. *)
#[export] Instance gated_quiet id `{QP : !QuietPhases P id} : QuietPhases gated id.
Proof.
  split; intros; cbn [gated Lifecycle._prepare_equivalence_report Lifecycle._prepare_security_compliance_report
    Lifecycle._prepare_dependency_absorption_reports Lifecycle._prepare_depabs_execution Lifecycle._prepare_runtime_qc
    Lifecycle._prepare_delivery_summary Lifecycle._ensure_verified_build_artifact]; try apply QP; apply gentle_keeps.
  - apply gentle_equivalence.
  - apply gentle_security.
  - apply gentle_dependency.
  - apply gentle_depabs.
  - apply gentle_runtime_qc.
  - apply gentle_summary.
  - apply gentle_package.
Qed.
End gated.

(** ** What the equivalence gate leaves alone *)

(** What later gates read of a mission, the equivalence report apart. *)
Definition checked_keys : list string :=
  ["generated_output"; "application_intelligence_map"; "source_code"; "depth_mode"; "data_classification"; "mission_charter";
   "security_compliance_report"].

Ltac at_checked_key H :=
  unfold checked_keys in H; rewrite !elem_of_cons, elem_of_nil in H;
  repeat match type of H with _ \/ _ => destruct H as [H|H] end; [subst..|done].

Section kept.
Context (k : string) (Hk : k ∈ checked_keys).

Lemma artifact_keeps now metadata stage ev agent details : dget0 (_record_artifact now metadata stage ev agent details) k = dget0 metadata k.
Proof. unfold _record_artifact. cbv zeta. at_checked_key Hk; by meta_simpl. Qed.

Lemma vectors_keep mission metadata output code lang filename :
  yields (fun m => dget0 m k = dget0 metadata k) (oracle_vectors mission metadata output code lang filename).
Proof.
  unfold oracle_vectors. cbv zeta. destruct (_ && _); [done|]. do 2 (eapply yields_mbind; [apply yields_true|]; intros ? _).
  cbn [yields tret]. at_checked_key Hk; by meta_simpl.
Qed.

Lemma contract_keeps settings mission metadata :
  yields (fun out => dget0 out.1 k = dget0 metadata k) (_run_contract_equivalence settings mission metadata).
Proof.
  unfold _run_contract_equivalence. destruct (runnable mission metadata) as [[[[output code] lang] filename]|]; [|done].
  eapply (yields_mbind (fun found => match found with Some m => dget0 m k = dget0 metadata k | None => True end)).
  - unfold try_or. apply yields_catch; [|done].
    eapply yields_mbind; [apply vectors_keep|]. by intros m Hm.
  - intros [m|] Hm; [|done]. eapply yields_mbind; [apply yields_true|]. by intros r _.
Qed.

Lemma behavioural_keeps settings mission metadata :
  yields (fun out => dget0 out.1 k = dget0 metadata k) (behavioural_evidence settings mission metadata).
Proof.
  unfold behavioural_evidence. eapply yields_mbind; [apply yields_true|]. intros b _. cbv zeta.
  destruct (_ && _); [|done]. eapply yields_mbind; [apply contract_keeps|]. by intros [m r] Hm.
Qed.

Lemma attach_keeps settings now metadata report b :
  yields (fun out => dget0 out.1 k = dget0 metadata k) (attach_evidence settings now metadata report b).
Proof.
  unfold attach_evidence. destruct (non_empty b) as [d|]; [|done]. eapply yields_mbind; [apply yields_true|]. intros r _.
  cbn [yields tret fst]. at_checked_key Hk; by meta_simpl.
Qed.
End kept.

Lemma MissionState_of_Ok text s : MissionState_of text = Ok s -> text = state_value s.
Proof.
  unfold MissionState_of. destruct (List.find _ all_states) as [s'|] eqn:E; [|done]. intros [= <-].
  apply find_some in E as [_ E]. by apply String.eqb_eq in E.
Qed.

(** Saving gives the mission back with the metadata, or as it was when it is not stored. *)
Lemma wp_save_any outside (Q : MissionRecord -> DB * asked -> Prop) mission metadata w :
  (forall m w', m = mission \/ (forall k, str_in k rewritten_keys = false -> dget0 (ms_metadata m) k = dget0 metadata k) -> Q m w') ->
  wp outside Q (save_metadata mission metadata) w.
Proof.
  intros HQ. unfold wp, save_metadata, mbind, task_bind, storage. cbn -[update_mission_metadata]. unfold db_act. cbn -[update_mission_metadata].
  destruct (update_mission_metadata (ms_mission_id mission) metadata w.1) as [r db'] eqn:Eu.
  destruct r as [[m|]|e]; cbn; [|by apply HQ; left|done]. apply HQ. right. intros k Hk. unfold dget0. f_equal.
  destruct (db_missions w.1 !! ms_mission_id mission) as [row|] eqn:Hr; [|by unfold update_mission_metadata in Eu; rewrite Hr in Eu].
  destruct (MissionState_of (r_state row)) as [s|e] eqn:Es.
  - apply MissionState_of_Ok in Es.
    destruct (update_metadata_row _ metadata _ _ _ Hr Es) as (m' & row' & Hu & _ & Hmd & _ & Hrow). rewrite Hu in Eu.
    injection Eu as -> _. rewrite Hmd. by apply Hrow.
  - unfold update_mission_metadata, row_to_mission in Eu. rewrite Hr in Eu. cbv zeta in Eu. cbn [with_metadata r_state] in Eu.
    rewrite Es in Eu. by destruct (_charter_fields_from_metadata _) as [[[? ?] ?] ?].
Qed.

(** What a gate files is the metadata, with its own report. *)
Lemma file_keeps outside now mission metadata report key stage ev agent ck n k w :
  k ∈ checked_keys -> key <> k -> dget0 metadata k = dget0 (ms_metadata mission) k ->
  wp outside (fun m _ => dget0 (ms_metadata m) k = dget0 (ms_metadata mission) k)
    (file_report now mission metadata report key stage ev agent ck n) w.
Proof.
  intros Hk Hne Hmd. unfold file_report. cbv zeta. set (filed := _record_artifact _ _ _ _ _ _).
  assert (dget0 filed k = dget0 metadata k) as Hf.
  { unfold filed. rewrite (artifact_keeps _ Hk), append_once_keeps by (at_checked_key Hk; done). by apply dget0_dset_ne. }
  clearbody filed. apply wp_bind, (wp_gentle outside (ms_mission_id mission)); [apply gentle_audit|]. intros v w' _.
  apply wp_save_any. intros m w'' [->|Hm]; [done|]. rewrite Hm; [congruence|]. at_checked_key Hk; done.
Qed.

Lemma equivalence_keeps outside settings now ratio mission k w :
  k ∈ checked_keys ->
  wp outside (fun out _ => dget0 (ms_metadata out.1.1) k = dget0 (ms_metadata mission) k)
    (_prepare_equivalence_report settings now ratio mission) w.
Proof.
  intros Hk. unfold _prepare_equivalence_report. destruct (negb _); [done|].
  assert (dget0 (phase_defaults mission) k = dget0 (ms_metadata mission) k) as Hd.
  { apply defaults_keep0. at_checked_key Hk; done. }
  apply wp_bind, (wp_yields outside (fun _ => True)); [apply yields_true|]. intros artifacts w1 _. unfold equivalence_verdict. cbv zeta.
  apply wp_bind, wp_pure. intros report _.
  apply wp_bind. eapply wp_yields; [by apply (behavioural_keeps k)|]. intros [metadata b] w2 Hm. cbn [fst] in Hm.
  apply wp_bind. eapply wp_yields; [by apply (attach_keeps k)|]. intros [metadata' r] w3 Hm'. cbn [fst] in Hm'.
  apply wp_bind. eapply wp_mono; [apply (file_keeps _ _ _ _ _ _ _ _ _ _ _ k)|]; [done|at_checked_key Hk; done|congruence|].
  intros m w4 H4. apply wp_ret. exact H4.
Qed.

(** ** What the security gate decides *)

Definition generated_code (mission : MissionRecord) : list ascii :=
  chars (get_text (dict_value (dget0 (ms_metadata mission) "generated_output")) "generated_code").

(** Whether blocking is switched on, by the settings or by the mission. *)
Definition security_armed (settings : dict) (mission : MissionRecord) : Prop :=
  setting settings "mission_security_compliance_enforcement_enabled" = true \/
  Compliance.regulated_context (ms_metadata mission) = true.

Lemma regulated_same (m m' : dict) :
  (forall k, k ∈ checked_keys -> dget0 m k = dget0 m' k) -> Compliance.regulated_context m = Compliance.regulated_context m'.
Proof.
  intros H. unfold Compliance.regulated_context, Compliance._requires_blocking_context, Compliance.classification_of.
  rewrite (H "depth_mode"), (H "data_classification"), (H "mission_charter"); [done|by repeat constructor..].
Qed.

Lemma defaults_same mission k : k ∈ checked_keys -> dget0 (phase_defaults mission) k = dget0 (ms_metadata mission) k.
Proof. intros Hk. apply defaults_keep0. at_checked_key Hk; done. Qed.

(** Switched on, and with no verdict stored, the gate agrees only to code without a secret. *)
Lemma security_clears settings now mission :
  is_dict (dget0 (ms_metadata mission) "generated_output") = true ->
  is_dict (dget0 (ms_metadata mission) "security_compliance_report") = false -> security_armed settings mission ->
  yields (fun out : MissionRecord * bool * dict => out.1.2 = true -> ~ Compliance.leaks_secret (generated_code mission))
    (_prepare_security_compliance_report settings now mission).
Proof.
  intros Hg Hc Ha. unfold _prepare_security_compliance_report, Compliance.mission_requires_security_compliance, generated_code.
  rewrite !defaults_same, Hg, Hc by (by repeat constructor). cbn [orb negb andb].
  eapply yields_mbind; [apply yields_pure; intros r Hr; exact Hr|]. intros report Hreport.
  eapply (yields_mbind (fun r => dget0 r "blocking" = dget0 report "blocking")).
  { unfold sign_report, try_or. apply yields_catch; [|done]. eapply yields_mbind; [apply yields_true|]. intros v _.
    cbn [yields tret]. by meta_simpl. }
  intros signed Hs. eapply yields_mbind; [apply yields_true|]. intros m _. cbn [yields tret fst snd]. rewrite Hs.
  destruct (Compliance.report_verdict _ _ _ _ _ Hreport) as (security & warned & Hsec & Hb & _). rewrite Hb.
  rewrite (Compliance.report_failures _ _ Hsec), (regulated_same _ (ms_metadata mission)) by apply defaults_same.
  rewrite defaults_same by (by repeat constructor). rewrite <- Compliance.search_secrets.
  intros Hready Hleak. rewrite Hleak in Hready. destruct Ha as [Ha|Ha]; rewrite Ha in Hready; cbn in Hready.
  - done.
  - by rewrite orb_true_r in Hready.
Qed.

Lemma as_phase_Ok {A} outside (t : phase A) db a db' :
  as_phase outside t db = (Ok a, db') -> exists log, run_phase outside t db = (inr a, db', log).
Proof. unfold as_phase. destruct (run_phase outside t db) as [[[e|a'] db1] log]; [done|]. intros [= -> ->]. by exists log. Qed.

(** What was checked of a mission before it was completed. *)
Definition checks_passed (outside : string -> asked -> string -> dict -> phase_reply) (settings : dict) (now : string)
    (sha256_16 : string -> string) (mission : MissionRecord) : Prop :=
  (setting settings "mission_equivalence_enforcement_enabled" = true ->
   Equivalence.mission_requires_equivalence (phase_defaults mission) = true ->
   ~ Equivalence.defective (ms_language mission) (phase_defaults mission) (stored_artifacts (outside "equivalence") (ms_mission_id mission))) /\
  (security_armed settings mission -> is_dict (dget0 (ms_metadata mission) "generated_output") = true ->
   is_dict (dget0 (ms_metadata mission) "security_compliance_report") = false -> ~ Compliance.leaks_secret (generated_code mission)) /\
  (exists m5 db5 m6 report db6 log,
     run_phase (outside "runtime_qc") (_prepare_runtime_qc settings now sha256_16 m5) db5 = (inr (m6, true, report), db6, log) /\
     runtime_qc_grounds settings true report).

Lemma completed_checked (P : Phases) (outside : string -> asked -> string -> dict -> phase_reply) (settings : dict)
    (now : string) (ratio : nat -> nat -> val) (sha256_16 : string -> string) (ctl : val) (id : string) (db : DB)
    (s : MissionState) (QP : QuietPhases P id) (Hs : state_of db id = Some (state_value s)) (Hne : s <> complete)
    (Hrun : state_of (advance_mission_lifecycle_v2 (gated P outside settings now ratio sha256_16) now ctl id db).2 id =
            Some (state_value complete)) :
  exists db1 mission, state_of db1 id = Some (state_value verified) /\ fetch_mission id db1 = (Ok (Some mission), db1) /\
    checks_passed outside settings now sha256_16 mission.
Proof.
  set (G := gated P outside settings now ratio sha256_16) in *.
  assert (QuietPhases G id) as QG by apply _.
  destruct (entered_complete G now ctl id db s Hs Hne Hrun) as (db1 & Hv & mission & details & db1' & m2 & r2 & db2 & m3 & r3 & db3 & m4 & r4 & db4 & m5 & db5 & m6 & r6 & db6 &
    Hf & Hc & _ & Heq & Hsec & _ & _ & Hqc).
  apply as_phase_Ok in Heq as [log2 Heq]. apply as_phase_Ok in Hsec as [log3 Hsec]. apply as_phase_Ok in Hqc as [log6 Hqc].
  assert (forall k, k ∈ checked_keys -> dget0 (ms_metadata m2) k = dget0 (ms_metadata mission) k) as Hkeep.
  { intros k Hk. exact (run_phase_wp _ _ _ _ _ _ _ (equivalence_keeps _ _ _ _ _ _ (db1', []) Hk) Heq). }
  exists db1, mission. split; [exact Hv|]. split; [exact Hf|]. split_and!.
  - intros He Hr Hd. pose proof (run_phase_wp _ _ _ _ _ _ _ (gate_exact _ _ _ _ _ (db1', []) eq_refl Hr) Heq) as [Hsound _].
    apply (proj1 (Hsound eq_refl)). by split.
  - intros Ha Hg Hn. rewrite <- (Hkeep "generated_output") in Hg by (by repeat constructor).
    rewrite <- (Hkeep "security_compliance_report") in Hn by (by repeat constructor).
    unfold generated_code. rewrite <- (Hkeep "generated_output") by (by repeat constructor).
    apply (run_phase_yields _ _ _ _ _ _ _ (security_clears _ _ _ Hg Hn ltac:(unfold security_armed; by rewrite (regulated_same _ _ Hkeep))) Hsec).
    reflexivity.
  - exists m5, db5, m6, r6, db6, log6. split; [exact Hqc|]. exact (run_phase_yields _ _ _ _ _ _ _ (prepare_yields _ _ _ _) Hqc).
Qed.

(** ** Properties *)


(** ** Repaired code *)

Abbreviation never name := (issues (fun c => calls name c = false)).

Lemma never_counts {A} name outside (t : phase A) db out db' log :
  never name t -> run_phase outside t db = (out, db', log) -> count name log = 0%nat.
Proof. intros Ht Hrun. pose proof (run_phase_counts outside name 0 t db out db' log (at_most_none _ _ Ht) Hrun). lia. Qed.

Section unpackaged.
Context (name : string) (Hname : name = "upsert_build_artifact" \/ name = "_write_artifact_to_disk").

Let Hcostly : costly name := or_intror Hname.

Lemma never_sandbox id metadata output manifest lang : never name (run_runtime_qc id metadata output manifest lang).
Proof. unfold run_runtime_qc. destruct Hname as [-> | ->]; walk_phase. Qed.

#[local] Hint Resolve unasked_skip unasked_manifest unasked_tests unasked_assess never_sandbox Hcostly : phases.

Lemma never_attempts sha mission manifest lang agent mx n attempt s :
  never name (repair_attempts sha mission manifest lang agent mx n attempt s).
Proof.
  revert attempt s. induction n as [|n IH]; intros attempt s; cbn [repair_attempts]; [exact I|].
  unfold repair_attempt. walk_phase; destruct Hname as [-> | ->]; done.
Qed.

#[local] Hint Resolve never_attempts : phases.

Lemma never_fresh settings now sha mission metadata : never name (fresh_qc settings now sha mission metadata).
Proof. unfold fresh_qc, execute_qc, self_repair. walk_phase. Qed.
End unpackaged.

(** The runtime-QC gate packages nothing: when it repairs the code and then agrees, the
    packaged artifact and the files on disk are those of the code before the repair. *)
Lemma repairs_not_packaged (settings : dict) (now : string) (sha256_16 : string -> string) (mission : MissionRecord)
    (outside : asked -> string -> dict -> phase_reply) (db db' : DB) (out : exn + (MissionRecord * bool * dict)) (log : asked)
    (Hrun : run_phase outside (_prepare_runtime_qc settings now sha256_16 mission) db = (out, db', log)) :
  count "upsert_build_artifact" log = 0%nat /\ count "_write_artifact_to_disk" log = 0%nat.
Proof.
  assert (forall name, name = "upsert_build_artifact" \/ name = "_write_artifact_to_disk" ->
    never name (_prepare_runtime_qc settings now sha256_16 mission)) as Hnever.
  { intros name Hname. unfold _prepare_runtime_qc. cbv zeta. pose proof never_fresh. walk_phase; auto. }
  split; eapply never_counts; [apply Hnever; by left|exact Hrun|apply Hnever; by right|exact Hrun].
Qed.

(** ** A concrete run *)

Definition leak : string := "API_KEY = " +:+ String dquote "0123456789" +:+ String dquote "".

Definition gate_mission : MissionRecord :=
  mkMission "m1" "pong" (Some "javascript") None None None None
    [("generated_output", VDict [("generated_code", VStr "run(undefined)"); ("filename", VStr "app.js"); ("language", VStr "javascript")]);
     ("depth_mode", VStr "regulated")] None None verified "t0".

Definition gate_db : DB := (persist_intake_mission gate_mission "1-0" empty_db).2.

Definition gate_settings : dict :=
  [("rqca_agent_enabled", VBool true); ("rqca_enforcement_enabled", VBool true);
   ("mission_equivalence_enforcement_enabled", VBool true); ("mission_security_compliance_enforcement_enabled", VBool true)].

(** The packaged artifact is intact; the sandbox fails the first program and passes the second,
    which is a model's repair, and which has a key in it. *)
Definition gate_outside (phase_name : string) (log : asked) (callee : string) (arguments : dict) : phase_reply :=
  if String.eqb callee "generate_code_from_contract" then
    Returned (VDict [("generated_code", VStr leak); ("source", VStr "llm")])
  else if String.eqb callee "list_build_artifacts" then
    Returned (VList [VDict [("artifact_type", VStr "generated_code"); ("artifact_id", VStr "a1"); ("digest_sha256", VStr "d1");
                            ("verification", VDict [("verified", VBool true)]); ("manifest", VDict [("filename", VStr "app.js")])]])
  else if String.eqb callee "generate_pm_delivery_summary" then Returned (VDict [("delivery_title", VStr "pong")])
  else if String.eqb callee "mission_requires_dependency_absorption" then Returned (VBool false)
  else qc_outside log callee arguments.

Definition gate_run : DB :=
  (advance_mission_lifecycle_v2 (gated demo_phases gate_outside gate_settings "t1" Equivalence.demo_ratio (fun t => t)) "t1"
     (VBool false) "m1" gate_db).2.

Definition stored_code (db : DB) (id : string) : list ascii :=
  match db_missions db !! id with
  | Some row => chars (get_text (dict_value (dget0 (r_metadata row) "generated_output")) "generated_code")
  | None => []
  end.

(** What is stored as generated, and the verdict of the security gate on it. *)
Definition stored_verdict (db : DB) (id : string) : val :=
  match db_missions db !! id with
  | Some row => dget0 (dict_value (dget0 (r_metadata row) "security_compliance_report")) "passed"
  | None => VNone
  end.

(** With every gate enforced, on a regulated mission: the code is scanned and passes, fails its
    execution, is repaired by the model into code with an API key in it, and the mission is
    completed with that code and with the verdict on the code before. *)
Lemma repaired_code_unscanned :
  state_of gate_db "m1" = Some (state_value verified) /\ ~ Compliance.leaks_secret (stored_code gate_db "m1") /\
  state_of gate_run "m1" = Some (state_value complete) /\ Compliance.leaks_secret (stored_code gate_run "m1") /\
  stored_verdict gate_run "m1" = VBool true.
Proof.
  split_and!; [by_compute| |by_compute|apply Compliance.search_secrets; by_compute|by_compute].
  intros H%Compliance.search_secrets. by vm_compute in H.
Qed.

Lemma repairs_not_packaged_witness : exists x db' log,
  run_phase (gate_outside "runtime_qc") (_prepare_runtime_qc gate_settings "t1" (fun t => t) gate_mission) gate_db = (inr x, db', log) /\
  x.1.2 = true /\ generated_code x.1.1 = chars leak /\
  count "upsert_build_artifact" log = 0%nat /\ count "_write_artifact_to_disk" log = 0%nat.
Proof.
  do 3 eexists. split; [by_compute|]. split; [by_compute|]. split; [by_compute|].
  eapply (repairs_not_packaged gate_settings "t1" (fun t => t) gate_mission (gate_outside "runtime_qc") gate_db). by_compute.
Defined.

