(* ===== verification/Charter.v ===== *)
(** * Charter

    The mission charter that the PM intake writes: its construction and its check against
    [schemas/mission_charter.v1.json], from [O/mission_flow_v2/base.py].  The clock and the
    UUID of the charter are parameters; the schema is the checked-in file, as the part of it
    that the check reads. *)

From S2P Require Import Prelude PyVal Reports.

(** ** Vocabularies *)

Definition named (table : list (string * string)) (fallback name : string) : string :=
  default fallback (dget table (str_upper (str_strip name))).

Definition mission_modes : list (string * Z) :=
  [("BUILD_NEW", 1); ("IMPORT_MODERNIZE", 2); ("PORT", 3); ("DEBUG_REPAIR", 4); ("SECURITY_HARDEN", 5);
   ("REDUCE_DEPENDENCIES", 6); ("RUN_QC", 7); ("ARCHITECTURE_DOCS", 8); ("ANALYZE_ONLY", 9); ("SELF_ANALYZE", 10)].

Definition _mission_mode_for_type (mission_type : string) : Z :=
  default 1 (dget mission_modes (str_upper (str_strip mission_type))).

Definition _schema_depth_mode (depth_mode : string) : string :=
  named [("SPRINT", "quick_scan"); ("STANDARD", "standard"); ("PRODUCTION", "deep_audit"); ("REGULATED", "deep_audit");
         ("AUTONOMOUS_LONG_RUN", "autonomous_long_run")] "standard" depth_mode.

Definition _schema_output_mode (output_mode : string) : string :=
  named [("ANALYZE_ONLY", "report_only"); ("PLAN_ONLY", "report_only"); ("PATCH_PROPOSAL", "patch_files");
         ("APPLY_PATCH", "patch_files"); ("FULL_BUILD", "full_branch"); ("DEPENDENCY_REDUCTION", "full_branch");
         ("RUN_QC", "report_only"); ("FULL_TRANSFORMATION", "full_branch")] "full_branch" output_mode.

(** ** The schema *)

Definition schema_type (name : string) : dict := [("type", VStr name)].
Definition schema_enum (values : list string) : dict := [("type", VStr "string"); ("enum", VStrs values)].
Definition schema_const (value : string) : dict := [("type", VStr "string"); ("const", VStr value)].
Definition schema_text (least : Z) : dict := [("type", VStr "string"); ("minLength", VInt least)].

Definition schema_nullable : dict := [("type", VStrs ["string"; "null"])].

Definition required_fields : list string :=
  ["schema"; "schema_version"; "charter_id"; "mission_id"; "mission_type"; "depth_mode"; "output_mode"; "data_classification";
   "target_outcome"; "risk_level"; "human_approval_required"; "created_at"; "objective"; "success_criteria"; "definition_of_done"].

Definition charter_properties : list (string * dict) :=
  [("schema", schema_const "mission_charter.v1"); ("schema_version", schema_const "1.0.0"); ("charter_id", schema_text 1);
   ("mission_id", schema_text 1); ("mission_type", schema_enum (fst <$> mission_modes));
   ("depth_mode", schema_enum ["SPRINT"; "STANDARD"; "PRODUCTION"; "REGULATED"; "AUTONOMOUS_LONG_RUN"; "quick_scan"; "standard";
                               "deep_audit"; "autonomous_long_run"]);
   ("output_mode", schema_enum ["ANALYZE_ONLY"; "PLAN_ONLY"; "PATCH_PROPOSAL"; "APPLY_PATCH"; "FULL_BUILD"; "DEPENDENCY_REDUCTION";
                                "RUN_QC"; "FULL_TRANSFORMATION"; "report_only"; "patch_files"; "full_branch"]);
   ("data_classification", schema_enum ["TIER_0_PUBLIC"; "TIER_1_INTERNAL"; "TIER_2_SENSITIVE"; "TIER_3_REGULATED"]);
   ("source_type", schema_enum ["github_repo"; "local_directory"; "zip_bundle"; "url"; "direct_input"]);
   ("target_outcome", schema_text 3); ("risk_level", schema_enum ["low"; "medium"; "high"; "enterprise"]);
   ("required_agents", schema_type "array");
   ("provider_routing_policy", schema_enum ["any"; "local_preferred"; "local_only"; "anthropic_preferred"; "openai_preferred"]);
   ("human_approval_required", schema_type "boolean"); ("approval_gates_required", schema_type "array");
   ("expected_artifacts", schema_type "array"); ("created_at", schema_type "string"); ("objective", schema_text 3);
   ("success_criteria", schema_type "array"); ("definition_of_done", schema_type "object"); ("approved_at", schema_nullable);
   ("approved_by", schema_nullable); ("notes", schema_type "string")].

Definition _mission_charter_schema : dict :=
  [("required", VStrs required_fields); ("additionalProperties", VBool true);
   ("properties", VDict ((fun p => (p.1, VDict p.2)) <$> charter_properties))].

(** ** The check *)

Fixpoint _validate_schema_type (value expected : val) {struct expected} : bool :=
  match expected with
  | VStr "string" => match value with VStr _ => true | _ => false end
  | VStr "boolean" => match value with VBool _ => true | _ => false end
  | VStr "integer" | VStr "number" => match value with VInt _ => true | _ => false end
  | VStr "object" => is_dict value
  | VStr "array" => match value with VList _ => true | _ => false end
  | VStr "null" => match value with VNone => true | _ => false end
  | VList l => existsb (_validate_schema_type value) l
  | _ => true
  end.

(** The rules of one property. *)
Definition check_rules (value : val) (rules : dict) : result unit :=
  if dmem rules "const" && negb (bool_decide (value = dget0 rules "const")) then Raise ValueError
  else if match dget0 rules "enum" with VList values => negb (bool_decide (value ∈ values)) | _ => false end then Raise ValueError
  else if dmem rules "type" && negb (_validate_schema_type value (dget0 rules "type")) then Raise ValueError
  else match dget0 rules "minLength", value with
       | VInt least, VStr s => if Z.of_nat (String.length s) <? least then Raise ValueError else Ok tt
       | _, _ => Ok tt
       end.

Fixpoint check_properties (charter : dict) (properties : dict) : result unit :=
  match properties with
  | [] => Ok tt
  | (key, VDict rules) :: rest =>
      _ ← (if dmem charter key then check_rules (dget0 charter key) rules else Ok tt);
      check_properties charter rest
  | _ :: rest => check_properties charter rest
  end.

Definition validate_mission_charter_schema (schema charter : dict) : result dict :=
  let required := match dget0 schema "required" with VList l => l | _ => [] end in
  if existsb (fun key => match key with VStr k => negb (dmem charter k) | _ => true end) required then Raise ValueError
  else
    let properties := dict_value (dget0 schema "properties") in
    _ ← check_properties charter properties;
    if bool_decide (dget0 schema "additionalProperties" = VBool false) &&
       existsb (fun key => negb (dmem properties key)) (dkeys charter)
    then Raise ValueError else Ok charter.

(** ** The planning package *)

(** [list(contract.get(key) or [])[:n]] *)
Definition listed (contract : dict) (key : string) (n : nat) : result (list val) :=
  take n <$> py_iter (py_or (dget0 contract key) (VList [])).

Definition or_default (l : list val) (text : string) : val := VList (match l with [] => [VStr text] | _ => l end).

Definition no_errors : string := "Mission completes without error.".

Definition build_phase (phase owner objective : string) : val :=
  VDict [("phase", VStr phase); ("owner_agent_id", VStr owner); ("objective", VStr objective)].

Definition phased_build_plan : val :=
  VList [build_phase "intake" "AGENT-01-PM" "Confirm scope, assumptions, acceptance criteria, and operator approval.";
         build_phase "delegation" "AGENT-02-CEO" "Translate the approved PM plan into pod and support-ring work packages.";
         build_phase "implementation" "selected_specialist"
           "Build the requested artifact against the mission contract and LogicNodes.";
         build_phase "verification" "audit_and_support_ring" "Run required gates and prove each acceptance criterion."].

(** [(language or fallback).strip().lower()] *)
Definition language_or (language : option string) (fallback : string) : string :=
  str_lower (str_strip (str_or (default "" language) fallback)).

Definition _build_pm_planning_package (feature_contract : dict) (requested_target_language : option string)
    (mission_type : string) (gates : list string) : result dict :=
  requirements ← listed feature_contract "functional_requirements" 8;
  constraints ← listed feature_contract "non_functional_requirements" 6;
  acceptance ← listed feature_contract "acceptance_criteria" 8;
  risk_notes ← listed feature_contract "risk_notes" 6;
  let objective := str_strip (py_str (py_or (dget0 feature_contract "summary") (VStr "Complete the requested mission."))) in
  Ok [("statement_of_work",
        VDict [("objective", VStr objective); ("mission_type", VStr (str_or (str_upper (str_strip mission_type)) "BUILD_NEW"));
               ("target_language", VStr (str_or (language_or requested_target_language "auto") "auto"));
               ("deliverables", or_default requirements "Complete the requested mission deliverable.");
               ("out_of_scope", VList [])]);
      ("product_requirements",
        VDict [("functional_requirements", VList requirements); ("non_functional_requirements", VList constraints);
               ("acceptance_criteria", VList acceptance)]);
      ("phased_build_plan", phased_build_plan);
      ("risk_register",
        VList ((fun risk => VDict [("risk", risk); ("mitigation", VStr "Carry into CEO delegation and verification gates.")])
                 <$> risk_notes));
      ("test_strategy",
        VDict [("acceptance_tests", or_default acceptance no_errors); ("required_gates", VStrs gates)])].

(** ** The charter *)

Definition deep : list string := ["deep_audit"; "autonomous_long_run"].

Definition approval_required (feature_contract : dict) (schema_depth : string) : bool :=
  str_in schema_depth deep || truthy (dget_or feature_contract "human_approval_required" (VBool false)).

Definition charter_gates (schema_depth : string) (approval : bool) : list string :=
  ["pod_audit_pass"] ++
  (if negb (String.eqb schema_depth "quick_scan") then ["security_scan_pass"; "integration_tests_pass"] else []) ++
  (if approval then ["operator_approval"] else []).

Definition charter_objective (feature_contract : dict) (prompt : string) : string :=
  let objective := str_take 500 (py_str (py_or (dget0 feature_contract "summary")
                                           (VStr (str_or prompt "Complete mission")))) in
  if (String.length (str_strip objective) <? 10)%nat then "Complete the requested mission." else objective.

Definition charter_risk (feature_contract : dict) : result string :=
  assessment ← (match py_or (dget0 feature_contract "risk_assessment") (VDict []) with
                | VDict d => Ok d
                | _ => Raise AttributeError
                end);
  Ok (str_lower (py_str (py_or (dget0 assessment "complexity") (VStr "medium")))).

(** [name.strip().upper() or fallback] *)
Definition mode_label (name fallback : string) : string := str_or (str_upper (str_strip name)) fallback.

Section charter.
Context (charter_uuid now : string).

(** The fields of a charter, from what is read of the contract. *)
Definition charter_fields (mission_id prompt : string) (requested_target_language : option string) (feature_contract : dict)
    (mission_type depth_mode output_mode : string) (package : dict) (risk : string) (in_scope assumptions criteria : list val) : dict :=
  let schema_depth := _schema_depth_mode depth_mode in
  let approval := approval_required feature_contract schema_depth in
  let gates := charter_gates schema_depth approval in
  let objective := charter_objective feature_contract prompt in
  [("schema", VStr "mission_charter.v1"); ("schema_version", VStr "1.0.0"); ("charter_id", VStr ("charter-" +:+ charter_uuid));
   ("mission_id", VStr mission_id); ("created_at", VStr now); ("requested_by", VStr "operator:mission-control");
   ("mission_type", VStr (mode_label mission_type "BUILD_NEW")); ("mission_mode", VInt (_mission_mode_for_type mission_type));
   ("mission_mode_label", VStr (mode_label mission_type "BUILD_NEW")); ("depth_mode", VStr schema_depth);
   ("depth_mode_label", VStr (mode_label depth_mode "STANDARD")); ("output_mode", VStr (_schema_output_mode output_mode));
   ("output_mode_label", VStr (mode_label output_mode "FULL_BUILD")); ("data_classification", VStr "TIER_1_INTERNAL");
   ("source_type", VStr "direct_input"); ("target_outcome", VStr objective); ("risk_level", VStr risk);
   ("human_approval_required", VBool approval); ("approval_gates_required", VStrs gates);
   ("expected_artifacts", VStrs ["mission_contract"; "logic_clusters"; "generated_output"]);
   ("target", VDict [("type", VStr (if String.eqb prompt "" then "self" else "local_repo"));
                     ("primary_language", VStr (language_or requested_target_language "unknown"));
                     ("detected_languages", VStrs (if String.eqb (default "" requested_target_language) "" then []
                                                   else [language_or requested_target_language ""]))]);
   ("objective", VStr objective); ("raw_input", VStr prompt);
   ("scope", VDict [("in_scope", VList in_scope); ("out_of_scope", VList []); ("assumptions", VList assumptions)]);
   ("planning_package", VDict package); ("statement_of_work", dget0 package "statement_of_work");
   ("product_requirements", dget0 package "product_requirements"); ("phased_build_plan", dget0 package "phased_build_plan");
   ("risk_register", dget0 package "risk_register"); ("test_strategy", dget0 package "test_strategy");
   ("success_criteria", or_default criteria no_errors);
   ("definition_of_done", VDict [("depth_mode", VStr schema_depth); ("gates", VStrs gates);
                                 ("requires_operator_approval", VBool approval);
                                 ("requires_runtime_qc", VBool (str_in schema_depth deep));
                                 ("requires_dependency_absorption",
                                    VBool (String.eqb (str_upper (str_strip mission_type)) "REDUCE_DEPENDENCIES"))]);
   ("non_functional_constraints", VDict [("sensitive_code_tier", VInt 1); ("provider_restriction", VStr "any")]);
   ("metadata", VDict [("source", VStr (py_str (py_or (dget0 feature_contract "source") (VStr "fallback"))))])].

Definition build_mission_charter (mission_id prompt : string) (requested_target_language : option string)
    (feature_contract : dict) (mission_type depth_mode output_mode : string) : result dict :=
  let schema_depth := _schema_depth_mode depth_mode in
  package ← _build_pm_planning_package feature_contract requested_target_language (mode_label mission_type "BUILD_NEW")
              (charter_gates schema_depth (approval_required feature_contract schema_depth));
  risk ← charter_risk feature_contract;
  in_scope ← listed feature_contract "functional_requirements" 8;
  assumptions ← listed feature_contract "assumptions" 5;
  criteria ← py_iter (py_or (dget0 feature_contract "acceptance_criteria") (VList []));
  validate_mission_charter_schema _mission_charter_schema
    (charter_fields mission_id prompt requested_target_language feature_contract mission_type depth_mode output_mode
       package risk in_scope assumptions criteria).
End charter.

(** ** When the charter is accepted *)

Lemma enum_rule x values : check_rules (VStr x) (schema_enum values) = if str_in x values then Ok tt else Raise ValueError.
Proof.
  unfold check_rules, schema_enum. cbn.
  assert (bool_decide (VStr x ∈ VStr <$> values) = str_in x values) as ->; [|by destruct (str_in x values)].
  apply eq_true_iff_eq. rewrite bool_decide_eq_true, str_in_spec, list_elem_of_fmap. split; [|by eauto].
  intros (y & [= ->] & Hy). exact Hy.
Qed.

Lemma text_rule s n :
  check_rules (VStr s) (schema_text n) = if Z.of_nat (String.length s) <? n then Raise ValueError else Ok tt.
Proof. done. Qed.

Lemma check_cons charter key rules rest v :
  dget charter key = Some v ->
  check_properties charter ((key, VDict rules) :: rest) = (_ ← check_rules v rules; check_properties charter rest).
Proof. intros H. cbn [check_properties]. unfold dmem, dget0. by rewrite H. Qed.

Lemma check_skip charter key rules rest :
  dget charter key = None -> check_properties charter ((key, VDict rules) :: rest) = check_properties charter rest.
Proof. intros H. cbn [check_properties]. unfold dmem. by rewrite H. Qed.

Lemma text_long s n : n <= Z.of_nat (String.length s) -> check_rules (VStr s) (schema_text n) = Ok tt.
Proof. intros H. rewrite text_rule. by destruct (Z.ltb_spec (Z.of_nat (String.length s)) n); [lia|]. Qed.

Lemma elem_within (l L : list string) x : forallb (fun y => str_in y L) l = true -> x ∈ l -> x ∈ L.
Proof. intros H Hx. apply List.forallb_forall with (x := x) in H; [by apply str_in_spec|by apply list_elem_of_In]. Qed.

Lemma named_in table fallback name : named table fallback name ∈ fallback :: table.*2.
Proof.
  unfold named. destruct (dget table _) as [v|] eqn:E; cbn; [|by left]. right. apply list_elem_of_fmap.
  exists (str_upper (str_strip name), v). split; [done|]. by apply dget_In.
Qed.

Lemma enum_known x values : x ∈ values -> check_rules (VStr x) (schema_enum values) = Ok tt.
Proof. intros H. rewrite enum_rule. by apply str_in_spec in H as ->. Qed.

Lemma dropwhile_shorter {A} (p : A -> bool) l : (length (dropwhile p l) <= length l)%nat.
Proof. destruct (dropwhile_suffix p l) as [k Hk]. rewrite Hk at 2. rewrite length_app. lia. Qed.

Lemma strip_length s : (String.length (str_strip s) <= String.length s)%nat.
Proof.
  unfold str_strip, strip_with. rewrite unchars_length, length_rev.
  pose proof (dropwhile_shorter is_space (rev (dropwhile is_space (chars s)))) as H1.
  pose proof (dropwhile_shorter is_space (chars s)) as H2. rewrite length_rev in H1. rewrite chars_length in H2. lia.
Qed.

Lemma objective_long feature prompt : (10 <= String.length (charter_objective feature prompt))%nat.
Proof.
  unfold charter_objective. cbv zeta. set (o := str_take 500 _). destruct (Nat.ltb_spec (String.length (str_strip o)) 10); [by cbn; lia|].
  pose proof (strip_length o). lia.
Qed.

Lemma depth_known name : _schema_depth_mode name ∈ ["standard"; "quick_scan"; "deep_audit"; "autonomous_long_run"].
Proof. refine (elem_within _ _ _ _ (named_in _ _ name)). reflexivity. Qed.

Lemma output_known name : _schema_output_mode name ∈ ["full_branch"; "report_only"; "patch_files"].
Proof. refine (elem_within _ _ _ _ (named_in _ _ name)). reflexivity. Qed.

Section accepted.
Context (uuid now mission_id prompt : string) (language : option string) (contract : dict).
Context (mission_type depth_mode output_mode : string) (package : dict) (risk : string) (in_scope assumptions criteria : list val).

Definition risk_levels : list string := ["low"; "medium"; "high"; "enterprise"].

Lemma fields_checked :
  validate_mission_charter_schema _mission_charter_schema
    (charter_fields uuid now mission_id prompt language contract mission_type depth_mode output_mode package risk
       in_scope assumptions criteria) =
  if negb (String.eqb mission_id "") && str_in (mode_label mission_type "BUILD_NEW") (fst <$> mission_modes) && str_in risk risk_levels
  then Ok (charter_fields uuid now mission_id prompt language contract mission_type depth_mode output_mode package risk
             in_scope assumptions criteria)
  else Raise ValueError.
Proof.
  unfold validate_mission_charter_schema. set (charter := charter_fields _ _ _ _ _ _ _ _ _ _ _ _ _ _).
  assert (existsb (fun key => match key with VStr k => negb (dmem charter k) | _ => true end) (VStr <$> required_fields) = false) as Hreq by reflexivity.
  change (match dget0 _mission_charter_schema "required" with VList l => l | _ => [] end) with (VStr <$> required_fields). rewrite Hreq.
  change (dict_value (dget0 _mission_charter_schema "properties")) with ((fun p : string * dict => (p.1, VDict p.2)) <$> charter_properties).
  change (bool_decide (dget0 _mission_charter_schema "additionalProperties" = VBool false)) with false. cbn [andb].
  assert (check_properties charter ((fun p : string * dict => (p.1, VDict p.2)) <$> charter_properties) =
    if negb (String.eqb mission_id "") && str_in (mode_label mission_type "BUILD_NEW") (fst <$> mission_modes) && str_in risk risk_levels
    then Ok tt else Raise ValueError) as ->; [|by destruct (_ && _)].
  unfold charter_properties. rewrite !fmap_cons, fmap_nil. cbn [fst snd].
  assert (forall key v rules rest, dget charter key = Some v -> check_rules v rules = Ok tt ->
    check_properties charter ((key, VDict rules) :: rest) = check_properties charter rest) as Hok.
  { intros key v rules rest Hd Hr. rewrite (check_cons _ _ _ _ _ Hd), Hr. reflexivity. }
  pose proof (objective_long contract prompt) as Hlong.
  erewrite (Hok "schema") by reflexivity. erewrite (Hok "schema_version") by reflexivity. erewrite (Hok "charter_id"); [|reflexivity|apply text_long; change (String.length ("charter-" +:+ uuid)) with (8 + String.length uuid)%nat; lia].
  rewrite (check_cons _ _ _ _ _ (eq_refl : dget charter "mission_id" = Some (VStr mission_id))), text_rule.
  destruct mission_id as [|c id']; [reflexivity|]. cbn [String.length].
  destruct (Z.ltb_spec (Z.of_nat (S (String.length id'))) 1) as [H|_]; [lia|]. cbn [mbind result_bind negb andb String.eqb].
  rewrite (check_cons _ _ _ _ _ (eq_refl : dget charter "mission_type" = Some (VStr (mode_label mission_type "BUILD_NEW")))), enum_rule.
  destruct (str_in (mode_label mission_type "BUILD_NEW") (fst <$> mission_modes)); [|reflexivity]. cbn [mbind result_bind andb].
  erewrite (Hok "depth_mode"); [|reflexivity|apply enum_known; refine (elem_within _ _ _ _ (depth_known depth_mode)); reflexivity].
  erewrite (Hok "output_mode"); [|reflexivity|apply enum_known; refine (elem_within _ _ _ _ (output_known output_mode)); reflexivity].
  erewrite (Hok "data_classification") by reflexivity. erewrite (Hok "source_type") by reflexivity.
  erewrite (Hok "target_outcome"); [|reflexivity|apply text_long; unfold charter; lia].
  rewrite (check_cons _ _ _ _ _ (eq_refl : dget charter "risk_level" = Some (VStr risk))), enum_rule. fold risk_levels.
  destruct (str_in risk risk_levels); [|reflexivity]. cbn [mbind result_bind].
  rewrite !check_skip by reflexivity.
  erewrite (Hok "human_approval_required") by reflexivity. erewrite (Hok "approval_gates_required") by reflexivity. erewrite (Hok "expected_artifacts") by reflexivity. erewrite (Hok "created_at") by reflexivity.
  erewrite (Hok "objective"); [|reflexivity|apply text_long; unfold charter; lia].
  erewrite (Hok "success_criteria") by reflexivity. erewrite (Hok "definition_of_done") by reflexivity.
  reflexivity.
Qed.
End accepted.

(** What a charter needs of a contract: lists where lists are read. *)
Definition list_keys : list string :=
  ["functional_requirements"; "non_functional_requirements"; "acceptance_criteria"; "risk_notes"; "assumptions"].

Definition readable (contract : dict) : Prop :=
  forall key, key ∈ list_keys -> exists l, py_iter (py_or (dget0 contract key) (VList [])) = Ok l.

Lemma listed_Ok contract key n l : listed contract key n = Ok l -> exists l', py_iter (py_or (dget0 contract key) (VList [])) = Ok l'.
Proof. unfold listed. destruct (py_iter _); [eauto|done]. Qed.

Lemma package_readable contract language mission_type gates package :
  _build_pm_planning_package contract language mission_type gates = Ok package ->
  forall key, key ∈ ["functional_requirements"; "non_functional_requirements"; "acceptance_criteria"; "risk_notes"] ->
  exists l, py_iter (py_or (dget0 contract key) (VList [])) = Ok l.
Proof.
  unfold _build_pm_planning_package. intros H key Hk.
  repeat match type of H with
  | context [listed contract ?k ?n] => destruct (listed contract k n) eqn:?; cbn [mbind result_bind] in H; [|done]
  end.
  rewrite !elem_of_cons, elem_of_nil in Hk. destruct Hk as [->|[->|[->|[->|[]]]]]; eauto using listed_Ok.
Qed.

Lemma readable_package contract language mission_type gates :
  readable contract -> exists package, _build_pm_planning_package contract language mission_type gates = Ok package.
Proof.
  intros H. assert (forall key n, key ∈ list_keys -> exists l, listed contract key n = Ok l) as Hl.
  { intros key n Hk. destruct (H key Hk) as [l El]. unfold listed. rewrite El. eauto. }
  unfold _build_pm_planning_package.
  repeat match goal with |- context [listed contract ?k ?n] =>
    destruct (Hl k n ltac:(by repeat constructor)) as [? ->]; cbn [mbind result_bind] end.
  eauto.
Qed.

Lemma build_needs uuid now mission_id prompt language contract mission_type depth_mode output_mode charter :
  build_mission_charter uuid now mission_id prompt language contract mission_type depth_mode output_mode = Ok charter ->
  mission_id <> "" /\ mode_label mission_type "BUILD_NEW" ∈ fst <$> mission_modes /\ readable contract /\
  exists risk, charter_risk contract = Ok risk /\ risk ∈ risk_levels.
Proof.
  unfold build_mission_charter. cbv zeta. intros H.
  destruct (_build_pm_planning_package _ _ _ _) as [package|] eqn:Ep; cbn [mbind result_bind] in H; [|done].
  destruct (charter_risk contract) as [risk|]; cbn [mbind result_bind] in H; [|done].
  destruct (listed contract "functional_requirements" 8); cbn [mbind result_bind] in H; [|done].
  destruct (listed contract "assumptions" 5) eqn:Ea; cbn [mbind result_bind] in H; [|done].
  destruct (py_iter _); cbn [mbind result_bind] in H; [|done]. rewrite fields_checked in H.
  destruct (String.eqb_spec mission_id ""), (str_in (mode_label _ _) _) eqn:Et, (str_in risk risk_levels) eqn:Er; try done.
  apply str_in_spec in Et, Er. split_and!; [done|done| |by exists risk].
  pose proof (package_readable _ _ _ _ _ Ep) as Hp. intros key Hk. unfold list_keys in Hk.
  rewrite !elem_of_cons, elem_of_nil in Hk. destruct Hk as [->|[->|[->|[->|[->|[]]]]]]; try (apply Hp; by repeat constructor).
  by apply listed_Ok in Ea.
Qed.

(** A mission has an accepted charter exactly when its id is not empty, its type is one of
    the ten, the contract has lists where lists are read, and the complexity the contract
    states, lowered, is one of the four risk levels of the schema. *)
Lemma charter_accepted_iff (uuid now mission_id prompt : string) (language : option string) (contract : dict)
    (mission_type depth_mode output_mode : string) :
  (exists charter, build_mission_charter uuid now mission_id prompt language contract mission_type depth_mode output_mode = Ok charter /\
     dget charter "mission_id" = Some (VStr mission_id)) <->
  mission_id <> "" /\ mode_label mission_type "BUILD_NEW" ∈ fst <$> mission_modes /\ readable contract /\
  exists risk, charter_risk contract = Ok risk /\ risk ∈ risk_levels.
Proof.
  split.
  - intros (charter & H & _). by eapply build_needs.
  - intros (Hid & Ht & Hr & risk & Hrisk & Hl). unfold build_mission_charter. cbv zeta.
    destruct (readable_package contract language (mode_label mission_type "BUILD_NEW")
      (charter_gates (_schema_depth_mode depth_mode) (approval_required contract (_schema_depth_mode depth_mode))) Hr) as [package ->].
    rewrite Hrisk. cbn [mbind result_bind]. unfold listed.
    destruct (Hr "functional_requirements") as [l1 ->]; [by repeat constructor|].
    destruct (Hr "assumptions") as [l2 ->]; [by repeat constructor|].
    destruct (Hr "acceptance_criteria") as [l3 ->]; [by repeat constructor|]. cbn [mbind result_bind fmap result_fmap].
    rewrite fields_checked. apply String.eqb_neq in Hid as ->. apply str_in_spec in Ht as ->, Hl as ->. cbn [negb andb].
    eexists. split; [reflexivity|]. reflexivity.
Qed.

(** The complexities that a feature contract may state
    ([O/llm_delegation/normalizers.py]) are not the risk levels of the schema: a mission the
    model calls [very_high] has no charter. *)
Theorem very_high_refused uuid now mission_id prompt language contract assessment mission_type depth_mode output_mode charter :
  dget0 contract "risk_assessment" = VDict assessment -> dget0 assessment "complexity" = VStr "very_high" ->
  build_mission_charter uuid now mission_id prompt language contract mission_type depth_mode output_mode <> Ok charter.
Proof.
  intros Ha Hc H. apply build_needs in H as (_ & _ & _ & risk & Hr & Hl). unfold charter_risk in Hr.
  rewrite Ha in Hr. destruct assessment as [|p assessment]; [done|]. unfold py_or in Hr. cbn [truthy] in Hr.
  cbn [mbind result_bind] in Hr. rewrite Hc in Hr. injection Hr as <-. unfold risk_levels in Hl. set_solver.
Qed.
