(* ===== verification/Aim.v ===== *)
(** * Aim

    The application intelligence map of missions that come with source
    ([O/aim_generator.py]), and the two phases of a port ([O/port_coordinator.py]).  The
    extractors of concepts and SHA-256 are parameters; language models are calls to the
    outside. *)

From S2P Require Import Prelude PyVal Agents MissionStates MissionFlow Store Tasks Routes Reports Regex Bundles Phase.

(** ** Languages *)

Definition AIM_REQUIRING_MISSION_TYPES : list string :=
  ["IMPORT_MODERNIZE"; "PORT"; "DEBUG_REPAIR"; "SECURITY_HARDEN"; "REDUCE_DEPENDENCIES"; "ANALYZE_ONLY"].

Definition mission_requires_aim (mission_type : string) : bool :=
  str_in (str_upper (str_strip mission_type)) AIM_REQUIRING_MISSION_TYPES.

Definition MAX_AIM_FILES : nat := 100.
Definition MAX_FILE_CHARS : Z := 200000.
Definition MAX_SOURCE_CHARS : Z := 2000000.
Definition MAX_DETECTED_IMPORTS : nat := 1000.

Definition _LANGUAGE_BY_SUFFIX : list (string * string) :=
  [(".py", "python"); (".js", "javascript"); (".jsx", "javascript"); (".mjs", "javascript"); (".cjs", "javascript");
   (".ts", "typescript"); (".tsx", "typescript"); (".rb", "ruby"); (".php", "php");
   (".c", "c"); (".h", "c"); (".cpp", "cpp"); (".cc", "cpp"); (".cxx", "cpp"); (".hpp", "cpp"); (".hxx", "cpp");
   (".rs", "rust"); (".go", "go"); (".zig", "zig");
   (".java", "java"); (".cs", "csharp"); (".scala", "scala"); (".kt", "kotlin"); (".kts", "kotlin");
   (".r", "r"); (".R", "r"); (".jl", "julia"); (".m", "matlab"); (".wl", "mathematica"); (".nb", "mathematica");
   (".hs", "haskell"); (".ml", "ocaml"); (".mli", "ocaml");
   (".swift", "swift"); (".mm", "objc"); (".lua", "lua"); (".glsl", "glsl"); (".hlsl", "hlsl"); (".wgsl", "wgsl");
   (".shader", "glsl")].

Definition _SUPPORTED_EXTRACTOR_LANGUAGES : list string :=
  ["python"; "javascript"; "typescript"; "java"; "c"; "cpp"; "rust"; "go"; "zig"; "csharp"; "scala"; "kotlin"; "ruby"; "php";
   "r"; "julia"; "matlab"; "mathematica"; "haskell"; "ocaml"].

(** [Path(p).suffix] *)
Definition path_suffix (p : text) : string :=
  match rev (split_on "."%char (path_name p)) with
  | extension :: ((_ :: _) as stems) =>
      if is_nil extension || bool_decide (stems = [[]]) then "" else unchars ("."%char :: extension)
  | _ => ""
  end.

(** [str(language or '').strip().lower()] *)
Definition language_name (language : option string) : string := str_lower (str_strip (default "" language)).

Definition _infer_language (path : text) (primary_language : option string) : option string :=
  match dget _LANGUAGE_BY_SUFFIX (path_suffix (ascii_lower <$> path)) with
  | Some language => Some language
  | None =>
      let normalized := language_name primary_language in
      if str_in normalized _SUPPORTED_EXTRACTOR_LANGUAGES then Some normalized else None
  end.

Definition _choose_primary_language (detected : list string) (primary_language : option string) : val :=
  let normalized := language_name primary_language in
  if str_in normalized detected then VStr normalized
  else match sorted_strings detected with
       | [] => py_or (VStr normalized) VNone
       | first :: _ => VStr first
       end.

(** ** Extraction *)

(** What an extractor finds in a file: the domains of its concepts, and its imports. *)
Record extraction := mkExtraction { functions : Z; classes : Z; concept_domains : list string; imports : list string }.

Definition tally (counts : list (string * Z)) (name : string) (n : Z) : list (string * Z) :=
  dset counts name (default 0 (dget counts name) + n).

Record file_counts := mkCounts
  { function_count : Z; class_count : Z; concept_count : Z; domain_counts : list (string * Z); detected_imports : list string }.

Record inventory := mkInventory
  { totals : file_counts; detected_languages : list string; analyzed_files : list dict }.

Section extraction.
Context (extract : string -> text -> result extraction) (sha256 : text -> string).

Definition _extract_file (language : string) (content : text) : file_counts :=
  match extract language content with
  | Raise _ => mkCounts 0 0 0 [] []
  | Ok found =>
      mkCounts (functions found) (classes found) (Z.of_nat (length (concept_domains found)))
        (foldl (fun counts domain => tally counts (str_or domain "generic") 1) [] (concept_domains found))
        (List.filter (fun name => negb (String.eqb name "")) (imports found))
  end.

Definition manifest_entry (path : text) (language : option string) (content : text) (analyzed : bool) : dict :=
  [("path", VStr (unchars path)); ("language", VStr (str_or (default "" language) "unknown"));
   ("size_bytes", VInt (Z.of_nat (length content))); ("sha256", VStr (sha256 content)); ("analyzed", VBool analyzed)].

Definition add_counts (a b : file_counts) : file_counts :=
  mkCounts (function_count a + function_count b) (class_count a + class_count b) (concept_count a + concept_count b)
    (foldl (fun counts p => tally counts p.1 p.2) (domain_counts a) (domain_counts b))
    (detected_imports a ++ detected_imports b).

Definition extractable (language : option string) : bool :=
  match language with Some l => str_in l _SUPPORTED_EXTRACTOR_LANGUAGES | None => false end.

(** The body of the loop over the files. *)
Definition analyze (primary_language : option string) (inv : inventory) (file : text * text) : inventory :=
  let '(path, content) := file in
  let language := _infer_language path primary_language in
  if extractable language then
    mkInventory (add_counts (totals inv) (_extract_file (default "" language) (take_chars MAX_FILE_CHARS content)))
      (detected_languages inv ++ [default "" language]) (analyzed_files inv ++ [manifest_entry path language content true])
  else mkInventory (totals inv) (detected_languages inv) (analyzed_files inv ++ [manifest_entry path language content false]).

Definition no_inventory : inventory := mkInventory (mkCounts 0 0 0 [] []) [] [].

Definition _extract_all_languages (source_code : text) (primary_language : option string) : dict :=
  let files := _parse_source_bundle (take_chars MAX_SOURCE_CHARS source_code) in
  let inv := foldl (analyze primary_language) no_inventory (take MAX_AIM_FILES files) in
  let unique_imports := sorted_strings (List.filter (fun name => negb (String.eqb name "")) (detected_imports (totals inv))) in
  let imports_truncated := (MAX_DETECTED_IMPORTS <? length unique_imports)%nat in
  [("schema_version", VStr "aim_extraction.v1"); ("files_seen", VInt (Z.of_nat (length files)));
   ("files_analyzed", VInt (Z.of_nat (length (List.filter (fun f => truthy (dget0 f "analyzed")) (analyzed_files inv)))));
   ("truncated", VBool ((MAX_AIM_FILES <? length files)%nat || (MAX_SOURCE_CHARS <? Z.of_nat (length source_code)) || imports_truncated));
   ("source_digest_sha256", VStr (sha256 source_code));
   ("file_manifest", VList (VDict <$> take MAX_AIM_FILES (analyzed_files inv)));
   ("detected_languages", VStrs (sorted_strings (detected_languages inv)));
   ("primary_language", _choose_primary_language (detected_languages inv) primary_language);
   ("total_functions", VInt (function_count (totals inv))); ("total_classes", VInt (class_count (totals inv)));
   ("total_concepts", VInt (concept_count (totals inv)));
   ("domain_counts", VDict ((fun p => (p.1, VInt p.2)) <$> domain_counts (totals inv)));
   ("detected_imports", VStrs (take MAX_DETECTED_IMPORTS unique_imports))].

(** ** The map *)

Definition strings_of (value : val) (limit : nat) : list string :=
  match value with
  | VList l => take limit (omap (fun item => let s := str_strip (py_str item) in
                                             if String.eqb s "" then None else Some (str_take 160 s)) l)
  | _ => []
  end.

Definition _dict_value (value fallback : val) : dict :=
  match value with VDict d => d | _ => dict_value fallback end.

Definition _int_value (value fallback : val) : Z :=
  match py_int value with
  | Ok z => z
  | Raise _ => match py_int fallback with Ok z => z | Raise _ => 0 end
  end.

Definition complexities : list string := ["low"; "medium"; "high"; "very_high"].

Definition _complexity (value : val) : string :=
  let candidate := lower_name value in if str_in candidate complexities then candidate else "medium".

Definition _bounded_feature_contract (feature_contract : dict) : dict :=
  let text key n := VStr (str_take n (get_text feature_contract key)) in
  let texts key n := VStrs (strings_of (dget0 feature_contract key) n) in
  [("title", text "title" 160%nat); ("summary", text "summary" 360%nat); ("functional_requirements", texts "functional_requirements" 8%nat);
   ("acceptance_criteria", texts "acceptance_criteria" 6%nat); ("risk_notes", texts "risk_notes" 6%nat)].

Definition _fallback_repository_summary (mission_type : string) (extraction_summary feature_contract : dict) : string :=
  let title := str_strip (py_str (py_or (dget0 feature_contract "title") (VStr "Source bundle"))) in
  let files := match dget0 extraction_summary "files_seen" with VInt z => z | _ => 0 end in
  let languages := str_or (str_join ", " (match dget0 extraction_summary "detected_languages" with
                                          | VList l => py_str <$> l
                                          | _ => []
                                          end)) "unknown language" in
  title +:+ " contains " +:+ pretty files +:+ " file(s) for a " +:+ mission_type +:+ " mission, with detected " +:+ languages +:+ " code.".

Section generate.
Context (generated_at : string).

Definition _normalize_aim (parsed : option dict) (mission_id mission_type : string) (requested_target_language : option string)
    (extraction_summary feature_contract : dict) (source : string) (llm_route model_provider model : val) : dict :=
  let candidate := default [] parsed in
  let languages := strings_of (dget0 candidate "detected_languages") 12 in
  let summary := str_strip (get_text candidate "repository_summary") in
  [("schema_version", VStr "aim.v1"); ("aim_id", VStr ("aim-" +:+ mission_id)); ("mission_id", VStr mission_id);
   ("mission_type", VStr (str_upper (str_strip (str_or mission_type "ANALYZE_ONLY")))); ("generated_at", VStr generated_at);
   ("source", VStr source); ("llm_route", llm_route); ("model_provider", model_provider); ("model", model);
   ("repository_summary", VStr (str_take 500 (if String.eqb summary "" then
                                                _fallback_repository_summary mission_type extraction_summary feature_contract
                                              else summary)));
   ("detected_languages", match languages with [] => py_or (dget0 extraction_summary "detected_languages") (VList []) | _ => VStrs languages end);
   ("primary_language", VStr (py_str (py_or (dget0 candidate "primary_language")
                                        (py_or (dget0 extraction_summary "primary_language")
                                           (py_or (str_or_none requested_target_language) (VStr ""))))));
   ("total_functions", VInt (_int_value (dget0 candidate "total_functions") (dget_or extraction_summary "total_functions" (VInt 0))));
   ("total_classes", VInt (_int_value (dget0 candidate "total_classes") (dget_or extraction_summary "total_classes" (VInt 0))));
   ("total_concepts", VInt (_int_value (dget0 extraction_summary "total_concepts") (VInt 0)));
   ("domain_distribution", VDict (_dict_value (dget0 candidate "domain_distribution") (dget_or extraction_summary "domain_counts" (VDict []))));
   ("complexity_assessment", VStr (_complexity (dget0 candidate "complexity_assessment")));
   ("key_patterns", VStrs (strings_of (dget0 candidate "key_patterns") 10));
   ("detected_dependencies", VStrs (strings_of (py_or (dget0 candidate "detected_dependencies") (dget0 extraction_summary "detected_imports")) 50));
   ("risks", VStrs (strings_of (dget0 candidate "risks") 10)); ("risk_flags", VStrs (strings_of (dget0 candidate "risk_flags") 10));
   ("human_approval_recommended", VBool (truthy (dget_or candidate "human_approval_recommended" (VBool false))));
   ("recommended_approach", VStr (str_take 500 (get_text candidate "recommended_approach")));
   ("recommended_mission_type", VStr (str_upper (str_strip (py_str (py_or (dget0 candidate "recommended_mission_type")
                                                                      (py_or (VStr mission_type) (VStr "ANALYZE_ONLY")))))));
   ("extraction_summary", VDict extraction_summary)].

(** [provider] and [model] are those of the CEO's recommendation. *)
Definition generate_aim (provider model : string) (mission_id : string) (source_code : text) (prompt mission_type : string)
    (requested_target_language : option string) (feature_contract : dict) : phase dict :=
  let extraction_summary := _extract_all_languages source_code requested_target_language in
  let contract := _bounded_feature_contract feature_contract in
  safe ← call "check_user_input" [("text", VStr (prompt +:+ String "010"%char mission_type))];
  '(parsed, provider, model, route) ←
    (if negb (truthy safe) then tret (VNone, VStr provider, VStr model, VStr "blocked_injection")
     else answered ← call "_call_with_recommendation"
                       [("mission_type", VStr mission_type); ("prompt", VStr prompt); ("feature_contract", VDict contract);
                        ("extraction_summary", VDict extraction_summary)];
          pure (match answered with
                | VList [parsed; provider; model; route] => Ok (parsed, provider, model, route)
                | _ => Raise ValueError
                end));
  tret (_normalize_aim (as_dict parsed) mission_id mission_type requested_target_language extraction_summary contract
          (if is_dict parsed then "llm" else "fallback") route provider model).
End generate.
End extraction.

(** ** What the extraction counts *)

Fixpoint sum_of {A} (f : A -> Z) (l : list A) : Z :=
  match l with [] => 0 | x :: l' => f x + sum_of f l' end.

Definition total (counts : list (string * Z)) : Z := sum_of snd counts.

Lemma total_tally counts name n : total (tally counts name n) = total counts + n.
Proof.
  unfold tally, total. induction counts as [|[k v] counts IH]; cbn -[Z.add]; [lia|].
  destruct (String.eqb name k); cbn -[Z.add]; [|rewrite IH]; lia.
Qed.

Lemma total_tallies {A} (f : A -> string) (g : A -> Z) counts l :
  total (foldl (fun counts x => tally counts (f x) (g x)) counts l) = total counts + sum_of g l.
Proof. revert counts. induction l as [|x l IH]; intros counts; cbn [foldl sum_of]; [lia|]. rewrite IH, total_tally. lia. Qed.

Section counting.
Context (extract : string -> text -> result extraction) (sha256 : text -> string) (primary : option string).

(** The files that are analysed, with their languages. *)
Definition analyzable (file : text * text) : option (string * text) :=
  let language := _infer_language file.1 primary in
  if extractable language then Some (default "" language, file.2) else None.

(** The concepts that the extractor reports of a file; none when it fails. *)
Definition concepts_in (file : string * text) : Z :=
  match extract file.1 (take_chars MAX_FILE_CHARS file.2) with
  | Ok found => Z.of_nat (length (concept_domains found))
  | Raise _ => 0
  end.

Lemma extract_file_counts language content :
  concept_count (_extract_file extract language (take_chars MAX_FILE_CHARS content)) = concepts_in (language, content) /\
  total (domain_counts (_extract_file extract language (take_chars MAX_FILE_CHARS content))) = concepts_in (language, content).
Proof.
  unfold _extract_file, concepts_in. cbn [fst snd]. destruct (extract language _) as [found|]; [|done]. split; [done|].
  cbn [domain_counts]. rewrite (total_tallies (fun domain => str_or domain "generic") (fun _ => 1)).
  unfold total. cbn [sum_of]. induction (concept_domains found) as [|d l IH]; cbn [sum_of length]; lia.
Qed.

Lemma analyze_all inv files :
  let inv' := foldl (analyze extract sha256 primary) inv files in
  detected_languages inv' = detected_languages inv ++ (omap analyzable files).*1 /\
  concept_count (totals inv') = concept_count (totals inv) + sum_of concepts_in (omap analyzable files) /\
  total (domain_counts (totals inv')) = total (domain_counts (totals inv)) + sum_of concepts_in (omap analyzable files) /\
  length (List.filter (fun f => truthy (dget0 f "analyzed")) (analyzed_files inv')) =
    (length (List.filter (fun f => truthy (dget0 f "analyzed")) (analyzed_files inv)) + length (omap analyzable files))%nat /\
  length (analyzed_files inv') = (length (analyzed_files inv) + length files)%nat.
Proof.
  cbv zeta. revert inv. induction files as [|[path content] files IH]; intros inv.
  { cbn [foldl omap list_omap fmap list_fmap sum_of length]. rewrite app_nil_r. split_and!; [done|lia..]. }
  cbn [foldl]. destruct (IH (analyze extract sha256 primary inv (path, content))) as (-> & -> & -> & -> & ->). clear IH.
  change (omap analyzable ((path, content) :: files)) with
    (match analyzable (path, content) with Some x => x :: omap analyzable files | None => omap analyzable files end).
  assert (analyzable (path, content) = let language := _infer_language path primary in
    if extractable language then Some (default "" language, content) else None) as -> by done.
  unfold analyze. cbv zeta. set (language := _infer_language path primary). clearbody language.
  assert (forall b, truthy (dget0 (manifest_entry sha256 path language content b) "analyzed") = b) as Hb by done.
  destruct (extractable language); cbn [detected_languages totals analyzed_files concept_count domain_counts add_counts fmap list_fmap sum_of length];
    rewrite List.filter_app, !length_app; cbn [List.filter]; rewrite Hb; cbn [length].
  - destruct (extract_file_counts (default "" language) content) as [Hc Ht]. rewrite (total_tallies fst snd), Hc.
    fold (total (domain_counts (_extract_file extract (default "" language) (take_chars MAX_FILE_CHARS content)))). rewrite Ht.
    rewrite <- app_assoc. split_and!; [done|lia..].
  - split_and!; [done|lia..].
Qed.
End counting.

(** A summary covers the first hundred files of the bundle: it counts those whose
    language is known to an extractor, lists exactly their languages, and its domain
    distribution accounts for every concept that the extractors report. *)
Lemma extraction_counts_exact (extract : string -> text -> result extraction) (sha256 : text -> string)
    (source_code : text) (primary : option string) :
  let summary := _extract_all_languages extract sha256 source_code primary in
  let analyzed := omap (analyzable primary) (take MAX_AIM_FILES (_parse_source_bundle (take_chars MAX_SOURCE_CHARS source_code))) in
  dget0 summary "files_analyzed" = VInt (Z.of_nat (length analyzed)) /\
  (forall language, VStr language ∈ default [] (as_list (dget0 summary "detected_languages")) <-> language ∈ analyzed.*1) /\
  dget0 summary "total_concepts" = VInt (sum_of (concepts_in extract) analyzed) /\
  exists counts, dget0 summary "domain_counts" = VDict ((fun p => (p.1, VInt p.2)) <$> counts) /\
    total counts = sum_of (concepts_in extract) analyzed.
Proof.
  cbv zeta. unfold _extract_all_languages. cbv zeta. set (files := take MAX_AIM_FILES _).
  pose proof (analyze_all extract sha256 primary no_inventory files) as H. cbv zeta in H.
  set (inv := foldl _ _ files) in *. clearbody inv files. destruct H as (Hl & Hc & Ht & Hf & _). cbn in Hl, Hc, Ht, Hf.
  split_and!.
  - change (VInt (Z.of_nat (length (List.filter (fun f => truthy (dget0 f "analyzed")) (analyzed_files inv)))) = VInt (Z.of_nat (length (omap (analyzable primary) files)))). by rewrite Hf.
  - intros language. change (VStr language ∈ VStr <$> sorted_strings (detected_languages inv) <-> language ∈ (omap (analyzable primary) files).*1).
    rewrite <- Hl, <- sorted_strings_elem, list_elem_of_fmap. split; [|by eauto]. intros (y & [= ->] & Hy). exact Hy.
  - change (VInt (concept_count (totals inv)) = VInt (sum_of (concepts_in extract) (omap (analyzable primary) files))). by rewrite Hc.
  - exists (domain_counts (totals inv)). split; [reflexivity|]. exact Ht.
Qed.
