(* ===== verification/Port.v ===== *)
(** * Port

    The two phases of a port ([O/port_coordinator.py]): the detection of the source
    language, the metadata that CEO delegation sets up, and the extraction pass, whose map
    is that of Aim.  Language models are calls to the outside. *)

From S2P Require Import Prelude PyVal Agents MissionStates MissionFlow Store Tasks Routes Reports Regex Bundles Phase Aim.

(** ** The source language *)

(** [^## FILE .+?(\.[a-zA-Z0-9]+)$]: before, in and after the group.  The group reaches
    from the last dot of the line to its end, so a greedy prefix finds the same. *)
Definition file_extensions (source : text) : list (text * position) :=
  find_groups (Cat line_start (Cat (lit "## FILE ") (plus (Chr (fun c => negb (is_nl c))))))
    (Cat (Chr (Ascii.eqb "."%char)) (plus (Chr is_alnum))) line_end source.

Definition source_languages (source : text) : list string :=
  omap (fun m => dget _LANGUAGE_BY_SUFFIX (str_lower (unchars m.1))) (file_extensions source).

Definition count_languages (languages : list string) : list (string * Z) :=
  foldl (fun counts language => tally counts language 1) [] languages.

(** [max(d, key=lambda k: d[k])]: the first key with the greatest value. *)
Fixpoint max_key (best : string * Z) (d : list (string * Z)) : string :=
  match d with
  | [] => best.1
  | p :: d' => max_key (if best.2 <? p.2 then p else best) d'
  end.

Definition prompt_hints : list string :=
  ["python"; "javascript"; "typescript"; "rust"; "go"; "cpp"; "c"; "java"; "csharp"; "kotlin"; "scala"; "ruby"; "php"; "zig";
   "haskell"; "ocaml"; "julia"; "r"; "matlab"].

Definition hinted_language (prompt : string) : string :=
  default "python" (List.find (fun language => str_contains language (str_lower prompt)) prompt_hints).

Definition _detect_source_language_from_bundle (source_code : val) (prompt : string) : string :=
  match source_code with
  | VStr source =>
      if String.eqb (str_strip source) "" then hinted_language prompt
      else match count_languages (source_languages (chars source)) with
           | [] => hinted_language prompt
           | first :: rest => max_key first rest
           end
  | _ => hinted_language prompt
  end.

(** ** Set-up *)

(** [str(cluster.get(key) or '').strip()] *)
Definition stripped (d : dict) (key : string) : string := str_strip (get_text d key).

(** The agents of the first cluster whose domain speaks of extraction. *)
Fixpoint cluster_agents (clusters : list val) (agents : string * string) : string * string :=
  match clusters with
  | [] => agents
  | VDict cluster :: rest =>
      if str_contains "extraction" (str_lower (get_text cluster "domain")) then
        (str_or (stripped cluster "pod_manager_agent_id") agents.1, str_or (stripped cluster "specialist_agent_id") agents.2)
      else cluster_agents rest agents
  | _ :: rest => cluster_agents rest agents
  end.

Definition port_agents (language : string) : string * string :=
  (default "AGENT-12-PODA-MGR" (dget port_POD_MANAGER_BY_LANGUAGE language),
   default "AGENT-14-PYTHON" (dget port_SPECIALIST_BY_LANGUAGE language)).

Definition _setup_port_two_phase (metadata : dict) (mission : MissionRecord) (clusters : val) : dict :=
  let source_language := _detect_source_language_from_bundle (dget0 metadata "source_code") (ms_prompt mission) in
  let target_language := str_lower (str_strip (py_str (py_or (str_or_none (ms_language mission))
                                                         (py_or (dget0 metadata "port_target_language") (VStr "python"))))) in
  let agents := match clusters with
                | VList l => cluster_agents l (port_agents source_language)
                | _ => port_agents source_language
                end in
  let metadata := dset metadata "port_source_language" (VStr source_language) in
  let metadata := dset metadata "port_target_language" (VStr target_language) in
  let metadata := dset metadata "port_phase" (VStr "extraction") in
  let metadata := dset metadata "port_source_pod_manager_agent_id" (VStr agents.1) in
  dset metadata "port_source_specialist_agent_id" (VStr agents.2).

(** ** The extraction pass *)

Section extraction.
Context (extract : string -> text -> result extraction) (sha256 : text -> string) (provider model now : string) (half : val).

(** [half] is the number 0.5. *)
Definition source_node (source_language : string) (node : dict) : val :=
  VDict [("domain", dget_or node "domain" (VStr "general")); ("concept", dget_or node "concept" (VStr ""));
         ("intent", dget_or node "intent" (VStr "")); ("confidence", dget_or node "confidence" half);
         ("source_language", VStr source_language); ("extraction_method", dget_or node "extraction_method" (VStr "aim"))].

Definition file_nodes (source_language : string) (file_entry : val) : result (list val) :=
  match file_entry with
  | VDict entry =>
      match py_or (dget0 entry "extracted_concepts") (VList []) with
      | VList nodes => Ok (source_node source_language <$> omap as_dict (take 10 nodes))
      | VStr _ => Ok []
      | _ => Raise TypeError
      end
  | _ => Ok []
  end.

Definition source_logicnodes (source_language : string) (files : val) : result (list val) :=
  match files with VList l => (fun nodes => concat nodes) <$> mapM (file_nodes source_language) (take 20 l) | _ => Ok [] end.

Definition failed_aim : dict := [("source", VStr "error"); ("files", VList [])].

Definition port_aim (mission : MissionRecord) (metadata : dict) (source_language : string) : phase dict :=
  match dget0 metadata "source_code" with
  | VStr source_code =>
      if String.eqb (str_strip source_code) "" then tret []
      else try_or (contract ← pure (match py_or (dget0 metadata "feature_contract") (VDict []) with
                                    | VDict d => Ok d
                                    | _ => Raise AttributeError
                                    end);
                   generate_aim extract sha256 now provider model (ms_mission_id mission) (chars source_code) (ms_prompt mission)
                     "PORT" (Some source_language) contract) failed_aim
  | _ => tret []
  end.

Definition port_plan (mission : MissionRecord) (source_language specialist pod_manager : string) : phase val :=
  try_or (call "generate_specialist_plan"
            [("mission_context",
               VDict [("mission_id", VStr (ms_mission_id mission)); ("prompt", VStr (ms_prompt mission));
                      ("requested_target_language", VStr source_language); ("mission_type", VStr "PORT");
                      ("source", VStr "port_extraction"); ("port_source_language", VStr source_language)]);
             ("requested_target_language", VStr source_language); ("specialist_agent_id", VStr specialist);
             ("pod_manager_agent_id", VStr pod_manager)])
         (VDict [("source", VStr "fallback")]).

Definition aim_degraded (aim : dict) : bool :=
  match dget0 aim "source" with VStr s => str_in s ["error"; "fallback"] | _ => false end.

(** The mission's metadata with its event, and the fields to be merged into it. *)
Definition run_port_extraction_phase (mission : MissionRecord) (metadata : dict) : phase (dict * dict) :=
  let source_language := py_str (py_or (dget0 metadata "port_source_language") (VStr "python")) in
  let agents := port_agents source_language in
  let specialist := py_str (py_or (dget0 metadata "port_source_specialist_agent_id") (VStr agents.2)) in
  let pod_manager := py_str (py_or (dget0 metadata "port_source_pod_manager_agent_id") (VStr agents.1)) in
  source_aim ← port_aim mission metadata source_language;
  source_plan ← port_plan mission source_language specialist pod_manager;
  let files := dget0 source_aim "files" in
  nodes ← pure (source_logicnodes source_language files);
  let metadata := append_chain_event metadata "MISSION_PORT_EXTRACTION_COMPLETE" specialist
    (Some [("source_language", VStr source_language); ("logicnode_count", VInt (Z.of_nat (length nodes)));
           ("aim_file_count", VInt (match files with VList l => Z.of_nat (length l) | _ => 0 end));
           ("source", dget_or source_aim "source" (VStr "unknown"))]) None now in
  degraded ← pure (if aim_degraded source_aim then Ok true
                   else match source_plan with
                        | VDict plan => Ok (bool_decide (dget0 plan "source" = VStr "fallback"))
                        | _ => Raise AttributeError
                        end);
  tret (metadata, [("port_source_logicnodes", VList nodes); ("port_source_aim", VDict source_aim); ("port_source_plan", source_plan);
                   ("port_phase", VStr "generation"); ("extraction_degraded", VBool degraded)]).
End extraction.


(** ** Detection *)

Lemma max_key_spec best d : exists m, (max_key best d, m) ∈ best :: d /\ forall p, p ∈ best :: d -> p.2 <= m.
Proof.
  revert best. induction d as [|p d IH]; intros [k n]; cbn [max_key fst].
  - exists n. split; [by left|]. intros q ->%list_elem_of_singleton. done.
  - destruct (IH (if n <? p.2 then p else (k, n))) as (m & Hin & Hmax). cbn [snd].
    pose proof (Hmax _ (list_elem_of_here _ _)) as Hb. destruct (Z.ltb_spec n p.2) as [Hlt|Hge]; cbn [snd] in Hb.
    + exists m. split; [by right|]. intros q [->|Hq]%elem_of_cons; [cbn; lia|by apply Hmax].
    + exists m. split; [apply elem_of_cons in Hin as [Hin|Hin]; [rewrite Hin; by left|by do 2 right]|].
      intros q [->|[->|Hq]%elem_of_cons]%elem_of_cons; [done|cbn in *; lia|]. apply Hmax. by right.
Qed.

(** How many names of files in the source are of the language. *)
Definition occurrences (language : string) (languages : list string) : Z :=
  Z.of_nat (length (List.filter (String.eqb language) languages)).

Lemma tally_get counts name n k :
  default 0 (dget (tally counts name n) k) = default 0 (dget counts k) + (if String.eqb k name then n else 0).
Proof.
  unfold tally. destruct (String.eqb_spec k name) as [->|Hne]; [by rewrite dget_dset_eq|].
  rewrite dget_dset_ne by congruence. lia.
Qed.

Lemma count_languages_get languages k : default 0 (dget (count_languages languages) k) = occurrences k languages.
Proof.
  unfold count_languages, occurrences. change 0 with (default 0 (dget ([] : list (string * Z)) k)) at 1.
  enough (forall counts, default 0 (dget (foldl (fun counts language => tally counts language 1) counts languages) k) =
    default 0 (dget counts k) + Z.of_nat (length (List.filter (String.eqb k) languages))) as H by (rewrite H; cbn; lia).
  induction languages as [|l languages IH]; intros counts; cbn [foldl List.filter]; [cbn; lia|].
  rewrite IH, tally_get. destruct (String.eqb k l); cbn [length]; lia.
Qed.

Lemma count_languages_wf languages : dict_wf (count_languages languages).
Proof.
  unfold count_languages. enough (forall counts, dict_wf counts -> dict_wf (foldl (fun counts language => tally counts language 1) counts languages))
    as H by (apply H; constructor).
  induction languages as [|l languages IH]; intros counts Hc; cbn; [done|]. apply IH. by apply dset_wf.
Qed.

Lemma count_languages_nil languages : count_languages languages = [] -> languages = [].
Proof.
  destruct languages as [|l languages]; [done|]. intros H. pose proof (count_languages_get (l :: languages) l) as Hc.
  rewrite H in Hc. unfold occurrences in Hc. cbn in Hc. rewrite String.eqb_refl in Hc. cbn in Hc. lia.
Qed.

Lemma dget_elem {A} (d : list (string * A)) k v : dict_wf d -> (k, v) ∈ d -> dget d k = Some v.
Proof.
  unfold dict_wf. induction d as [|[k' v'] d IH]; cbn; [by intros _ ?%elem_of_nil|]. rewrite NoDup_cons, elem_of_cons.
  intros [Hk Hd] [[= -> ->]|Hin]; [by rewrite String.eqb_refl|]. destruct (String.eqb_spec k k') as [->|]; [|by apply IH].
  destruct Hk. apply list_elem_of_fmap. by exists (k', v).
Qed.

(** The source language of a port whose source names files of known kinds is one of
    theirs, and no language has more files. *)
Lemma source_language_by_majority (source prompt : string) (H : source_languages (chars source) <> [])
    (Hs : str_strip source <> "") :
  let language := _detect_source_language_from_bundle (VStr source) prompt in
  language ∈ source_languages (chars source) /\
  forall other, occurrences other (source_languages (chars source)) <= occurrences language (source_languages (chars source)).
Proof.
  cbv zeta. unfold _detect_source_language_from_bundle. apply String.eqb_neq in Hs as ->.
  set (languages := source_languages (chars source)) in *. clearbody languages.
  destruct (count_languages languages) as [|first rest] eqn:Ec; [by apply count_languages_nil in Ec|].
  destruct (max_key_spec first rest) as (m & Hin & Hmax). rewrite <- Ec in Hin, Hmax.
  apply dget_elem in Hin as Hm; [|apply count_languages_wf].
  pose proof (count_languages_get languages (max_key first rest)) as Hk. rewrite Hm in Hk. cbn in Hk.
  assert (forall k, occurrences k languages <= m) as Hall.
  { intros k. rewrite <- count_languages_get. destruct (dget (count_languages languages) k) as [n|] eqn:En; cbn.
    - apply dget_In in En. by apply (Hmax (k, n)).
    - rewrite Hk. unfold occurrences. lia. }
  split; [|intros other; rewrite <- Hk; apply Hall].
  destruct languages as [|l languages]; [done|]. specialize (Hall l). unfold occurrences in Hall at 1. cbn in Hall.
  rewrite String.eqb_refl in Hall. cbn [length] in Hall. rewrite Hk in Hall. unfold occurrences in Hall.
  destruct (List.filter (String.eqb (max_key first rest)) (l :: languages)) as [|x xs] eqn:Ef; cbn in Hall; [lia|].
  assert (x ∈ List.filter (String.eqb (max_key first rest)) (l :: languages)) as Hx by (rewrite Ef; by left).
  apply list_elem_of_In, List.filter_In in Hx as [Hx ->%String.eqb_eq]. by apply list_elem_of_In.
Qed.

Definition demo_port : string :=
  "## FILE a.py" +:+ String "010"%char ("## FILE b/c.rs" +:+ String "010"%char "## FILE d.rs").

Lemma source_language_by_majority_witness :
  let language := _detect_source_language_from_bundle (VStr demo_port) "to c" in
  language = "rust" /\ language ∈ source_languages (chars demo_port) /\
  forall other, occurrences other (source_languages (chars demo_port)) <= occurrences language (source_languages (chars demo_port)).
Proof. cbv zeta. split; [by_compute|]. apply source_language_by_majority; by vm_compute. Defined.

(** Without such files, a prompt with the letter c in it speaks of C, unless it names one
    of the six languages asked for before. *)
Lemma hinted_by_a_letter prompt :
  forallb (fun language => negb (str_contains language (str_lower prompt))) (take 6 prompt_hints) = true ->
  str_contains "c" (str_lower prompt) = true -> hinted_language prompt = "c".
Proof.
  unfold hinted_language, prompt_hints. cbn [take forallb List.find]. intros H Hc.
  repeat (apply andb_true_iff in H as [->%negb_true_iff H]). by rewrite Hc.
Qed.

(** ** What the extraction pass hands on *)

Lemma yields_try {A} (Q : A -> Prop) (t : phase A) fallback : yields Q t -> Q fallback -> yields Q (try_or t fallback).
Proof. intros Ht HQ. unfold try_or. apply yields_catch; [done|]. by intros. Qed.

(** The fields of an extraction pass. *)
Definition port_fields (aim : dict) (plan : val) (degraded : bool) : dict :=
  [("port_source_logicnodes", VList []); ("port_source_aim", VDict aim); ("port_source_plan", plan); ("port_phase", VStr "generation");
   ("extraction_degraded", VBool degraded)].

Lemma port_aim_unread extract sha256 provider model now half mission metadata language :
  yields (fun aim => source_logicnodes half language (dget0 aim "files") = Ok []) (port_aim extract sha256 provider model now mission metadata language).
Proof.
  unfold port_aim. destruct (dget0 metadata "source_code") as [| | |source| |]; try done. case_match; [done|].
  apply yields_try; [|done]. eapply yields_mbind; [apply yields_true|]. intros contract _.
  unfold generate_aim. eapply yields_mbind; [apply yields_true|]. intros safe _.
  eapply yields_mbind; [apply yields_true|]. by intros [[[parsed p] m] route] _.
Qed.

Lemma port_yields extract sha256 provider model now half mission metadata :
  yields (fun x => (exists aim plan degraded, x.2 = port_fields aim plan degraded) /\
                   forall k, str_in k chain_keys = false -> dget0 x.1 k = dget0 metadata k)
    (run_port_extraction_phase extract sha256 provider model now half mission metadata).
Proof.
  unfold run_port_extraction_phase. cbv zeta. eapply yields_mbind; [by apply (port_aim_unread _ _ _ _ _ half)|].
  intros aim Haim. eapply yields_mbind; [apply yields_true|]. intros plan _. rewrite Haim.
  eapply (yields_mbind (fun nodes => nodes = [])); [done|]. intros nodes ->. eapply yields_mbind; [apply yields_true|]. intros degraded _.
  split; [by do 3 eexists|]. intros k Hk. by apply append_keeps.
Qed.

(** Whatever the models answer, the extraction pass of a port finds no LogicNodes: the map
    of the source has no entry of the name it reads. *)
Lemma port_extracts_nothing extract sha256 provider model now half outside mission metadata db out fields db' log :
  run_phase outside (run_port_extraction_phase extract sha256 provider model now half mission metadata) db = (inr (out, fields), db', log) ->
  dget fields "port_source_logicnodes" = Some (VList []).
Proof.
  intros H. destruct (run_phase_yields _ _ _ _ _ _ _ (port_yields extract sha256 provider model now half mission metadata) H)
    as [(aim & plan & degraded & Hf) _]. cbn [snd] in Hf. by rewrite Hf.
Qed.

Definition port_mission : MissionRecord :=
  mkMission "m1" "port it" (Some "rust") None None None None
    [("mission_type", VStr "PORT"); ("source_code", VStr "## FILE sort.py"); ("port_source_language", VStr "python")] None None
    specialist_assigned "t0".

(** An extractor that finds a sorting algorithm, and a model that answers. *)
Definition found_sorting (_ : string) (_ : text) : result extraction := Ok (mkExtraction 1 0 ["sorting"] []).
Definition willing (log : asked) (callee : string) (arguments : dict) : phase_reply :=
  if String.eqb callee "_call_with_recommendation" then Returned (VList [VDict [("files", VList [VDict [("extracted_concepts", VList [VDict []])]])]; VStr "p"; VStr "m"; VStr "r"])
  else Returned (VDict [("source", VStr "llm")]).

Lemma port_extracts_nothing_witness :
  exists out fields db' log,
    run_phase willing (run_port_extraction_phase found_sorting (fun _ => "h") "p" "m" "t" (VStr "0.5") port_mission (ms_metadata port_mission))
      empty_db = (inr (out, fields), db', log) /\
    dget0 (dict_value (dget0 fields "port_source_aim")) "total_concepts" = VInt 1 /\
    dget fields "port_source_logicnodes" = Some (VList []).
Proof.
  do 4 eexists. split; [by_compute|]. split; [by_compute|].
  eapply (port_extracts_nothing found_sorting (fun _ => "h") "p" "m" "t" (VStr "0.5") willing port_mission (ms_metadata port_mission) empty_db).
  by_compute.
Defined.
