(* ===== verification/Intake.v ===== *)
(** * Intake

    The intake phases of the v2 driver ([O/mission_flow_v2/phases_intake.py]): the PM
    intake with its clarification hold, the fetch phase, and CEO delegation.  Scores are
    counted in hundredths.  Language models, the approved statements of work, the knowledge lake and
    audit events are calls to the outside; a mission read from the store has no
    attachments. *)

From S2P Require Import Prelude PyVal Agents MissionStates MissionFlow Store Tasks Lifecycle Routes Reports Phase.
From S2P Require Import Bundles Questions Partitions Delivery Gates Charter Aim Port.

(** ** Scores *)

(** [score >= 0.7] *)
Definition at_threshold (score : val) : result bool :=
  match score with VInt z => Ok (70 <=? z) | VBool b => Ok b | _ => Raise TypeError end.

(** [isinstance(score, (int, float)) and score >= 0.7] *)
Definition scored_high (score : val) : bool := match at_threshold score with Ok b => b | Raise _ => false end.

(** ** Writing metadata *)

(** The record, and the event logged with it when one is named. *)
Definition _persist_metadata (mission_id : string) (metadata : dict) (event : option (string * MissionState)) : phase (option MissionRecord) :=
  record ← storage (UpdateMetadata mission_id metadata);
  _ ← match record, event with
      | Some _, Some (event_type, state) => storage (LogEvent mission_id (Some state) state event_type)
      | _, _ => tret None
      end;
  tret record.

(** [await _persist_metadata(..) is not None] *)
Definition persisted (mission_id : string) (metadata : dict) (event : option (string * MissionState)) : phase bool :=
  record ← _persist_metadata mission_id metadata event;
  tret (bool_decide (is_Some record)).

Definition REPO_CONTEXT_MAX_CHARS : nat := Z.to_nat 6000.
Definition _MAX_REPO_CHUNK_RECORDS : nat := 20.

(** The texts of the records: manifest, summary and chunks. *)
Record repo_texts := mkTexts { manifest_text : option string; summary_text : option string; chunk_texts : list string }.

Definition add_record (acc : repo_texts) (record : val) : repo_texts :=
  match as_dict record ≫= fun r => as_dict (dget0 r "content") with
  | Some content =>
      let kind := get_text content "kind" in
      let text := str_strip (get_text content "combined_text") in
      if String.eqb text "" then acc
      else if String.eqb kind "repo_manifest" && negb (bool_decide (is_Some (manifest_text acc))) then
        mkTexts (Some text) (summary_text acc) (chunk_texts acc)
      else if String.eqb kind "repo_summary" && negb (bool_decide (is_Some (summary_text acc))) then
        mkTexts (manifest_text acc) (Some text) (chunk_texts acc)
      else if String.eqb kind "repo_source_chunk" && (length (chunk_texts acc) <? _MAX_REPO_CHUNK_RECORDS)%nat then
        let path := dget0 content "path" in
        mkTexts (manifest_text acc) (summary_text acc)
          (chunk_texts acc ++ [if truthy path then "# " +:+ py_str path +:+ String "010"%char text else text])
      else acc
  | None => acc
  end.

Definition blank_line : string := String "010"%char (String "010"%char "").

Definition bounded_context (merged : string) : string :=
  if (REPO_CONTEXT_MAX_CHARS <? String.length merged)%nat
  then str_take REPO_CONTEXT_MAX_CHARS merged +:+ String "010"%char "...[truncated]" else merged.

Definition repo_context_of (records : list val) : option string :=
  let texts := foldl add_record (mkTexts None None []) records in
  match omap id [manifest_text texts; summary_text texts] ++ chunk_texts texts with
  | [] => None
  | parts => Some (bounded_context (str_join blank_line parts))
  end.

Definition load_repo_context (mission_id : string) : phase (option string) :=
  found ← try_or (v ← call "list_knowledge" [("mission_id", VStr mission_id); ("limit", VInt 200)]; tret (Some v)) None;
  match found with
  | None => tret None
  | Some v => records ← pure (py_iter v); tret (repo_context_of records)
  end.

Section intake.
Context (settings : dict) (now charter_uuid : string).
Context (extract : string -> text -> result extraction) (sha256 : text -> string) (provider model : string).

(** [if not _chain_event_exists(..): append_chain_event(.., details=..)] *)
Definition append_with (metadata : dict) (event_type agent_id : string) (details : result dict) : result dict :=
  if _chain_event_exists metadata event_type then Ok metadata
  else details ← details; Ok (append_chain_event metadata event_type agent_id (Some details) None now).

(** ** The repository guard *)

Definition index_required (metadata : dict) : option dict :=
  match dget0 metadata "repo_import" with
  | VDict d => if truthy (dget0 d "index_required") then Some d else None
  | _ => None
  end.

Definition index_pending (metadata : dict) : option dict :=
  match index_required metadata with
  | Some d => if String.eqb (str_lower (str_strip (py_str (py_or (dget0 d "index_status") (VStr "pending"))))) "complete" then None else Some d
  | None => None
  end.

(** ** The feature contract *)

Definition finalizes (metadata : dict) : bool := String.eqb (str_lower (str_strip (get_text metadata "user_intent"))) "finalize_plan".

Definition mode_of (metadata : dict) (key fallback : string) : string :=
  str_upper (str_strip (py_str (py_or (dget0 metadata key) (VStr fallback)))).

Definition conversation (metadata : dict) (repository_context : option string) : dict :=
  let context := dict_value (dget0 metadata "conversation_context") in
  let clarification := str_strip (get_text metadata "pm_clarification") in
  let context := if String.eqb clarification "" then context else dset context "operator_clarification" (VStr clarification) in
  match repository_context with
  | Some text => if String.eqb text "" then context else dset context "repository_context" (VStr text)
  | None => context
  end.

Definition pm_arguments (mission : MissionRecord) (metadata context : dict) : dict :=
  [("prompt", VStr (ms_prompt mission)); ("mission_type", VStr (mode_of metadata "mission_type" "BUILD_NEW"));
   ("depth_mode", VStr (mode_of metadata "depth_mode" "STANDARD")); ("output_mode", VStr (mode_of metadata "output_mode" "FULL_BUILD"));
   ("requested_target_language", str_or_none (ms_language mission)); ("attachments", VList []); ("global_style_directives", VList []);
   ("conversation_context", VDict context)].

Definition generate_pm_feature_contract (arguments : dict) : phase dict :=
  v ← call "generate_pm_feature_contract" arguments; pure (expect_dict v).

Definition source_text (metadata : dict) : val :=
  match dget0 metadata "source_code" with
  | VStr s => if String.eqb (str_strip s) "" then VNone else VStr s
  | _ => VNone
  end.

(** The contract of an approved statement of work. *)
Definition approved_contract (contract : dict) : result dict :=
  assumptions ← py_iter (py_or (dget0 contract "assumptions") (VList []));
  let contract := dset contract "assumptions"
    (VStrs (List.filter (fun s => negb (String.eqb s "")) ((fun item => str_strip (py_str item)) <$> assumptions))) in
  let prior_score := dget_or contract "ambiguity_score" (VInt 0) in
  Ok (if scored_high prior_score then
        dset (dset (dset contract "prior_ambiguity_score" prior_score) "ambiguity_score" (VInt 0)) "intake_status" (VStr "ready")
      else contract).

Definition sow_of (metadata : dict) : string := str_strip (get_text metadata "sow_id").

Definition approved_sow (metadata : dict) : phase val :=
  if String.eqb (sow_of metadata) "" then tret VNone else call "load_approved_sow" [("sow_id", VStr (sow_of metadata))].

(** The metadata, and the contract: approved, or proposed by the model. *)
Definition first_contract (mission : MissionRecord) (metadata context : dict) : phase (dict * dict) :=
  sow ← approved_sow metadata;
  match as_dict sow ≫= fun s => contract ← as_dict (dget0 s "feature_contract"); Some (s, contract) with
  | Some (s, contract) =>
      contract ← pure (approved_contract contract);
      tret (dset (dset metadata "approved_sow_id" (VStr (sow_of metadata))) "approved_sow_digest" (dget0 s "digest"), contract)
  | None =>
      let user_intent := str_strip (get_text metadata "user_intent") in
      contract ← generate_pm_feature_contract
        (pm_arguments mission metadata context ++
         [("source_code", source_text metadata); ("user_intent", py_or (VStr user_intent) VNone)]);
      tret (metadata, contract)
  end.

Definition score_of (contract : dict) : val := dget_or contract "ambiguity_score" (VInt 0).

Definition auto_accept : bool := _setting_bool (dget_or settings "pm_auto_accept_defaults_enabled" (VBool true)) true.

Definition accepted_defaults (questions : list val) (score : val) (reason : string) : val :=
  VDict [("questions", VStrs (py_str <$> questions)); ("ambiguity_score", score); ("applied_at", VStr now); ("reason", VStr reason)].

Definition questions_of (contract : dict) : val := py_or (dget0 contract "clarifying_questions") (VList []).

(** Whether the defaults are taken and the model is asked to finalize. *)
Definition accepts_defaults (metadata contract : dict) : result bool :=
  if negb (String.eqb (sow_of metadata) "") then Ok false
  else
    high ← at_threshold (score_of contract);
    Ok (high && auto_accept && match questions_of contract with VList (_ :: _) => true | _ => false end && negb (finalizes metadata)).

Definition finalized (metadata contract : dict) : dict :=
  let questions := default [] (as_list (questions_of contract)) in
  let metadata := dset metadata "pm_auto_accepted_defaults"
    (accepted_defaults questions (score_of contract) "clarifying questions carried recommended defaults") in
  let metadata := dset metadata "user_intent" (VStr "finalize_plan") in
  append_chain_event metadata "MISSION_CLARIFICATION_APPLIED" PM_AGENT_ID
    (Some [("auto_accepted", VBool true); ("question_count", VInt (Z.of_nat (length questions)));
           ("prior_ambiguity_score", score_of contract)]) None now.

Definition accept_defaults (mission : MissionRecord) (metadata context contract : dict) : phase (dict * dict) :=
  go ← pure (accepts_defaults metadata contract);
  if go : bool then
    contract' ← generate_pm_feature_contract (pm_arguments mission metadata context ++ [("user_intent", VStr "finalize_plan")]);
    tret (finalized metadata contract, contract')
  else tret (metadata, contract).

(** The circuit breaker: metadata, contract, the count of holds, and whether the contract is still ambiguous. *)
Definition break_circuit (metadata contract : dict) : result (dict * dict * Z * bool) :=
  loop_count ← py_int (py_or (dget0 metadata "clarification_loop_count") (VInt 0));
  let remaining := questions_of contract in
  high ← at_threshold (score_of contract);
  Ok (if high && auto_accept && match remaining with VList l => forallb has_default l | _ => false end &&
         ((2 <=? loop_count) || finalizes metadata)
      then (dset metadata "pm_auto_accepted_defaults"
              (accepted_defaults (default [] (as_list remaining)) (score_of contract)
                 "circuit breaker: finalize intent or repeated clarification"),
            dset (dset (dset contract "prior_ambiguity_score" (score_of contract)) "ambiguity_score" (VInt 0)) "intake_status" (VStr "ready"),
            loop_count, false)
      else (metadata, contract, loop_count, high)).

(** ** The hold *)

Definition hold (mission_id : string) (metadata contract : dict) (loop_count : Z) : phase bool :=
  let metadata := dset metadata "last_ambiguity_score" (score_of contract) in
  let metadata := dset metadata "clarification_loop_count" (VInt (loop_count + 1)) in
  let metadata := dset metadata "clarifying_questions" (dget0 contract "clarifying_questions") in
  _ ← storage (UpdateMetadata mission_id metadata);
  _ ← storage (Transition mission_id (Some queued) clarifying "MISSION_CLARIFYING");
  tret false.

(** ** The records of the intake *)

Definition intake_source (metadata : dict) : val := dget_or metadata "source" (VStr "mission-flow-v2").

(** [len(d.get(key, []))] *)
Definition count_of (d : dict) (key : string) : result val := VInt <$> py_len (dget_or d key (VList [])).

Definition intake_records (metadata contract charter : dict) : result dict :=
  let metadata := dset metadata "feature_contract" (VDict contract) in
  let metadata := dset metadata "mission_charter" (VDict charter) in
  let metadata := dset metadata "risk_assessment" (dget0 contract "risk_assessment") in
  let metadata := append_once now metadata "MISSION_PM_INTAKE" PM_AGENT_ID
    [("source", intake_source metadata); ("feature_contract_source", dget0 contract "source"); ("title", dget0 contract "title")] in
  metadata ← append_with metadata "FEATURE_CONTRACT_CREATED" PM_AGENT_ID
    (requirements ← count_of contract "functional_requirements";
     criteria ← count_of contract "acceptance_criteria";
     Ok [("source", dget0 contract "source"); ("requirement_count", requirements); ("acceptance_criteria_count", criteria);
         ("human_approval_required", dget0 contract "human_approval_required")]);
  Ok (_record_artifact now metadata "pm_intake" "MISSION_PM_INTAKE" PM_AGENT_ID
        [("source", intake_source metadata); ("feature_contract_source", dget0 contract "source");
         ("mission_charter_id", dget0 charter "charter_id")]).

Definition aim_records (metadata aim : dict) : dict :=
  let analyzed := dget_or (dict_value (dget0 aim "extraction_summary")) "files_analyzed" (VInt 0) in
  let metadata := dset metadata "application_intelligence_map" (VDict aim) in
  let metadata := append_once now metadata "MISSION_AIM_GENERATED" CEO_AGENT_ID
    [("aim_id", dget0 aim "aim_id"); ("primary_language", dget0 aim "primary_language");
     ("detected_languages", dget_or aim "detected_languages" (VList [])); ("files_analyzed", analyzed);
     ("total_functions", dget_or aim "total_functions" (VInt 0)); ("total_classes", dget_or aim "total_classes" (VInt 0));
     ("complexity", dget0 aim "complexity_assessment");
     ("human_approval_recommended", dget_or aim "human_approval_recommended" (VBool false)); ("source", dget0 aim "source")] in
  _record_artifact now metadata "aim" "MISSION_AIM_GENERATED" CEO_AGENT_ID
    ((fun key => (key, dget0 aim key)) <$> ["aim_id"; "schema_version"; "source"; "model_provider"; "model"]).

(** The map of a mission that comes with source. *)
Definition intake_aim (mission_id : string) (mission : MissionRecord) (metadata contract : dict) : phase dict :=
  let mission_type := mode_of metadata "mission_type" "BUILD_NEW" in
  match dget0 metadata "source_code" with
  | VStr source_code =>
      if mission_requires_aim mission_type then
        aim ← generate_aim extract sha256 now provider model mission_id (chars source_code) (ms_prompt mission)
                mission_type (ms_language mission) contract;
        let metadata := aim_records metadata aim in
        _ ← record_audit_event mission_id CEO_AGENT_ID "MISSION_AIM_GENERATED" "application_intelligence_map"
              (py_str (py_or (dget0 aim "aim_id") (VStr "application_intelligence_map")))
              [("source", dget0 aim "source"); ("primary_language", dget0 aim "primary_language");
               ("files_analyzed", dget_or (dict_value (dget0 aim "extraction_summary")) "files_analyzed" (VInt 0));
               ("human_approval_recommended", dget_or aim "human_approval_recommended" (VBool false))];
        tret metadata
      else tret metadata
  | _ => tret metadata
  end.

(** The intake of a mission whose contract is clear enough. *)
Definition accept_contract (mission_id : string) (mission : MissionRecord) (metadata contract : dict) : phase bool :=
  charter ← pure (build_mission_charter charter_uuid now mission_id (ms_prompt mission) (ms_language mission) contract
                    (mode_of metadata "mission_type" "BUILD_NEW") (mode_of metadata "depth_mode" "STANDARD")
                    (mode_of metadata "output_mode" "FULL_BUILD"));
  metadata ← pure (intake_records metadata contract charter);
  requirements ← pure (count_of contract "functional_requirements");
  _ ← record_audit_event mission_id PM_AGENT_ID "FEATURE_CONTRACT_CREATED" "feature_contract" "feature_contract"
        [("source", dget0 contract "source"); ("title", dget0 contract "title"); ("requirement_count", requirements);
         ("human_approval_required", dget0 contract "human_approval_required")];
  metadata ← intake_aim mission_id mission metadata contract;
  persisted mission_id metadata None.

(** From the metadata on. *)
Definition intake_decision (mission_id : string) (mission : MissionRecord) (metadata : dict) : phase (dict * dict * Z * bool) :=
  repository_context ← match index_required metadata with Some _ => load_repo_context mission_id | None => tret None end;
  let context := conversation metadata repository_context in
  '(metadata, contract) ← first_contract mission metadata context;
  '(metadata, contract) ← accept_defaults mission metadata context contract;
  pure (break_circuit metadata contract).

Definition pm_metadata (mission : MissionRecord) : dict :=
  dset (dset (phase_defaults mission) "selected_agent_id" (VStr PM_AGENT_ID)) "agent_id" (VStr PM_AGENT_ID).

Definition pm_intake (mission_id : string) (mission : MissionRecord) : phase bool :=
  let metadata := pm_metadata mission in
  match index_pending metadata with
  | Some repo_import =>
      if _chain_event_exists metadata "REPO_INDEX_PENDING" then tret false
      else
        _ ← storage (UpdateMetadata mission_id
              (append_chain_event metadata "REPO_INDEX_PENDING" PM_AGENT_ID
                 (Some [("import_id", dget0 repo_import "import_id"); ("index_status", dget0 repo_import "index_status")]) None now));
        tret false
  | None =>
      '(metadata, contract, loop_count, ambiguous) ← intake_decision mission_id mission metadata;
      if ambiguous : bool then hold mission_id metadata contract loop_count
      else accept_contract mission_id mission metadata contract
  end.

Definition on_mission (mission_id : string) (f : MissionRecord -> phase bool) : phase bool :=
  found ← storage (Fetch mission_id);
  match found with Some mission => f mission | None => tret false end.

Definition _prepare_pm_intake (mission_id : string) : phase bool := on_mission mission_id (pm_intake mission_id).

(** ** The fetch phase *)

(** [d[key]] *)
Definition dgetitem (d : dict) (key : string) : result val := match dget d key with Some v => Ok v | None => Raise KeyError end.

Definition fetch_details (fetched : dict) : result dict :=
  indexed ← dgetitem fetched "indexed_languages";
  skipped ← dgetitem fetched "skipped_languages";
  errors ← dgetitem fetched "errors";
  ready ← dgetitem fetched "knowledge_ready";
  Ok [("indexed_languages", indexed); ("skipped", skipped); ("errors", errors);
      ("knowledge_ids", dget_or fetched "knowledge_ids" (VList [])); ("knowledge_ready", ready);
      ("refreshed_languages", dget_or fetched "refreshed_languages" (VList []));
      ("unchanged_languages", dget_or fetched "unchanged_languages" (VList []));
      ("embedding_provider", dget0 fetched "embedding_provider"); ("embedding_model", dget0 fetched "embedding_model")].

Definition fetch_phase (mission_id : string) (mission : MissionRecord) : phase bool :=
  let metadata := phase_defaults mission in
  languages ← call "detect_required_languages"
    [("prompt", VStr (ms_prompt mission)); ("requested_target_language", str_or_none (ms_language mission));
     ("source_code", dget0 metadata "source_code"); ("mission_type", VStr (mode_of metadata "mission_type" "BUILD_NEW"))];
  fetched ← call "run_fetch_phase" [("mission_id", VStr mission_id); ("required_languages", languages); ("attachments", VList [])];
  ready ← pure (match fetched with VDict d => dgetitem d "knowledge_ready" | _ => Raise TypeError end);
  let fetched := dict_value fetched in
  let metadata := dset (dset metadata "fetch_result" (VDict fetched)) "knowledge_lake_ready" ready in
  stocked ← call "is_stocked" [("mission_id", VStr mission_id)];
  let metadata := dset metadata "knowledge_lake_stocked" stocked in
  metadata ← pure (append_with metadata "MISSION_FETCH_COMPLETE" "AGENT-06-IS" (fetch_details fetched));
  _ ← (if truthy (dget0 fetched "knowledge_ready") && truthy (dget0 fetched "indexed_languages")
       then call "broadcast_knowledge_ready" [("languages", dget0 fetched "indexed_languages"); ("mission_id", VStr mission_id)]
       else tret VNone);
  persisted mission_id metadata None.

Definition _prepare_fetch_phase (mission_id : string) : phase bool := on_mission mission_id (fetch_phase mission_id).

(** ** CEO delegation *)

Definition support_keywords : list (string * string) :=
  [("SECURITY", "AGENT-05-SECURITY"); ("COMPLIANCE", "AGENT-08-COMPLIANCE"); ("DEPABS", "AGENT-39-DEPABS");
   ("DEPENDENC", "AGENT-39-DEPABS"); ("TEST", "AGENT-10-TESTER"); ("VC", "AGENT-07-VC")].

Definition _extract_support_agent_flags (ceo_delegation : dict) (mission_type : string) : list string :=
  let text := str_upper (py_str (dget_or ceo_delegation "rationale" (VStr "")) +:+ " " +:+ mission_type) in
  foldl (fun flags '(keyword, agent_id) => if str_contains keyword text && negb (str_in agent_id flags) then flags ++ [agent_id] else flags)
    [] support_keywords.

Definition clusters_of (logic_clusters : val) : val :=
  match logic_clusters with VDict d => dget0 d "clusters" | _ => VList [] end.

Definition _extract_cross_pod_flags (logic_clusters : val) : list string :=
  match clusters_of logic_clusters with
  | VList clusters =>
      let pod_ids := sorted_strings (List.filter (fun s => negb (String.eqb s ""))
        (omap (fun cluster => d ← as_dict cluster; Some (upper_name (dget0 d "pod_manager_agent_id"))) clusters)) in
      if (1 <? length pod_ids)%nat then pod_ids else []
  | _ => []
  end.

Definition model_fields (d : dict) (keys : list string) : dict := (fun key => (key, dget0 d key)) <$> keys.
Definition route_keys : list string := ["source"; "llm_route"; "model_provider"; "model"].

(** The agents of a delegation, those of the language where the model names none. *)
Definition delegated_agents (mission : MissionRecord) (delegation : dict) : string * string :=
  (_validate_agent_id (dget0 delegation "pod_manager_agent_id") (resolve_pod_manager_agent_id (ms_language mission)),
   _validate_agent_id (dget0 delegation "specialist_agent_id") (resolve_specialist_agent_id (ms_language mission))).

Definition cluster_count (logic_clusters : val) : val :=
  VInt (match clusters_of logic_clusters with VList l => Z.of_nat (length l) | _ => 0 end).

(** The four events of a delegation. *)
Definition delegation_events (metadata : dict) (agents : string * string) (normalized contract : dict) (clusters : val) : result dict :=
  let target := [("target_agent_id", VStr agents.1); ("specialist_agent_id", VStr agents.2)] in
  let metadata := append_once now metadata "MISSION_CEO_DELEGATED" CEO_AGENT_ID (target ++ model_fields normalized route_keys) in
  metadata ← append_with metadata "MISSION_CONTRACT_GENERATED" CEO_AGENT_ID
    (requirements ← count_of contract "logicnode_requirements";
     criteria ← count_of contract "acceptance_criteria";
     Ok (model_fields contract ["source"; "output_format"] ++
         [("requirement_count", requirements); ("acceptance_criteria_count", criteria)] ++
         model_fields contract ["model_provider"; "model"]));
  metadata ← append_with metadata "LOGIC_CLUSTERS_DECOMPOSED" CEO_AGENT_ID
    (found ← expect_dict clusters;
     Ok ([("source", dget0 found "source"); ("cluster_count", cluster_count clusters)] ++ model_fields found ["model_provider"; "model"]));
  Ok (if _chain_event_exists metadata "CEO_REASONING_SUMMARY" then metadata
      else
        let flags := VStrs (_extract_support_agent_flags normalized (py_str (py_or (dget0 metadata "mission_type") (VStr "BUILD_NEW")))) in
        append_chain_event (dset metadata "ceo_support_agent_flags" flags) "CEO_REASONING_SUMMARY" CEO_AGENT_ID
          (Some [("delegation_rationale", dget0 normalized "rationale"); ("contract_summary", dget0 contract "contract_summary");
                 ("cluster_count", cluster_count clusters); ("cross_pod_flags", VStrs (_extract_cross_pod_flags clusters));
                 ("support_agent_flags", flags)]) None now).

Definition delegation_artifacts (metadata : dict) (agents : string * string) (normalized contract : dict) (clusters : val) : result dict :=
  let metadata := _record_artifact now metadata "ceo_delegated" "MISSION_CEO_DELEGATED" CEO_AGENT_ID
    ([("target_agent_id", VStr agents.1); ("specialist_agent_id", VStr agents.2)] ++ model_fields normalized route_keys) in
  requirements ← count_of contract "logicnode_requirements";
  let metadata := _record_artifact now metadata "mission_contract" "MISSION_CONTRACT_GENERATED" CEO_AGENT_ID
    (model_fields contract ["source"; "output_format"] ++ [("requirement_count", requirements)]) in
  found ← expect_dict clusters;
  Ok (_record_artifact now metadata "logic_clusters" "LOGIC_CLUSTERS_DECOMPOSED" CEO_AGENT_ID
        [("source", dget0 found "source"); ("cluster_count", cluster_count clusters)]).

Definition delegation_audit (mission_id : string) (agents : string * string) (normalized contract clusters : dict) : phase val :=
  _ ← record_audit_event mission_id CEO_AGENT_ID "AGENT_DELEGATION_PLANNED" "delegation" "ceo"
        (model_fields normalized route_keys ++ [("pod_manager_agent_id", VStr agents.1); ("specialist_agent_id", VStr agents.2)]);
  requirements ← pure (count_of contract "logicnode_requirements");
  criteria ← pure (count_of contract "acceptance_criteria");
  _ ← record_audit_event mission_id CEO_AGENT_ID "MISSION_CONTRACT_GENERATED" "mission_contract" "mission_contract"
        (model_fields contract ["source"; "output_format"] ++ [("requirement_count", requirements); ("acceptance_criteria_count", criteria)]);
  record_audit_event mission_id CEO_AGENT_ID "LOGIC_CLUSTERS_DECOMPOSED" "logic_clusters" "logic_clusters"
    [("source", dget0 clusters "source"); ("cluster_count", cluster_count (VDict clusters))].

Definition ceo_delegation (mission_id : string) (mission : MissionRecord) : phase bool :=
  let metadata := phase_defaults mission in
  let mission_context := _mission_context mission metadata ++
    [("feature_contract", dget0 metadata "feature_contract"); ("mission_charter", dget0 metadata "mission_charter")] in
  let language := str_or_none (ms_language mission) in
  delegation ← call "generate_ceo_delegation" [("mission_context", VDict mission_context); ("requested_target_language", language)];
  delegation ← pure (expect_dict delegation);
  let agents := delegated_agents mission delegation in
  let normalized := dset (dset delegation "pod_manager_agent_id" (VStr agents.1)) "specialist_agent_id" (VStr agents.2) in
  let metadata := dset metadata "ceo_delegation" (VDict normalized) in
  let metadata := dset (dset metadata "selected_agent_id" (VStr agents.1)) "agent_id" (VStr agents.1) in
  contract ← call "generate_mission_contract"
    [("mission_context", VDict mission_context); ("prompt", VStr (ms_prompt mission));
     ("mission_type", VStr (py_str (py_or (dget0 metadata "mission_type") (VStr "BUILD_NEW"))));
     ("output_mode", VStr (py_str (py_or (dget0 metadata "output_mode") (VStr "FULL_BUILD"))));
     ("requested_target_language", language); ("ceo_delegation", VDict normalized)];
  clusters ← call "generate_logic_clusters"
    [("mission_context", VDict (dset mission_context "mission_contract" contract)); ("mission_contract", contract);
     ("requested_target_language", language); ("ceo_delegation", VDict normalized)];
  let metadata := dset (dset metadata "mission_contract" contract) "logic_clusters" clusters in
  contract ← pure (expect_dict contract);
  metadata ← pure (delegation_events metadata agents normalized contract clusters);
  metadata ← pure (delegation_artifacts metadata agents normalized contract clusters);
  _ ← delegation_audit mission_id agents normalized contract (dict_value clusters);
  let metadata := if String.eqb (mode_of metadata "mission_type" "BUILD_NEW") "PORT" && setting settings "port_two_phase_enabled"
                  then _setup_port_two_phase metadata mission (clusters_of clusters) else metadata in
  persisted mission_id metadata None.

Definition _prepare_ceo_delegation (mission_id : string) : phase bool := on_mission mission_id (ceo_delegation mission_id).
End intake.

(** ** The score *)

(** What a request is short of: what the score counts, as conditions.  A contract is at the
    threshold when it asks for clarification and one thing is missing, or when it does not
    ask but leaves two questions open on a short and thin request. *)
Lemma ambiguity_threshold (contract : dict) (prompt : string) :
  at_threshold (VInt (_pm_ambiguity_score contract prompt)) = Ok true <->
  needs_clarification contract = true /\
    ((1 <= open_questions contract)%nat \/ short_prompt prompt = true \/ thin contract = true) \/
  (2 <= open_questions contract)%nat /\ short_prompt prompt = true /\ thin contract = true.
Proof.
  unfold at_threshold, _pm_ambiguity_score. cbv zeta.
  destruct (needs_clarification contract), (short_prompt prompt), (thin contract);
    (split; [intros [= H%Z.leb_le]|intros H; f_equal; apply Z.leb_le]); first [lia | intuition lia | idtac].
  all: try (destruct H as [(? & [?|[?|?]])|(? & ? & ?)]; try done; lia).
Qed.

(** ** Quiet parts *)

Section gentle.
Context (settings : dict) (now charter_uuid : string).
Context (extract : string -> text -> result extraction) (sha256 : text -> string) (provider model : string).

Lemma gentle_persist id metadata event : issues gentle (_persist_metadata id metadata event).
Proof. unfold _persist_metadata. walk_phase. Qed.

Lemma gentle_persisted id metadata event : issues gentle (persisted id metadata event).
Proof. unfold persisted. apply issues_mbind; [apply gentle_persist|]. by intros. Qed.

Lemma gentle_repo id : issues gentle (load_repo_context id).
Proof. unfold load_repo_context. walk_phase. Qed.

Lemma gentle_contract_call arguments : issues gentle (generate_pm_feature_contract arguments).
Proof. unfold generate_pm_feature_contract. walk_phase. Qed.

Lemma gentle_sow metadata : issues gentle (approved_sow metadata).
Proof. unfold approved_sow. walk_phase. Qed.

Hint Resolve gentle_persist gentle_persisted gentle_repo gentle_contract_call gentle_sow : phases.

Lemma gentle_first mission metadata context : issues gentle (first_contract mission metadata context).
Proof. unfold first_contract. walk_phase. Qed.

Lemma gentle_accept mission metadata context contract : issues gentle (accept_defaults settings now mission metadata context contract).
Proof. unfold accept_defaults. walk_phase. Qed.

Hint Resolve gentle_first gentle_accept : phases.

Lemma gentle_decision id mission metadata : issues gentle (intake_decision settings now id mission metadata).
Proof. unfold intake_decision. walk_phase. Qed.

Lemma gentle_aim id source prompt mission_type language contract :
  issues gentle (generate_aim extract sha256 now provider model id source prompt mission_type language contract).
Proof. unfold generate_aim. walk_phase. Qed.

Hint Resolve gentle_decision gentle_aim : phases.

Lemma gentle_intake_aim id mission metadata contract : issues gentle (intake_aim now extract sha256 provider model id mission metadata contract).
Proof. unfold intake_aim. walk_phase. Qed.

Hint Resolve gentle_intake_aim : phases.

Lemma gentle_contract_accepted id mission metadata contract :
  issues gentle (accept_contract now charter_uuid extract sha256 provider model id mission metadata contract).
Proof. unfold accept_contract. walk_phase. Qed.

Lemma gentle_fetch_phase id : issues gentle (_prepare_fetch_phase now id).
Proof. unfold _prepare_fetch_phase, on_mission, fetch_phase. walk_phase. Qed.

Lemma gentle_delegation id : issues gentle (_prepare_ceo_delegation settings now id).
Proof. unfold _prepare_ceo_delegation, on_mission, ceo_delegation, delegation_audit. walk_phase. Qed.
End gentle.

#[export] Hint Resolve gentle_persist gentle_persisted gentle_decision gentle_contract_accepted : phases.

(** ** The contract of the PM intake towards the driver

    Nothing moves, or the mission goes on hold and the intake refuses. *)

Definition intake_outcome (id : string) (db : DB) (out : exn + bool) (db' : DB) : Prop :=
  quiet id db db' \/ (held id db db' /\ out <> inr true).

Definition outcome (id : string) (outside : asked -> string -> dict -> phase_reply) (t : phase bool) : Prop :=
  forall w, let '(out, w', _) := run (phase_env outside) t w in intake_outcome id w.1 out w'.1.

Section outcome.
Context (id : string) (outside : asked -> string -> dict -> phase_reply).

Lemma held_after db1 db2 db3 : quiet id db1 db2 -> held id db2 db3 -> held id db1 db3.
Proof. intros [Hs Hm] (H1 & H2 & H3). unfold held. by rewrite <- Hs, <- Hm. Qed.

Lemma run_gentle {A} (t : phase A) w : issues gentle t -> quiet id w.1 (run (phase_env outside) t w).1.2.1.
Proof.
  intros Ht. assert (PreOrder (fun w w' : DB * asked => quiet id w.1 w'.1)) as Hpre.
  { split; [intros v; apply quiet_refl|intros a b c; apply quiet_trans]. }
  exact (run_issues (phase_env outside) gentle (fun w w' => quiet id w.1 w'.1) t w (fun c w => gentle_quiet id outside c w) Ht).
Qed.

Lemma outcome_gentle t : issues gentle t -> outcome id outside t.
Proof.
  intros Ht w. pose proof (run_gentle t w Ht) as H. destruct (run _ t w) as [[out w'] tr]. by left.
Qed.

Lemma outcome_bind {A} (t : phase A) (f : A -> phase bool) :
  issues gentle t -> (forall a, outcome id outside (f a)) -> outcome id outside (t ≫= f).
Proof.
  intros Ht Hf w. unfold mbind, task_bind. rewrite run_bind. pose proof (run_gentle t w Ht) as H1.
  destruct (run _ t w) as [[[e|a] w1] tr]; [by left|]. cbn in H1. specialize (Hf a w1).
  destruct (run _ (f a) w1) as [[out w2] tr']. destruct Hf as [Hq|[Hh Hn]].
  - left. by eapply quiet_trans.
  - right. split; [by eapply held_after|done].
Qed.

Lemma outcome_hold metadata contract loop_count : outcome id outside (hold id metadata contract loop_count).
Proof.
  unfold hold. cbv zeta. apply outcome_bind; [walk_phase|]. intros _ w. unfold mbind, task_bind, storage, tret.
  cbn -[transition_mission_state]. unfold db_act. cbn -[transition_mission_state].
  destruct (transition_mission_state id (Some queued) clarifying "MISSION_CLARIFYING" w.1) as [r db'] eqn:E.
  destruct (transition_moves id queued clarifying _ _ _ _ ltac:(discriminate) E) as [[-> ->]|(m & -> & _ & H1 & H2 & H3)]; cbn.
  - left. apply quiet_refl.
  - right. split; [done|discriminate].
Qed.
End outcome.

Section driver_contract.
Context (settings : dict) (now charter_uuid : string).
Context (extract : string -> text -> result extraction) (sha256 : text -> string) (provider model : string).
Context (outside : asked -> string -> dict -> phase_reply).

Abbreviation prepare := (_prepare_pm_intake settings now charter_uuid extract sha256 provider model).
Abbreviation intake := (pm_intake settings now charter_uuid extract sha256 provider model).

Lemma outcome_intake id mission : outcome id outside (intake id mission).
Proof.
  unfold pm_intake. cbv zeta. destruct (index_pending _); [case_match; apply outcome_gentle; walk_phase|].
  apply outcome_bind; [apply gentle_decision|]. intros [[[metadata contract] loop_count] []].
  - apply outcome_hold.
  - apply outcome_gentle, gentle_contract_accepted.
Qed.

(** What [QuietPhases] asks of the PM intake. *)
Lemma prepare_outcome id db :
  quiet id db (as_phase outside (prepare id) db).2 \/
  (held id db (as_phase outside (prepare id) db).2 /\ (as_phase outside (prepare id) db).1 <> Ok true).
Proof.
  assert (outcome id outside (prepare id)) as H.
  { unfold _prepare_pm_intake, on_mission. apply outcome_bind; [walk_phase|].
    intros [mission|]; [apply outcome_intake|apply outcome_gentle; exact I]. }
  specialize (H (db, [])). unfold as_phase, run_phase. destruct (run _ (prepare id) (db, [])) as [[out [db' log]] tr].
  destruct H as [Hq|[Hh Hn]]; [by left|]. right. split; [done|]. by destruct out as [e|[]].
Qed.
End driver_contract.

(** ** What the store holds afterwards *)

(** A field of the stored metadata. *)
Definition stored (db : DB) (id key : string) : val :=
  match db_missions db !! id with Some row => dget0 (r_metadata row) key | None => VNone end.

Section stored.
Context (outside : asked -> string -> dict -> phase_reply).

Lemma wp_both {A} (P Q : A -> DB * asked -> Prop) (t : phase A) w :
  wp outside P t w -> wp outside Q t w -> wp outside (fun a w' => P a w' /\ Q a w') t w.
Proof. unfold wp. by destruct (run _ t w) as [[[e|a] w'] tr]. Qed.

Lemma wp_update {A} (Q : A -> DB * asked -> Prop) id metadata s (f : option MissionRecord -> phase A) w :
  state_of w.1 id = Some (state_value s) ->
  (forall m db', quiet id w.1 db' -> (forall k, str_in k rewritten_keys = false -> stored db' id k = dget0 metadata k) ->
     wp outside Q (f (Some m)) (db', w.2)) ->
  wp outside Q (storage (UpdateMetadata id metadata) ≫= f) w.
Proof.
  intros Hs HQ. destruct (db_missions w.1 !! id) as [row|] eqn:Hr; [|by unfold state_of in Hs; rewrite Hr in Hs].
  assert (r_state row = state_value s) as Hrs by (unfold state_of in Hs; rewrite Hr in Hs; by injection Hs).
  destruct (update_metadata_row id metadata w.1 row s Hr Hrs) as (m & row' & Hu & _ & _ & _ & Hk).
  apply wp_bind. unfold wp at 1, storage. cbn -[update_mission_metadata]. unfold db_act. cbn -[update_mission_metadata].
  pose proof (keeps_update id id metadata w.1) as Hq. rewrite Hu in Hq |- *. apply HQ; [exact Hq|].
  intros k Hk'. unfold stored. cbn. rewrite lookup_insert_eq. unfold dget0. by rewrite Hk.
Qed.

Lemma wp_transition {A} (Q : A -> DB * asked -> Prop) id s t ev (f : option MissionRecord -> phase A) w :
  state_of w.1 id = Some (state_value s) ->
  (forall m db', state_of db' id = Some (state_value t) -> (forall k, stored db' id k = stored w.1 id k) ->
     wp outside Q (f (Some m)) (db', w.2)) ->
  wp outside Q (storage (Transition id (Some s) t ev) ≫= f) w.
Proof.
  intros Hs HQ. destruct (db_missions w.1 !! id) as [row|] eqn:Hr; [|by unfold state_of in Hs; rewrite Hr in Hs].
  assert (r_state row = state_value s) as Hrs by (unfold state_of in Hs; rewrite Hr in Hs; by injection Hs).
  destruct (transition_match id s t ev w.1 row Hr Hrs) as (m & Ht & _).
  apply wp_bind. unfold wp at 1, storage. cbn -[transition_mission_state]. unfold db_act. cbn -[transition_mission_state].
  rewrite Ht. apply HQ.
  - unfold state_of. cbn. by rewrite lookup_insert_eq.
  - intros k. unfold stored. cbn. by rewrite lookup_insert_eq, Hr.
Qed.

Lemma wp_fetched {A} (Q : A -> DB * asked -> Prop) id mission (f : option MissionRecord -> phase A) w :
  fetch_mission id w.1 = (Ok (Some mission), w.1) -> wp outside Q (f (Some mission)) w -> wp outside Q (storage (Fetch id) ≫= f) w.
Proof.
  intros Hf HQ. apply wp_bind. unfold wp at 1, storage. cbn -[fetch_mission]. unfold db_act. cbn -[fetch_mission].
  rewrite Hf. by destruct w.
Qed.
End stored.

Lemma fetched_state id db m :
  fetch_mission id db = (Ok (Some m), db) -> state_of db id = Some (state_value (ms_state m)).
Proof.
  unfold fetch_mission, state_of. destruct (db_missions db !! id) as [row|]; [|done]. unfold row_to_mission.
  destruct (_charter_fields_from_metadata _) as [[[a b] c] d]. destruct (MissionState_of (r_state row)) as [s|] eqn:Es; [|done].
  intros [= <-]. cbn. f_equal. by apply MissionState_of_Ok.
Qed.

Section answers.
Context (settings : dict) (now charter_uuid : string).
Context (extract : string -> text -> result extraction) (sha256 : text -> string) (provider model : string).
Context (outside : asked -> string -> dict -> phase_reply).

Abbreviation prepare := (_prepare_pm_intake settings now charter_uuid extract sha256 provider model).

(** The charter of a mission with this contract. *)
Definition charter_of (id : string) (mission : MissionRecord) (metadata contract : dict) : result dict :=
  build_mission_charter charter_uuid now id (ms_prompt mission) (ms_language mission) contract
    (mode_of metadata "mission_type" "BUILD_NEW") (mode_of metadata "depth_mode" "STANDARD") (mode_of metadata "output_mode" "FULL_BUILD").

Lemma append_with_keeps metadata ev agent details metadata' k :
  append_with now metadata ev agent details = Ok metadata' -> str_in k chain_keys = false -> dget0 metadata' k = dget0 metadata k.
Proof.
  unfold append_with. intros H Hk. case_match; [by injection H as <-|]. destruct details; [|done]. cbn in H. injection H as <-.
  by apply append_keeps.
Qed.

Lemma record_artifact_keeps metadata stage ev agent details k :
  k <> "mission_artifacts" -> dget0 (_record_artifact now metadata stage ev agent details) k = dget0 metadata k.
Proof. intros Hk. unfold _record_artifact. by rewrite dget0_dset_ne. Qed.

Lemma intake_records_keep metadata contract charter metadata' :
  intake_records now metadata contract charter = Ok metadata' ->
  dget0 metadata' "feature_contract" = VDict contract /\ dget0 metadata' "mission_charter" = VDict charter.
Proof.
  unfold intake_records. cbv zeta. intros H. destruct (append_with _ _ _ _ _) as [md|] eqn:Ea; [|done].
  cbn [mbind result_bind] in H. injection H as <-.
  split; rewrite record_artifact_keeps by done; rewrite (append_with_keeps _ _ _ _ _ _ Ea) by reflexivity; by meta_simpl.
Qed.

Lemma aim_keeps id mission metadata contract k :
  str_in k (["application_intelligence_map"; "mission_artifacts"] ++ chain_keys) = false ->
  yields (fun md => dget0 md k = dget0 metadata k) (intake_aim now extract sha256 provider model id mission metadata contract).
Proof.
  intros Hk. cbn -[chain_keys] in Hk. apply orb_false_iff in Hk as [H1 Hk]. apply orb_false_iff in Hk as [H2 Hk].
  apply String.eqb_neq in H1, H2. unfold intake_aim. cbv zeta. destruct (dget0 metadata "source_code") as [| | |source| |]; [done|done|done| |done|done].
  destruct (mission_requires_aim _); [|done]. eapply yields_bind; [apply yields_true|]. intros aim _. eapply yields_bind; [apply yields_true|]. intros v _. cbn [yields tret].
  unfold aim_records. cbv zeta. rewrite record_artifact_keeps by congruence. rewrite append_once_keeps by done. by rewrite dget0_dset_ne by congruence.
Qed.

(** What is decided about a contract that was looked at. *)
Lemma decided_threshold id mission metadata :
  yields (fun x => let '(metadata', contract, n, ambiguous) := x in
            at_threshold (score_of contract) = Ok ambiguous)
    (intake_decision settings now id mission metadata).
Proof.
  unfold intake_decision. eapply yields_bind; [apply yields_true|]. intros repo _. cbv zeta.
  eapply yields_bind; [apply yields_true|]. intros [md0 contract0] _. eapply yields_bind; [apply yields_true|]. intros [md1 contract1] _.
  apply yields_pure. intros [[[md contract] n] b] H. unfold break_circuit in H.
  destruct (py_int _) as [z|]; cbn [mbind result_bind] in H; [|done]. cbv zeta in H.
  destruct (at_threshold (score_of _)) as [high|] eqn:Eh; cbn [mbind result_bind] in H; [|done].
  case_match; injection H as <- <- <- <-; [|done]. unfold score_of, dget_or. rewrite dget_dset_ne by discriminate. by rewrite dget_dset_eq.
Qed.

Lemma loop_count_kept mission metadata context :
  yields (fun x => dget0 x.1 "clarification_loop_count" = dget0 metadata "clarification_loop_count") (first_contract mission metadata context).
Proof.
  unfold first_contract. eapply yields_bind; [apply yields_true|]. intros sow _. destruct (as_dict sow ≫= _) as [[s c]|].
  - eapply yields_bind; [apply yields_true|]. intros ? _. change (yields ?Q (tret ?x)) with (Q x). cbn [fst]. by meta_simpl.
  - cbv zeta. eapply yields_bind; [apply yields_true|]. by intros ? _.
Qed.

Lemma decided_count id mission metadata :
  yields (fun x => let '(metadata', contract, n, ambiguous) := x in
            py_int (py_or (dget0 metadata "clarification_loop_count") (VInt 0)) = Ok n)
    (intake_decision settings now id mission metadata).
Proof.
  unfold intake_decision. eapply yields_bind; [apply yields_true|]. intros repo _. cbv zeta.
  eapply yields_bind; [apply loop_count_kept|]. intros [md contract] Hmd. cbn [fst] in Hmd.
  eapply (yields_bind (fun x => dget0 x.1 "clarification_loop_count" = dget0 metadata "clarification_loop_count")).
  { unfold accept_defaults. eapply yields_bind; [apply yields_true|]. intros [] _; [|exact Hmd].
    eapply yields_bind; [apply yields_true|]. intros c _. change (yields ?Q (tret ?x)) with (Q x). cbn [fst]. unfold finalized. cbv zeta. by meta_simpl. }
  intros [md' contract'] Hmd'. cbn [fst] in Hmd'. apply yields_pure. intros [[[md2 c2] n] b] H. unfold break_circuit in H.
  rewrite Hmd' in H. destruct (py_int _) as [z|]; cbn [mbind result_bind] in H; [|done]. cbv zeta in H.
  destruct (at_threshold _); cbn [mbind result_bind] in H; [|done]. case_match; by injection H as <- <- <- <-.
Qed.

Lemma wp_persisted id metadata s (Q : bool -> DB * asked -> Prop) w :
  state_of w.1 id = Some (state_value s) ->
  (forall db', quiet id w.1 db' -> (forall k, str_in k rewritten_keys = false -> stored db' id k = dget0 metadata k) -> Q true (db', w.2)) ->
  wp outside Q (persisted id metadata None) w.
Proof.
  intros Hs HQ. unfold persisted, _persist_metadata. apply wp_bind. eapply wp_update; [exact Hs|]. intros m db' Hq Hk.
  apply wp_bind, wp_ret, wp_ret, wp_ret. by apply HQ.
Qed.

Lemma wp_accepted id mission metadata contract w :
  state_of w.1 id = Some (state_value queued) ->
  wp outside (fun answer w' => answer = true /\ quiet id w.1 w'.1 /\
      stored w'.1 id "feature_contract" = VDict contract /\
      exists charter, charter_of id mission metadata contract = Ok charter /\ stored w'.1 id "mission_charter" = VDict charter)
    (accept_contract now charter_uuid extract sha256 provider model id mission metadata contract) w.
Proof.
  intros Hs. unfold accept_contract. fold (charter_of id mission metadata contract).
  apply wp_bind, wp_pure. intros charter Hc. apply wp_bind, wp_pure. intros md Hmd. apply intake_records_keep in Hmd as [Hf Hm].
  apply wp_bind, wp_pure. intros n _. apply wp_bind, (wp_gentle outside id); [apply gentle_audit|]. intros v w1 Hq1. apply wp_bind.
  eapply wp_mono; [apply wp_both; [|apply wp_both]|].
  - apply (wp_yields outside _ (fun md' _ => dget0 md' "feature_contract" = VDict contract) _ _ (aim_keeps id mission md contract "feature_contract" eq_refl)). by intros a w' ->.
  - apply (wp_yields outside _ (fun md' _ => dget0 md' "mission_charter" = VDict charter) _ _ (aim_keeps id mission md contract "mission_charter" eq_refl)). by intros a w' ->.
  - apply (wp_gentle outside id (fun _ w' => quiet id w1.1 w'.1)); [apply gentle_intake_aim|]. by intros.
  - intros md' w2 (Hf' & Hm' & Hq2). assert (quiet id w.1 w2.1) as Hq by (by etrans). apply (wp_persisted _ _ queued); [by rewrite (proj1 Hq)|].
    intros db' Hq3 Hk. cbn [fst]. split; [done|]. split; [by etrans|]. rewrite !Hk, Hf', Hm' by reflexivity. split; [done|]. by exists charter.
Qed.

Lemma wp_held id metadata contract n w :
  state_of w.1 id = Some (state_value queued) ->
  wp outside (fun answer w' => answer = false /\ state_of w'.1 id = Some (state_value clarifying) /\
      stored w'.1 id "last_ambiguity_score" = score_of contract /\ stored w'.1 id "clarification_loop_count" = VInt (n + 1))
    (hold id metadata contract n) w.
Proof.
  intros Hs. unfold hold. cbv zeta. eapply wp_update; [exact Hs|]. intros m db1 Hq Hk.
  eapply wp_transition; [cbn [fst]; rewrite (proj1 Hq); exact Hs|]. intros m' db2 Hst Hk2. apply wp_ret. cbn [fst] in *.
  split_and!; [done|done| |]; rewrite Hk2, Hk by reflexivity; by meta_simpl.
Qed.

(** What the answer of the intake says about the store. *)
Definition intake_answer (id : string) (mission : MissionRecord) (answer : bool) (db' : DB) : Prop :=
  if answer then
    state_of db' id = Some "QUEUED" /\
    exists contract metadata charter, stored db' id "feature_contract" = VDict contract /\ at_threshold (score_of contract) = Ok false /\
      stored db' id "mission_charter" = VDict charter /\ charter_of id mission metadata contract = Ok charter
  else
    (index_pending (pm_metadata mission) <> None /\ state_of db' id = Some "QUEUED") \/
    (state_of db' id = Some "CLARIFYING" /\ at_threshold (stored db' id "last_ambiguity_score") = Ok true /\
     exists n, py_int (py_or (dget0 (ms_metadata mission) "clarification_loop_count") (VInt 0)) = Ok n /\
       stored db' id "clarification_loop_count" = VInt (n + 1)).

Lemma intake_answered (id : string) (mission : MissionRecord) (db : DB) (answer : bool) (db' : DB) (log : asked)
    (Hf : fetch_mission id db = (Ok (Some mission), db)) (Hq : ms_state mission = queued)
    (Hrun : run_phase outside (prepare id) db = (inr answer, db', log)) :
  intake_answer id mission answer db'.
Proof.
  pose proof (fetched_state _ _ _ Hf) as Hs. rewrite Hq in Hs. revert Hrun. refine (run_phase_wp outside (fun b w' => intake_answer id mission b w'.1) _ _ _ _ _ _).
  unfold _prepare_pm_intake, on_mission. eapply wp_fetched; [exact Hf|]. unfold pm_intake. cbv zeta. unfold intake_answer.
  destruct (index_pending (pm_metadata mission)) as [repo|] eqn:Ei.
  - assert (issues gentle (if _chain_event_exists (pm_metadata mission) "REPO_INDEX_PENDING" then tret false
      else _ ← storage (UpdateMetadata id (append_chain_event (pm_metadata mission) "REPO_INDEX_PENDING" PM_AGENT_ID
                 (Some [("import_id", dget0 repo "import_id"); ("index_status", dget0 repo "index_status")]) None now)); tret false)) as Hg by walk_phase.
    eapply wp_mono; [apply wp_both; [exact (wp_gentle outside id (fun _ w' => quiet id db w'.1) _ (db, []) Hg (fun _ _ H => H))|]|].
    + eapply (wp_yields outside (fun b => b = false)); [|intros a w' Ha; exact Ha].
      case_match; [done|]. eapply yields_bind; [apply yields_true|]. by intros.
    + intros b w' [[Hst _] ->]. left. cbn [fst] in *. split; [done|]. by rewrite Hst.
  - apply wp_bind. eapply wp_mono; [apply wp_both; [|apply wp_both]|].
    + exact (wp_yields outside _ _ _ (db, []) (decided_threshold id mission (pm_metadata mission)) (fun a w' H => H)).
    + exact (wp_yields outside _ _ _ (db, []) (decided_count id mission (pm_metadata mission)) (fun a w' H => H)).
    + exact (wp_gentle outside id (fun _ w' => quiet id db w'.1) _ (db, []) (gentle_decision settings now id mission (pm_metadata mission)) (fun _ _ H => H)).
    + intros [[[metadata contract] n] ambiguous] w1 (Ht & Hn & [Hst _]).
      assert (state_of w1.1 id = Some (state_value queued)) as Hs1 by (by rewrite Hst). destruct ambiguous.
      * eapply wp_mono; [exact (wp_held id metadata contract n w1 Hs1)|]. intros b w2 (-> & H1 & H2 & H3). right.
        split; [exact H1|]. rewrite H2. split; [done|]. exists n. split; [|done].
        unfold pm_metadata in Hn. revert Hn. meta_simpl. unfold dget0 at 1. by rewrite defaults_keep by reflexivity.
      * eapply wp_mono; [exact (wp_accepted id mission metadata contract w1 Hs1)|]. intros b w2 (-> & [H1 _] & H2 & charter & H3 & H4).
        split; [by rewrite H1|]. by exists contract, metadata, charter.
Qed.

(** C35: Whatever the outside answers: the intake of a queued mission agrees only after it has
    stored a contract below the threshold and an accepted charter of it.  It refuses for a
    repository that is not indexed yet, and then the mission stays queued, or it holds the
    mission, with the score at the threshold and one more hold counted. *)
Theorem pm_intake_answers (id : string) (mission : MissionRecord) (db : DB) (answer : bool) (db' : DB) (log : asked)
    (Hf : fetch_mission id db = (Ok (Some mission), db)) (Hq : ms_state mission = queued)
    (Hrun : run_phase outside (prepare id) db = (inr answer, db', log)) :
  intake_answer id mission answer db'.
Proof. exact (intake_answered id mission db answer db' log Hf Hq Hrun). Qed.

(** ** Holds end *)

(** Whether every open question of a contract carries its answer. *)
Definition answered (contract : dict) : Prop := exists l, questions_of contract = VList l /\ forallb has_default l = true.

(** Every contract of the model is. *)
Definition model_answers : Prop :=
  forall log arguments contract, outside log "generate_pm_feature_contract" arguments = Returned (VDict contract) -> answered contract.

Definition settled (contract : dict) : Prop := at_threshold (score_of contract) <> Ok true \/ answered contract.

Lemma wp_generated arguments w (HM : model_answers) :
  wp outside (fun contract _ => settled contract) (generate_pm_feature_contract arguments) w.
Proof.
  unfold generate_pm_feature_contract. apply wp_call; [|by intros; apply wp_pure].
  intros v Hv. apply wp_pure. intros contract Hc. destruct v; try done. injection Hc as <-. right. by eapply HM.
Qed.

Lemma approved_settled contract contract' : approved_contract contract = Ok contract' -> settled contract'.
Proof.
  unfold approved_contract. destruct (py_iter _) as [l|]; [|done]. cbn [mbind result_bind]. cbv zeta.
  set (c := dset contract _ _). destruct (scored_high (dget_or c "ambiguity_score" (VInt 0))) eqn:E; intros [= <-]; left.
  - unfold score_of, dget_or. rewrite dget_dset_ne by discriminate. by rewrite dget_dset_eq.
  - unfold scored_high in E. change (score_of c) with (dget_or c "ambiguity_score" (VInt 0)). intros H. by rewrite H in E.
Qed.

Lemma wp_first mission metadata context w (HM : model_answers) :
  wp outside (fun x _ => settled x.2) (first_contract mission metadata context) w.
Proof.
  unfold first_contract. apply wp_bind. eapply wp_yields; [apply yields_true|]. intros sow w1 _.
  destruct (as_dict sow ≫= _) as [[s c]|]; apply wp_bind.
  - apply wp_pure. intros c' Hc. apply wp_ret. by eapply approved_settled.
  - eapply wp_mono; [by apply wp_generated|]. intros c' w2 Hc. by apply wp_ret.
Qed.

Lemma wp_accept mission metadata context contract w (HM : model_answers) :
  settled contract -> wp outside (fun x _ => settled x.2) (accept_defaults settings now mission metadata context contract) w.
Proof.
  intros Hc. unfold accept_defaults. apply wp_bind, wp_pure. intros [] _; [|by apply wp_ret]. apply wp_bind.
  eapply wp_mono; [by apply wp_generated|]. intros c' w2 Hc'. by apply wp_ret.
Qed.

Lemma circuit_breaks metadata contract metadata' contract' n ambiguous :
  auto_accept settings = true -> settled contract -> break_circuit settings now metadata contract = Ok (metadata', contract', n, ambiguous) ->
  2 <= n -> ambiguous = false.
Proof.
  intros Ha Hc H Hn. unfold break_circuit in H. destruct (py_int _) as [z|]; cbn [mbind result_bind] in H; [|done]. cbv zeta in H.
  destruct (at_threshold (score_of contract)) as [[]|] eqn:Et; cbn [mbind result_bind andb] in H; [|by injection H|done].
  destruct Hc as [Hc|(l & Hl & Hd)]; [done|]. rewrite Ha, Hl, Hd in H. cbn [andb] in H.
  destruct ((2 <=? z) || finalizes metadata) eqn:Ez; [by injection H|]. injection H as _ _ <- _.
  apply orb_false_iff in Ez as [Ez%Z.leb_gt _]. lia.
Qed.

(** C39: A mission is not held a third time: when the defaults of questions are accepted, and the
    model answers with questions that carry one, the intake leaves a mission that has been
    held twice where it was, whatever else happens. *)
Theorem holds_end (id : string) (mission : MissionRecord) (db : DB) (n : Z)
    (Ha : auto_accept settings = true) (HM : model_answers)
    (Hf : fetch_mission id db = (Ok (Some mission), db))
    (Hn : py_int (py_or (dget0 (ms_metadata mission) "clarification_loop_count") (VInt 0)) = Ok n) (H2 : 2 <= n) :
  state_of (as_phase outside (prepare id) db).2 id = state_of db id.
Proof.
  enough (quiet id db (run (phase_env outside) (prepare id) (db, [])).1.2.1) as [H _].
  { unfold as_phase, run_phase. by destruct (run _ (prepare id) (db, [])) as [[out [db' log]] tr]. }
  unfold _prepare_pm_intake, on_mission, mbind, task_bind, storage. cbn -[fetch_mission pm_intake]. unfold db_act. cbn -[fetch_mission pm_intake].
  rewrite Hf. cbn -[pm_intake]. enough (quiet id db (run (phase_env outside) (pm_intake settings now charter_uuid extract sha256 provider model id mission) (db, [])).1.2.1) as H.
  { by destruct (run _ (pm_intake _ _ _ _ _ _ _ _ _) (db, [])) as [[out w'] tr]. }
  unfold pm_intake. cbv zeta. destruct (index_pending _); [apply (run_gentle id outside); walk_phase|].
  unfold mbind, task_bind. rewrite run_bind. pose proof (run_gentle id outside _ (db, []) (gentle_decision settings now id mission (pm_metadata mission))) as Hq.
  assert (wp outside (fun x _ => x.2 = false) (intake_decision settings now id mission (pm_metadata mission)) (db, [])) as Hd.
  { eapply wp_mono; [apply (wp_both outside (fun x _ => py_int (py_or (dget0 (pm_metadata mission) "clarification_loop_count") (VInt 0)) = Ok x.1.2) (fun x _ => 2 <= x.1.2 -> x.2 = false))|].
    - refine (wp_yields outside _ _ _ (db, []) (decided_count id mission (pm_metadata mission)) _). by intros [[[md c] m] b] w1 Hm.
    - unfold intake_decision. apply wp_bind. eapply wp_yields; [apply yields_true|]. intros repo w1 _. cbv zeta.
      apply wp_bind. eapply wp_mono; [by apply wp_first|]. intros [md c] w2 Hc. cbn [snd] in Hc.
      apply wp_bind. eapply wp_mono; [by apply wp_accept|]. intros [md' c'] w3 Hc'. cbn [snd] in Hc'.
      apply wp_pure. intros [[[md2 c2] m] b] Hb. exact (fun Hm => circuit_breaks _ _ _ _ m b Ha Hc' Hb Hm).
    - intros [[[md c] m] b] w1 [Hm Hb]. cbn [snd fst] in *. apply Hb. revert Hm. unfold pm_metadata. meta_simpl. unfold dget0 at 1.
      rewrite defaults_keep by reflexivity. fold (dget0 (ms_metadata mission) "clarification_loop_count"). rewrite Hn. by intros [= <-]. }
  unfold wp in Hd. destruct (run _ (intake_decision _ _ _ _ _) (db, [])) as [[[e|[[[md c] m] b]] w1] tr]; [exact Hq|].
  cbn [snd] in Hd. subst b. pose proof (run_gentle id outside _ w1 (gentle_contract_accepted now charter_uuid extract sha256 provider model id mission md c)) as Hq2.
  cbn [fst snd] in Hq. destruct (run _ (accept_contract _ _ _ _ _ _ _ _ _ _) w1) as [[out w2] tr']. cbn in *. by etrans.
Qed.
End answers.

(** ** Witnesses *)

Definition held_twice : MissionRecord :=
  mkMission "m1" "sort it" (Some "python") None None None None [("clarification_loop_count", VInt 2)] None None queued "t0".

Definition held_twice_db : DB := (persist_intake_mission held_twice "1-0" empty_db).2.

(** A model that is never sure of the order, and proposes one. *)
Definition unsure (log : asked) (callee : string) (arguments : dict) : phase_reply :=
  if String.eqb callee "generate_pm_feature_contract" then
    Returned (VDict [("ambiguity_score", VInt 75); ("clarifying_questions", VStrs ["Which order? Recommended default: ascending."]);
                     ("summary", VStr "Sort the lines of a file"); ("functional_requirements", VStrs ["sort"])])
  else Returned VNone.

Definition found_twice : MissionRecord :=
  default held_twice (match (fetch_mission "m1" held_twice_db).1 with Ok o => o | Raise _ => None end).

Lemma pm_intake_answers_witness :
  exists db' log,
    run_phase unsure (_prepare_pm_intake [("pm_auto_accept_defaults_enabled", VBool false)] "t" "u" found_sorting (fun _ => "h") "p" "m" "m1")
      held_twice_db = (inr false, db', log) /\
    intake_answer "t" "u" "m1" found_twice false db'.
Proof.
  do 2 eexists. split; [by_compute|].
  eapply (pm_intake_answers [("pm_auto_accept_defaults_enabled", VBool false)] "t" "u" found_sorting (fun _ => "h") "p" "m" unsure "m1" found_twice held_twice_db);
    by_compute.
Defined.

Lemma unsure_answers : model_answers unsure.
Proof.
  intros log arguments contract. unfold unsure. cbn [String.eqb]. intros [= <-]. eexists. split; reflexivity.
Qed.

Lemma holds_end_witness :
  (as_phase unsure (_prepare_pm_intake [] "t" "u" found_sorting (fun _ => "h") "p" "m" "m1") held_twice_db).1 = Ok true /\
  state_of (as_phase unsure (_prepare_pm_intake [] "t" "u" found_sorting (fun _ => "h") "p" "m" "m1") held_twice_db).2 "m1" =
  state_of held_twice_db "m1".
Proof.
  split; [by_compute|].
  apply (holds_end [] "t" "u" found_sorting (fun _ => "h") "p" "m" unsure "m1" found_twice held_twice_db 2 eq_refl unsure_answers);
    [by_compute|by_compute|lia].
Defined.
