(* ===== verification/Build.v ===== *)
(** * Build

    The build and fusion phases of the v2 driver: pod and specialist assignment, the
    specialist plan with its code generation and scaling, the group standard with the pod
    audit ([O/mission_flow_v2/phases_build.py]), and fusion ([phases_runtime.py]).
    Language models, the knowledge lake, the bus, the stores of pods and LogicNodes and
    audit events are calls to the outside. *)

From S2P Require Import Prelude PyVal Agents MissionStates MissionFlow Store Scaling Tasks Lifecycle Engines Routes.
From S2P Require Import Bundles Text Partitions Reports Phase Delivery RuntimeQc Gates Aim Port Intake.
From S2P Require Pods Producer.

(** [_setting_int(settings, name, default)] *)
Definition _setting_int (settings : dict) (name : string) (default_value : Z) : Z :=
  match dget_or settings name (VInt default_value) with
  | VInt z => z
  | VStr s =>
      if String.eqb (str_strip s) "" then default_value
      else match int_of_str (str_strip s) with Ok z => z | Raise _ => default_value end
  | _ => default_value
  end.

(** ** Chain events that are restated *)

Section restate.
Context (now event_type agent_id : string) (details : dict).

Definition restated (record : dict) : dict :=
  dset (dset (dset (dset record "agent_id" (VStr agent_id)) "details" (VDict details)) "ts" (VStr now)) "restated" (VBool true).

Definition has_type (record : dict) : bool := String.eqb (str_upper (py_str (dget_or record "event_type" (VStr "")))) event_type.

(** The first record of the type, from the newest on. *)
Fixpoint restate_first (newest_first : list val) : option (list val) :=
  match newest_first with
  | [] => None
  | VDict record :: rest => if has_type record then Some (VDict (restated record) :: rest) else cons (VDict record) <$> restate_first rest
  | entry :: rest => cons entry <$> restate_first rest
  end.

Definition _restate_chain_event (metadata : dict) : option dict :=
  match dget0 metadata "chain_trace" with
  | VList trace =>
      trace' ← restate_first (rev trace);
      Some (dset (dset (dset metadata "chain_trace" (VList (rev trace'))) "last_chain_event_type" (VStr event_type))
              "last_chain_event_at" (VStr now))
  | _ => None
  end.

(** The outcome of a phase: restated, or appended when there is none. *)
Definition state_outcome (metadata : dict) : dict :=
  match _restate_chain_event metadata with
  | Some metadata => metadata
  | None => append_chain_event metadata event_type agent_id (Some details) None now
  end.
End restate.

Section build.
Context (settings : dict) (now : string) (uuid : nat -> string).
Context (extract : string -> text -> result extraction) (sha256 : text -> string) (provider model : string) (half : val).

(** A message sent without waiting for its success. *)
Definition send (callee : string) (arguments : dict) : phase unit :=
  try_or (_ ← call callee arguments; tret tt) tt.

(** ** Pod assignment *)

Definition _language_pod_manager_agent_id (language : option string) : option string :=
  dget POD_MANAGER_BY_LANGUAGE (normalize_language language).

(** The manager delegated to, or the owner of the language where the registry knows it, with the correction. *)
Definition routed_pod_manager (mission : MissionRecord) (ceo_delegation : dict) : string * option dict :=
  let delegated := _validate_agent_id (dget0 ceo_delegation "pod_manager_agent_id") (resolve_pod_manager_agent_id (ms_language mission)) in
  match _language_pod_manager_agent_id (ms_language mission) with
  | Some owner =>
      if String.eqb delegated owner then (delegated, None)
      else (owner, Some [("delegated_pod_manager_agent_id", VStr delegated); ("corrected_pod_manager_agent_id", VStr owner);
                         ("requested_target_language", VStr (default "" (ms_language mission)));
                         ("reason", VStr "delegated-pod-manager-does-not-own-target-language"); ("corrected_at", VStr now)])
  | None => (delegated, None)
  end.

Definition persist_pod_assignment (mission_id : string) (mission : MissionRecord) (pod_manager specialist : string) : phase val :=
  let pod_name := Pods._pod_key_for_manager pod_manager in
  let details := [("assigned_by", VStr "orchestrator"); ("pod_name", VStr pod_name); ("agent_id", VStr pod_manager);
                  ("specialist_agent_id", VStr specialist); ("requested_target_language", VStr (default "" (ms_language mission)));
                  ("reason", VStr "delegation-routing")] in
  record ← try_or (v ← call "upsert_pod_assignment" [("mission_id", VStr mission_id); ("pod_name", VStr pod_name);
                                                     ("metadata", VDict details); ("provisional", VBool true)];
                   tret (Some v)) None;
  match record with
  | Some v =>
      _ ← record_audit_event mission_id pod_manager "MISSION_POD_ASSIGNMENT_WRITTEN" "pod_assignment" pod_name details;
      tret v
  | None => tret VNone
  end.

Definition _send_alpha_delegation_directive (mission_id pod_manager specialist : string) (language : option string) : phase unit :=
  send "send_alpha_directive"
    [("sender", VStr CEO_AGENT_ID); ("recipient", VStr pod_manager); ("target_pod", VStr (Pods._pod_key_for_manager pod_manager));
     ("directive_type", VStr "pod_manager_delegation");
     ("directive", VDict [("mission_id", VStr mission_id); ("pod_manager_agent_id", VStr pod_manager);
                          ("specialist_agent_id", VStr specialist); ("requested_target_language", str_or_none language)]);
     ("correlation_id", VStr ("alpha-" +:+ mission_id +:+ "-" +:+ pod_manager))].

Definition routing_metadata (metadata : dict) (correction : option dict) : dict :=
  match correction with Some c => dset metadata "pod_manager_routing_correction" (VDict c) | None => metadata end.

Definition assignment_metadata (metadata normalized : dict) (pod_manager specialist : string) : dict :=
  let metadata := dset metadata "pod_manager_delegation" (VDict normalized) in
  let metadata := dset metadata "assigned_pod_manager_agent_id" (VStr pod_manager) in
  let metadata := dset metadata "assigned_specialist_agent_id" (VStr specialist) in
  dset (dset metadata "selected_agent_id" (VStr pod_manager)) "agent_id" (VStr pod_manager).

Definition pod_assignment (mission_id : string) (mission : MissionRecord) : phase bool :=
  let metadata := phase_defaults mission in
  let ceo_delegation := dict_value (dget0 metadata "ceo_delegation") in
  let '(pod_manager, correction) := routed_pod_manager mission ceo_delegation in
  let metadata := routing_metadata metadata correction in
  let default_specialist := _validate_agent_id (dget0 ceo_delegation "specialist_agent_id") (resolve_specialist_agent_id (ms_language mission)) in
  delegation ← call "generate_pod_manager_delegation"
    [("mission_context", VDict (_mission_context mission metadata ++
       [("mission_type", dget0 metadata "mission_type"); ("sow_approved", VBool (truthy (dget0 metadata "sow_approved")));
        ("feature_contract", dget0 metadata "feature_contract"); ("ceo_delegation", VDict ceo_delegation);
        ("logic_clusters", dget0 metadata "logic_clusters")]));
     ("requested_target_language", str_or_none (ms_language mission)); ("pod_manager_agent_id", VStr pod_manager);
     ("default_specialist_agent_id", VStr default_specialist)];
  delegation ← pure (expect_dict delegation);
  let specialist := _validate_agent_id (dget0 delegation "specialist_agent_id") default_specialist in
  let normalized := dset (dset delegation "pod_manager_agent_id" (VStr pod_manager)) "specialist_agent_id" (VStr specialist) in
  let metadata := assignment_metadata metadata normalized pod_manager specialist in
  record ← persist_pod_assignment mission_id mission pod_manager specialist;
  let details := [("specialist_agent_id", VStr specialist)] ++ model_fields normalized route_keys ++
    [("pod_name", VStr (Pods._pod_key_for_manager pod_manager)); ("pod_assignment_recorded", VBool (negb (bool_decide (record = VNone))))] ++
    match correction with Some c => [("routing_correction", VDict c)] | None => [] end in
  let metadata := append_once now metadata "MISSION_POD_MANAGER_ASSIGNED" pod_manager details in
  let metadata := _record_artifact now metadata "pod_assigned" "MISSION_POD_MANAGER_ASSIGNED" pod_manager details in
  _ ← record_audit_event mission_id pod_manager "AGENT_DELEGATION_PLANNED" "delegation" "pod_manager"
        (model_fields normalized route_keys ++ [("pod_manager_agent_id", VStr pod_manager); ("specialist_agent_id", VStr specialist)]);
  _ ← _send_alpha_delegation_directive mission_id pod_manager specialist (ms_language mission);
  persisted mission_id metadata None.

Definition _prepare_pod_assignment (mission_id : string) : phase bool := on_mission mission_id (pod_assignment mission_id).

(** ** Specialist assignment *)

(** The agents assigned in the metadata, or those of the language. *)
Definition assigned_agents (mission : MissionRecord) (metadata : dict) : string * string :=
  (_validate_agent_id (dget0 metadata "assigned_pod_manager_agent_id") (resolve_pod_manager_agent_id (ms_language mission)),
   _validate_agent_id (dget0 metadata "assigned_specialist_agent_id") (resolve_specialist_agent_id (ms_language mission))).

Definition specialist_assignment (mission_id : string) (mission : MissionRecord) : phase bool :=
  let metadata := phase_defaults mission in
  let '(pod_manager, specialist) := assigned_agents mission metadata in
  let metadata := dset metadata "assigned_pod_manager_agent_id" (VStr pod_manager) in
  let metadata := dset metadata "assigned_specialist_agent_id" (VStr specialist) in
  let metadata := dset (dset metadata "selected_agent_id" (VStr specialist)) "agent_id" (VStr specialist) in
  let details := [("pod_manager_agent_id", VStr pod_manager)] in
  let metadata := append_once now metadata "MISSION_SPECIALIST_ASSIGNED" specialist details in
  let metadata := _record_artifact now metadata "specialist_assigned" "MISSION_SPECIALIST_ASSIGNED" specialist details in
  persisted mission_id metadata None.

Definition _prepare_specialist_assignment (mission_id : string) : phase bool := on_mission mission_id (specialist_assignment mission_id).

(** ** The specialist plan *)

Definition port_two_phase (metadata : dict) (port_phase : string) : bool :=
  String.eqb (upper_name (dget0 metadata "mission_type")) "PORT" && setting settings "port_two_phase_enabled" &&
  String.eqb (lower_name (dget0 metadata "port_phase")) port_phase.

(** The first pass of a port. *)
Definition port_first_pass (mission_id : string) (mission : MissionRecord) (metadata : dict) : phase bool :=
  '(metadata, updates) ← run_port_extraction_phase extract sha256 provider model now half mission metadata;
  updated ← storage (UpdateMetadata mission_id (dupdate metadata updates));
  tret (bool_decide (is_Some updated)).

(** The LogicNodes a port's generation starts from, if this is one. *)
Definition generation_nodes (metadata : dict) : val :=
  if port_two_phase metadata "generation" then py_or (dget0 metadata "port_source_logicnodes") (VList []) else VNone.

(** A value as a language name: what is no text names none. *)
Definition as_language (v : val) : option string := as_str v.

Definition planning_agents (mission : MissionRecord) (metadata : dict) : string * string :=
  let '(pod_manager, specialist) := assigned_agents mission metadata in
  (pod_manager,
   if port_two_phase metadata "generation" then
     _validate_agent_id (dget0 metadata "assigned_specialist_agent_id")
       (resolve_specialist_agent_id (as_language (py_or (dget0 metadata "port_target_language") (str_or_none (ms_language mission)))))
   else specialist).

(** *** Code generation *)

Definition aim_digest (aim : dict) : dict :=
  omap (fun key => if dmem aim key then Some (key, dget0 aim key) else None) ["languages"; "entrypoints"; "file_count"; "summary"].

Definition MAX_IMPORTED_CHARS : nat := Z.to_nat 80000.

Definition codegen_context (mission : MissionRecord) (metadata normalized : dict) (nodes : val) : dict :=
  _mission_context mission metadata ++
  [("feature_contract", dget0 metadata "feature_contract"); ("mission_contract", dget0 metadata "mission_contract");
   ("specialist_plan", VDict normalized)] ++
  (if truthy nodes then
     [("port_source_logicnodes", nodes); ("port_source_language", dget_or metadata "port_source_language" (VStr ""));
      ("port_target_language", dget_or metadata "port_target_language" (VStr ""))] else []) ++
  match source_text metadata with VStr source => [("imported_source_code", VStr (str_take MAX_IMPORTED_CHARS source))] | _ => [] end ++
  match dget0 metadata "application_intelligence_map" with
  | VDict ((_ :: _) as aim) => [("application_intelligence_map", VDict (aim_digest aim))]
  | _ => []
  end.

Definition target_language (mission : MissionRecord) (metadata : dict) : string :=
  str_or (stripped metadata "port_target_language") (str_or (default "" (ms_language mission)) "python").

Definition _send_beta_production_result (mission_id : string) (specialist : val) (pod_manager logicnode_id source_language : string)
    (payload : dict) : phase unit :=
  send "send_beta_result"
    [("sender", specialist); ("recipient", VStr pod_manager); ("logicnode_id", VStr logicnode_id); ("confidence_score", VInt 0);
     ("source_language", VStr source_language);
     ("payload", VDict ([(Producer.EMISSION_KEY, VStr "pbla_specialist_result")] ++ payload));
     ("correlation_id", VStr ("beta-" +:+ mission_id +:+ "-" +:+ logicnode_id))].

Definition output_details (output : dict) : dict :=
  model_fields output ["source"; "filename"; "language"] ++
  [("code_length_chars", dget_or output "code_length_chars" (VInt 0))] ++ model_fields output ["model_provider"; "model"].

(** [len(nodes)] of the nodes a port starts from. *)
Definition port_complete (metadata output : dict) (nodes : val) (specialist : string) : result dict :=
  if truthy nodes then
    append_with now metadata "MISSION_PORT_GENERATION_COMPLETE" specialist
      (n ← py_len nodes;
       Ok [("target_language", dget_or metadata "port_target_language" (VStr "")); ("source_logicnode_count", VInt n);
           ("filename", dget0 output "filename"); ("source", dget0 output "source")])
  else Ok metadata.

Definition generate_output (mission_id : string) (mission : MissionRecord) (metadata normalized : dict) (nodes : val)
    (pod_manager specialist : string) : phase dict :=
  let language := target_language mission metadata in
  knowledge ← call "get_language_context" [("language", VStr language); ("query", VStr "")];
  let context := codegen_context mission metadata normalized nodes in
  let context := if truthy knowledge then dset context "knowledge_context" knowledge else context in
  logicnodes ← pure (if truthy nodes then py_iter nodes else Ok []);
  output ← call "generate_code_from_contract"
    [("mission_context", VDict context); ("specialist_agent_id", VStr specialist); ("mission_contract", dget0 metadata "mission_contract");
     ("logicnodes", VList logicnodes); ("target_language", VStr language)];
  output ← pure (expect_dict output);
  let metadata := dset metadata "generated_output" (VDict output) in
  _ ← _send_beta_production_result mission_id (dget_or output "specialist_agent_id" (VStr specialist)) pod_manager
        ("ln-" +:+ mission_id +:+ "-specialist") (py_str (py_or (dget0 output "language") (VStr language))) [];
  let metadata := state_outcome now "GENERATED_OUTPUT_CREATED" specialist (output_details output) metadata in
  pure (port_complete metadata output nodes specialist).

Definition generates (metadata : dict) : bool :=
  is_dict (dget0 metadata "mission_contract") && negb (String.eqb (mode_of metadata "output_mode" "FULL_BUILD") "ANALYZE_ONLY") &&
  negb (is_dict (dget0 metadata "generated_output")).

(** *** Scaling *)

Definition scales (metadata : dict) (specialist : string) : bool :=
  setting settings "agent_scaling_enabled" && is_scalable_agent specialist && negb (is_dict (dget0 metadata "scaling_decision")).

Definition scaling_records (metadata : dict) (specialist : string) (scaling : ScalingDecision) : dict :=
  let metadata := dset (embed_scaling_decision metadata scaling) "scaling_partition_events_emitted" (VBool false) in
  let metadata := append_once now metadata "MISSION_SCALING_DECIDED" specialist
    [("instance_count", VInt (sd_instance_count scaling)); ("reason", VStr (sd_reason scaling));
     ("scaling_version", VStr (sd_scaling_version scaling))] in
  _record_artifact now metadata "scaling_decided" "MISSION_SCALING_DECIDED" specialist (ScalingDecision_to_dict scaling).

Definition decide_scaling (mission_id : string) (metadata normalized : dict) (specialist : string) : phase dict :=
  if scales metadata specialist then
    workload_items ← pure (_scaling_workload_items metadata normalized);
    let scaling := compute_scaling_decision uuid now specialist workload_items (_setting_int settings "agent_scaling_max_instances" 4)
                     (_setting_int settings "agent_scaling_items_per_instance" 3) in
    _ ← record_audit_event mission_id specialist "MISSION_SCALING_DECIDED" "scaling_plan" specialist (ScalingDecision_to_dict scaling);
    tret (scaling_records metadata specialist scaling)
  else tret metadata.

(** *** The plan *)

Definition plan_audit (mission_id : string) (metadata normalized : dict) (specialist : string) : phase unit :=
  deliverables ← pure (py_len (py_or (dget_or normalized "deliverables" (VList [])) (VList [])));
  risks ← pure (py_len (py_or (dget_or normalized "risk_notes" (VList [])) (VList [])));
  _ ← record_audit_event mission_id specialist "AGENT_PLAN_GENERATED" "plan" "specialist"
        (model_fields normalized route_keys ++ [("deliverable_count", VInt deliverables); ("risk_note_count", VInt risks)]);
  match dget0 metadata "generated_output" with
  | VDict output =>
      _ ← record_audit_event mission_id specialist "GENERATED_OUTPUT_CREATED" "generated_output"
            (py_str (py_or (dget0 output "filename") (VStr "generated_output")))
            (model_fields output ["source"; "filename"; "language"] ++ [("code_length_chars", dget_or output "code_length_chars" (VInt 0))]);
      tret tt
  | _ => tret tt
  end.

Definition generation_pass (mission_id : string) (mission : MissionRecord) (metadata : dict) : phase bool :=
  let '(pod_manager, specialist) := planning_agents mission metadata in
  let nodes := generation_nodes metadata in
  plan ← call "generate_specialist_plan"
    [("mission_context", VDict (_mission_context mission metadata ++
       [("ceo_delegation", dget0 metadata "ceo_delegation"); ("pod_manager_delegation", dget0 metadata "pod_manager_delegation")]));
     ("requested_target_language", str_or_none (ms_language mission)); ("specialist_agent_id", VStr specialist);
     ("pod_manager_agent_id", VStr pod_manager)];
  plan ← pure (expect_dict plan);
  let normalized := dset (dset plan "specialist_agent_id" (VStr specialist)) "pod_manager_agent_id" (VStr pod_manager) in
  let metadata := dset metadata "specialist_plan" (VDict normalized) in
  let metadata := dset (dset metadata "selected_agent_id" (VStr specialist)) "agent_id" (VStr specialist) in
  metadata ← (if generates metadata then generate_output mission_id mission metadata normalized nodes pod_manager specialist else tret metadata);
  let should_emit := negb (_chain_event_exists metadata "MISSION_SPECIALIST_PLANNED") in
  let details := [("pod_manager_agent_id", VStr pod_manager)] ++ model_fields normalized route_keys in
  let metadata := append_once now metadata "MISSION_SPECIALIST_PLANNED" specialist details in
  let metadata := _record_artifact now metadata "specialist_planned" "MISSION_SPECIALIST_PLANNED" specialist details in
  _ ← plan_audit mission_id metadata normalized specialist;
  metadata ← decide_scaling mission_id metadata normalized specialist;
  persisted mission_id metadata (if should_emit then Some ("MISSION_SPECIALIST_PLANNED", specialist_assigned) else None).

Definition extraction_due (metadata : dict) : bool :=
  port_two_phase metadata "extraction" && negb (_chain_event_exists metadata "MISSION_PORT_EXTRACTION_COMPLETE").

Definition specialist_plan (mission_id : string) (mission : MissionRecord) : phase bool :=
  let metadata := phase_defaults mission in
  if extraction_due metadata then port_first_pass mission_id mission metadata else generation_pass mission_id mission metadata.

Definition _prepare_specialist_plan (mission_id : string) : phase bool := on_mission mission_id (specialist_plan mission_id).

(** ** Runtime phases *)

Definition _persist_runtime_phase_artifact (mission : MissionRecord) (event_type : string) : phase MissionRecord :=
  let metadata := phase_defaults mission in
  let selected := _validate_agent_id (dget0 metadata "selected_agent_id")
    (py_str (py_or (dget0 metadata "assigned_specialist_agent_id") (VStr CEO_AGENT_ID))) in
  let metadata := _record_artifact now metadata (str_lower (state_value (ms_state mission))) event_type selected
    [("state", VStr (state_value (ms_state mission)))] in
  save_metadata mission metadata.

(** *** The group standard *)

Definition standard_details (pod_name : string) (standard : dict) (count : Z) : dict :=
  [("pod", VStr pod_name); ("canonical_logicnode_count", VInt count);
   ("eliminated_duplicates", dget_or standard "eliminated_duplicates" (VInt 0))].

Definition canonical_count (standard : dict) : Z := list_length (dget0 standard "canonical_logicnodes").

Definition thin_coverage (pod_name : string) (standard : dict) : option dict :=
  match dget0 standard "coverage_verdict" with
  | VDict verdict =>
      if truthy (dget_or verdict "coverage_thin" (VBool false)) then
        Some ([("pod", VStr pod_name)] ++
              model_fields verdict ["raw_logicnode_count"; "canonical_logicnode_count"; "expected_minimum_canonical_logicnodes"] ++
              [("findings", dget_or verdict "findings" (VList []))])
      else None
  | _ => None
  end.

Definition standard_records (metadata : dict) (pod_name pod_manager : string) (standard : dict) : dict :=
  let details := standard_details pod_name standard (canonical_count standard) in
  let metadata := append_once now metadata "MISSION_POD_GROUP_STANDARD_PRODUCED" pod_manager (details ++ model_fields standard route_keys) in
  let metadata := match thin_coverage pod_name standard with
                  | Some d => append_once now metadata "MISSION_POD_STANDARD_THIN_COVERAGE" pod_manager d
                  | None => metadata
                  end in
  _record_artifact now metadata "pod_group_standard" "MISSION_POD_GROUP_STANDARD_PRODUCED" pod_manager details.

(** [pod_audit.get("agent_id", pod_manager_agent_id)] *)
Definition auditor (pod_audit : dict) (pod_manager : string) : string := py_str (dget_or pod_audit "agent_id" (VStr pod_manager)).

(** [dict(metadata.get("pod_audit_verdicts") or {})] *)
Definition audit_verdicts (metadata : dict) : result dict :=
  match py_or (dget0 metadata "pod_audit_verdicts") (VDict []) with
  | VDict d => Ok d
  | VInt _ | VBool _ => Raise TypeError
  | _ => Raise ValueError
  end.

(** The audit verdict in the metadata, and whether it is to be sent. *)
Definition record_pod_audit (mission : MissionRecord) (metadata : dict) (pod_name pod_manager : string) (pod_audit : val) : phase (dict * dict * bool) :=
  verdicts ← pure (audit_verdicts metadata);
  let metadata := dset metadata "pod_audit_verdicts" (VDict (dset verdicts pod_name pod_audit)) in
  let should_emit := negb (_chain_event_exists metadata "MISSION_POD_AUDIT_COMPLETE") in
  if should_emit then
    audit ← pure (expect_dict pod_audit);
    let agent := auditor audit pod_manager in
    let metadata := append_chain_event metadata "MISSION_POD_AUDIT_COMPLETE" agent
      (Some ([("pod", VStr pod_name)] ++ model_fields audit ["verdict"; "quality_score"; "source"])) None now in
    findings ← pure (py_len (py_or (dget0 audit "findings") (VList [])));
    _ ← record_audit_event (ms_mission_id mission) agent "MISSION_POD_AUDIT_COMPLETE" "pod_audit_verdict" pod_name
          ([("pod", VStr pod_name)] ++ model_fields audit ["verdict"; "passed"; "quality_score"] ++ [("finding_count", VInt findings)] ++
           model_fields audit ["source"; "model_provider"; "model"]);
    tret (metadata, audit, true)
  else tret (metadata, dict_value pod_audit, false).

Definition _send_delta_audit_verdict (mission_id pod_name pod_manager : string) (pod_audit : dict) : phase unit :=
  send "send_delta_audit"
    [("sender", VStr (auditor pod_audit pod_manager)); ("recipient", VStr "broadcast");
     ("audit_result", VStr (Producer._map_verdict_to_audit_result (dget0 pod_audit "verdict")));
     ("verification_method", VStr (py_str (dget_or pod_audit "source" (VStr "pod_audit"))));
     ("tolerance_score", py_or (dget0 pod_audit "quality_score") (VInt 0));
     ("findings", VDict [(Producer.EMISSION_KEY, VStr Producer.PBLA_POD_AUDIT_TELEMETRY); ("mission_id", VStr mission_id);
                         ("pod", VStr pod_name); ("verdict", dget0 pod_audit "verdict")]);
     ("correlation_id", VStr ("delta-" +:+ mission_id +:+ "-" +:+ pod_name))].

Definition standards_of (metadata : dict) : dict := dict_value (dget0 metadata "pod_group_standards").

(** The manager whose pod's group standard a mission is at, and that pod. *)
Definition standard_manager (mission : MissionRecord) : string := (assigned_agents mission (phase_defaults mission)).1.
Definition pod_of (mission : MissionRecord) : string := Pods._pod_key_for_manager (standard_manager mission).

Definition _produce_pod_group_standard (mission : MissionRecord) : phase MissionRecord :=
  let metadata := phase_defaults mission in
  let id := ms_mission_id mission in
  let pod_manager := standard_manager mission in
  let pod_name := pod_of mission in
  if is_dict (dget0 (standards_of metadata) pod_name) then tret mission
  else
    let mission_contract := dict_value (dget0 metadata "mission_contract") in
    found ← call "list_logicnodes" [("mission_id", VStr id); ("limit", VInt 500)];
    let logicnodes := match found with VList l => List.filter is_dict l | _ => [] end in
    standard ← call "generate_pod_group_standard"
      [("pod_name", VStr pod_name); ("pod_manager_agent_id", VStr pod_manager); ("mission_id", VStr id); ("logicnodes", VList logicnodes);
       ("mission_contract", VDict mission_contract);
       ("source_code", VStr (py_str (py_or (dget0 metadata "source_code") (py_or (dget0 metadata "prompt") (VStr "")))))];
    standard ← pure (expect_dict standard);
    let metadata := dset metadata "pod_group_standards" (VDict (dset (standards_of metadata) pod_name (VDict standard))) in
    let metadata := dset (dset metadata "selected_agent_id" (VStr pod_manager)) "agent_id" (VStr pod_manager) in
    let metadata := standard_records metadata pod_name pod_manager standard in
    _ ← record_audit_event id pod_manager "MISSION_POD_GROUP_STANDARD_PRODUCED" "pod_group_standard" pod_name
          (standard_details pod_name standard (canonical_count standard) ++ model_fields standard ["source"; "model_provider"; "model"]);
    pod_audit ← call "generate_pod_audit_verdict"
      [("mission_id", VStr id); ("pod_name", VStr pod_name); ("mission_context", VDict (_mission_context mission metadata));
       ("pod_group_standard", VDict standard);
       ("generated_output", if is_dict (dget0 metadata "generated_output") then dget0 metadata "generated_output" else VNone)];
    '(metadata, audit, should_emit) ← record_pod_audit mission metadata pod_name pod_manager pod_audit;
    record ← _persist_metadata id metadata (Some ("MISSION_POD_GROUP_STANDARD_PRODUCED", gating));
    _ ← (if should_emit : bool then _send_delta_audit_verdict id pod_name pod_manager audit else tret tt);
    tret (default mission record).

(** *** Fusion *)

(** The standards the graph's ids name, in their order, and the others after them. *)
Definition ranked (standards : dict) (ids : list val) : dict :=
  foldl (fun ordered nid => match nid with
                            | VStr k => match dget standards k with Some v => dset ordered k v | None => ordered end
                            | _ => ordered
                            end) [] ids.

Definition with_rest (ordered standards : dict) : dict :=
  foldl (fun ordered p => if dmem ordered p.1 then ordered else dset ordered p.1 p.2) ordered standards.

Definition node_ids (graph_nodes : list val) : result (list val) :=
  mapM (fun n => match n with VDict d => dgetitem d "node_id" | _ => Raise TypeError end) graph_nodes.

(** The standards in the order of the graph, deepest nodes first. *)
Definition order_standards (standards : dict) (graph_nodes : list val) : result dict :=
  ids ← node_ids graph_nodes; Ok (with_rest (ranked standards ids) standards).

Definition sorted_standards (mission_id : string) (standards : val) : phase val :=
  if setting settings "neo4j_enabled" && truthy standards then
    try_or (nodes ← call "list_logicnodes_by_depth" [("mission_id", VStr mission_id); ("limit", VInt 2000)];
            if truthy nodes then
              nodes ← pure (py_iter nodes);
              standards ← pure (expect_dict standards);
              ordered ← pure (order_standards standards nodes);
              tret (VDict ordered)
            else tret standards) standards
  else tret standards.

Definition failed_fusion : dict :=
  [("master_logic_stream", VList []); ("total_unified_nodes", VInt 0); ("eliminated_across_pods", VInt 0);
   ("ready_for_codegen", VBool false); ("source", VStr "error")].

Definition fused_output (mission : MissionRecord) (metadata : dict) (mission_contract : val) (master_stream : dict) : phase dict :=
  let id := ms_mission_id mission in
  let '(pod_manager, specialist) := assigned_agents mission metadata in
  output ← try_or (v ← call "generate_code_from_contract"
                     [("mission_context", VDict (_mission_context mission metadata ++
                        [("mission_contract", mission_contract); ("specialist_plan", py_or (dget0 metadata "specialist_plan") (VDict []));
                         ("master_logic_stream", VDict master_stream)]));
                      ("specialist_agent_id", VStr specialist); ("mission_contract", mission_contract);
                      ("logicnodes", py_or (dget0 master_stream "master_logic_stream") (VList []));
                      ("target_language", VStr (str_or (default "" (ms_language mission)) "python"))];
                   tret (Some v)) None;
  match output with
  | None => tret metadata
  | Some v =>
      _ ← try_or (output ← pure (expect_dict v);
                  _send_beta_production_result id (dget_or output "specialist_agent_id" (VStr specialist)) pod_manager
                    ("ln-" +:+ id +:+ "-fused") (py_str (py_or (dget0 output "language") (VStr "python")))
                    [("unified_node_count", dget0 master_stream "total_unified_nodes")]) tt;
      tret (dset metadata "generated_output" v)
  end.

Definition fused (metadata : dict) (master_stream : dict) : bool :=
  negb (String.eqb (mode_of metadata "output_mode" "FULL_BUILD") "ANALYZE_ONLY") && truthy (dget0 master_stream "ready_for_codegen") &&
  negb (mission_has_generated_output (VDict metadata)).

Definition _prepare_fusion (mission : MissionRecord) : phase MissionRecord :=
  let metadata := phase_defaults mission in
  let mission_contract := py_or (dget0 metadata "mission_contract") (VDict []) in
  standards ← sorted_standards (ms_mission_id mission) (py_or (dget0 metadata "pod_group_standards") (VDict []));
  stream ← try_or (call "generate_master_logic_stream"
                     [("pod_group_standards", standards); ("mission_contract", mission_contract);
                      ("mission_context", VDict (_mission_context mission metadata))]) (VDict failed_fusion);
  stream ← pure (expect_dict stream);
  let metadata := dset metadata "master_logic_stream" (VDict stream) in
  metadata ← (if fused metadata stream then fused_output mission metadata mission_contract stream else tret metadata);
  metadata ← pure (append_with now metadata "MISSION_LOGIC_FOLDED" CEO_AGENT_ID
    (unified ← dgetitem stream "total_unified_nodes";
     eliminated ← dgetitem stream "eliminated_across_pods";
     ready ← dgetitem stream "ready_for_codegen";
     Ok [("unified_nodes", unified); ("eliminated", eliminated); ("ready_for_codegen", ready); ("source", dget0 stream "source")]));
  save_metadata mission metadata.
End build.

(** ** Deploy readiness *)

(** [build_deploy_readiness_assessment] of [O/llm_delegation/generators_artifacts.py] *)
Definition packaged (metadata : dict) (build_artifacts : list dict) : bool :=
  existsb (fun a => str_in (str_lower (py_str (py_or (dget0 a "artifact_type") (py_or (dget0 a "type") (VStr "")))))
                      ["generated_code"; "source_bundle_package"]) build_artifacts ||
  truthy (dget0 (dict_value (dget0 metadata "mission_artifacts")) "build_packaged").

Definition readiness_check (name summary : string) (passed : bool) : dict :=
  [("name", VStr name); ("passed", VBool passed); ("summary", VStr summary)].

Definition build_deploy_readiness_assessment (now mission_id : string) (metadata : dict) (build_artifacts : list dict) : dict :=
  let checks :=
    [readiness_check "packaged_artifact" "Mission has a generated-code or source-bundle build artifact." (packaged metadata build_artifacts);
     readiness_check "completion_evidence" "Mission contains completion evidence for operator review."
       (truthy (py_or (dget0 metadata "delivery_summary") (dget0 metadata "generated_output")));
     readiness_check "pod_standard" "Mission contains a pod group standard for traceability." (truthy (dget0 metadata "pod_group_standards"))] in
  let blockers := (fun c => dget0 c "name") <$> List.filter (fun c => negb (truthy (dget0 c "passed"))) checks in
  [("schema_version", VStr "deploy_readiness.v1"); ("mission_id", VStr (_clean_text (VStr mission_id) 96 false)); ("agent_id", VStr "AGENT-11-DEPLOY");
   ("ready", VBool (match blockers with [] => true | _ => false end)); ("blockers", VList blockers); ("checks", VList (VDict <$> checks));
   ("source", VStr "fallback"); ("created_at", VStr now)].

(** ** The phases are quiet *)

Section gentle.
Context (settings : dict) (now : string) (uuid : nat -> string).
Context (extract : string -> text -> result extraction) (sha256 : text -> string) (provider model : string) (half : val).

Lemma gentle_send callee arguments : issues gentle (send callee arguments).
Proof. unfold send. walk_phase. Qed.

Lemma gentle_on_mission id (t : MissionRecord -> phase bool) : (forall m, issues gentle (t m)) -> issues gentle (on_mission id t).
Proof. intros Ht. unfold on_mission. walk_phase. Qed.

Hint Resolve gentle_send : phases.

Lemma gentle_pod_record id mission manager specialist : issues gentle (persist_pod_assignment id mission manager specialist).
Proof. unfold persist_pod_assignment. walk_phase. Qed.

Lemma gentle_alpha id manager specialist language : issues gentle (_send_alpha_delegation_directive id manager specialist language).
Proof. apply gentle_send. Qed.

Lemma gentle_beta id specialist manager node language payload :
  issues gentle (_send_beta_production_result id specialist manager node language payload).
Proof. apply gentle_send. Qed.

Lemma gentle_delta id pod manager audit : issues gentle (_send_delta_audit_verdict id pod manager audit).
Proof. apply gentle_send. Qed.

Hint Resolve gentle_pod_record gentle_alpha gentle_beta gentle_delta : phases.

Lemma gentle_pod_assignment id : issues gentle (_prepare_pod_assignment now id).
Proof. apply gentle_on_mission. intros mission. unfold pod_assignment. walk_phase. Qed.

Lemma gentle_specialist_assignment id : issues gentle (_prepare_specialist_assignment now id).
Proof. apply gentle_on_mission. intros mission. unfold specialist_assignment. walk_phase. Qed.

Lemma gentle_output id mission metadata normalized nodes manager specialist :
  issues gentle (generate_output now id mission metadata normalized nodes manager specialist).
Proof. unfold generate_output. walk_phase. Qed.

Lemma gentle_scaling id metadata normalized specialist : issues gentle (decide_scaling settings now uuid id metadata normalized specialist).
Proof. unfold decide_scaling. walk_phase. Qed.

Lemma gentle_plan_audit id metadata normalized specialist : issues gentle (plan_audit id metadata normalized specialist).
Proof. unfold plan_audit. walk_phase. Qed.

Hint Resolve gentle_output gentle_scaling gentle_plan_audit : phases.

Lemma gentle_generation id mission metadata : issues gentle (generation_pass settings now uuid id mission metadata).
Proof. unfold generation_pass. walk_phase. Qed.

Lemma gentle_port_aim mission metadata language :
  issues gentle (port_aim extract sha256 provider model now mission metadata language).
Proof. unfold port_aim. pose proof gentle_aim. walk_phase. Qed.

Hint Resolve gentle_port_aim : phases.

Lemma gentle_extraction mission metadata :
  issues gentle (run_port_extraction_phase extract sha256 provider model now half mission metadata).
Proof. unfold run_port_extraction_phase, port_plan. walk_phase. Qed.

Hint Resolve gentle_extraction : phases.

Lemma gentle_first_pass id mission metadata : issues gentle (port_first_pass now extract sha256 provider model half id mission metadata).
Proof. unfold port_first_pass. walk_phase. Qed.

Hint Resolve gentle_generation gentle_first_pass : phases.

Lemma gentle_specialist_plan id : issues gentle (_prepare_specialist_plan settings now uuid extract sha256 provider model half id).
Proof. apply gentle_on_mission. intros mission. unfold specialist_plan. walk_phase. Qed.

Lemma gentle_runtime_artifact mission event : issues gentle (_persist_runtime_phase_artifact now mission event).
Proof. unfold _persist_runtime_phase_artifact. walk_phase. Qed.

Lemma gentle_pod_audit mission metadata pod manager audit : issues gentle (record_pod_audit now mission metadata pod manager audit).
Proof. unfold record_pod_audit. walk_phase. Qed.

Hint Resolve gentle_pod_audit : phases.

Lemma gentle_standard mission : issues gentle (_produce_pod_group_standard now mission).
Proof. unfold _produce_pod_group_standard. walk_phase. Qed.

Lemma gentle_sorted id standards : issues gentle (sorted_standards settings id standards).
Proof. unfold sorted_standards. walk_phase. Qed.

Lemma gentle_fused mission metadata contract stream : issues gentle (fused_output mission metadata contract stream).
Proof. unfold fused_output. walk_phase. Qed.

Hint Resolve gentle_sorted gentle_fused : phases.

Lemma gentle_fusion mission : issues gentle (_prepare_fusion settings now mission).
Proof. unfold _prepare_fusion. walk_phase. Qed.
End gentle.

(** ** Outcomes on the chain *)

(** A record of the type, among whatever a chain may hold. *)
Definition typed (event_type : string) (entry : val) : bool :=
  match entry with VDict record => has_type event_type record | _ => false end.

Abbreviation untyped event_type := (Forall (fun entry => typed event_type entry = false)).

Definition restated_keys : list string := ["agent_id"; "details"; "ts"; "restated"].

Section restating.
Context (now event_type agent_id : string) (details : dict).

Lemma restate_first_None l : restate_first now event_type agent_id details l = None <-> untyped event_type l.
Proof.
  induction l as [|e l IH]; [by split|]. rewrite Forall_cons, <- IH. cbn [restate_first].
  destruct e as [| | | | |r]; cbn [typed]; try (by destruct (restate_first _ _ _ _ l); intuition).
  destruct (has_type event_type r); [by intuition|]. by destruct (restate_first _ _ _ _ l); intuition.
Qed.

Lemma restate_first_Some l l' :
  restate_first now event_type agent_id details l = Some l' ->
  exists newer record older, l = newer ++ VDict record :: older /\ untyped event_type newer /\ has_type event_type record = true /\
    l' = newer ++ VDict (restated now agent_id details record) :: older.
Proof.
  assert (forall e l l', typed event_type e = false -> cons e <$> restate_first now event_type agent_id details l = Some l' ->
    (forall l', restate_first now event_type agent_id details l = Some l' ->
       exists newer record older, l = newer ++ VDict record :: older /\ untyped event_type newer /\ has_type event_type record = true /\
         l' = newer ++ VDict (restated now agent_id details record) :: older) ->
    exists newer record older, e :: l = newer ++ VDict record :: older /\ untyped event_type newer /\ has_type event_type record = true /\
      l' = newer ++ VDict (restated now agent_id details record) :: older) as Hskip.
  { intros e k k' He Hk IH. apply fmap_Some in Hk as (k2 & Hk & ->). apply IH in Hk as (newer & record & older & -> & Hn & Hr & ->).
    exists (e :: newer), record, older. split_and!; [done|by constructor|done|done]. }
  revert l'. induction l as [|e l IH]; intros l'; cbn [restate_first]; [done|].
  destruct e as [| | | | |r]; try (intros H; eapply Hskip; [done|exact H|exact IH]).
  destruct (has_type event_type r) eqn:Er; [|intros H; eapply Hskip; [exact Er|exact H|exact IH]].
  intros [= <-]. exists [], r, l. by split_and!.
Qed.

Lemma chain_trace_append metadata ts :
  chain_trace (append_chain_event metadata event_type agent_id (Some details) ts now) =
  chain_trace metadata ++ [VDict (chain_record event_type agent_id (str_or (default "" ts) now) (Some details))].
Proof. unfold chain_trace, append_chain_event. cbv zeta. by rewrite !dget0_dset_ne, dget0_dset_eq by discriminate. Qed.

Lemma restated_typed record : has_type event_type (restated now agent_id details record) = has_type event_type record.
Proof. unfold has_type, restated, dget_or. by rewrite !dget_dset_ne by discriminate. Qed.

Lemma restated_other record k : k ∉ restated_keys -> dget (restated now agent_id details record) k = dget record k.
Proof.
  unfold restated_keys, restated. rewrite !not_elem_of_cons. intros (? & ? & ? & ? & _). by rewrite !dget_dset_ne by done.
Qed.
End restating.

(** What stating an outcome makes of a chain. *)
Definition stated_on (now event_type agent_id : string) (details : dict) (trace trace' : list val) : Prop :=
  exists before record after,
    trace' = before ++ VDict record :: after /\ has_type event_type record = true /\ untyped event_type after /\
    dget record "details" = Some (VDict details) /\ dget record "agent_id" = Some (VStr agent_id) /\ dget record "ts" = Some (VStr now) /\
    ((untyped event_type trace /\ before = trace /\ after = []) \/
     (exists old, trace = before ++ VDict old :: after /\ has_type event_type old = true /\
        forall k, k ∉ restated_keys -> dget record k = dget old k)).

Lemma append_states now event_type agent_id details metadata :
  str_upper event_type = event_type -> details <> [] -> untyped event_type (chain_trace metadata) ->
  stated_on now event_type agent_id details (chain_trace metadata)
    (chain_trace (append_chain_event metadata event_type agent_id (Some details) None now)).
Proof.
  intros Hu Hd Hn. rewrite chain_trace_append. do 3 eexists. split; [done|]. destruct details as [|p d]; [done|].
  cbn [default str_or chain_record]. unfold has_type, dget_or. split_and!; try done; [|by left].
  change (String.eqb (str_upper event_type) event_type = true). by rewrite Hu, String.eqb_refl.
Qed.

Lemma restate_states now event_type agent_id details trace t' :
  restate_first now event_type agent_id details (rev trace) = Some t' -> stated_on now event_type agent_id details trace (rev t').
Proof.
  intros E. apply restate_first_Some in E as (newer & old & older & Hrev & Hn & Ho & ->).
  assert (trace = rev older ++ VDict old :: rev newer) as ->.
  { rewrite <- (rev_involutive trace), Hrev, rev_app_distr. cbn [rev]. by rewrite <- app_assoc. }
  exists (rev older), (restated now agent_id details old), (rev newer). rewrite rev_app_distr. cbn [rev]. rewrite <- app_assoc.
  split_and!; [done|by rewrite restated_typed|by apply Forall_rev| | | |];
    try (unfold restated; by rewrite ?dget_dset_ne, dget_dset_eq by discriminate).
  right. exists old. split_and!; [done|done|]. intros k Hk. by apply restated_other.
Qed.

(** An outcome is on the chain once it is stated: the newest record of its type carries its
    details.  A record of the type that was there is restated in its place, older ones and
    all other records are left alone, and without one a record is appended. *)
Lemma outcome_stated (now event_type agent_id : string) (details metadata : dict)
    (Hu : str_upper event_type = event_type) (Hd : details <> []) :
  stated_on now event_type agent_id details (chain_trace metadata) (chain_trace (state_outcome now event_type agent_id details metadata)).
Proof.
  unfold state_outcome, _restate_chain_event. pose proof (append_states now event_type agent_id details metadata Hu Hd) as Happ.
  destruct (dget0 metadata "chain_trace") as [| | | |trace|] eqn:Et; cbn [mbind option_bind];
    try (apply Happ; unfold chain_trace; rewrite Et; constructor).
  destruct (restate_first now event_type agent_id details (rev trace)) as [t'|] eqn:E; cbn [mbind option_bind].
  - apply restate_states in E. unfold chain_trace. rewrite Et. by rewrite !dget0_dset_ne, dget0_dset_eq by discriminate.
  - apply Happ. apply restate_first_None, Forall_rev in E. rewrite rev_involutive in E. unfold chain_trace. by rewrite Et.
Qed.

Definition failed_then_fixed : dict :=
  state_outcome "t2" "GENERATED_OUTPUT_CREATED" "AGENT-07" [("source", VStr "llm")]
    (append_chain_event (append_chain_event [] "GENERATED_OUTPUT_CREATED" "AGENT-07" (Some [("source", VStr "fallback")]) None "t0")
       "MISSION_SPECIALIST_PLANNED" "AGENT-07" None None "t1").

(** A failed code generation and its retry leave one record, in the place of the first. *)
Lemma outcome_stated_witness :
  (fun e => dget0 (dict_value e) "event_type") <$> chain_trace failed_then_fixed =
    [VStr "GENERATED_OUTPUT_CREATED"; VStr "MISSION_SPECIALIST_PLANNED"] /\
  stated_on "t2" "GENERATED_OUTPUT_CREATED" "AGENT-07" [("source", VStr "llm")]
    (chain_trace (append_chain_event (append_chain_event [] "GENERATED_OUTPUT_CREATED" "AGENT-07" (Some [("source", VStr "fallback")]) None "t0")
       "MISSION_SPECIALIST_PLANNED" "AGENT-07" None None "t1")) (chain_trace failed_then_fixed).
Proof. split; [by_compute|]. apply outcome_stated; [by_compute|discriminate]. Defined.

(** ** Who is assigned *)

Definition registered (agent_id : string) : Prop := existsb (fun a => String.eqb (ag_agent_id a) agent_id) AGENT_REGISTRY = true.

Lemma registered_in_registered a category pod : registered_in a category pod = true -> registered a.
Proof.
  unfold registered_in, registered. rewrite !existsb_exists. intros (x & Hx & H). exists x. split; [exact Hx|].
  by apply andb_true_iff in H as [[H _]%andb_true_iff _].
Qed.

Lemma validated_registered candidate fallback : registered fallback -> registered (_validate_agent_id candidate fallback).
Proof. unfold registered, _validate_agent_id. intros Hf. by case_match. Qed.

Lemma manager_registered language : registered (resolve_pod_manager_agent_id language).
Proof. destruct (routing_registered language) as (pod & H & _). by eapply registered_in_registered. Qed.

Lemma specialist_registered language : registered (resolve_specialist_agent_id language).
Proof. destruct (routing_registered language) as (pod & _ & H). by eapply registered_in_registered. Qed.

Lemma owner_registered language owner : _language_pod_manager_agent_id language = Some owner -> registered owner.
Proof.
  intros H. pose proof (manager_registered language) as Hm. unfold resolve_pod_manager_agent_id in Hm.
  unfold _language_pod_manager_agent_id in H. by rewrite H in Hm.
Qed.

Lemma wp_send {A} outside (Q : A -> DB * asked -> Prop) callee arguments (f : unit -> phase A) w :
  wp outside Q (f tt) (w.1, w.2 ++ [(callee, arguments)]) -> wp outside Q (send callee arguments ≫= f) w.
Proof.
  intros H. apply wp_bind. unfold wp at 1, send, try_or, call. cbn. by destruct (outside w.2 callee arguments) as [[]|v|e].
Qed.

(** What an assignment of pods leaves in the store. *)
Record assigned (db : DB) (id manager specialist : string) : Prop := {
  stored_manager : stored db id "assigned_pod_manager_agent_id" = VStr manager;
  stored_specialist : stored db id "assigned_specialist_agent_id" = VStr specialist;
  stored_selected : stored db id "selected_agent_id" = VStr manager;
  manager_known : registered manager;
  specialist_known : registered specialist;
}.

Definition ceo_choice (mission : MissionRecord) : dict := dict_value (dget0 (ms_metadata mission) "ceo_delegation").

(** The manager the CEO delegated to, where that is a registered agent. *)
Definition delegated_manager (mission : MissionRecord) : string :=
  _validate_agent_id (dget0 (ceo_choice mission) "pod_manager_agent_id") (resolve_pod_manager_agent_id (ms_language mission)).

(** A correction of the CEO's choice names both managers. *)
Definition corrects (correction : dict) (delegated manager : string) : Prop :=
  dget correction "delegated_pod_manager_agent_id" = Some (VStr delegated) /\
  dget correction "corrected_pod_manager_agent_id" = Some (VStr manager).

Lemma routed_spec now mission :
  let '(manager, correction) := routed_pod_manager now mission (ceo_choice mission) in
  registered manager /\ (forall owner, _language_pod_manager_agent_id (ms_language mission) = Some owner -> manager = owner) /\
  (delegated_manager mission <> manager -> exists c, correction = Some c /\ corrects c (delegated_manager mission) manager).
Proof.
  unfold routed_pod_manager. fold (delegated_manager mission).
  pose proof (validated_registered (dget0 (ceo_choice mission) "pod_manager_agent_id") _ (manager_registered (ms_language mission))) as Hd.
  fold (delegated_manager mission) in Hd.
  destruct (_language_pod_manager_agent_id _) as [owner|] eqn:Eo.
  - apply owner_registered in Eo. destruct (String.eqb_spec (delegated_manager mission) owner) as [<-|Hne].
    + split; [exact Hd|]. split; [by intros ? [= ->]|]. congruence.
    + split; [exact Eo|]. split; [by intros ? [= ->]|]. intros _. eexists. split; [reflexivity|]. split; reflexivity.
  - split; [exact Hd|]. split; [discriminate|]. congruence.
Qed.

Section assignment.
Context (now : string) (outside : asked -> string -> dict -> phase_reply).

(** Where a pod assignment of a mission leads. *)
Definition assignment_outcome (id : string) (mission : MissionRecord) (db db' : DB) (log : asked) : Prop :=
  exists manager specialist arguments,
    quiet id db db' /\ assigned db' id manager specialist /\
    (forall owner, _language_pod_manager_agent_id (ms_language mission) = Some owner -> manager = owner) /\
    (delegated_manager mission <> manager ->
       exists c, stored db' id "pod_manager_routing_correction" = VDict c /\ corrects c (delegated_manager mission) manager) /\
    last log = Some ("send_alpha_directive", arguments) /\ dget arguments "recipient" = Some (VStr manager).

Lemma assignment_made (id : string) (mission : MissionRecord) (db db' : DB) (log : asked)
    (Hf : fetch_mission id db = (Ok (Some mission), db))
    (Hrun : run_phase outside (_prepare_pod_assignment now id) db = (inr true, db', log)) :
  assignment_outcome id mission db db' log.
Proof.
  pose proof (fetched_state _ _ _ Hf) as Hs. revert Hrun.
  refine (run_phase_wp outside (fun b w' => assignment_outcome id mission db w'.1 w'.2) _ _ _ _ _ _).
  unfold _prepare_pod_assignment, on_mission. eapply wp_fetched; [exact Hf|]. unfold pod_assignment. cbv zeta.
  rewrite (defaults_keep0 mission "ceo_delegation") by done. fold (ceo_choice mission). pose proof (routed_spec now mission) as Hr.
  destruct (routed_pod_manager now mission (ceo_choice mission)) as [manager correction]. destruct Hr as (Hm & Ho & Hc).
  apply wp_bind, (wp_gentle outside id); [walk_phase|]. intros v w1 Hq1. apply wp_bind, wp_pure. intros delegation _.
  set (specialist := _validate_agent_id (dget0 delegation _) _).
  pose proof (validated_registered (dget0 delegation "specialist_agent_id") _
    (validated_registered (dget0 (ceo_choice mission) "specialist_agent_id") _ (specialist_registered (ms_language mission)))) as Hsp.
  fold specialist in Hsp. clearbody specialist.
  apply wp_bind, (wp_gentle outside id); [apply gentle_pod_record|]. intros v2 w2 Hq2.
  apply wp_bind, (wp_gentle outside id); [apply gentle_audit|]. intros v3 w3 Hq3. apply wp_send.
  assert (quiet id db w3.1) as Hq by (cbn [fst] in Hq1; by repeat (etrans; [eassumption|])).
  eapply wp_persisted; [cbn [fst]; by rewrite (proj1 Hq)|]. intros db1 Hq4 Hk. cbn [fst snd] in *.
  unfold assignment_outcome. do 3 eexists. split; [by etrans|]. split; [|split; [exact Ho|split; [|split; [by rewrite last_snoc|reflexivity]]]].
  - split; [..|exact Hm|exact Hsp]; rewrite Hk, record_artifact_keeps by done; unfold assignment_metadata; cbv zeta; by meta_simpl.
  - intros Hne. destruct (Hc Hne) as (c & -> & Hcc). exists c. split; [|exact Hcc].
    rewrite Hk, record_artifact_keeps by done. unfold assignment_metadata, routing_metadata. cbv zeta. by meta_simpl.
Qed.

(** C36: Whatever the CEO delegated to and the model answered: a pod assignment that agrees leaves
    the mission where it is, with a registered manager and a registered specialist.  The
    manager is the one who owns the mission's language, if the registry knows it, and where
    that is not whom the CEO chose the correction is kept.  The last thing asked of the
    outside is to send that manager the directive. *)
Theorem pod_manager_owns_language (id : string) (mission : MissionRecord) (db db' : DB) (log : asked)
    (Hf : fetch_mission id db = (Ok (Some mission), db))
    (Hrun : run_phase outside (_prepare_pod_assignment now id) db = (inr true, db', log)) :
  assignment_outcome id mission db db' log.
Proof. exact (assignment_made id mission db db' log Hf Hrun). Qed.
End assignment.

(** A Rust mission the CEO gave to the manager of Pod A. *)
Definition misrouted : MissionRecord :=
  mkMission "m1" "sort it" (Some "rust") None None None None
    [("ceo_delegation", VDict [("pod_manager_agent_id", VStr DEFAULT_POD_MANAGER_AGENT_ID)])] None None ceo_delegated "t0".

Definition misrouted_db : DB := (persist_intake_mission misrouted "1-0" empty_db).2.

Definition misrouted_found : MissionRecord :=
  default misrouted (match (fetch_mission "m1" misrouted_db).1 with Ok o => o | Raise _ => None end).

Lemma pod_manager_owns_language_witness :
  delegated_manager misrouted_found = DEFAULT_POD_MANAGER_AGENT_ID /\
  _language_pod_manager_agent_id (Some "rust") <> Some DEFAULT_POD_MANAGER_AGENT_ID /\
  exists db' log, assignment_outcome "m1" misrouted_found misrouted_db db' log.
Proof.
  split; [by_compute|]. split; [by vm_compute|]. do 2 eexists.
  eapply (pod_manager_owns_language "t" willing "m1" misrouted_found misrouted_db); by_compute.
Defined.

(** ** What the phases keep of a mission *)

Lemma outcome_keeps now ev agent details metadata k :
  str_in k chain_keys = false -> dget0 (state_outcome now ev agent details metadata) k = dget0 metadata k.
Proof.
  intros Hk. unfold state_outcome, _restate_chain_event. pose proof (append_keeps metadata ev agent (Some details) None now k Hk) as Ha.
  destruct (dget0 metadata "chain_trace"); try exact Ha. destruct (restate_first _ _ _ _ _); cbn [mbind option_bind]; [|exact Ha].
  apply str_in_false in Hk. unfold chain_keys in Hk. rewrite !not_elem_of_cons in Hk. destruct Hk as (H1 & H2 & H3 & _).
  by rewrite !dget0_dset_ne by congruence.
Qed.

Lemma dupdate_keeps (d e : dict) k : k ∉ dkeys e -> dget0 (dupdate d e) k = dget0 d k.
Proof.
  revert d. induction e as [|[k' v] e IH]; intros d; [done|]. cbn [dkeys fmap list_fmap fst]. rewrite not_elem_of_cons. intros [Hne Hk].
  change (dupdate d ((k', v) :: e)) with (dupdate (dset d k' v) e). rewrite (IH (dset d k' v) Hk). by apply dget0_dset_ne.
Qed.

Lemma run_on_mission outside id mission (t : MissionRecord -> phase bool) db :
  fetch_mission id db = (Ok (Some mission), db) -> run_phase outside (on_mission id t) db = run_phase outside (t mission) db.
Proof.
  intros Hf. unfold run_phase, on_mission, mbind, task_bind, storage. cbn -[fetch_mission]. unfold db_act. cbn -[fetch_mission].
  rewrite Hf. cbn. by destruct (run _ (t mission) (db, [])) as [[out [db' log]] tr].
Qed.

(** ** Code is asked for once *)

(** Whether a mission may still be given code: it is not only to be analysed, and has none. *)
Definition analyze_only (metadata : dict) : bool := String.eqb (mode_of metadata "output_mode" "FULL_BUILD") "ANALYZE_ONLY".

Section codegen.
Context (settings : dict) (now : string) (uuid : nat -> string).
Context (extract : string -> text -> result extraction) (sha256 : text -> string) (provider model : string) (half : val).

Abbreviation codegen := "generate_code_from_contract".

Lemma once_output id mission metadata normalized nodes manager specialist :
  at_most (calls codegen) 1 (generate_output now id mission metadata normalized nodes manager specialist).
Proof.
  unfold generate_output. cbv zeta. apply (at_most_mbind _ 0 1); [apply at_most_none; walk_phase|]. intros knowledge.
  apply (at_most_mbind _ 0 1); [apply at_most_none; walk_phase|]. intros logicnodes.
  apply (at_most_mbind _ 1 0); [cbn; intros [a|v|e]; cbn; [by destruct a|by destruct v|done]|intros output].
  apply at_most_none. unfold _send_beta_production_result, send. walk_phase.
Qed.

Lemma never_plan id metadata normalized specialist :
  never codegen (plan_audit id metadata normalized specialist) /\ never codegen (decide_scaling settings now uuid id metadata normalized specialist).
Proof. unfold plan_audit, decide_scaling, record_audit_event. split; walk_phase. Qed.

Lemma once_generation id mission metadata :
  at_most (calls codegen) (if generates metadata then 1 else 0) (generation_pass settings now uuid id mission metadata).
Proof.
  unfold generation_pass. destruct (planning_agents settings mission metadata) as [manager specialist]. cbv zeta.
  set (n := if generates metadata then 1%nat else 0%nat).
  apply (at_most_mbind _ 0 n); [apply at_most_none; walk_phase|]. intros plan.
  apply (at_most_mbind _ 0 n); [apply at_most_none; walk_phase|]. intros delegation. rewrite <- (Nat.add_0_r n).
  apply at_most_mbind.
  - assert (generates (dset (dset (dset metadata "specialist_plan" (VDict (dset (dset delegation "specialist_agent_id" (VStr specialist)) "pod_manager_agent_id" (VStr manager))))
      "selected_agent_id" (VStr specialist)) "agent_id" (VStr specialist)) = generates metadata) as ->.
    { unfold generates, mode_of. by meta_simpl. }
    subst n. destruct (generates metadata); [apply once_output|by apply at_most_none].
  - intros m. apply at_most_none. unfold persisted, _persist_metadata. pose proof never_plan as H.
    apply issues_mbind; [apply H|intros []]. apply issues_mbind; [apply H|intros m']. walk_phase.
Qed.

Lemma never_first_pass id mission metadata :
  never codegen (port_first_pass now extract sha256 provider model half id mission metadata).
Proof.
  unfold port_first_pass, run_port_extraction_phase, port_aim, port_plan, generate_aim. walk_phase.
Qed.

Lemma once_plan id mission :
  at_most (calls codegen) (if generates (phase_defaults mission) then 1 else 0)
    (specialist_plan settings now uuid extract sha256 provider model half id mission).
Proof.
  unfold specialist_plan. cbv zeta. destruct (extraction_due _ _); [|apply once_generation].
  apply (at_most_le _ 0); [lia|]. apply at_most_none, never_first_pass.
Qed.

Lemma once_fused mission metadata contract stream : at_most (calls codegen) 1 (fused_output mission metadata contract stream).
Proof.
  unfold fused_output. cbv zeta. destruct (assigned_agents mission metadata) as [manager specialist].
  apply (at_most_mbind _ 1 0).
  - unfold try_or. apply (at_most_catch _ 1 0); [|done].
    apply (at_most_mbind _ 1 0); [cbn; intros [a|v|e]; cbn; [by destruct a|by destruct v|done]|done].
  - intros output. apply at_most_none. unfold _send_beta_production_result, send. walk_phase.
Qed.

Lemma once_fusion mission :
  at_most (calls codegen) (if analyze_only (phase_defaults mission) || mission_has_generated_output (VDict (phase_defaults mission)) then 0 else 1)
    (_prepare_fusion settings now mission).
Proof.
  unfold _prepare_fusion. cbv zeta. set (n := if _ || _ then 0%nat else 1%nat).
  apply (at_most_mbind _ 0 n); [unfold sorted_standards; apply at_most_none; walk_phase|]. intros standards.
  apply (at_most_mbind _ 0 n); [apply at_most_none; walk_phase|]. intros stream.
  apply (at_most_mbind _ 0 n); [apply at_most_none; walk_phase|]. intros master. rewrite <- (Nat.add_0_r n).
  apply at_most_mbind; [|intros m; apply at_most_none; walk_phase].
  destruct (fused _ _) eqn:E; [|by apply at_most_le with 0%nat; [lia|apply at_most_none]].
  assert (n = 1%nat) as ->; [|apply once_fused]. subst n. unfold fused in E. apply andb_true_iff in E as [[E1 _]%andb_true_iff E2].
  unfold mission_has_generated_output in E2 |- *. revert E1 E2. unfold analyze_only, mode_of. meta_simpl.
  destruct (String.eqb _ _); [done|]. intros _ E2. apply negb_true_iff in E2. by rewrite E2.
Qed.

(** A mission is asked code for at most once by its plan, and at most once by fusion; not at
    all when it is only to be analysed, nor by the plan once it has an output, nor by fusion
    once it has an output that is real code. *)
Lemma code_asked_once (outside : asked -> string -> dict -> phase_reply) (id : string) (mission fusing : MissionRecord)
    (db db1 db2 db3 : DB) (out : exn + bool) (fusion : exn + MissionRecord) (log log' : asked)
    (Hf : fetch_mission id db = (Ok (Some mission), db))
    (Hplan : run_phase outside (_prepare_specialist_plan settings now uuid extract sha256 provider model half id) db = (out, db1, log))
    (Hfusion : run_phase outside (_prepare_fusion settings now fusing) db2 = (fusion, db3, log')) :
  (count codegen log <= if analyze_only (ms_metadata mission) || is_dict (dget0 (ms_metadata mission) "generated_output") then 0 else 1)%nat /\
  (count codegen log' <= if analyze_only (ms_metadata fusing) || mission_has_generated_output (VDict (ms_metadata fusing)) then 0 else 1)%nat.
Proof.
  split.
  - unfold _prepare_specialist_plan in Hplan. rewrite (run_on_mission _ _ _ _ _ Hf) in Hplan.
    refine (Nat.le_trans _ _ _ (run_phase_counts _ _ _ _ _ _ _ _ (once_plan id mission) Hplan) _).
    unfold generates, analyze_only, mode_of. rewrite !defaults_keep0 by done.
    destruct (is_dict (dget0 _ "mission_contract")), (String.eqb _ _), (is_dict (dget0 _ "generated_output")); cbn; lia.
  - refine (Nat.le_trans _ _ _ (run_phase_counts _ _ _ _ _ _ _ _ (once_fusion fusing) Hfusion) _).
    unfold analyze_only, mode_of, mission_has_generated_output. by rewrite !defaults_keep0 by done.
Qed.
End codegen.

Definition to_build : MissionRecord :=
  mkMission "m1" "sort it" (Some "python") None None None None [("mission_contract", VDict [("goal", VStr "sort")])] None None
    specialist_assigned "t0".

Definition build_db : DB := (persist_intake_mission to_build "1-0" empty_db).2.

Definition build_found : MissionRecord :=
  default to_build (match (fetch_mission "m1" build_db).1 with Ok o => o | Raise _ => None end).

(** A model that writes a program. *)
Definition coder (log : asked) (callee : string) (arguments : dict) : phase_reply :=
  if String.eqb callee "generate_code_from_contract" then Returned (VDict [("source", VStr "llm"); ("generated_code", VStr "print(sorted([]))")])
  else if String.eqb callee "generate_master_logic_stream" then
    Returned (VDict [("total_unified_nodes", VInt 1); ("eliminated_across_pods", VInt 0); ("ready_for_codegen", VBool true)])
  else Returned (VDict []).

Abbreviation plan_of settings := (_prepare_specialist_plan settings "t" (fun _ => "u") found_sorting (fun _ => "h") "p" "m" (VStr "0.5")).

Lemma code_asked_once_witness :
  exists out db1 log fusion db3 log',
    run_phase coder (plan_of [] "m1") build_db = (out, db1, log) /\
    run_phase coder (_prepare_fusion [] "t" build_found) build_db = (fusion, db3, log') /\
    count "generate_code_from_contract" log = 1%nat /\ count "generate_code_from_contract" log' = 1%nat /\
    (count "generate_code_from_contract" log <= 1)%nat /\ (count "generate_code_from_contract" log' <= 1)%nat.
Proof.
  do 6 eexists. split; [by_compute|]. split; [by_compute|]. split; [by_compute|]. split; [by_compute|].
  eapply (code_asked_once [] "t" (fun _ => "u") found_sorting (fun _ => "h") "p" "m" (VStr "0.5") coder "m1" build_found build_found build_db _ build_db);
    by_compute.
Defined.

(** ** The two passes of a port *)

Section port.
Context (settings : dict) (now : string) (uuid : nat -> string).
Context (extract : string -> text -> result extraction) (sha256 : text -> string) (provider model : string) (half : val).

End port.

Definition port_of_python : MissionRecord :=
  mkMission "m1" "port it" (Some "rust") None None None None
    [("mission_type", VStr "PORT"); ("port_phase", VStr "extraction"); ("source_code", VStr "## FILE sort.py"); ("port_source_language", VStr "python");
     ("mission_contract", VDict [("goal", VStr "sort")])] None None specialist_assigned "t0".

Definition port_db : DB := (persist_intake_mission port_of_python "1-0" empty_db).2.

Definition port_found : MissionRecord :=
  default port_of_python (match (fetch_mission "m1" port_db).1 with Ok o => o | Raise _ => None end).

Definition two_phases : dict := [("port_two_phase_enabled", VBool true)].


(** ** The order of fusion *)

Definition within (d standards : dict) : Prop := dict_wf d /\ forall k v, dget d k = Some v -> dget standards k = Some v.

Lemma within_dset d standards k v : within d standards -> dget standards k = Some v -> within (dset d k v) standards.
Proof.
  intros [Hwf Hd] Hk. split; [by apply dset_wf|]. intros k' v'. rewrite dget_dset. case_decide as E; [|by apply Hd]. intros [= <-]. by rewrite <- E.
Qed.

Lemma ranked_within standards ids : within (ranked standards ids) standards.
Proof.
  unfold ranked. assert (within [] standards) as H by (split; [constructor|done]). revert H. generalize ([] : dict) as acc.
  induction ids as [|nid ids IH]; intros acc Hacc; cbn [foldl]; [done|]. apply IH.
  destruct nid; try done. case_match; [|done]. by apply within_dset.
Qed.

Lemma with_rest_spec acc standards rest :
  dict_wf standards -> rest ⊆ standards -> within acc standards ->
  within (with_rest acc rest) standards /\ (forall k, dmem acc k = true -> dmem (with_rest acc rest) k = true) /\
  forall p, p ∈ rest -> dmem (with_rest acc rest) p.1 = true.
Proof.
  intros Hwf. unfold with_rest. revert acc. induction rest as [|p rest IH]; intros acc Hin Hacc; cbn [foldl].
  - split_and!; [done|done|]. intros p Hp. by apply not_elem_of_nil in Hp.
  - set (acc' := if dmem acc p.1 then acc else dset acc p.1 p.2).
    assert (within acc' standards /\ (forall k, dmem acc k = true -> dmem acc' k = true) /\ dmem acc' p.1 = true) as (Ha & Hk & Hp).
    { subst acc'. destruct (dmem acc p.1) eqn:E; [done|]. split_and!.
      - apply within_dset; [done|]. apply dget_elem; [done|]. apply Hin. destruct p. by left.
      - intros k Hk. rewrite dmem_dset, Hk. apply orb_true_r.
      - by rewrite dmem_dset, bool_decide_eq_true_2. }
    destruct (IH acc' ltac:(intros x Hx; apply Hin; by right) Ha) as (H1 & H2 & H3). split_and!; [done| |].
    + intros k Hm. by apply H2, Hk.
    + intros q [->|Hq]%elem_of_cons; [by apply H2|by apply H3].
Qed.

Lemma same_lookups_perm (d e : dict) : dict_wf d -> dict_wf e -> (forall k, dget d k = dget e k) -> d ≡ₚ e.
Proof.
  intros Hd He H. assert (forall d : dict, dict_wf d -> NoDup d) as Hnd by (intros x Hx; by eapply NoDup_fmap_1).
  apply NoDup_Permutation; [by apply Hnd..|]. intros [k v]. split; intros Hin.
  - apply dget_In. rewrite <- H. by apply dget_elem.
  - apply dget_In. rewrite H. by apply dget_elem.
Qed.

Lemma dset_fresh (d : dict) k v : dmem d k = false -> dset d k v = d ++ [(k, v)].
Proof.
  unfold dmem. induction d as [|[k' v'] d IH]; cbn; [done|]. destruct (String.eqb k k'); [done|]. intros H. by rewrite IH.
Qed.

Lemma with_rest_fresh acc rest : dict_wf (acc ++ rest) -> with_rest acc rest = acc ++ rest.
Proof.
  unfold with_rest. revert acc. induction rest as [|[k v] rest IH]; intros acc Hwf; cbn [foldl fst snd]; [by rewrite app_nil_r|].
  assert (dmem acc k = false) as Hk.
  { destruct (dmem acc k) eqn:E; [|done]. apply dmem_keys in E. unfold dict_wf, dkeys in Hwf. rewrite fmap_app in Hwf.
    apply NoDup_app in Hwf as (_ & Hn & _). destruct (Hn k E). by left. }
  rewrite Hk, dset_fresh by done. assert (acc ++ (k, v) :: rest = (acc ++ [(k, v)]) ++ rest) as E by (by rewrite <- app_assoc).
  rewrite E in Hwf |- *. by apply IH.
Qed.

Lemma ranked_unnamed standards ids : (forall k, VStr k ∈ ids -> dmem standards k = false) -> ranked standards ids = [].
Proof.
  unfold ranked. induction ids as [|nid ids IH]; intros H; cbn [foldl]; [done|].
  assert (forall k, VStr k ∈ ids -> dmem standards k = false) as H' by (intros k Hk; apply H; by right).
  destruct nid as [| | |k| |]; try exact (IH H'). pose proof (H k ltac:(by left)) as Hk. unfold dmem in Hk.
  destruct (dget standards k); [done|]. exact (IH H').
Qed.


Definition two_standards : dict := [("podA", VDict [("n", VInt 1)]); ("podB", VDict [("n", VInt 2)])].


(** ** Deploy readiness *)

(** A mission is ready to be deployed exactly when it has a packaged artifact, evidence of its
    completion and a group standard; the blockers are what is missing of these, in order. *)
Lemma readiness_exact (now mission_id : string) (metadata : dict) (build_artifacts : list dict) :
  let report := build_deploy_readiness_assessment now mission_id metadata build_artifacts in
  let evidence := truthy (py_or (dget0 metadata "delivery_summary") (dget0 metadata "generated_output")) in
  let standard := truthy (dget0 metadata "pod_group_standards") in
  dget0 report "ready" = VBool (packaged metadata build_artifacts && evidence && standard) /\
  dget0 report "blockers" = VList ((if packaged metadata build_artifacts then [] else [VStr "packaged_artifact"]) ++
    (if evidence then [] else [VStr "completion_evidence"]) ++ (if standard then [] else [VStr "pod_standard"])).
Proof.
  cbv zeta. unfold build_deploy_readiness_assessment. cbv zeta.
  destruct (packaged metadata build_artifacts), (truthy (py_or _ _)), (truthy (dget0 metadata "pod_group_standards")); split; reflexivity.
Qed.

(** ** One standard a pod *)

Section standards.
Context (now : string) (outside : asked -> string -> dict -> phase_reply).

Lemma wp_logged {A} (Q : A -> DB * asked -> Prop) id s ev (f : option MissionRecord -> phase A) w :
  (forall db', quiet id w.1 db' -> (forall i k, stored db' i k = stored w.1 i k) -> wp outside Q (f None) (db', w.2)) ->
  wp outside Q (storage (LogEvent id (Some s) s ev) ≫= f) w.
Proof.
  intros HQ. apply wp_bind. unfold wp at 1, storage. cbn -[insert_mission_event]. unfold db_act. cbn -[insert_mission_event].
  pose proof (keeps_log id id s ev w.1) as Hq. destruct (insert_mission_event id (Some s) s ev w.1) as [r db'] eqn:E.
  destruct r; cbn; [|done]. apply HQ; [exact Hq|]. intros i k. unfold insert_mission_event in E. destruct (db_missions w.1 !! id); [|done].
  injection E as _ <-. reflexivity.
Qed.

Definition standards_kept (standards standards' : dict) (pod : string) (standard : dict) : Prop :=
  dget standards' pod = Some (VDict standard) /\ forall other, other <> pod -> dget standards' other = dget standards other.

Lemma records_keep metadata pod manager standard k :
  str_in k ("mission_artifacts" :: chain_keys) = false -> dget0 (standard_records now metadata pod manager standard) k = dget0 metadata k.
Proof.
  intros Hk. assert (str_in k chain_keys = false) as Hc by (apply orb_false_iff in Hk; apply Hk).
  apply str_in_false in Hk. rewrite not_elem_of_cons in Hk. destruct Hk as [Hne _]. unfold standard_records. cbv zeta.
  rewrite record_artifact_keeps by done. destruct (thin_coverage pod standard); by rewrite !append_once_keeps.
Qed.

Lemma pod_audit_keeps mission metadata pod manager audit :
  yields (fun x => dget0 x.1.1 "pod_group_standards" = dget0 metadata "pod_group_standards")
    (record_pod_audit now mission metadata pod manager audit).
Proof.
  unfold record_pod_audit. eapply yields_mbind; [apply yields_true|]. intros verdicts _. cbv zeta.
  destruct (negb _); [|cbn [yields tret fst]; by meta_simpl]. do 3 (eapply yields_mbind; [apply yields_true|]; intros ? _).
  cbn [yields tret fst]. by meta_simpl.
Qed.

Lemma wp_emitted id metadata s ev st (Q : MissionRecord -> DB * asked -> Prop) (f : option MissionRecord -> phase MissionRecord) w :
  state_of w.1 id = Some (state_value s) ->
  (forall m db', quiet id w.1 db' -> (forall k, str_in k rewritten_keys = false -> stored db' id k = dget0 metadata k) ->
     wp outside Q (f (Some m)) (db', w.2)) ->
  wp outside Q (_persist_metadata id metadata (Some (ev, st)) ≫= f) w.
Proof.
  intros Hs HQ. unfold _persist_metadata. apply wp_bind. eapply wp_update; [exact Hs|]. intros m db1 Hq1 H1.
  apply wp_logged. intros db2 Hq2 H2. apply wp_ret, HQ; [cbn [fst] in *; by etrans|]. intros k Hk. rewrite H2. by apply H1.
Qed.

(** A pod's group standard is produced once: a mission whose pod has one costs no call and is
    not written.  Otherwise the store has the standards it had, and a new one for this pod. *)
Lemma standard_produced_once (mission : MissionRecord) (s : MissionState) (db : DB)
    (Hs : state_of db (ms_mission_id mission) = Some (state_value s)) :
  let standards := standards_of (ms_metadata mission) in
  (is_dict (dget0 standards (pod_of mission)) = true ->
     run_phase outside (_produce_pod_group_standard now mission) db = (inr mission, db, [])) /\
  (forall m db' log, is_dict (dget0 standards (pod_of mission)) = false ->
     run_phase outside (_produce_pod_group_standard now mission) db = (inr m, db', log) ->
     quiet (ms_mission_id mission) db db' /\
     exists standards' standard, stored db' (ms_mission_id mission) "pod_group_standards" = VDict standards' /\
       standards_kept standards standards' (pod_of mission) standard).
Proof.
  cbv zeta. assert (standards_of (phase_defaults mission) = standards_of (ms_metadata mission)) as Hd.
  { unfold standards_of. by rewrite defaults_keep0. }
  unfold _produce_pod_group_standard. cbv zeta. rewrite Hd.
  split; [by intros ->|]. intros m db' log ->.
  refine (run_phase_wp outside (fun _ w' => quiet (ms_mission_id mission) db w'.1 /\ exists standards' standard,
    stored w'.1 (ms_mission_id mission) "pod_group_standards" = VDict standards' /\
    standards_kept (standards_of (ms_metadata mission)) standards' (pod_of mission) standard) _ _ _ _ _ _).
  set (id := ms_mission_id mission) in *.
  apply wp_bind, (wp_gentle outside id); [walk_phase|]. intros found w1 Hq1.
  apply wp_bind, (wp_gentle outside id); [walk_phase|]. intros v w2 Hq2. apply wp_bind, wp_pure. intros standard _.
  set (manager := standard_manager mission). set (metadata := standard_records now _ _ _ _).
  assert (dget0 metadata "pod_group_standards" = VDict (dset (standards_of (ms_metadata mission)) (pod_of mission) (VDict standard))) as Hm.
  { unfold metadata. rewrite records_keep by done. by meta_simpl. }
  clearbody metadata. apply wp_bind, (wp_gentle outside id); [apply gentle_audit|]. intros v3 w3 Hq3.
  apply wp_bind, (wp_gentle outside id); [walk_phase|]. intros audit w4 Hq4. apply wp_bind.
  eapply wp_mono; [apply wp_both|].
  { exact (wp_yields outside _ _ _ w4 (pod_audit_keeps mission metadata (pod_of mission) manager audit) (fun _ _ H => H)). }
  { exact (wp_gentle outside id (fun _ w' => quiet id w4.1 w'.1) _ w4 (gentle_pod_audit now mission metadata _ _ audit) (fun _ _ H => H)). }
  intros [[metadata' audit'] emit] w5 [Hk Hq5]. cbn [fst snd] in *.
  assert (quiet id db w5.1) as Hq by (by repeat (etrans; [eassumption|])).
  eapply wp_emitted; [by rewrite (proj1 Hq)|]. intros m' db1 Hq6 Hst.
  assert (quiet id db db1 /\ exists standards' standard, stored db1 id "pod_group_standards" = VDict standards' /\
    standards_kept (standards_of (ms_metadata mission)) standards' (pod_of mission) standard) as Hdone.
  { split; [by etrans|]. do 2 eexists. split; [by rewrite Hst, Hk, Hm|]. split; [apply dget_dset_eq|]. intros other Hne.
    by apply dget_dset_ne. }
  destruct emit; [unfold _send_delta_audit_verdict; apply wp_send|apply wp_bind, wp_ret]; apply wp_ret; exact Hdone.
Qed.
End standards.

Lemma standard_produced_once_witness :
  exists m db' log,
    run_phase coder (_produce_pod_group_standard "t" build_found) build_db = (inr m, db', log) /\
    quiet "m1" build_db db' /\
    exists standards' standard, stored db' "m1" "pod_group_standards" = VDict standards' /\
      standards_kept [] standards' "podA" standard.
Proof.
  do 3 eexists. split; [by_compute|].
  eapply (proj2 (standard_produced_once "t" coder build_found specialist_assigned build_db ltac:(by_compute))); by_compute.
Defined.
