(* ===== verification/V2.v ===== *)
(** * V2

    The v2 driver of Lifecycle with every phase as the code has it: the intake of Intake, the
    build and fusion phases of Build, the partitions of Partitions, the gates of Delivery and
    RuntimeQc, the completion check of Engines.  Nothing is assumed of the phases here: that
    they are quiet, which Lifecycle supposes of any phases, is proved of these. *)

From S2P Require Import Prelude PyVal Agents MissionStates MissionFlow Store Tasks Lifecycle Engines Routes.
From S2P Require Import Bundles Partitions Phase Delivery RuntimeQc Gates Charter Aim Port Intake Build.
From S2P Require Compliance Equivalence.

(** ** The remaining phases *)

(** The emission of partitions, on the store and the event stream of a phase. *)
Fixpoint emitting {A} (t : task emission answer exn A) : phase A :=
  match t with
  | Done r => Done r
  | Do (Act c) k => Do (Storage c) (fun r => emitting (k match r with Stored a => a | Returned _ => Finished | Failed e => Raised e end))
  | Do (Publish id payload) k =>
      Do (Call "xadd" [("mission_id", VStr id); ("payload", VDict payload)])
        (fun r => emitting (k match r with Failed e | Stored (Raised e) => Raised e | _ => Finished end))
  end.

Definition artifacts_of (v : val) : list dict := match v with VList l => omap as_dict l | _ => [] end.

(** The completion check: what it is given, and its verdict.  What raises on the trace does so
    before the artifacts are listed. *)
Definition completion_check (mission : MissionRecord) : phase (bool * dict) :=
  if completion_policy_exempt (VDict (ms_metadata mission)) then tret (true, [("policy_exempt", VBool true)])
  else
    assignment ← call "get_pod_assignment" [("mission_id", VStr (ms_mission_id mission))];
    found ← call "list_logicnodes" [("mission_id", VStr (ms_mission_id mission)); ("limit", VInt 1)];
    let nodes := match found with VList l => l | _ => [] end in
    _ ← pure (_completion_artifacts_ready (fun _ => assignment) (fun _ => nodes) (fun _ => []) mission);
    records ← (if mission_requires_build_artifact (VDict (ms_metadata mission))
               then found ← call "list_build_artifacts" [("mission_id", VStr (ms_mission_id mission)); ("limit", VInt 10)]; tret (artifacts_of found)
               else tret []);
    pure (_completion_artifacts_ready (fun _ => assignment) (fun _ => nodes) (fun _ => records) mission).

(** The artifacts and the assessment of a deployment. *)
Definition assess_readiness (now mission_id : string) (metadata : dict) : phase dict :=
  artifacts ← list_build_artifacts mission_id;
  tret (Build.build_deploy_readiness_assessment now mission_id metadata artifacts).

(** ** The phases *)

(** What the environment gives: the outside of each phase, the settings and the clock, and the
    functions of the modules that are not modelled. *)
Record env := mkEnv {
  outside : string -> asked -> string -> dict -> phase_reply;
  settings : dict;
  now : string;
  charter_uuid : string;
  uuid : nat -> string;
  extract : string -> text -> result extraction;
  sha256 : text -> string;
  sha256_16 : string -> string;
  provider : string;
  model : string;
  half : val;
  ratio : nat -> nat -> val;
  redis_ready : bool;
  validates : string -> bool;
}.

Definition v2_phases (E : env) : Phases :=
  let at_ {A} (name : string) (t : phase A) : M A := as_phase (outside E name) t in
  mkPhases
    (fun id => at_ "pm_intake" (Intake._prepare_pm_intake (settings E) (now E) (charter_uuid E) (extract E) (sha256 E) (provider E) (model E) id))
    (fun id => at_ "fetch" (Intake._prepare_fetch_phase (now E) id))
    (fun id => at_ "ceo_delegation" (Intake._prepare_ceo_delegation (settings E) (now E) id))
    (fun id => at_ "pod_assignment" (Build._prepare_pod_assignment (now E) id))
    (fun id => at_ "specialist_assignment" (Build._prepare_specialist_assignment (now E) id))
    (fun id => at_ "specialist_plan" (Build._prepare_specialist_plan (settings E) (now E) (uuid E) (extract E) (sha256 E) (provider E) (model E) (half E) id))
    (fun m => at_ "partitions" (emitting (Partitions._emit_partition_work_items (now E) (redis_ready E) (validates E) m)))
    (fun m => at_ "completion" (completion_check m))
    (fun m => at_ "equivalence" (Delivery._prepare_equivalence_report (settings E) (now E) (ratio E) m))
    (fun m => at_ "security" (Delivery._prepare_security_compliance_report (settings E) (now E) m))
    (fun m => at_ "dependency" (RuntimeQc._prepare_dependency_absorption_reports (now E) m))
    (fun m => at_ "depabs" (RuntimeQc._prepare_depabs_execution (settings E) (now E) m))
    (fun m => at_ "runtime_qc" (RuntimeQc._prepare_runtime_qc (settings E) (now E) (sha256_16 E) m))
    (fun id metadata => at_ "readiness" (assess_readiness (now E) id metadata))
    (fun m => at_ "delivery" (Delivery._prepare_delivery_summary (now E) m))
    (fun m ev => at_ "runtime" (Build._persist_runtime_phase_artifact (now E) m ev))
    (fun m => at_ "package" (RuntimeQc._ensure_verified_build_artifact (now E) m))
    (fun m => at_ "group_standard" (Build._produce_pod_group_standard (now E) m))
    (fun m => at_ "fusion" (Build._prepare_fusion (settings E) (now E) m)).

(** The flag of the control plane is one of the settings. *)
Definition control_plane (E : env) : val := dget_or (settings E) "event_driven_control_plane_enabled" (VBool false).

Definition run_v2 (E : env) (id : string) : M unit := advance_mission_lifecycle_v2 (v2_phases E) (now E) (control_plane E) id.

(** ** Its phases are quiet *)

Definition modest (c : emission) : Prop :=
  match c with Act (UpdateMetadata _ _) | Publish _ _ => True | _ => False end.

Lemma gentle_emitting {A} (t : task emission answer exn A) : issues modest t -> issues gentle (emitting t).
Proof.
  induction t as [r|c k IH]; [done|]. cbn [issues]. intros [Hc Hk].
  destruct c as [c|id payload]; cbn [emitting issues]; (split; [|intros r; apply IH, Hk]); [by destruct c|exact I].
Qed.

Lemma modest_loop validates id event ps ids : issues modest (emit_loop validates id event ps ids).
Proof.
  revert ids. induction ps as [|p ps IH]; intros ids; cbn [emit_loop]; [exact I|].
  destruct (str_in _ _); [apply IH|]. destruct (negb _); [exact I|]. split; [exact I|]. intros []; [apply IH..|exact I].
Qed.

Lemma modest_emission now redis_ready validates m :
  issues modest (Partitions._emit_partition_work_items now redis_ready validates m).
Proof.
  unfold Partitions._emit_partition_work_items. cbv zeta. destruct (Scaling.scaling_decision_from_metadata _ _) as [[d|]|]; [|exact I..].
  repeat (case_match; [exact I|]). apply issues_bind; [apply modest_loop|]. intros [ids all_sent].
  apply issues_bind; [by split|]. intros updated. exact I.
Qed.

Lemma gentle_completion mission : issues gentle (completion_check mission).
Proof. unfold completion_check. walk_phase. Qed.

Lemma gentle_readiness now id metadata : issues gentle (assess_readiness now id metadata).
Proof. unfold assess_readiness. walk_phase. Qed.

#[export] Instance v2_quiet (E : env) (id : string) : QuietPhases (v2_phases E) id.
Proof.
  split; intros.
  - apply prepare_outcome.
  - apply gentle_keeps, gentle_fetch_phase.
  - apply gentle_keeps, gentle_delegation.
  - apply gentle_keeps, gentle_pod_assignment.
  - apply gentle_keeps, gentle_specialist_assignment.
  - apply gentle_keeps, gentle_specialist_plan.
  - apply gentle_keeps, gentle_emitting, modest_emission.
  - apply gentle_keeps, gentle_completion.
  - apply gentle_keeps, gentle_equivalence.
  - apply gentle_keeps, gentle_security.
  - apply gentle_keeps, gentle_dependency.
  - apply gentle_keeps, gentle_depabs.
  - apply gentle_keeps, gentle_runtime_qc.
  - apply gentle_keeps, gentle_readiness.
  - apply gentle_keeps, gentle_summary.
  - apply gentle_keeps, gentle_runtime_artifact.
  - apply gentle_keeps, gentle_package.
  - apply gentle_keeps, gentle_standard.
  - apply gentle_keeps, gentle_fusion.
Qed.

(** The gates are those of Gates. *)
Lemma v2_gated (E : env) :
  gated (v2_phases E) (outside E) (settings E) (now E) (ratio E) (sha256_16 E) = v2_phases E.
Proof. reflexivity. Qed.

(** ** Runs to completion *)

(** The transitions into [COMPLETE] are all of them. *)
Lemma complete_run P now ctl id db db' :
  run_spec P now ctl id queued V2_TRANSITIONS db db' -> state_of db' id = Some (state_value complete) ->
  forall tr, tr ∈ V2_TRANSITIONS -> exists db1 db2,
    before_transition P now ctl id tr.1.1 tr.1.2 db1 = (Ok true, db2) /\ state_of db1 id = Some (state_value tr.1.1).
Proof.
  intros (k & hold & st & Hk & _ & Hl & Hst & Hh & Hb) Hc tr Hin. apply Hb.
  enough (take k V2_TRANSITIONS = V2_TRANSITIONS) as -> by done. rewrite Hst in Hc. injection Hc as ->.
  destruct (decide (k = length V2_TRANSITIONS)) as [->|Hne]; [apply firstn_all|]. exfalso.
  assert (k < length V2_TRANSITIONS)%nat as Hlt by lia. clear -Hl Hh Hlt. revert Hl. cbn in Hlt.
  destruct Hh as [-> | ->]; do 10 (destruct k as [|k]; [vm_compute; intuition congruence|]); lia.
Qed.

Lemma before_prepared P now ctl id s t prepare db db' :
  stage_preparers P s = Some prepare -> before_transition P now ctl id s t db = (Ok true, db') ->
  exists db1, prepare id db = (Ok true, db1).
Proof.
  intros Hp. unfold before_transition. rewrite Hp. intros H. apply St_bind_Ok in H as ([] & db1 & Hb & H); [by exists db1|done].
Qed.

Lemma on_mission_true outside id (t : MissionRecord -> phase bool) db db' :
  as_phase outside (on_mission id t) db = (Ok true, db') ->
  exists mission log, fetch_mission id db = (Ok (Some mission), db) /\ run_phase outside (on_mission id t) db = (inr true, db', log).
Proof.
  intros H. apply as_phase_Ok in H as [log H]. destruct (fetch_mission id db) as [r db1] eqn:Ef.
  assert (db1 = db) as -> by (unfold fetch_mission in Ef; case_match; by injection Ef).
  destruct r as [[mission|]|e]; [by exists mission, log|..]; exfalso; revert H; unfold run_phase, on_mission, mbind, task_bind, storage;
    cbn -[fetch_mission]; unfold db_act; cbn -[fetch_mission]; rewrite Ef; done.
Qed.

(** ** What the delivery leaves of the readiness *)

Section readiness.
Context (now : string) (k : string) (Hk : str_in k chain_keys = false).

Lemma report_keeps id context arguments r metadata :
  dr_key r <> k -> yields (fun m => dget0 m k = dget0 metadata k) (report_once now id context arguments r metadata).
Proof.
  intros Hne. unfold report_once. destruct (is_dict _); [done|]. do 2 (eapply yields_mbind; [apply yields_true|]; intros ? _).
  cbn [yields tret]. by rewrite append_keeps, dget0_dset_ne.
Qed.

Lemma reports_keep id context arguments l metadata :
  Forall (fun r => dr_key r <> k) l -> yields (fun m => dget0 m k = dget0 metadata k) (reports_once now id context arguments l metadata).
Proof.
  revert metadata. induction l as [|r l IH]; intros metadata H; cbn [reports_once]; [done|]. apply Forall_cons in H as [Hr Hl].
  eapply yields_mbind; [by apply report_keeps|]. intros m Hm. eapply yields_mono; [by apply IH|]. cbn. congruence.
Qed.

Lemma close_keeps id metadata summary :
  k <> "llm_usage_summary" -> yields (fun m => dget0 m k = dget0 metadata k) (close_delivery now id metadata summary).
Proof.
  intros Hu. unfold close_delivery. cbv zeta. set (md := if truthy _ then _ else _).
  assert (dget0 md k = dget0 metadata k) as Hm by (unfold md; case_match; [by apply append_once_keeps|done]). clearbody md.
  eapply yields_mbind; [apply yields_true|]. intros usage _. set (md' := match usage with Some _ => _ | None => _ end).
  assert (dget0 md' k = dget0 metadata k) as Hm' by (unfold md'; destruct usage; [by rewrite dget0_dset_ne|done]). clearbody md'.
  destruct (_chain_event_exists _ _); [exact Hm'|]. eapply yields_mbind; [apply yields_true|]. intros d _. cbn [yields tret].
  by rewrite append_keeps.
Qed.
End readiness.

Lemma summary_overwrites outside now mission s w :
  let id := ms_mission_id mission in
  state_of w.1 id = Some (state_value s) ->
  wp outside (fun _ w' => stored w'.1 id "deploy_readiness" = dget0 (ms_metadata mission) "deploy_readiness")
    (Delivery._prepare_delivery_summary now mission) w.
Proof.
  cbv zeta. intros Hs. unfold Delivery._prepare_delivery_summary. cbv zeta. set (id := ms_mission_id mission) in *.
  apply wp_bind, (wp_gentle outside id); [apply gentle_artifacts|]. intros artifacts w1 Hq1.
  apply wp_bind, (wp_gentle outside id); [walk_phase|]. intros made w2 Hq2.
  apply wp_bind, (wp_gentle outside id); [unfold _send_omega_handoff; walk_phase|]. intros sent w3 Hq3.
  match goal with |- wp _ _ (reports_once _ _ _ _ _ ?m ≫= _) _ => set (md := m) end.
  apply wp_bind. eapply wp_mono; [apply wp_both|].
  { refine (wp_yields outside _ _ _ w3 (reports_keep now "deploy_readiness" eq_refl id _ _ _ md _) (fun _ _ H => H)). by repeat constructor. }
  { refine (wp_gentle outside id (fun _ w' => quiet id w3.1 w'.1) _ w3 _ (fun _ _ H => H)). unfold reports_once, report_once. walk_phase. }
  intros md1 w4 [Hm1 Hq4]. cbn [fst snd] in *.
  apply wp_bind. eapply wp_mono; [apply wp_both|].
  { refine (wp_yields outside _ _ _ w4 (close_keeps now "deploy_readiness" eq_refl id _ _ _) (fun _ _ H => H)). done. }
  { refine (wp_gentle outside id (fun _ w' => quiet id w4.1 w'.1) _ w4 _ (fun _ _ H => H)). unfold close_delivery. walk_phase. }
  intros md2 w5 [Hm2 Hq5]. apply wp_bind, wp_pure. intros details _.
  apply wp_bind, (wp_gentle outside id); [apply gentle_audit|]. intros v w6 Hq6. cbn [fst snd] in *.
  unfold save_metadata. eapply wp_update.
  { assert (quiet id w.1 w6.1) as Hq by (by repeat (etrans; [eassumption|])). exact (eq_trans (proj1 Hq) Hs). }
  intros m db' _ Hst. apply wp_ret. cbn [fst]. rewrite Hst, Hm2, Hm1 by done. unfold md. meta_simpl. by rewrite defaults_keep0.
Qed.

Lemma update_keeps_state id metadata db r db' :
  update_mission_metadata id metadata db = (r, db') -> quiet id db db'.
Proof. intros H. pose proof (keeps_update id id metadata db) as Hq. by rewrite H in Hq. Qed.

Lemma delivered_readiness E id mission m db db' :
  fetch_mission id db = (Ok (Some m), db) -> ms_mission_id m = id -> deliver (v2_phases E) (now E) id mission db = (Ok true, db') ->
  stored db' id "deploy_readiness" = dget0 (ms_metadata m) "deploy_readiness".
Proof.
  intros Hf Hid. unfold deliver. intros H. apply St_bind_Ok in H as (found & db1 & Hf1 & H). rewrite Hf in Hf1. injection Hf1 as <- <-.
  cbn [default from_option Datatypes.id] in H. apply St_bind_Ok in H as (report & db2 & Hr & H). cbv zeta in H.
  apply St_bind_Ok in H as (u & db3 & Hu & H). apply St_bind_Ok in H as (m' & db4 & Hs & H). injection H as <-.
  pose proof (fetched_state _ _ _ Hf) as Hst. pose proof (quiet_readiness (P := v2_phases E) (id := id) id (chain_defaults m) db) as Hq.
  rewrite Hr in Hq. apply update_keeps_state in Hu. cbn [snd] in Hq.
  assert (state_of db3 id = Some (state_value (ms_state m))) as Hst3 by (rewrite (proj1 Hu), (proj1 Hq); exact Hst).
  apply as_phase_Ok in Hs as [log Hs]. rewrite <- Hid in Hst3 |- *.
  exact (run_phase_wp _ _ _ _ _ _ _ (summary_overwrites (outside E "delivery") (now E) m (ms_state m) (db3, []) Hst3) Hs).
Qed.

(** ** A run *)

Definition sorting : MissionRecord :=
  mkMission "m1" "Sort the lines of the file the user names and print them" (Some "python") None None None None [] None None queued "t0".

Definition sorting_db : DB := (persist_intake_mission sorting "1-0" empty_db).2.

(** Models that answer, a knowledge lake that is stocked, an artifact store that has the package. *)
Definition team (phase_name : string) (log : asked) (callee : string) (arguments : dict) : phase_reply :=
  if String.eqb callee "generate_pm_feature_contract" then
    Returned (VDict [("summary", VStr "Sort the lines of a file"); ("functional_requirements", VList [VStr "sort"]); ("ambiguity_score", VInt 10)])
  else if String.eqb callee "run_fetch_phase" then
    Returned (VDict [("indexed_languages", VList [VStr "python"]); ("skipped_languages", VList []); ("errors", VList []); ("knowledge_ready", VBool true)])
  else if String.eqb callee "generate_mission_contract" then Returned (VDict [("goal", VStr "sort")])
  else if String.eqb callee "list_build_artifacts" then
    Returned (VList [VDict [("artifact_type", VStr "generated_code"); ("artifact_id", VStr "a1"); ("status", VStr "SUCCESS"); ("digest_sha256", VStr "d1");
                            ("verification", VDict [("verified", VBool true)]); ("manifest", VDict [("filename", VStr "sort.py")])]])
  else if String.eqb callee "generate_pm_delivery_summary" then Returned (VDict [("delivery_title", VStr "sort")])
  else if String.eqb callee "mission_requires_dependency_absorption" then Returned (VBool false)
  else coder log callee arguments.

Definition studio : env :=
  mkEnv team [] "t" "u" (fun _ => "u") found_sorting (fun _ => "h") (fun t => t) "p" "m" (VStr "0.5") Equivalence.demo_ratio true (fun _ => true).

Definition sorted_db : DB := (run_v2 studio "m1" sorting_db).2.

(** ** Properties *)

(** The v2 driver, with its own phases and nothing assumed of them: a run makes some number
    of the pending transitions in order, each after its preparer and gates agreed in the
    expected state, then stops, possibly on the clarification hold, and the log has precisely
    these moves. *)
Lemma v2_follows_table (E : env) (id : string) (db : DB) (s : MissionState) (Hs : state_of db id = Some (state_value s)) :
  run_spec (v2_phases E) (now E) (control_plane E) id s (pending_from s V2_TRANSITIONS) db (run_v2 E id db).2.
Proof.
  unfold run_v2. rewrite (advance_drive _ _ _ _ _ s Hs). apply (drive_spec _ _ _ _ _ _ _ (pending_chained s) Hs).
Qed.

Lemma v2_follows_table_witness :
  state_of sorting_db "m1" = Some (state_value queued) /\ moves "m1" sorted_db = moves "m1" sorting_db ++ (tr_move <$> V2_TRANSITIONS) /\
  run_spec (v2_phases studio) "t" (control_plane studio) "m1" queued V2_TRANSITIONS sorting_db (run_v2 studio "m1" sorting_db).2.
Proof. split; [by_compute|]. split; [by_compute|]. apply (v2_follows_table studio "m1" sorting_db queued). by_compute. Defined.



(** The deployment assessment does not outlive the delivery that makes it: the delivery
    summary is written from the mission as it was read before, so afterwards the store has
    the assessment the mission had before this delivery, if any. *)
Lemma readiness_overwritten (E : env) (id : string) (mission found : MissionRecord) (db db' : DB)
    (Hf : fetch_mission id db = (Ok (Some found), db)) (Hid : ms_mission_id found = id)
    (Hrun : deliver (v2_phases E) (now E) id mission db = (Ok true, db')) :
  stored db' id "deploy_readiness" = dget0 (ms_metadata found) "deploy_readiness".
Proof. exact (delivered_readiness E id mission found db db' Hf Hid Hrun). Qed.

Definition gate_found : MissionRecord :=
  default gate_mission (match (fetch_mission "m1" gate_db).1 with Ok o => o | Raise _ => None end).

Lemma readiness_overwritten_witness :
  exists db', deliver (v2_phases studio) "t" "m1" gate_mission gate_db = (Ok true, db') /\
    stored db' "m1" "delivery_summary" = VDict [("delivery_title", VStr "sort")] /\ stored db' "m1" "deploy_readiness" = VNone.
Proof.
  eexists. split; [by_compute|]. split; [by_compute|].
  refine (eq_trans (readiness_overwritten studio "m1" gate_mission gate_found gate_db _ _ _ _) _); by_compute.
Defined.

(** ** The mode of a posted mission *)

(** The mission of [sorting], posted to the orchestrator to be analysed only. *)
Definition posted : MissionRecord :=
  posted_record "t0" "v2"
    {| oc_mission_id := "m1"; oc_prompt := ms_prompt sorting; oc_language := Some "python"; oc_mission_type := None; oc_depth_mode := None;
       oc_output_mode := Some "ANALYZE_ONLY"; oc_data_classification := None; oc_metadata := []; oc_project_id := None; oc_created_at := None |}.

Definition posted_db : DB := (upsert_mission posted None empty_db).2.

(** A mission posted to the orchestrator to be analysed only keeps that mode in its record,
    and is built all the same: the phases look for the mode where a post does not put it. *)
Lemma posted_mode_ignored :
  (exists m, fetch_mission "m1" posted_db = (Ok (Some m), posted_db) /\ ms_output_mode m = Some "ANALYZE_ONLY") /\
  state_of (run_v2 studio "m1" posted_db).2 "m1" = Some (state_value complete) /\
  mission_has_generated_output (VDict [("generated_output", stored (run_v2 studio "m1" posted_db).2 "m1" "generated_output")]) = true.
Proof. split; [eexists; split; by_compute|]. split; by_compute. Qed.
